(* ===== verification/_CoqProject ===== *)
-Q . S2P
Prelude.v
GoStd.v
GoTime.v
ProtoEnums.v
Protos.v
Identity.v
Flatbuffers.v
FbRef.v
Messages.v
FbElements.v
ProtoRef.v
GoFloat.v
Logger.v
Airbrake.v
GoJson.v
Telemetry.v
SimpleLogger.v
Datastores.v
Mqtt.v
Metrics.v
Config.v
Streaming.v
Server.v
SocketLifecycle.v
SocketWriter.v
Delivery.v
MetricUpdates.v
Monitoring.v
Usage.v
Adapters.v
Startup.v
System.v
Producers.v
EndToEnd.v
Lifecycle.v
ControlPlane.v
Tools.v
