(* ===== verification/Prelude.v ===== *)
(** * Fleet telemetry: a verification library

    The server under src/ receives telemetry from vehicles over mTLS
    websockets.  A vehicle is identified by its client certificate; each binary
    message it sends is a FlatBuffers envelope around a protobuf payload; the
    server turns it into a record, rewrites the payload, hands the record to
    the producers configured for its topic and answers the vehicle, at once or
    when a datastore has acknowledged the record.  This library models that
    path in Rocq, from the certificate to the answer, with the configuration
    that directs it, and proves what makes it correct.

    ** The files, and the code they model

    - [Prelude] (this file): bytes and strings, fixed-width integers, errors,
      panics, and the state monad [go] whose computations may panic.
    - [GoStd], [GoTime], [GoFloat], [GoJson]: the parts of Go's standard library
      the program calls: [strings] and [strconv] on byte strings; the calendar
      and the RFC 3339 text of a time; [strconv.ParseFloat], [%.5f], the
      [fmt.Sscanf] of locations and the scientific-notation expression;
      [json.Marshal] of dynamic values.
    - [ProtoEnums], [Protos]: src/protos/*.pb.go, the enumerations with their
      name and value maps, and the messages with the getters that are called.
      The protobuf runtime is the interface [ProtoCodec] (its laws are
      [ProtoCodecSpec]); [ProtoRef] is a concrete runtime.
    - [Identity]: src/messages/identity.go.
    - [Flatbuffers]: src/messages/tesla/, the generated accessors and builders
      over the interface [FlatbuffersLib] of the FlatBuffers runtime, whose laws
      [FlatbuffersSpec] describe a builder as a heap of finished objects;
      [FbRef] is a concrete runtime.
    - [Messages]: src/messages/stream_message.go, stream_ack_message.go.
    - [FbElements]: the rest of the generated tables: element accessors,
      lengths, mutators in place and vector builders, over the further
      interface [FlatbuffersElements] with its laws [FlatbuffersElementsSpec];
      [FbRefElements] extends [FbRef] to it.
    - [Logger]: src/logger/logger.go, as the entries that reach logrus.
      [Airbrake]: src/server/airbrake, as the notices that reach Airbrake.
    - [Telemetry]: src/telemetry/, the record ([TRecord] is the source's
      [Record]), its payload transformations, the serializer, and the events a
      call emits: log lines, metrics, notices, records handed to producers.
    - [Config]: src/config/, loading and validation of the configuration, the
      reliable-acknowledgement sources, the producers and the dispatch rules.
    - [Streaming]: src/server/streaming/socket.go, the socket manager and its
      read loop over the interface [RateLimiter].
    - [Server]: src/server/streaming/server.go and socket_registry.go, with a
      heap of socket managers shared between the registry and the connections.
    - [SocketLifecycle]: the goroutines of a socket (reader, writer and the
      server's acknowledgement goroutine) as a step relation over the bounded
      channel that joins them.  [SocketWriter]: the code of the writer, its
      deadlines and its loop, as a refinement of the writer's steps there.
    - [SimpleLogger]: src/datastore/simple/, the producer that logs records, and
      its transformers.
    - [Datastores]: src/datastore/kafka, kinesis, googlepubsub, redis and zmq, a
      Module each; what every producer promises the server is the class
      [AckingProducer] with its law [AckingProducerSpec], which each of them
      implements.
    - [Mqtt]: src/datastore/mqtt/, the topics, the JSON values and the tokens.
    - [Delivery]: the composition of the producers of a dispatch rule, the
      acknowledgement sources of the configuration and the acknowledgement
      goroutine, for any producers of the class.
    - [Metrics]: src/metrics/ and the metrics every package registers; the
      Prometheus client is the interface [PrometheusClient].  [MetricUpdates]:
      the updates of the producers and sockets against those registrations.
      [Adapters]: src/metrics/adapter/, the methods of the three kinds of
      metrics.  [Usage]: the statistics of the Go runtime that metrics.go
      reports, and the servers of src/server/monitoring/metrics_server.go.
    - [Monitoring]: src/server/middleware, src/server/airbrake's middleware, the
      status page and the profiler's switch.
    - [Startup]: how the commands of src/cmd/ configure themselves: the TLS
      configurations of src/config/config.go and the options of its clients, the
      server's certificate (src/server/certificates/acme.go), the control plane
      and the health check.
    - [System]: the process, as the list of what it did, its metrics and its
      standard logger.  [Producers]: [ConfigureProducers] of config.go over it,
      with the constructors of [Datastores], [Mqtt] and [SimpleLogger].
      [EndToEnd]: the configured producers composed with [Delivery].
      [Lifecycle]: src/cmd/main.go and the loading of the configuration, from
      the flags to the exit code.
    - [ControlPlane]: src/cmd/controlplane/main.go, its probe of the server's
      certificate and its process.
    - [Tools]: src/tools/, the tool that makes certificates, over a file system.

    A call goes from [Server.ServeBinaryWs] to [Identity], then to
    [Streaming.ProcessTelemetry], which for each frame calls
    [Telemetry.NewRecord] (which calls [Messages], [Flatbuffers] and [Protos]),
    [Telemetry.Dispatch] and [respondToVehicle]; each producer a record is
    dispatched to runs its [Produce], and what it sends on the acknowledgement
    channel reaches [Server.handleAcks], which answers for the datastores.  A
    client of a datastore is a function from the requests made so far and the
    next request to its answer, so the theorems hold for every behaviour.
    Around that, [Lifecycle.run] loads the configuration ([Config]), makes the
    collector ([Metrics]), the TLS configuration ([Startup]) and the producers
    ([Producers]), starts the servers and closes what it made; the machine it
    runs on is a record of the answers it gets ([Machine], [Clients]).

    ** How the code is represented

    A Go string or byte slice is a byte string; an [int64], [uint32] or
    [uint64] is an integer with its wrap-around written out where the code can
    reach it; a pointer that may be nil is an [option]; a [(value, error)] pair
    is a [result], or a value with an [option] of an error where both are used;
    a panic is [Panic], and what a function that recovers returns keeps the
    effects made before the panic.  A method that changes its receiver returns
    the new one.  Time, fresh UUIDs, files and the environment are arguments:
    each reading of the clock is one of them.  A Go map is a [gmap]; where the
    result of the code depends on the order in which a map is iterated, the
    order is an argument and the theorems hold for every one.

    ** What is shown

    - From bytes to records: encoding and decoding of both messages are inverse
      ([Messages]); a record that is accepted belongs to the device of the
      certificate, in the record, in the message and in its encoded payload;
      every other outcome of the deserializer; the two answers decode to what
      they name ([Telemetry]).
    - Payload transformations: numbers leave scientific notation, the first
      location string is parsed with the right signs, numbers of milliseconds
      become timestamps of the same instant, and nothing else changes; which
      texts and timestamps are left out is part of the theorems ([Telemetry],
      [GoFloat]).
    - A connection: what each message is answered with and who receives it, on
      every branch, and from it the behaviour of the whole read loop with rate
      limiting, as a specification ([Streaming]: [answers], [handed], [served])
      the code refines.
    - The server: the registry as an invariant of all runs, acknowledgements
      routed to the right socket, connectivity events, and a registry restored
      after every connection, panics included ([Server]).
    - Concurrency: in all interleavings answers are written in order; none is
      lost while the writer runs, and when it ends at most one and the content
      of the channel; a running writer makes progress; a dead one can block its
      senders for ever ([SocketLifecycle]); every run of the writer's code is a
      run of those steps, whatever the connection answers ([SocketWriter]).
    - Configuration: loaded configurations are valid; environment over file
      over defaults; reliable-acknowledgement sources and dispatch rules as
      declared, for every iteration order ([Config]); the server always requires
      client certificates, ACME options are complete or refused ([Startup]).
    - Datastores: what each producer sends its client and when it acknowledges,
      as a law all of them satisfy ([Datastores], [Mqtt], [Delivery]); what is
      logged and published of a payload ([SimpleLogger], [Mqtt]).
    - Metrics: registration never panics, and every update fits a registered
      metric ([Metrics], [MetricUpdates]) and succeeds in every collector
      ([Adapters]); what the usage reporter sets, and when it divides by zero
      ([Usage]); the middleware as written never reports to Airbrake
      ([Monitoring]).
    - The process: the producers a configuration gives, refining the abstract
      rules of [Config] ([Producers]), and with them the acknowledgement of a
      record as the configuration declares it ([EndToEnd]); what the server does from its start to its
      end, case by case of what can fail, and that it releases what it took,
      panics included ([Lifecycle]); the control plane is healthy exactly when the endpoint's certificate verifies
      ([ControlPlane]).
    - The certificate tool: every requested certificate has its files, with the
      identity the server gives it, whole unless an error the tool drops cut them
      short ([Tools]).
    - Generated tables: the maps of all enumerations are inverse ([ProtoEnums]);
      a generated mutator changes the bytes of its own element and nothing else
      of the message ([FbElements]).
    - Identities: the sender id of a certificate parses back to its parts, and
      the first relevant OID decides ([Identity]).

    ** Fuel and bounds

    The only fuel is in scanners that remove at least one byte a round
    ([trim_left], [SkipSpace_loop], [spaces_loop]): the length of the input is
    enough.  The shortest decimal of a float is searched with fuel 800
    ([shortest], [trim_zeros]): a [float64] has at most 767 significant digits,
    and an exact one ends the search.  A FlatBuffers builder is relied on up to 2^30 bytes ([fb_capacity],
    half of the size at which the runtime panics); the round trips ask that a
    message fits ([message_fits], [ack_fits], [response_fits]).  The channel
    of a socket holds 1000 messages ([writeChan_capacity]); the theorems on it hold for every capacity.

    ** What is not modelled, and why

    The protobuf, FlatBuffers, UUID, rate-limiter, logrus and websocket
    packages, the clients of the datastores and of the metric systems are not
    part of src/, nor are certmagic, X.509 and the TLS handshake: what the code
    relies on is an interface or an argument.  The network, files, signals and
    the HTTP multiplexer are input and output: answers of the machine, and
    actions of the process.  In [Telemetry] a dispatch rule holds names of
    producers that are not nil; [Config] and [Producers] show for which
    configurations that is so.  The decoding of the JSON configuration is the
    standard library's, on the tags of the structs.  Of the generated code, the
    protobuf methods and messages (vehicle_metric.pb.go) that nothing calls are
    left out: they are plumbing of the protobuf runtime. *)

From Stdlib Require Export ZArith Lia String Ascii Strings.Byte SpecFloat.
From stdpp Require Export base gmap sets list strings pretty.

#[global] Arguments Ascii.eqb : simpl never.
#[global] Arguments String.eqb : simpl never.

(** ** Bytes, strings and machine integers

    A Go [string] is a byte string: it is a [string] here, whose characters
    are its bytes.  A Go [[]byte] is a list of bytes; the conversions
    [string(b)] and [[]byte(s)] of the source are [str] and [raw]. *)

Abbreviation bytes := (list Byte.byte).

Definition str (b : bytes) : string := string_of_list_byte b.
Definition raw (s : string) : bytes := list_byte_of_string s.

Lemma str_raw s : str (raw s) = s.
Proof. apply string_of_list_byte_of_string. Qed.

Lemma raw_str b : raw (str b) = b.
Proof. apply list_byte_of_string_of_list_byte. Qed.

#[export] Instance str_inj : Inj (=) (=) str.
Proof. intros a b H. rewrite <- (raw_str a), <- (raw_str b). by rewrite H. Qed.

#[export] Instance raw_inj : Inj (=) (=) raw.
Proof. intros a b H. rewrite <- (str_raw a), <- (str_raw b). by rewrite H. Qed.

#[export] Instance byte_eq_dec : EqDecision Byte.byte.
Proof. exact Byte.byte_eq_dec. Defined.

#[export] Instance spec_float_eq_dec : EqDecision spec_float.
Proof. solve_decision. Defined.

#[export] Program Instance byte_countable : Countable Byte.byte :=
  inj_countable Byte.to_N Byte.of_N _.
Next Obligation. apply Byte.of_to_N. Qed.

(** Wrap-around of the fixed-width integers the code uses.  [int] is 64 bits
    wide on every platform the program is built for. *)
Definition u8 (z : Z) : Z := z mod 2 ^ 8.
Definition u32 (z : Z) : Z := z mod 2 ^ 32.
Definition u64 (z : Z) : Z := z mod 2 ^ 64.
Definition i64 (z : Z) : Z := (z + 2 ^ 63) mod 2 ^ 64 - 2 ^ 63.

Definition int64_min : Z := - 2 ^ 63.
Definition int64_max : Z := 2 ^ 63 - 1.
Definition is_int64 (z : Z) : bool := (int64_min <=? z)%Z && (z <=? int64_max)%Z.

Lemma u32_small z : (0 <= z < 2 ^ 32)%Z -> u32 z = z.
Proof. intros. by apply Z.mod_small. Qed.

Lemma u64_small z : (0 <= z < 2 ^ 64)%Z -> u64 z = z.
Proof. intros. by apply Z.mod_small. Qed.

Lemma i64_small z : (- 2 ^ 63 <= z < 2 ^ 63)%Z -> i64 z = z.
Proof. intros. unfold i64. rewrite Z.mod_small; lia. Qed.

Lemma i64_range z : (- 2 ^ 63 <= i64 z < 2 ^ 63)%Z.
Proof. unfold i64. pose proof (Z.mod_pos_bound (z + 2 ^ 63) (2 ^ 64)). lia. Qed.

(** ** Errors and panics

    [GoError] is the [error] interface's values: the sentinel errors and error
    structs of the source are constructors (the code compares them by identity
    or by type switch), every error built by [errors.New] and [fmt.Errorf] is
    an [ErrorString]. *)
Inductive GoError : Type :=
| ErrMessageTooBig
| ErrUnauthorizedCert
| ErrExcludedCert
| UnauthorizedSenderIDError (ExpectedSenderID ReceivedSenderID : string)
| UnknownMessageType (Bytes : bytes) (Txid : string) (GuessedType : Z)
| ErrorString (msg : string).

#[export] Instance GoError_eq_dec : EqDecision GoError.
Proof. solve_decision. Defined.

(** A computation that may panic, with the text of the panic value. *)
Inductive outcome (A : Type) : Type :=
| Ret (a : A)
| Panic (why : string).
Arguments Ret {A} a.
Arguments Panic {A} why.

(** A [(value, error)] pair of which exactly one half is meaningful. *)
Inductive result (A : Type) : Type :=
| Ok (a : A)
| Err (e : GoError).
Arguments Ok {A} a.
Arguments Err {A} e.

#[export] Instance outcome_ret : MRet outcome := @Ret.
#[export] Instance outcome_bind : MBind outcome := fun _ _ f m =>
  match m with Ret a => f a | Panic w => Panic w end.
#[export] Instance outcome_fmap : FMap outcome := fun _ _ f m =>
  match m with Ret a => Ret (f a) | Panic w => Panic w end.
#[export] Instance result_ret : MRet result := @Ok.
#[export] Instance result_fmap : FMap result := fun _ _ f m =>
  match m with Ok a => Ok (f a) | Err e => Err e end.
#[export] Instance result_bind : MBind result := fun _ _ f m =>
  match m with Ok a => f a | Err e => Err e end.

#[export] Instance outcome_eq_dec `{EqDecision A} : EqDecision (outcome A).
Proof. solve_decision. Defined.
#[export] Instance result_eq_dec `{EqDecision A} : EqDecision (result A).
Proof. solve_decision. Defined.

Definition is_ok {A} (r : result A) : bool :=
  match r with Ok _ => true | Err _ => false end.

(** ** Stateful code

    [go S A]: a computation on a state [S] that returns a value or panics; the
    state reached is kept in both cases, since the effects of a call that
    panics stay visible to the callers that recover. *)
Definition go (S A : Type) : Type := S -> outcome A * S.

#[export] Instance go_ret {S} : MRet (go S) := fun _ a s => (Ret a, s).
#[export] Instance go_bind {S} : MBind (go S) := fun _ _ f m s =>
  match m s with
  | (Ret a, s') => f a s'
  | (Panic w, s') => (Panic w, s')
  end.

Definition get {S} : go S S := fun s => (Ret s, s).
Definition modify {S} (f : S -> S) : go S () := fun s => (Ret (), f s).
Definition lift {S A} (o : outcome A) : go S A := fun s => (o, s).
Definition skip {S} : go S () := mret ().
Definition nil_dereference {S A} : go S A := lift (Panic "nil pointer dereference").

(** [for _, x := range l { f x }] *)
Fixpoint for_range {S A} (f : A -> go S ()) (l : list A) : go S () :=
  match l with
  | [] => skip
  | x :: l' => f x ;; for_range f l'
  end.
