(* ===== verification/GoStd.v ===== *)
(** * The parts of Go's standard library the program uses

    [strings], [strconv] (integers) and [fmt] verbs on strings and integers,
    on byte strings. *)

From S2P Require Import Prelude.
From Stdlib Require Import DecimalString DecimalZ DecimalFacts.

Local Open Scope string_scope.

Module strings.

Definition HasPrefix (s p : string) : bool := String.prefix p s.
Definition HasSuffix (s p : string) : bool :=
  (String.length p <=? String.length s)%nat &&
  String.eqb (substring (String.length s - String.length p) (String.length p) s) p.

(** [strings.Contains]: some suffix of [s] starts with [sub]. *)
Fixpoint Contains (s sub : string) : bool :=
  String.prefix sub s ||
  match s with
  | EmptyString => false
  | String _ s' => Contains s' sub
  end.

(** [strings.ReplaceAll] for a one-byte pattern, the only one used. *)
Fixpoint ReplaceAll1 (s : string) (old : ascii) (new : string) : string :=
  match s with
  | EmptyString => EmptyString
  | String c s' =>
      if Ascii.eqb c old then new +:+ ReplaceAll1 s' old new
      else String c (ReplaceAll1 s' old new)
  end.

(** The text before and after the first occurrence of a one-byte separator. *)
Fixpoint cut (s : string) (sep : ascii) : option (string * string) :=
  match s with
  | EmptyString => None
  | String c s' =>
      if Ascii.eqb c sep then Some (EmptyString, s')
      else match cut s' sep with
           | Some (a, b) => Some (String c a, b)
           | None => None
           end
  end.

(** [strings.SplitN(s, sep, 2)] for a one-byte separator. *)
Definition SplitN2 (s : string) (sep : ascii) : list string :=
  match cut s sep with
  | Some (a, b) => [a; b]
  | None => [s]
  end.

(** The whitespace sequences of [unicode.IsSpace] in UTF-8. *)
Definition b1 (a : nat) : string := String (ascii_of_nat a) EmptyString.
Definition b2 (a b : nat) : string := String (ascii_of_nat a) (b1 b).
Definition b3 (a b c : nat) : string := String (ascii_of_nat a) (b2 b c).
Definition spaces : list string :=
  [b1 9; b1 10; b1 11; b1 12; b1 13; b1 32; b2 194 133; b2 194 160;
   b3 225 154 128; b3 226 128 168; b3 226 128 169; b3 226 128 175;
   b3 226 129 159; b3 227 128 128] ++
  map (fun i => b3 226 128 (128 + i)%nat) (seq 0 11).

Definition strip_prefix (p s : string) : option string :=
  if String.prefix p s
  then Some (String.substring (String.length p) (String.length s - String.length p) s)
  else None.

Fixpoint strip_any (ps : list string) (s : string) : option string :=
  match ps with
  | [] => None
  | p :: ps' => match strip_prefix p s with
                | Some r => Some r
                | None => strip_any ps' s
                end
  end.

(** Strip leading members of [ps]; each round removes at least one byte, so
    the length of the string is enough fuel. *)
Fixpoint trim_left (fuel : nat) (ps : list string) (s : string) : string :=
  match fuel with
  | O => s
  | S n => match strip_any ps s with
           | Some r => trim_left n ps r
           | None => s
           end
  end.

Definition rev (s : string) : string :=
  string_of_list_ascii (List.rev (list_ascii_of_string s)).

Definition TrimSpace (s : string) : string :=
  let l := trim_left (String.length s) spaces s in
  rev (trim_left (String.length l) (map rev spaces) (rev l)).

(** [strings.ToUpper] on ASCII text. *)
Fixpoint ToUpper (s : string) : string :=
  match s with
  | EmptyString => EmptyString
  | String c s' =>
      let n := nat_of_ascii c in
      String (if (97 <=? n)%nat && (n <=? 122)%nat then ascii_of_nat (n - 32) else c) (ToUpper s')
  end.

End strings.

Module strconv.

Definition Itoa (z : Z) : string := NilZero.string_of_int (Z.to_int z).

(** The value of a non-empty string of decimal digits. *)
Definition digits (s : string) : option Z :=
  match NilZero.uint_of_string s with
  | Some u => Some (Z.of_uint u)
  | None => None
  end.

(** [strconv.Atoi]: an optional sign, then decimal digits, in the range of a
    64-bit [int]. *)
Definition Atoi (s : string) : option Z :=
  let v := match s with
           | String "+" s' => digits s'
           | String "-" s' => Z.opp <$> digits s'
           | _ => digits s
           end in
  match v with
  | Some z => if is_int64 z then Some z else None
  | None => None
  end.

(** Why [Atoi] fails: the digits overflow 64 bits before the first byte that
    is not one, or the whole is well formed but out of range; or it is not a
    number. *)
Fixpoint Atoi_error_digits (s : string) (acc : Z) : string :=
  match s with
  | EmptyString => "value out of range"
  | String c s' =>
      let d := (Z.of_nat (nat_of_ascii c) - 48)%Z in
      if ((d <? 0) || (9 <? d))%Z then "invalid syntax"
      else if (2 ^ 64 <=? acc * 10 + d)%Z then "value out of range"
      else Atoi_error_digits s' (acc * 10 + d)%Z
  end.
Definition Atoi_error (s : string) : string :=
  let body := match s with
              | String "+" s' | String "-" s' => s'
              | _ => s
              end in
  match body with
  | EmptyString => "invalid syntax"
  | _ => Atoi_error_digits body 0
  end.

(** [strconv.ParseBool]. *)
Definition ParseBool (s : string) : option bool :=
  if existsb (String.eqb s) ["1"; "t"; "T"; "true"; "TRUE"; "True"] then Some true
  else if existsb (String.eqb s) ["0"; "f"; "F"; "false"; "FALSE"; "False"] then Some false
  else None.

End strconv.

(** [(e error).Error()], with the methods of telemetry/errors.go. *)
Definition Error_String (e : GoError) : string :=
  match e with
  | ErrMessageTooBig => "can't process message, size above 1mb"
  | ErrUnauthorizedCert => "unauthorized certificate"
  | ErrExcludedCert => "excluded certificate"
  | UnauthorizedSenderIDError expected received =>
      "Sender ID mismatch " +:+ expected +:+ " - " +:+ received
  | UnknownMessageType _ txid guessed =>
      "Unknown message Type for " +:+ txid +:+ " - " +:+ strconv.Itoa guessed
  | ErrorString msg => msg
  end.

(** ** Lemmas *)

(** [occurs c s]: the byte [c] is one of the bytes of [s]. *)
Fixpoint occurs (c : ascii) (s : string) : bool :=
  match s with
  | EmptyString => false
  | String a s' => Ascii.eqb a c || occurs c s'
  end.

Lemma occurs_app c a b : occurs c (a +:+ b) = occurs c a || occurs c b.
Proof.
  induction a as [|x a IH]; simpl; [done|].
  by rewrite IH, orb_assoc.
Qed.

Lemma occurs_ReplaceAll1 old new s :
  occurs old new = false -> occurs old (strings.ReplaceAll1 s old new) = false.
Proof.
  intros Hn. induction s as [|x s IH]; cbn; [done|].
  destruct (Ascii.eqb x old) eqn:E; cbn.
  - by rewrite occurs_app, Hn, IH.
  - by rewrite E, IH.
Qed.

Lemma ReplaceAll1_id old new s :
  occurs old s = false -> strings.ReplaceAll1 s old new = s.
Proof.
  induction s as [|x s IH]; cbn; [done|].
  intros [E H]%orb_false_elim. by rewrite E, IH.
Qed.

Lemma cut_app a sep b :
  occurs sep a = false -> strings.cut (a +:+ String sep b) sep = Some (a, b).
Proof.
  induction a as [|x a IH]; simpl.
  - intros _. by rewrite Ascii.eqb_refl.
  - intros [E H]%orb_false_elim. by rewrite E, IH.
Qed.

Lemma cut_none s sep : occurs sep s = false -> strings.cut s sep = None.
Proof.
  induction s as [|x s IH]; cbn; [done|].
  intros [E H]%orb_false_elim. by rewrite E, IH.
Qed.

Create HintDb gostr.
Create Rewrite HintDb gostr.
#[export] Hint Resolve occurs_ReplaceAll1 cut_app cut_none : gostr.
#[export] Hint Rewrite occurs_app : gostr.
