(* ===== verification/GoTime.v ===== *)
(** * Instants and their RFC 3339 text (package [time])

    A [time.Time] without a monotonic reading: the seconds since the start of
    year 1 (an [int64] of the source) and the nanoseconds within the second.
    The calendar is the proleptic Gregorian one, as in the package, for every
    day the seconds can name. *)

From S2P Require Import Prelude GoStd.
Local Open Scope Z_scope.

Record GoTime := mkGoTime { t_sec : Z; t_nsec : Z }.

#[export] Instance GoTime_eq_dec : EqDecision GoTime.
Proof. solve_decision. Defined.

Module time.

Definition unixToInternal : Z := 62135596800.
Definition secondsPerDay : Z := 86400.

(** [time.Unix(sec, nsec)]: nanoseconds outside the second carry. *)
Definition Unix (sec nsec : Z) : GoTime :=
  let carry := if (nsec <? 0) || (10 ^ 9 <=? nsec) then nsec / 10 ^ 9 else 0 in
  mkGoTime (i64 (i64 (sec + carry) + unixToInternal)) (nsec - carry * 10 ^ 9).

(** [t.Unix()] *)
Definition UnixSeconds (t : GoTime) : Z := i64 (t_sec t - unixToInternal).

(** [t.After(u)] *)
Definition After (t u : GoTime) : bool :=
  (t_sec u <? t_sec t) || ((t_sec t =? t_sec u) && (t_nsec u <? t_nsec t)).

(** ** The calendar *)

Definition is_leap (year : Z) : bool :=
  (year mod 4 =? 0) && (negb (year mod 100 =? 0) || (year mod 400 =? 0)).

(** Days before each month of a year. *)
Definition month_starts (leap : bool) : list Z :=
  if leap then [0; 31; 60; 91; 121; 152; 182; 213; 244; 274; 305; 335]
  else [0; 31; 59; 90; 120; 151; 181; 212; 243; 273; 304; 334].

(** The year and the day in it of a day counted from the start of year 1. *)
Definition year_yday (day : Z) : Z * Z :=
  let n400 := day / 146097 in
  let d := day mod 146097 in
  let n100 := d / 36524 - d / 36524 / 4 in
  let d := d - 36524 * n100 in
  let n4 := d / 1461 in
  let d := d - 1461 * n4 in
  let n1 := d / 365 - d / 365 / 4 in
  (400 * n400 + 100 * n100 + 4 * n4 + n1 + 1, d - 365 * n1).

(** The last month that starts by a day of the year, and the day in it. *)
Fixpoint month_day (starts : list Z) (month yday : Z) : Z * Z :=
  match starts with
  | s :: (s' :: _) as rest => if s' <=? yday then month_day rest (month + 1) yday
                              else (month, yday - s + 1)
  | [s] => (month, yday - s + 1)
  | [] => (month, yday)
  end.

(** [t.Date()] of a UTC time. *)
Definition Date (t : GoTime) : Z * Z * Z :=
  let '(year, yday) := year_yday (t_sec t / secondsPerDay) in
  let '(month, day) := month_day (month_starts (is_leap year)) 1 yday in
  (year, month, day).

(** [t.Clock()] of a UTC time. *)
Definition Clock (t : GoTime) : Z * Z * Z :=
  let s := t_sec t mod secondsPerDay in (s / 3600, s mod 3600 / 60, s mod 60).

(** The package's [appendInt]: the digits padded on the left with zeros after
    the sign. *)
Fixpoint zeros (n : nat) : string :=
  match n with O => EmptyString | S n => String "0" (zeros n) end.

Definition appendInt (x : Z) (width : nat) : string :=
  let digits := strconv.Itoa (Z.abs x) in
  (if x <? 0 then "-"%string else EmptyString) +:+ zeros (width - String.length digits) +:+ digits.

(** [t.Format(time.RFC3339)] of a UTC time. *)
Definition Format_RFC3339 (t : GoTime) : string :=
  let '(year, month, day) := Date t in
  let '(hour, min, sec) := Clock t in
  (appendInt year 4 +:+ "-" +:+ appendInt month 2 +:+ "-" +:+ appendInt day 2 +:+ "T" +:+
   appendInt hour 2 +:+ ":" +:+ appendInt min 2 +:+ ":" +:+ appendInt sec 2 +:+ "Z")%string.

(** The day of a date: the inverse of [Date]. *)
Definition days_before_year (year : Z) : Z :=
  let y := year - 1 in 365 * y + y / 4 - y / 100 + y / 400.

Definition day_of_date (year month day : Z) : Z :=
  days_before_year year +
  default 0 (month_starts (is_leap year) !! Z.to_nat (month - 1)) + day - 1.

End time.

(** The verb [%02d] of [fmt]: a width of two, the sign included. *)
Definition Sprintf_02d (n : Z) : string :=
  if n <? 0 then strconv.Itoa n
  else time.zeros (2 - String.length (strconv.Itoa n)) +:+ strconv.Itoa n.

(** ** The calendar is right *)

(** The four parts of a year number and what is left, from the days of a
    400-year cycle. *)
Lemma year_parts day year yday :
  time.year_yday day = (year, yday) ->
  exists a b c e,
    year = 400 * a + 100 * b + 4 * c + e + 1 /\
    day = 146097 * a + 36524 * b + 1461 * c + 365 * e + yday /\
    0 <= b <= 3 /\ 0 <= c <= 24 /\ 0 <= e <= 3 /\
    0 <= yday < (if (e =? 3) && (negb (c =? 24) || (b =? 3)) then 366 else 365).
Proof.
  unfold time.year_yday. intros [= <- <-].
  set (d := day mod 146097).
  set (b := d / 36524 - d / 36524 / 4). set (d1 := d - 36524 * b).
  set (c := d1 / 1461). set (d2 := d1 - 1461 * c).
  set (e := d2 / 365 - d2 / 365 / 4).
  assert (Hd : 0 <= d < 146097) by (apply Z.mod_pos_bound; lia).
  assert (Hday : day = 146097 * (day / 146097) + d) by (apply Z.div_mod; lia).
  assert (Hb : 0 <= b <= 3 /\ 0 <= d1 < 36525 /\ (b < 3 -> d1 < 36524)).
  { subst b d1. Z.to_euclidean_division_equations. lia. }
  assert (Hc : 0 <= c <= 24 /\ 0 <= d2 < 1461 /\ (c = 24 -> b < 3 -> d2 < 1460)).
  { subst c d2. Z.to_euclidean_division_equations. lia. }
  assert (He : 0 <= e <= 3 /\ 0 <= d2 - 365 * e < 366 /\ (e < 3 -> d2 - 365 * e < 365)
               /\ (d2 < 1460 -> d2 - 365 * e < 365)).
  { subst e. Z.to_euclidean_division_equations. lia. }
  exists (day / 146097), b, c, e. split_and!; try lia.
  destruct (Z.eqb_spec e 3), (Z.eqb_spec c 24), (Z.eqb_spec b 3); simpl; lia.
Qed.

Lemma is_leap_parts a b c e :
  0 <= b <= 3 -> 0 <= c <= 24 -> 0 <= e <= 3 ->
  time.is_leap (400 * a + 100 * b + 4 * c + e + 1) = (e =? 3) && (negb (c =? 24) || (b =? 3)).
Proof.
  intros Hb Hc He. unfold time.is_leap. set (y := 400 * a + 100 * b + 4 * c + e + 1).
  assert (H4 : (y mod 4 =? 0) = (e =? 3)).
  { apply eq_true_iff_eq. rewrite !Z.eqb_eq. subst y. Z.to_euclidean_division_equations. lia. }
  assert (H100 : e = 3 -> (y mod 100 =? 0) = (c =? 24)).
  { intros ->. apply eq_true_iff_eq. rewrite !Z.eqb_eq. subst y.
    Z.to_euclidean_division_equations. lia. }
  assert (H400 : e = 3 -> c = 24 -> (y mod 400 =? 0) = (b =? 3)).
  { intros -> ->. apply eq_true_iff_eq. rewrite !Z.eqb_eq. subst y.
    Z.to_euclidean_division_equations. lia. }
  rewrite H4. destruct (Z.eqb_spec e 3) as [E|]; [|done]. rewrite H100 by done.
  destruct (Z.eqb_spec c 24) as [E'|]; [|done]. by rewrite H400.
Qed.

Lemma days_before_year_parts a b c e :
  0 <= b <= 3 -> 0 <= c <= 24 -> 0 <= e <= 3 ->
  time.days_before_year (400 * a + 100 * b + 4 * c + e + 1) =
  146097 * a + 36524 * b + 1461 * c + 365 * e.
Proof.
  intros Hb Hc He. unfold time.days_before_year.
  Z.to_euclidean_division_equations. lia.
Qed.

(** A date of the calendar. *)
Definition date_ok (month day : Z) : Prop :=
  1 <= month <= 12 /\ 1 <= day <= 31.

Definition month_day_ok (leap : bool) (yday : Z) : bool :=
  let '(month, day) := time.month_day (time.month_starts leap) 1 yday in
  (1 <=? month) && (month <=? 12) && (1 <=? day) && (day <=? 31) &&
  (default 0 (time.month_starts leap !! Z.to_nat (month - 1)) + day - 1 =? yday).

Lemma month_day_checked (leap : bool) yday :
  0 <= yday < (if leap then 366 else 365) -> month_day_ok leap yday = true.
Proof.
  intros H.
  assert (Hall : forallb (fun n => month_day_ok leap (Z.of_nat n))
                   (seq 0 (if leap then 366 else 365)) = true) by (destruct leap; reflexivity).
  rewrite forallb_forall in Hall.
  rewrite <- (Z2Nat.id yday) by lia. apply Hall, in_seq. destruct leap; lia.
Qed.

(** The date of a time is a date of the calendar, and names its day. *)
Lemma Date_day t year month day :
  time.Date t = (year, month, day) ->
  date_ok month day /\ time.day_of_date year month day = t_sec t / 86400.
Proof.
  unfold time.Date, time.secondsPerDay.
  destruct (time.year_yday (t_sec t / 86400)) as [y yday] eqn:Hy.
  apply year_parts in Hy as (a & b & c & e & -> & Hday & Hb & Hc & He & Hyday).
  rewrite <- (is_leap_parts a) in Hyday by done.
  pose proof (month_day_checked _ _ Hyday) as Hm. unfold month_day_ok in Hm.
  destruct (time.month_day _ 1 yday) as [m d]. intros [= <- <- <-].
  unfold date_ok, time.day_of_date. rewrite days_before_year_parts by done.
  rewrite !andb_true_iff, !Z.leb_le, Z.eqb_eq in Hm. split; lia.
Qed.

Example format_epoch : time.Format_RFC3339 (time.Unix 0 0) = "1970-01-01T00:00:00Z"%string.
Proof. reflexivity. Qed.
Example format_leap : time.Format_RFC3339 (time.Unix 1709210096 0) = "2024-02-29T12:34:56Z"%string.
Proof. reflexivity. Qed.
