(* ===== verification/ProtoEnums.v ===== *)
(** * The protobuf enumerations (protos/*.pb.go)

    For every enumeration of the generated code, its two value maps: [X_name]
    from numbers to names and [X_value] from names to numbers, in source order.
    Enumerations of proto3 are open: a value is its [int32] number, and a number
    without a name is legal. *)

From S2P Require Import Prelude.
Local Open Scope string_scope.
Local Open Scope Z_scope.

Definition Field_name : list (Z * string) :=
  [(0, "Unknown");
   (1, "DriveRail");
   (2, "ChargeState");
   (3, "BmsFullchargecomplete");
   (4, "VehicleSpeed");
   (5, "Odometer");
   (6, "PackVoltage");
   (7, "PackCurrent");
   (8, "Soc");
   (9, "DCDCEnable");
   (10, "Gear");
   (11, "IsolationResistance");
   (12, "PedalPosition");
   (13, "BrakePedal");
   (14, "DiStateR");
   (15, "DiHeatsinkTR");
   (16, "DiAxleSpeedR");
   (17, "DiTorquemotor");
   (18, "DiStatorTempR");
   (19, "DiVBatR");
   (20, "DiMotorCurrentR");
   (21, "Location");
   (22, "GpsState");
   (23, "GpsHeading");
   (24, "NumBrickVoltageMax");
   (25, "BrickVoltageMax");
   (26, "NumBrickVoltageMin");
   (27, "BrickVoltageMin");
   (28, "NumModuleTempMax");
   (29, "ModuleTempMax");
   (30, "NumModuleTempMin");
   (31, "ModuleTempMin");
   (32, "RatedRange");
   (33, "Hvil");
   (34, "DCChargingEnergyIn");
   (35, "DCChargingPower");
   (36, "ACChargingEnergyIn");
   (37, "ACChargingPower");
   (38, "ChargeLimitSoc");
   (39, "FastChargerPresent");
   (40, "EstBatteryRange");
   (41, "IdealBatteryRange");
   (42, "BatteryLevel");
   (43, "TimeToFullCharge");
   (44, "ScheduledChargingStartTime");
   (45, "ScheduledChargingPending");
   (46, "ScheduledDepartureTime");
   (47, "PreconditioningEnabled");
   (48, "ScheduledChargingMode");
   (49, "ChargeAmps");
   (50, "ChargeEnableRequest");
   (51, "ChargerPhases");
   (52, "ChargePortColdWeatherMode");
   (53, "ChargeCurrentRequest");
   (54, "ChargeCurrentRequestMax");
   (55, "BatteryHeaterOn");
   (56, "NotEnoughPowerToHeat");
   (57, "SuperchargerSessionTripPlanner");
   (58, "DoorState");
   (59, "Locked");
   (60, "FdWindow");
   (61, "FpWindow");
   (62, "RdWindow");
   (63, "RpWindow");
   (64, "VehicleName");
   (65, "SentryMode");
   (66, "SpeedLimitMode");
   (67, "CurrentLimitMph");
   (68, "Version");
   (69, "TpmsPressureFl");
   (70, "TpmsPressureFr");
   (71, "TpmsPressureRl");
   (72, "TpmsPressureRr");
   (73, "SemitruckTpmsPressureRe1L0");
   (74, "SemitruckTpmsPressureRe1L1");
   (75, "SemitruckTpmsPressureRe1R0");
   (76, "SemitruckTpmsPressureRe1R1");
   (77, "SemitruckTpmsPressureRe2L0");
   (78, "SemitruckTpmsPressureRe2L1");
   (79, "SemitruckTpmsPressureRe2R0");
   (80, "SemitruckTpmsPressureRe2R1");
   (81, "TpmsLastSeenPressureTimeFl");
   (82, "TpmsLastSeenPressureTimeFr");
   (83, "TpmsLastSeenPressureTimeRl");
   (84, "TpmsLastSeenPressureTimeRr");
   (85, "InsideTemp");
   (86, "OutsideTemp");
   (87, "SeatHeaterLeft");
   (88, "SeatHeaterRight");
   (89, "SeatHeaterRearLeft");
   (90, "SeatHeaterRearRight");
   (91, "SeatHeaterRearCenter");
   (92, "AutoSeatClimateLeft");
   (93, "AutoSeatClimateRight");
   (94, "DriverSeatBelt");
   (95, "PassengerSeatBelt");
   (96, "DriverSeatOccupied");
   (97, "SemitruckPassengerSeatFoldPosition");
   (98, "LateralAcceleration");
   (99, "LongitudinalAcceleration");
   (100, "Deprecated_2");
   (101, "CruiseSetSpeed");
   (102, "LifetimeEnergyUsed");
   (103, "LifetimeEnergyUsedDrive");
   (104, "SemitruckTractorParkBrakeStatus");
   (105, "SemitruckTrailerParkBrakeStatus");
   (106, "BrakePedalPos");
   (107, "RouteLastUpdated");
   (108, "RouteLine");
   (109, "MilesToArrival");
   (110, "MinutesToArrival");
   (111, "OriginLocation");
   (112, "DestinationLocation");
   (113, "CarType");
   (114, "Trim");
   (115, "ExteriorColor");
   (116, "RoofColor");
   (117, "ChargePort");
   (118, "ChargePortLatch");
   (119, "Experimental_1");
   (120, "Experimental_2");
   (121, "Experimental_3");
   (122, "Experimental_4");
   (123, "GuestModeEnabled");
   (124, "PinToDriveEnabled");
   (125, "PairedPhoneKeyAndKeyFobQty");
   (126, "CruiseFollowDistance");
   (127, "AutomaticBlindSpotCamera");
   (128, "BlindSpotCollisionWarningChime");
   (129, "SpeedLimitWarning");
   (130, "ForwardCollisionWarning");
   (131, "LaneDepartureAvoidance");
   (132, "EmergencyLaneDepartureAvoidance");
   (133, "AutomaticEmergencyBrakingOff");
   (134, "LifetimeEnergyGainedRegen");
   (135, "DiStateF");
   (136, "DiStateREL");
   (137, "DiStateRER");
   (138, "DiHeatsinkTF");
   (139, "DiHeatsinkTREL");
   (140, "DiHeatsinkTRER");
   (141, "DiAxleSpeedF");
   (142, "DiAxleSpeedREL");
   (143, "DiAxleSpeedRER");
   (144, "DiSlaveTorqueCmd");
   (145, "DiTorqueActualR");
   (146, "DiTorqueActualF");
   (147, "DiTorqueActualREL");
   (148, "DiTorqueActualRER");
   (149, "DiStatorTempF");
   (150, "DiStatorTempREL");
   (151, "DiStatorTempRER");
   (152, "DiVBatF");
   (153, "DiVBatREL");
   (154, "DiVBatRER");
   (155, "DiMotorCurrentF");
   (156, "DiMotorCurrentREL");
   (157, "DiMotorCurrentRER");
   (158, "EnergyRemaining");
   (159, "ServiceMode");
   (160, "BMSState");
   (161, "GuestModeMobileAccessState");
   (162, "Deprecated_1");
   (163, "DestinationName");
   (164, "DiInverterTR");
   (165, "DiInverterTF");
   (166, "DiInverterTREL");
   (167, "DiInverterTRER");
   (168, "Experimental_5");
   (169, "Experimental_6");
   (170, "Experimental_7");
   (171, "Experimental_8");
   (172, "Experimental_9");
   (173, "Experimental_10");
   (174, "Experimental_11");
   (175, "Experimental_12");
   (176, "Experimental_13");
   (177, "Experimental_14");
   (178, "Experimental_15");
   (179, "DetailedChargeState");
   (180, "CabinOverheatProtectionMode");
   (181, "CabinOverheatProtectionTemperatureLimit");
   (182, "CenterDisplay");
   (183, "ChargePortDoorOpen");
   (184, "ChargerVoltage");
   (185, "ChargingCableType");
   (186, "ClimateKeeperMode");
   (187, "DefrostForPreconditioning");
   (188, "DefrostMode");
   (189, "EfficiencyPackage");
   (190, "EstimatedHoursToChargeTermination");
   (191, "EuropeVehicle");
   (192, "ExpectedEnergyPercentAtTripArrival");
   (193, "FastChargerType");
   (194, "HomelinkDeviceCount");
   (195, "HomelinkNearby");
   (196, "HvacACEnabled");
   (197, "HvacAutoMode");
   (198, "HvacFanSpeed");
   (199, "HvacFanStatus");
   (200, "HvacLeftTemperatureRequest");
   (201, "HvacPower");
   (202, "HvacRightTemperatureRequest");
   (203, "HvacSteeringWheelHeatAuto");
   (204, "HvacSteeringWheelHeatLevel");
   (205, "OffroadLightbarPresent");
   (206, "PowershareHoursLeft");
   (207, "PowershareInstantaneousPowerKW");
   (208, "PowershareStatus");
   (209, "PowershareStopReason");
   (210, "PowershareType");
   (211, "RearDisplayHvacEnabled");
   (212, "RearSeatHeaters");
   (213, "RemoteStartEnabled");
   (214, "RightHandDrive");
   (215, "RouteTrafficMinutesDelay");
   (216, "SoftwareUpdateDownloadPercentComplete");
   (217, "SoftwareUpdateExpectedDurationMinutes");
   (218, "SoftwareUpdateInstallationPercentComplete");
   (219, "SoftwareUpdateScheduledStartTime");
   (220, "SoftwareUpdateVersion");
   (221, "TonneauOpenPercent");
   (222, "TonneauPosition");
   (223, "TonneauTentMode");
   (224, "TpmsHardWarnings");
   (225, "TpmsSoftWarnings");
   (226, "ValetModeEnabled");
   (227, "WheelType");
   (228, "WiperHeatEnabled");
   (229, "LocatedAtHome");
   (230, "LocatedAtWork");
   (231, "LocatedAtFavorite");
   (232, "SettingDistanceUnit");
   (233, "SettingTemperatureUnit");
   (234, "Setting24HourTime");
   (235, "SettingTirePressureUnit");
   (236, "SettingChargeUnit");
   (237, "ClimateSeatCoolingFrontLeft");
   (238, "ClimateSeatCoolingFrontRight");
   (239, "LightsHazardsActive");
   (240, "LightsTurnSignal");
   (241, "LightsHighBeams");
   (242, "MediaPlaybackStatus");
   (243, "MediaPlaybackSource");
   (244, "MediaAudioVolume");
   (245, "MediaNowPlayingDuration");
   (246, "MediaNowPlayingElapsed");
   (247, "MediaNowPlayingArtist");
   (248, "MediaNowPlayingTitle");
   (249, "MediaNowPlayingAlbum");
   (250, "MediaNowPlayingStation");
   (251, "MediaAudioVolumeIncrement");
   (252, "MediaAudioVolumeMax");
   (253, "SunroofInstalled");
   (254, "SeatVentEnabled");
   (255, "RearDefrostEnabled");
   (256, "ChargeRateMilePerHour");
   (257, "Deprecated_3");
   (258, "MilesSinceReset");
   (259, "SelfDrivingMilesSinceReset")].
Definition Field_value : list (string * Z) :=
  [("Unknown", 0);
   ("DriveRail", 1);
   ("ChargeState", 2);
   ("BmsFullchargecomplete", 3);
   ("VehicleSpeed", 4);
   ("Odometer", 5);
   ("PackVoltage", 6);
   ("PackCurrent", 7);
   ("Soc", 8);
   ("DCDCEnable", 9);
   ("Gear", 10);
   ("IsolationResistance", 11);
   ("PedalPosition", 12);
   ("BrakePedal", 13);
   ("DiStateR", 14);
   ("DiHeatsinkTR", 15);
   ("DiAxleSpeedR", 16);
   ("DiTorquemotor", 17);
   ("DiStatorTempR", 18);
   ("DiVBatR", 19);
   ("DiMotorCurrentR", 20);
   ("Location", 21);
   ("GpsState", 22);
   ("GpsHeading", 23);
   ("NumBrickVoltageMax", 24);
   ("BrickVoltageMax", 25);
   ("NumBrickVoltageMin", 26);
   ("BrickVoltageMin", 27);
   ("NumModuleTempMax", 28);
   ("ModuleTempMax", 29);
   ("NumModuleTempMin", 30);
   ("ModuleTempMin", 31);
   ("RatedRange", 32);
   ("Hvil", 33);
   ("DCChargingEnergyIn", 34);
   ("DCChargingPower", 35);
   ("ACChargingEnergyIn", 36);
   ("ACChargingPower", 37);
   ("ChargeLimitSoc", 38);
   ("FastChargerPresent", 39);
   ("EstBatteryRange", 40);
   ("IdealBatteryRange", 41);
   ("BatteryLevel", 42);
   ("TimeToFullCharge", 43);
   ("ScheduledChargingStartTime", 44);
   ("ScheduledChargingPending", 45);
   ("ScheduledDepartureTime", 46);
   ("PreconditioningEnabled", 47);
   ("ScheduledChargingMode", 48);
   ("ChargeAmps", 49);
   ("ChargeEnableRequest", 50);
   ("ChargerPhases", 51);
   ("ChargePortColdWeatherMode", 52);
   ("ChargeCurrentRequest", 53);
   ("ChargeCurrentRequestMax", 54);
   ("BatteryHeaterOn", 55);
   ("NotEnoughPowerToHeat", 56);
   ("SuperchargerSessionTripPlanner", 57);
   ("DoorState", 58);
   ("Locked", 59);
   ("FdWindow", 60);
   ("FpWindow", 61);
   ("RdWindow", 62);
   ("RpWindow", 63);
   ("VehicleName", 64);
   ("SentryMode", 65);
   ("SpeedLimitMode", 66);
   ("CurrentLimitMph", 67);
   ("Version", 68);
   ("TpmsPressureFl", 69);
   ("TpmsPressureFr", 70);
   ("TpmsPressureRl", 71);
   ("TpmsPressureRr", 72);
   ("SemitruckTpmsPressureRe1L0", 73);
   ("SemitruckTpmsPressureRe1L1", 74);
   ("SemitruckTpmsPressureRe1R0", 75);
   ("SemitruckTpmsPressureRe1R1", 76);
   ("SemitruckTpmsPressureRe2L0", 77);
   ("SemitruckTpmsPressureRe2L1", 78);
   ("SemitruckTpmsPressureRe2R0", 79);
   ("SemitruckTpmsPressureRe2R1", 80);
   ("TpmsLastSeenPressureTimeFl", 81);
   ("TpmsLastSeenPressureTimeFr", 82);
   ("TpmsLastSeenPressureTimeRl", 83);
   ("TpmsLastSeenPressureTimeRr", 84);
   ("InsideTemp", 85);
   ("OutsideTemp", 86);
   ("SeatHeaterLeft", 87);
   ("SeatHeaterRight", 88);
   ("SeatHeaterRearLeft", 89);
   ("SeatHeaterRearRight", 90);
   ("SeatHeaterRearCenter", 91);
   ("AutoSeatClimateLeft", 92);
   ("AutoSeatClimateRight", 93);
   ("DriverSeatBelt", 94);
   ("PassengerSeatBelt", 95);
   ("DriverSeatOccupied", 96);
   ("SemitruckPassengerSeatFoldPosition", 97);
   ("LateralAcceleration", 98);
   ("LongitudinalAcceleration", 99);
   ("Deprecated_2", 100);
   ("CruiseSetSpeed", 101);
   ("LifetimeEnergyUsed", 102);
   ("LifetimeEnergyUsedDrive", 103);
   ("SemitruckTractorParkBrakeStatus", 104);
   ("SemitruckTrailerParkBrakeStatus", 105);
   ("BrakePedalPos", 106);
   ("RouteLastUpdated", 107);
   ("RouteLine", 108);
   ("MilesToArrival", 109);
   ("MinutesToArrival", 110);
   ("OriginLocation", 111);
   ("DestinationLocation", 112);
   ("CarType", 113);
   ("Trim", 114);
   ("ExteriorColor", 115);
   ("RoofColor", 116);
   ("ChargePort", 117);
   ("ChargePortLatch", 118);
   ("Experimental_1", 119);
   ("Experimental_2", 120);
   ("Experimental_3", 121);
   ("Experimental_4", 122);
   ("GuestModeEnabled", 123);
   ("PinToDriveEnabled", 124);
   ("PairedPhoneKeyAndKeyFobQty", 125);
   ("CruiseFollowDistance", 126);
   ("AutomaticBlindSpotCamera", 127);
   ("BlindSpotCollisionWarningChime", 128);
   ("SpeedLimitWarning", 129);
   ("ForwardCollisionWarning", 130);
   ("LaneDepartureAvoidance", 131);
   ("EmergencyLaneDepartureAvoidance", 132);
   ("AutomaticEmergencyBrakingOff", 133);
   ("LifetimeEnergyGainedRegen", 134);
   ("DiStateF", 135);
   ("DiStateREL", 136);
   ("DiStateRER", 137);
   ("DiHeatsinkTF", 138);
   ("DiHeatsinkTREL", 139);
   ("DiHeatsinkTRER", 140);
   ("DiAxleSpeedF", 141);
   ("DiAxleSpeedREL", 142);
   ("DiAxleSpeedRER", 143);
   ("DiSlaveTorqueCmd", 144);
   ("DiTorqueActualR", 145);
   ("DiTorqueActualF", 146);
   ("DiTorqueActualREL", 147);
   ("DiTorqueActualRER", 148);
   ("DiStatorTempF", 149);
   ("DiStatorTempREL", 150);
   ("DiStatorTempRER", 151);
   ("DiVBatF", 152);
   ("DiVBatREL", 153);
   ("DiVBatRER", 154);
   ("DiMotorCurrentF", 155);
   ("DiMotorCurrentREL", 156);
   ("DiMotorCurrentRER", 157);
   ("EnergyRemaining", 158);
   ("ServiceMode", 159);
   ("BMSState", 160);
   ("GuestModeMobileAccessState", 161);
   ("Deprecated_1", 162);
   ("DestinationName", 163);
   ("DiInverterTR", 164);
   ("DiInverterTF", 165);
   ("DiInverterTREL", 166);
   ("DiInverterTRER", 167);
   ("Experimental_5", 168);
   ("Experimental_6", 169);
   ("Experimental_7", 170);
   ("Experimental_8", 171);
   ("Experimental_9", 172);
   ("Experimental_10", 173);
   ("Experimental_11", 174);
   ("Experimental_12", 175);
   ("Experimental_13", 176);
   ("Experimental_14", 177);
   ("Experimental_15", 178);
   ("DetailedChargeState", 179);
   ("CabinOverheatProtectionMode", 180);
   ("CabinOverheatProtectionTemperatureLimit", 181);
   ("CenterDisplay", 182);
   ("ChargePortDoorOpen", 183);
   ("ChargerVoltage", 184);
   ("ChargingCableType", 185);
   ("ClimateKeeperMode", 186);
   ("DefrostForPreconditioning", 187);
   ("DefrostMode", 188);
   ("EfficiencyPackage", 189);
   ("EstimatedHoursToChargeTermination", 190);
   ("EuropeVehicle", 191);
   ("ExpectedEnergyPercentAtTripArrival", 192);
   ("FastChargerType", 193);
   ("HomelinkDeviceCount", 194);
   ("HomelinkNearby", 195);
   ("HvacACEnabled", 196);
   ("HvacAutoMode", 197);
   ("HvacFanSpeed", 198);
   ("HvacFanStatus", 199);
   ("HvacLeftTemperatureRequest", 200);
   ("HvacPower", 201);
   ("HvacRightTemperatureRequest", 202);
   ("HvacSteeringWheelHeatAuto", 203);
   ("HvacSteeringWheelHeatLevel", 204);
   ("OffroadLightbarPresent", 205);
   ("PowershareHoursLeft", 206);
   ("PowershareInstantaneousPowerKW", 207);
   ("PowershareStatus", 208);
   ("PowershareStopReason", 209);
   ("PowershareType", 210);
   ("RearDisplayHvacEnabled", 211);
   ("RearSeatHeaters", 212);
   ("RemoteStartEnabled", 213);
   ("RightHandDrive", 214);
   ("RouteTrafficMinutesDelay", 215);
   ("SoftwareUpdateDownloadPercentComplete", 216);
   ("SoftwareUpdateExpectedDurationMinutes", 217);
   ("SoftwareUpdateInstallationPercentComplete", 218);
   ("SoftwareUpdateScheduledStartTime", 219);
   ("SoftwareUpdateVersion", 220);
   ("TonneauOpenPercent", 221);
   ("TonneauPosition", 222);
   ("TonneauTentMode", 223);
   ("TpmsHardWarnings", 224);
   ("TpmsSoftWarnings", 225);
   ("ValetModeEnabled", 226);
   ("WheelType", 227);
   ("WiperHeatEnabled", 228);
   ("LocatedAtHome", 229);
   ("LocatedAtWork", 230);
   ("LocatedAtFavorite", 231);
   ("SettingDistanceUnit", 232);
   ("SettingTemperatureUnit", 233);
   ("Setting24HourTime", 234);
   ("SettingTirePressureUnit", 235);
   ("SettingChargeUnit", 236);
   ("ClimateSeatCoolingFrontLeft", 237);
   ("ClimateSeatCoolingFrontRight", 238);
   ("LightsHazardsActive", 239);
   ("LightsTurnSignal", 240);
   ("LightsHighBeams", 241);
   ("MediaPlaybackStatus", 242);
   ("MediaPlaybackSource", 243);
   ("MediaAudioVolume", 244);
   ("MediaNowPlayingDuration", 245);
   ("MediaNowPlayingElapsed", 246);
   ("MediaNowPlayingArtist", 247);
   ("MediaNowPlayingTitle", 248);
   ("MediaNowPlayingAlbum", 249);
   ("MediaNowPlayingStation", 250);
   ("MediaAudioVolumeIncrement", 251);
   ("MediaAudioVolumeMax", 252);
   ("SunroofInstalled", 253);
   ("SeatVentEnabled", 254);
   ("RearDefrostEnabled", 255);
   ("ChargeRateMilePerHour", 256);
   ("Deprecated_3", 257);
   ("MilesSinceReset", 258);
   ("SelfDrivingMilesSinceReset", 259)].
Definition ChargingState_name : list (Z * string) :=
  [(0, "ChargeStateUnknown");
   (1, "ChargeStateDisconnected");
   (2, "ChargeStateNoPower");
   (3, "ChargeStateStarting");
   (4, "ChargeStateCharging");
   (5, "ChargeStateComplete");
   (6, "ChargeStateStopped")].
Definition ChargingState_value : list (string * Z) :=
  [("ChargeStateUnknown", 0);
   ("ChargeStateDisconnected", 1);
   ("ChargeStateNoPower", 2);
   ("ChargeStateStarting", 3);
   ("ChargeStateCharging", 4);
   ("ChargeStateComplete", 5);
   ("ChargeStateStopped", 6)].
Definition DetailedChargeStateValue_name : list (Z * string) :=
  [(0, "DetailedChargeStateUnknown");
   (1, "DetailedChargeStateDisconnected");
   (2, "DetailedChargeStateNoPower");
   (3, "DetailedChargeStateStarting");
   (4, "DetailedChargeStateCharging");
   (5, "DetailedChargeStateComplete");
   (6, "DetailedChargeStateStopped")].
Definition DetailedChargeStateValue_value : list (string * Z) :=
  [("DetailedChargeStateUnknown", 0);
   ("DetailedChargeStateDisconnected", 1);
   ("DetailedChargeStateNoPower", 2);
   ("DetailedChargeStateStarting", 3);
   ("DetailedChargeStateCharging", 4);
   ("DetailedChargeStateComplete", 5);
   ("DetailedChargeStateStopped", 6)].
Definition ShiftState_name : list (Z * string) :=
  [(0, "ShiftStateUnknown");
   (1, "ShiftStateInvalid");
   (2, "ShiftStateP");
   (3, "ShiftStateR");
   (4, "ShiftStateN");
   (5, "ShiftStateD");
   (6, "ShiftStateSNA")].
Definition ShiftState_value : list (string * Z) :=
  [("ShiftStateUnknown", 0);
   ("ShiftStateInvalid", 1);
   ("ShiftStateP", 2);
   ("ShiftStateR", 3);
   ("ShiftStateN", 4);
   ("ShiftStateD", 5);
   ("ShiftStateSNA", 6)].
Definition FollowDistance_name : list (Z * string) :=
  [(0, "FollowDistanceUnknown");
   (1, "FollowDistance1");
   (2, "FollowDistance2");
   (3, "FollowDistance3");
   (4, "FollowDistance4");
   (5, "FollowDistance5");
   (6, "FollowDistance6");
   (7, "FollowDistance7")].
Definition FollowDistance_value : list (string * Z) :=
  [("FollowDistanceUnknown", 0);
   ("FollowDistance1", 1);
   ("FollowDistance2", 2);
   ("FollowDistance3", 3);
   ("FollowDistance4", 4);
   ("FollowDistance5", 5);
   ("FollowDistance6", 6);
   ("FollowDistance7", 7)].
Definition ForwardCollisionSensitivity_name : list (Z * string) :=
  [(0, "ForwardCollisionSensitivityUnknown");
   (1, "ForwardCollisionSensitivityOff");
   (2, "ForwardCollisionSensitivityLate");
   (3, "ForwardCollisionSensitivityAverage");
   (4, "ForwardCollisionSensitivityEarly")].
Definition ForwardCollisionSensitivity_value : list (string * Z) :=
  [("ForwardCollisionSensitivityUnknown", 0);
   ("ForwardCollisionSensitivityOff", 1);
   ("ForwardCollisionSensitivityLate", 2);
   ("ForwardCollisionSensitivityAverage", 3);
   ("ForwardCollisionSensitivityEarly", 4)].
Definition GuestModeMobileAccess_name : list (Z * string) :=
  [(0, "GuestModeMobileAccessUnknown");
   (1, "GuestModeMobileAccessInit");
   (2, "GuestModeMobileAccessNotAuthenticated");
   (3, "GuestModeMobileAccessAuthenticated");
   (4, "GuestModeMobileAccessAbortedDriving");
   (5, "GuestModeMobileAccessAbortedUsingRemoteStart");
   (6, "GuestModeMobileAccessAbortedUsingBLEKeys");
   (7, "GuestModeMobileAccessAbortedValetMode");
   (8, "GuestModeMobileAccessAbortedGuestModeOff");
   (9, "GuestModeMobileAccessAbortedDriveAuthTimeExceeded");
   (10, "GuestModeMobileAccessAbortedNoDataReceived");
   (11, "GuestModeMobileAccessRequestingFromMothership");
   (12, "GuestModeMobileAccessRequestingFromAuthD");
   (13, "GuestModeMobileAccessAbortedFetchFailed");
   (14, "GuestModeMobileAccessAbortedBadDataReceived");
   (15, "GuestModeMobileAccessShowingQRCode");
   (16, "GuestModeMobileAccessSwipedAway");
   (17, "GuestModeMobileAccessDismissedQRCodeExpired");
   (18, "GuestModeMobileAccessSucceededPairedNewBLEKey")].
Definition GuestModeMobileAccess_value : list (string * Z) :=
  [("GuestModeMobileAccessUnknown", 0);
   ("GuestModeMobileAccessInit", 1);
   ("GuestModeMobileAccessNotAuthenticated", 2);
   ("GuestModeMobileAccessAuthenticated", 3);
   ("GuestModeMobileAccessAbortedDriving", 4);
   ("GuestModeMobileAccessAbortedUsingRemoteStart", 5);
   ("GuestModeMobileAccessAbortedUsingBLEKeys", 6);
   ("GuestModeMobileAccessAbortedValetMode", 7);
   ("GuestModeMobileAccessAbortedGuestModeOff", 8);
   ("GuestModeMobileAccessAbortedDriveAuthTimeExceeded", 9);
   ("GuestModeMobileAccessAbortedNoDataReceived", 10);
   ("GuestModeMobileAccessRequestingFromMothership", 11);
   ("GuestModeMobileAccessRequestingFromAuthD", 12);
   ("GuestModeMobileAccessAbortedFetchFailed", 13);
   ("GuestModeMobileAccessAbortedBadDataReceived", 14);
   ("GuestModeMobileAccessShowingQRCode", 15);
   ("GuestModeMobileAccessSwipedAway", 16);
   ("GuestModeMobileAccessDismissedQRCodeExpired", 17);
   ("GuestModeMobileAccessSucceededPairedNewBLEKey", 18)].
Definition LaneAssistLevel_name : list (Z * string) :=
  [(0, "LaneAssistLevelUnknown");
   (1, "LaneAssistLevelNone");
   (2, "LaneAssistLevelWarning");
   (3, "LaneAssistLevelAssist")].
Definition LaneAssistLevel_value : list (string * Z) :=
  [("LaneAssistLevelUnknown", 0);
   ("LaneAssistLevelNone", 1);
   ("LaneAssistLevelWarning", 2);
   ("LaneAssistLevelAssist", 3)].
Definition ScheduledChargingModeValue_name : list (Z * string) :=
  [(0, "ScheduledChargingModeUnknown");
   (1, "ScheduledChargingModeOff");
   (2, "ScheduledChargingModeStartAt");
   (3, "ScheduledChargingModeDepartBy")].
Definition ScheduledChargingModeValue_value : list (string * Z) :=
  [("ScheduledChargingModeUnknown", 0);
   ("ScheduledChargingModeOff", 1);
   ("ScheduledChargingModeStartAt", 2);
   ("ScheduledChargingModeDepartBy", 3)].
Definition SentryModeState_name : list (Z * string) :=
  [(0, "SentryModeStateUnknown");
   (1, "SentryModeStateOff");
   (2, "SentryModeStateIdle");
   (3, "SentryModeStateArmed");
   (4, "SentryModeStateAware");
   (5, "SentryModeStatePanic");
   (6, "SentryModeStateQuiet")].
Definition SentryModeState_value : list (string * Z) :=
  [("SentryModeStateUnknown", 0);
   ("SentryModeStateOff", 1);
   ("SentryModeStateIdle", 2);
   ("SentryModeStateArmed", 3);
   ("SentryModeStateAware", 4);
   ("SentryModeStatePanic", 5);
   ("SentryModeStateQuiet", 6)].
Definition SpeedAssistLevel_name : list (Z * string) :=
  [(0, "SpeedAssistLevelUnknown");
   (1, "SpeedAssistLevelNone");
   (2, "SpeedAssistLevelDisplay");
   (3, "SpeedAssistLevelChime")].
Definition SpeedAssistLevel_value : list (string * Z) :=
  [("SpeedAssistLevelUnknown", 0);
   ("SpeedAssistLevelNone", 1);
   ("SpeedAssistLevelDisplay", 2);
   ("SpeedAssistLevelChime", 3)].
Definition BMSStateValue_name : list (Z * string) :=
  [(0, "BMSStateUnknown");
   (1, "BMSStateStandby");
   (2, "BMSStateDrive");
   (3, "BMSStateSupport");
   (4, "BMSStateCharge");
   (5, "BMSStateFEIM");
   (6, "BMSStateClearFault");
   (7, "BMSStateFault");
   (8, "BMSStateWeld");
   (9, "BMSStateTest");
   (10, "BMSStateSNA")].
Definition BMSStateValue_value : list (string * Z) :=
  [("BMSStateUnknown", 0);
   ("BMSStateStandby", 1);
   ("BMSStateDrive", 2);
   ("BMSStateSupport", 3);
   ("BMSStateCharge", 4);
   ("BMSStateFEIM", 5);
   ("BMSStateClearFault", 6);
   ("BMSStateFault", 7);
   ("BMSStateWeld", 8);
   ("BMSStateTest", 9);
   ("BMSStateSNA", 10)].
Definition BuckleStatus_name : list (Z * string) :=
  [(0, "BuckleStatusUnknown");
   (1, "BuckleStatusUnlatched");
   (2, "BuckleStatusLatched");
   (3, "BuckleStatusFaulted")].
Definition BuckleStatus_value : list (string * Z) :=
  [("BuckleStatusUnknown", 0);
   ("BuckleStatusUnlatched", 1);
   ("BuckleStatusLatched", 2);
   ("BuckleStatusFaulted", 3)].
Definition CarTypeValue_name : list (Z * string) :=
  [(0, "CarTypeUnknown");
   (1, "CarTypeModelS");
   (2, "CarTypeModelX");
   (3, "CarTypeModel3");
   (4, "CarTypeModelY");
   (5, "CarTypeSemiTruck");
   (6, "CarTypeCybertruck")].
Definition CarTypeValue_value : list (string * Z) :=
  [("CarTypeUnknown", 0);
   ("CarTypeModelS", 1);
   ("CarTypeModelX", 2);
   ("CarTypeModel3", 3);
   ("CarTypeModelY", 4);
   ("CarTypeSemiTruck", 5);
   ("CarTypeCybertruck", 6)].
Definition ChargePortValue_name : list (Z * string) :=
  [(0, "ChargePortUnknown");
   (1, "ChargePortUS");
   (2, "ChargePortEU");
   (3, "ChargePortGB");
   (4, "ChargePortCCS")].
Definition ChargePortValue_value : list (string * Z) :=
  [("ChargePortUnknown", 0);
   ("ChargePortUS", 1);
   ("ChargePortEU", 2);
   ("ChargePortGB", 3);
   ("ChargePortCCS", 4)].
Definition ChargePortLatchValue_name : list (Z * string) :=
  [(0, "ChargePortLatchUnknown");
   (1, "ChargePortLatchSNA");
   (2, "ChargePortLatchDisengaged");
   (3, "ChargePortLatchEngaged");
   (4, "ChargePortLatchBlocking")].
Definition ChargePortLatchValue_value : list (string * Z) :=
  [("ChargePortLatchUnknown", 0);
   ("ChargePortLatchSNA", 1);
   ("ChargePortLatchDisengaged", 2);
   ("ChargePortLatchEngaged", 3);
   ("ChargePortLatchBlocking", 4)].
Definition DriveInverterState_name : list (Z * string) :=
  [(0, "DriveInverterStateUnknown");
   (1, "DriveInverterStateUnavailable");
   (2, "DriveInverterStateStandby");
   (3, "DriveInverterStateFault");
   (4, "DriveInverterStateAbort");
   (5, "DriveInverterStateEnable")].
Definition DriveInverterState_value : list (string * Z) :=
  [("DriveInverterStateUnknown", 0);
   ("DriveInverterStateUnavailable", 1);
   ("DriveInverterStateStandby", 2);
   ("DriveInverterStateFault", 3);
   ("DriveInverterStateAbort", 4);
   ("DriveInverterStateEnable", 5)].
Definition HvilStatus_name : list (Z * string) :=
  [(0, "HvilStatusUnknown");
   (1, "HvilStatusFault");
   (2, "HvilStatusOK")].
Definition HvilStatus_value : list (string * Z) :=
  [("HvilStatusUnknown", 0);
   ("HvilStatusFault", 1);
   ("HvilStatusOK", 2)].
Definition WindowState_name : list (Z * string) :=
  [(0, "WindowStateUnknown");
   (1, "WindowStateClosed");
   (2, "WindowStatePartiallyOpen");
   (3, "WindowStateOpened")].
Definition WindowState_value : list (string * Z) :=
  [("WindowStateUnknown", 0);
   ("WindowStateClosed", 1);
   ("WindowStatePartiallyOpen", 2);
   ("WindowStateOpened", 3)].
Definition SeatFoldPosition_name : list (Z * string) :=
  [(0, "SeatFoldPositionUnknown");
   (1, "SeatFoldPositionSNA");
   (2, "SeatFoldPositionFaulted");
   (3, "SeatFoldPositionNotConfigured");
   (4, "SeatFoldPositionFolded");
   (5, "SeatFoldPositionUnfolded")].
Definition SeatFoldPosition_value : list (string * Z) :=
  [("SeatFoldPositionUnknown", 0);
   ("SeatFoldPositionSNA", 1);
   ("SeatFoldPositionFaulted", 2);
   ("SeatFoldPositionNotConfigured", 3);
   ("SeatFoldPositionFolded", 4);
   ("SeatFoldPositionUnfolded", 5)].
Definition TractorAirStatus_name : list (Z * string) :=
  [(0, "TractorAirStatusUnknown");
   (1, "TractorAirStatusNotAvailable");
   (2, "TractorAirStatusError");
   (3, "TractorAirStatusCharged");
   (4, "TractorAirStatusBuildingPressureIntermediate");
   (5, "TractorAirStatusExhaustingPressureIntermediate");
   (6, "TractorAirStatusExhausted")].
Definition TractorAirStatus_value : list (string * Z) :=
  [("TractorAirStatusUnknown", 0);
   ("TractorAirStatusNotAvailable", 1);
   ("TractorAirStatusError", 2);
   ("TractorAirStatusCharged", 3);
   ("TractorAirStatusBuildingPressureIntermediate", 4);
   ("TractorAirStatusExhaustingPressureIntermediate", 5);
   ("TractorAirStatusExhausted", 6)].
Definition TrailerAirStatus_name : list (Z * string) :=
  [(0, "TrailerAirStatusUnknown");
   (1, "TrailerAirStatusSNA");
   (2, "TrailerAirStatusInvalid");
   (3, "TrailerAirStatusBobtailMode");
   (4, "TrailerAirStatusCharged");
   (5, "TrailerAirStatusBuildingPressureIntermediate");
   (6, "TrailerAirStatusExhaustingPressureIntermediate");
   (7, "TrailerAirStatusExhausted")].
Definition TrailerAirStatus_value : list (string * Z) :=
  [("TrailerAirStatusUnknown", 0);
   ("TrailerAirStatusSNA", 1);
   ("TrailerAirStatusInvalid", 2);
   ("TrailerAirStatusBobtailMode", 3);
   ("TrailerAirStatusCharged", 4);
   ("TrailerAirStatusBuildingPressureIntermediate", 5);
   ("TrailerAirStatusExhaustingPressureIntermediate", 6);
   ("TrailerAirStatusExhausted", 7)].
Definition HvacAutoModeState_name : list (Z * string) :=
  [(0, "HvacAutoModeStateUnknown");
   (1, "HvacAutoModeStateOn");
   (2, "HvacAutoModeStateOverride")].
Definition HvacAutoModeState_value : list (string * Z) :=
  [("HvacAutoModeStateUnknown", 0);
   ("HvacAutoModeStateOn", 1);
   ("HvacAutoModeStateOverride", 2)].
Definition CabinOverheatProtectionModeState_name : list (Z * string) :=
  [(0, "CabinOverheatProtectionModeStateUnknown");
   (1, "CabinOverheatProtectionModeStateOff");
   (2, "CabinOverheatProtectionModeStateOn");
   (3, "CabinOverheatProtectionModeStateFanOnly")].
Definition CabinOverheatProtectionModeState_value : list (string * Z) :=
  [("CabinOverheatProtectionModeStateUnknown", 0);
   ("CabinOverheatProtectionModeStateOff", 1);
   ("CabinOverheatProtectionModeStateOn", 2);
   ("CabinOverheatProtectionModeStateFanOnly", 3)].
Definition ClimateOverheatProtectionTempLimit_name : list (Z * string) :=
  [(0, "ClimateOverheatProtectionTempLimitUnknown");
   (1, "ClimateOverheatProtectionTempLimitHigh");
   (2, "ClimateOverheatProtectionTempLimitMedium");
   (3, "ClimateOverheatProtectionTempLimitLow")].
Definition ClimateOverheatProtectionTempLimit_value : list (string * Z) :=
  [("ClimateOverheatProtectionTempLimitUnknown", 0);
   ("ClimateOverheatProtectionTempLimitHigh", 1);
   ("ClimateOverheatProtectionTempLimitMedium", 2);
   ("ClimateOverheatProtectionTempLimitLow", 3)].
Definition DefrostModeState_name : list (Z * string) :=
  [(0, "DefrostModeStateUnknown");
   (1, "DefrostModeStateOff");
   (2, "DefrostModeStateNormal");
   (3, "DefrostModeStateMax");
   (4, "DefrostModeStateAutoDefog")].
Definition DefrostModeState_value : list (string * Z) :=
  [("DefrostModeStateUnknown", 0);
   ("DefrostModeStateOff", 1);
   ("DefrostModeStateNormal", 2);
   ("DefrostModeStateMax", 3);
   ("DefrostModeStateAutoDefog", 4)].
Definition ClimateKeeperModeState_name : list (Z * string) :=
  [(0, "ClimateKeeperModeStateUnknown");
   (1, "ClimateKeeperModeStateOff");
   (2, "ClimateKeeperModeStateOn");
   (3, "ClimateKeeperModeStateDog");
   (4, "ClimateKeeperModeStateParty")].
Definition ClimateKeeperModeState_value : list (string * Z) :=
  [("ClimateKeeperModeStateUnknown", 0);
   ("ClimateKeeperModeStateOff", 1);
   ("ClimateKeeperModeStateOn", 2);
   ("ClimateKeeperModeStateDog", 3);
   ("ClimateKeeperModeStateParty", 4)].
Definition HvacPowerState_name : list (Z * string) :=
  [(0, "HvacPowerStateUnknown");
   (1, "HvacPowerStateOff");
   (2, "HvacPowerStateOn");
   (3, "HvacPowerStatePrecondition");
   (4, "HvacPowerStateOverheatProtect")].
Definition HvacPowerState_value : list (string * Z) :=
  [("HvacPowerStateUnknown", 0);
   ("HvacPowerStateOff", 1);
   ("HvacPowerStateOn", 2);
   ("HvacPowerStatePrecondition", 3);
   ("HvacPowerStateOverheatProtect", 4)].
Definition FastCharger_name : list (Z * string) :=
  [(0, "FastChargerUnknown");
   (1, "FastChargerSupercharger");
   (2, "FastChargerCHAdeMO");
   (3, "FastChargerGB");
   (4, "FastChargerACSingleWireCAN");
   (5, "FastChargerCombo");
   (6, "FastChargerMCSingleWireCAN");
   (7, "FastChargerOther");
   (8, "FastChargerSNA")].
Definition FastCharger_value : list (string * Z) :=
  [("FastChargerUnknown", 0);
   ("FastChargerSupercharger", 1);
   ("FastChargerCHAdeMO", 2);
   ("FastChargerGB", 3);
   ("FastChargerACSingleWireCAN", 4);
   ("FastChargerCombo", 5);
   ("FastChargerMCSingleWireCAN", 6);
   ("FastChargerOther", 7);
   ("FastChargerSNA", 8)].
Definition CableType_name : list (Z * string) :=
  [(0, "CableTypeUnknown");
   (1, "CableTypeIEC");
   (2, "CableTypeSAE");
   (3, "CableTypeGB_AC");
   (4, "CableTypeGB_DC");
   (5, "CableTypeSNA")].
Definition CableType_value : list (string * Z) :=
  [("CableTypeUnknown", 0);
   ("CableTypeIEC", 1);
   ("CableTypeSAE", 2);
   ("CableTypeGB_AC", 3);
   ("CableTypeGB_DC", 4);
   ("CableTypeSNA", 5)].
Definition TonneauTentModeState_name : list (Z * string) :=
  [(0, "TonneauTentModeStateUnknown");
   (1, "TonneauTentModeStateInactive");
   (2, "TonneauTentModeStateMoving");
   (3, "TonneauTentModeStateFailed");
   (4, "TonneauTentModeStateActive")].
Definition TonneauTentModeState_value : list (string * Z) :=
  [("TonneauTentModeStateUnknown", 0);
   ("TonneauTentModeStateInactive", 1);
   ("TonneauTentModeStateMoving", 2);
   ("TonneauTentModeStateFailed", 3);
   ("TonneauTentModeStateActive", 4)].
Definition TonneauPositionState_name : list (Z * string) :=
  [(0, "TonneauPositionStateUnknown");
   (1, "TonneauPositionStateInvalid");
   (2, "TonneauPositionStateClosed");
   (3, "TonneauPositionStatePartiallyOpen");
   (4, "TonneauPositionStateFullyOpen")].
Definition TonneauPositionState_value : list (string * Z) :=
  [("TonneauPositionStateUnknown", 0);
   ("TonneauPositionStateInvalid", 1);
   ("TonneauPositionStateClosed", 2);
   ("TonneauPositionStatePartiallyOpen", 3);
   ("TonneauPositionStateFullyOpen", 4)].
Definition PowershareState_name : list (Z * string) :=
  [(0, "PowershareStateUnknown");
   (1, "PowershareStateInactive");
   (2, "PowershareStateHandshaking");
   (3, "PowershareStateInit");
   (4, "PowershareStateEnabled");
   (5, "PowershareStateEnabledReconnectingSoon");
   (6, "PowershareStateStopped")].
Definition PowershareState_value : list (string * Z) :=
  [("PowershareStateUnknown", 0);
   ("PowershareStateInactive", 1);
   ("PowershareStateHandshaking", 2);
   ("PowershareStateInit", 3);
   ("PowershareStateEnabled", 4);
   ("PowershareStateEnabledReconnectingSoon", 5);
   ("PowershareStateStopped", 6)].
Definition PowershareStopReasonStatus_name : list (Z * string) :=
  [(0, "PowershareStopReasonStatusUnknown");
   (1, "PowershareStopReasonStatusNone");
   (2, "PowershareStopReasonStatusSOCTooLow");
   (3, "PowershareStopReasonStatusRetry");
   (4, "PowershareStopReasonStatusFault");
   (5, "PowershareStopReasonStatusUser");
   (6, "PowershareStopReasonStatusReconnecting");
   (7, "PowershareStopReasonStatusAuthentication")].
Definition PowershareStopReasonStatus_value : list (string * Z) :=
  [("PowershareStopReasonStatusUnknown", 0);
   ("PowershareStopReasonStatusNone", 1);
   ("PowershareStopReasonStatusSOCTooLow", 2);
   ("PowershareStopReasonStatusRetry", 3);
   ("PowershareStopReasonStatusFault", 4);
   ("PowershareStopReasonStatusUser", 5);
   ("PowershareStopReasonStatusReconnecting", 6);
   ("PowershareStopReasonStatusAuthentication", 7)].
Definition PowershareTypeStatus_name : list (Z * string) :=
  [(0, "PowershareTypeStatusUnknown");
   (1, "PowershareTypeStatusNone");
   (2, "PowershareTypeStatusLoad");
   (3, "PowershareTypeStatusHome")].
Definition PowershareTypeStatus_value : list (string * Z) :=
  [("PowershareTypeStatusUnknown", 0);
   ("PowershareTypeStatusNone", 1);
   ("PowershareTypeStatusLoad", 2);
   ("PowershareTypeStatusHome", 3)].
Definition DisplayState_name : list (Z * string) :=
  [(0, "DisplayStateUnknown");
   (1, "DisplayStateOff");
   (2, "DisplayStateDim");
   (3, "DisplayStateAccessory");
   (4, "DisplayStateOn");
   (5, "DisplayStateDriving");
   (6, "DisplayStateCharging");
   (7, "DisplayStateLock");
   (8, "DisplayStateSentry");
   (9, "DisplayStateDog");
   (10, "DisplayStateEntertainment")].
Definition DisplayState_value : list (string * Z) :=
  [("DisplayStateUnknown", 0);
   ("DisplayStateOff", 1);
   ("DisplayStateDim", 2);
   ("DisplayStateAccessory", 3);
   ("DisplayStateOn", 4);
   ("DisplayStateDriving", 5);
   ("DisplayStateCharging", 6);
   ("DisplayStateLock", 7);
   ("DisplayStateSentry", 8);
   ("DisplayStateDog", 9);
   ("DisplayStateEntertainment", 10)].
Definition DistanceUnit_name : list (Z * string) :=
  [(0, "DistanceUnitUnknown");
   (1, "DistanceUnitMiles");
   (2, "DistanceUnitKilometers")].
Definition DistanceUnit_value : list (string * Z) :=
  [("DistanceUnitUnknown", 0);
   ("DistanceUnitMiles", 1);
   ("DistanceUnitKilometers", 2)].
Definition TemperatureUnit_name : list (Z * string) :=
  [(0, "TemperatureUnitUnknown");
   (1, "TemperatureUnitFahrenheit");
   (2, "TemperatureUnitCelsius")].
Definition TemperatureUnit_value : list (string * Z) :=
  [("TemperatureUnitUnknown", 0);
   ("TemperatureUnitFahrenheit", 1);
   ("TemperatureUnitCelsius", 2)].
Definition PressureUnit_name : list (Z * string) :=
  [(0, "PressureUnitUnknown");
   (1, "PressureUnitPsi");
   (2, "PressureUnitBar")].
Definition PressureUnit_value : list (string * Z) :=
  [("PressureUnitUnknown", 0);
   ("PressureUnitPsi", 1);
   ("PressureUnitBar", 2)].
Definition ChargeUnitPreference_name : list (Z * string) :=
  [(0, "ChargeUnitUnknown");
   (1, "ChargeUnitDistance");
   (2, "ChargeUnitPercent")].
Definition ChargeUnitPreference_value : list (string * Z) :=
  [("ChargeUnitUnknown", 0);
   ("ChargeUnitDistance", 1);
   ("ChargeUnitPercent", 2)].
Definition SunroofInstalledState_name : list (Z * string) :=
  [(0, "SunroofInstalledStateUnknown");
   (1, "SunroofInstalledStateNotInstalled");
   (2, "SunroofInstalledStateGen1Installed");
   (3, "SunroofInstalledStateGen2Installed")].
Definition SunroofInstalledState_value : list (string * Z) :=
  [("SunroofInstalledStateUnknown", 0);
   ("SunroofInstalledStateNotInstalled", 1);
   ("SunroofInstalledStateGen1Installed", 2);
   ("SunroofInstalledStateGen2Installed", 3)].
Definition TurnSignalState_name : list (Z * string) :=
  [(0, "TurnSignalStateUnknown");
   (1, "TurnSignalStateOff");
   (2, "TurnSignalStateLeft");
   (3, "TurnSignalStateRight");
   (4, "TurnSignalStateBoth")].
Definition TurnSignalState_value : list (string * Z) :=
  [("TurnSignalStateUnknown", 0);
   ("TurnSignalStateOff", 1);
   ("TurnSignalStateLeft", 2);
   ("TurnSignalStateRight", 3);
   ("TurnSignalStateBoth", 4)].
Definition MediaStatus_name : list (Z * string) :=
  [(0, "MediaStatusUnknown");
   (1, "MediaStatusStopped");
   (2, "MediaStatusPlaying");
   (3, "MediaStatusPaused")].
Definition MediaStatus_value : list (string * Z) :=
  [("MediaStatusUnknown", 0);
   ("MediaStatusStopped", 1);
   ("MediaStatusPlaying", 2);
   ("MediaStatusPaused", 3)].
Definition Audience_name : list (Z * string) :=
  [(0, "Unknown");
   (1, "Customer");
   (2, "Service");
   (3, "ServiceFix")].
Definition Audience_value : list (string * Z) :=
  [("Unknown", 0);
   ("Customer", 1);
   ("Service", 2);
   ("ServiceFix", 3)].
Definition ConnectivityEvent_name : list (Z * string) :=
  [(0, "UNKNOWN");
   (1, "CONNECTED");
   (2, "DISCONNECTED")].
Definition ConnectivityEvent_value : list (string * Z) :=
  [("UNKNOWN", 0);
   ("CONNECTED", 1);
   ("DISCONNECTED", 2)].
(** ** The runtime's rendering of an enumeration value

    [EnumStringOf] belongs to the protobuf runtime: it is documented to answer
    the name of a number the enumeration declares and the decimal number
    otherwise.  An enumeration's descriptor is represented by its name table. *)

Definition lookup_name (names : list (Z * string)) (n : Z) : option string :=
  snd <$> find (fun e => Z.eqb (fst e) n) names.

Definition lookup_number (values : list (string * Z)) (s : string) : option Z :=
  snd <$> find (fun e => String.eqb (fst e) s) values.

Class ProtoEnums := {
  EnumStringOf : list (Z * string) -> Z -> string
}.

Section Strings.
Context {PE : ProtoEnums}.

Definition Field_String (x : Z) : string := EnumStringOf Field_name x.
Definition ChargingState_String (x : Z) : string := EnumStringOf ChargingState_name x.
Definition DetailedChargeStateValue_String (x : Z) : string := EnumStringOf DetailedChargeStateValue_name x.
Definition ShiftState_String (x : Z) : string := EnumStringOf ShiftState_name x.
Definition FollowDistance_String (x : Z) : string := EnumStringOf FollowDistance_name x.
Definition ForwardCollisionSensitivity_String (x : Z) : string := EnumStringOf ForwardCollisionSensitivity_name x.
Definition GuestModeMobileAccess_String (x : Z) : string := EnumStringOf GuestModeMobileAccess_name x.
Definition LaneAssistLevel_String (x : Z) : string := EnumStringOf LaneAssistLevel_name x.
Definition ScheduledChargingModeValue_String (x : Z) : string := EnumStringOf ScheduledChargingModeValue_name x.
Definition SentryModeState_String (x : Z) : string := EnumStringOf SentryModeState_name x.
Definition SpeedAssistLevel_String (x : Z) : string := EnumStringOf SpeedAssistLevel_name x.
Definition BMSStateValue_String (x : Z) : string := EnumStringOf BMSStateValue_name x.
Definition BuckleStatus_String (x : Z) : string := EnumStringOf BuckleStatus_name x.
Definition CarTypeValue_String (x : Z) : string := EnumStringOf CarTypeValue_name x.
Definition ChargePortValue_String (x : Z) : string := EnumStringOf ChargePortValue_name x.
Definition ChargePortLatchValue_String (x : Z) : string := EnumStringOf ChargePortLatchValue_name x.
Definition DriveInverterState_String (x : Z) : string := EnumStringOf DriveInverterState_name x.
Definition HvilStatus_String (x : Z) : string := EnumStringOf HvilStatus_name x.
Definition WindowState_String (x : Z) : string := EnumStringOf WindowState_name x.
Definition SeatFoldPosition_String (x : Z) : string := EnumStringOf SeatFoldPosition_name x.
Definition TractorAirStatus_String (x : Z) : string := EnumStringOf TractorAirStatus_name x.
Definition TrailerAirStatus_String (x : Z) : string := EnumStringOf TrailerAirStatus_name x.
Definition HvacAutoModeState_String (x : Z) : string := EnumStringOf HvacAutoModeState_name x.
Definition CabinOverheatProtectionModeState_String (x : Z) : string := EnumStringOf CabinOverheatProtectionModeState_name x.
Definition ClimateOverheatProtectionTempLimit_String (x : Z) : string := EnumStringOf ClimateOverheatProtectionTempLimit_name x.
Definition DefrostModeState_String (x : Z) : string := EnumStringOf DefrostModeState_name x.
Definition ClimateKeeperModeState_String (x : Z) : string := EnumStringOf ClimateKeeperModeState_name x.
Definition HvacPowerState_String (x : Z) : string := EnumStringOf HvacPowerState_name x.
Definition FastCharger_String (x : Z) : string := EnumStringOf FastCharger_name x.
Definition CableType_String (x : Z) : string := EnumStringOf CableType_name x.
Definition TonneauTentModeState_String (x : Z) : string := EnumStringOf TonneauTentModeState_name x.
Definition TonneauPositionState_String (x : Z) : string := EnumStringOf TonneauPositionState_name x.
Definition PowershareState_String (x : Z) : string := EnumStringOf PowershareState_name x.
Definition PowershareStopReasonStatus_String (x : Z) : string := EnumStringOf PowershareStopReasonStatus_name x.
Definition PowershareTypeStatus_String (x : Z) : string := EnumStringOf PowershareTypeStatus_name x.
Definition DisplayState_String (x : Z) : string := EnumStringOf DisplayState_name x.
Definition DistanceUnit_String (x : Z) : string := EnumStringOf DistanceUnit_name x.
Definition TemperatureUnit_String (x : Z) : string := EnumStringOf TemperatureUnit_name x.
Definition PressureUnit_String (x : Z) : string := EnumStringOf PressureUnit_name x.
Definition ChargeUnitPreference_String (x : Z) : string := EnumStringOf ChargeUnitPreference_name x.
Definition SunroofInstalledState_String (x : Z) : string := EnumStringOf SunroofInstalledState_name x.
Definition TurnSignalState_String (x : Z) : string := EnumStringOf TurnSignalState_name x.
Definition MediaStatus_String (x : Z) : string := EnumStringOf MediaStatus_name x.
Definition Audience_String (x : Z) : string := EnumStringOf Audience_name x.
Definition ConnectivityEvent_String (x : Z) : string := EnumStringOf ConnectivityEvent_name x.
End Strings.

(** Every enumeration, with its two tables. *)
Definition all_enums : list (list (Z * string) * list (string * Z)) :=
  [(Field_name, Field_value);
   (ChargingState_name, ChargingState_value);
   (DetailedChargeStateValue_name, DetailedChargeStateValue_value);
   (ShiftState_name, ShiftState_value);
   (FollowDistance_name, FollowDistance_value);
   (ForwardCollisionSensitivity_name, ForwardCollisionSensitivity_value);
   (GuestModeMobileAccess_name, GuestModeMobileAccess_value);
   (LaneAssistLevel_name, LaneAssistLevel_value);
   (ScheduledChargingModeValue_name, ScheduledChargingModeValue_value);
   (SentryModeState_name, SentryModeState_value);
   (SpeedAssistLevel_name, SpeedAssistLevel_value);
   (BMSStateValue_name, BMSStateValue_value);
   (BuckleStatus_name, BuckleStatus_value);
   (CarTypeValue_name, CarTypeValue_value);
   (ChargePortValue_name, ChargePortValue_value);
   (ChargePortLatchValue_name, ChargePortLatchValue_value);
   (DriveInverterState_name, DriveInverterState_value);
   (HvilStatus_name, HvilStatus_value);
   (WindowState_name, WindowState_value);
   (SeatFoldPosition_name, SeatFoldPosition_value);
   (TractorAirStatus_name, TractorAirStatus_value);
   (TrailerAirStatus_name, TrailerAirStatus_value);
   (HvacAutoModeState_name, HvacAutoModeState_value);
   (CabinOverheatProtectionModeState_name, CabinOverheatProtectionModeState_value);
   (ClimateOverheatProtectionTempLimit_name, ClimateOverheatProtectionTempLimit_value);
   (DefrostModeState_name, DefrostModeState_value);
   (ClimateKeeperModeState_name, ClimateKeeperModeState_value);
   (HvacPowerState_name, HvacPowerState_value);
   (FastCharger_name, FastCharger_value);
   (CableType_name, CableType_value);
   (TonneauTentModeState_name, TonneauTentModeState_value);
   (TonneauPositionState_name, TonneauPositionState_value);
   (PowershareState_name, PowershareState_value);
   (PowershareStopReasonStatus_name, PowershareStopReasonStatus_value);
   (PowershareTypeStatus_name, PowershareTypeStatus_value);
   (DisplayState_name, DisplayState_value);
   (DistanceUnit_name, DistanceUnit_value);
   (TemperatureUnit_name, TemperatureUnit_value);
   (PressureUnit_name, PressureUnit_value);
   (ChargeUnitPreference_name, ChargeUnitPreference_value);
   (SunroofInstalledState_name, SunroofInstalledState_value);
   (TurnSignalState_name, TurnSignalState_value);
   (MediaStatus_name, MediaStatus_value);
   (Audience_name, Audience_value);
   (ConnectivityEvent_name, ConnectivityEvent_value)].
#[global] Arguments all_enums : simpl never.

(** ** Properties *)

(** The two tables of an enumeration list each other's entries. *)
Definition tables_inverse (t : list (Z * string) * list (string * Z)) : bool :=
  let '(names, values) := t in
  forallb (fun e => bool_decide (lookup_number values (snd e) = Some (fst e))) names &&
  forallb (fun e => bool_decide (lookup_name names (snd e) = Some (fst e))) values.

Lemma all_enums_checked : forallb tables_inverse all_enums = true.
Proof. vm_compute. reflexivity. Qed.

Lemma lookup_name_elem names n s : lookup_name names n = Some s -> (n, s) ∈ names.
Proof.
  unfold lookup_name. intros ([n' s'] & Hf & Hs)%fmap_Some.
  apply List.find_some in Hf as [Hin Heq%Z.eqb_eq]. simpl in *. subst.
  by apply list_elem_of_In.
Qed.

Lemma lookup_number_elem values s n : lookup_number values s = Some n -> (s, n) ∈ values.
Proof.
  unfold lookup_number. intros ([s' n'] & Hf & Hs)%fmap_Some.
  apply List.find_some in Hf as [Hin Heq%String.eqb_eq]. simpl in *. subst.
  by apply list_elem_of_In.
Qed.

(** In every enumeration the generated name map and value map are
    inverse: a number has a name exactly when the name has that number, so no
    entry is missing from either table, and no name or number is repeated. *)
Theorem enum_tables_inverse names values n s :
  (names, values) ∈ all_enums ->
  lookup_name names n = Some s <-> lookup_number values s = Some n.
Proof.
  intros Hin%list_elem_of_In. pose proof all_enums_checked as Hall.
  rewrite forallb_forall in Hall. apply Hall in Hin.
  unfold tables_inverse in Hin. apply andb_true_iff in Hin as [Hn Hv].
  rewrite forallb_forall in Hn, Hv. split; intros Hl.
  - apply lookup_name_elem, list_elem_of_In, Hn, bool_decide_eq_true in Hl. done.
  - apply lookup_number_elem, list_elem_of_In, Hv, bool_decide_eq_true in Hl. done.
Qed.

Lemma enum_tables_inverse_witness :
  lookup_name ShiftState_name 2 = Some "ShiftStateP" <->
  lookup_number ShiftState_value "ShiftStateP" = Some 2.
Proof.
  apply (enum_tables_inverse ShiftState_name ShiftState_value 2).
  unfold all_enums. do 3 right. left.
Defined.
