(* ===== verification/Protos.v ===== *)
(** * The protobuf messages (protos/*.pb.go)

    The declared fields of the messages the program handles.  A pointer to a
    message is an [option]; the oneof of [Value] is an inductive type with the
    generated wrapper types as constructors, an enumeration inside it is its
    number.  The elements of a repeated field are pointers; those of [Data],
    which the code reads through nil-safe getters, are options.  The runtime's own fields (state, size cache, unknown fields) are
    not represented.  [proto.Marshal], [proto.Unmarshal] and [protojson] belong
    to the runtime: they are the interface [ProtoCodec]. *)

From S2P Require Import Prelude GoStd GoTime ProtoEnums.
Local Open Scope Z_scope.

Record Timestamp := mkTimestamp { Seconds : Z; Nanos : Z }.

Record LocationValue := mkLocationValue { Latitude : spec_float; Longitude : spec_float }.

Record Doors := mkDoors {
  Doors_DriverFront : bool; Doors_DriverRear : bool; Doors_PassengerFront : bool;
  Doors_PassengerRear : bool; Doors_TrunkFront : bool; Doors_TrunkRear : bool
}.

Record TireLocation := mkTireLocation {
  FrontLeft : bool; FrontRight : bool; RearLeft : bool; RearRight : bool;
  SemiMiddleAxleLeft_2 : bool; SemiMiddleAxleRight_2 : bool; SemiRearAxleLeft : bool;
  SemiRearAxleRight : bool; SemiRearAxleLeft_2 : bool; SemiRearAxleRight_2 : bool
}.

Record Time := mkTime { Hour : Z; Minute : Z; Second : Z }.

(** The oneof of [Value]. *)
Inductive isValue_Value :=
| Value_StringValue (v : string)
| Value_IntValue (v : Z)
| Value_LongValue (v : Z)
| Value_FloatValue (v : spec_float)
| Value_DoubleValue (v : spec_float)
| Value_BooleanValue (v : bool)
| Value_LocationValue (v : (option LocationValue))
| Value_ChargingValue (v : Z)
| Value_ShiftStateValue (v : Z)
| Value_Invalid (v : bool)
| Value_LaneAssistLevelValue (v : Z)
| Value_ScheduledChargingModeValue (v : Z)
| Value_SentryModeStateValue (v : Z)
| Value_SpeedAssistLevelValue (v : Z)
| Value_BmsStateValue (v : Z)
| Value_BuckleStatusValue (v : Z)
| Value_CarTypeValue (v : Z)
| Value_ChargePortValue (v : Z)
| Value_ChargePortLatchValue (v : Z)
| Value_DoorValue (v : (option Doors))
| Value_DriveInverterStateValue (v : Z)
| Value_HvilStatusValue (v : Z)
| Value_WindowStateValue (v : Z)
| Value_SeatFoldPositionValue (v : Z)
| Value_TractorAirStatusValue (v : Z)
| Value_FollowDistanceValue (v : Z)
| Value_ForwardCollisionSensitivityValue (v : Z)
| Value_GuestModeMobileAccessValue (v : Z)
| Value_TrailerAirStatusValue (v : Z)
| Value_TimeValue (v : (option Time))
| Value_DetailedChargeStateValue (v : Z)
| Value_HvacAutoModeValue (v : Z)
| Value_CabinOverheatProtectionModeValue (v : Z)
| Value_CabinOverheatProtectionTemperatureLimitValue (v : Z)
| Value_DefrostModeValue (v : Z)
| Value_ClimateKeeperModeValue (v : Z)
| Value_HvacPowerValue (v : Z)
| Value_TireLocationValue (v : (option TireLocation))
| Value_FastChargerValue (v : Z)
| Value_CableTypeValue (v : Z)
| Value_TonneauTentModeValue (v : Z)
| Value_TonneauPositionValue (v : Z)
| Value_PowershareTypeValue (v : Z)
| Value_PowershareStateValue (v : Z)
| Value_PowershareStopReasonValue (v : Z)
| Value_DisplayStateValue (v : Z)
| Value_DistanceUnitValue (v : Z)
| Value_TemperatureUnitValue (v : Z)
| Value_PressureUnitValue (v : Z)
| Value_ChargeUnitPreferenceValue (v : Z)
| Value_TurnSignalStateValue (v : Z)
| Value_MediaStatusValue (v : Z)
| Value_SunroofInstalledStateValue (v : Z).

(** [Value]: its oneof may be unset. *)
Record Value := mkValue { Value_Value : option isValue_Value }.

Record Datum := mkDatum { Datum_Key : Z; Datum_Value : option Value }.

Record Payload := mkPayload {
  Payload_Data : list (option Datum);
  Payload_CreatedAt : option Timestamp;
  Payload_Vin : string;
  Payload_IsResend : bool
}.

Record VehicleAlert := mkVehicleAlert {
  Alert_Name : string;
  Alert_Audiences : list Z;
  Alert_StartedAt : option Timestamp;
  Alert_EndedAt : option Timestamp
}.

Record VehicleAlerts := mkVehicleAlerts {
  Alerts_Alerts : list VehicleAlert;
  Alerts_CreatedAt : option Timestamp;
  Alerts_Vin : string
}.

Record VehicleError := mkVehicleError {
  Error_CreatedAt : option Timestamp;
  Error_Name : string;
  Error_Tags : gmap string string;
  Error_Body : string
}.

Record VehicleErrors := mkVehicleErrors {
  Errors_Errors : list VehicleError;
  Errors_CreatedAt : option Timestamp;
  Errors_Vin : string
}.

Record VehicleConnectivity := mkVehicleConnectivity {
  Connectivity_Vin : string;
  Connectivity_ConnectionId : string;
  Connectivity_Status : Z;
  Connectivity_CreatedAt : option Timestamp;
  Connectivity_NetworkInterface : string
}.

(** [proto.Message] values the program builds. *)
Inductive ProtoMessage :=
| MPayload (m : Payload)
| MVehicleAlerts (m : VehicleAlerts)
| MVehicleErrors (m : VehicleErrors)
| MVehicleConnectivity (m : VehicleConnectivity).

(** The constants of the enumerations the code names. *)
Definition Field_Unknown : Z := 0.
Definition Field_Location : Z := 21.
Definition ConnectivityEvent_UNKNOWN : Z := 0.
Definition ConnectivityEvent_CONNECTED : Z := 1.
Definition ConnectivityEvent_DISCONNECTED : Z := 2.

(** ** Generated getters, which accept nil receivers *)

Definition Datum_GetKey (x : option Datum) : Z :=
  match x with Some d => Datum_Key d | None => Field_Unknown end.

Definition Datum_GetValue (x : option Datum) : option Value :=
  match x with Some d => Datum_Value d | None => None end.

Definition Value_GetValue (x : option Value) : option isValue_Value :=
  match x with Some v => Value_Value v | None => None end.

Definition Value_GetStringValue (x : option Value) : string :=
  match Value_GetValue x with
  | Some (Value_StringValue s) => s
  | _ => EmptyString
  end.

Definition Payload_GetData (x : option Payload) : list (option Datum) :=
  match x with Some p => Payload_Data p | None => [] end.

Definition VehicleAlerts_GetAlerts (x : option VehicleAlerts) : list VehicleAlert :=
  match x with Some a => Alerts_Alerts a | None => [] end.

(** The assignments to the [Vin] field. *)
Definition set_Payload_Vin (vin : string) (m : Payload) : Payload :=
  mkPayload (Payload_Data m) (Payload_CreatedAt m) vin (Payload_IsResend m).
Definition set_Alerts_Vin (vin : string) (m : VehicleAlerts) : VehicleAlerts :=
  mkVehicleAlerts (Alerts_Alerts m) (Alerts_CreatedAt m) vin.
Definition set_Errors_Vin (vin : string) (m : VehicleErrors) : VehicleErrors :=
  mkVehicleErrors (Errors_Errors m) (Errors_CreatedAt m) vin.
Definition set_Connectivity_Vin (vin : string) (m : VehicleConnectivity) : VehicleConnectivity :=
  mkVehicleConnectivity vin (Connectivity_ConnectionId m) (Connectivity_Status m)
    (Connectivity_CreatedAt m) (Connectivity_NetworkInterface m).

Definition message_vin (m : ProtoMessage) : string :=
  match m with
  | MPayload m => Payload_Vin m
  | MVehicleAlerts m => Alerts_Vin m
  | MVehicleErrors m => Errors_Vin m
  | MVehicleConnectivity m => Connectivity_Vin m
  end.

(** ** The protobuf runtime *)

Class ProtoCodec := {
  Unmarshal_Payload : bytes -> result Payload;
  Unmarshal_VehicleAlerts : bytes -> result VehicleAlerts;
  Unmarshal_VehicleErrors : bytes -> result VehicleErrors;
  Unmarshal_VehicleConnectivity : bytes -> result VehicleConnectivity;
  Marshal : ProtoMessage -> result bytes;
  (** [protojson.MarshalOptions.Marshal] with the options of record.go; a nil
      message is [None]. *)
  protojson_Marshal : option ProtoMessage -> result bytes;
  (** [timestamppb.New(time.Unix(sec, nsec))] *)
  timestamppb_New : Z -> Z -> Timestamp;
  (** [x.AsTime()], which accepts a nil timestamp *)
  Timestamp_AsTime : option Timestamp -> GoTime
}.

(** The message a byte string is parsed as, for each message type. *)
Definition unmarshals {PC : ProtoCodec} (b : bytes) (m : ProtoMessage) : Prop :=
  match m with
  | MPayload p => Unmarshal_Payload b = Ok p
  | MVehicleAlerts p => Unmarshal_VehicleAlerts b = Ok p
  | MVehicleErrors p => Unmarshal_VehicleErrors b = Ok p
  | MVehicleConnectivity p => Unmarshal_VehicleConnectivity b = Ok p
  end.

(** A message of the runtime has no nil message below it: every element of
    [Data] is set, and a oneof wrapper of a message holds one.  ([proto.Marshal]
    would write such a nil as an empty message.) *)
Definition wrapper_set (x : isValue_Value) : bool :=
  match x with
  | Value_LocationValue None | Value_DoorValue None | Value_TimeValue None
  | Value_TireLocationValue None => false
  | _ => true
  end.

Definition datum_set (x : option Datum) : bool :=
  match x with
  | None => false
  | Some d => match Value_GetValue (Datum_Value d) with
              | Some w => wrapper_set w
              | None => true
              end
  end.

Definition no_nil_messages (m : ProtoMessage) : bool :=
  match m with
  | MPayload p => forallb datum_set (Payload_Data p)
  | _ => true
  end.

(** The seconds and nanoseconds the getters of a timestamp answer. *)
Definition Timestamp_parts (x : option Timestamp) : Z * Z :=
  match x with Some t => (Seconds t, Nanos t) | None => (0, 0) end.

(** What the code relies on: parsing inverts marshalling, a parsed message has
    no nil messages, and timestamps convert to and from times, whose nanoseconds
    are those of a second. *)
Class ProtoCodecSpec (PC : ProtoCodec) : Prop := {
  unmarshal_marshal m b : no_nil_messages m = true -> Marshal m = Ok b -> unmarshals b m;
  unmarshal_no_nil b m : unmarshals b m -> no_nil_messages m = true;
  timestamppb_New_spec s n :
    - 2 ^ 63 <= s < 2 ^ 63 -> 0 <= n < 10 ^ 9 -> timestamppb_New s n = mkTimestamp s n;
  Timestamp_AsTime_spec x :
    Timestamp_AsTime x = time.Unix (Timestamp_parts x).1 (Timestamp_parts x).2
}.

Class ProtoEnumsSpec (PE : ProtoEnums) : Prop := {
  EnumStringOf_spec names n :
    EnumStringOf names n = default (strconv.Itoa n) (lookup_name names n)
}.
