(* ===== verification/Identity.v ===== *)
(** * Client identities (messages/identity.go)

    A vehicle is identified by its mTLS client certificate: the issuer, the
    extended-key-usage OIDs and the organizational units decide a client type,
    the subject common name gives the device id. *)

From S2P Require Import Prelude GoStd.
Local Open Scope string_scope.

(** The parts of [*x509.Certificate] the code reads; [oid.String()] of
    [asn1.ObjectIdentifier] joins the arcs with dots. *)
Record Certificate := mkCertificate {
  Subject_CommonName : string;
  Subject_OrganizationalUnit : list string;
  Issuer_CommonName : string;
  UnknownExtKeyUsage : list (list Z)
}.

Fixpoint oid_String (oid : list Z) : string :=
  match oid with
  | [] => EmptyString
  | [a] => strconv.Itoa a
  | a :: rest => strconv.Itoa a +:+ "." +:+ oid_String rest
  end.

Definition knownIssuers_entries : list (string * string) :=
  [("TeslaMotors", "vehicle_device");
   ("Tesla Issuing CA", "vehicle_device");
   ("Tesla Motors Products CA", "vehicle_device")].

Definition knownIssuers : gmap string string := list_to_map knownIssuers_entries.

Definition knownOIDIssuers : gset string := list_to_set
  ["Tesla Motors Product Issuing CA";
   "Tesla Motors Product RSA Issuing CA";
   "Tesla Motors GF3 Product Issuing CA";
   "Tesla Motors GF3 Product RSA Issuing CA";
   "Tesla Energy Product Issuing CA";
   "Tesla Energy GF0 Product Issuing CA";
   "Tesla Motors GF0 Product Issuing CA";
   "Tesla Motors GF Austin Product Issuing CA";
   "Tesla Motors GF Berlin Product Issuing CA";
   "Tesla Product Access Issuing CA";
   "Tesla China Product Access Issuing CA";
   "Tesla GF0 Product Access Issuing CA";
   "Tesla GF3 Product Access Issuing CA";
   "Tesla GF Austin Product Access Issuing CA";
   "Tesla GF Berlin Product Access Issuing CA"].

Definition oidMap_entries : list (string * string) :=
  [("1.3.6.1.4.1.49279.2.4.1", "vehicle_device");
   ("1.3.6.1.4.1.49279.2.4.11", "vehicle_board_device");
   ("1.3.6.1.4.1.49279.2.4.2", "energy_device");
   ("1.3.6.1.4.1.49279.2.4.12", "das_device");
   ("1.3.6.1.4.1.49279.2.4.14", "vehicle_service");
   ("1.3.6.1.4.1.49279.2.4.15", "das_service");
   ("1.3.6.1.4.1.49279.2.4.16", "energy_service");
   ("1.3.6.1.4.1.49279.2.4.28", "robotics_device");
   ("1.3.6.1.4.1.49279.2.5.1", "vehicle_device");
   ("1.3.6.1.4.1.49279.2.5.11", "vehicle_board_device");
   ("1.3.6.1.4.1.49279.2.5.2", "energy_device");
   ("1.3.6.1.4.1.49279.2.5.12", "das_device");
   ("1.3.6.1.4.1.49279.2.5.14", "vehicle_service");
   ("1.3.6.1.4.1.49279.2.5.15", "das_service");
   ("1.3.6.1.4.1.49279.2.5.16", "energy_service");
   ("1.3.6.1.4.1.49279.2.5.28", "robotics_device")].

Definition oidMap : gmap string string := list_to_map oidMap_entries.

Definition ouMap_entries : list (string * string) :=
  [("Solar Inverter", "solar_inverter_device");
   ("Gen3 Wall Connector", "wall_connector_device")].

Definition ouMap : gmap string string := list_to_map ouMap_entries.

Definition excludedOIDs : gmap string string := list_to_map
  [("1.3.6.1.4.1.49279.2.5.1.1", "WifiEapCertOID")].

#[global] Arguments knownIssuers : simpl never.
#[global] Arguments oidMap : simpl never.
#[global] Arguments ouMap : simpl never.
#[global] Arguments excludedOIDs : simpl never.

(** [createIdentityFromOU]: the first organizational unit with an override;
    [None] is
    the triple whose first component is [false]. *)
Fixpoint createIdentityFromOU (ous : list string) (deviceID : string)
  : option (string * string) :=
  match ous with
  | [] => None
  | ou :: rest =>
      match ouMap !! ou with
      | Some clientType => Some (clientType, deviceID)
      | None => createIdentityFromOU rest deviceID
      end
  end.

(** [createIdentifyFromOID]: scan the OIDs in certificate order. *)
Fixpoint createIdentifyFromOID_loop (oids : list (list Z)) (ous : list string)
    (deviceID : string) : result (string * string) :=
  match oids with
  | [] => Err ErrUnauthorizedCert
  | oid :: rest =>
      let oidStr := oid_String oid in
      match excludedOIDs !! oidStr with
      | Some _ => Err ErrExcludedCert
      | None =>
          match oidMap !! oidStr with
          | Some clientType =>
              match createIdentityFromOU ous deviceID with
              | Some override => Ok override
              | None => Ok (clientType, deviceID)
              end
          | None => createIdentifyFromOID_loop rest ous deviceID
          end
      end
  end.

Definition createIdentifyFromOID (fullCert : Certificate) (deviceID : string)
  : result (string * string) :=
  createIdentifyFromOID_loop (UnknownExtKeyUsage fullCert)
    (Subject_OrganizationalUnit fullCert) deviceID.

(** [CreateIdentityFromCert] *)
Definition CreateIdentityFromCert (fullCert : Certificate) : result (string * string) :=
  let deviceID := strings.ReplaceAll1 (Subject_CommonName fullCert) "." "-" in
  if decide (Issuer_CommonName fullCert ∈ knownOIDIssuers)
  then createIdentifyFromOID fullCert deviceID
  else
    match knownIssuers !! Issuer_CommonName fullCert with
    | None => Err ErrUnauthorizedCert
    | Some clientType =>
        let clientType :=
          if String.eqb (Issuer_CommonName fullCert) "Tesla Motors Products CA" &&
             match Subject_OrganizationalUnit fullCert with
             | ou :: _ => String.eqb ou "Tesla Motors SN"
             | [] => false
             end
          then "vehicle_board_device" else clientType in
        Ok (clientType, deviceID)
    end.

(** [BuildClientID] *)
Definition BuildClientID (clientType deviceID : string) : string :=
  clientType +:+ "." +:+ deviceID.

(** [ParseSenderID] *)
Definition ParseSenderID (senderID : string) : string * string :=
  match strings.SplitN2 senderID "." with
  | [a; b] => (a, b)
  | a :: _ => (a, EmptyString)
  | [] => (EmptyString, EmptyString)
  end.

(** ** Lemmas *)

(** The client types an identity can have. *)
Definition clientTypes : list string :=
  ["vehicle_device"; "vehicle_board_device"; "energy_device"; "das_device";
   "vehicle_service"; "das_service"; "energy_service"; "robotics_device";
   "solar_inverter_device"; "wall_connector_device"].

Lemma entries_types (es : list (string * string)) k v :
  forallb (fun e => existsb (String.eqb e.2) clientTypes) es = true ->
  (list_to_map es : gmap string string) !! k = Some v -> v ∈ clientTypes.
Proof.
  intros Hall Hv. apply elem_of_list_to_map_2 in Hv.
  rewrite forallb_forall in Hall.
  specialize (Hall _ (proj1 (list_elem_of_In _ _) Hv)).
  apply existsb_exists in Hall as (t & Hin & Ht%String.eqb_eq).
  cbn in Ht. subst. by apply list_elem_of_In.
Qed.

Lemma oidMap_types k v : oidMap !! k = Some v -> v ∈ clientTypes.
Proof. by apply entries_types. Qed.

Lemma ouMap_types k v : ouMap !! k = Some v -> v ∈ clientTypes.
Proof. by apply entries_types. Qed.

Lemma knownIssuers_types k v : knownIssuers !! k = Some v -> v ∈ clientTypes.
Proof. by apply entries_types. Qed.

Lemma clientTypes_no_dot t : t ∈ clientTypes -> occurs "." t = false.
Proof.
  intros Ht. revert t Ht. apply Forall_forall.
  repeat (constructor; [reflexivity|]). constructor.
Qed.

Lemma createIdentityFromOU_spec ous d r :
  createIdentityFromOU ous d = Some r -> r.1 ∈ clientTypes /\ r.2 = d.
Proof.
  induction ous as [|ou ous IH]; cbn; [done|].
  destruct (ouMap !! ou) as [ct|] eqn:E; [|exact IH].
  intros [= <-]. split; [by eapply ouMap_types|done].
Qed.

(** An OID the scan stops at. *)
Definition relevantOID (oid : list Z) : Prop :=
  is_Some (excludedOIDs !! oid_String oid) \/ is_Some (oidMap !! oid_String oid).

#[export] Instance relevantOID_dec oid : Decision (relevantOID oid).
Proof. unfold relevantOID. apply _. Defined.

(** What the scan answers at the OID it stops at. *)
Definition decideOID (ous : list string) (d : string) (oid : list Z)
  : result (string * string) :=
  match excludedOIDs !! oid_String oid, oidMap !! oid_String oid with
  | Some _, _ => Err ErrExcludedCert
  | None, Some ct => Ok (default (ct, d) (createIdentityFromOU ous d))
  | None, None => Err ErrUnauthorizedCert
  end.

Lemma oid_loop_spec oids ous d :
  createIdentifyFromOID_loop oids ous d =
  match list_find relevantOID oids with
  | Some (_, oid) => decideOID ous d oid
  | None => Err ErrUnauthorizedCert
  end.
Proof.
  induction oids as [|oid oids IH]; cbn; [done|].
  unfold decideOID. case_decide as Hr; cbn.
  - destruct (excludedOIDs !! oid_String oid) eqn:Ex; [done|].
    destruct (oidMap !! oid_String oid) as [ct|] eqn:Em.
    + by destruct (createIdentityFromOU ous d).
    + destruct Hr as [[? ?]|[? ?]]; congruence.
  - apply Decidable.not_or in Hr as [Hex Hm].
    rewrite <- eq_None_not_Some in Hex, Hm. rewrite Hex, Hm, IH.
    by destruct (list_find relevantOID oids) as [[]|].
Qed.

Lemma decideOID_ok ous d oid t d' :
  decideOID ous d oid = Ok (t, d') -> t ∈ clientTypes /\ d' = d.
Proof.
  unfold decideOID. destruct (excludedOIDs !! _); [done|].
  destruct (oidMap !! _) as [ct|] eqn:Em; [|done].
  destruct (createIdentityFromOU ous d) as [r|] eqn:Eo; cbn; intros [= H].
  - subst r. by apply createIdentityFromOU_spec in Eo.
  - subst. split; [by eapply oidMap_types|done].
Qed.

Lemma CreateIdentityFromCert_ok cert t d :
  CreateIdentityFromCert cert = Ok (t, d) ->
  t ∈ clientTypes /\ d = strings.ReplaceAll1 (Subject_CommonName cert) "." "-".
Proof.
  unfold CreateIdentityFromCert, createIdentifyFromOID. case_decide.
  - rewrite oid_loop_spec. destruct (list_find _ _) as [[i oid]|]; [|done].
    apply decideOID_ok.
  - destruct (knownIssuers !! _) as [ct|] eqn:E; [|done].
    intros [= <- <-]. split; [|done].
    destruct (_ && _); [|by eapply knownIssuers_types]. apply list_elem_of_In. cbn. auto.
Qed.

Lemma ParseSenderID_BuildClientID t d :
  occurs "." t = false -> ParseSenderID (BuildClientID t d) = (t, d).
Proof.
  intros Ht. unfold ParseSenderID, strings.SplitN2.
  change (BuildClientID t d) with (t +:+ String "." d).
  by rewrite (cut_app t "." d Ht).
Qed.

(** ** Properties *)

(** C35: a certificate that is accepted gets a client type of the closed list
    and a device id without dots, so that the sender id built from them is
    split back by [ParseSenderID] into exactly the same two halves: no subject
    common name can make one identity's sender id read as another's. *)
Theorem identity_sender_id_roundtrip cert clientType deviceID :
  CreateIdentityFromCert cert = Ok (clientType, deviceID) ->
  clientType ∈ clientTypes /\
  occurs "." deviceID = false /\
  ParseSenderID (BuildClientID clientType deviceID) = (clientType, deviceID).
Proof.
  intros [Ht ->]%CreateIdentityFromCert_ok. repeat split.
  - done.
  - by apply occurs_ReplaceAll1.
  - by apply ParseSenderID_BuildClientID, clientTypes_no_dot.
Qed.

Definition sample_vehicle_cert : Certificate :=
  mkCertificate "VIN.42" [] "Tesla Motors Product Issuing CA"
    [[1; 2; 3]; [1; 3; 6; 1; 4; 1; 49279; 2; 5; 1]]%Z.

Lemma identity_sender_id_roundtrip_witness :
  CreateIdentityFromCert sample_vehicle_cert = Ok ("vehicle_device", "VIN-42") /\
  ParseSenderID (BuildClientID "vehicle_device" "VIN-42") = ("vehicle_device", "VIN-42").
Proof.
  assert (H : CreateIdentityFromCert sample_vehicle_cert
              = Ok ("vehicle_device", "VIN-42")) by (vm_compute; reflexivity).
  split; [exact H|].
  exact (proj2 (proj2 (identity_sender_id_roundtrip _ _ _ H))).
Defined.

(** For a certificate of an OID issuer, the first OID, in certificate
    order, that is excluded or mapped decides alone: an excluded one refuses
    the certificate, a mapped one accepts it with the organizational-unit
    override when there is one, and a certificate with no such OID is
    unauthorized.  Issuers outside both tables are always unauthorized. *)
Theorem identity_first_relevant_oid cert :
  (Issuer_CommonName cert ∈ knownOIDIssuers ->
   CreateIdentityFromCert cert =
   match list_find relevantOID (UnknownExtKeyUsage cert) with
   | Some (_, oid) =>
       decideOID (Subject_OrganizationalUnit cert)
         (strings.ReplaceAll1 (Subject_CommonName cert) "." "-") oid
   | None => Err ErrUnauthorizedCert
   end) /\
  (Issuer_CommonName cert ∉ knownOIDIssuers ->
   knownIssuers !! Issuer_CommonName cert = None ->
   CreateIdentityFromCert cert = Err ErrUnauthorizedCert).
Proof.
  unfold CreateIdentityFromCert, createIdentifyFromOID. split.
  - intros Hin. rewrite decide_True by done. apply oid_loop_spec.
  - intros Hout Hnone. by rewrite decide_False, Hnone.
Qed.

(** A certificate that carries an excluded OID {e after} an accepted one. *)
Definition sample_excluded_later : Certificate :=
  mkCertificate "VIN42" [] "Tesla Motors Product Issuing CA"
    [[1; 3; 6; 1; 4; 1; 49279; 2; 5; 1]; [1; 3; 6; 1; 4; 1; 49279; 2; 5; 1; 1]]%Z.

Lemma identity_first_relevant_oid_witness :
  CreateIdentityFromCert sample_excluded_later = Ok ("vehicle_device", "VIN42").
Proof.
  refine (eq_trans (proj1 (identity_first_relevant_oid sample_excluded_later) _) _).
  - vm_compute. reflexivity.
  - vm_compute. reflexivity.
Defined.
