(* ===== verification/Flatbuffers.v ===== *)
(** * The FlatBuffers runtime and the generated envelope and stream tables

    The runtime (github.com/google/flatbuffers/go) is not part of the
    repository: it is the interface [FlatbuffersLib].  What the code relies on
    is [FlatbuffersSpec]: the documented heap discipline of a builder (offsets
    of finished objects stay valid, a table keeps the fields prepended to it,
    a field equal to its default is left out) and the reading side of a
    finished buffer.  The accessors and builders below are the generated code
    of messages/tesla/ that the messages use, and its extension file; the
    element accessors, mutators and vector builders are in [FbElements]. *)

From S2P Require Import Prelude.

(** [flatbuffers.Table]: a buffer and the position of a table in it. *)
Record Table := mkTable { Table_Bytes : bytes; Table_Pos : Z }.

#[export] Instance Table_eq_dec : EqDecision Table.
Proof. solve_decision. Defined.

Class FlatbuffersLib := {
  GetUOffsetT : bytes -> outcome Z;
  Table_Offset : Table -> Z -> outcome Z;
  Table_ByteVector : Table -> Z -> outcome bytes;
  Table_GetByte : Table -> Z -> outcome Z;
  Table_GetUint32 : Table -> Z -> outcome Z;
  Table_GetUint64 : Table -> Z -> outcome Z;
  Table_Union : Table -> Z -> outcome Table;
  Builder : Type;
  NewBuilder : Z -> Builder;
  CreateByteString : bytes -> Builder -> outcome (Z * Builder);
  StartObject : Z -> Builder -> outcome Builder;
  PrependByteSlot : Z -> Z -> Z -> Builder -> outcome Builder;
  PrependUint32Slot : Z -> Z -> Z -> Builder -> outcome Builder;
  PrependUint64Slot : Z -> Z -> Z -> Builder -> outcome Builder;
  PrependUOffsetTSlot : Z -> Z -> Z -> Builder -> outcome Builder;
  EndObject : Builder -> outcome (Z * Builder);
  Finish : Z -> Builder -> outcome Builder;
  FinishedBytes : Builder -> bytes
}.

(** ** What the runtime promises *)

(** A field of a table: an inline scalar or a reference to another object. *)
Inductive fbfield :=
| FByte (n : Z)
| FUint32 (n : Z)
| FUint64 (n : Z)
| FRef (off : Z).

(** A finished object: a byte string or a table of optional fields. *)
Inductive fbobj :=
| OBytes (s : bytes)
| OTable (slots : list (option fbfield)).

#[export] Instance fbfield_eq_dec : EqDecision fbfield.
Proof. solve_decision. Defined.
#[export] Instance fbobj_eq_dec : EqDecision fbobj.
Proof. solve_decision. Defined.

(** Builders never panic below this size (the buffer may double up to 2 GB). *)
Definition fb_capacity : Z := 2 ^ 30.
(** No single operation writes more than this beyond its argument's bytes. *)
Definition fb_overhead : Z := 64.

Definition zlength {A} (l : list A) : Z := Z.of_nat (length l).

(** [set_slot i f d slots]: the effect of the slot-prepending operations. *)
Definition set_slot (i : Z) (f : fbfield) (is_default : bool)
    (slots : list (option fbfield)) : list (option fbfield) :=
  if is_default then slots else <[Z.to_nat i := Some f]> slots.

(** A slot of a scalar: it may be absent when the scalar is the default. *)
Definition scalar_slot (f : fbfield) (x : Z) (slot : option fbfield) : Prop :=
  slot = Some f \/ slot = None /\ x = 0%Z.

(** [slot_reads heap buf place o i f]: in the finished buffer [buf], where object
    [o] lies at [place o], the vtable entry of slot [i] of table [o] answers the
    field [f] of the slot. *)
Definition slot_reads {L : FlatbuffersLib} (heap : Z -> option fbobj) (buf : bytes)
    (place : Z -> Z) (o : Z) (i : nat) (f : option (option fbfield)) : Prop :=
  let t := mkTable buf (place o) in
  match f with
  | Some (Some f) =>
      exists v, Table_Offset t (4 + 2 * Z.of_nat i) = Ret v /\
        (0 < v)%Z /\ (v + place o < 2 ^ 32)%Z /\
        match f with
        | FByte n => Table_GetByte t (v + place o) = Ret n
        | FUint32 n => Table_GetUint32 t (v + place o) = Ret n
        | FUint64 n => Table_GetUint64 t (v + place o) = Ret n
        | FRef r =>
            (forall s, heap r = Some (OBytes s) ->
              Table_ByteVector t (v + place o) = Ret s) /\
            Table_Union t v = Ret (mkTable buf (place r))
        end
  | _ => Table_Offset t (4 + 2 * Z.of_nat i) = Ret 0%Z
  end.

Class FlatbuffersSpec (L : FlatbuffersLib) := {
  fb_wf : Builder -> Prop;
  fb_heap : Builder -> Z -> option fbobj;
  fb_open : Builder -> option (list (option fbfield));
  fb_size : Builder -> Z;
  (** A finished buffer holds the objects of a heap, each at its place, and the
      place of the root. *)
  fb_buffer : (Z -> option fbobj) -> Z -> bytes -> (Z -> Z) -> Prop;

  fb_new n : (0 <= n)%Z ->
    fb_wf (NewBuilder n) /\ fb_open (NewBuilder n) = None /\ fb_size (NewBuilder n) = 0%Z;

  fb_string s b : fb_wf b -> fb_open b = None ->
    (fb_size b + zlength s + fb_overhead <= fb_capacity)%Z ->
    exists off b', CreateByteString s b = Ret (off, b') /\
      fb_wf b' /\ fb_open b' = None /\ (0 < off)%Z /\ fb_heap b off = None /\
      fb_heap b' off = Some (OBytes s) /\
      (forall o x, fb_heap b o = Some x -> fb_heap b' o = Some x) /\
      (fb_size b' <= fb_size b + zlength s + fb_overhead)%Z;

  fb_start n b : fb_wf b -> fb_open b = None -> (0 <= n <= 16)%Z ->
    exists b', StartObject n b = Ret b' /\
      fb_wf b' /\ fb_open b' = Some (replicate (Z.to_nat n) None) /\
      fb_heap b' = fb_heap b /\ fb_size b' = fb_size b;

  fb_slot i x d b slots : fb_wf b -> fb_open b = Some slots ->
    (0 <= i < zlength slots)%Z -> (fb_size b + fb_overhead <= fb_capacity)%Z ->
    let effect (op : outcome Builder) (f : fbfield) :=
      exists b', op = Ret b' /\
        fb_wf b' /\ fb_open b' = Some (set_slot i f (x =? d)%Z slots) /\
        fb_heap b' = fb_heap b /\ (fb_size b' <= fb_size b + fb_overhead)%Z in
    ((0 <= x < 2 ^ 8)%Z -> effect (PrependByteSlot i x d b) (FByte x)) /\
    ((0 <= x < 2 ^ 32)%Z -> effect (PrependUint32Slot i x d b) (FUint32 x)) /\
    ((0 <= x < 2 ^ 64)%Z -> effect (PrependUint64Slot i x d b) (FUint64 x)) /\
    (is_Some (fb_heap b x) -> effect (PrependUOffsetTSlot i x d b) (FRef x));

  fb_end b slots : fb_wf b -> fb_open b = Some slots ->
    (fb_size b + fb_overhead <= fb_capacity)%Z ->
    exists off b', EndObject b = Ret (off, b') /\
      fb_wf b' /\ fb_open b' = None /\ (0 < off)%Z /\
      fb_heap b' off = Some (OTable slots) /\
      (forall o x, fb_heap b o = Some x -> fb_heap b' o = Some x) /\
      (fb_size b' <= fb_size b + fb_overhead)%Z;

  fb_finish root b : fb_wf b -> fb_open b = None -> is_Some (fb_heap b root) ->
    (fb_size b + fb_overhead <= fb_capacity)%Z ->
    exists b' place, Finish root b = Ret b' /\ fb_buffer (fb_heap b) root (FinishedBytes b') place;

  fb_root heap root buf place : fb_buffer heap root buf place ->
    buf <> [] /\ GetUOffsetT buf = Ret (place root);

  fb_place heap root buf place o : fb_buffer heap root buf place -> is_Some (heap o) ->
    (0 <= place o < 2 ^ 32)%Z;

  fb_slots heap root buf place o slots i : fb_buffer heap root buf place ->
    heap o = Some (OTable slots) -> slot_reads heap buf place o i (slots !! i)
}.

(** ** The generated tables *)

(** The message kinds of messages/tesla/Message.go. *)
Definition MessageNONE : Z := 0.
Definition MessageFlatbuffersStream : Z := 4.
Definition MessageFlatbuffersStreamAck : Z := 5.

Definition EnumNamesMessage : gmap Z string := list_to_map
  [(MessageNONE, "NONE"); (MessageFlatbuffersStream, "FlatbuffersStream");
   (MessageFlatbuffersStreamAck, "FlatbuffersStreamAck")]%string.

Section Generated.
Context {FB : FlatbuffersLib}.
Local Open Scope Z_scope.

(** The shape shared by every generated getter: look the vtable entry up,
    answer the default when the field is absent. *)
Definition field_or {A} (dflt : A) (get : Z -> outcome A) (t : Table) (vt : Z)
  : outcome A :=
  v ← Table_Offset t vt;
  let o := u32 v in
  if o =? 0 then Ret dflt else get o.

Definition bytes_field (t : Table) (vt : Z) : outcome bytes :=
  field_or [] (fun o => Table_ByteVector t (u32 (o + Table_Pos t))) t vt.

(** [buf[offset:]], which panics when the offset is beyond the buffer. *)
Definition slice_from (buf : bytes) (offset : Z) : outcome bytes :=
  if offset <=? zlength buf then Ret (drop (Z.to_nat offset) buf)
  else Panic "slice bounds out of range".

Definition GetRootAsTable (buf : bytes) (offset : Z) : outcome Table :=
  tail ← slice_from buf offset;
  n ← GetUOffsetT tail;
  Ret (mkTable buf (u32 (n + offset))).

(** FlatbuffersEnvelope.go: txid, topic, message type, message union, id. *)
Definition GetRootAsFlatbuffersEnvelope := GetRootAsTable.
Definition Envelope_TxidBytes (rcv : Table) : outcome bytes := bytes_field rcv 4.
Definition Envelope_TopicBytes (rcv : Table) : outcome bytes := bytes_field rcv 6.
Definition Envelope_MessageType (rcv : Table) : outcome Z :=
  field_or 0 (fun o => Table_GetByte rcv (u32 (o + Table_Pos rcv))) rcv 8.
(** [Message(obj)] fills [obj]; [None] stands for the answer [false]. *)
Definition Envelope_Message (rcv : Table) : outcome (option Table) :=
  field_or None (fun o => Some <$> Table_Union rcv o) rcv 10.
Definition Envelope_MessageIdBytes (rcv : Table) : outcome bytes := bytes_field rcv 12.

Definition FlatbuffersEnvelopeStart (b : Builder) := StartObject 5 b.
Definition FlatbuffersEnvelopeAddTxid (x : Z) (b : Builder) := PrependUOffsetTSlot 0 x 0 b.
Definition FlatbuffersEnvelopeAddTopic (x : Z) (b : Builder) := PrependUOffsetTSlot 1 x 0 b.
Definition FlatbuffersEnvelopeAddMessageType (x : Z) (b : Builder) := PrependByteSlot 2 x 0 b.
Definition FlatbuffersEnvelopeAddMessage (x : Z) (b : Builder) := PrependUOffsetTSlot 3 x 0 b.
Definition FlatbuffersEnvelopeAddMessageId (x : Z) (b : Builder) := PrependUOffsetTSlot 4 x 0 b.
Definition FlatbuffersEnvelopeEnd (b : Builder) := EndObject b.

(** FlatbuffersStream.go: created at, sender id, payload, device type,
    device id, delivered at. *)
Definition Stream_CreatedAt (rcv : Table) : outcome Z :=
  field_or 0 (fun o => Table_GetUint32 rcv (u32 (o + Table_Pos rcv))) rcv 4.
Definition Stream_SenderIdBytes (rcv : Table) : outcome bytes := bytes_field rcv 6.
Definition Stream_PayloadBytes (rcv : Table) : outcome bytes := bytes_field rcv 8.
Definition Stream_DeviceTypeBytes (rcv : Table) : outcome bytes := bytes_field rcv 10.
Definition Stream_DeviceIdBytes (rcv : Table) : outcome bytes := bytes_field rcv 12.
Definition Stream_DeliveredAtEpochMs (rcv : Table) : outcome Z :=
  field_or 0 (fun o => Table_GetUint64 rcv (u32 (o + Table_Pos rcv))) rcv 14.

Definition GetRootAsFlatbuffersStream := GetRootAsTable.
Definition NewFlatbuffersStream := GetRootAsTable.

Definition FlatbuffersStreamStart (b : Builder) := StartObject 6 b.
Definition FlatbuffersStreamAddCreatedAt (x : Z) (b : Builder) := PrependUint32Slot 0 x 0 b.
Definition FlatbuffersStreamAddSenderId (x : Z) (b : Builder) := PrependUOffsetTSlot 1 x 0 b.
Definition FlatbuffersStreamAddPayload (x : Z) (b : Builder) := PrependUOffsetTSlot 2 x 0 b.
Definition FlatbuffersStreamAddDeviceType (x : Z) (b : Builder) := PrependUOffsetTSlot 3 x 0 b.
Definition FlatbuffersStreamAddDeviceId (x : Z) (b : Builder) := PrependUOffsetTSlot 4 x 0 b.
Definition FlatbuffersStreamAddDeliveredAtEpochMs (x : Z) (b : Builder) :=
  PrependUint64Slot 5 x 0 b.
Definition FlatbuffersStreamEnd (b : Builder) := EndObject b.

(** FlatbuffersStreamAck.go: a table without fields. *)
Definition GetRootAsFlatbuffersStreamAck := GetRootAsTable.
Definition NewFlatbuffersStreamAck := GetRootAsTable.
Definition FlatbuffersStreamAckStart (b : Builder) := StartObject 0 b.
Definition FlatbuffersStreamAckEnd (b : Builder) := EndObject b.

(** ** flatbuffers_extension.go *)

Definition FlatbuffersEnvelopeToBytes (b : Builder) (txid topic : bytes) (msg : Z)
    (messageID : bytes) (msgType : Z) : outcome bytes :=
  '(txidVector, b) ← CreateByteString txid b;
  '(topicVector, b) ← CreateByteString topic b;
  '(messageIDVector, b) ← CreateByteString messageID b;
  b ← FlatbuffersEnvelopeStart b;
  b ← FlatbuffersEnvelopeAddTxid txidVector b;
  b ← FlatbuffersEnvelopeAddTopic topicVector b;
  b ← FlatbuffersEnvelopeAddMessageType msgType b;
  b ← FlatbuffersEnvelopeAddMessage msg b;
  b ← FlatbuffersEnvelopeAddMessageId messageIDVector b;
  '(msgPosition, b) ← FlatbuffersEnvelopeEnd b;
  b ← Finish msgPosition b;
  Ret (FinishedBytes b).

(** [FlatbuffersEnvelopeFromBytes]; the error text quotes the value. *)
Definition FlatbuffersEnvelopeFromBytes (value : bytes) : outcome (result (Table * Table)) :=
  if decide (value = [])
  then Ret (Err (ErrorString "cannot serialize into message(empty message)"))
  else
    envelope ← GetRootAsFlatbuffersEnvelope value 0;
    union ← Envelope_Message envelope;
    match union with
    | None => Ret (Err (ErrorString "cannot serialize into Message"))
    | Some unionTable => Ret (Ok (envelope, unionTable))
    end.

Definition FlatbuffersStreamToBytes (senderID topic txid payload : bytes)
    (createdAt : Z) (messageID deviceType deviceID : bytes)
    (deliveredAtEpochMs : Z) : outcome bytes :=
  let b := NewBuilder 0 in
  '(senderIDVector, b) ← CreateByteString senderID b;
  '(payloadVector, b) ← CreateByteString payload b;
  '(deviceTypeVector, b) ← CreateByteString deviceType b;
  '(deviceIDVector, b) ← CreateByteString deviceID b;
  b ← FlatbuffersStreamStart b;
  b ← FlatbuffersStreamAddSenderId senderIDVector b;
  b ← FlatbuffersStreamAddCreatedAt createdAt b;
  b ← FlatbuffersStreamAddPayload payloadVector b;
  b ← FlatbuffersStreamAddDeviceType deviceTypeVector b;
  b ← FlatbuffersStreamAddDeviceId deviceIDVector b;
  b ← FlatbuffersStreamAddDeliveredAtEpochMs deliveredAtEpochMs b;
  '(message, b) ← FlatbuffersStreamEnd b;
  FlatbuffersEnvelopeToBytes b txid topic message messageID MessageFlatbuffersStream.

(** [(fsm *FlatbuffersStream) ToBytes(envelope)] *)
Definition FlatbuffersStream_ToBytes (fsm envelope : Table) : outcome bytes :=
  senderID ← Stream_SenderIdBytes fsm;
  topic ← Envelope_TopicBytes envelope;
  txid ← Envelope_TxidBytes envelope;
  payload ← Stream_PayloadBytes fsm;
  createdAt ← Stream_CreatedAt fsm;
  messageID ← Envelope_MessageIdBytes envelope;
  deviceType ← Stream_DeviceTypeBytes fsm;
  deviceID ← Stream_DeviceIdBytes fsm;
  deliveredAt ← Stream_DeliveredAtEpochMs fsm;
  FlatbuffersStreamToBytes senderID topic txid payload createdAt messageID
    deviceType deviceID deliveredAt.

Definition FlatbuffersStreamAckToBytes (txid topic messageID : bytes) : outcome bytes :=
  let b := NewBuilder 0 in
  '(empty, b) ← CreateByteString [] b;
  FlatbuffersEnvelopeToBytes b txid topic empty messageID MessageFlatbuffersStreamAck.
End Generated.

(** ** Lemmas *)

Section Laws.
Context {FB : FlatbuffersLib} {FS : FlatbuffersSpec FB}.
Local Open Scope Z_scope.

Lemma zlength_nonneg {A} (l : list A) : 0 <= zlength l.
Proof. unfold zlength. lia. Qed.

(** [b_at b sl n]: a well-formed builder, [sl] the open table if any, of at
    most [n] bytes. *)
Definition b_at (b : Builder) (sl : option (list (option fbfield))) (n : Z) : Prop :=
  fb_wf b /\ fb_open b = sl /\ fb_size b <= n.

Definition extends (b b' : Builder) : Prop :=
  forall o x, fb_heap b o = Some x -> fb_heap b' o = Some x.

#[export] Instance extends_preorder : PreOrder extends.
Proof. split; red; unfold extends; eauto. Qed.

Lemma extends_some b b' o : extends b b' -> is_Some (fb_heap b o) -> is_Some (fb_heap b' o).
Proof. intros H [x Hx]. eexists. by apply H. Qed.

Lemma fresh_before b b' o : extends b b' -> fb_heap b' o = None -> fb_heap b o = None.
Proof. intros H Hn. destruct (fb_heap b o) eqn:E; [|done]. apply H in E. congruence. Qed.

Lemma fresh_ne b x y : is_Some (fb_heap b x) -> fb_heap b y = None -> x <> y.
Proof. intros [v Hv] Hn ->. congruence. Qed.

Lemma string_step b n s :
  b_at b None n -> n + zlength s + fb_overhead <= fb_capacity ->
  exists off b', CreateByteString s b = Ret (off, b') /\
    b_at b' None (n + zlength s + fb_overhead) /\ extends b b' /\ 0 < off /\
    fb_heap b off = None /\ fb_heap b' off = Some (OBytes s).
Proof.
  intros (Hw & Ho & Hn) Hc.
  destruct (fb_string s b Hw Ho) as (off & b' & E & Hw' & Ho' & Hp & Hn' & Hh & Hx & Hs); [lia|].
  exists off, b'. repeat split; try done. lia.
Qed.

Lemma start_step b n k :
  b_at b None n -> 0 <= k <= 16 ->
  exists b', StartObject k b = Ret b' /\
    b_at b' (Some (replicate (Z.to_nat k) None)) n /\ extends b b'.
Proof.
  intros (Hw & Ho & Hn) Hk.
  destruct (fb_start k b Hw Ho Hk) as (b' & E & Hw' & Ho' & Hh & Hs).
  exists b'. repeat split; try done; [lia|]. intros o x. by rewrite Hh.
Qed.

Lemma ref_step b n i x d slots :
  b_at b (Some slots) n -> 0 <= i < zlength slots ->
  n + fb_overhead <= fb_capacity -> is_Some (fb_heap b x) ->
  exists b', PrependUOffsetTSlot i x d b = Ret b' /\
    b_at b' (Some (set_slot i (FRef x) (x =? d) slots)) (n + fb_overhead) /\ extends b b'.
Proof.
  intros (Hw & Ho & Hn) Hi Hc Hx.
  destruct (fb_slot i x d b slots Hw Ho Hi ltac:(lia)) as (_ & _ & _ & H).
  destruct (H Hx) as (b' & E & Hw' & Ho' & Hh & Hs).
  exists b'. repeat split; try done; [lia|]. intros o y. by rewrite Hh.
Qed.

Lemma byte_step b n i x d slots :
  b_at b (Some slots) n -> 0 <= i < zlength slots -> n + fb_overhead <= fb_capacity ->
  0 <= x < 2 ^ 8 ->
  exists b', PrependByteSlot i x d b = Ret b' /\
    b_at b' (Some (set_slot i (FByte x) (x =? d) slots)) (n + fb_overhead) /\ extends b b'.
Proof.
  intros (Hw & Ho & Hn) Hi Hc Hx.
  destruct (fb_slot i x d b slots Hw Ho Hi ltac:(lia)) as (H & _ & _ & _).
  destruct (H Hx) as (b' & E & Hw' & Ho' & Hh & Hs).
  exists b'. repeat split; try done; [lia|]. intros o y. by rewrite Hh.
Qed.

Lemma uint32_step b n i x d slots :
  b_at b (Some slots) n -> 0 <= i < zlength slots -> n + fb_overhead <= fb_capacity ->
  0 <= x < 2 ^ 32 ->
  exists b', PrependUint32Slot i x d b = Ret b' /\
    b_at b' (Some (set_slot i (FUint32 x) (x =? d) slots)) (n + fb_overhead) /\ extends b b'.
Proof.
  intros (Hw & Ho & Hn) Hi Hc Hx.
  destruct (fb_slot i x d b slots Hw Ho Hi ltac:(lia)) as (_ & H & _ & _).
  destruct (H Hx) as (b' & E & Hw' & Ho' & Hh & Hs).
  exists b'. repeat split; try done; [lia|]. intros o y. by rewrite Hh.
Qed.

Lemma uint64_step b n i x d slots :
  b_at b (Some slots) n -> 0 <= i < zlength slots -> n + fb_overhead <= fb_capacity ->
  0 <= x < 2 ^ 64 ->
  exists b', PrependUint64Slot i x d b = Ret b' /\
    b_at b' (Some (set_slot i (FUint64 x) (x =? d) slots)) (n + fb_overhead) /\ extends b b'.
Proof.
  intros (Hw & Ho & Hn) Hi Hc Hx.
  destruct (fb_slot i x d b slots Hw Ho Hi ltac:(lia)) as (_ & _ & H & _).
  destruct (H Hx) as (b' & E & Hw' & Ho' & Hh & Hs).
  exists b'. repeat split; try done; [lia|]. intros o y. by rewrite Hh.
Qed.

Lemma end_step b n slots :
  b_at b (Some slots) n -> n + fb_overhead <= fb_capacity ->
  exists off b', EndObject b = Ret (off, b') /\
    b_at b' None (n + fb_overhead) /\ extends b b' /\ 0 < off /\
    fb_heap b' off = Some (OTable slots).
Proof.
  intros (Hw & Ho & Hn) Hc.
  destruct (fb_end b slots Hw Ho ltac:(lia)) as (off & b' & E & Hw' & Ho' & Hp & Hh & Hx & Hs).
  exists off, b'. repeat split; try done. lia.
Qed.

Lemma finish_step b n root :
  b_at b None n -> is_Some (fb_heap b root) -> n + fb_overhead <= fb_capacity ->
  exists b' place, Finish root b = Ret b' /\ fb_buffer (fb_heap b) root (FinishedBytes b') place.
Proof. intros (Hw & Ho & Hn) Hr Hc. apply fb_finish; [done..|lia]. Qed.

(** *** Reading a finished buffer *)

Section Reading.
Context (heap : Z -> option fbobj) (buf : bytes) (place : Z -> Z).

Lemma absent_reads {A} (d : A) get o i f :
  slot_reads heap buf place o i f -> f = None \/ f = Some None ->
  field_or d get (mkTable buf (place o)) (4 + 2 * Z.of_nat i) = Ret d.
Proof.
  unfold slot_reads, field_or. intros H [-> | ->]; by rewrite H.
Qed.

Lemma present_reads {A} (d : A) get o i f :
  0 <= place o ->
  slot_reads heap buf place o i (Some (Some f)) ->
  exists v, field_or d get (mkTable buf (place o)) (4 + 2 * Z.of_nat i) = get v /\
  u32 (v + place o) = v + place o /\
  match f with
  | FByte n => Table_GetByte (mkTable buf (place o)) (v + place o) = Ret n
  | FUint32 n => Table_GetUint32 (mkTable buf (place o)) (v + place o) = Ret n
  | FUint64 n => Table_GetUint64 (mkTable buf (place o)) (v + place o) = Ret n
  | FRef r =>
        (forall s, heap r = Some (OBytes s) ->
          Table_ByteVector (mkTable buf (place o)) (v + place o) = Ret s) /\
        Table_Union (mkTable buf (place o)) v = Ret (mkTable buf (place r))
  end.
Proof.
  intros Hp (v & E & Hv & Hb & Hf). exists v.
  unfold field_or. rewrite E. simpl. rewrite u32_small by lia.
  rewrite (proj2 (Z.eqb_neq v 0)) by lia. rewrite u32_small by lia. done.
Qed.

Lemma bytes_reads o i r s :
  0 <= place o -> heap r = Some (OBytes s) ->
  slot_reads heap buf place o i (Some (Some (FRef r))) ->
  bytes_field (mkTable buf (place o)) (4 + 2 * Z.of_nat i) = Ret s.
Proof.
  intros Hp Hr H. unfold bytes_field.
  set (get := fun o => _).
  destruct (present_reads [] get o i _ Hp H) as (v & E & Hu & Hs & _).
  rewrite E. unfold get. cbn [Table_Pos]. rewrite Hu. by apply Hs.
Qed.

Lemma byte_reads o i x :
  0 <= place o -> slot_reads heap buf place o i (Some (Some (FByte x))) ->
  let t := mkTable buf (place o) in
  field_or 0 (fun v => Table_GetByte t (u32 (v + Table_Pos t))) t (4 + 2 * Z.of_nat i) = Ret x.
Proof.
  intros Hp H t. set (get := fun v => _).
  destruct (present_reads 0 get o i _ Hp H) as (v & E & Hu & Hs).
  unfold t. rewrite E. unfold get, t. cbn [Table_Pos]. by rewrite Hu.
Qed.

Lemma uint32_reads o i x f :
  0 <= place o ->
  scalar_slot (FUint32 x) x f -> slot_reads heap buf place o i (Some f) ->
  let t := mkTable buf (place o) in
  field_or 0 (fun v => Table_GetUint32 t (u32 (v + Table_Pos t))) t (4 + 2 * Z.of_nat i) = Ret x.
Proof.
  intros Hp [->|[-> ->]] H t; [|by eapply absent_reads; [exact H|right]].
  set (get := fun v => _). destruct (present_reads 0 get o i _ Hp H) as (v & E & Hu & Hs).
  unfold t. rewrite E. unfold get, t. cbn [Table_Pos]. by rewrite Hu.
Qed.

Lemma uint64_reads o i x f :
  0 <= place o ->
  scalar_slot (FUint64 x) x f -> slot_reads heap buf place o i (Some f) ->
  let t := mkTable buf (place o) in
  field_or 0 (fun v => Table_GetUint64 t (u32 (v + Table_Pos t))) t (4 + 2 * Z.of_nat i) = Ret x.
Proof.
  intros Hp [->|[-> ->]] H t; [|by eapply absent_reads; [exact H|right]].
  set (get := fun v => _). destruct (present_reads 0 get o i _ Hp H) as (v & E & Hu & Hs).
  unfold t. rewrite E. unfold get, t. cbn [Table_Pos]. by rewrite Hu.
Qed.

Lemma union_reads o i r :
  0 <= place o -> slot_reads heap buf place o i (Some (Some (FRef r))) ->
  let t := mkTable buf (place o) in
  field_or None (fun v => Some <$> Table_Union t v) t (4 + 2 * Z.of_nat i)
  = Ret (Some (mkTable buf (place r))).
Proof.
  intros Hp H t. set (get := fun v => _).
  destruct (present_reads None get o i _ Hp H) as (v & E & _ & _ & Hs).
  unfold t. rewrite E. unfold get, t. by rewrite Hs.
Qed.

Lemma root_reads root :
  fb_buffer heap root buf place -> is_Some (heap root) ->
  GetRootAsTable buf 0 = Ret (mkTable buf (place root)).
Proof.
  intros Hbuf Hs. destruct (fb_root _ _ _ _ Hbuf) as [_ Hr].
  pose proof (fb_place _ _ _ _ _ Hbuf Hs) as Hp. unfold GetRootAsTable, slice_from.
  rewrite (proj2 (Z.leb_le _ _)) by apply zlength_nonneg.
  cbn. rewrite drop_0, Hr. cbn. by rewrite Z.add_0_r, u32_small.
Qed.
End Reading.
End Laws.

(** Step through a builder program: run the next operation with its lemma and
    keep what it establishes in the context. *)
Lemma zlength_set_slot i f d slots : zlength (set_slot i f d slots) = zlength slots.
Proof. unfold zlength, set_slot. destruct d; [done|]. by rewrite length_insert. Qed.

Lemma zlength_replicate {A} k (x : A) : zlength (replicate (Z.to_nat k) x) = Z.max 0 k.
Proof. unfold zlength. rewrite length_replicate. lia. Qed.

Ltac fb_size :=
  rewrite ?zlength_set_slot, ?zlength_replicate; unfold fb_overhead, fb_capacity in *;
  cbn [length] in *; change (zlength (@nil Byte.byte)) with 0%Z in *; lia.
Ltac fb_heap_tac :=
  lazymatch goal with
  | |- fb_heap ?b ?o = Some _ =>
      first [ eassumption
            | match goal with H : extends _ b |- _ => apply H; fb_heap_tac end ]
  | |- is_Some (fb_heap ?b ?o) =>
      first [ eassumption
            | match goal with H : fb_heap b o = Some _ |- _ => rewrite H; by eexists end
            | match goal with H : extends ?b0 b |- _ =>
                apply (extends_some b0 b o H); fb_heap_tac end ]
  end.
Ltac fb_string :=
  match goal with
  | H : b_at ?b None ?n |- context [CreateByteString ?s ?b] =>
      let off := fresh "off" in let b' := fresh "b" in
      destruct (string_step b n s H) as (off & b' & -> & ? & ? & ? & ? & ?);
      [fb_size | clear H; cbn [mbind outcome_bind]]
  end.
Ltac fb_start :=
  match goal with
  | H : b_at ?b None ?n |- context [StartObject ?k ?b] =>
      let b' := fresh "b" in
      destruct (start_step b n k H) as (b' & -> & ? & ?);
      [fb_size | clear H; cbn [mbind outcome_bind]]
  end.
Ltac fb_prepend :=
  match goal with
  | H : b_at ?b (Some _) ?n |- context [PrependUOffsetTSlot _ _ _ ?b] =>
      let b' := fresh "b" in
      edestruct (ref_step b n) as (b' & -> & ? & ?);
      [exact H | fb_size | fb_size | first [lia | fb_heap_tac] | clear H; cbn [mbind outcome_bind]]
  | H : b_at ?b (Some _) ?n |- context [PrependByteSlot _ _ _ ?b] =>
      let b' := fresh "b" in
      edestruct (byte_step b n) as (b' & -> & ? & ?);
      [exact H | fb_size | fb_size | first [lia | fb_heap_tac] | clear H; cbn [mbind outcome_bind]]
  | H : b_at ?b (Some _) ?n |- context [PrependUint32Slot _ _ _ ?b] =>
      let b' := fresh "b" in
      edestruct (uint32_step b n) as (b' & -> & ? & ?);
      [exact H | fb_size | fb_size | first [lia | fb_heap_tac] | clear H; cbn [mbind outcome_bind]]
  | H : b_at ?b (Some _) ?n |- context [PrependUint64Slot _ _ _ ?b] =>
      let b' := fresh "b" in
      edestruct (uint64_step b n) as (b' & -> & ? & ?);
      [exact H | fb_size | fb_size | first [lia | fb_heap_tac] | clear H; cbn [mbind outcome_bind]]
  end.
Ltac fb_finish :=
  match goal with
  | H : b_at ?b None ?n |- context [Finish ?root ?b] =>
      let b' := fresh "b" in let place := fresh "place" in
      destruct (finish_step b n root H) as (b' & place & -> & Hbuf);
      [fb_heap_tac | fb_size | clear H; cbn [mbind outcome_bind]]
  end.
Ltac fb_end :=
  match goal with
  | H : b_at ?b (Some ?sl) ?n |- context [EndObject ?b] =>
      let off := fresh "off" in let b' := fresh "b" in
      destruct (end_step b n sl H) as (off & b' & -> & ? & ? & ? & ?);
      [fb_size | clear H; cbn [mbind outcome_bind]]
  end.

(** The offset of a new string differs from those that were there before. *)
Ltac fb_distinct :=
  repeat (apply NoDup_cons_2;
    [rewrite ?not_elem_of_cons; split_and?;
     first [ by apply not_elem_of_nil
           | match goal with H : fb_heap ?b ?y = None |- _ <> ?y =>
               apply (fresh_ne b); [fb_heap_tac | exact H] end ]|]);
  apply NoDup_nil_2.
(** A string created after [b] was not in [b]. *)
Ltac fb_extends :=
  lazymatch goal with
  | |- extends ?b ?b' =>
      first [ reflexivity
            | match goal with H : extends ?b0 b' |- _ => transitivity b0; [fb_extends | exact H] end ]
  end.
Ltac fb_fresh :=
  match goal with H : fb_heap ?b' ?o = None |- fb_heap ?b ?o = None =>
    apply (fresh_before b b' o); [fb_extends | exact H] end.

Section Composites.
Context {FB : FlatbuffersLib} {FS : FlatbuffersSpec FB}.
Local Open Scope Z_scope.

(** What an envelope buffer reads as. *)
Definition envelope_reads (env : Table) (txid topic messageID : bytes)
    (msgType : Z) (union : Table) : Prop :=
  Envelope_TxidBytes env = Ret txid /\ Envelope_TopicBytes env = Ret topic /\
  Envelope_MessageType env = Ret msgType /\
  Envelope_Message env = Ret (Some union) /\
  Envelope_MessageIdBytes env = Ret messageID.

(** What the table of a stream message reads as. *)
Definition stream_reads (t : Table) (senderID payload deviceType deviceID : bytes)
    (createdAt deliveredAt : Z) : Prop :=
  Stream_CreatedAt t = Ret createdAt /\ Stream_SenderIdBytes t = Ret senderID /\
  Stream_PayloadBytes t = Ret payload /\ Stream_DeviceTypeBytes t = Ret deviceType /\
  Stream_DeviceIdBytes t = Ret deviceID /\ Stream_DeliveredAtEpochMs t = Ret deliveredAt.

(** The bytes an envelope adds to a builder, at most. *)
Definition envelope_size (txid topic messageID : bytes) : Z :=
  zlength txid + zlength topic + zlength messageID + 16 * fb_overhead.

(** The objects of an envelope [e] around the message [m]. *)
Definition envelope_layout (heap : Z -> option fbobj) (e m tx tp id : Z)
    (txid topic messageID : bytes) (msgType : Z) : Prop :=
    heap e = Some (OTable [Some (FRef tx); Some (FRef tp); Some (FByte msgType); Some (FRef m);
                           Some (FRef id)]) /\
    heap tx = Some (OBytes txid) /\ heap tp = Some (OBytes topic) /\ heap id = Some (OBytes messageID).

(** The objects of the stream message [m]. *)
Definition stream_layout (heap : Z -> option fbobj) (m sd pl dt di : Z) (created delivered : option fbfield)
    (senderID payload deviceType deviceID : bytes) (createdAt deliveredAt : Z) : Prop :=
    scalar_slot (FUint32 createdAt) createdAt created /\
    scalar_slot (FUint64 deliveredAt) deliveredAt delivered /\
    heap m = Some (OTable [created; Some (FRef sd); Some (FRef pl); Some (FRef dt); Some (FRef di);
                           delivered]) /\
    heap sd = Some (OBytes senderID) /\ heap pl = Some (OBytes payload) /\
    heap dt = Some (OBytes deviceType) /\ heap di = Some (OBytes deviceID).

Lemma scalar_slot_written f x : scalar_slot f x (if x =? 0 then None else Some f).
Proof. destruct (Z.eqb_spec x 0); [by right|by left]. Qed.

Lemma envelope_layout_reads heap buf place e m tx tp id txid topic messageID msgType :
  fb_buffer heap e buf place -> envelope_layout heap e m tx tp id txid topic messageID msgType ->
  GetRootAsFlatbuffersEnvelope buf 0 = Ret (mkTable buf (place e)) /\
  envelope_reads (mkTable buf (place e)) txid topic messageID msgType (mkTable buf (place m)).
Proof.
  intros Hbuf (He & Htx & Htp & Hid). split; [eapply root_reads; [done|by eexists]|].
  destruct (fb_place _ _ _ _ e Hbuf) as [Hp _]; [by eexists|].
  pose proof (fun i => fb_slots _ _ _ _ _ _ i Hbuf He) as Hread. unfold envelope_reads. split_and!.
  - exact (bytes_reads _ _ _ _ 0 _ _ Hp Htx (Hread 0%nat)).
  - exact (bytes_reads _ _ _ _ 1 _ _ Hp Htp (Hread 1%nat)).
  - exact (byte_reads _ _ _ _ 2 _ Hp (Hread 2%nat)).
  - exact (union_reads _ _ _ _ 3 _ Hp (Hread 3%nat)).
  - exact (bytes_reads _ _ _ _ 4 _ _ Hp Hid (Hread 4%nat)).
Qed.

Lemma stream_layout_reads heap root buf place m sd pl dt di created delivered
    senderID payload deviceType deviceID createdAt deliveredAt :
  fb_buffer heap root buf place ->
  stream_layout heap m sd pl dt di created delivered
    senderID payload deviceType deviceID createdAt deliveredAt ->
  stream_reads (mkTable buf (place m)) senderID payload deviceType deviceID createdAt deliveredAt.
Proof.
  intros Hbuf (Hc & Hd & Hm & Hsd & Hpl & Hdt & Hdi).
  destruct (fb_place _ _ _ _ m Hbuf) as [Hp _]; [by eexists|].
  pose proof (fun i => fb_slots _ _ _ _ _ _ i Hbuf Hm) as Hread. unfold stream_reads. split_and!.
  - exact (uint32_reads _ _ _ _ 0 _ _ Hp Hc (Hread 0%nat)).
  - exact (bytes_reads _ _ _ _ 1 _ _ Hp Hsd (Hread 1%nat)).
  - exact (bytes_reads _ _ _ _ 2 _ _ Hp Hpl (Hread 2%nat)).
  - exact (bytes_reads _ _ _ _ 3 _ _ Hp Hdt (Hread 3%nat)).
  - exact (bytes_reads _ _ _ _ 4 _ _ Hp Hdi (Hread 4%nat)).
  - exact (uint64_reads _ _ _ _ 5 _ _ Hp Hd (Hread 5%nat)).
Qed.

Lemma FlatbuffersEnvelopeToBytes_layout b n txid topic msg messageID msgType :
  b_at b None n -> is_Some (fb_heap b msg) -> 0 < msg -> 0 < msgType < 2 ^ 8 ->
  n + envelope_size txid topic messageID <= fb_capacity ->
  exists buf heap place e tx tp id,
    FlatbuffersEnvelopeToBytes b txid topic msg messageID msgType = Ret buf /\
    fb_buffer heap e buf place /\
    envelope_layout heap e msg tx tp id txid topic messageID msgType /\
    NoDup [tx; tp; id] /\ Forall (fun o => fb_heap b o = None) [tx; tp; id] /\
    (forall o y, fb_heap b o = Some y -> heap o = Some y).
Proof.
  unfold envelope_size. intros Hb Hmsg Hpos Hty Hc.
  pose proof (zlength_nonneg txid). pose proof (zlength_nonneg topic).
  pose proof (zlength_nonneg messageID).
  unfold FlatbuffersEnvelopeToBytes, FlatbuffersEnvelopeStart, FlatbuffersEnvelopeAddTxid,
    FlatbuffersEnvelopeAddTopic, FlatbuffersEnvelopeAddMessageType,
    FlatbuffersEnvelopeAddMessage, FlatbuffersEnvelopeAddMessageId, FlatbuffersEnvelopeEnd.
  fb_string. fb_string. fb_string. fb_start. do 5 fb_prepend. fb_end.
  fb_finish.
  exists (FinishedBytes b10), (fb_heap b9), place, off2, off, off0, off1.
  repeat (rewrite (proj2 (Z.eqb_neq _ 0)) in H24 by lia). cbn in H24.
  split_and!; [done|done|split_and!; [exact H24|fb_heap_tac..]|fb_distinct|repeat constructor; fb_fresh|].
  intros. fb_heap_tac.
Qed.

Lemma stream_slots senderID payload deviceType deviceID createdAt deliveredAt :
  0 < senderID -> 0 < payload -> 0 < deviceType -> 0 < deviceID ->
  set_slot 5 (FUint64 deliveredAt) (deliveredAt =? 0)
    (set_slot 4 (FRef deviceID) (deviceID =? 0)
      (set_slot 3 (FRef deviceType) (deviceType =? 0)
        (set_slot 2 (FRef payload) (payload =? 0)
          (set_slot 0 (FUint32 createdAt) (createdAt =? 0)
            (set_slot 1 (FRef senderID) (senderID =? 0) (replicate (Z.to_nat 6) None)))))) =
  [if createdAt =? 0 then None else Some (FUint32 createdAt);
   Some (FRef senderID); Some (FRef payload); Some (FRef deviceType);
   Some (FRef deviceID);
   if deliveredAt =? 0 then None else Some (FUint64 deliveredAt)].
Proof.
  intros. rewrite (proj2 (Z.eqb_neq senderID 0)), (proj2 (Z.eqb_neq payload 0)),
    (proj2 (Z.eqb_neq deviceType 0)), (proj2 (Z.eqb_neq deviceID 0)) by lia.
  by destruct (createdAt =? 0), (deliveredAt =? 0).
Qed.

Lemma FlatbuffersStreamToBytes_layout senderID topic txid payload createdAt messageID
    deviceType deviceID deliveredAt :
  0 <= createdAt < 2 ^ 32 -> 0 <= deliveredAt < 2 ^ 64 ->
  zlength senderID + zlength payload + zlength deviceType + zlength deviceID +
    envelope_size txid topic messageID + 16 * fb_overhead <= fb_capacity ->
  exists buf heap place e m tx tp id sd pl dt di,
    FlatbuffersStreamToBytes senderID topic txid payload createdAt messageID
      deviceType deviceID deliveredAt = Ret buf /\
    fb_buffer heap e buf place /\
    envelope_layout heap e m tx tp id txid topic messageID MessageFlatbuffersStream /\
    stream_layout heap m sd pl dt di
      (if createdAt =? 0 then None else Some (FUint32 createdAt))
      (if deliveredAt =? 0 then None else Some (FUint64 deliveredAt))
      senderID payload deviceType deviceID createdAt deliveredAt /\
    NoDup [tx; tp; id; sd; pl; dt; di].
Proof.
  intros Hc Hd Hsize. unfold FlatbuffersStreamToBytes, FlatbuffersStreamStart,
    FlatbuffersStreamAddSenderId, FlatbuffersStreamAddCreatedAt, FlatbuffersStreamAddPayload,
    FlatbuffersStreamAddDeviceType, FlatbuffersStreamAddDeviceId,
    FlatbuffersStreamAddDeliveredAtEpochMs, FlatbuffersStreamEnd.
  destruct (fb_new 0 ltac:(lia)) as (Hw & Ho & Hs).
  assert (Hb : b_at (NewBuilder 0) None 0) by (split_and!; [done|done|lia]).
  assert (0 <= envelope_size txid topic messageID).
  { unfold envelope_size, fb_overhead. pose proof (zlength_nonneg txid).
    pose proof (zlength_nonneg topic). pose proof (zlength_nonneg messageID). lia. }
  pose proof (zlength_nonneg senderID). pose proof (zlength_nonneg payload).
  pose proof (zlength_nonneg deviceType). pose proof (zlength_nonneg deviceID).
  cbv zeta. do 4 fb_string. fb_start. do 6 fb_prepend. fb_end.
  match goal with H : fb_heap _ _ = Some (OTable _) |- _ =>
    rewrite stream_slots in H by done; rename H into Htbl end.
  match goal with H : b_at ?b None ?n |- context [FlatbuffersEnvelopeToBytes ?b _ _ ?m _ _] =>
    destruct (FlatbuffersEnvelopeToBytes_layout b n txid topic m messageID
      MessageFlatbuffersStream H) as (buf & heap & place & e & tx & tp & id & E & Hbuf & Henv & Hnd & Hfr & Hx)
  end; [fb_heap_tac | done | by vm_compute | fb_size |].
  exists buf, heap, place, e, off3, tx, tp, id, off, off0, off1, off2.
  split_and!; [done|done|done| |].
  - split_and!; [by apply scalar_slot_written|by apply scalar_slot_written|by apply Hx|apply Hx; fb_heap_tac..].
  - apply (NoDup_app [tx; tp; id]). split; [done|]. split; [|fb_distinct].
    intros o Hin. pose proof (proj1 (Forall_forall _ _) Hfr o Hin) as Hnew.
    rewrite !not_elem_of_cons. split_and!; [..|apply not_elem_of_nil];
      (symmetry; eapply fresh_ne; [|exact Hnew]; fb_heap_tac).
Qed.

Lemma FlatbuffersStreamToBytes_reads senderID topic txid payload createdAt messageID
    deviceType deviceID deliveredAt :
  0 <= createdAt < 2 ^ 32 -> 0 <= deliveredAt < 2 ^ 64 ->
  zlength senderID + zlength payload + zlength deviceType + zlength deviceID +
    envelope_size txid topic messageID + 16 * fb_overhead <= fb_capacity ->
  exists buf env t,
    FlatbuffersStreamToBytes senderID topic txid payload createdAt messageID
      deviceType deviceID deliveredAt = Ret buf /\
    buf <> [] /\ GetRootAsFlatbuffersEnvelope buf 0 = Ret env /\
    envelope_reads env txid topic messageID MessageFlatbuffersStream t /\
    stream_reads t senderID payload deviceType deviceID createdAt deliveredAt.
Proof.
  intros Hc Hd Hsize.
  destruct (FlatbuffersStreamToBytes_layout senderID topic txid payload createdAt messageID
    deviceType deviceID deliveredAt Hc Hd Hsize)
    as (buf & heap & place & e & m & tx & tp & id & sd & pl & dt & di & E & Hbuf & Henv & Hstream & _).
  destruct (envelope_layout_reads _ _ _ _ _ _ _ _ _ _ _ _ Hbuf Henv) as [Hroot Hreads].
  exists buf, (mkTable buf (place e)), (mkTable buf (place m)).
  split_and!; [done|eapply fb_root; done|done|done|].
  eapply stream_layout_reads; eassumption.
Qed.

Lemma FlatbuffersStreamAckToBytes_reads txid topic messageID :
  envelope_size txid topic messageID + fb_overhead <= fb_capacity ->
  exists buf env t,
    FlatbuffersStreamAckToBytes txid topic messageID = Ret buf /\
    buf <> [] /\ GetRootAsFlatbuffersEnvelope buf 0 = Ret env /\
    envelope_reads env txid topic messageID MessageFlatbuffersStreamAck t.
Proof.
  intros Hsize. unfold FlatbuffersStreamAckToBytes.
  destruct (fb_new 0 ltac:(lia)) as (Hw & Ho & Hs).
  assert (Hb : b_at (NewBuilder 0) None 0) by (split_and!; [done|done|lia]).
  assert (0 <= envelope_size txid topic messageID).
  { unfold envelope_size, fb_overhead. pose proof (zlength_nonneg txid).
    pose proof (zlength_nonneg topic). pose proof (zlength_nonneg messageID). lia. }
  cbv zeta. fb_string.
  match goal with H : b_at ?b None ?n |- context [FlatbuffersEnvelopeToBytes ?b _ _ ?m _ _] =>
    destruct (FlatbuffersEnvelopeToBytes_layout b n txid topic m messageID
      MessageFlatbuffersStreamAck H) as (buf & heap & place & e & tx & tp & id & E & Hbuf & Henv & _)
  end; [fb_heap_tac | done | by vm_compute | fb_size |].
  destruct (envelope_layout_reads _ _ _ _ _ _ _ _ _ _ _ _ Hbuf Henv) as [Hroot Hreads].
  exists buf, (mkTable buf (place e)), (mkTable buf (place off)).
  split_and!; [done|eapply fb_root; done|done|done].
Qed.
End Composites.
