(* ===== verification/FbRef.v ===== *)
(** * A concrete FlatBuffers runtime

    An executable instance of [FlatbuffersLib] that satisfies
    [FlatbuffersSpec]: a builder is the list of its finished objects, an
    offset is an index into it, and a finished buffer is the encoding of the
    list and the root.  The fields of a table have the addresses after its
    index, the bytes of all strings, one after the other, those from [2 ^ 31]
    on.  It is the model the interface's theorems are instantiated with, not
    the wire format of the real runtime. *)

From S2P Require Import Prelude Flatbuffers.
From stdpp Require Import countable.
Local Open Scope Z_scope.

#[export] Program Instance fbfield_countable : Countable fbfield :=
  inj_countable'
    (fun f => match f with
              | FByte n => inl (inl n) | FUint32 n => inl (inr n)
              | FUint64 n => inr (inl n) | FRef n => inr (inr n) end)
    (fun x => match x with
              | inl (inl n) => FByte n | inl (inr n) => FUint32 n
              | inr (inl n) => FUint64 n | inr (inr n) => FRef n end) _.
Next Obligation. by intros []. Qed.

#[export] Program Instance fbobj_countable : Countable fbobj :=
  inj_countable'
    (fun o => match o with OBytes s => inl s | OTable l => inr l end)
    (fun x => match x with inl s => OBytes s | inr l => OTable l end) _.
Next Obligation. by intros []. Qed.

(** One byte per bit of the code. *)
Fixpoint pos_to_bytes (p : positive) : bytes :=
  match p with
  | xH => [Byte.x01]
  | xO p => Byte.x00 :: pos_to_bytes p
  | xI p => Byte.x01 :: pos_to_bytes p
  end.

Fixpoint pos_of_bytes (b : bytes) : option positive :=
  match b with
  | [] => None
  | [_] => Some xH
  | x :: b => (if Byte.eqb x Byte.x00 then xO else xI) <$> pos_of_bytes b
  end.

Lemma pos_of_to_bytes p : pos_of_bytes (pos_to_bytes p) = Some p.
Proof.
  induction p as [p IH|p IH|]; [..|done];
    cbn [pos_to_bytes pos_of_bytes]; destruct (pos_to_bytes p) eqn:E;
    try (destruct p; discriminate); by rewrite IH.
Qed.

Record rbuilder := mkRB {
  rb_objs : list fbobj;
  rb_open : option (list (option fbfield));
  rb_size : Z;
  rb_bytes : bytes
}.

Definition rb_heap (objs : list fbobj) (o : Z) : option fbobj :=
  if 0 <? o then objs !! Z.to_nat (o - 1) else None.

Definition rb_parse (buf : bytes) : option (Z * list fbobj) :=
  pos_of_bytes buf ≫= decode.

Definition rb_finished (root : Z) (objs : list fbobj) : bytes :=
  pos_to_bytes (encode (root, objs)).
#[global] Arguments rb_finished : simpl never.

Definition rb_field (t : Table) (v : Z) : option fbfield :=
  match rb_parse (Table_Bytes t) with
  | Some (_, objs) =>
      match rb_heap objs (Table_Pos t) with
      | Some (OTable slots) => mjoin (slots !! Z.to_nat ((v - 4) / 2))
      | _ => None
      end
  | None => None
  end.

(** The bytes of the strings, and the address of the first of them. *)
Definition obj_data (o : fbobj) : bytes := match o with OBytes s => s | OTable _ => [] end.
Definition rb_data (objs : list fbobj) : bytes := mjoin (obj_data <$> objs).
#[global] Arguments rb_data : simpl never.
Definition rb_base : Z := 2 ^ 31.

Definition byte_value (c : Byte.byte) : Z := Z.of_N (Byte.to_N c).

Definition out_of_range {A} : outcome A := Panic "index out of range".

Definition rb_slot (i : Z) (f : fbfield) (isd : bool) (b : rbuilder) : outcome rbuilder :=
  match rb_open b with
  | Some slots => Ret (mkRB (rb_objs b) (Some (set_slot i f isd slots)) (rb_size b) [])
  | None => Panic "must be inside object"
  end.

Definition rb_add (o : fbobj) (n : Z) (b : rbuilder) : Z * rbuilder :=
  (zlength (rb_objs b) + 1, mkRB (rb_objs b ++ [o]) None (rb_size b + n + 1) []).

#[export] Instance FbRef : FlatbuffersLib := {
  GetUOffsetT buf := match rb_parse buf with Some (r, _) => Ret r | None => out_of_range end;
  Table_Offset t vt := Ret (if rb_field t vt is Some _ then vt else 0);
  Table_ByteVector t x :=
    match rb_field t (x - Table_Pos t), rb_parse (Table_Bytes t) with
    | Some (FRef r), Some (_, objs) =>
        match rb_heap objs r with Some (OBytes s) => Ret s | _ => out_of_range end
    | _, _ => out_of_range
    end;
  Table_GetByte t x :=
    if rb_base <=? x then
      match rb_parse (Table_Bytes t) with
      | Some (_, objs) =>
          if rb_data objs !! Z.to_nat (x - rb_base) is Some c then Ret (byte_value c) else out_of_range
      | None => out_of_range
      end
    else match rb_field t (x - Table_Pos t) with Some (FByte n) => Ret n | _ => out_of_range end;
  Table_GetUint32 t x :=
    match rb_field t (x - Table_Pos t) with Some (FUint32 n) => Ret n | _ => out_of_range end;
  Table_GetUint64 t x :=
    match rb_field t (x - Table_Pos t) with Some (FUint64 n) => Ret n | _ => out_of_range end;
  Table_Union t v :=
    match rb_field t v with
    | Some (FRef r) => Ret (mkTable (Table_Bytes t) r) | _ => out_of_range end;
  Builder := rbuilder;
  NewBuilder _ := mkRB [] None 0 [];
  CreateByteString s b :=
    match rb_open b with
    | None => Ret (rb_add (OBytes s) (zlength s) b)
    | Some _ => Panic "must not be nested" end;
  StartObject n b :=
    match rb_open b with
    | None => Ret (mkRB (rb_objs b) (Some (replicate (Z.to_nat n) None)) (rb_size b) [])
    | Some _ => Panic "must not be nested" end;
  PrependByteSlot i x d b := rb_slot i (FByte x) (x =? d) b;
  PrependUint32Slot i x d b := rb_slot i (FUint32 x) (x =? d) b;
  PrependUint64Slot i x d b := rb_slot i (FUint64 x) (x =? d) b;
  PrependUOffsetTSlot i x d b := rb_slot i (FRef x) (x =? d) b;
  EndObject b :=
    match rb_open b with
    | Some slots => Ret (rb_add (OTable slots) 0 b)
    | None => Panic "must be inside object" end;
  Finish root b :=
    Ret (mkRB (rb_objs b) None (rb_size b) (rb_finished root (rb_objs b)));
  FinishedBytes := rb_bytes
}.

(** ** The instance satisfies the specification *)

Definition small_table (o : fbobj) : Prop :=
  match o with OTable sl => (length sl <= 16)%nat | OBytes _ => True end.

Definition rb_wf (b : rbuilder) : Prop :=
  zlength (rb_objs b) + zlength (rb_data (rb_objs b)) <= rb_size b <= fb_capacity /\
  Forall small_table (rb_objs b) /\
  match rb_open b with Some sl => (length sl <= 16)%nat | None => True end.

Lemma rb_heap_last objs o : rb_heap (objs ++ [o]) (zlength objs + 1) = Some o.
Proof.
  unfold rb_heap, zlength. rewrite (proj2 (Z.ltb_lt _ _)) by lia.
  rewrite lookup_app_r by lia.
  by replace (Z.to_nat (Z.of_nat (length objs) + 1 - 1) - length objs)%nat with 0%nat by lia.
Qed.

Lemma rb_heap_app objs o i x : rb_heap objs i = Some x -> rb_heap (objs ++ [o]) i = Some x.
Proof.
  unfold rb_heap. destruct (0 <? i); [|done]. apply lookup_app_l_Some.
Qed.

Lemma rb_heap_range objs i x : rb_heap objs i = Some x -> 0 < i <= zlength objs.
Proof.
  unfold rb_heap, zlength. destruct (Z.ltb_spec 0 i); [|done].
  intros H1%lookup_lt_Some. lia.
Qed.

Lemma rb_small_table objs o slots :
  Forall small_table objs -> rb_heap objs o = Some (OTable slots) -> (length slots <= 16)%nat.
Proof.
  unfold rb_heap. intros Hsm Ho. destruct (0 <? o); [|done]. exact (Forall_lookup_1 _ _ _ _ Hsm Ho).
Qed.

Lemma rb_data_app objs1 objs2 : rb_data (objs1 ++ objs2) = (rb_data objs1 ++ rb_data objs2)%list.
Proof. unfold rb_data. by rewrite fmap_app, join_app. Qed.

Lemma rb_add_spec o n b off b' :
  rb_wf b -> small_table o -> zlength (obj_data o) <= n -> rb_size b + n + fb_overhead <= fb_capacity ->
  rb_add o n b = (off, b') ->
  rb_wf b' /\ rb_open b' = None /\ 0 < off /\ rb_heap (rb_objs b) off = None /\
  rb_heap (rb_objs b') off = Some o /\
  (forall i x, rb_heap (rb_objs b) i = Some x -> rb_heap (rb_objs b') i = Some x) /\
  rb_size b' <= rb_size b + n + fb_overhead.
Proof.
  intros ([H1 H2] & H3 & _) Ho Hn Hc [= <- <-]. unfold fb_overhead in *.
  unfold rb_wf; cbn [rb_objs rb_open rb_size]. split_and!; try done.
  - rewrite rb_data_app. unfold zlength in *. rewrite !length_app. cbn [length].
    replace (rb_data [o]) with (obj_data o) by (unfold rb_data; cbn; by rewrite app_nil_r). lia.
  - pose proof (zlength_nonneg (obj_data o)). lia.
  - apply Forall_app_2; auto.
  - pose proof (zlength_nonneg (rb_objs b)). lia.
  - destruct (rb_heap _ _) eqn:E; [|done]. apply rb_heap_range in E. lia.
  - apply rb_heap_last.
  - intros i x. apply rb_heap_app.
  - lia.
Qed.

Lemma rb_slot_spec i f d b slots :
  rb_wf b -> rb_open b = Some slots ->
  exists b', rb_slot i f d b = Ret b' /\ rb_wf b' /\
    rb_open b' = Some (set_slot i f d slots) /\ rb_objs b' = rb_objs b /\ rb_size b' = rb_size b.
Proof.
  intros (H1 & H2 & H3) Ho. unfold rb_slot. rewrite Ho in *. eexists. split; [done|].
  unfold rb_wf; cbn. split_and!; try done; try lia.
  unfold set_slot. destruct d; [done|]. by rewrite length_insert.
Qed.

Section Finished.
Context (objs : list fbobj) (root : Z).

Lemma rb_parse_encode : rb_parse (rb_finished root objs) = Some (root, objs).
Proof. unfold rb_parse, rb_finished. rewrite pos_of_to_bytes. apply decode_encode. Qed.

Lemma rb_field_at o slots (i : nat) :
  rb_heap objs o = Some (OTable slots) ->
  rb_field (mkTable (rb_finished root objs) o) (4 + 2 * Z.of_nat i) = mjoin (slots !! i).
Proof.
  intros Ho. unfold rb_field. cbn [Table_Bytes Table_Pos].
  rewrite rb_parse_encode, Ho.
  replace (4 + 2 * Z.of_nat i - 4) with (Z.of_nat i * 2) by lia.
  by rewrite Z.div_mul, Nat2Z.id by lia.
Qed.

Lemma rb_slot_reads o slots i :
  zlength objs <= fb_capacity -> (length slots <= 16)%nat ->
  rb_heap objs o = Some (OTable slots) ->
  slot_reads (rb_heap objs) (rb_finished root objs) (fun x => x) o i (slots !! i).
Proof.
  intros Hlen Hs Ho. unfold slot_reads, fb_capacity in *.
  pose proof (rb_field_at o slots i Ho) as Hf.
  destruct (slots !! i) as [[f|]|] eqn:E; cbn in Hf.
  - apply lookup_lt_Some in E. apply rb_heap_range in Ho.
    exists (4 + 2 * Z.of_nat i). cbn -[Z.mul Z.of_nat].
    rewrite (proj2 (Z.leb_gt rb_base (4 + 2 * Z.of_nat i + o))) by (unfold rb_base; lia).
    rewrite Hf. cbn [Table_Pos]. split_and!; [done|lia|lia|].
    replace (4 + 2 * Z.of_nat i + o - o) with (4 + 2 * Z.of_nat i) by lia.
    rewrite Hf. destruct f; try done. split; [|done].
    intros s Hr. fold (rb_parse (rb_finished root objs)). by rewrite rb_parse_encode, Hr.
  - cbn -[Z.mul Z.of_nat]. by rewrite Hf.
  - cbn -[Z.mul Z.of_nat]. by rewrite Hf.
Qed.
End Finished.

Definition rb_buffer (heap : Z -> option fbobj) (root : Z) (buf : bytes) (place : Z -> Z) : Prop :=
  exists objs, buf = rb_finished root objs /\ (forall o, heap o = rb_heap objs o) /\
    (forall o, place o = o) /\ Forall small_table objs /\
    zlength objs + zlength (rb_data objs) <= fb_capacity.

#[export] Program Instance FbRefSpec : FlatbuffersSpec FbRef := {
  fb_wf := rb_wf;
  fb_heap b := rb_heap (rb_objs b);
  fb_open := rb_open;
  fb_size := rb_size;
  fb_buffer := rb_buffer
}.
Next Obligation.
  intros n Hn. cbn. split_and!; [|done|done]. unfold rb_wf, fb_capacity. cbn [rb_objs rb_size rb_open].
  change (zlength (rb_data [])) with 0. change (zlength (@nil fbobj)) with 0.
  split_and!; [lia|lia|constructor|done].
Qed.
Next Obligation.
  intros s b Hw Ho Hc. cbn. rewrite Ho.
  destruct (rb_add (OBytes s) (zlength s) b) as [off b'] eqn:E.
  exists off, b'. split; [done|]. by eapply rb_add_spec.
Qed.
Next Obligation.
  intros n b Hw Ho Hn. cbn. rewrite Ho. eexists. split; [done|]. cbn.
  split_and!; try done. destruct Hw as (H1 & H2 & _). split_and!; cbn; try done; try lia.
  rewrite length_replicate. lia.
Qed.
Next Obligation.
  intros i x d b slots Hw Ho Hi Hc. cbn. unfold fb_overhead.
  split_and!; intros _;
    match goal with |- context [rb_slot i ?f ?e b] =>
      destruct (rb_slot_spec i f e b slots Hw Ho) as (b' & E & Hw' & Ho' & Hob & Hs) end;
    exists b'; rewrite Hob; split_and!; try done; lia.
Qed.
Next Obligation.
  intros b slots Hw Ho Hc. cbn. rewrite Ho.
  destruct (rb_add (OTable slots) 0 b) as [off b'] eqn:E.
  exists off, b'. split; [done|].
  assert (small_table (OTable slots)) by (destruct Hw as (_ & _ & H); by rewrite Ho in H).
  destruct (rb_add_spec (OTable slots) 0 b off b') as (? & ? & ? & ? & ? & ? & ?); try done; [lia|].
  split_and!; try done. lia.
Qed.
Next Obligation.
  intros root b (H1 & H2 & H3) Ho Hr Hc. eexists _, (fun x => x). split; [done|].
  exists (rb_objs b). split_and!; try done. lia.
Qed.
Next Obligation.
  intros heap root buf place (objs & -> & _ & Hp & _). split.
  - unfold rb_finished. by destruct (encode _).
  - cbn. fold (rb_parse (rb_finished root objs)). by rewrite rb_parse_encode, Hp.
Qed.
Next Obligation.
  intros heap root buf place o (objs & -> & Hh & Hp & _ & Hsz) [x Hx]. rewrite Hh in Hx. rewrite Hp.
  apply rb_heap_range in Hx. pose proof (zlength_nonneg (rb_data objs)). unfold fb_capacity in *. lia.
Qed.
Next Obligation.
  intros heap root buf place o slots i (objs & -> & Hh & Hp & Hsm & Hsz) Ho. rewrite Hh in Ho.
  pose proof (rb_small_table _ _ _ Hsm Ho) as Hi. pose proof (zlength_nonneg (rb_data objs)).
  pose proof (rb_slot_reads objs root o slots i ltac:(lia) Hi Ho) as Hr.
  unfold slot_reads in *. rewrite Hp. destruct (slots !! i) as [[f|]|]; [|done..].
  destruct Hr as (v & E & Hv & Hb & Hf). exists v. split_and!; try done.
  destruct f; try done. rewrite Hp. destruct Hf as [Hf Hu]. split; [|done].
  intros s. rewrite Hh. apply Hf.
Qed.
