(* ===== verification/Messages.v ===== *)
(** * Stream and acknowledgement messages (messages/stream_message.go,
    messages/stream_ack_message.go)

    The messages exchanged with a vehicle: a struct of byte fields, encoded as
    a FlatBuffers envelope around a stream table (or an empty acknowledgement). *)

From S2P Require Import Prelude GoStd Identity Flatbuffers FbRef.
Local Open Scope Z_scope.

Record StreamMessage := mkStreamMessage {
  sm_fsm : option Table;
  sm_envelope : option Table;
  MessageTopic : bytes;
  TXID : bytes;
  SenderID : bytes;
  DeviceType : bytes;
  DeviceID : bytes;
  DeliveredAtEpochMs : Z;
  CreatedAt : Z;
  Payload : bytes;
  EnvMessageID : bytes
}.

Record StreamAckMessage := mkStreamAckMessage {
  ack_envelope : option Table;
  ack_TXID : bytes;
  ack_MessageTopic : bytes;
  ack_EnvMessageID : bytes
}.

(** The accessors; a message never expires, and the sender of an acknowledgement
    is not kept. *)
Definition StreamMessage_Txid (m : StreamMessage) : bytes := TXID m.
Definition StreamMessage_IsExpired (m : StreamMessage) : bool := false.
Definition StreamMessage_MessageID (m : StreamMessage) : bytes := EnvMessageID m.
Definition StreamMessage_ExtraLogInfo (m : StreamMessage) : gmap string string :=
  list_to_map [("message_topic", str (MessageTopic m)); ("sender_id", str (SenderID m))].

Definition StreamAckMessage_Txid (m : StreamAckMessage) : bytes := ack_TXID m.
Definition StreamAckMessage_IsExpired (m : StreamAckMessage) : bool := false.
Definition StreamAckMessage_SetSenderID (senderID : string) (m : StreamAckMessage) : StreamAckMessage := m.
Definition StreamAckMessage_MessageID (m : StreamAckMessage) : bytes := ack_EnvMessageID m.
Definition StreamAckMessage_ExtraLogInfo (m : StreamAckMessage) : gmap string string :=
  {["message_topic" := str (ack_MessageTopic m)]}.

Section Codec.
Context {FB : FlatbuffersLib}.

Definition wrong_type (what : string) (envelope : Table) : outcome GoError :=
  txid ← Envelope_TxidBytes envelope;
  topic ← Envelope_TopicBytes envelope;
  ty ← Envelope_MessageType envelope;
  Ret (ErrorString ("unable to load " +:+ what +:+ " message(" +:+ str txid +:+
    ") from topic: " +:+ str topic +:+ ", type: " +:+ strconv.Itoa ty)).

Definition StreamMessageFromBytes (value : bytes) : outcome (result StreamMessage) :=
  parsed ← FlatbuffersEnvelopeFromBytes value;
  match parsed with
  | Err e => Ret (Err e)
  | Ok (envelope, unionTable) =>
      ty ← Envelope_MessageType envelope;
      if negb (ty =? MessageFlatbuffersStream)
      then e ← wrong_type "stream" envelope; Ret (Err e)
      else
        let fsm := unionTable in
        topic ← Envelope_TopicBytes envelope;
        txid ← Envelope_TxidBytes envelope;
        senderID ← Stream_SenderIdBytes fsm;
        deviceType ← Stream_DeviceTypeBytes fsm;
        deviceID ← Stream_DeviceIdBytes fsm;
        deliveredAt ← Stream_DeliveredAtEpochMs fsm;
        createdAt ← Stream_CreatedAt fsm;
        payload ← Stream_PayloadBytes fsm;
        messageID ← Envelope_MessageIdBytes envelope;
        Ret (Ok (mkStreamMessage (Some fsm) (Some envelope) topic txid senderID deviceType
          deviceID deliveredAt createdAt payload messageID))
  end.

(** [(m *StreamMessage) ToBytes()]; a message that still has its table is
    re-encoded from the table and the envelope. *)
Definition StreamMessage_ToBytes (m : StreamMessage) : outcome bytes :=
  match sm_fsm m with
  | None =>
      FlatbuffersStreamToBytes (SenderID m) (MessageTopic m) (TXID m) (Payload m)
        (CreatedAt m) (EnvMessageID m) (DeviceType m) (DeviceID m) (DeliveredAtEpochMs m)
  | Some fsm =>
      match sm_envelope m with
      | Some envelope => FlatbuffersStream_ToBytes fsm envelope
      | None => Panic "nil pointer dereference"
      end
  end.

Definition StreamMessage_MsgType (m : StreamMessage) : outcome Z :=
  match sm_envelope m with
  | None => Ret MessageFlatbuffersStream
  | Some envelope => Envelope_MessageType envelope
  end.

Definition StreamAckMessageFromBytes (value : bytes) : outcome (result StreamAckMessage) :=
  envelope ← GetRootAsFlatbuffersEnvelope value 0;
  ty ← Envelope_MessageType envelope;
  if negb (ty =? MessageFlatbuffersStreamAck)
  then e ← wrong_type "stream ack" envelope; Ret (Err e)
  else
    topic ← Envelope_TopicBytes envelope;
    txid ← Envelope_TxidBytes envelope;
    messageID ← Envelope_MessageIdBytes envelope;
    Ret (Ok (mkStreamAckMessage (Some envelope) txid topic messageID)).

Definition StreamAckMessage_ToBytes (m : StreamAckMessage) : outcome bytes :=
  FlatbuffersStreamAckToBytes (ack_TXID m) (ack_MessageTopic m) (ack_EnvMessageID m).

Definition StreamAckMessage_MsgType (m : StreamAckMessage) : outcome Z :=
  match ack_envelope m with
  | None => Ret MessageFlatbuffersStreamAck
  | Some envelope => Envelope_MessageType envelope
  end.
End Codec.

Definition StreamMessage_Topic (m : StreamMessage) : string := str (MessageTopic m).
Definition StreamAckMessage_Topic (m : StreamAckMessage) : string := str (ack_MessageTopic m).

(** The setters clear [fsm], so that the next [ToBytes] re-encodes the fields. *)
Definition SetSenderID (senderID : string) (m : StreamMessage) : StreamMessage :=
  let '(deviceType, deviceID) := ParseSenderID senderID in
  mkStreamMessage None (sm_envelope m) (MessageTopic m) (TXID m) (raw senderID)
    (raw deviceType) (raw deviceID) (DeliveredAtEpochMs m) (CreatedAt m) (Payload m)
    (EnvMessageID m).

Definition SetIdentity (deviceType deviceID : string) (m : StreamMessage) : StreamMessage :=
  mkStreamMessage None (sm_envelope m) (MessageTopic m) (TXID m)
    (raw (BuildClientID deviceType deviceID)) (raw deviceType) (raw deviceID)
    (DeliveredAtEpochMs m) (CreatedAt m) (Payload m) (EnvMessageID m).

Definition SetMessageID (messageID : bytes) (m : StreamMessage) : StreamMessage :=
  mkStreamMessage None (sm_envelope m) (MessageTopic m) (TXID m) (SenderID m)
    (DeviceType m) (DeviceID m) (DeliveredAtEpochMs m) (CreatedAt m) (Payload m) messageID.

(** [SetDeliveredAt(t)], with [t.UnixNano()] as the time: [int64] division
    truncates, and the conversion to [uint64] wraps. *)
Definition SetDeliveredAt (unixNano : Z) (m : StreamMessage) : StreamMessage :=
  mkStreamMessage None (sm_envelope m) (MessageTopic m) (TXID m) (SenderID m)
    (DeviceType m) (DeviceID m) (u64 (Z.quot unixNano 1000000)) (CreatedAt m) (Payload m)
    (EnvMessageID m).

Definition StreamAckMessage_SetMessageID (messageID : bytes) (m : StreamAckMessage)
  : StreamAckMessage :=
  mkStreamAckMessage (ack_envelope m) (ack_TXID m) (ack_MessageTopic m) messageID.

(** ** Lemmas *)

(** The fields of a message, without the parsed tables it may carry. *)
Definition content (m : StreamMessage) : StreamMessage :=
  mkStreamMessage None None (MessageTopic m) (TXID m) (SenderID m) (DeviceType m)
    (DeviceID m) (DeliveredAtEpochMs m) (CreatedAt m) (Payload m) (EnvMessageID m).

Definition ack_content (m : StreamAckMessage) : StreamAckMessage :=
  mkStreamAckMessage None (ack_TXID m) (ack_MessageTopic m) (ack_EnvMessageID m).

(** A message the builder has room for, with its integers in range. *)
Definition message_fits (m : StreamMessage) : Prop :=
  0 <= CreatedAt m < 2 ^ 32 /\ 0 <= DeliveredAtEpochMs m < 2 ^ 64 /\
  zlength (SenderID m) + zlength (Payload m) + zlength (DeviceType m) + zlength (DeviceID m) +
    envelope_size (TXID m) (MessageTopic m) (EnvMessageID m) + 16 * fb_overhead <= fb_capacity.

Definition ack_fits (m : StreamAckMessage) : Prop :=
  envelope_size (ack_TXID m) (ack_MessageTopic m) (ack_EnvMessageID m) + fb_overhead
  <= fb_capacity.

Section CodecLemmas.
Context {FB : FlatbuffersLib} {FS : FlatbuffersSpec FB}.

Lemma FlatbuffersEnvelopeFromBytes_reads buf env txid topic mid ty t :
  buf <> [] -> GetRootAsFlatbuffersEnvelope buf 0 = Ret env ->
  envelope_reads env txid topic mid ty t ->
  FlatbuffersEnvelopeFromBytes buf = Ret (Ok (env, t)).
Proof.
  intros Hne Hroot (_ & _ & _ & Hm & _). unfold FlatbuffersEnvelopeFromBytes.
  rewrite decide_False by done. rewrite Hroot. cbn. by rewrite Hm.
Qed.

Lemma StreamMessageFromBytes_reads buf env t m :
  buf <> [] -> GetRootAsFlatbuffersEnvelope buf 0 = Ret env ->
  envelope_reads env (TXID m) (MessageTopic m) (EnvMessageID m) MessageFlatbuffersStream t ->
  stream_reads t (SenderID m) (Payload m) (DeviceType m) (DeviceID m) (CreatedAt m)
    (DeliveredAtEpochMs m) ->
  StreamMessageFromBytes buf =
  Ret (Ok (mkStreamMessage (Some t) (Some env) (MessageTopic m) (TXID m) (SenderID m)
    (DeviceType m) (DeviceID m) (DeliveredAtEpochMs m) (CreatedAt m) (Payload m)
    (EnvMessageID m))).
Proof.
  intros Hne Hroot Henv (S1 & S2 & S3 & S4 & S5 & S6). unfold StreamMessageFromBytes.
  rewrite (FlatbuffersEnvelopeFromBytes_reads _ _ _ _ _ _ _ Hne Hroot Henv).
  destruct Henv as (E1 & E2 & E3 & _ & E5).
  cbn. rewrite E3. cbn. rewrite E2. cbn. rewrite E1. cbn.
  rewrite S2. cbn. rewrite S4. cbn. rewrite S5. cbn. rewrite S6. cbn.
  rewrite S1. cbn. rewrite S3. cbn. by rewrite E5.
Qed.

Lemma FlatbuffersStream_ToBytes_reads env t m :
  envelope_reads env (TXID m) (MessageTopic m) (EnvMessageID m) MessageFlatbuffersStream t ->
  stream_reads t (SenderID m) (Payload m) (DeviceType m) (DeviceID m) (CreatedAt m)
    (DeliveredAtEpochMs m) ->
  FlatbuffersStream_ToBytes t env = StreamMessage_ToBytes (content m).
Proof.
  intros (E1 & E2 & _ & _ & E5) (S1 & S2 & S3 & S4 & S5 & S6).
  unfold FlatbuffersStream_ToBytes.
  rewrite S2. cbn. rewrite E2. cbn. rewrite E1. cbn. rewrite S3. cbn. rewrite S1. cbn.
  rewrite E5. cbn. rewrite S4. cbn. rewrite S5. cbn. by rewrite S6.
Qed.

Lemma stream_message_codec m :
  sm_fsm m = None -> message_fits m ->
  exists b m', StreamMessage_ToBytes m = Ret b /\
    StreamMessageFromBytes b = Ret (Ok m') /\ content m' = content m /\
    StreamMessage_MsgType m' = Ret MessageFlatbuffersStream /\
    StreamMessage_ToBytes m' = Ret b.
Proof.
  intros Hf (Hc & Hd & Hsize).
  destruct (FlatbuffersStreamToBytes_reads (SenderID m) (MessageTopic m) (TXID m) (Payload m)
    (CreatedAt m) (EnvMessageID m) (DeviceType m) (DeviceID m) (DeliveredAtEpochMs m) Hc Hd Hsize)
    as (b & env & t & E & Hne & Hroot & Henv & Hstream).
  eexists b, _. unfold StreamMessage_ToBytes at 1. rewrite Hf. split; [done|].
  split; [by apply (StreamMessageFromBytes_reads _ _ _ _ Hne Hroot Henv Hstream)|].
  split; [done|]. split; [apply Henv|].
  unfold StreamMessage_ToBytes; cbn [sm_fsm sm_envelope].
  rewrite (FlatbuffersStream_ToBytes_reads _ _ _ Henv Hstream). exact E.
Qed.

Lemma ack_message_codec m :
  ack_fits m ->
  exists b m', StreamAckMessage_ToBytes m = Ret b /\
    StreamAckMessageFromBytes b = Ret (Ok m') /\ ack_content m' = ack_content m /\
    StreamAckMessage_MsgType m' = Ret MessageFlatbuffersStreamAck /\
    exists e, StreamMessageFromBytes b = Ret (Err e).
Proof.
  intros Hfit.
  destruct (FlatbuffersStreamAckToBytes_reads _ _ _ Hfit) as (b & env & t & E & Hne & Hroot & Henv).
  exists b. eexists. split; [exact E|].
  pose proof (FlatbuffersEnvelopeFromBytes_reads _ _ _ _ _ _ _ Hne Hroot Henv) as Hfrom.
  destruct Henv as (E1 & E2 & E3 & E4 & E5).
  unfold StreamAckMessageFromBytes, StreamMessageFromBytes, wrong_type.
  rewrite Hroot, Hfrom. cbn. rewrite !E3. cbn. rewrite !E2. cbn. rewrite !E1. cbn.
  rewrite E5. cbn. split; [done|]. split; [done|]. split; [exact E3|]. by eexists.
Qed.
End CodecLemmas.

(** ** Properties *)

(** C10: encoding a stream message and decoding the bytes gives back every
    field, the decoded message reports the stream type, and re-encoding it
    from its parsed tables gives the same bytes. *)
Theorem stream_message_roundtrip {FB : FlatbuffersLib} {FS : FlatbuffersSpec FB} m :
  sm_fsm m = None -> message_fits m ->
  exists b m', StreamMessage_ToBytes m = Ret b /\
    StreamMessageFromBytes b = Ret (Ok m') /\ content m' = content m /\
    StreamMessage_MsgType m' = Ret MessageFlatbuffersStream /\
    StreamMessage_ToBytes m' = Ret b.
Proof. apply stream_message_codec. Qed.

Definition sample_message : StreamMessage :=
  mkStreamMessage None None (raw "V") (raw "tx-1") (raw "vehicle_device.VIN42")
    (raw "vehicle_device") (raw "VIN42") 0 1700000000 (raw "payload") [].

Lemma sample_message_fits : message_fits sample_message.
Proof. unfold message_fits. vm_compute. repeat split; discriminate. Qed.

Lemma stream_message_roundtrip_witness :
  exists b m', StreamMessage_ToBytes (FB := FbRef) sample_message = Ret b /\
    StreamMessageFromBytes b = Ret (Ok m') /\ content m' = content sample_message /\
    StreamMessage_MsgType m' = Ret MessageFlatbuffersStream /\
    StreamMessage_ToBytes m' = Ret b.
Proof. exact (stream_message_roundtrip sample_message eq_refl sample_message_fits). Defined.

(** An acknowledgement decodes to the transaction id, topic and message id
    it was built from, and is refused by the stream-message decoder. *)
Theorem stream_ack_roundtrip {FB : FlatbuffersLib} {FS : FlatbuffersSpec FB} m :
  ack_fits m ->
  exists b m', StreamAckMessage_ToBytes m = Ret b /\
    StreamAckMessageFromBytes b = Ret (Ok m') /\ ack_content m' = ack_content m /\
    StreamAckMessage_MsgType m' = Ret MessageFlatbuffersStreamAck /\
    exists e, StreamMessageFromBytes b = Ret (Err e).
Proof. apply ack_message_codec. Qed.

Definition sample_ack : StreamAckMessage :=
  mkStreamAckMessage None (raw "tx-1") (raw "V") [].

Lemma sample_ack_fits : ack_fits sample_ack.
Proof. unfold ack_fits. vm_compute. discriminate. Qed.

Lemma stream_ack_roundtrip_witness :
  exists b m', StreamAckMessage_ToBytes (FB := FbRef) sample_ack = Ret b /\
    StreamAckMessageFromBytes b = Ret (Ok m') /\ ack_content m' = ack_content sample_ack /\
    StreamAckMessage_MsgType m' = Ret MessageFlatbuffersStreamAck /\
    exists e, StreamMessageFromBytes b = Ret (Err e).
Proof. exact (stream_ack_roundtrip sample_ack sample_ack_fits). Defined.
