(* ===== verification/FbElements.v ===== *)
(** * Elements and in-place edits of the generated tables (messages/tesla/)

    The FlatBuffers compiler also generates, for every byte field, an accessor
    of one element, its length, a mutator of one element and the start of a
    vector, and for every scalar a mutator.  The runtime's part of them is the
    interface [FlatbuffersElements] with the laws [FlatbuffersElementsSpec],
    which say what a finished buffer ([fb_buffer]) answers and how a write to
    it changes the heap it holds.  A mutator writes to the buffer that all
    tables over it share: it answers the new contents of that buffer. *)

From S2P Require Import Prelude Flatbuffers FbRef Messages.
From stdpp Require Import functions.
Local Open Scope Z_scope.

Class FlatbuffersElements (FB : FlatbuffersLib) := {
  Table_Vector : Table -> Z -> outcome Z;
  Table_VectorLen : Table -> Z -> outcome Z;
  Table_MutateByte : Table -> Z -> Z -> outcome (bool * bytes);
  Table_MutateByteSlot : Table -> Z -> Z -> outcome (bool * bytes);
  Table_MutateUint32Slot : Table -> Z -> Z -> outcome (bool * bytes);
  Table_MutateUint64Slot : Table -> Z -> Z -> outcome (bool * bytes);
  StartVector : Z -> Z -> Z -> Builder -> outcome (Z * Builder)
}.

(** ** The generated code *)

Section Generated.
Context {FB : FlatbuffersLib} {FE : FlatbuffersElements FB}.

(** The shapes shared by the accessors and mutators of byte vectors; the index
    is an [int] converted to a 32-bit offset. *)
Definition element (t : Table) (vt j : Z) : outcome Z :=
  field_or 0 (fun o => a ← Table_Vector t o; Table_GetByte t (u32 (a + u32 j))) t vt.
Definition vector_length (t : Table) (vt : Z) : outcome Z :=
  field_or 0 (fun o => Table_VectorLen t o) t vt.
Definition mutate_element (t : Table) (vt j n : Z) : outcome (bool * bytes) :=
  field_or (false, Table_Bytes t)
    (fun o => a ← Table_Vector t o; Table_MutateByte t (u32 (a + u32 j)) n) t vt.

(** FlatbuffersEnvelope.go *)
Definition Envelope_Init (buf : bytes) (i : Z) : Table := mkTable buf i.
Definition Envelope_Txid (rcv : Table) (j : Z) : outcome Z := element rcv 4 j.
Definition Envelope_TxidLength (rcv : Table) : outcome Z := vector_length rcv 4.
Definition Envelope_MutateTxid (rcv : Table) (j n : Z) := mutate_element rcv 4 j n.
Definition Envelope_Topic (rcv : Table) (j : Z) : outcome Z := element rcv 6 j.
Definition Envelope_TopicLength (rcv : Table) : outcome Z := vector_length rcv 6.
Definition Envelope_MutateTopic (rcv : Table) (j n : Z) := mutate_element rcv 6 j n.
Definition Envelope_MutateMessageType (rcv : Table) (n : Z) := Table_MutateByteSlot rcv 8 n.
Definition Envelope_MessageId (rcv : Table) (j : Z) : outcome Z := element rcv 12 j.
Definition Envelope_MessageIdLength (rcv : Table) : outcome Z := vector_length rcv 12.
Definition Envelope_MutateMessageId (rcv : Table) (j n : Z) := mutate_element rcv 12 j n.
Definition FlatbuffersEnvelopeStartTxidVector (numElems : Z) (b : Builder) := StartVector 1 numElems 1 b.
Definition FlatbuffersEnvelopeStartTopicVector (numElems : Z) (b : Builder) := StartVector 1 numElems 1 b.
Definition FlatbuffersEnvelopeStartMessageIdVector (numElems : Z) (b : Builder) := StartVector 1 numElems 1 b.

(** FlatbuffersStream.go *)
Definition Stream_Init (buf : bytes) (i : Z) : Table := mkTable buf i.
Definition Stream_MutateCreatedAt (rcv : Table) (n : Z) := Table_MutateUint32Slot rcv 4 n.
Definition Stream_SenderId (rcv : Table) (j : Z) : outcome Z := element rcv 6 j.
Definition Stream_SenderIdLength (rcv : Table) : outcome Z := vector_length rcv 6.
Definition Stream_MutateSenderId (rcv : Table) (j n : Z) := mutate_element rcv 6 j n.
Definition Stream_Payload (rcv : Table) (j : Z) : outcome Z := element rcv 8 j.
Definition Stream_PayloadLength (rcv : Table) : outcome Z := vector_length rcv 8.
Definition Stream_MutatePayload (rcv : Table) (j n : Z) := mutate_element rcv 8 j n.
Definition Stream_DeviceType (rcv : Table) (j : Z) : outcome Z := element rcv 10 j.
Definition Stream_DeviceTypeLength (rcv : Table) : outcome Z := vector_length rcv 10.
Definition Stream_MutateDeviceType (rcv : Table) (j n : Z) := mutate_element rcv 10 j n.
Definition Stream_DeviceId (rcv : Table) (j : Z) : outcome Z := element rcv 12 j.
Definition Stream_DeviceIdLength (rcv : Table) : outcome Z := vector_length rcv 12.
Definition Stream_MutateDeviceId (rcv : Table) (j n : Z) := mutate_element rcv 12 j n.
Definition Stream_MutateDeliveredAtEpochMs (rcv : Table) (n : Z) := Table_MutateUint64Slot rcv 14 n.
Definition FlatbuffersStreamStartSenderIdVector (numElems : Z) (b : Builder) := StartVector 1 numElems 1 b.
Definition FlatbuffersStreamStartPayloadVector (numElems : Z) (b : Builder) := StartVector 1 numElems 1 b.
Definition FlatbuffersStreamStartDeviceTypeVector (numElems : Z) (b : Builder) := StartVector 1 numElems 1 b.
Definition FlatbuffersStreamStartDeviceIdVector (numElems : Z) (b : Builder) := StartVector 1 numElems 1 b.

(** FlatbuffersStreamAck.go *)
Definition StreamAck_Init (buf : bytes) (i : Z) : Table := mkTable buf i.

(** ** Fields and edits of a message *)

(** The byte fields of an encoded message: of the envelope and of the stream. *)
Inductive byte_field := FTxid | FTopic | FMessageId | FSenderId | FPayload | FDeviceType | FDeviceId.

Definition field_bytes (f : byte_field) (env t : Table) : outcome bytes :=
  match f with
  | FTxid => Envelope_TxidBytes env | FTopic => Envelope_TopicBytes env
  | FMessageId => Envelope_MessageIdBytes env | FSenderId => Stream_SenderIdBytes t
  | FPayload => Stream_PayloadBytes t | FDeviceType => Stream_DeviceTypeBytes t
  | FDeviceId => Stream_DeviceIdBytes t
  end.
Definition field_length (f : byte_field) (env t : Table) : outcome Z :=
  match f with
  | FTxid => Envelope_TxidLength env | FTopic => Envelope_TopicLength env
  | FMessageId => Envelope_MessageIdLength env | FSenderId => Stream_SenderIdLength t
  | FPayload => Stream_PayloadLength t | FDeviceType => Stream_DeviceTypeLength t
  | FDeviceId => Stream_DeviceIdLength t
  end.
Definition field_element (f : byte_field) (env t : Table) (j : Z) : outcome Z :=
  match f with
  | FTxid => Envelope_Txid env j | FTopic => Envelope_Topic env j
  | FMessageId => Envelope_MessageId env j | FSenderId => Stream_SenderId t j
  | FPayload => Stream_Payload t j | FDeviceType => Stream_DeviceType t j
  | FDeviceId => Stream_DeviceId t j
  end.

Inductive edit :=
| EditByte (f : byte_field) (j : nat) (c : Byte.byte)
| EditMessageType (n : Z)
| EditCreatedAt (n : Z)
| EditDeliveredAt (n : Z).

(** The call of the generated mutator. *)
Definition mutate (x : edit) (env t : Table) : outcome (bool * bytes) :=
  match x with
  | EditByte f j c =>
      match f with
      | FTxid => Envelope_MutateTxid env (Z.of_nat j) (byte_value c)
      | FTopic => Envelope_MutateTopic env (Z.of_nat j) (byte_value c)
      | FMessageId => Envelope_MutateMessageId env (Z.of_nat j) (byte_value c)
      | FSenderId => Stream_MutateSenderId t (Z.of_nat j) (byte_value c)
      | FPayload => Stream_MutatePayload t (Z.of_nat j) (byte_value c)
      | FDeviceType => Stream_MutateDeviceType t (Z.of_nat j) (byte_value c)
      | FDeviceId => Stream_MutateDeviceId t (Z.of_nat j) (byte_value c)
      end
  | EditMessageType n => Envelope_MutateMessageType env n
  | EditCreatedAt n => Stream_MutateCreatedAt t n
  | EditDeliveredAt n => Stream_MutateDeliveredAtEpochMs t n
  end.

(** Edits through an envelope and a stream at two positions of one buffer,
    with what the mutators answered. *)
Fixpoint mutate_all (edits : list edit) (buf : bytes) (pe pm : Z) : outcome (list bool * bytes) :=
  match edits with
  | [] => Ret ([], buf)
  | x :: edits =>
      '(ok, buf) ← mutate x (mkTable buf pe) (mkTable buf pm);
      '(oks, buf) ← mutate_all edits buf pe pm;
      Ret (ok :: oks, buf)
  end.
End Generated.

(** ** What the runtime promises *)

(** [changes heap root place buf o x]: the buffer [buf] holds what it held but
    for the object [o], which is now [x]. *)
Definition changes {FB : FlatbuffersLib} {FS : FlatbuffersSpec FB}
    (heap : Z -> option fbobj) (root : Z) (place : Z -> Z) (o : Z) (x : fbobj)
    (op : outcome (bool * bytes)) : Prop :=
  exists buf, op = Ret (true, buf) /\ fb_buffer (<[o := Some x]> heap) root buf place.

(** An element, or a scalar that was written, is overwritten in place; the slot
    of a scalar left out as the default cannot be. *)
Class FlatbuffersElementsSpec (FB : FlatbuffersLib) (FS : FlatbuffersSpec FB)
    (FE : FlatbuffersElements FB) : Prop := {
  fb_vector heap root buf place o slots i r s v :
    fb_buffer heap root buf place -> heap o = Some (OTable slots) ->
    slots !! i = Some (Some (FRef r)) -> heap r = Some (OBytes s) ->
    let t := mkTable buf (place o) in
    Table_Offset t (4 + 2 * Z.of_nat i) = Ret v ->
    Table_VectorLen t v = Ret (zlength s) /\
    exists a, Table_Vector t v = Ret a /\ 0 <= a /\ a + zlength s <= 2 ^ 32 /\
      forall j c, s !! j = Some c ->
        Table_GetByte t (a + Z.of_nat j) = Ret (byte_value c) /\
        forall c', changes heap root place r (OBytes (<[j := c']> s))
                     (Table_MutateByte t (a + Z.of_nat j) (byte_value c'));

  fb_scalar heap root buf place o slots i f :
    fb_buffer heap root buf place -> heap o = Some (OTable slots) -> slots !! i = Some (Some f) ->
    let t := mkTable buf (place o) in
    let vt := 4 + 2 * Z.of_nat i in
    let writes f op := changes heap root place o (OTable (<[i := Some f]> slots)) op in
    match f with
    | FByte _ => forall n, 0 <= n < 2 ^ 8 -> writes (FByte n) (Table_MutateByteSlot t vt n)
    | FUint32 _ => forall n, 0 <= n < 2 ^ 32 -> writes (FUint32 n) (Table_MutateUint32Slot t vt n)
    | FUint64 _ => forall n, 0 <= n < 2 ^ 64 -> writes (FUint64 n) (Table_MutateUint64Slot t vt n)
    | FRef _ => True
    end;

  fb_absent t vt n : 4 <= vt -> Table_Offset t vt = Ret 0 ->
    Table_MutateByteSlot t vt n = Ret (false, Table_Bytes t) /\
    Table_MutateUint32Slot t vt n = Ret (false, Table_Bytes t) /\
    Table_MutateUint64Slot t vt n = Ret (false, Table_Bytes t);

  (** A vector is started outside of any object, and changes no finished one. *)
  fb_start_vector k n a b : fb_wf b -> 0 <= n -> fb_size b + k * n + fb_overhead <= fb_capacity ->
    match fb_open b with
    | None => exists off b', StartVector k n a b = Ret (off, b') /\ fb_heap b' = fb_heap b
    | Some _ => exists why, StartVector k n a b = Panic why
    end
}.

(** ** Abstract edits of a message *)

Definition field_of (f : byte_field) (m : StreamMessage) : bytes :=
  match f with
  | FTxid => TXID m | FTopic => MessageTopic m | FMessageId => EnvMessageID m
  | FSenderId => SenderID m | FPayload => Payload m | FDeviceType => DeviceType m
  | FDeviceId => DeviceID m
  end.

Definition set_field (f : byte_field) (s : bytes) (m : StreamMessage) : StreamMessage :=
  let '(mkStreamMessage fsm env topic txid sd dt di dl cr pl id) := m in
  match f with
  | FTxid => mkStreamMessage fsm env topic s sd dt di dl cr pl id
  | FTopic => mkStreamMessage fsm env s txid sd dt di dl cr pl id
  | FMessageId => mkStreamMessage fsm env topic txid sd dt di dl cr pl s
  | FSenderId => mkStreamMessage fsm env topic txid s dt di dl cr pl id
  | FPayload => mkStreamMessage fsm env topic txid sd dt di dl cr s id
  | FDeviceType => mkStreamMessage fsm env topic txid sd s di dl cr pl id
  | FDeviceId => mkStreamMessage fsm env topic txid sd dt s dl cr pl id
  end.

(** Which scalars were written when the message was encoded. *)
Definition writable (m : StreamMessage) (x : edit) : bool :=
  match x with
  | EditCreatedAt _ => negb (CreatedAt m =? 0)
  | EditDeliveredAt _ => negb (DeliveredAtEpochMs m =? 0)
  | _ => true
  end.

(** Edits of bytes a field has, and of scalars to values of their width. *)
Definition in_range (m : StreamMessage) (x : edit) : Prop :=
  match x with
  | EditByte f j _ => (j < length (field_of f m))%nat
  | EditMessageType n => 0 <= n < 2 ^ 8
  | EditCreatedAt n => 0 <= n < 2 ^ 32
  | EditDeliveredAt n => 0 <= n < 2 ^ 64
  end.

(** The type and the message after an edit. *)
Definition apply_edit (x : edit) (state : Z * StreamMessage) : Z * StreamMessage :=
  let '(ty, m) := state in
  match x with
  | EditByte f j c => (ty, set_field f (<[j := c]> (field_of f m)) m)
  | EditMessageType n => (n, m)
  | EditCreatedAt n =>
      (ty, mkStreamMessage (sm_fsm m) (sm_envelope m) (MessageTopic m) (TXID m) (SenderID m)
             (DeviceType m) (DeviceID m) (DeliveredAtEpochMs m) n (Payload m) (EnvMessageID m))
  | EditDeliveredAt n =>
      (ty, mkStreamMessage (sm_fsm m) (sm_envelope m) (MessageTopic m) (TXID m) (SenderID m)
             (DeviceType m) (DeviceID m) n (CreatedAt m) (Payload m) (EnvMessageID m))
  end.

Definition apply_edits (edits : list edit) (state : Z * StreamMessage) : Z * StreamMessage :=
  foldl (fun state x => apply_edit x state) state edits.

(** ** Lemmas *)

Section Laws.
Context {FB : FlatbuffersLib} {FS : FlatbuffersSpec FB} {FE : FlatbuffersElements FB}
  {FES : FlatbuffersElementsSpec FB FS FE}.

Section Vector.
Context (heap : Z -> option fbobj) (root : Z) (buf : bytes) (place : Z -> Z).
Context (o : Z) (slots : list (option fbfield)) (i : nat) (r : Z) (s : bytes).
Context (Hbuf : fb_buffer heap root buf place) (Ho : heap o = Some (OTable slots))
  (Hi : slots !! i = Some (Some (FRef r))) (Hr : heap r = Some (OBytes s)).
Let t : Table := mkTable buf (place o).

(** The vtable entry of the field, and the address of its vector. *)
Lemma vector_found :
  exists v a, (forall A (d : A) get, field_or d get t (4 + 2 * Z.of_nat i) = get v) /\
    Table_VectorLen t v = Ret (zlength s) /\ Table_Vector t v = Ret a /\
    forall j c, s !! j = Some c ->
      u32 (a + u32 (Z.of_nat j)) = a + Z.of_nat j /\
      Table_GetByte t (a + Z.of_nat j) = Ret (byte_value c) /\
      forall c', changes heap root place r (OBytes (<[j := c']> s))
                   (Table_MutateByte t (a + Z.of_nat j) (byte_value c')).
Proof.
  pose proof (fb_slots _ _ _ _ _ _ i Hbuf Ho) as Hs. rewrite Hi in Hs.
  destruct Hs as (v & E & Hv & Hb & _).
  destruct (fb_place _ _ _ _ o Hbuf) as [Hp _]; [by eexists|].
  destruct (fb_vector _ _ _ _ _ _ _ _ _ v Hbuf Ho Hi Hr E) as (Hlen & a & Ha & Ha0 & Ha1 & Helt).
  exists v, a. split_and!; [|done|done|].
  - intros A d get. unfold field_or, t. rewrite E. simpl. rewrite u32_small by lia.
    by rewrite (proj2 (Z.eqb_neq v 0)) by lia.
  - intros j c Hj. destruct (Helt j c Hj) as [Hget Hset]. apply lookup_lt_Some in Hj.
    unfold zlength in Ha1. split_and!; [|done|done].
    rewrite (u32_small (Z.of_nat j)), u32_small by lia. done.
Qed.

Lemma vector_length_reads : vector_length t (4 + 2 * Z.of_nat i) = Ret (zlength s).
Proof.
  destruct vector_found as (v & a & Hf & Hlen & _). unfold vector_length. by rewrite Hf.
Qed.

Lemma element_reads j c :
  s !! j = Some c -> element t (4 + 2 * Z.of_nat i) (Z.of_nat j) = Ret (byte_value c).
Proof.
  intros Hj. destruct vector_found as (v & a & Hf & _ & Ha & Helt).
  destruct (Helt j c Hj) as (Hu & Hget & _). unfold element. rewrite Hf, Ha. cbn. by rewrite Hu.
Qed.

Lemma mutate_element_changes j c' :
  (j < length s)%nat ->
  changes heap root place r (OBytes (<[j := c']> s))
    (mutate_element t (4 + 2 * Z.of_nat i) (Z.of_nat j) (byte_value c')).
Proof.
  intros [c Hj]%lookup_lt_is_Some. destruct vector_found as (v & a & Hf & _ & Ha & Helt).
  destruct (Helt j c Hj) as (Hu & _ & Hset). unfold mutate_element. rewrite Hf, Ha. cbn. rewrite Hu. apply Hset.
Qed.
End Vector.
End Laws.

#[export] Instance byte_field_eq_dec : EqDecision byte_field.
Proof. solve_decision. Defined.

Lemma field_of_set f f' s m :
  field_of f' (set_field f s m) = if decide (f' = f) then s else field_of f' m.
Proof. by destruct m, f, f'. Qed.

Lemma set_field_scalars f s m :
  CreatedAt (set_field f s m) = CreatedAt m /\ DeliveredAtEpochMs (set_field f s m) = DeliveredAtEpochMs m.
Proof. by destruct m, f. Qed.

(** A field by its place in the tables: which of them, and which slot. *)
Definition in_envelope (f : byte_field) : bool :=
  match f with FTxid | FTopic | FMessageId => true | _ => false end.
Definition slot_of (f : byte_field) : nat :=
  match f with
  | FTxid => 0 | FTopic => 1 | FMessageId => 4 | FSenderId => 1 | FPayload => 2 | FDeviceType => 3
  | FDeviceId => 4
  end.

(** The heap [heap] has the message [msg] of type [ty]: envelope [e], stream [m]
    with its two scalar slots, and the string [ref f] of each field. *)
Record holds (e m : Z) (ref : byte_field -> Z) (created delivered : option fbfield)
    (heap : Z -> option fbobj) (ty : Z) (msg : StreamMessage) : Prop := {
  holds_envelope : heap e = Some (OTable [Some (FRef (ref FTxid)); Some (FRef (ref FTopic));
    Some (FByte ty); Some (FRef m); Some (FRef (ref FMessageId))]);
  holds_stream : heap m = Some (OTable [created; Some (FRef (ref FSenderId)); Some (FRef (ref FPayload));
    Some (FRef (ref FDeviceType)); Some (FRef (ref FDeviceId)); delivered]);
  holds_strings f : heap (ref f) = Some (OBytes (field_of f msg));
  holds_created : scalar_slot (FUint32 (CreatedAt msg)) (CreatedAt msg) created;
  holds_delivered : scalar_slot (FUint64 (DeliveredAtEpochMs msg)) (DeliveredAtEpochMs msg) delivered
}.

(** The scalars an edit finds in the buffer. *)
Definition present (created delivered : option fbfield) (x : edit) : bool :=
  match x with
  | EditCreatedAt _ => bool_decide (is_Some created)
  | EditDeliveredAt _ => bool_decide (is_Some delivered)
  | _ => true
  end.

Section Holds.
Context {FB : FlatbuffersLib} {FS : FlatbuffersSpec FB} {FE : FlatbuffersElements FB}
  {FES : FlatbuffersElementsSpec FB FS FE}.
Context (e m : Z) (ref : byte_field -> Z) (created delivered : option fbfield).
Context (heap : Z -> option fbobj) (buf : bytes) (place : Z -> Z) (ty : Z) (msg : StreamMessage).
Context (Hbuf : fb_buffer heap e buf place) (H : holds e m ref created delivered heap ty msg).
Let env : Table := mkTable buf (place e).
Let t : Table := mkTable buf (place m).

(** The table a field is in has the reference of the field in its slot. *)
Lemma field_slot f :
  exists slots, heap (if in_envelope f then e else m) = Some (OTable slots) /\
    slots !! slot_of f = Some (Some (FRef (ref f))).
Proof. destruct H, f; (eexists; split; [eassumption|reflexivity]). Qed.

Lemma field_reads f :
  field_bytes f env t = Ret (field_of f msg) /\
  field_length f env t = Ret (zlength (field_of f msg)) /\
  forall j c, field_of f msg !! j = Some c -> field_element f env t (Z.of_nat j) = Ret (byte_value c).
Proof.
  destruct (field_slot f) as (slots & Ho & Hi). pose proof (holds_strings _ _ _ _ _ _ _ _ H f) as Hr.
  assert (Hp : 0 <= place (if in_envelope f then e else m)) by (eapply fb_place; [done|by eexists]).
  pose proof (fb_slots _ _ _ _ _ _ (slot_of f) Hbuf Ho) as Hs. rewrite Hi in Hs.
  pose proof (bytes_reads _ _ _ _ _ _ _ Hp Hr Hs) as Hb.
  pose proof (vector_length_reads _ _ _ _ _ _ _ _ _ Hbuf Ho Hi Hr) as Hl.
  pose proof (fun j c => element_reads _ _ _ _ _ _ _ _ _ Hbuf Ho Hi Hr j c) as He.
  destruct f; (split_and!; [exact Hb|exact Hl|exact He]).
Qed.

Lemma decode_holds :
  FlatbuffersEnvelopeFromBytes buf = Ret (Ok (env, t)) /\
  Envelope_MessageType env = Ret ty /\
  (ty = MessageFlatbuffersStream -> exists m', StreamMessageFromBytes buf = Ret (Ok m') /\
     content m' = content msg) /\
  (ty <> MessageFlatbuffersStream -> exists err, StreamMessageFromBytes buf = Ret (Err err)).
Proof.
  destruct (envelope_layout_reads heap buf place e m (ref FTxid) (ref FTopic) (ref FMessageId)
    (TXID msg) (MessageTopic msg) (EnvMessageID msg) ty Hbuf) as [Hroot Henv].
  { destruct H as [He _ Hs _ _]. split_and!; [exact He|apply (Hs FTxid)|apply (Hs FTopic)|apply (Hs FMessageId)]. }
  assert (Hstream : stream_reads t (SenderID msg) (Payload msg) (DeviceType msg) (DeviceID msg)
    (CreatedAt msg) (DeliveredAtEpochMs msg)).
  { destruct H as [_ Hm Hs Hc Hd].
    apply (stream_layout_reads heap e buf place m (ref FSenderId) (ref FPayload) (ref FDeviceType)
      (ref FDeviceId) created delivered _ _ _ _ _ _ Hbuf).
    split_and!; [exact Hc|exact Hd|exact Hm|apply (Hs FSenderId)|apply (Hs FPayload)
      |apply (Hs FDeviceType)|apply (Hs FDeviceId)]. }
  destruct (fb_root _ _ _ _ Hbuf) as [Hne _].
  pose proof (FlatbuffersEnvelopeFromBytes_reads _ _ _ _ _ _ _ Hne Hroot Henv) as Hfrom.
  split_and!; [exact Hfrom|apply Henv| |].
  - intros ->. eexists. split; [by apply (StreamMessageFromBytes_reads buf env t msg)|done].
  - intros Hty. unfold StreamMessageFromBytes, wrong_type. rewrite Hfrom.
    destruct Henv as (E1 & E2 & E3 & _). cbn. rewrite !E3. cbn. rewrite E1. cbn. rewrite E2. cbn.
    rewrite (proj2 (Z.eqb_neq ty MessageFlatbuffersStream)) by done. by eexists.
Qed.
End Holds.

(** *** One edit *)

Section Edit.
Context {FB : FlatbuffersLib} {FS : FlatbuffersSpec FB} {FE : FlatbuffersElements FB}
  {FES : FlatbuffersElementsSpec FB FS FE}.
Context (e m : Z) (ref : byte_field -> Z) (Href : Inj (=) (=) ref).

(** The objects of a message are distinct. *)
Lemma holds_distinct created delivered heap ty msg :
  holds e m ref created delivered heap ty msg ->
  e <> m /\ (forall f, e <> ref f) /\ (forall f, m <> ref f).
Proof.
  intros [He Hm Hs _ _]. split_and!; [|intros f|intros f]; intros Heq;
    [|pose proof (Hs f)|pose proof (Hs f)]; congruence.
Qed.

Lemma holds_set_field created delivered heap ty msg f s :
  holds e m ref created delivered heap ty msg ->
  holds e m ref created delivered (<[ref f := Some (OBytes s)]> heap) ty (set_field f s msg).
Proof.
  intros H. destruct (holds_distinct _ _ _ _ _ H) as (_ & Hef & Hmf).
  destruct H as [He Hm Hs Hc Hd]. destruct (set_field_scalars f s msg) as [Ec Ed].
  split; rewrite ?Ec, ?Ed; try done.
  - by rewrite fn_lookup_insert_ne by (symmetry; apply Hef).
  - by rewrite fn_lookup_insert_ne by (symmetry; apply Hmf).
  - intros f'. rewrite field_of_set. case_decide as Hf; [subst f'; by rewrite fn_lookup_insert|].
    rewrite fn_lookup_insert_ne; [apply Hs|]. intros ->%Href. done.
Qed.

(** A call of a mutator on a buffer that holds a message. *)
Definition edited (created delivered : option fbfield) (place : Z -> Z) (ty : Z) (msg : StreamMessage)
    (x : edit) (buf : bytes) : Prop :=
  exists buf' heap' created' delivered',
    mutate x (mkTable buf (place e)) (mkTable buf (place m)) = Ret (present created delivered x, buf') /\
    fb_buffer heap' e buf' place /\
    (is_Some created' <-> is_Some created) /\ (is_Some delivered' <-> is_Some delivered) /\
    let '(ty', msg') := if present created delivered x then apply_edit x (ty, msg) else (ty, msg) in
    holds e m ref created' delivered' heap' ty' msg'.

Lemma edit_byte created delivered heap buf place ty msg f j c :
  fb_buffer heap e buf place -> holds e m ref created delivered heap ty msg ->
  (j < length (field_of f msg))%nat -> edited created delivered place ty msg (EditByte f j c) buf.
Proof.
  intros Hbuf H Hj. destruct (field_slot e m ref created delivered heap ty msg H f) as (slots & Ho & Hi).
  destruct (mutate_element_changes _ _ _ _ _ _ _ _ _ Hbuf Ho Hi (holds_strings _ _ _ _ _ _ _ _ H f)
    j c Hj) as (buf' & E & Hbuf').
  eexists buf', _, created, delivered. split_and!; [|exact Hbuf'|done|done|by apply holds_set_field].
  destruct f; exact E.
Qed.

Lemma edit_message_type created delivered heap buf place ty msg n :
  fb_buffer heap e buf place -> holds e m ref created delivered heap ty msg ->
  0 <= n < 2 ^ 8 -> edited created delivered place ty msg (EditMessageType n) buf.
Proof.
  intros Hbuf H Hn. destruct (holds_distinct _ _ _ _ _ H) as (Hem & Hef & _). destruct H as [He Hm Hs Hc Hd].
  destruct (fb_scalar _ _ _ _ _ _ 2 _ Hbuf He eq_refl n Hn) as (buf' & E & Hbuf').
  eexists buf', _, created, delivered. split_and!; [exact E|exact Hbuf'|done|done|].
  split; try done.
  - by rewrite fn_lookup_insert.
  - by rewrite fn_lookup_insert_ne.
  - intros f. by rewrite fn_lookup_insert_ne.
Qed.

(** The two scalars of the stream, by their slots. *)
Lemma edit_created created delivered heap buf place ty msg n :
  fb_buffer heap e buf place -> holds e m ref created delivered heap ty msg ->
  0 <= n < 2 ^ 32 -> edited created delivered place ty msg (EditCreatedAt n) buf.
Proof.
  intros Hbuf H Hn. destruct (holds_distinct _ _ _ _ _ H) as (Hem & _ & Hmf).
  pose proof H as [He Hm Hs Hc Hd]. unfold edited, present. destruct Hc as [->|[-> Hz]].
  - destruct (fb_scalar _ _ _ _ _ _ 0 _ Hbuf Hm eq_refl n Hn) as (buf' & E & Hbuf').
    eexists buf', _, (Some (FUint32 n)), delivered. rewrite bool_decide_eq_true_2 by by eexists.
    split_and!; [exact E|exact Hbuf'|done|done|].
    split; [by rewrite fn_lookup_insert_ne|by rewrite fn_lookup_insert
      |intros f; by rewrite fn_lookup_insert_ne; [destruct f; apply Hs|]|by left|exact Hd].
  - rewrite bool_decide_eq_false_2 by (by intros []).
    eexists buf, heap, None, delivered. split_and!; [|done|done|done|exact H].
    apply fb_absent; [done|]. exact (fb_slots _ _ _ _ _ _ 0 Hbuf Hm).
Qed.

Lemma edit_delivered created delivered heap buf place ty msg n :
  fb_buffer heap e buf place -> holds e m ref created delivered heap ty msg ->
  0 <= n < 2 ^ 64 -> edited created delivered place ty msg (EditDeliveredAt n) buf.
Proof.
  intros Hbuf H Hn. destruct (holds_distinct _ _ _ _ _ H) as (Hem & _ & Hmf).
  pose proof H as [He Hm Hs Hc Hd]. unfold edited, present. destruct Hd as [->|[-> Hz]].
  - destruct (fb_scalar _ _ _ _ _ _ 5 _ Hbuf Hm eq_refl n Hn) as (buf' & E & Hbuf').
    eexists buf', _, created, (Some (FUint64 n)). rewrite bool_decide_eq_true_2 by by eexists.
    split_and!; [exact E|exact Hbuf'|done|done|].
    split; [by rewrite fn_lookup_insert_ne|by rewrite fn_lookup_insert
      |intros f; by rewrite fn_lookup_insert_ne; [destruct f; apply Hs|]|exact Hc|by left].
  - rewrite bool_decide_eq_false_2 by (by intros []).
    eexists buf, heap, created, None. split_and!; [|done|done|done|exact H].
    apply fb_absent; [done|]. exact (fb_slots _ _ _ _ _ _ 5 Hbuf Hm).
Qed.

Lemma edit_step created delivered heap buf place ty msg x :
  fb_buffer heap e buf place -> holds e m ref created delivered heap ty msg ->
  in_range msg x -> edited created delivered place ty msg x buf.
Proof.
  destruct x; intros Hbuf H Hx;
    [by eapply edit_byte|by eapply edit_message_type|by eapply edit_created|by eapply edit_delivered].
Qed.
End Edit.

(** *** Encoded messages *)

Lemma in_range_edited m x y ty : in_range m x -> in_range (apply_edit x (ty, m)).2 y <-> in_range m y.
Proof.
  destruct x as [f j c|n|n|n], y as [f' j' c'|n'|n'|n']; try done. cbn [apply_edit snd in_range].
  rewrite field_of_set. intros _. case_decide as Hf; [subst f'; by rewrite length_insert|done].
Qed.

Lemma fields_distinct (tx tp id sd pl dt di : Z) :
  NoDup [tx; tp; id; sd; pl; dt; di] ->
  Inj (=) (=) (fun f => match f with FTxid => tx | FTopic => tp | FMessageId => id | FSenderId => sd
                                   | FPayload => pl | FDeviceType => dt | FDeviceId => di end).
Proof.
  rewrite !list.NoDup_cons, !not_elem_of_cons. intros H [] []; cbn; intuition congruence.
Qed.

Section Encoded.
Context {FB : FlatbuffersLib} {FS : FlatbuffersSpec FB} {FE : FlatbuffersElements FB}
  {FES : FlatbuffersElementsSpec FB FS FE}.

Lemma encoded_holds msg :
  sm_fsm msg = None -> message_fits msg ->
  exists b heap place e m ref created delivered,
    StreamMessage_ToBytes msg = Ret b /\ fb_buffer heap e b place /\ Inj (=) (=) ref /\
    holds e m ref created delivered heap MessageFlatbuffersStream msg /\
    forall x, present created delivered x = writable msg x.
Proof.
  intros Hf (Hc & Hd & Hsize).
  destruct (FlatbuffersStreamToBytes_layout (SenderID msg) (MessageTopic msg) (TXID msg) (Payload msg)
    (CreatedAt msg) (EnvMessageID msg) (DeviceType msg) (DeviceID msg) (DeliveredAtEpochMs msg) Hc Hd Hsize)
    as (b & heap & place & e & m & tx & tp & id & sd & pl & dt & di & E & Hbuf & Henv & Hstream & Hnd).
  eexists b, heap, place, e, m, _, _, _. unfold StreamMessage_ToBytes. rewrite Hf.
  split_and!; [exact E|exact Hbuf|exact (fields_distinct _ _ _ _ _ _ _ Hnd)| |].
  - destruct Henv as (He & ? & ? & ?), Hstream as (? & ? & Hm & ? & ? & ? & ?).
    split; [exact He|exact Hm|by intros []|done|done].
  - by intros [| |n|n]; cbn [present writable]; [..|destruct (CreatedAt msg =? 0)|destruct (DeliveredAtEpochMs msg =? 0)].
Qed.

Lemma mutate_all_runs place e m ref : Inj (=) (=) ref ->
  forall edits created delivered heap buf ty msg,
  fb_buffer heap e buf place -> holds e m ref created delivered heap ty msg ->
  Forall (in_range msg) edits ->
  exists buf' heap' created' delivered',
    mutate_all edits buf (place e) (place m) = Ret (present created delivered <$> edits, buf') /\
    fb_buffer heap' e buf' place /\
    let '(ty', msg') := apply_edits (List.filter (present created delivered) edits) (ty, msg) in
    holds e m ref created' delivered' heap' ty' msg'.
Proof.
  intros Href. induction edits as [|x edits IH]; intros created delivered heap buf ty msg Hbuf H Hall.
  { by exists buf, heap, created, delivered. }
  apply list.Forall_cons in Hall as [Hx Hall].
  destruct (edit_step e m ref Href _ _ _ _ _ _ _ x Hbuf H Hx)
    as (buf1 & heap1 & created1 & delivered1 & E1 & Hbuf1 & Hc1 & Hd1 & H1).
  assert (Hp : forall y, present created1 delivered1 y = present created delivered y).
  { intros []; cbn; try done; by apply bool_decide_ext. }
  set (state := if present created delivered x then apply_edit x (ty, msg) else (ty, msg)) in *.
  assert (Hin : Forall (in_range state.2) edits).
  { unfold state. destruct (present _ _ x); [|done]. eapply list.Forall_impl; [exact Hall|].
    intros y. by apply in_range_edited. }
  destruct state as [ty1 msg1] eqn:Es. cbn [snd] in Hin.
  destruct (IH _ _ _ _ _ _ Hbuf1 H1 Hin) as (buf2 & heap2 & created2 & delivered2 & E2 & Hbuf2 & H2).
  exists buf2, heap2, created2, delivered2. split_and!; [|exact Hbuf2|].
  - cbn [mutate_all fmap list_fmap]. rewrite E1. cbn. rewrite E2. cbn. f_equal. f_equal. f_equal.
    apply list_fmap_ext. intros _ y _. apply Hp.
  - rewrite (List.filter_ext _ _ Hp) in H2. cbn [List.filter].
    unfold state in Es. destruct (present created delivered x); cbn [apply_edits foldl]; by rewrite ?Es; simplify_eq.
Qed.
End Encoded.

(** No vector can be started while a table is open. *)
Lemma vectors_outside_tables {FB : FlatbuffersLib} {FS : FlatbuffersSpec FB} {FE : FlatbuffersElements FB}
    {FES : FlatbuffersElementsSpec FB FS FE} b n k :
  b_at b None k -> 0 <= n -> k + n + fb_overhead <= fb_capacity ->
  (exists off b', FlatbuffersEnvelopeStartTxidVector n b = Ret (off, b')) /\
  exists b' why, FlatbuffersEnvelopeStart b = Ret b' /\ FlatbuffersEnvelopeStartTxidVector n b' = Panic why.
Proof.
  intros Hb Hn Hk. pose proof Hb as (Hw & Ho & Hs).
  unfold FlatbuffersEnvelopeStart, FlatbuffersEnvelopeStartTxidVector.
  destruct (start_step b k 5 Hb) as (b1 & E & (Hw1 & Ho1 & Hs1) & _); [lia|]. rewrite E. cbn.
  pose proof (fb_start_vector 1 n 1 b Hw Hn ltac:(lia)) as H. rewrite Ho in H.
  pose proof (fb_start_vector 1 n 1 b1 Hw1 Hn ltac:(lia)) as H1. rewrite Ho1 in H1.
  destruct H as (off & b' & -> & _), H1 as (why & H1). split; [by eexists _, _|by exists b1, why].
Qed.

(** ** Properties *)

(** C36: in an encoded stream message the generated accessors of elements and
    lengths agree with the fields, and the generated mutators edit the message
    in place: any edits of bytes the fields have, of the type and of scalars
    are answered with true exactly when the scalar was not left out as the
    default, and the buffer then decodes to the message with those edits. *)
Theorem edits_in_place {FB : FlatbuffersLib} {FS : FlatbuffersSpec FB} {FE : FlatbuffersElements FB}
    {FES : FlatbuffersElementsSpec FB FS FE} msg edits :
  sm_fsm msg = None -> message_fits msg -> Forall (in_range msg) edits ->
  exists b env t b',
    StreamMessage_ToBytes msg = Ret b /\ FlatbuffersEnvelopeFromBytes b = Ret (Ok (env, t)) /\
    mutate_all edits b (Table_Pos env) (Table_Pos t) = Ret (writable msg <$> edits, b') /\
    let '(ty, msg') := apply_edits (List.filter (writable msg) edits) (MessageFlatbuffersStream, msg) in
    let env' := mkTable b' (Table_Pos env) in
    let t' := mkTable b' (Table_Pos t) in
    (forall f, field_bytes f env' t' = Ret (field_of f msg') /\
       field_length f env' t' = Ret (zlength (field_of f msg')) /\
       forall j c, field_of f msg' !! j = Some c ->
         field_element f env' t' (Z.of_nat j) = Ret (byte_value c)) /\
    if decide (ty = MessageFlatbuffersStream)
    then exists m', StreamMessageFromBytes b' = Ret (Ok m') /\ content m' = content msg'
    else exists err, StreamMessageFromBytes b' = Ret (Err err).
Proof.
  intros Hf Hfit Hin.
  destruct (encoded_holds msg Hf Hfit)
    as (b & heap & place & e & m & ref & created & delivered & E & Hbuf & Href & H & Hp).
  destruct (mutate_all_runs place e m ref Href edits _ _ _ _ _ _ Hbuf H Hin)
    as (b' & heap' & created' & delivered' & E' & Hbuf' & H').
  rewrite (List.filter_ext _ _ Hp) in H'.
  rewrite (list_fmap_ext _ (writable msg) _ (fun _ y _ => Hp y)) in E'.
  destruct (decode_holds _ _ _ _ _ _ _ _ _ _ Hbuf H) as (Hfrom & _).
  eexists b, _, _, b'. split_and!; [exact E|exact Hfrom|exact E'|]. cbn [Table_Pos].
  destruct (apply_edits _ _) as [ty msg']. split; [intros f; by eapply field_reads|].
  destruct (decode_holds _ _ _ _ _ _ _ _ _ _ Hbuf' H') as (_ & _ & Hok & Herr).
  case_decide; [by apply Hok|by apply Herr].
Qed.


(** ** The concrete runtime

    The bytes of all strings have consecutive addresses: the vector of a string
    starts after the bytes of the objects before it. *)

Fixpoint rb_set_data (objs : list fbobj) (k : nat) (c : Byte.byte) : list fbobj :=
  match objs with
  | [] => []
  | OBytes s :: objs' =>
      if (k <? length s)%nat then OBytes (<[k := c]> s) :: objs'
      else OBytes s :: rb_set_data objs' (k - length s) c
  | OTable slots :: objs' => OTable slots :: rb_set_data objs' k c
  end.

Definition rb_set_field (t : Table) (vt : Z) (f : fbfield) : outcome (bool * bytes) :=
  match rb_field t vt, rb_parse (Table_Bytes t) with
  | Some _, Some (root, objs) =>
      match rb_heap objs (Table_Pos t) with
      | Some (OTable slots) =>
          Ret (true, rb_finished root
            (<[Z.to_nat (Table_Pos t - 1) := OTable (<[Z.to_nat ((vt - 4) / 2) := Some f]> slots)]> objs))
      | _ => out_of_range
      end
  | Some _, None => out_of_range
  | None, _ => Ret (false, Table_Bytes t)
  end.

Definition byte_of (n : Z) : Byte.byte := default Byte.x00 (Byte.of_N (Z.to_N n)).

Lemma byte_of_value c : byte_of (byte_value c) = c.
Proof. unfold byte_of, byte_value. by rewrite N2Z.id, Byte.of_to_N. Qed.

#[export] Instance FbRefElements : FlatbuffersElements FbRef := {
  Table_Vector t v :=
    match rb_field t v, rb_parse (Table_Bytes t) with
    | Some (FRef r), Some (_, objs) => Ret (rb_base + zlength (rb_data (take (Z.to_nat (r - 1)) objs)))
    | _, _ => out_of_range
    end;
  Table_VectorLen t v :=
    match rb_field t v, rb_parse (Table_Bytes t) with
    | Some (FRef r), Some (_, objs) =>
        match rb_heap objs r with Some (OBytes s) => Ret (zlength s) | _ => out_of_range end
    | _, _ => out_of_range
    end;
  Table_MutateByte t x n :=
    match rb_parse (Table_Bytes t) with
    | Some (root, objs) =>
        if (rb_base <=? x) && (x <? rb_base + zlength (rb_data objs))
        then Ret (true, rb_finished root (rb_set_data objs (Z.to_nat (x - rb_base)) (byte_of n)))
        else out_of_range
    | None => out_of_range
    end;
  Table_MutateByteSlot t vt n := rb_set_field t vt (FByte n);
  Table_MutateUint32Slot t vt n := rb_set_field t vt (FUint32 n);
  Table_MutateUint64Slot t vt n := rb_set_field t vt (FUint64 n);
  StartVector k n a b :=
    match rb_open b with
    | None => Ret (zlength (rb_objs b) + 1, mkRB (rb_objs b) (Some []) (rb_size b + k * n) [])
    | Some _ => Panic "must not be nested"
    end
}.

Lemma rb_data_split objs i o : objs !! i = Some o ->
  rb_data objs = (rb_data (take i objs) ++ obj_data o ++ rb_data (drop (S i) objs))%list.
Proof.
  intros Hi. transitivity (rb_data (take i objs ++ o :: drop (S i) objs)); [by rewrite take_drop_middle|].
  by rewrite rb_data_app.
Qed.

Lemma rb_data_at objs i s j c :
  objs !! i = Some (OBytes s) -> s !! j = Some c ->
  rb_data objs !! (length (rb_data (take i objs)) + j)%nat = Some c /\
  (length (rb_data (take i objs)) + length s <= length (rb_data objs))%nat /\
  forall c', rb_set_data objs (length (rb_data (take i objs)) + j) c' = <[i := OBytes (<[j := c']> s)]> objs.
Proof.
  intros Hi Hj. pose proof (lookup_lt_Some _ _ _ Hj) as Hlt.
  assert (Hset : forall c', rb_set_data objs (length (rb_data (take i objs)) + j) c' =
                            <[i := OBytes (<[j := c']> s)]> objs).
  { intros c'. revert i Hi. induction objs as [|o objs IH]; intros [|i] Hi; [done|done|..].
    - cbn in Hi. injection Hi as ->. change (rb_data (take 0 _)) with (@nil Byte.byte).
      cbn [length rb_set_data plus]. by rewrite (proj2 (Nat.ltb_lt _ _)).
    - cbn in Hi. cbn [take]. change (rb_data (o :: take i objs)) with (obj_data o ++ rb_data (take i objs))%list.
      rewrite length_app. cbn [insert list_insert]. destruct o as [s'|slots]; cbn [rb_set_data obj_data length].
      + rewrite (proj2 (Nat.ltb_ge _ _)) by lia. f_equal. rewrite <- IH by done. f_equal. lia.
      + f_equal. by apply IH. }
  split_and!; [..|exact Hset].
  - rewrite (rb_data_split _ _ _ Hi), lookup_app_r by lia.
    replace (_ + j - _)%nat with j by lia. by rewrite lookup_app_l.
  - rewrite (rb_data_split _ _ _ Hi). rewrite !length_app. cbn [obj_data]. lia.
Qed.

Lemma rb_data_insert objs i o o' :
  objs !! i = Some o -> length (obj_data o') = length (obj_data o) ->
  length (rb_data (<[i := o']> objs)) = length (rb_data objs).
Proof.
  intros Hi Hl. pose proof (lookup_lt_Some _ _ _ Hi) as Hlt.
  rewrite (rb_data_split (<[i := o']> objs) i o') by by apply list_lookup_insert_eq.
  rewrite (rb_data_split objs i o Hi), take_insert_ge, drop_insert_lt by lia.
  rewrite !length_app. lia.
Qed.

Lemma rb_heap_lookup objs o x : rb_heap objs o = Some x -> 0 < o /\ objs !! Z.to_nat (o - 1) = Some x.
Proof. unfold rb_heap. destruct (Z.ltb_spec 0 o); [done|by intros]. Qed.

(** An object replaced by one of its size. *)
Lemma rb_buffer_insert heap root place objs r x x' :
  (forall o, heap o = rb_heap objs o) -> (forall o, place o = o) -> Forall small_table objs ->
  zlength objs + zlength (rb_data objs) <= fb_capacity ->
  heap r = Some x -> length (obj_data x') = length (obj_data x) -> small_table x' ->
  rb_buffer (<[r := Some x']> heap) root (rb_finished root (<[Z.to_nat (r - 1) := x']> objs)) place.
Proof.
  intros Hh Hp Hsm Hsz Hr Hl Hx. rewrite Hh in Hr. apply rb_heap_lookup in Hr as [Hr0 Hr].
  eexists. split_and!; [done| |done|by apply Forall_insert|].
  - intros o. unfold rb_heap. destruct (decide (o = r)) as [->|Hne].
    + rewrite fn_lookup_insert, (proj2 (Z.ltb_lt _ _)) by lia.
      rewrite list_lookup_insert_eq; [done|by eapply lookup_lt_Some].
    + rewrite fn_lookup_insert_ne, Hh by done. unfold rb_heap. destruct (Z.ltb_spec 0 o); [|done].
      rewrite list_lookup_insert_ne; [done|lia].
  - unfold zlength in *. rewrite length_insert. by rewrite (rb_data_insert _ _ _ _ Hr Hl).
Qed.

Lemma rb_offset t vt v : Table_Offset t vt = Ret v -> v = if rb_field t vt is Some _ then vt else 0.
Proof. cbn. congruence. Qed.

#[export] Instance FbRefElementsSpec : FlatbuffersElementsSpec FbRef FbRefSpec FbRefElements.
Proof.
  split.
  - intros heap root buf place o slots i r s v (objs & -> & Hh & Hp & Hsm & Hsz) Ho Hi Hr t Hv.
    pose proof Ho as Ho'. pose proof Hr as Hr'. rewrite Hh in Ho', Hr'.
    assert (Hf : rb_field t (4 + 2 * Z.of_nat i) = Some (FRef r)).
    { unfold t. rewrite Hp, (rb_field_at objs root o slots i Ho'), Hi. done. }
    apply rb_offset in Hv. rewrite Hf in Hv. subst v.
    cbn -[rb_field rb_parse Z.add Z.mul Z.of_nat rb_base]. unfold t in *. cbn [Table_Bytes Table_Pos] in *.
    rewrite Hf, rb_parse_encode, Hr'. split; [done|]. eexists. split; [done|].
    apply rb_heap_lookup in Hr' as [Hr0 Hr'].
    pose proof (rb_data_split _ _ _ Hr') as Hsplit. set (base := rb_data (take _ objs)) in *.
    assert (Hfits : zlength base + zlength s <= zlength (rb_data objs)).
    { rewrite Hsplit. unfold zlength. rewrite !length_app. cbn [obj_data]. lia. }
    pose proof (zlength_nonneg base). pose proof (zlength_nonneg objs). unfold fb_capacity, rb_base in *.
    split; [lia|]. split; [lia|]. intros j c Hj.
    destruct (rb_data_at _ _ _ _ _ Hr' Hj) as (Hd & _ & Hset). fold base in Hd, Hset.
    apply lookup_lt_Some in Hj as Hlt.
    assert (Ex : Z.to_nat (2 ^ 31 + zlength base + Z.of_nat j - 2 ^ 31) = (length base + j)%nat)
      by (unfold zlength; lia).
    unfold zlength in *. rewrite Ex, (proj2 (Z.leb_le (2 ^ 31) _)) by lia. split; [by rewrite Hd|].
    intros c'. rewrite (proj2 (Z.ltb_lt _ _)), byte_of_value, Hset by lia.
    eexists. split; [done|]. apply (rb_buffer_insert _ _ _ _ _ (OBytes s)); try done.
    cbn. by rewrite length_insert.
  - intros heap root buf place o slots i f (objs & -> & Hh & Hp & Hsm & Hsz) Ho Hi t vt writes.
    pose proof Ho as Ho'. rewrite Hh in Ho'.
    assert (Hw : forall f', writes f' (rb_set_field t vt f')).
    { intros f'. unfold writes, rb_set_field, t, vt. cbn [Table_Bytes Table_Pos].
      rewrite Hp, (rb_field_at objs root o slots i Ho'), Hi, rb_parse_encode, Ho'. cbn [mjoin option_join].
      replace ((4 + 2 * Z.of_nat i - 4) / 2) with (Z.of_nat i) by (rewrite Z.add_simpl_l, Z.mul_comm, Z.div_mul; lia).
      rewrite Nat2Z.id. eexists. split; [done|]. apply (rb_buffer_insert _ _ _ _ _ (OTable slots)); try done.
      cbn. rewrite length_insert. by eapply rb_small_table. }
    destruct f; [intros ? _; apply Hw..|done].
  - intros t vt n Hvt Hv. apply rb_offset in Hv. cbn. unfold rb_set_field.
    destruct (rb_field t vt); [lia|done].
  - intros k n a b Hw Hn Hc. cbn. destruct (rb_open b); [by eexists|by eexists _, _].
Qed.

(** Three edits of the sample message; it was encoded without a delivery time. *)
Definition sample_edits : list edit :=
  [EditByte FSenderId 0 Byte.x56; EditDeliveredAt 5; EditCreatedAt 0; EditByte FTxid 3 Byte.x32].

Lemma edits_in_place_witness :
  exists b env t b',
    StreamMessage_ToBytes (FB := FbRef) sample_message = Ret b /\
    mutate_all sample_edits b (Table_Pos env) (Table_Pos t) = Ret ([true; false; true; true], b') /\
    exists m', StreamMessageFromBytes b' = Ret (Ok m') /\
      SenderID m' = raw "Vehicle_device.VIN42" /\ TXID m' = raw "tx-2" /\ CreatedAt m' = 0 /\
      DeliveredAtEpochMs m' = 0.
Proof.
  destruct (edits_in_place sample_message sample_edits eq_refl sample_message_fits)
    as (b & env & t & b' & E & _ & Em & _ & m' & Em' & Ec).
  { repeat constructor; vm_compute; try done; lia. }
  exists b, env, t, b'. split; [exact E|]. split; [exact Em|]. exists m'. split; [exact Em'|].
  destruct m'; cbn in Ec. injection Ec as -> -> -> -> -> -> -> -> ->.
  repeat split; vm_compute; reflexivity.
Defined.
