(* ===== verification/ProtoRef.v ===== *)
(** * A concrete protobuf runtime

    Executable instances of [ProtoCodec] and [ProtoEnums] satisfying their
    specifications: a message is encoded through its [Countable] instance.  It
    is what the theorems about the interface are instantiated with, not the
    wire format of the real runtime. *)

From S2P Require Import Prelude GoStd GoTime ProtoEnums Protos FbRef.
From stdpp Require Import countable.
Local Open Scope Z_scope.

#[export] Program Instance spec_float_countable : Countable spec_float :=
  inj_countable'
    (fun x => match x with
              | S754_zero s => inl (inl s) | S754_infinity s => inl (inr s)
              | S754_nan => inr (inl ()) | S754_finite s m e => inr (inr (s, m, e)) end)
    (fun x => match x with
              | inl (inl s) => S754_zero s | inl (inr s) => S754_infinity s
              | inr (inl _) => S754_nan | inr (inr (s, m, e)) => S754_finite s m e end) _.
Next Obligation. by intros []. Qed.

#[export] Instance Timestamp_eq_dec : EqDecision Timestamp.
Proof. solve_decision. Defined.
#[export] Program Instance Timestamp_countable : Countable Timestamp :=
  inj_countable' (fun x : Timestamp => (Seconds x, Nanos x))
    (fun '(a0, a1) => mkTimestamp a0 a1) _.
Next Obligation. by intros []. Qed.

#[export] Instance LocationValue_eq_dec : EqDecision LocationValue.
Proof. solve_decision. Defined.
#[export] Program Instance LocationValue_countable : Countable LocationValue :=
  inj_countable' (fun x : LocationValue => (Latitude x, Longitude x))
    (fun '(a0, a1) => mkLocationValue a0 a1) _.
Next Obligation. by intros []. Qed.

#[export] Instance Doors_eq_dec : EqDecision Doors.
Proof. solve_decision. Defined.
#[export] Program Instance Doors_countable : Countable Doors :=
  inj_countable' (fun x : Doors => (Doors_DriverFront x, Doors_DriverRear x, Doors_PassengerFront x, Doors_PassengerRear x, Doors_TrunkFront x, Doors_TrunkRear x))
    (fun '(a0, a1, a2, a3, a4, a5) => mkDoors a0 a1 a2 a3 a4 a5) _.
Next Obligation. by intros []. Qed.

#[export] Instance TireLocation_eq_dec : EqDecision TireLocation.
Proof. solve_decision. Defined.
#[export] Program Instance TireLocation_countable : Countable TireLocation :=
  inj_countable' (fun x : TireLocation => (FrontLeft x, FrontRight x, RearLeft x, RearRight x, SemiMiddleAxleLeft_2 x, SemiMiddleAxleRight_2 x, SemiRearAxleLeft x, SemiRearAxleRight x, SemiRearAxleLeft_2 x, SemiRearAxleRight_2 x))
    (fun '(a0, a1, a2, a3, a4, a5, a6, a7, a8, a9) => mkTireLocation a0 a1 a2 a3 a4 a5 a6 a7 a8 a9) _.
Next Obligation. by intros []. Qed.

#[export] Instance Time_eq_dec : EqDecision Time.
Proof. solve_decision. Defined.
#[export] Program Instance Time_countable : Countable Time :=
  inj_countable' (fun x : Time => (Hour x, Minute x, Second x))
    (fun '(a0, a1, a2) => mkTime a0 a1 a2) _.
Next Obligation. by intros []. Qed.

(** The payload of a wrapper, with its kind. *)
Inductive wire :=
| WS (v : string)
| WZ (v : Z)
| WF (v : spec_float)
| WB (v : bool)
| WL (v : (option LocationValue))
| WD (v : (option Doors))
| WT (v : (option Time))
| WR (v : (option TireLocation)).

#[export] Instance wire_eq_dec : EqDecision wire.
Proof. solve_decision. Defined.
#[export] Program Instance wire_countable : Countable wire :=
  inj_countable'
    (fun x => match x with
              | WS v => inl (inl (inl v)) | WZ v => inl (inl (inr v))
              | WF v => inl (inr (inl v)) | WB v => inl (inr (inr v))
              | WL v => inr (inl (inl v)) | WD v => inr (inl (inr v))
              | WT v => inr (inr (inl v)) | WR v => inr (inr (inr v)) end)
    (fun x => match x with
              | inl (inl (inl v)) => WS v | inl (inl (inr v)) => WZ v
              | inl (inr (inl v)) => WF v | inl (inr (inr v)) => WB v
              | inr (inl (inl v)) => WL v | inr (inl (inr v)) => WD v
              | inr (inr (inl v)) => WT v | inr (inr (inr v)) => WR v end) _.
Next Obligation. by intros []. Qed.

Definition wrapper_wire (x : isValue_Value) : Z * wire :=
  match x with
  | Value_StringValue v => (0, WS v)
  | Value_IntValue v => (1, WZ v)
  | Value_LongValue v => (2, WZ v)
  | Value_FloatValue v => (3, WF v)
  | Value_DoubleValue v => (4, WF v)
  | Value_BooleanValue v => (5, WB v)
  | Value_LocationValue v => (6, WL v)
  | Value_ChargingValue v => (7, WZ v)
  | Value_ShiftStateValue v => (8, WZ v)
  | Value_Invalid v => (9, WB v)
  | Value_LaneAssistLevelValue v => (10, WZ v)
  | Value_ScheduledChargingModeValue v => (11, WZ v)
  | Value_SentryModeStateValue v => (12, WZ v)
  | Value_SpeedAssistLevelValue v => (13, WZ v)
  | Value_BmsStateValue v => (14, WZ v)
  | Value_BuckleStatusValue v => (15, WZ v)
  | Value_CarTypeValue v => (16, WZ v)
  | Value_ChargePortValue v => (17, WZ v)
  | Value_ChargePortLatchValue v => (18, WZ v)
  | Value_DoorValue v => (19, WD v)
  | Value_DriveInverterStateValue v => (20, WZ v)
  | Value_HvilStatusValue v => (21, WZ v)
  | Value_WindowStateValue v => (22, WZ v)
  | Value_SeatFoldPositionValue v => (23, WZ v)
  | Value_TractorAirStatusValue v => (24, WZ v)
  | Value_FollowDistanceValue v => (25, WZ v)
  | Value_ForwardCollisionSensitivityValue v => (26, WZ v)
  | Value_GuestModeMobileAccessValue v => (27, WZ v)
  | Value_TrailerAirStatusValue v => (28, WZ v)
  | Value_TimeValue v => (29, WT v)
  | Value_DetailedChargeStateValue v => (30, WZ v)
  | Value_HvacAutoModeValue v => (31, WZ v)
  | Value_CabinOverheatProtectionModeValue v => (32, WZ v)
  | Value_CabinOverheatProtectionTemperatureLimitValue v => (33, WZ v)
  | Value_DefrostModeValue v => (34, WZ v)
  | Value_ClimateKeeperModeValue v => (35, WZ v)
  | Value_HvacPowerValue v => (36, WZ v)
  | Value_TireLocationValue v => (37, WR v)
  | Value_FastChargerValue v => (38, WZ v)
  | Value_CableTypeValue v => (39, WZ v)
  | Value_TonneauTentModeValue v => (40, WZ v)
  | Value_TonneauPositionValue v => (41, WZ v)
  | Value_PowershareTypeValue v => (42, WZ v)
  | Value_PowershareStateValue v => (43, WZ v)
  | Value_PowershareStopReasonValue v => (44, WZ v)
  | Value_DisplayStateValue v => (45, WZ v)
  | Value_DistanceUnitValue v => (46, WZ v)
  | Value_TemperatureUnitValue v => (47, WZ v)
  | Value_PressureUnitValue v => (48, WZ v)
  | Value_ChargeUnitPreferenceValue v => (49, WZ v)
  | Value_TurnSignalStateValue v => (50, WZ v)
  | Value_MediaStatusValue v => (51, WZ v)
  | Value_SunroofInstalledStateValue v => (52, WZ v)
  end.

(** The wrappers of a number, in the order of the declaration. *)
Definition number_wrapper (tag v : Z) : isValue_Value :=
  match tag with
  | 1 => Value_IntValue v
  | 2 => Value_LongValue v
  | 7 => Value_ChargingValue v
  | 8 => Value_ShiftStateValue v
  | 10 => Value_LaneAssistLevelValue v
  | 11 => Value_ScheduledChargingModeValue v
  | 12 => Value_SentryModeStateValue v
  | 13 => Value_SpeedAssistLevelValue v
  | 14 => Value_BmsStateValue v
  | 15 => Value_BuckleStatusValue v
  | 16 => Value_CarTypeValue v
  | 17 => Value_ChargePortValue v
  | 18 => Value_ChargePortLatchValue v
  | 20 => Value_DriveInverterStateValue v
  | 21 => Value_HvilStatusValue v
  | 22 => Value_WindowStateValue v
  | 23 => Value_SeatFoldPositionValue v
  | 24 => Value_TractorAirStatusValue v
  | 25 => Value_FollowDistanceValue v
  | 26 => Value_ForwardCollisionSensitivityValue v
  | 27 => Value_GuestModeMobileAccessValue v
  | 28 => Value_TrailerAirStatusValue v
  | 30 => Value_DetailedChargeStateValue v
  | 31 => Value_HvacAutoModeValue v
  | 32 => Value_CabinOverheatProtectionModeValue v
  | 33 => Value_CabinOverheatProtectionTemperatureLimitValue v
  | 34 => Value_DefrostModeValue v
  | 35 => Value_ClimateKeeperModeValue v
  | 36 => Value_HvacPowerValue v
  | 38 => Value_FastChargerValue v
  | 39 => Value_CableTypeValue v
  | 40 => Value_TonneauTentModeValue v
  | 41 => Value_TonneauPositionValue v
  | 42 => Value_PowershareTypeValue v
  | 43 => Value_PowershareStateValue v
  | 44 => Value_PowershareStopReasonValue v
  | 45 => Value_DisplayStateValue v
  | 46 => Value_DistanceUnitValue v
  | 47 => Value_TemperatureUnitValue v
  | 48 => Value_PressureUnitValue v
  | 49 => Value_ChargeUnitPreferenceValue v
  | 50 => Value_TurnSignalStateValue v
  | 51 => Value_MediaStatusValue v
  | _ => Value_SunroofInstalledStateValue v
  end.

Definition wire_wrapper (x : Z * wire) : isValue_Value :=
  match x with
  | (_, WS v) => Value_StringValue v
  | (tag, WZ v) => number_wrapper tag v
  | (tag, WF v) => if tag =? 3 then Value_FloatValue v else Value_DoubleValue v
  | (tag, WB v) => if tag =? 5 then Value_BooleanValue v else Value_Invalid v
  | (_, WL v) => Value_LocationValue v
  | (_, WD v) => Value_DoorValue v
  | (_, WT v) => Value_TimeValue v
  | (_, WR v) => Value_TireLocationValue v
  end.

#[export] Instance isValue_Value_eq_dec : EqDecision isValue_Value.
Proof.
  intros x y. destruct (decide (wrapper_wire x = wrapper_wire y)) as [H|H].
  - left. apply (f_equal wire_wrapper) in H. destruct x, y; exact H.
  - right. by intros ->.
Defined.
#[export] Program Instance isValue_Value_countable : Countable isValue_Value :=
  inj_countable' wrapper_wire wire_wrapper _.
Next Obligation. by intros []. Qed.

#[export] Instance Value_eq_dec : EqDecision Value.
Proof. solve_decision. Defined.
#[export] Program Instance Value_countable : Countable Value :=
  inj_countable' (fun x : Value => (Value_Value x))
    (fun '(a0) => mkValue a0) _.
Next Obligation. by intros []. Qed.

#[export] Instance Datum_eq_dec : EqDecision Datum.
Proof. solve_decision. Defined.
#[export] Program Instance Datum_countable : Countable Datum :=
  inj_countable' (fun x : Datum => (Datum_Key x, Datum_Value x))
    (fun '(a0, a1) => mkDatum a0 a1) _.
Next Obligation. by intros []. Qed.

#[export] Instance Payload_eq_dec : EqDecision Payload.
Proof. solve_decision. Defined.
#[export] Program Instance Payload_countable : Countable Payload :=
  inj_countable' (fun x : Payload => (Payload_Data x, Payload_CreatedAt x, Payload_Vin x, Payload_IsResend x))
    (fun '(a0, a1, a2, a3) => mkPayload a0 a1 a2 a3) _.
Next Obligation. by intros []. Qed.

#[export] Instance VehicleAlert_eq_dec : EqDecision VehicleAlert.
Proof. solve_decision. Defined.
#[export] Program Instance VehicleAlert_countable : Countable VehicleAlert :=
  inj_countable' (fun x : VehicleAlert => (Alert_Name x, Alert_Audiences x, Alert_StartedAt x, Alert_EndedAt x))
    (fun '(a0, a1, a2, a3) => mkVehicleAlert a0 a1 a2 a3) _.
Next Obligation. by intros []. Qed.

#[export] Instance VehicleAlerts_eq_dec : EqDecision VehicleAlerts.
Proof. solve_decision. Defined.
#[export] Program Instance VehicleAlerts_countable : Countable VehicleAlerts :=
  inj_countable' (fun x : VehicleAlerts => (Alerts_Alerts x, Alerts_CreatedAt x, Alerts_Vin x))
    (fun '(a0, a1, a2) => mkVehicleAlerts a0 a1 a2) _.
Next Obligation. by intros []. Qed.

#[export] Instance VehicleError_eq_dec : EqDecision VehicleError.
Proof. solve_decision. Defined.
#[export] Program Instance VehicleError_countable : Countable VehicleError :=
  inj_countable' (fun x : VehicleError => (Error_CreatedAt x, Error_Name x, Error_Tags x, Error_Body x))
    (fun '(a0, a1, a2, a3) => mkVehicleError a0 a1 a2 a3) _.
Next Obligation. by intros []. Qed.

#[export] Instance VehicleErrors_eq_dec : EqDecision VehicleErrors.
Proof. solve_decision. Defined.
#[export] Program Instance VehicleErrors_countable : Countable VehicleErrors :=
  inj_countable' (fun x : VehicleErrors => (Errors_Errors x, Errors_CreatedAt x, Errors_Vin x))
    (fun '(a0, a1, a2) => mkVehicleErrors a0 a1 a2) _.
Next Obligation. by intros []. Qed.

#[export] Instance VehicleConnectivity_eq_dec : EqDecision VehicleConnectivity.
Proof. solve_decision. Defined.
#[export] Program Instance VehicleConnectivity_countable : Countable VehicleConnectivity :=
  inj_countable' (fun x : VehicleConnectivity => (Connectivity_Vin x, Connectivity_ConnectionId x, Connectivity_Status x, Connectivity_CreatedAt x, Connectivity_NetworkInterface x))
    (fun '(a0, a1, a2, a3, a4) => mkVehicleConnectivity a0 a1 a2 a3 a4) _.
Next Obligation. by intros []. Qed.

#[export] Instance ProtoMessage_eq_dec : EqDecision ProtoMessage.
Proof. solve_decision. Defined.

(** ** The codec *)

Definition ref_encode {A} `{Countable A} (x : A) : bytes := pos_to_bytes (encode x).
Definition ref_decode {A} `{Countable A} (b : bytes) : option A := pos_of_bytes b ≫= decode.

Lemma ref_decode_encode {A} `{Countable A} (x : A) : ref_decode (ref_encode x) = Some x.
Proof. unfold ref_decode, ref_encode. rewrite pos_of_to_bytes. simpl. apply decode_encode. Qed.

Definition ref_error {A} (x : option A) : result A :=
  match x with Some a => Ok a | None => Err (ErrorString "proto: cannot parse") end.

(** Repeated message fields never hold nil after parsing. *)
Definition ref_payload (b : bytes) : result Payload :=
  ref_error (p ← ref_decode b; guard (forallb datum_set (Payload_Data p) = true);; Some p).

#[export] Instance ProtoRef : ProtoCodec := {|
  Unmarshal_Payload := ref_payload;
  Unmarshal_VehicleAlerts b := ref_error (ref_decode b);
  Unmarshal_VehicleErrors b := ref_error (ref_decode b);
  Unmarshal_VehicleConnectivity b := ref_error (ref_decode b);
  Marshal m := Ok (match m with
                   | MPayload p => ref_encode p
                   | MVehicleAlerts p => ref_encode p
                   | MVehicleErrors p => ref_encode p
                   | MVehicleConnectivity p => ref_encode p
                   end);
  protojson_Marshal m := match m with
                         | Some m => Ok (raw (message_vin m))
                         | None => Ok (raw "{}")
                         end;
  timestamppb_New s n := mkTimestamp (s + n / 10 ^ 9) (n mod 10 ^ 9);
  Timestamp_AsTime x := time.Unix (Timestamp_parts x).1 (Timestamp_parts x).2
|}.

#[export] Instance ProtoRefSpec : ProtoCodecSpec ProtoRef.
Proof.
  split.
  - intros m b Hm [= <-]. destruct m; cbn; unfold ref_payload; rewrite ref_decode_encode; try done.
    cbn. by rewrite option_guard_True.
  - intros b []; try done. cbn. unfold ref_payload. destruct (ref_decode b) as [q|]; [|done]. cbn.
    case_guard; [|done]. by intros [= <-].
  - intros s n _ Hn. cbn. by rewrite Z.div_small, Z.mod_small, Z.add_0_r by lia.
  - done.
Qed.

#[export] Instance EnumsRef : ProtoEnums := {|
  EnumStringOf names n := default (strconv.Itoa n) (lookup_name names n)
|}.

#[export] Instance EnumsRefSpec : ProtoEnumsSpec EnumsRef.
Proof. done. Qed.
