(* ===== verification/GoFloat.v ===== *)
(** * Floating-point text in Go's standard library

    What telemetry/record.go uses of [strconv], [regexp] and [fmt] on floating
    point numbers: [strconv.ParseFloat], [fmt.Sprintf] of one float with five
    decimals, [fmt.Sscanf] with the location format, and the matcher of the
    scientific-notation expression.  A float is a [spec_float]: binary32 when
    parsed with 32 bits, binary64 with 64. *)

From S2P Require Import Prelude GoStd.
From Stdlib Require Import DecimalString.
Local Open Scope Z_scope.

(** ** Characters *)

Definition code (c : ascii) : Z := Z.of_nat (nat_of_ascii c).
Definition in_range (lo hi : Z) (c : ascii) : bool := (lo <=? code c) && (code c <=? hi).
Definition is_digit (c : ascii) : bool := in_range 48 57 c.
Definition lower (c : ascii) : ascii :=
  if in_range 65 90 c then ascii_of_nat (nat_of_ascii c + 32) else c.
Definition is_hex_digit (c : ascii) : bool := is_digit c || in_range 97 102 (lower c).
Definition digit_value (c : ascii) : Z :=
  if is_digit c then code c - 48 else code (lower c) - 87.
Definition is_sign (c : ascii) : bool := Ascii.eqb c "+" || Ascii.eqb c "-".
Definition is_e (c : ascii) : bool := Ascii.eqb (lower c) "e".

Definition head_is (p : ascii -> bool) (s : string) : bool :=
  match s with String c _ => p c | EmptyString => false end.

(** The longest prefix whose bytes satisfy [p], and the rest. *)
Fixpoint span (p : ascii -> bool) (s : string) : string * string :=
  match s with
  | EmptyString => (EmptyString, EmptyString)
  | String c s' => if p c then let '(a, b) := span p s' in (String c a, b)
                   else (EmptyString, s)
  end.

(** An optional byte satisfying [p]. *)
Definition opt_byte (p : ascii -> bool) (s : string) : string * string :=
  match s with
  | String c s' => if p c then (String c EmptyString, s') else (EmptyString, s)
  | EmptyString => (EmptyString, s)
  end.

Definition is_empty (s : string) : bool :=
  match s with EmptyString => true | String _ _ => false end.

(** ** Rounding *)

(** The float nearest to [num / den], ties to even. *)
Definition round_ratio (prec emax : Z) (neg : bool) (num : Z) (den : positive) : spec_float :=
  match num with
  | Zpos m => SFdiv prec emax (S754_finite neg m 0) (S754_finite false den 0)
  | _ => S754_zero neg
  end.

(** The float nearest to [mant * base ^ exp]. *)
Definition round_scaled (prec emax base : Z) (neg : bool) (mant exp : Z) : spec_float :=
  if 0 <=? exp then round_ratio prec emax neg (mant * base ^ exp) 1
  else round_ratio prec emax neg mant (Z.to_pos (base ^ (- exp))).

Definition format_of (bitSize : Z) : Z * Z := if bitSize =? 32 then (24, 128) else (53, 1024).

(** The integer nearest to [n / d], ties to even. *)
Definition round_half_even (n d : Z) : Z :=
  let q := n / d in
  let r := n mod d in
  if 2 * r <? d then q
  else if d <? 2 * r then q + 1
  else if Z.even q then q else q + 1.

(** ** [strconv.ParseFloat] *)

Module ParseFloat.

Record mantissa := mkMantissa {
  mant : Z; nfrac : Z; sawdot : bool; sawdigits : bool; underscores : bool
}.

(** The digit loop of [readFloat]: underscores are skipped, a second point
    ends the number. *)
Fixpoint read_mantissa (hex : bool) (s : string) (m : mantissa) : mantissa * string :=
  match s with
  | EmptyString => (m, s)
  | String c s' =>
      if Ascii.eqb c "_"
      then read_mantissa hex s' (mkMantissa (mant m) (nfrac m) (sawdot m) (sawdigits m) true)
      else if Ascii.eqb c "."
      then if sawdot m then (m, s)
           else read_mantissa hex s' (mkMantissa (mant m) (nfrac m) true (sawdigits m) (underscores m))
      else if is_digit c || hex && is_hex_digit c
      then read_mantissa hex s'
             (mkMantissa (mant m * (if hex then 16 else 10) + digit_value c)
                (if sawdot m then nfrac m + 1 else nfrac m) (sawdot m) true (underscores m))
      else (m, s)
  end.

(** The digits of the exponent: the value stops growing above 10000. *)
Fixpoint read_exponent (s : string) (e : Z) (und : bool) : Z * bool * string :=
  match s with
  | String c s' =>
      if is_digit c
      then read_exponent s' (if e <? 10000 then e * 10 + digit_value c else e) und
      else if Ascii.eqb c "_" then read_exponent s' e true
      else (e, und, s)
  | EmptyString => (e, und, s)
  end.

(** [underscoreOK]; [saw] is the class of the last byte. *)
Inductive seen := Start | Digit | Underscore | Other.
Fixpoint underscoreOK_loop (hex : bool) (saw : seen) (s : string) : bool :=
  match s with
  | EmptyString => match saw with Underscore => false | _ => true end
  | String c s' =>
      if is_digit c || hex && is_hex_digit c then underscoreOK_loop hex Digit s'
      else if Ascii.eqb c "_"
      then match saw with Digit => underscoreOK_loop hex Underscore s' | _ => false end
      else match saw with
           | Underscore => false
           | _ => underscoreOK_loop hex Other s'
           end
  end.

Definition underscoreOK (s : string) : bool :=
  let '(_, s) := opt_byte is_sign s in
  match s with
  | String "0" (String c s') =>
      if existsb (Ascii.eqb (lower c)) ["b"; "o"; "x"]%char
      then underscoreOK_loop (Ascii.eqb (lower c) "x") Digit s'
      else underscoreOK_loop false Start s
  | _ => underscoreOK_loop false Start s
  end.

(** [special]: infinities and NaN, in any case. *)
Fixpoint lower_string (s : string) : string :=
  match s with
  | EmptyString => EmptyString
  | String c s' => String (lower c) (lower_string s')
  end.
Definition special (s : string) : option spec_float :=
  let '(sign, body) := opt_byte is_sign s in
  if existsb (String.eqb (lower_string body)) ["inf"; "infinity"]%string
  then Some (S754_infinity (String.eqb sign "-"))
  else if String.eqb (lower_string s) "nan" then Some S754_nan
  else None.

(** [readFloat] on a whole string: sign, mantissa, exponent of the base, and
    whether the base is 16 (whose exponent is binary). *)
Definition readFloat (s : string) : option (bool * Z * Z * bool) :=
  let '(sign, body) := opt_byte is_sign s in
  let neg := String.eqb sign "-" in
  let '(hex, body) :=
    match body with
    | String "0" (String c (String _ _ as rest)) =>
        if Ascii.eqb (lower c) "x" then (true, rest) else (false, body)
    | _ => (false, body)
    end in
  let '(m, rest) := read_mantissa hex body (mkMantissa 0 0 false false false) in
  if negb (sawdigits m) then None else
  let shift := if hex then 4 * nfrac m else nfrac m in
  let finish e und :=
    if und && negb (underscoreOK s) then None else Some (neg, mant m, e - shift, hex) in
  match rest with
  | EmptyString => if hex then None else finish 0 (underscores m)
  | String c rest' =>
      if Ascii.eqb (lower c) (if hex then "p" else "e")%char
      then
        let '(esign, ds) := opt_byte is_sign rest' in
        if negb (head_is is_digit ds) then None else
        let '(e, und, tail) := read_exponent ds 0 (underscores m) in
        if is_empty tail then finish (if String.eqb esign "-" then - e else e) und else None
      else None
  end.

End ParseFloat.

(** [None] is a non-nil error: a syntax error, or a value out of range. *)
Definition ParseFloat (s : string) (bitSize : Z) : option spec_float :=
  match ParseFloat.special s with
  | Some f => Some f
  | None =>
      match ParseFloat.readFloat s with
      | None => None
      | Some (neg, mant, exp, hex) =>
          let '(prec, emax) := format_of bitSize in
          match round_scaled prec emax (if hex then 2 else 10) neg mant exp with
          | S754_infinity _ => None
          | f => Some f
          end
      end
  end.

(** ** [fmt.Sprintf] of one float with five decimals *)

Fixpoint pad_left (n : nat) (s : string) : string :=
  match n with
  | O => s
  | S n' => if (String.length s <? n)%nat then String "0" (pad_left n' s) else s
  end.

(** A non-negative integer written with a point before its last five digits. *)
Definition point5 (q : Z) : string :=
  strconv.Itoa (q / 100000) +:+ "." +:+ pad_left 5 (strconv.Itoa (q mod 100000)).

(** The absolute value of [m * 2 ^ e] in units of the fifth decimal. *)
Definition units5 (m : positive) (e : Z) : Z :=
  if 0 <=? e then Zpos m * 2 ^ e * 100000
  else round_half_even (Zpos m * 100000) (2 ^ (- e)).

Definition Sprintf_5f (f : spec_float) : string :=
  match f with
  | S754_nan => "NaN"
  | S754_infinity neg => if neg then "-Inf" else "+Inf"
  | S754_zero neg => (if neg then "-" else "") +:+ point5 0
  | S754_finite neg m e => (if neg then "-" else "") +:+ point5 (units5 m e)
  end.

(** ** The scientific-notation expression

    An optional sign, digits with a point among them, and an exponent. *)
Definition scientificNotationFloatRegex_MatchString (s : string) : bool :=
  let '(_, s) := opt_byte is_sign s in
  let '(int, s) := span is_digit s in
  match s with
  | String "." s =>
      let '(frac, s) := span is_digit s in
      negb (is_empty int && is_empty frac) &&
      match s with
      | String c s =>
          is_e c &&
          let '(_, s) := opt_byte is_sign s in
          let '(exp, s) := span is_digit s in
          negb (is_empty exp) && is_empty s
      | EmptyString => false
      end
  | _ => false
  end.

(** ** [fmt.Sscanf]

    The scanner reads runes from a string; every error of the scanner is
    [None], since the code only tests it for nil. *)

Module Sscanf.

Definition continuation (lo hi : Z) (s : string) : option string :=
  match s with
  | String c s' => if in_range lo hi c then Some s' else None
  | EmptyString => None
  end.

(** The number of bytes of the first rune ([utf8.DecodeRune]): 1 for an
    invalid sequence. *)
Definition rune_length (c : ascii) (s : string) : nat :=
  let tail lo hi n :=
    match continuation lo hi s with
    | None => 1%nat
    | Some s1 =>
        match n with
        | 2%nat => 2%nat
        | _ => match continuation 128 191 s1 with
               | None => 1%nat
               | Some s2 => match n with
                            | 3%nat => 3%nat
                            | _ => match continuation 128 191 s2 with
                                   | None => 1%nat
                                   | Some _ => 4%nat
                                   end
                            end
               end
        end
    end in
  let c := code c in
  if (194 <=? c) && (c <=? 223) then tail 128 191 2%nat
  else if c =? 224 then tail 160 191 3%nat
  else if c =? 237 then tail 128 159 3%nat
  else if (225 <=? c) && (c <=? 239) then tail 128 191 3%nat
  else if c =? 240 then tail 144 191 4%nat
  else if c =? 244 then tail 128 143 4%nat
  else if (241 <=? c) && (c <=? 243) then tail 128 191 4%nat
  else 1%nat.

(** The first rune and the rest. *)
Definition rune (s : string) : option (string * string) :=
  match s with
  | EmptyString => None
  | String c s' =>
      let n := rune_length c s' in
      Some (String.substring 0 n s, String.substring n (String.length s - n) s)
  end.

Definition newline : ascii := "010".

(** Skip white space; a newline is an error.  A round removes a byte at
    least, so the length of the input is enough fuel. *)
Fixpoint SkipSpace_loop (fuel : nat) (s : string) : option string :=
  match fuel with
  | O => Some s
  | S n =>
      match s with
      | String "013" (String "010" _) => None
      | String "010" _ => None
      | _ => match strings.strip_any strings.spaces s with
             | Some s' => SkipSpace_loop n s'
             | None => Some s
             end
      end
  end.
Definition SkipSpace (s : string) : option string := SkipSpace_loop (String.length s) s.

(** A byte of the format that is neither a space nor a verb. *)
Definition literal (c : ascii) (s : string) : option string :=
  match s with
  | String c' s' => if Ascii.eqb c' c then Some s' else None
  | EmptyString => None
  end.

(** A space of the format: at least one space of the input, or its end, then
    any spaces up to a newline. *)
Fixpoint spaces_loop (fuel : nat) (s : string) : string :=
  match fuel with
  | O => s
  | S n =>
      if head_is (Ascii.eqb newline) s then s
      else match strings.strip_any strings.spaces s with
           | Some s' => spaces_loop n s'
           | None => s
           end
  end.
Definition space (s : string) : option string :=
  if is_empty s then Some s
  else if head_is (Ascii.eqb newline) s then None
  else match strings.strip_any strings.spaces s with
       | Some s' => Some (spaces_loop (String.length s') s')
       | None => None
       end.

(** [accept]: move one byte of the given class from the input to the token. *)
Definition accept (p : ascii -> bool) (st : string * string) : option (string * string) :=
  let '(buf, s) := st in
  match s with
  | String c s' => if p c then Some (buf +:+ String c EmptyString, s') else None
  | EmptyString => None
  end.
Definition accept_opt (p : ascii -> bool) (st : string * string) : string * string :=
  default st (accept p st).
Definition accept_all (p : ascii -> bool) (st : string * string) : string * string :=
  let '(buf, s) := st in
  let '(a, b) := span p s in (buf +:+ a, b).

(** Three bytes in sequence; [inr] is the state when one is missing. *)
Definition accept_word (a b c : ascii) (st : string * string)
  : (string * string) + (string * string) :=
  let either x y := Ascii.eqb (lower y) x in
  match accept (either a) st with
  | None => inr st
  | Some st1 => match accept (either b) st1 with
                | None => inr st1
                | Some st2 => match accept (either c) st2 with
                              | None => inr st2
                              | Some st3 => inl st3
                              end
                end
  end.

Definition or_underscore (p : ascii -> bool) (c : ascii) : bool := p c || Ascii.eqb c "_".
Definition is_p (c : ascii) : bool := Ascii.eqb (lower c) "p".

(** The digits, fraction and exponent of [floatToken]. *)
Definition number (hex : bool) (st : string * string) : string * string :=
  let digits := or_underscore (if hex then is_hex_digit else is_digit) in
  let st := accept_all digits st in
  let st := match accept (Ascii.eqb ".") st with
            | Some st => accept_all digits st
            | None => st
            end in
  match accept (fun c => is_p c || negb hex && is_e c) st with
  | Some st => accept_all (or_underscore is_digit) (accept_opt is_sign st)
  | None => st
  end.

(** [floatToken]: the text of a number, and the rest of the input. *)
Definition floatToken (s : string) : string * string :=
  match accept_word "n" "a" "n" (EmptyString, s) with
  | inl st => st
  | inr st =>
      match accept_word "i" "n" "f" (accept_opt is_sign st) with
      | inl st => st
      | inr st =>
          let '(hex, st) :=
            match accept (Ascii.eqb "0") st with
            | None => (false, st)
            | Some st1 => match accept (fun c => Ascii.eqb (lower c) "x") st1 with
                          | Some st2 => (true, st2)
                          | None => (false, st1)
                          end
            end in
          number hex st
      end
  end.

(** [convertFloat] at 64 bits, with [fmt]'s own decimal mantissa and binary
    exponent. *)
Definition convertFloat (token : string) : option spec_float :=
  match strings.cut token "p" with
  | Some (m, e) =>
      if occurs "x" token || occurs "X" token then ParseFloat token 64
      else f ← ParseFloat m 64; k ← strconv.Atoi e; Some (SFldexp 53 1024 f k)
  | None => ParseFloat token 64
  end.

(** [%f] into a [*float64]. *)
Definition verb_f (s : string) : option (spec_float * string) :=
  s ← SkipSpace s;
  if is_empty s then None else
  let '(token, rest) := floatToken s in
  f ← convertFloat token; Some (f, rest).

(** [%1s] into a [*string]: one rune that is not a space. *)
Definition verb_1s (s : string) : option (string * string) :=
  s ← SkipSpace s; rune s.

(** [Sscanf(s, "(%f %1s, %f %1s)", &lat, &latQ, &lon, &lonQ)]. *)
Definition location (s : string) : option (spec_float * string * spec_float * string) :=
  s ← literal "(" s;
  '(lat, s) ← verb_f s;
  s ← space s;
  '(latQ, s) ← verb_1s s;
  s ← literal "," s;
  s ← space s;
  '(lon, s) ← verb_f s;
  s ← space s;
  '(lonQ, s) ← verb_1s s;
  _ ← literal ")" s;
  Some (lat, latQ, lon, lonQ).

End Sscanf.

(** ** Lemmas *)

(** Every byte of the string satisfies [p]. *)
Fixpoint all_bytes (p : ascii -> bool) (s : string) : bool :=
  match s with
  | EmptyString => true
  | String c s' => p c && all_bytes p s'
  end.

Lemma all_bytes_app p a b : all_bytes p (a +:+ b) = all_bytes p a && all_bytes p b.
Proof. induction a as [|c a IH]; simpl; [done|]. by rewrite IH, andb_assoc. Qed.

Lemma all_bytes_impl (p q : ascii -> bool) s :
  (forall c, p c = true -> q c = true) -> all_bytes p s = true -> all_bytes q s = true.
Proof.
  intros Hpq. induction s as [|c s IH]; simpl; [done|].
  intros [Hc Hs]%andb_true_iff. by rewrite (Hpq _ Hc), IH.
Qed.

Lemma span_app p a b :
  all_bytes p a = true -> head_is p b = false -> span p (a +:+ b) = (a, b).
Proof.
  intros Ha Hb. induction a as [|c a IH]; simpl in *.
  - destruct b as [|c b]; simpl in *; [done|]. by rewrite Hb.
  - apply andb_true_iff in Ha as [Hc Ha]. by rewrite Hc, IH.
Qed.

Lemma span_split p s a b : span p s = (a, b) -> s = a +:+ b.
Proof.
  revert a b. induction s as [|c s IH]; simpl; intros a b; [by intros [= <- <-]|].
  destruct (p c); [|by intros [= <- <-]].
  destruct (span p s) as [a' b'] eqn:E. intros [= <- <-]. simpl. by rewrite (IH _ _ eq_refl).
Qed.

Lemma opt_byte_split p s a b : opt_byte p s = (a, b) -> s = a +:+ b.
Proof.
  destruct s as [|c s]; simpl; [by intros [= <- <-]|].
  destruct (p c); by intros [= <- <-].
Qed.

Ltac split_string :=
  match goal with
  | H : span _ _ = _ |- _ => apply span_split in H; subst
  | H : opt_byte _ _ = _ |- _ => apply opt_byte_split in H; subst
  end.

Lemma scientific_has_e s :
  scientificNotationFloatRegex_MatchString s = true ->
  all_bytes (fun c => negb (is_e c)) s = false.
Proof.
  unfold scientificNotationFloatRegex_MatchString.
  destruct (opt_byte is_sign s) as [sg s1] eqn:E1.
  destruct (span is_digit s1) as [int s2] eqn:E2.
  destruct s2 as [|c s2]; [done|].
  destruct (ascii_dec c ".") as [->|Hc].
  2: by destruct c as [[] [] [] [] [] [] [] []].
  destruct (span is_digit s2) as [frac s3] eqn:E3.
  destruct s3 as [|e s3]; [by rewrite andb_false_r|].
  intros [_ [He _]%andb_true_iff]%andb_true_iff. repeat split_string.
  rewrite !all_bytes_app. simpl. rewrite all_bytes_app. simpl. rewrite He. simpl.
  by rewrite !andb_false_r.
Qed.

Definition is_decimal (c : ascii) : bool := is_digit c || Ascii.eqb c "-" || Ascii.eqb c ".".

Lemma all_bytes_Itoa z : all_bytes is_decimal (strconv.Itoa z) = true.
Proof.
  unfold strconv.Itoa.
  assert (Hu : forall u, all_bytes is_decimal (NilZero.string_of_uint u) = true).
  { assert (Hn : forall u, all_bytes is_decimal (NilEmpty.string_of_uint u) = true)
      by (intros u; induction u as [|u IH|u IH|u IH|u IH|u IH|u IH|u IH|u IH|u IH|u IH];
          simpl; rewrite ?IH; done).
    intros u. destruct u; try done; apply (Hn _). }
  destruct (Z.to_int z); simpl; apply Hu.
Qed.

Lemma all_bytes_pad_left p n s :
  p "0"%char = true -> all_bytes p s = true -> all_bytes p (pad_left n s) = true.
Proof.
  intros H0 Hs. induction n as [|n IH]; simpl; [done|].
  case_match; simpl; [|done]. by rewrite H0, IH.
Qed.

Lemma all_bytes_point5 q : all_bytes is_decimal (point5 q) = true.
Proof.
  unfold point5. rewrite !all_bytes_app, all_bytes_Itoa, all_bytes_pad_left; [done..|].
  apply all_bytes_Itoa.
Qed.

Lemma is_decimal_not_e c : is_decimal c = true -> negb (is_e c) = true.
Proof. by destruct c as [[] [] [] [] [] [] [] []]. Qed.

(** A number printed with a fixed number of decimals is not in scientific
    notation. *)
Lemma Sprintf_5f_not_scientific f :
  scientificNotationFloatRegex_MatchString (Sprintf_5f f) = false.
Proof.
  assert (Hd : forall neg q, scientificNotationFloatRegex_MatchString
    ((if neg : bool then "-" else "")%string +:+ point5 q) = false).
  { intros neg q. apply not_true_is_false. intros H%scientific_has_e. revert H.
    rewrite all_bytes_app, (all_bytes_impl _ _ _ is_decimal_not_e (all_bytes_point5 q)).
    by destruct neg. }
  destruct f as [neg|[]| |neg m e]; simpl; try done; apply Hd.
Qed.

(** Rounding is to a nearest integer. *)
Lemma round_half_even_nearest n d :
  0 < d -> 2 * Z.abs (n - round_half_even n d * d) <= d.
Proof.
  intros Hd. unfold round_half_even.
  pose proof (Z.div_mod n d ltac:(lia)). pose proof (Z.mod_pos_bound n d Hd).
  destruct (Z.ltb_spec (2 * (n mod d)) d); [nia|].
  destruct (Z.ltb_spec d (2 * (n mod d))); [nia|].
  destruct (Z.even (n / d)); nia.
Qed.

Lemma units5_nearest m e :
  e < 0 -> 2 * Z.abs (Zpos m * 100000 - units5 m e * 2 ^ (- e)) <= 2 ^ (- e).
Proof.
  intros He. unfold units5. destruct (Z.leb_spec 0 e); [lia|].
  apply round_half_even_nearest. lia.
Qed.

(** [u] is a number of units of the fifth decimal nearest to [m * 2 ^ e]. *)
Definition nearest5 (m : positive) (e u : Z) : Prop :=
  if 0 <=? e then u = Zpos m * 2 ^ e * 100000
  else 2 * Z.abs (Zpos m * 100000 - u * 2 ^ (- e)) <= 2 ^ (- e).

Lemma nearest5_units5 m e : nearest5 m e (units5 m e).
Proof.
  unfold nearest5. destruct (Z.leb_spec 0 e) as [He|He].
  - unfold units5. by apply Z.leb_le in He as ->.
  - by apply units5_nearest.
Qed.

(** The text of a number of units of the fifth decimal. *)
Definition fixed5 (neg : bool) (u : Z) : string := (if neg then "-" else "") +:+ point5 u.

(** A parsed text of the expression is finite: it has no infinity or NaN. *)
Lemma scientific_not_special s :
  scientificNotationFloatRegex_MatchString s = true -> ParseFloat.special s = None.
Proof.
  intros Hm. unfold ParseFloat.special. destruct (opt_byte is_sign s) as [sg body] eqn:Eo.
  assert (Hin : existsb (String.eqb (ParseFloat.lower_string body)) ["inf"; "infinity"]%string = false).
  { apply not_true_is_false. cbn [existsb]. rewrite orb_false_r. intros H.
    assert (Hb : head_is (fun c => is_digit c || Ascii.eqb c ".") body = true).
    { unfold scientificNotationFloatRegex_MatchString in Hm. rewrite Eo in Hm.
      destruct body as [|c body]; [discriminate|]. cbn [head_is]. cbn [span] in Hm.
      destruct (is_digit c) eqn:Ed; [done|]. cbn [orb].
      by destruct c as [[] [] [] [] [] [] [] []]. }
    destruct body as [|c body]; [discriminate|]. cbn in Hb, H.
    by destruct c as [[] [] [] [] [] [] [] []]. }
  rewrite Hin. destruct (String.eqb_spec (ParseFloat.lower_string s) "nan") as [Hn|]; [|done].
  exfalso. destruct s as [|c s]; [discriminate|]. cbn in Hn. injection Hn as Hc _.
  unfold scientificNotationFloatRegex_MatchString in Hm.
  by destruct c as [[] [] [] [] [] [] [] []].
Qed.

(** Rounding gives a number of the sign it is asked for. *)
Lemma shr_1_nonneg r : 0 <= shr_m r -> 0 <= shr_m (shr_1 r).
Proof. destruct r as [[|[p|p|]|p] [] []]; cbn; lia. Qed.

Lemma iter_shr_nonneg p r : 0 <= shr_m r -> 0 <= shr_m (SpecFloat.iter_pos shr_1 p r).
Proof.
  revert r. induction p as [p IH|p IH|]; intros r Hr; cbn [SpecFloat.iter_pos]; auto using shr_1_nonneg.
Qed.

Lemma shr_fexp_nonneg prec emax m e l : 0 <= m -> 0 <= shr_m (shr_fexp prec emax m e l).1.
Proof.
  intros Hm. unfold shr_fexp, shr. assert (H : 0 <= shr_m (shr_record_of_loc m l))
    by (by destruct l as [|[]]).
  destruct (fexp _ _ _ - e); cbn [fst]; auto using iter_shr_nonneg.
Qed.

Lemma round_nearest_even_nonneg m l : 0 <= m -> 0 <= round_nearest_even m l.
Proof. destruct l as [|[]]; cbn; [lia|case_match; lia|lia..]. Qed.

(** A number, with a sign. *)
Definition signed (neg : bool) (f : spec_float) : Prop :=
  match f with
  | S754_zero s | S754_infinity s | S754_finite s _ _ => s = neg
  | S754_nan => False
  end.

Lemma binary_round_aux_signed prec emax neg m e l :
  0 <= m -> signed neg (binary_round_aux prec emax neg m e l).
Proof.
  intros Hm. unfold binary_round_aux.
  pose proof (shr_fexp_nonneg prec emax m e l Hm) as H1. destruct (shr_fexp prec emax m e l) as [r1 e1].
  cbn [fst] in H1.
  pose proof (shr_fexp_nonneg prec emax _ e1 loc_Exact
    (round_nearest_even_nonneg _ (loc_of_shr_record r1) H1)) as H2.
  destruct (shr_fexp _ _ _ e1 _) as [r2 e2]. cbn [fst] in H2.
  destruct (shr_m r2); [done|by case_match|lia].
Qed.

Lemma round_ratio_signed prec emax neg num den : signed neg (round_ratio prec emax neg num den).
Proof.
  unfold round_ratio, SFdiv. destruct num as [|m|]; [done| |done].
  unfold SFdiv_core_binary. cbv zeta.
  match goal with |- context [Z.div_eucl ?a ?b] =>
    assert (Ha : 0 <= a) by (case_match; rewrite ?Z.shiftl_nonneg; lia);
    pose proof (Z_div_pos a b ltac:(lia) Ha) as Hq; unfold Z.div in Hq; destruct (Z.div_eucl a b) as [q r]
  end.
  rewrite xorb_false_r. by apply binary_round_aux_signed.
Qed.

Lemma round_scaled_signed prec emax base neg mant exp : signed neg (round_scaled prec emax base neg mant exp).
Proof. unfold round_scaled. case_match; apply round_ratio_signed. Qed.

(** The sign of a text. *)
Definition negative (s : string) : bool := head_is (Ascii.eqb "-") s.

Lemma readFloat_negative s neg m e hex :
  ParseFloat.readFloat s = Some (neg, m, e, hex) -> neg = negative s.
Proof.
  unfold ParseFloat.readFloat. destruct (opt_byte is_sign s) as [sg body] eqn:Eo.
  assert (Hs : String.eqb sg "-" = negative s).
  { destruct s as [|c s]; cbn in Eo; [by injection Eo as <- _|]. cbn [negative head_is].
    destruct (is_sign c) eqn:Ec; injection Eo as <- _; by destruct c as [[] [] [] [] [] [] [] []]. }
  rewrite <- Hs. intros H. repeat case_match; simplify_eq; done.
Qed.

(** A text of the expression that parses is a finite number of its sign. *)
Lemma scientific_value s bits f :
  scientificNotationFloatRegex_MatchString s = true -> ParseFloat s bits = Some f ->
  f = S754_zero (negative s) \/ exists m e, f = S754_finite (negative s) m e.
Proof.
  intros Hm. unfold ParseFloat. rewrite scientific_not_special by done.
  destruct (ParseFloat.readFloat s) as [[[[neg m] e] hex]|] eqn:Er; [|done].
  apply readFloat_negative in Er as <-. destruct (format_of bits) as [prec emax].
  pose proof (round_scaled_signed prec emax (if hex then 2 else 10) neg m e) as Hs.
  destruct (round_scaled _ _ _ _ _ _) as [s'| | |s' m' e']; cbn in Hs |- *; try done; subst.
  - intros [= <-]. by left.
  - intros [= <-]. right. by do 2 eexists.
Qed.

(** What [Sprintf_5f] writes of such a number. *)
Definition units_of (f : spec_float) (u : Z) : Prop :=
  match f with
  | S754_zero _ => u = 0
  | S754_finite _ m e => nearest5 m e u
  | _ => False
  end.

Lemma scientific_fixed5 s bits f :
  scientificNotationFloatRegex_MatchString s = true -> ParseFloat s bits = Some f ->
  exists u, Sprintf_5f f = fixed5 (negative s) u /\ units_of f u.
Proof.
  intros Hm Hf. destruct (scientific_value _ _ _ Hm Hf) as [->|(m & e & ->)].
  - by exists 0.
  - exists (units5 m e). split; [done|apply nearest5_units5].
Qed.

(** The expression asks for a point: 1e-3 does not match. *)
Lemma scientific_has_point s :
  scientificNotationFloatRegex_MatchString s = true -> occurs "." s = true.
Proof.
  unfold scientificNotationFloatRegex_MatchString.
  destruct (opt_byte is_sign s) as [sg s1] eqn:E1.
  destruct (span is_digit s1) as [int s2] eqn:E2.
  destruct s2 as [|c s2]; [done|].
  destruct (ascii_dec c ".") as [->|Hc].
  2: by destruct c as [[] [] [] [] [] [] [] []].
  intros _. repeat split_string. rewrite !occurs_app. cbn. by rewrite !orb_true_r.
Qed.

(** *** The scanner on a well-formed location *)

Lemma append_cons c a b : String c a +:+ b = String c (a +:+ b).
Proof. done. Qed.

Lemma append_assoc (a b c : string) : (a +:+ b) +:+ c = a +:+ (b +:+ c).
Proof. induction a as [|x a IH]; [done|]. by rewrite !append_cons, IH. Qed.

Lemma append_empty (a : string) : a +:+ EmptyString = a.
Proof. induction a as [|x a IH]; [done|]. by rewrite append_cons, IH. Qed.

Lemma substring_all s : String.substring 0 (String.length s) s = s.
Proof. induction s as [|c s IH]; simpl; [done|]. by rewrite IH. Qed.

Lemma substring_tail c s : String.substring 1 (String.length (String c s) - 1) (String c s) = s.
Proof. simpl. rewrite Nat.sub_0_r. apply substring_all. Qed.

(** A byte that starts no white space. *)
Definition plain (c : ascii) : bool :=
  forallb (fun p => match p with String x _ => negb (Ascii.eqb x c) | EmptyString => false end)
    strings.spaces.

Lemma strip_any_plain c s : plain c = true -> strings.strip_any strings.spaces (String c s) = None.
Proof.
  unfold plain. induction strings.spaces as [|p ps IH]; simpl; [done|].
  intros [Hp Hps]%andb_true_iff. destruct p as [|x p]; [done|].
  unfold strings.strip_prefix. simpl. destruct (ascii_dec x c) as [->|]; [|by apply IH].
  by rewrite Ascii.eqb_refl in Hp.
Qed.

Lemma SkipSpace_plain c s :
  plain c = true -> Ascii.eqb c "013" = false -> Ascii.eqb c "010" = false ->
  Sscanf.SkipSpace (String c s) = Some (String c s).
Proof.
  intros Hc Hr Hn. pose proof (strip_any_plain c s Hc) as E. clear Hc.
  apply Ascii.eqb_neq in Hr, Hn. unfold Sscanf.SkipSpace.
  destruct c as [[] [] [] [] [] [] [] []]; cbn [String.length Sscanf.SkipSpace_loop];
    rewrite ?E; congruence.
Qed.

(** The bytes a token of a location starts with. *)
Definition token_byte (c : ascii) : bool :=
  is_digit c || existsb (Ascii.eqb c) ["N"; "S"; "E"; "W"]%char.

Lemma token_byte_plain c :
  token_byte c = true ->
  plain c = true /\ Ascii.eqb c "013" = false /\ Ascii.eqb c "010" = false.
Proof. destruct c as [[] [] [] [] [] [] [] []]; vm_compute; done. Qed.

Lemma SkipSpace_token c s : token_byte c = true -> Sscanf.SkipSpace (String c s) = Some (String c s).
Proof. intros (H1 & H2 & H3)%token_byte_plain. by apply SkipSpace_plain. Qed.

Lemma spaces_loop_token n c s :
  token_byte c = true -> Sscanf.spaces_loop n (String c s) = String c s.
Proof.
  intros (H1 & H2 & H3)%token_byte_plain. destruct n as [|n]; [done|].
  cbn [Sscanf.spaces_loop].
  rewrite strip_any_plain by done. by destruct (head_is _ _).
Qed.

Lemma space_token c s :
  token_byte c = true -> Sscanf.space (String " " (String c s)) = Some (String c s).
Proof.
  intros Hc. unfold Sscanf.space. cbn [is_empty head_is].
  replace (strings.strip_any strings.spaces (String " " (String c s)))
    with (Some (String c s)).
  - cbn -[String.length Sscanf.spaces_loop]. by rewrite spaces_loop_token.
  - unfold strings.spaces. simpl. unfold strings.strip_prefix. simpl.
    by rewrite substring_all.
Qed.

Lemma rune_ascii c s : token_byte c = true -> Sscanf.rune (String c s) = Some (String c EmptyString, s).
Proof.
  intros Hc. unfold Sscanf.rune.
  assert (Sscanf.rune_length c s = 1%nat) as ->
    by (destruct c as [[] [] [] [] [] [] [] []]; vm_compute in Hc; done).
  rewrite substring_tail. by destruct s.
Qed.

Lemma verb_1s_token c s :
  token_byte c = true -> Sscanf.verb_1s (String c s) = Some (String c EmptyString, s).
Proof. intros Hc. unfold Sscanf.verb_1s. rewrite SkipSpace_token by done. by apply rune_ascii. Qed.

(** *** Plain decimal numbers *)

(** [int.frac], with at least one digit before the point. *)
Definition numeral (int frac : string) : string := int +:+ String "." frac.

Definition is_numeral (int frac : string) : bool :=
  negb (is_empty int) && all_bytes is_digit int && all_bytes is_digit frac.

Lemma all_bytes_or_underscore s :
  all_bytes is_digit s = true -> all_bytes (Sscanf.or_underscore is_digit) s = true.
Proof. apply all_bytes_impl. intros c Hc. unfold Sscanf.or_underscore. by rewrite Hc. Qed.

Lemma accept_all_app p buf a b :
  all_bytes p a = true -> head_is p b = false ->
  Sscanf.accept_all p (buf, a +:+ b) = (buf +:+ a, b).
Proof. intros Ha Hb. unfold Sscanf.accept_all. by rewrite span_app. Qed.

Lemma accept_hit p buf c s :
  p c = true -> Sscanf.accept p (buf, String c s) = Some (buf +:+ String c EmptyString, s).
Proof. unfold Sscanf.accept. by intros ->. Qed.

Lemma accept_miss p buf c s : p c = false -> Sscanf.accept p (buf, String c s) = None.
Proof. unfold Sscanf.accept. by intros ->. Qed.

Lemma accept_word_miss x y z buf c s :
  Ascii.eqb (lower c) x = false ->
  Sscanf.accept_word x y z (buf, String c s) = inr (buf, String c s).
Proof. intros H. unfold Sscanf.accept_word. by rewrite accept_miss. Qed.

(** From the digits on, the token is the numeral. *)
Lemma number_numeral buf i frac rest :
  all_bytes is_digit i = true -> all_bytes is_digit frac = true ->
  Sscanf.number false (buf, i +:+ String "." (frac +:+ String " " rest)) =
  (buf +:+ numeral i frac, String " " rest).
Proof.
  intros Hi Hf. unfold Sscanf.number.
  rewrite accept_all_app by (done || by apply all_bytes_or_underscore).
  rewrite accept_hit by done.
  rewrite accept_all_app by (done || by apply all_bytes_or_underscore).
  rewrite accept_miss by done.
  unfold numeral. by rewrite !append_assoc.
Qed.

Ltac digit_byte := match goal with c : ascii |- _ => by destruct c as [[] [] [] [] [] [] [] []] end.

Lemma floatToken_numeral i frac rest :
  is_numeral i frac = true ->
  Sscanf.floatToken (numeral i frac +:+ String " " rest) =
  (numeral i frac, String " " rest).
Proof.
  unfold is_numeral. intros [[Hne Hi]%andb_true_iff Hf]%andb_true_iff.
  unfold numeral at 1. rewrite append_assoc, append_cons.
  pose proof (number_numeral EmptyString i frac rest Hi Hf) as Hall.
  destruct i as [|c i]; [done|]. clear Hne. simpl in Hi. apply andb_true_iff in Hi as [Hc Hi].
  rewrite append_cons in *. unfold Sscanf.floatToken.
  rewrite accept_word_miss by digit_byte.
  unfold Sscanf.accept_opt. rewrite accept_miss by digit_byte.
  cbn [default]. rewrite accept_word_miss by digit_byte.
  destruct (Ascii.eqb "0" c) eqn:E0; [|by rewrite accept_miss].
  apply Ascii.eqb_eq in E0 as <-. rewrite accept_hit by done.
  assert (Sscanf.accept (fun c => Ascii.eqb (lower c) "x"%char)
    (EmptyString +:+ "0", i +:+ String "." (frac +:+ String " " rest)) = None) as ->.
  { destruct i as [|d i]; [done|]. simpl in Hi. apply andb_true_iff in Hi as [Hd _].
    rewrite append_cons. apply accept_miss. clear -Hd. digit_byte. }
  by rewrite number_numeral.
Qed.

Lemma numeral_no_p i frac : is_numeral i frac = true -> occurs "p" (numeral i frac) = false.
Proof.
  unfold is_numeral. intros [[_ Hi]%andb_true_iff Hf]%andb_true_iff.
  assert (H : forall s, all_bytes is_digit s = true -> occurs "p" s = false).
  { induction s as [|c s IH]; simpl; [done|]. intros [Hc Hs]%andb_true_iff.
    rewrite IH by done. clear -Hc. digit_byte. }
  unfold numeral. rewrite occurs_app. simpl. by rewrite !H.
Qed.

Lemma verb_f_numeral i frac rest f :
  is_numeral i frac = true -> ParseFloat (numeral i frac) 64 = Some f ->
  Sscanf.verb_f (numeral i frac +:+ String " " rest) = Some (f, String " " rest).
Proof.
  intros Hn Hf. unfold Sscanf.verb_f.
  assert (Hs : Sscanf.SkipSpace (numeral i frac +:+ String " " rest) =
    Some (numeral i frac +:+ String " " rest) /\ is_empty (numeral i frac +:+ String " " rest) = false).
  { unfold is_numeral in Hn. destruct i as [|c i]; [done|].
    unfold numeral. rewrite !append_cons. split; [|done]. apply SkipSpace_token.
    simpl in Hn. unfold token_byte. by destruct (is_digit c). }
  destruct Hs as [-> Hs]. cbn. rewrite Hs, floatToken_numeral by done.
  unfold Sscanf.convertFloat. rewrite cut_none by (by apply numeral_no_p).
  by rewrite Hf.
Qed.

(** A location as the vehicles write it. *)
Definition location_text (i1 f1 : string) (q1 : ascii) (i2 f2 : string) (q2 : ascii) : string :=
  String "(" (numeral i1 f1 +:+ String " " (String q1 (String "," (String " "
    (numeral i2 f2 +:+ String " " (String q2 ")")))))).

Lemma numeral_head i frac s :
  is_numeral i frac = true ->
  exists c s', numeral i frac +:+ s = String c s' /\ token_byte c = true.
Proof.
  unfold is_numeral, numeral. destruct i as [|c i]; [done|]. rewrite !append_cons. simpl.
  intros H. eexists c, _. split; [done|]. unfold token_byte. by destruct (is_digit c).
Qed.

Lemma literal_hit c s : Sscanf.literal c (String c s) = Some s.
Proof. unfold Sscanf.literal. by rewrite Ascii.eqb_refl. Qed.

Lemma location_numerals i1 f1 q1 i2 f2 q2 lat lon :
  is_numeral i1 f1 = true -> is_numeral i2 f2 = true ->
  token_byte q1 = true -> token_byte q2 = true ->
  ParseFloat (numeral i1 f1) 64 = Some lat -> ParseFloat (numeral i2 f2) 64 = Some lon ->
  Sscanf.location (location_text i1 f1 q1 i2 f2 q2) =
  Some (lat, String q1 EmptyString, lon, String q2 EmptyString).
Proof.
  intros Hn1 Hn2 Hq1 Hq2 Hlat Hlon. unfold Sscanf.location, location_text.
  rewrite literal_hit. cbn [mbind option_bind].
  rewrite (verb_f_numeral _ _ _ _ Hn1 Hlat). cbn [mbind option_bind].
  rewrite space_token by done. cbn [mbind option_bind].
  rewrite verb_1s_token by done. cbn [mbind option_bind].
  rewrite literal_hit. cbn [mbind option_bind].
  destruct (numeral_head i2 f2 (String " " (String q2 ")")) Hn2) as (c & s' & E & Hc).
  rewrite E, space_token, <- E by done. cbn [mbind option_bind].
  rewrite (verb_f_numeral _ _ _ _ Hn2 Hlon). cbn [mbind option_bind].
  rewrite space_token by done. cbn [mbind option_bind].
  rewrite verb_1s_token by done. done.
Qed.
