(* ===== verification/Logger.v ===== *)
(** * Logging (logger/logger.go)

    A logger is a wrapper over a logrus entry: the fields every line carries
    and a filter for the lines to drop.  What reaches logrus is a [LogEntry];
    formatting, levels and output belong to logrus. *)

From S2P Require Import Prelude GoStd.
Local Open Scope string_scope.

Inductive LogType := DEBUG | INFO | WARN | ERROR | FATAL.

#[export] Instance LogType_eq_dec : EqDecision LogType.
Proof. solve_decision. Defined.

(** The dynamic values of a [LogInfo]: an [AInt] is a value of any integer
    type; the element types of the source's maps and slices are not kept. *)
Inductive any :=
| ANil
| AString (s : string)
| AInt (n : Z)
| AFloat32 (f : spec_float)
| AFloat64 (f : spec_float)
| ABytes (b : bytes)
| ABool (b : bool)
| AStrings (l : list string)
| AUUID (s : string)
| AList (l : list any)
| AMap (m : gmap string any).

#[export] Instance any_eq_dec : EqDecision any.
Proof.
  refine (fix go x y := let _ : EqDecision any := @go in
    match x, y with
    | ANil, ANil => left eq_refl
    | AString a, AString b | AUUID a, AUUID b => cast_if (decide (a = b))
    | AInt a, AInt b => cast_if (decide (a = b))
    | AFloat32 a, AFloat32 b | AFloat64 a, AFloat64 b => cast_if (decide (a = b))
    | ABytes a, ABytes b => cast_if (decide (a = b))
    | ABool a, ABool b => cast_if (decide (a = b))
    | AStrings a, AStrings b => cast_if (decide (a = b))
    | AList a, AList b => cast_if (decide (a = b))
    | AMap a, AMap b => cast_if (decide (a = b))
    | _, _ => right _
    end); abstract congruence.
Defined.

Abbreviation LogInfo := (gmap string any).

Definition tlsFilter : string := "http: TLS handshake error from".

Definition AllLogType (t : LogType) : string :=
  match t with
  | DEBUG => "debug" | INFO => "info" | WARN => "warn" | ERROR => "error" | FATAL => "fatal"
  end.

Record Logger := mkLogger {
  logger_fields : LogInfo;
  suppressionFilter : string
}.

#[export] Instance Logger_eq_dec : EqDecision Logger.
Proof. solve_decision. Defined.

(** One call of the entry's level methods; [WithError] is the error. *)
Record LogEntry := mkLogEntry {
  le_level : LogType;
  le_message : string;
  le_error : option (option GoError);
  le_fields : LogInfo
}.

#[export] Instance LogEntry_eq_dec : EqDecision LogEntry.
Proof. solve_decision. Defined.

(** [getEntry]: the logger's fields, overridden by those of the call. *)
Definition getEntry (l : Logger) (info : LogInfo) : LogInfo := info ∪ logger_fields l.

(** [strconv.Quote] of a text without characters to escape. *)
Definition quote (s : string) : string :=
  String "034" (s +:+ String "034" EmptyString).

(** [NewLogrusLogger]: [logger] is the caller's entry, if any, and
    [environment] the lookup of an environment variable. *)
Definition NewLogrusLogger (environment : string -> option string) (context : string)
    (info : LogInfo) (logger : option LogInfo) : result Logger :=
  let fields := match logger with
                | None => {["context" := AString context]}
                | Some fields => fields
                end in
  let fields := info ∪ fields in
  match environment "SUPPRESS_TLS_HANDSHAKE_ERROR_LOGGING" with
  | None => Ok (mkLogger fields EmptyString)
  | Some value =>
      match strconv.ParseBool value with
      | None => Err (ErrorString ("strconv.ParseBool: parsing " +:+ quote value +:+ ": invalid syntax"))
      | Some b => Ok (mkLogger fields (if b then tlsFilter else EmptyString))
      end
  end.

Definition NewBasicLogrusLogger (environment : string -> option string) (context : string)
  : result Logger :=
  NewLogrusLogger environment context ∅ None.

Definition shouldSuppress (l : Logger) (message : string) : bool :=
  if String.eqb (suppressionFilter l) EmptyString then false
  else strings.Contains message (suppressionFilter l).

Definition log_unless_suppressed (l : option Logger) (message : string)
    (entry : Logger -> LogEntry) : outcome (list LogEntry) :=
  match l with
  | None => Panic "nil pointer dereference"
  | Some l => Ret (if shouldSuppress l message then [] else [entry l])
  end.

(** The methods on a [*Logger]: reading the filter of a nil logger panics. *)
Definition Log (l : option Logger) (logType : LogType) (message : string) (info : LogInfo) :=
  log_unless_suppressed l message (fun l => mkLogEntry logType message None (getEntry l info)).

Definition ActivityLog (l : option Logger) (message : string) (info : LogInfo) :=
  log_unless_suppressed l message (fun l =>
    mkLogEntry INFO message None (<["activity" := ABool true]> (getEntry l info))).

Definition ErrorLog (l : option Logger) (message : string) (err : option GoError) (info : LogInfo) :=
  log_unless_suppressed l message (fun l =>
    mkLogEntry ERROR message (Some err) (getEntry l info)).

(** [Write], which makes the logger an [io.Writer]: the number of bytes. *)
Definition Write (l : option Logger) (p : bytes) : outcome (list LogEntry * Z) :=
  entries ← ActivityLog l (str p) ∅; Ret (entries, Z.of_nat (length p)).

(** [Printf] and [Fatalf], whose format is compared with the filter: [text] is
    the formatted message; the second result says whether the process exits. *)
Definition Printf (l : option Logger) (format text : string) : outcome (list LogEntry) :=
  log_unless_suppressed l format (fun l => mkLogEntry INFO text None (logger_fields l)).

Definition Fatalf (l : option Logger) (format text : string) : outcome (list LogEntry * bool) :=
  match l with
  | None => Panic "nil pointer dereference"
  | Some l => Ret (if shouldSuppress l format then ([], false)
                   else ([mkLogEntry FATAL text None (logger_fields l)], true))
  end.

(** [Print] and [Println], which are not filtered; [text] is the message without
    the newline that logrus removes. *)
Definition Print_ (l : option Logger) (text : string) : outcome (list LogEntry) :=
  match l with
  | None => Panic "nil pointer dereference"
  | Some l => Ret [mkLogEntry INFO text None (logger_fields l)]
  end.

Definition Println (l : option Logger) (text : string) : outcome (list LogEntry) :=
  match l with
  | None => Panic "nil pointer dereference"
  | Some l => Ret [mkLogEntry INFO text None (logger_fields l)]
  end.

(** ** The standard logger of logrus

    The formatter, the level and the output are those of the process. *)
Inductive Formatter :=
| JSONFormatter (TimestampFormat : string)
| TextFormatter (ForceColors DisableColors : bool).

Record Standard := mkStandard {
  std_formatter : Formatter;
  std_level : string;
  std_output : string
}.

Definition RFC3339Nano : string := "2006-01-02T15:04:05.999999999Z07:00".

Definition SetFormatter (f : Formatter) (s : Standard) : Standard :=
  mkStandard f (std_level s) (std_output s).
Definition SetLevel (level : string) (s : Standard) : Standard :=
  mkStandard (std_formatter s) level (std_output s).
Definition SetOutput (output : string) (s : Standard) : Standard :=
  mkStandard (std_formatter s) (std_level s) output.

Definition SetJSONFormatter (json : bool) : Standard -> Standard :=
  SetFormatter (if json then JSONFormatter RFC3339Nano else TextFormatter false false).

Definition SetColorFormatter (color : bool) (s : Standard) : Standard :=
  if color then SetOutput "colorable stdout" (SetFormatter (TextFormatter true false) s)
  else SetOutput "stdout" (SetFormatter (TextFormatter false true) s).

(** [NewColorLogrusLogger] *)
Definition NewColorLogrusLogger (environment : string -> option string) (context : string)
    (s : Standard) : result Logger * Standard :=
  match NewLogrusLogger environment context ∅ None with
  | Err err => (Err err, s)
  | Ok l => (Ok l, SetColorFormatter true s)
  end.

(** [SetLogLevel]; [ParseLevel] is the canonical name of a level. *)
Definition SetLogLevel (ParseLevel : string -> result string) (name : string) (s : Standard) : Standard :=
  match ParseLevel name with
  | Err _ => s
  | Ok level => SetLevel level s
  end.

(** [NoOpLogger]: the error is dropped, and with it the logger. *)
Definition NoOpLogger (environment : string -> option string) : option Logger :=
  match NewLogrusLogger environment "null_logger" ∅ (Some {["context" := AString "test"]}) with
  | Ok l => Some l
  | Err _ => None
  end.
