(* ===== verification/Airbrake.v ===== *)
(** * Airbrake (server/airbrake/airbrake.go)

    The handler through which the server and its producers report errors: a
    notice is sent when a notifier is configured.  Sending is asynchronous and
    belongs to the Airbrake package; what reaches it is a [notice]. *)

From S2P Require Import Prelude GoStd Logger.
Local Open Scope string_scope.

(** [Handler]: whether its notifier is set. *)
Record Handler := mkHandler { airbrakeNotifier : bool }.

Definition NewAirbrakeHandler (notifier : bool) : Handler := mkHandler notifier.

(** A notice: its text and parameters. *)
Definition notice : Type := string * LogInfo.

(** [SendNoticeAsync], when there is a notifier. *)
Definition send (a : Handler) (n : notice) : list notice := if airbrakeNotifier a then [n] else [].

(** [ReportError]: the notices sent for an error of a request. *)
Definition ReportError (a : Handler) (err : GoError) : list notice := send a (Error_String err, ∅).

(** The parameters of a notice on a log line: those of the line override. *)
Definition logMessage (logType : LogType) (message : string) (err : option GoError) (logInfo : LogInfo)
  : notice :=
  (message, logInfo ∪
   (match err with
    | Some err => <["error" := AString (Error_String err)]>
    | None => id
    end {["log_type" := AString (AllLogType logType)]})).

Definition ReportLogMessage (a : Handler) (logType : LogType) (message : string) (err : option GoError)
    (logInfo : LogInfo) : list notice :=
  send a (logMessage logType message err logInfo).
