(* ===== verification/GoJson.v ===== *)
(** * JSON encoding (package [encoding/json])

    [json.Marshal] of the dynamic values the program builds: strings are
    escaped for HTML, the keys of a map are sorted, a float is written with the
    fewest digits that identify it, in exponent form when it is very small or
    large, and a float that is not a number or infinite is an error. *)

From S2P Require Import Prelude GoStd GoTime GoFloat Logger.
From stdpp Require Import sorting.
Local Open Scope Z_scope.

(** ** Floats: the shortest decimal *)

(** A decimal [0.d1d2...dn * 10 ^ dp]: its digits as a number and its point. *)
Record decimal := mkDecimal { dec_digits : Z; dec_point : Z }.

Section Shortest.
(** The value and the ends of the interval that rounds to it, over one
    denominator; the ends are in the interval when [inclusive]. *)
Variables (x lo hi den : Z) (inclusive : bool).

(** The value over the unit [10 ^ p], truncated, and whether it is exact. *)
Definition at_unit (v p : Z) : Z * bool :=
  if 0 <=? p then (v / (den * 10 ^ p), v mod (den * 10 ^ p) =? 0)
  else (v * 10 ^ (- p) / den, v * 10 ^ (- p) mod den =? 0).

(** The comparison of [n * 10 ^ p] with a value. *)
Definition compare_at (n p v : Z) : comparison :=
  if 0 <=? p then (n * 10 ^ p * den) ?= v else (n * den) ?= (v * 10 ^ (- p)).

Definition in_low (n p : Z) : bool :=
  match compare_at n p lo with Gt => true | Eq => inclusive | Lt => false end.
Definition in_high (n p : Z) : bool :=
  match compare_at n p hi with Lt => true | Eq => inclusive | Gt => false end.

(** The digits of the value to the unit [10 ^ p], nearest first when both
    neighbours identify the value, ties to even. *)
Definition nearest_at (p : Z) : Z :=
  if 0 <=? p then round_half_even x (den * 10 ^ p) else round_half_even (x * 10 ^ (- p)) den.

(** From the unit [10 ^ p] down: the first unit at which a neighbour of the
    value is in the interval.  An exact value ends the search, at the latest
    after as many units as the value has digits. *)
Fixpoint shortest (fuel : nat) (p : Z) : Z * Z :=
  let '(down, exact) := at_unit x p in
  match fuel with
  | O => (down, p)
  | S fuel =>
      if exact then (down, p)
      else
        let okdown := in_low down p in
        let okup := in_high (down + 1) p in
        if okdown && okup then (nearest_at p, p)
        else if okdown then (down, p)
        else if okup then (down + 1, p)
        else shortest fuel (p - 1)
  end.
End Shortest.

Definition number_of_digits (n : Z) : Z := Z.of_nat (String.length (strconv.Itoa n)).

(** Remove the zeros at the end of the digits. *)
Fixpoint trim_zeros (fuel : nat) (n p : Z) : Z * Z :=
  match fuel with
  | O => (n, p)
  | S fuel => if (n mod 10 =? 0) && negb (n =? 0) then trim_zeros fuel (n / 10) (p + 1) else (n, p)
  end.

(** The shortest decimal of [m * 2 ^ e] in a format of precision [prec] and
    least exponent [emin]. *)
Definition shortest_decimal (prec emin : Z) (m : positive) (e : Z) : decimal :=
  let narrow := (Zpos m =? 2 ^ (prec - 1)) && (emin <? e) in
  let scale := Z.max 0 e in
  let den := 4 * 2 ^ Z.max 0 (- e) in
  let x := 4 * Zpos m * 2 ^ scale in
  let hi := (4 * Zpos m + 2) * 2 ^ scale in
  let lo := (4 * Zpos m - (if narrow then 1 else 2)) * 2 ^ scale in
  let top := if den <=? hi then number_of_digits (hi / den)
             else 1 - number_of_digits (den / hi) in
  let '(digits, p) := shortest x lo hi den (Z.even (Zpos m)) 800 top in
  let '(digits, p) := trim_zeros 800 digits p in
  mkDecimal digits (p + number_of_digits digits).

(** The digits with the point: [%f] and [%e] of the package. *)
Definition format_f (d : decimal) : string :=
  let digits := strconv.Itoa (dec_digits d) in
  let n := number_of_digits (dec_digits d) in
  let p := dec_point d in
  if p <=? 0 then "0." +:+ time.zeros (Z.to_nat (- p)) +:+ digits
  else if n <=? p then digits +:+ time.zeros (Z.to_nat (p - n))
  else String.substring 0 (Z.to_nat p) digits +:+ "." +:+
       String.substring (Z.to_nat p) (Z.to_nat (n - p)) digits.

(** The exponent has no leading zero: the package's is shortened by the encoder
    when negative, and has two digits otherwise. *)
Definition format_e (d : decimal) : string :=
  let digits := strconv.Itoa (dec_digits d) in
  let exp := dec_point d - 1 in
  String.substring 0 1 digits +:+
  (if (String.length digits =? 1)%nat then EmptyString
   else "." +:+ String.substring 1 (String.length digits - 1) digits) +:+
  (if exp <? 0 then "e-" else "e+") +:+ strconv.Itoa (Z.abs exp).

(** [floatEncoder], for a float of 32 or 64 bits. *)
Definition float_text (bitSize : Z) (f : spec_float) : result string :=
  let '(prec, emax) := format_of bitSize in
  match f with
  | S754_nan => Err (ErrorString "json: unsupported value: NaN")
  | S754_infinity neg =>
      Err (ErrorString ("json: unsupported value: " +:+ if neg then "-Inf" else "+Inf"))
  | S754_zero neg => Ok (if neg then "-0" else "0")
  | S754_finite neg m e =>
      let abs := S754_finite false m e in
      let d := shortest_decimal prec (3 - emax - prec) m e in
      let small := SFltb abs (round_scaled prec emax 10 false 1 (-6)) in
      let large := SFleb (round_scaled prec emax 10 false 1 21) abs in
      Ok ((if neg then "-" else EmptyString) +:+ (if small || large then format_e d else format_f d))
  end%string.

(** ** Strings *)

Definition hex_digit (n : nat) : ascii :=
  ascii_of_nat (if (n <? 10)%nat then 48 + n else 87 + n).

(** A byte as an escape of four hexadecimal digits. *)
Definition escape_u00 (n : nat) : string :=
  "\u00" +:+ String (hex_digit (n / 16)) (String (hex_digit (n mod 16)) EmptyString).

Definition escape_byte (n : nat) : string :=
  let c := String (ascii_of_nat n) EmptyString in
  if (n =? 34)%nat || (n =? 92)%nat then String "\" c
  else if (n =? 8)%nat then "\b" else if (n =? 12)%nat then "\f"
  else if (n =? 10)%nat then "\n" else if (n =? 13)%nat then "\r" else if (n =? 9)%nat then "\t"
  else if (n <? 32)%nat || (n =? 60)%nat || (n =? 62)%nat || (n =? 38)%nat then escape_u00 n
  else c.

(** The bytes of the rune at the start of a text after its first byte [n]: how
    many continuation bytes it needs and the range of the first of them, for a
    well-formed encoding. *)
Definition rune_shape (n : nat) : option (nat * nat * nat) :=
  if (n <? 194)%nat then None
  else if (n <? 224)%nat then Some (1, 128, 191)%nat
  else if (n =? 224)%nat then Some (2, 160, 191)%nat
  else if (n =? 237)%nat then Some (2, 128, 159)%nat
  else if (n <? 240)%nat then Some (2, 128, 191)%nat
  else if (n =? 240)%nat then Some (3, 144, 191)%nat
  else if (n <? 244)%nat then Some (3, 128, 191)%nat
  else if (n =? 244)%nat then Some (3, 128, 143)%nat
  else None.

Definition in_range (lo hi : nat) (c : ascii) : bool :=
  (lo <=? nat_of_ascii c)%nat && (nat_of_ascii c <=? hi)%nat.

(** The rest of a well-formed rune that starts with the byte [n], and what is
    after it. *)
Definition take_rune (n : nat) (s : string) : option (string * string) :=
  match rune_shape n, s with
  | Some (1, lo, hi)%nat, String c s => if in_range lo hi c then Some (String c EmptyString, s) else None
  | Some (2, lo, hi)%nat, String c (String d s) =>
      if in_range lo hi c && in_range 128 191 d then Some (String c (String d EmptyString), s) else None
  | Some (3, lo, hi)%nat, String c (String d (String e s)) =>
      if in_range lo hi c && in_range 128 191 d && in_range 128 191 e
      then Some (String c (String d (String e EmptyString)), s) else None
  | _, _ => None
  end.

(** [utf8.ValidString]; [skip] counts the bytes of a rune that was accepted. *)
Fixpoint valid_string (skip : nat) (s : string) : bool :=
  match s with
  | EmptyString => true
  | String c s =>
      match skip with
      | S skip => valid_string skip s
      | O =>
          let n := nat_of_ascii c in
          if (n <? 128)%nat then valid_string 0 s
          else match take_rune n s with
               | Some (rest, _) => valid_string (String.length rest) s
               | None => false
               end
      end
  end.
Definition utf8_ValidString (s : string) : bool := valid_string 0 s.

(** The line separators, which are escaped. *)
Definition separator (rune : string) : option string :=
  if String.eqb rune (strings.b3 226 128 168) then Some "\u2028"%string
  else if String.eqb rune (strings.b3 226 128 169) then Some "\u2029"%string
  else None.

(** [appendString] with HTML escaping, without the quotes; [skip] counts the
    bytes of a rune that has been written already. *)
Fixpoint escape (skip : nat) (s : string) : string :=
  match s with
  | EmptyString => EmptyString
  | String c s =>
      match skip with
      | S skip => escape skip s
      | O =>
          let n := nat_of_ascii c in
          if (n <? 128)%nat then escape_byte n +:+ escape 0 s
          else match take_rune n s with
               | Some (rest, _) =>
                   default (String c rest) (separator (String c rest)) +:+
                   escape (String.length rest) s
               | None => "\ufffd" +:+ escape 0 s
               end
      end
  end.

Definition quoted (s : string) : string :=
  String "034" (escape 0 s +:+ String "034" EmptyString).

(** [[]byte] values are written in base 64. *)
Definition base64_digit (n : Z) : ascii :=
  ascii_of_nat (Z.to_nat (if n <? 26 then 65 + n else if n <? 52 then 71 + n
                          else if n <? 62 then n - 4 else if n =? 62 then 43 else 47)).

Fixpoint base64 (b : list Z) : string :=
  match b with
  | [] => EmptyString
  | [x] => String (base64_digit (x / 4)) (String (base64_digit (x mod 4 * 16)) "==")
  | [x; y] => String (base64_digit (x / 4)) (String (base64_digit (x mod 4 * 16 + y / 16))
                (String (base64_digit (y mod 16 * 4)) "="))
  | x :: y :: z :: b => String (base64_digit (x / 4)) (String (base64_digit (x mod 4 * 16 + y / 16))
                (String (base64_digit (y mod 16 * 4 + z / 64)) (String (base64_digit (z mod 64))
                (base64 b))))
  end.

(** ** Values *)

(** The first error of a list of results, or all the values. *)
Fixpoint all_ok {A} (l : list (result A)) : result (list A) :=
  match l with
  | [] => Ok []
  | x :: l => x ← x; l ← all_ok l; Ok (x :: l)
  end.

(** The members of an object in the order of their keys. *)
Definition sorted_members {A} (m : gmap string A) : list (string * A) :=
  merge_sort (fun e1 e2 => String.le e1.1 e2.1) (map_to_list m).

Definition member (e : string * result string) : result string :=
  v ← e.2; Ok (quoted e.1 +:+ ":" +:+ v)%string.

Definition brackets (open close : string) (l : list string) : string :=
  (open +:+ String.concat "," l +:+ close)%string.

(** [json.Marshal] as a text. *)
Fixpoint marshal (v : any) : result string :=
  match v with
  | ANil => Ok "null"
  | AString s | AUUID s => Ok (quoted s)
  | AInt n => Ok (strconv.Itoa n)
  | AFloat32 f => float_text 32 f
  | AFloat64 f => float_text 64 f
  | ABytes b => Ok (String "034" (base64 (Z.of_N ∘ Byte.to_N <$> b) +:+ String "034" EmptyString))
  | ABool b => Ok (if b then "true" else "false")
  | AStrings l => Ok (brackets "[" "]" (quoted <$> l))
  | AList l => texts ← all_ok (marshal <$> l); Ok (brackets "[" "]" texts)
  | AMap m => texts ← all_ok (member <$> sorted_members (marshal <$> m)); Ok (brackets "{" "}" texts)
  end%string.

Definition json_Marshal (v : any) : result bytes := t ← marshal v; Ok (raw t).

(** ** Lemmas *)

(** A value without a float that is not a number or infinite has a text; here
    for the values built from others that have one. *)
Definition has_json (v : any) : Prop := exists t, marshal v = Ok t.

Lemma all_ok_Forall {A} (l : list (result A)) :
  Forall (fun x => exists a, x = Ok a) l -> exists l', all_ok l = Ok l'.
Proof.
  induction 1 as [|x l [a ->] _ [l' IH]]; [by eexists|]. cbn. rewrite IH. by eexists.
Qed.

Lemma has_json_list l : Forall has_json l -> has_json (AList l).
Proof.
  intros Hl. destruct (all_ok_Forall (marshal <$> l)) as [texts Ht].
  { by apply Forall_fmap. }
  eexists. cbn. by rewrite Ht.
Qed.

Lemma has_json_map (m : gmap string any) : map_Forall (fun _ => has_json) m -> has_json (AMap m).
Proof.
  intros Hm. destruct (all_ok_Forall (member <$> sorted_members (marshal <$> m))) as [texts Ht].
  2: { eexists. cbn. by rewrite Ht. }
  apply Forall_fmap, Forall_forall. intros [k r] Hin. unfold sorted_members in Hin.
  rewrite merge_sort_Permutation, elem_of_map_to_list, lookup_fmap in Hin.
  destruct (m !! k) as [v|] eqn:Hk; [|done]. injection Hin as <-.
  destruct (Hm k v Hk) as [t Ht]. unfold member. cbn. rewrite Ht. by eexists.
Qed.

Lemma has_json_string s : has_json (AString s).
Proof. by eexists. Qed.
Lemma has_json_nil : has_json ANil.
Proof. by eexists. Qed.

Create HintDb json.
#[export] Hint Resolve has_json_list has_json_map has_json_string has_json_nil : json.

Lemma has_json_Marshal v : has_json v -> exists j, json_Marshal v = Ok j.
Proof. unfold json_Marshal. intros [t ->]. by eexists. Qed.
