(* ===== verification/Telemetry.v ===== *)
(** * Records and their serializer (telemetry/)

    A message received on a socket becomes a [TRecord] (the source's [Record]):
    the serializer parses the envelope, stamps it and checks the sender, then
    the payload is parsed and rewritten according to the record type.  A
    record is dispatched to the producers of its topic, acknowledged, or
    answered with an error. *)

From S2P Require Import Prelude GoStd GoFloat ProtoEnums Protos ProtoRef.
From S2P Require Import Identity Flatbuffers FbRef Messages Logger Airbrake.
Local Open Scope Z_scope.

(** ** Data *)

(** A value behind the [Producer] interface, by its identity: what a producer
    does with a record is modelled by the component that implements it. *)
Abbreviation Producer := string.

Record RequestIdentity := mkRequestIdentity {
  ri_DeviceID : string;
  ri_SenderID : string;
  ri_DeviceClientVersion : string
}.

Record BinarySerializer := mkBinarySerializer {
  DispatchRules : gmap string (list Producer);
  bs_RequestIdentity : option RequestIdentity;
  bs_logger : option Logger
}.

(** [NewBinarySerializer] *)
Definition NewBinarySerializer (requestIdentity : option RequestIdentity)
    (dispatchRules : gmap string (list Producer)) (logger : option Logger) : BinarySerializer :=
  mkBinarySerializer dispatchRules requestIdentity logger.

(** [Record]; a time is in nanoseconds since the epoch, a nil [RawBytes] is
    [None]. *)
Record TRecord := mkTRecord {
  ProduceTime : option Z;
  ReceivedTimestamp : Z;
  Serializer : option BinarySerializer;
  SocketID : string;
  Timestamp_ : Z;
  Txid : string;
  TxType : string;
  TripID : string;
  DeviceClientVersion : string;
  Version : Z;
  Vin : string;
  PayloadBytes : bytes;
  RawBytes : option bytes;
  transmitDecodedRecords : bool;
  protoMessage : option ProtoMessage
}.

(** The record literal with the given serializer, raw bytes and socket. *)
Definition new_TRecord (bs : BinarySerializer) (rawBytes : option bytes) (socketID : string)
    (transmit : bool) : TRecord :=
  mkTRecord None 0 (Some bs) socketID 0 EmptyString EmptyString EmptyString EmptyString 0
    EmptyString [] rawBytes transmit None.

(** Assignments to the fields. *)
Definition set_RawBytes (v : option bytes) (r : TRecord) : TRecord :=
  mkTRecord (ProduceTime r) (ReceivedTimestamp r) (Serializer r) (SocketID r) (Timestamp_ r)
    (Txid r) (TxType r) (TripID r) (DeviceClientVersion r) (Version r) (Vin r) (PayloadBytes r)
    v (transmitDecodedRecords r) (protoMessage r).
Definition set_Txid (v : string) (r : TRecord) : TRecord :=
  mkTRecord (ProduceTime r) (ReceivedTimestamp r) (Serializer r) (SocketID r) (Timestamp_ r)
    v (TxType r) (TripID r) (DeviceClientVersion r) (Version r) (Vin r) (PayloadBytes r)
    (RawBytes r) (transmitDecodedRecords r) (protoMessage r).
Definition set_TxType (v : string) (r : TRecord) : TRecord :=
  mkTRecord (ProduceTime r) (ReceivedTimestamp r) (Serializer r) (SocketID r) (Timestamp_ r)
    (Txid r) v (TripID r) (DeviceClientVersion r) (Version r) (Vin r) (PayloadBytes r)
    (RawBytes r) (transmitDecodedRecords r) (protoMessage r).
Definition set_identity (vin version : string) (payload : bytes) (received : Z) (r : TRecord)
  : TRecord :=
  mkTRecord (ProduceTime r) received (Serializer r) (SocketID r) (Timestamp_ r)
    (Txid r) (TxType r) (TripID r) version (Version r) vin payload
    (RawBytes r) (transmitDecodedRecords r) (protoMessage r).
Definition set_transmit (v : bool) (r : TRecord) : TRecord :=
  mkTRecord (ProduceTime r) (ReceivedTimestamp r) (Serializer r) (SocketID r) (Timestamp_ r)
    (Txid r) (TxType r) (TripID r) (DeviceClientVersion r) (Version r) (Vin r) (PayloadBytes r)
    (RawBytes r) v (protoMessage r).
Definition set_PayloadBytes (v : bytes) (r : TRecord) : TRecord :=
  mkTRecord (ProduceTime r) (ReceivedTimestamp r) (Serializer r) (SocketID r) (Timestamp_ r)
    (Txid r) (TxType r) (TripID r) (DeviceClientVersion r) (Version r) (Vin r) v
    (RawBytes r) (transmitDecodedRecords r) (protoMessage r).
Definition set_protoMessage (v : option ProtoMessage) (r : TRecord) : TRecord :=
  mkTRecord (ProduceTime r) (ReceivedTimestamp r) (Serializer r) (SocketID r) (Timestamp_ r)
    (Txid r) (TxType r) (TripID r) (DeviceClientVersion r) (Version r) (Vin r) (PayloadBytes r)
    (RawBytes r) (transmitDecodedRecords r) v.

(** The accessors of a record. *)
Definition Record_Payload (r : TRecord) : bytes := PayloadBytes r.
Definition Record_Raw (r : TRecord) : option bytes := RawBytes r.
Definition GetProtoMessage (r : TRecord) : option ProtoMessage := protoMessage r.
Definition BinarySerializer_Logger (bs : BinarySerializer) : option Logger := bs_logger bs.

(** What a call does outside its own data: log lines, metric updates, notices
    to Airbrake, records handed to producers. *)
Inductive Event :=
| ELog (e : LogEntry)
| EInc (counter : string) (labels : gmap string string)
| EAdd (metric : string) (n : Z) (labels : gmap string string)
| ENotice (n : Airbrake.notice)
| EProduce (p : Producer) (r : TRecord).

Abbreviation trace := (list Event).

(** Emit the lines of a logger call. *)
Definition log_to_trace {S} (emit : trace -> S -> S) (o : outcome (list LogEntry)) : go S () :=
  lines ← lift o; modify (emit (ELog <$> lines)).

Definition SizeLimit : Z := 1000000.
Definition maxSecondsInDuration : Z := 315576000000.

(** [BuildTopicName] *)
Definition BuildTopicName (namespace recordName : string) : string :=
  namespace +:+ "_" +:+ recordName.

(** ** Payload transformations (record.go) *)

(** An error of [ParseLocation]: the scanner's, or the one it builds. *)
Inductive location_error :=
| ScanError
| InvalidLocation (msg : string).

Definition ParseLocation (s : string) : LocationValue + location_error :=
  match Sscanf.location s with
  | None => inr ScanError
  | Some (lat, latQ, lon, lonQ) =>
      if negb (strings.Contains "NS" latQ) || negb (strings.Contains "EW" lonQ)
      then inr (InvalidLocation ("invalid location format: " +:+ s))
      else
        let lat := if String.eqb latQ "S" then SFopp lat else lat in
        let lon := if String.eqb lonQ "W" then SFopp lon else lon in
        inl (mkLocationValue lat lon)
  end.

(** [datum.Value = &protos.Value{Value: v}]; the datum is not nil where the
    code assigns. *)
Definition set_Datum_Value (v : isValue_Value) (d : option Datum) : option Datum :=
  match d with
  | Some d => Some (mkDatum (Datum_Key d) (Some (mkValue (Some v))))
  | None => None
  end.

Definition set_Payload_Data (data : list (option Datum)) (m : Protos.Payload) : Protos.Payload :=
  mkPayload data (Payload_CreatedAt m) (Payload_Vin m) (Payload_IsResend m).

Definition locate_datum (d : option Datum) : option Datum :=
  let strVal := Value_GetStringValue (Datum_GetValue d) in
  if String.eqb strVal EmptyString then d
  else match ParseLocation strVal with
       | inl loc => set_Datum_Value (Value_LocationValue (Some loc)) d
       | inr _ => d
       end.

(** The first datum of the Location field ends the loop. *)
Fixpoint transformLocation_data (data : list (option Datum)) : list (option Datum) :=
  match data with
  | [] => []
  | d :: rest =>
      if Datum_GetKey d =? Field_Location then locate_datum d :: rest
      else d :: transformLocation_data rest
  end.

Definition transformLocation (m : Protos.Payload) : Protos.Payload :=
  set_Payload_Data (transformLocation_data (Payload_Data m)) m.

Definition unscientific_datum (d : option Datum) : option Datum :=
  let strVal := Value_GetStringValue (Datum_GetValue d) in
  if String.eqb strVal EmptyString then d
  else if scientificNotationFloatRegex_MatchString strVal
  then match ParseFloat strVal 32 with
       | Some floatVal => set_Datum_Value (Value_StringValue (Sprintf_5f floatVal)) d
       | None => d
       end
  else d.

Definition transformScientificNotation (m : Protos.Payload) : Protos.Payload :=
  set_Payload_Data (map unscientific_datum (Payload_Data m)) m.

(** [time.UnixMilli(msec)] as the seconds and nanoseconds of the time: the
    nanoseconds of a negative remainder borrow from the seconds. *)
Definition UnixMilli (msec : Z) : Z * Z := (msec / 1000, msec mod 1000 * 1000000).

Section Operations.
Context {FB : FlatbuffersLib} {PC : ProtoCodec}.

Definition convertTimestamp (input : option Timestamp) : option Timestamp :=
  match input with
  | None => None
  | Some t =>
      if Seconds t <? maxSecondsInDuration then input
      else let '(sec, nsec) := UnixMilli (Seconds t) in Some (timestamppb_New sec nsec)
  end.

Definition transformTimestamp (m : VehicleAlerts) : VehicleAlerts :=
  mkVehicleAlerts
    (map (fun a => mkVehicleAlert (Alert_Name a) (Alert_Audiences a)
            (convertTimestamp (Alert_StartedAt a)) (convertTimestamp (Alert_EndedAt a)))
      (Alerts_Alerts m))
    (Alerts_CreatedAt m) (Alerts_Vin m).

(** The message of a record type: parsed from the payload, with the record's
    VIN, and transformed.  [None] for the other types. *)
Definition parse_message (r : TRecord) : option (result ProtoMessage) :=
  if String.eqb (TxType r) "alerts" then
    Some (m ← Unmarshal_VehicleAlerts (PayloadBytes r);
          Ok (MVehicleAlerts (transformTimestamp (set_Alerts_Vin (Vin r) m))))
  else if String.eqb (TxType r) "errors" then
    Some (m ← Unmarshal_VehicleErrors (PayloadBytes r);
          Ok (MVehicleErrors (set_Errors_Vin (Vin r) m)))
  else if String.eqb (TxType r) "V" then
    Some (m ← Unmarshal_Payload (PayloadBytes r);
          Ok (MPayload (transformScientificNotation (transformLocation
            (set_Payload_Vin (Vin r) m)))))
  else if String.eqb (TxType r) "connectivity" then
    Some (m ← Unmarshal_VehicleConnectivity (PayloadBytes r);
          Ok (MVehicleConnectivity (set_Connectivity_Vin (Vin r) m)))
  else None.

Definition applyProtoRecordTransforms (r : TRecord) : TRecord * option GoError :=
  match parse_message r with
  | None => (r, None)
  | Some (Err err) => (r, Some err)
  | Some (Ok message) =>
      match Marshal message with
      | Ok b => (set_protoMessage (Some message) (set_PayloadBytes b r), None)
      | Err err => (set_protoMessage (Some message) (set_PayloadBytes [] r), Some err)
      end
  end.

Definition toJSON (r : TRecord) : result bytes := protojson_Marshal (protoMessage r).

Definition applyRecordTransforms (r : TRecord) : TRecord * option GoError :=
  let '(r, err) := applyProtoRecordTransforms r in
  match err with
  | Some _ => (r, err)
  | None =>
      if negb (transmitDecodedRecords r) then (r, None)
      else match toJSON r with
           | Ok b => (set_PayloadBytes b r, None)
           | Err err => (set_PayloadBytes [] r, Some err)
           end
  end.

(** ** The serializer (serializer.go) *)

(** The state of [Deserialize]: the record it returns even when it panics,
    and what it emitted. *)
Abbreviation dstate := (TRecord * trace)%type.

Definition update (f : TRecord -> TRecord) : go dstate () :=
  modify (fun '(r, t) => (f r, t)).
Definition log_dstate (o : outcome (list LogEntry)) : go dstate () :=
  log_to_trace (fun new '(r, t) => (r, t ++ new)) o.

Definition guessError (msg : bytes) : go dstate GoError :=
  parsed ← lift (FlatbuffersEnvelopeFromBytes msg);
  match parsed with
  | Err _ => mret (UnknownMessageType msg EmptyString 0)
  | Ok (envelope, _) =>
      txid ← lift (Envelope_TxidBytes envelope);
      update (set_Txid (str txid));;
      ty ← lift (Envelope_MessageType envelope);
      mret (UnknownMessageType msg (str txid) ty)
  end.

Definition sender_allowed (id : RequestIdentity) (senderID : string) : bool :=
  String.eqb senderID (ri_SenderID id) || String.eqb senderID (ri_DeviceID id).

(** The body of [Deserialize]; [now1] and [now2] are the two readings of the
    clock. *)
Definition Deserialize_body (bs : BinarySerializer) (msg : bytes) (now1 now2 : Z)
  : go dstate (option GoError) :=
  parsed ← lift (StreamMessageFromBytes msg);
  match parsed with
  | Err _ => err ← guessError msg; mret (Some err)
  | Ok streamMessage =>
      let streamMessage := SetDeliveredAt now1 streamMessage in
      b ← lift (StreamMessage_ToBytes streamMessage);
      update (set_RawBytes (Some b));;
      update (set_TxType (StreamMessage_Topic streamMessage));;
      update (set_Txid (str (TXID streamMessage)));;
      match bs_RequestIdentity bs with
      | None => nil_dereference
      | Some id =>
          update (set_identity (ri_DeviceID id) (ri_DeviceClientVersion id)
            (Messages.Payload streamMessage) (now2 / 1000000));;
          match DispatchRules bs !! StreamMessage_Topic streamMessage with
          | Some _ => mret None
          | None =>
              let sender := str (SenderID streamMessage) in
              if sender_allowed id sender then mret None
              else
                log_dstate (ErrorLog (bs_logger bs) "unexpected_sender_id" None
                  (list_to_map
                     [("sender_id", AString sender);
                      ("expected_sender_id", AString (ri_SenderID id));
                      ("txid", AString (str (TXID streamMessage)));
                      ("record_type", AString (StreamMessage_Topic streamMessage))]));;
                mret (Some (ErrorString ("message SenderID: " +:+ sender +:+
                  " do not match vehicleID: " +:+ ri_SenderID id)))
          end
      end
  end.

(** [Deserialize]: a panic of the body is recovered into an error. *)
Definition Deserialize (bs : BinarySerializer) (msg : bytes) (socketID : string) (now1 now2 : Z)
  : TRecord * option GoError * trace :=
  match Deserialize_body bs msg now1 now2 (new_TRecord bs (Some msg) socketID false, []) with
  | (Ret err, (r, t)) => (r, err, t)
  | (Panic why, (r, t)) =>
      (r, Some (ErrorString ("panic while deserializing binary hermes stream: " +:+ why)), t)
  end.

Definition BinarySerializer_Ack (r : TRecord) : outcome bytes :=
  StreamAckMessage_ToBytes (mkStreamAckMessage None (raw (Txid r)) (raw (TxType r)) []).

Definition BinarySerializer_Error (err : GoError) (r : TRecord) : outcome bytes :=
  StreamMessage_ToBytes (mkStreamMessage None None [] (raw (Txid r)) [] [] [] 0 0
    (raw (Error_String err)) []).

(** [for _, producer := range bs.DispatchRules[record.TxType]] *)
Definition BinarySerializer_Dispatch (bs : BinarySerializer) (r : TRecord) : trace :=
  (fun producer => EProduce producer r) <$> default [] (DispatchRules bs !! TxType r).

(** ** The record (record.go) *)

Definition NewRecord (ts : BinarySerializer) (msg : bytes) (socketID : string) (transmit : bool)
    (now1 now2 : Z) : TRecord * option GoError * trace :=
  if SizeLimit <? Z.of_nat (length msg)
  then (new_TRecord ts None EmptyString transmit, Some ErrMessageTooBig, [])
  else
    let '(rec, err, t) := Deserialize ts msg socketID now1 now2 in
    let rec := set_transmit transmit rec in
    match err with
    | Some _ => (rec, err, t)
    | None => let '(rec, err) := applyRecordTransforms rec in (rec, err, t)
    end.

Definition TRecord_Ack (r : TRecord) : outcome bytes := BinarySerializer_Ack r.
Definition TRecord_Error (err : GoError) (r : TRecord) : outcome bytes :=
  BinarySerializer_Error err r.

Definition Metadata (r : TRecord) : gmap string string :=
  list_to_map
    [("vin", Vin r); ("receivedat", strconv.Itoa (ReceivedTimestamp r));
     ("timestamp", strconv.Itoa (Timestamp_ r)); ("txid", Txid r); ("txtype", TxType r);
     ("version", strconv.Itoa (Version r)); ("device_client_version", DeviceClientVersion r)].

Definition GetJSONPayload (r : TRecord) : result bytes :=
  if transmitDecodedRecords r then Ok (PayloadBytes r) else toJSON r.

Definition Length (r : TRecord) : Z := Z.of_nat (length (PayloadBytes r)).

(** [ensureEncoded]: a record without raw bytes is logged. *)
Definition ensureEncoded (r : TRecord) : outcome trace :=
  match RawBytes r, Serializer r with
  | None, Some bs =>
      match bs_logger bs with
      | Some l => fmap (M:=list) ELog <$> ErrorLog (Some l) "record_RawBytes_blank" None ∅
      | None => Ret []
      end
  | _, _ => Ret []
  end.

Definition LengthRawBytes (r : TRecord) : outcome (Z * trace) :=
  t ← ensureEncoded r; Ret (Z.of_nat (length (default [] (RawBytes r))), t).

Definition Encode (r : TRecord) : outcome (option bytes * trace) :=
  t ← ensureEncoded r; Ret (RawBytes r, t).

(** [Dispatch]: a debug line, then the producers of the record's topic. *)
Definition Dispatch (r : TRecord) : outcome trace :=
  match Serializer r with
  | None => Panic "nil pointer dereference"
  | Some bs =>
      lines ← Log (bs_logger bs) DEBUG "dispatching_message"
        (list_to_map [("socket_id", AString (SocketID r));
                      ("payload", ABytes (default [] (RawBytes r)))]);
      Ret ((ELog <$> lines) ++ BinarySerializer_Dispatch bs r)
  end.

Definition SignalsCount (r : TRecord) : Z :=
  match protoMessage r with
  | Some (MPayload p) => Z.of_nat (length (Payload_Data p))
  | Some (MVehicleAlerts a) => Z.of_nat (length (Alerts_Alerts a))
  | _ => 0
  end.
End Operations.

#[global] Arguments Deserialize_body : simpl never.
#[global] Arguments applyProtoRecordTransforms : simpl never.

(** ** Lemmas on the transformations *)

Lemma set_Datum_Value_set v d : wrapper_set v = true -> datum_set d = true -> datum_set (set_Datum_Value v d) = true.
Proof. by destruct d. Qed.

Lemma locate_datum_set d : datum_set d = true -> datum_set (locate_datum d) = true.
Proof.
  intros Hd. unfold locate_datum. repeat case_match; try done; by apply set_Datum_Value_set.
Qed.

Lemma unscientific_datum_set d : datum_set d = true -> datum_set (unscientific_datum d) = true.
Proof.
  intros Hd. unfold unscientific_datum. repeat case_match; try done; by apply set_Datum_Value_set.
Qed.

Lemma transformLocation_set l :
  forallb datum_set l = true -> forallb datum_set (transformLocation_data l) = true.
Proof.
  induction l as [|d l IH]; simpl; [done|]. intros [Hd Hl]%andb_true_iff.
  case_match; simpl; [by rewrite locate_datum_set|by rewrite Hd, IH].
Qed.

Lemma transformScientific_set l :
  forallb datum_set l = true -> forallb datum_set (map unscientific_datum l) = true.
Proof.
  induction l as [|d l IH]; simpl; [done|]. intros [Hd Hl]%andb_true_iff.
  by rewrite unscientific_datum_set, IH.
Qed.

(** The string of a datum after an assignment of a string. *)
Lemma GetStringValue_set_string s d :
  Value_GetStringValue (Datum_GetValue d) <> EmptyString ->
  Value_GetStringValue (Datum_GetValue (set_Datum_Value (Value_StringValue s) d)) = s.
Proof. by destruct d. Qed.

Lemma unscientific_datum_out d s :
  Value_GetStringValue (Datum_GetValue (unscientific_datum d)) = s ->
  scientificNotationFloatRegex_MatchString s = true -> ParseFloat s 32 = None.
Proof.
  unfold unscientific_datum.
  destruct (String.eqb_spec (Value_GetStringValue (Datum_GetValue d)) EmptyString) as [E|E].
  { intros <-. by rewrite E. }
  destruct (scientificNotationFloatRegex_MatchString _) eqn:Hm; [|intros <-; congruence].
  destruct (ParseFloat _ 32) as [f|] eqn:Hp; [|by intros <-].
  rewrite GetStringValue_set_string by done. intros <-. by rewrite Sprintf_5f_not_scientific.
Qed.

Lemma unscientific_datum_idemp d : unscientific_datum (unscientific_datum d) = unscientific_datum d.
Proof.
  pose proof (unscientific_datum_out d _ eq_refl) as Hout. revert Hout.
  generalize (unscientific_datum d). intros d' Hout. unfold unscientific_datum.
  destruct (String.eqb _ _); [done|].
  destruct (scientificNotationFloatRegex_MatchString _); [|done].
  by rewrite Hout.
Qed.

(** The records a trace hands to producers, in order. *)
Fixpoint produced (t : trace) : list (Producer * TRecord) :=
  match t with
  | [] => []
  | EProduce p r :: t' => (p, r) :: produced t'
  | _ :: t' => produced t'
  end.

Lemma produced_app t1 t2 : produced (t1 ++ t2) = produced t1 ++ produced t2.
Proof. induction t1 as [|[] t1 IH]; simpl; [done|done..| |]; by rewrite ?IH. Qed.

Lemma produced_log lines : produced (ELog <$> lines) = [].
Proof. by induction lines. Qed.

Lemma produced_produce r ps : produced ((fun p => EProduce p r) <$> ps) = (fun p => (p, r)) <$> ps.
Proof. induction ps as [|p ps IH]; simpl; [done|]. by f_equal. Qed.

(** ** Lemmas on the serializer *)

(** Unfold [Deserialize] to the calls its body makes. *)
Ltac run_body :=
  unfold Deserialize, Deserialize_body, update, modify, mret, go_ret, mbind, go_bind, lift.

Section Lemmas.
Context {FB : FlatbuffersLib} {PC : ProtoCodec} {PS : ProtoCodecSpec PC}.

(** The record of a parsed message, with its new encoding. *)
Definition stamped (bs : BinarySerializer) (id : RequestIdentity) (m : StreamMessage)
    (b : bytes) (socketID : string) (now2 : Z) : TRecord :=
  mkTRecord None (now2 / 1000000) (Some bs) socketID 0 (str (TXID m)) (StreamMessage_Topic m)
    EmptyString (ri_DeviceClientVersion id) 0 (ri_DeviceID id) (Messages.Payload m) (Some b)
    false None.

(** A message whose topic has a dispatch rule is accepted from any sender. *)
Definition accepted (bs : BinarySerializer) (id : RequestIdentity) (m : StreamMessage) : bool :=
  bool_decide (is_Some (DispatchRules bs !! StreamMessage_Topic m)) ||
  sender_allowed id (str (SenderID m)).

Lemma Deserialize_accepted bs msg sid now1 now2 m b id :
  StreamMessageFromBytes msg = Ret (Ok m) ->
  StreamMessage_ToBytes (SetDeliveredAt now1 m) = Ret b ->
  bs_RequestIdentity bs = Some id -> accepted bs id m = true ->
  Deserialize bs msg sid now1 now2 = (stamped bs id m b sid now2, None, []).
Proof.
  intros Hm Hb Hid Ha. run_body. rewrite Hm, Hb, Hid. simpl.
  unfold accepted in Ha. unfold StreamMessage_Topic in *. simpl.
  destruct (DispatchRules bs !! str (MessageTopic m)) as [rules|]; [done|].
  simpl in Ha. by rewrite Ha.
Qed.

Lemma Deserialize_ok_inv bs msg sid now1 now2 r t :
  Deserialize bs msg sid now1 now2 = (r, None, t) ->
  exists m b id, StreamMessageFromBytes msg = Ret (Ok m) /\
    StreamMessage_ToBytes (SetDeliveredAt now1 m) = Ret b /\
    bs_RequestIdentity bs = Some id /\ accepted bs id m = true /\
    r = stamped bs id m b sid now2 /\ t = [].
Proof.
  intros H. destruct (StreamMessageFromBytes msg) as [[m|e]|w] eqn:Hm.
  2: { revert H. run_body. unfold guessError.
       rewrite Hm. simpl. repeat (case_match; simplify_eq/=); done. }
  2: { revert H. run_body. by rewrite Hm. }
  destruct (StreamMessage_ToBytes (SetDeliveredAt now1 m)) as [b|w] eqn:Hb.
  2: { revert H. run_body. by rewrite Hm, Hb. }
  destruct (bs_RequestIdentity bs) as [id|] eqn:Hid.
  2: { revert H. run_body.
       by rewrite Hm, Hb, Hid. }
  destruct (accepted bs id m) eqn:Ha.
  - rewrite (Deserialize_accepted _ _ _ _ _ m b id) in H by done. simplify_eq.
    by exists m, b, id.
  - exfalso. revert H. run_body.
    rewrite Hm, Hb, Hid. unfold accepted in Ha. apply orb_false_iff in Ha as [Hr Hs].
    unfold StreamMessage_Topic in *. simpl.
    destruct (DispatchRules bs !! str (MessageTopic m)) as [rules|]; [done|].
    rewrite Hs. unfold log_dstate, log_to_trace, mbind, go_bind, lift.
    by destruct (ErrorLog _ _ _ _).
Qed.

(** The message of a record carries its VIN and holds no nil messages. *)
Lemma parse_message_vin r m :
  parse_message r = Some (Ok m) -> message_vin m = Vin r /\ no_nil_messages m = true.
Proof.
  unfold parse_message. repeat case_match; [..|done]; intros [= Hm].
  all: match type of Hm with (?u ≫= _) = _ => destruct u as [p|e] eqn:Hu; [|done] end.
  all: simpl in Hm; simplify_eq; split; [done|]; simpl; try done.
  apply transformScientific_set, transformLocation_set.
  by apply (unmarshal_no_nil (PayloadBytes r) (MPayload p)).
Qed.

Lemma applyRecordTransforms_ok r r' :
  applyRecordTransforms r = (r', None) ->
  (parse_message r = None /\ protoMessage r' = protoMessage r /\
    (transmitDecodedRecords r = false -> r' = r)) \/
  (exists m b, parse_message r = Some (Ok m) /\ Marshal m = Ok b /\ protoMessage r' = Some m /\
    (transmitDecodedRecords r = false -> PayloadBytes r' = b)).
Proof.
  unfold applyRecordTransforms, applyProtoRecordTransforms, toJSON. intros H.
  destruct (parse_message r) as [[m|e]|]; [right|done|left].
  - destruct (Marshal m) as [b|e] eqn:Hb; [|done]. exists m, b.
    destruct (transmitDecodedRecords r) eqn:Ht; simpl in H; rewrite Ht in H; simpl in H;
      repeat case_match; simplify_eq; done.
  - destruct (transmitDecodedRecords r) eqn:Ht; simpl in H;
      repeat case_match; simplify_eq; done.
Qed.

(** What the transformations never touch. *)
Definition same_header (r r' : TRecord) : Prop :=
  Serializer r' = Serializer r /\ SocketID r' = SocketID r /\ Txid r' = Txid r /\
  TxType r' = TxType r /\ Vin r' = Vin r /\ RawBytes r' = RawBytes r /\
  DeviceClientVersion r' = DeviceClientVersion r /\
  ReceivedTimestamp r' = ReceivedTimestamp r /\
  transmitDecodedRecords r' = transmitDecodedRecords r.

Lemma applyRecordTransforms_header r :
  same_header r (applyRecordTransforms r).1.
Proof.
  unfold applyRecordTransforms, applyProtoRecordTransforms, toJSON.
  repeat (case_match; simplify_eq/=); repeat split.
Qed.

Lemma NewRecord_ok_inv bs msg sid transmit now1 now2 r t :
  NewRecord bs msg sid transmit now1 now2 = (r, None, t) ->
  Z.of_nat (length msg) <= SizeLimit /\ t = [] /\
  exists m b id, StreamMessageFromBytes msg = Ret (Ok m) /\
    StreamMessage_ToBytes (SetDeliveredAt now1 m) = Ret b /\
    bs_RequestIdentity bs = Some id /\ accepted bs id m = true /\
    applyRecordTransforms (set_transmit transmit (stamped bs id m b sid now2)) = (r, None).
Proof.
  unfold NewRecord. destruct (Z.ltb_spec SizeLimit (Z.of_nat (length msg))); [done|].
  destruct (Deserialize bs msg sid now1 now2) as [[rec [err|]] t'] eqn:Hd; [done|].
  apply Deserialize_ok_inv in Hd as (m & b & id & Hm & Hb & Hid & Ha & -> & ->).
  destruct (applyRecordTransforms _) as [rec' err'] eqn:Hap. intros [= -> -> <-].
  split; [lia|]. split; [done|]. by exists m, b, id.
Qed.
(** What holds of the record and the trace of a message, whatever it is. *)
Lemma Deserialize_header bs msg sid now1 now2 r err t :
  Deserialize bs msg sid now1 now2 = (r, err, t) ->
  Serializer r = Some bs /\ SocketID r = sid /\ is_Some (RawBytes r) /\ produced t = [].
Proof.
  unfold Deserialize, Deserialize_body, guessError, log_dstate, log_to_trace, update, modify,
    mret, go_ret, mbind, go_bind, skip, nil_dereference, lift.
  repeat (case_match; simplify_eq/=); intros; simplify_eq/=;
    rewrite ?produced_log; repeat split; by eexists.
Qed.

Lemma NewRecord_header bs msg sid transmit now1 now2 r err t :
  NewRecord bs msg sid transmit now1 now2 = (r, err, t) ->
  Serializer r = Some bs /\ transmitDecodedRecords r = transmit /\ produced t = [].
Proof.
  unfold NewRecord. case_match; [by intros [= <- <- <-]|].
  destruct (Deserialize _ _ _ _ _) as [[r0 err0] t0] eqn:E.
  apply Deserialize_header in E as (Hs & _ & _ & Ht).
  destruct err0; [by intros [= <- <- <-]|].
  pose proof (applyRecordTransforms_header (set_transmit transmit r0)) as Hh.
  destruct (applyRecordTransforms _) as [r1 err1]. intros [= <- <- <-].
  destruct Hh as (H1 & _ & _ & _ & _ & _ & _ & _ & H2). cbn in H1, H2. by rewrite H1, H2.
Qed.
End Lemmas.

(** ** Concrete data for the witnesses *)

Definition sample_payload : Protos.Payload :=
  mkPayload
    [Some (mkDatum 21 (Some (mkValue (Some (Value_StringValue "(37.5 N, 122.25 W)")))));
     Some (mkDatum 4 (Some (mkValue (Some (Value_StringValue "1.5e1")))))] None "x" false.

Definition sample_v_message : StreamMessage :=
  mkStreamMessage None None (raw "V") (raw "tx-1") (raw "vehicle_device.VIN42")
    (raw "vehicle_device") (raw "VIN42") 0 1700000000 (ref_encode sample_payload) [].

Definition sample_identity : RequestIdentity :=
  mkRequestIdentity "VIN42" "vehicle_device.VIN42" "1.0".

Definition sample_serializer : BinarySerializer :=
  mkBinarySerializer ∅ (Some sample_identity) (Some (mkLogger ∅ EmptyString)).

Definition sample_wire : bytes :=
  match StreamMessage_ToBytes (FB := FbRef) sample_v_message with Ret b => b | Panic _ => [] end.

Definition sample_now : Z := 1700000000123456789.

(** ** Properties *)

(** C1: a record accepted from a vehicle belongs to the vehicle of the
    connection.  When [NewRecord] reports no error, the message is at most the
    size limit, parsed as a stream message, and came from the sender of the
    certificate or on a topic with a dispatch rule; the record has the topic
    and transaction id of the message and the certificate's device id as VIN;
    the message of a known topic is present and carries that VIN, and, unless
    decoded records are requested, the payload bytes parse back to it. *)
Theorem new_record_accepted {FB : FlatbuffersLib} {PC : ProtoCodec} {PS : ProtoCodecSpec PC}
    bs msg sid transmit now1 now2 r t :
  NewRecord bs msg sid transmit now1 now2 = (r, None, t) ->
  exists m id, bs_RequestIdentity bs = Some id /\ StreamMessageFromBytes msg = Ret (Ok m) /\
    Z.of_nat (length msg) <= SizeLimit /\
    (is_Some (DispatchRules bs !! TxType r) \/ str (SenderID m) = ri_SenderID id \/
      str (SenderID m) = ri_DeviceID id) /\
    TxType r = str (MessageTopic m) /\ Txid r = str (TXID m) /\ SocketID r = sid /\
    Serializer r = Some bs /\ Vin r = ri_DeviceID id /\
    (TxType r ∈ ["alerts"; "errors"; "V"; "connectivity"]%string ->
      exists pm, protoMessage r = Some pm /\ message_vin pm = ri_DeviceID id /\
        (transmit = false -> unmarshals (PayloadBytes r) pm)).
Proof.
  intros (Hsize & -> & m & b & id & Hm & Hb & Hid & Ha & Hap)%NewRecord_ok_inv.
  exists m, id. set (r0 := set_transmit transmit (stamped bs id m b sid now2)) in *.
  pose proof (applyRecordTransforms_header r0) as Hh. rewrite Hap in Hh.
  destruct Hh as (H1 & H2 & H3 & H4 & H5 & _). simpl in *.
  repeat split; try done.
  - rewrite H4. unfold accepted, sender_allowed in Ha.
    rewrite !orb_true_iff, bool_decide_eq_true, !String.eqb_eq in Ha. exact Ha.
  - intros Hin. destruct (applyRecordTransforms_ok _ _ Hap)
      as [(Hnone & _ & _)|(pm & pb & Hpm & Hmarshal & Hp & Hbytes)].
    { exfalso. rewrite H4 in Hin. revert Hnone. unfold parse_message.
      apply list_elem_of_In in Hin. simpl in Hin.
      destruct Hin as [E|[E|[E|[E|[]]]]]; simpl; rewrite <- E; done. }
    exists pm. apply parse_message_vin in Hpm as [Hvin Hwf]. split; [done|]. split; [done|].
    intros ->. rewrite Hbytes by done. by apply unmarshal_marshal.
Qed.

Lemma new_record_accepted_witness :
  exists r t m, NewRecord (FB := FbRef) (PC := ProtoRef) sample_serializer sample_wire "socket" false
      sample_now sample_now = (r, None, t) /\
    StreamMessageFromBytes (FB := FbRef) sample_wire = Ret (Ok m) /\
    exists pm, protoMessage r = Some pm /\ message_vin pm = "VIN42"%string /\
      unmarshals (PayloadBytes r) pm.
Proof.
  destruct (NewRecord (FB := FbRef) (PC := ProtoRef) sample_serializer sample_wire "socket" false
    sample_now sample_now) as [[r err] t] eqn:E.
  assert (He : (err, TxType r) = (None, "V"%string))
    by (change (err, TxType r) with ((r, err, t).1.2, TxType (r, err, t).1.1); rewrite <- E;
        vm_compute; reflexivity).
  injection He as -> Ht.
  destruct (new_record_accepted _ _ _ _ _ _ _ _ E)
    as (m & id & Hid & Hm & _ & _ & _ & _ & _ & _ & _ & Hpm).
  injection Hid as <-. exists r, t, m. split; [reflexivity|]. split; [exact Hm|].
  destruct Hpm as (pm & Hp & Hv & Hu).
  - rewrite Ht. do 2 right. left.
  - exists pm. split; [exact Hp|]. split; [exact Hv|]. exact (Hu eq_refl).
Defined.

Lemma Deserialize_encoded {FB : FlatbuffersLib} {FS : FlatbuffersSpec FB}
    bs id m sid now1 now2 :
  sm_fsm m = None -> message_fits m -> 0 <= now1 < 2 ^ 63 ->
  bs_RequestIdentity bs = Some id -> accepted bs id m = true ->
  exists wire raw_bytes m', StreamMessage_ToBytes m = Ret wire /\
    Deserialize bs wire sid now1 now2 =
    (mkTRecord None (now2 / 1000000) (Some bs) sid 0 (str (TXID m)) (str (MessageTopic m))
       EmptyString (ri_DeviceClientVersion id) 0 (ri_DeviceID id) (Messages.Payload m)
       (Some raw_bytes) false None, None, []) /\
    StreamMessageFromBytes raw_bytes = Ret (Ok m') /\
    content m' = content (SetDeliveredAt now1 m) /\ DeliveredAtEpochMs m' = now1 / 1000000.
Proof.
  intros Hf Hfit Hnow Hid Ha.
  destruct (stream_message_codec m Hf Hfit) as (wire & m1 & Hwire & Hm1 & Hc1 & _).
  destruct Hfit as (Hc & Hd & Hs).
  assert (Hq : 0 <= now1 / 1000000 < 2 ^ 63)
    by (split; [apply Z.div_pos; lia|apply Z.div_lt_upper_bound; lia]).
  assert (Hdel : u64 (Z.quot now1 1000000) = now1 / 1000000)
    by (rewrite Z.quot_div_nonneg by lia; apply u64_small; lia).
  destruct (stream_message_codec (SetDeliveredAt now1 m1) eq_refl) as (b & m2 & Hb & Hm2 & Hc2 & _).
  { change (message_fits (SetDeliveredAt now1 (content m1))). rewrite Hc1.
    split; [done|]. split; [|done]. cbn. rewrite Hdel. lia. }
  exists wire, b, m2. split; [done|]. split; [|split; [done|]].
  - assert (Ha1 : accepted bs id m1 = true).
    { change (accepted bs id (content m1) = true). by rewrite Hc1. }
    rewrite (Deserialize_accepted _ _ _ _ _ _ _ _ Hm1 Hb Hid Ha1).
    change (stamped bs id m1 b sid now2) with (stamped bs id (content m1) b sid now2).
    by rewrite Hc1.
  - change (content (SetDeliveredAt now1 m1)) with (content (SetDeliveredAt now1 (content m1)))
      in Hc2. rewrite Hc1 in Hc2. split; [done|].
    change (DeliveredAtEpochMs (content m2) = now1 / 1000000). by rewrite Hc2, <- Hdel.
Qed.

(** C8: a stream message from the connected vehicle is turned into the record
    the message describes: its topic, transaction id and payload, the
    certificate's device id as VIN, the client version of the connection, the
    time of reception in milliseconds, and raw bytes that decode to the same
    message with the delivery time stamped on it. *)
Theorem deserialize_roundtrip {FB : FlatbuffersLib} {FS : FlatbuffersSpec FB}
    bs id m sid now1 now2 :
  sm_fsm m = None -> message_fits m -> 0 <= now1 < 2 ^ 63 ->
  bs_RequestIdentity bs = Some id -> accepted bs id m = true ->
  exists wire raw_bytes m', StreamMessage_ToBytes m = Ret wire /\
    Deserialize bs wire sid now1 now2 =
    (mkTRecord None (now2 / 1000000) (Some bs) sid 0 (str (TXID m)) (str (MessageTopic m))
       EmptyString (ri_DeviceClientVersion id) 0 (ri_DeviceID id) (Messages.Payload m)
       (Some raw_bytes) false None, None, []) /\
    StreamMessageFromBytes raw_bytes = Ret (Ok m') /\
    content m' = content (SetDeliveredAt now1 m) /\ DeliveredAtEpochMs m' = now1 / 1000000.
Proof. apply Deserialize_encoded. Qed.

Lemma deserialize_roundtrip_witness :
  exists wire raw_bytes m', StreamMessage_ToBytes (FB := FbRef) sample_message = Ret wire /\
    Deserialize sample_serializer wire "socket" sample_now sample_now =
    (mkTRecord None 1700000000123 (Some sample_serializer) "socket" 0 "tx-1" "V" EmptyString
       "1.0" 0 "VIN42" (raw "payload") (Some raw_bytes) false None, None, []) /\
    StreamMessageFromBytes raw_bytes = Ret (Ok m') /\
    content m' = content (SetDeliveredAt sample_now sample_message) /\
    DeliveredAtEpochMs m' = 1700000000123.
Proof.
  assert (Hnow : 0 <= sample_now < 2 ^ 63) by (vm_compute; split; [discriminate|reflexivity]).
  assert (Ha : accepted sample_serializer sample_identity sample_message = true)
    by (vm_compute; reflexivity).
  destruct (deserialize_roundtrip sample_serializer sample_identity sample_message "socket"
    sample_now sample_now eq_refl sample_message_fits Hnow eq_refl Ha)
    as (wire & b & m' & Hw & HD & Hm & Hc & Ht).
  exists wire, b, m'. split; [exact Hw|]. split; [rewrite HD; vm_compute; reflexivity|].
  split; [exact Hm|]. split; [exact Hc|]. rewrite Ht. vm_compute. reflexivity.
Defined.

(** C29: a message whose sender is neither the certificate's client nor its
    device, on a topic without a dispatch rule, is refused with an error that
    names both; the record still carries the topic and transaction id the
    answer to the vehicle needs, and one line is logged. *)
Theorem deserialize_foreign_sender {FB : FlatbuffersLib} bs id l msg sid now1 now2 m b :
  StreamMessageFromBytes msg = Ret (Ok m) ->
  StreamMessage_ToBytes (SetDeliveredAt now1 m) = Ret b ->
  bs_RequestIdentity bs = Some id -> bs_logger bs = Some l ->
  accepted bs id m = false ->
  exists r t, Deserialize bs msg sid now1 now2 =
      (r, Some (ErrorString ("message SenderID: " +:+ str (SenderID m) +:+
         " do not match vehicleID: " +:+ ri_SenderID id)), t) /\
    Txid r = str (TXID m) /\ TxType r = str (MessageTopic m) /\ Serializer r = Some bs /\
    length t = if shouldSuppress l "unexpected_sender_id" then 0%nat else 1%nat.
Proof.
  intros Hm Hb Hid Hl Ha. run_body. rewrite Hm, Hb, Hid. simpl.
  unfold accepted in Ha. apply orb_false_iff in Ha as [Hr Hs].
  unfold StreamMessage_Topic in *. simpl.
  destruct (DispatchRules bs !! str (MessageTopic m)) as [rules|]; [done|].
  rewrite Hs. unfold log_dstate, log_to_trace, ErrorLog, log_unless_suppressed.
  unfold mbind, go_bind, lift. rewrite Hl. simpl.
  eexists _, _. split; [done|]. repeat split.
  by destruct (shouldSuppress l "unexpected_sender_id").
Qed.

Definition sample_foreign : BinarySerializer :=
  mkBinarySerializer ∅ (Some (mkRequestIdentity "VIN7" "vehicle_device.VIN7" "1.0"))
    (Some (mkLogger ∅ EmptyString)).

Lemma deserialize_foreign_sender_witness :
  exists wire r t, StreamMessage_ToBytes (FB := FbRef) sample_message = Ret wire /\
    Deserialize sample_foreign wire "socket" sample_now sample_now =
      (r, Some (ErrorString
         "message SenderID: vehicle_device.VIN42 do not match vehicleID: vehicle_device.VIN7"), t) /\
    Txid r = "tx-1"%string /\ TxType r = "V"%string /\ length t = 1%nat.
Proof.
  destruct (StreamMessage_ToBytes (FB := FbRef) sample_message) as [wire|] eqn:Hw;
    [|vm_compute in Hw; discriminate].
  destruct (StreamMessageFromBytes wire) as [[m|]|] eqn:Hm;
    [|exfalso; revert Hm; vm_compute in Hw; injection Hw as <-; vm_compute; discriminate..].
  destruct (StreamMessage_ToBytes (SetDeliveredAt sample_now m)) as [b|] eqn:Hb;
    [|exfalso; revert Hb Hm; vm_compute in Hw; injection Hw as <-;
      vm_compute; intros Hb [= <-]; discriminate].
  assert (Hs : content m = content sample_message).
  { revert Hm. vm_compute in Hw; injection Hw as <-. vm_compute. by intros [= <-]. }
  unfold content in Hs. injection Hs as H1 H2 H3 H4 H5 H6 H7 H8 H9.
  destruct (deserialize_foreign_sender sample_foreign
    (mkRequestIdentity "VIN7" "vehicle_device.VIN7" "1.0") (mkLogger ∅ EmptyString) wire "socket"
    sample_now sample_now m b Hm Hb eq_refl eq_refl) as (r & t & HD & HT & HY & _ & HL).
  { unfold accepted, StreamMessage_Topic. rewrite H1, H3. reflexivity. }
  rewrite H2 in HT. rewrite H1 in HY. rewrite H3 in HD.
  exists wire, r, t. split; [reflexivity|]. split; [exact HD|]. split; [exact HT|].
  split; [exact HY|exact HL].
Defined.

(** Bytes that are an envelope of another type are reported as such: an
    acknowledgement sent by a vehicle gives the unknown-message error with the
    bytes, the transaction id and the message type of its envelope, and the
    record keeps that transaction id so that it can be answered. *)
Theorem deserialize_unknown_type {FB : FlatbuffersLib} {FS : FlatbuffersSpec FB}
    bs a sid now1 now2 :
  ack_fits a ->
  exists wire, StreamAckMessage_ToBytes a = Ret wire /\
    Deserialize bs wire sid now1 now2 =
    (set_Txid (str (ack_TXID a)) (new_TRecord bs (Some wire) sid false),
     Some (UnknownMessageType wire (str (ack_TXID a)) MessageFlatbuffersStreamAck), []).
Proof.
  intros Hfit.
  destruct (FlatbuffersStreamAckToBytes_reads _ _ _ Hfit) as (b & env & t & E & Hne & Hroot & Henv).
  pose proof (FlatbuffersEnvelopeFromBytes_reads _ _ _ _ _ _ _ Hne Hroot Henv) as Hfrom.
  destruct (ack_message_codec a Hfit) as (b' & a' & E' & _ & _ & _ & e & Hm).
  assert (b' = b) as -> by (unfold StreamAckMessage_ToBytes in E'; congruence).
  exists b. split; [exact E'|]. run_body. rewrite Hm. unfold guessError.
  unfold update, modify, mret, go_ret, mbind, go_bind, lift. rewrite Hfrom.
  destruct Henv as (E1 & _ & E3 & _). simpl. rewrite E1. simpl. by rewrite E3.
Qed.

Lemma deserialize_unknown_type_witness :
  exists wire, StreamAckMessage_ToBytes (FB := FbRef) sample_ack = Ret wire /\
    Deserialize sample_serializer wire "socket" 0 0 =
    (set_Txid "tx-1" (new_TRecord sample_serializer (Some wire) "socket" false),
     Some (UnknownMessageType wire "tx-1" 5), []).
Proof.
  destruct (deserialize_unknown_type (FB := FbRef) sample_serializer sample_ack "socket" 0 0
    sample_ack_fits) as (wire & Hw & HD).
  exists wire. split; [exact Hw|exact HD].
Defined.

(** The room the two answers to a record need. *)
Definition response_fits (r : TRecord) (err : GoError) : Prop :=
  ack_fits (mkStreamAckMessage None (raw (Txid r)) (raw (TxType r)) []) /\
  message_fits (mkStreamMessage None None [] (raw (Txid r)) [] [] [] 0 0
    (raw (Error_String err)) []).

(** C28: the two answers to a record can be told apart and name it: the
    acknowledgement decodes to the record's transaction id and topic and is
    refused as a stream message; the error answer decodes to a stream message
    with the record's transaction id and the error's text as payload. *)
Theorem record_responses {FB : FlatbuffersLib} {FS : FlatbuffersSpec FB} r err :
  response_fits r err ->
  (exists b a, TRecord_Ack r = Ret b /\ StreamAckMessageFromBytes b = Ret (Ok a) /\
     str (ack_TXID a) = Txid r /\ StreamAckMessage_Topic a = TxType r /\
     exists e, StreamMessageFromBytes b = Ret (Err e)) /\
  (exists b m, TRecord_Error err r = Ret b /\ StreamMessageFromBytes b = Ret (Ok m) /\
     str (TXID m) = Txid r /\ str (Messages.Payload m) = Error_String err).
Proof.
  intros [Hack Herr]. split.
  - destruct (ack_message_codec _ Hack) as (b & a & Hb & Ha & Hc & _ & He).
    exists b, a. unfold ack_content in Hc. injection Hc as H1 H2 H3.
    unfold StreamAckMessage_Topic. rewrite H1, H2. cbn. by rewrite !str_raw.
  - edestruct (stream_message_codec (FB := FB)) as (b & m & Hb & Hm & Hc & _); [|exact Herr|]; [done|].
    exists b, m. unfold content in Hc. injection Hc as _ H2 _ _ _ _ _ H8 _.
    rewrite H2, H8. cbn. by rewrite !str_raw.
Qed.

Definition sample_record : TRecord :=
  set_TxType "V" (set_Txid "tx-1" (new_TRecord sample_serializer (Some [Byte.x00]) "socket" false)).

Lemma record_responses_witness :
  (exists b a, TRecord_Ack (FB := FbRef) sample_record = Ret b /\
     StreamAckMessageFromBytes b = Ret (Ok a) /\
     str (ack_TXID a) = "tx-1"%string /\ StreamAckMessage_Topic a = "V"%string /\
     exists e, StreamMessageFromBytes b = Ret (Err e)) /\
  (exists b m, TRecord_Error (FB := FbRef) (ErrorString "incorrect message format") sample_record = Ret b /\
     StreamMessageFromBytes b = Ret (Ok m) /\
     str (TXID m) = "tx-1"%string /\ str (Messages.Payload m) = "incorrect message format"%string).
Proof.
  assert (H : response_fits sample_record (ErrorString "incorrect message format"))
    by (unfold response_fits, ack_fits, message_fits; vm_compute; repeat split; discriminate).
  destruct (record_responses (FB := FbRef) _ _ H) as [Hack Herr].
  split; [exact Hack|exact Herr].
Defined.

(** C30: each string value that matches the scientific-notation expression and
    whose value is in the range of a 32-bit float is replaced by the text of
    that value, rounded to a 32-bit float and then to five decimals, with its
    sign; that text does not match.  Every other datum, the keys and the number
    of data are unchanged, and applying the transformation again changes
    nothing.  The expression asks for a point, so the example of the code's
    comment, 1e-3, is not rewritten ([scientific_has_point]). *)
Theorem transformScientificNotation_normalises m :
  transformScientificNotation (transformScientificNotation m) = transformScientificNotation m /\
  length (Payload_Data (transformScientificNotation m)) = length (Payload_Data m) /\
  forall i d, Payload_Data m !! i = Some d ->
    let s := Value_GetStringValue (Datum_GetValue d) in
    exists d', Payload_Data (transformScientificNotation m) !! i = Some d' /\
      Datum_GetKey d' = Datum_GetKey d /\
      match scientificNotationFloatRegex_MatchString s, ParseFloat s 32 with
      | true, Some f => exists u,
          d' = set_Datum_Value (Value_StringValue (fixed5 (negative s) u)) d /\ units_of f u /\
          scientificNotationFloatRegex_MatchString (Value_GetStringValue (Datum_GetValue d')) = false
      | _, _ => d' = d
      end.
Proof.
  unfold transformScientificNotation, set_Payload_Data. simpl. split; [|split].
  - f_equal. rewrite map_map. apply map_ext. intros d. apply unscientific_datum_idemp.
  - apply length_map.
  - intros i d Hd. exists (unscientific_datum d). rewrite list_lookup_fmap, Hd.
    split; [done|]. split.
    { unfold unscientific_datum. repeat case_match; try done; by destruct d. }
    unfold unscientific_datum. destruct (String.eqb_spec (Value_GetStringValue (Datum_GetValue d)) EmptyString)
      as [->|Hne]; [done|].
    destruct (scientificNotationFloatRegex_MatchString _) eqn:Hm; [|done].
    destruct (ParseFloat _ 32) as [f|] eqn:Hf; [|done].
    destruct (scientific_fixed5 _ _ _ Hm Hf) as (u & Hu & Hunits). exists u.
    rewrite GetStringValue_set_string by done. split; [by rewrite Hu|]. split; [done|].
    apply Sprintf_5f_not_scientific.
Qed.

(** 1e-3 stays as it is, and 1.0e-3 becomes 0.00100. *)
Lemma scientific_examples :
  unscientific_datum (Some (mkDatum 4 (Some (mkValue (Some (Value_StringValue "1e-3")))))) =
    Some (mkDatum 4 (Some (mkValue (Some (Value_StringValue "1e-3"))))) /\
  unscientific_datum (Some (mkDatum 4 (Some (mkValue (Some (Value_StringValue "1.0e-3")))))) =
    Some (mkDatum 4 (Some (mkValue (Some (Value_StringValue "0.00100"))))).
Proof. split; vm_compute; reflexivity. Qed.

(** C31: a location text of the vehicles' form is parsed to its two numbers,
    negated in the southern and western hemispheres, exactly when its quarters
    are one of N, S and one of E, W; otherwise the text is reported as
    invalid. *)
Theorem ParseLocation_text i1 f1 q1 i2 f2 q2 lat lon :
  is_numeral i1 f1 = true -> is_numeral i2 f2 = true ->
  token_byte q1 = true -> token_byte q2 = true ->
  ParseFloat (numeral i1 f1) 64 = Some lat -> ParseFloat (numeral i2 f2) 64 = Some lon ->
  ParseLocation (location_text i1 f1 q1 i2 f2 q2) =
  if existsb (Ascii.eqb q1) ["N"; "S"]%char && existsb (Ascii.eqb q2) ["E"; "W"]%char
  then inl (mkLocationValue (if Ascii.eqb q1 "S" then SFopp lat else lat)
                            (if Ascii.eqb q2 "W" then SFopp lon else lon))
  else inr (InvalidLocation ("invalid location format: " +:+ location_text i1 f1 q1 i2 f2 q2)).
Proof.
  intros H1 H2 Hq1 Hq2 Hlat Hlon. unfold ParseLocation.
  rewrite (location_numerals _ _ _ _ _ _ _ _ H1 H2 Hq1 Hq2 Hlat Hlon).
  generalize (location_text i1 f1 q1 i2 f2 q2). intros s. clear -Hq1 Hq2.
  assert (E1 : strings.Contains "NS" (String q1 EmptyString) = existsb (Ascii.eqb q1) ["N"; "S"]%char
    /\ String.eqb (String q1 EmptyString) "S" = Ascii.eqb q1 "S")
    by (clear Hq2; destruct q1 as [[] [] [] [] [] [] [] []]; try discriminate Hq1; by split).
  assert (E2 : strings.Contains "EW" (String q2 EmptyString) = existsb (Ascii.eqb q2) ["E"; "W"]%char
    /\ String.eqb (String q2 EmptyString) "W" = Ascii.eqb q2 "W")
    by (clear Hq1; destruct q2 as [[] [] [] [] [] [] [] []]; try discriminate Hq2; by split).
  destruct E1 as [-> ->], E2 as [-> ->]. by do 2 destruct (existsb _ _).
Qed.

Lemma ParseLocation_text_witness :
  exists lat lon, ParseFloat "37.5" 64 = Some lat /\ ParseFloat "122.25" 64 = Some lon /\
    ParseLocation "(37.5 S, 122.25 W)" = inl (mkLocationValue (SFopp lat) (SFopp lon)).
Proof.
  do 2 eexists. split; [vm_compute; reflexivity|]. split; [vm_compute; reflexivity|].
  exact (ParseLocation_text "37" "5" "S" "122" "25" "W" _ _ eq_refl eq_refl eq_refl eq_refl
    ltac:(vm_compute; reflexivity) ltac:(vm_compute; reflexivity)).
Defined.

(** The location transformation rewrites the first datum of the Location
    field, and only that one, when its string parses; every other datum, a
    second Location datum included, is unchanged. *)
Theorem transformLocation_first m before d after text loc :
  Payload_Data m = before ++ d :: after ->
  forallb (fun x => negb (Datum_GetKey x =? Field_Location)) before = true ->
  Datum_GetKey d = Field_Location ->
  Value_GetStringValue (Datum_GetValue d) = text -> text <> EmptyString ->
  ParseLocation text = inl loc ->
  transformLocation m =
  set_Payload_Data
    (before ++ set_Datum_Value (Value_LocationValue (Some loc)) d :: after) m.
Proof.
  intros Hdata Hbefore Hkey Htext Hne Hloc. unfold transformLocation. f_equal. rewrite Hdata.
  clear Hdata. induction before as [|x before IH]; simpl.
  - rewrite Hkey, Z.eqb_refl. f_equal. unfold locate_datum. rewrite Htext.
    apply String.eqb_neq in Hne. by rewrite Hne, Hloc.
  - simpl in Hbefore. apply andb_true_iff in Hbefore as [Hx Hbefore].
    apply negb_true_iff in Hx. rewrite Hx. f_equal. by apply IH.
Qed.

Lemma transformLocation_first_witness :
  exists loc, ParseLocation "(37.5 N, 122.25 W)" = inl loc /\
    transformLocation sample_payload =
    set_Payload_Data
      [Some (mkDatum 21 (Some (mkValue (Some (Value_LocationValue (Some loc))))));
       Some (mkDatum 4 (Some (mkValue (Some (Value_StringValue "1.5e1")))))] sample_payload.
Proof.
  eexists. split; [vm_compute; reflexivity|].
  exact (transformLocation_first sample_payload []
    (Some (mkDatum 21 (Some (mkValue (Some (Value_StringValue "(37.5 N, 122.25 W)"))))))
    [Some (mkDatum 4 (Some (mkValue (Some (Value_StringValue "1.5e1")))))]
    "(37.5 N, 122.25 W)" _ eq_refl eq_refl eq_refl eq_refl ltac:(discriminate)
    ltac:(vm_compute; reflexivity)).
Defined.

(** A timestamp that [CheckValid] accepts: between the years 1 and 9999, with
    the nanoseconds of a second. *)
Definition valid_timestamp (t : Timestamp) : Prop :=
  - 62135596800 <= Seconds t <= 253402300799 /\ 0 <= Nanos t < 10 ^ 9.

Lemma convertTimestamp_kept {PC : ProtoCodec} t :
  Seconds t < maxSecondsInDuration -> convertTimestamp (Some t) = Some t.
Proof. intros Ht. unfold convertTimestamp. by apply Z.ltb_lt in Ht as ->. Qed.

Lemma convertTimestamp_millis {PC : ProtoCodec} {PS : ProtoCodecSpec PC} t :
  maxSecondsInDuration <= Seconds t < 2 ^ 63 ->
  convertTimestamp (Some t) = Some (mkTimestamp (Seconds t / 1000) (Seconds t mod 1000 * 1000000)).
Proof.
  unfold maxSecondsInDuration. intros [Hs Hmax].
  pose proof (Z.mod_pos_bound (Seconds t) 1000 ltac:(lia)) as Hmod.
  assert (0 <= Seconds t / 1000 < 2 ^ 63)
    by (split; [apply Z.div_pos; lia|apply Z.div_lt_upper_bound; lia]).
  unfold convertTimestamp, UnixMilli, maxSecondsInDuration. apply Z.ltb_ge in Hs as ->.
  by rewrite timestamppb_New_spec by lia.
Qed.

(** C33: a timestamp whose seconds are below the limit is left alone.  One whose
    seconds reach it is taken as a number of milliseconds and becomes a
    timestamp of that instant, with the nanoseconds of a second.  The limit is
    that of a Duration, not of a Timestamp: the result is valid exactly up to
    the end of the year 9999, and a second conversion changes nothing exactly
    below a thousand times the limit. *)
Theorem convertTimestamp_valid {PC : ProtoCodec} {PS : ProtoCodecSpec PC} t :
  Seconds t < 2 ^ 63 ->
  exists t', convertTimestamp (Some t) = Some t' /\
    (Seconds t < maxSecondsInDuration -> t' = t) /\
    (maxSecondsInDuration <= Seconds t ->
     0 <= Nanos t' < 10 ^ 9 /\ 1000 * Seconds t' + Nanos t' / 10 ^ 6 = Seconds t /\
     Nanos t' mod 10 ^ 6 = 0 /\
     (valid_timestamp t' <-> Seconds t <= 253402300799999)) /\
    (convertTimestamp (Some t') = Some t' <-> Seconds t < 1000 * maxSecondsInDuration).
Proof.
  intros Ht. destruct (Z.lt_ge_cases (Seconds t) maxSecondsInDuration) as [Hs|Hs].
  - exists t. rewrite convertTimestamp_kept by done. unfold maxSecondsInDuration in *.
    repeat split; (done || lia).
  - pose proof (Z.mod_pos_bound (Seconds t) 1000 ltac:(lia)) as Hmod.
    pose proof (Z.div_mod (Seconds t) 1000 ltac:(lia)) as Hdiv.
    eexists. split; [by apply convertTimestamp_millis|]. split; [lia|]. split.
    + intros _. unfold valid_timestamp. cbn [Nanos Seconds]. unfold maxSecondsInDuration in Hs.
      change (10 ^ 6) with 1000000. rewrite Z.div_mul, Z.mod_mul by done. lia.
    + split.
      * intros Hid. destruct (Z.lt_ge_cases (Seconds t / 1000) maxSecondsInDuration) as [H|H]; [lia|].
        exfalso. rewrite convertTimestamp_millis in Hid by (cbn [Seconds]; lia).
        cbn [Seconds Nanos] in Hid. injection Hid as Hsec _.
        pose proof (Z.div_lt (Seconds t / 1000) 1000). unfold maxSecondsInDuration in H. lia.
      * intros Hlt. apply convertTimestamp_kept. cbn [Seconds]. lia.
Qed.

Lemma convertTimestamp_valid_witness :
  exists t', convertTimestamp (PC := ProtoRef) (Some (mkTimestamp 1700000000123 0)) = Some t' /\
    valid_timestamp t' /\ 1000 * Seconds t' + Nanos t' / 10 ^ 6 = 1700000000123.
Proof.
  destruct (convertTimestamp_valid (PC := ProtoRef) (mkTimestamp 1700000000123 0)
    ltac:(vm_compute; reflexivity)) as (t' & Hc & _ & Hge & _).
  destruct (Hge ltac:(vm_compute; discriminate)) as (_ & Hm & _ & Hv).
  exists t'. split; [exact Hc|]. split; [|exact Hm]. apply Hv. vm_compute. discriminate.
Defined.

(** Seconds between the end of the year 9999 and the limit are kept, although no
    timestamp is valid there. *)
Lemma convertTimestamp_keeps_invalid {PC : ProtoCodec} t :
  253402300799 < Seconds t < maxSecondsInDuration ->
  convertTimestamp (Some t) = Some t /\ ~ valid_timestamp t.
Proof. intros Ht. split; [apply convertTimestamp_kept; lia|]. unfold valid_timestamp. lia. Qed.

Lemma Dispatch_produced r bs l :
  Serializer r = Some bs -> bs_logger bs = Some l ->
  exists t, Dispatch r = Ret t /\
    produced t = (fun p => (p, r)) <$> default [] (DispatchRules bs !! TxType r).
Proof.
  intros Hs Hl. unfold Dispatch, Log, log_unless_suppressed. rewrite Hs, Hl. simpl.
  eexists. split; [done|]. rewrite produced_app, produced_log. apply produced_produce.
Qed.

(** Dispatching a record hands it once to each producer of its topic's
    rule, in the order of the rule, and to no other producer. *)
Theorem dispatch_follows_rules r bs l :
  Serializer r = Some bs -> bs_logger bs = Some l ->
  exists t, Dispatch r = Ret t /\
    produced t = (fun p => (p, r)) <$> default [] (DispatchRules bs !! TxType r).
Proof. apply Dispatch_produced. Qed.

Definition sample_rules_record : TRecord :=
  set_TxType "V" (new_TRecord
    (mkBinarySerializer (<["V" := ["kafka"; "kinesis"]]> {["alerts" := ["pubsub"]]})
      (Some sample_identity) (Some (mkLogger ∅ EmptyString))) None "socket" false).

Lemma dispatch_follows_rules_witness :
  exists t, Dispatch sample_rules_record = Ret t /\
    produced t = [("kafka"%string, sample_rules_record); ("kinesis"%string, sample_rules_record)].
Proof. exact (dispatch_follows_rules sample_rules_record _ _ eq_refl eq_refl). Defined.
