(* ===== verification/SimpleLogger.v ===== *)
(** * The simple logger producer (datastore/simple/)

    The producer that writes records to the log, and the transformers that turn
    a record's message into the map that is logged: one entry per datum, named
    by its field, with the value of its oneof in readable form.  The maps
    of the source are values of [any]; a slice that is nil because the message
    has no element is the empty list. *)

From S2P Require Import Prelude GoStd GoTime ProtoEnums Protos ProtoRef.
From S2P Require Import Logger Telemetry.
Local Open Scope Z_scope.

(** ** Payloads (transformers/payload.go) *)

Definition SemiModelLetter : string := "T".

(** [string(b)] of a byte: the UTF-8 encoding of the code point. *)
Definition string_of_byte (c : ascii) : string :=
  let n := nat_of_ascii c in
  if (n <? 128)%nat then String c EmptyString
  else String (ascii_of_nat (192 + n / 64)) (String (ascii_of_nat (128 + n mod 64)) EmptyString).

Definition getModelFromVIN (vin : string) : outcome string :=
  match String.get 3 vin with
  | Some c => Ret (string_of_byte c)
  | None => Panic "index out of range"
  end.

(** The values behind the pointer fields of the oneof: reading a field of a
    nil message panics. *)
Definition deref {A B} (x : option A) (f : A -> B) : outcome B :=
  match x with Some a => Ret (f a) | None => Panic "nil pointer dereference" end.

Definition location_map (v : option LocationValue) : outcome any :=
  deref v (fun l => AMap (list_to_map
    [("latitude", AFloat64 (Latitude l)); ("longitude", AFloat64 (Longitude l))]%string)).

Definition doors_map (v : option Doors) : outcome any :=
  deref v (fun d => AMap (list_to_map
    [("DriverFront", ABool (Doors_DriverFront d));
     ("PassengerFront", ABool (Doors_PassengerFront d));
     ("DriverRear", ABool (Doors_DriverRear d));
     ("PassengerRear", ABool (Doors_PassengerRear d));
     ("TrunkFront", ABool (Doors_TrunkFront d));
     ("TrunkRear", ABool (Doors_TrunkRear d))]%string)).

Definition time_text (v : option Time) : outcome any :=
  deref v (fun t => AString (Sprintf_02d (Hour t) +:+ ":" +:+ Sprintf_02d (Minute t) +:+ ":" +:+
                             Sprintf_02d (Second t))%string).

(** A semi names its axles. *)
Definition tires_map (vin : string) (v : option TireLocation) : outcome any :=
  model ← getModelFromVIN vin;
  if String.eqb model SemiModelLetter then
    deref v (fun t => AMap (list_to_map
      [("FrontLeft", ABool (FrontLeft t)); ("FrontRight", ABool (FrontRight t));
       ("SemiMiddleAxleLeft", ABool (RearLeft t));
       ("SemiMiddleAxleRight", ABool (RearRight t));
       ("SemiMiddleAxleLeft2", ABool (SemiMiddleAxleLeft_2 t));
       ("SemiMiddleAxleRight2", ABool (SemiMiddleAxleRight_2 t));
       ("SemiRearAxleLeft", ABool (SemiRearAxleLeft t));
       ("SemiRearAxleRight", ABool (SemiRearAxleRight t));
       ("SemiRearAxleLeft2", ABool (SemiRearAxleLeft_2 t));
       ("SemiRearAxleRight2", ABool (SemiRearAxleRight_2 t))]%string))
  else
    deref v (fun t => AMap (list_to_map
      [("FrontLeft", ABool (FrontLeft t)); ("FrontRight", ABool (FrontRight t));
       ("RearLeft", ABool (RearLeft t)); ("RearRight", ABool (RearRight t))]%string)).

(** [protos.Field_name[key]], empty for a number without a name. *)
Definition field_name (key : Z) : string := default EmptyString (lookup_name Field_name key).

Abbreviation any_map := (gmap string any).

Section Operations.
Context {PE : ProtoEnums} {PC : ProtoCodec}.

(** The output type and value of the kinds after the tire locations, the cases
    [FastChargerValue] to [MediaStatusValue] of [transformValue]: enumerations,
    all by their names. *)
Definition transform_enum (v : isValue_Value) : option (string * any) :=
  match v with
  | Value_FastChargerValue v => Some ("fastChargerType", (AString (FastCharger_String v)))
  | Value_CableTypeValue v => Some ("chargingCableType", (AString (CableType_String v)))
  | Value_TonneauTentModeValue v =>
      Some ("tonneauTentMode", (AString (TonneauTentModeState_String v)))
  | Value_TonneauPositionValue v =>
      Some ("tonneauPosition", (AString (TonneauPositionState_String v)))
  | Value_PowershareStateValue v =>
      Some ("powershareStatus", (AString (PowershareState_String v)))
  | Value_PowershareStopReasonValue v =>
      Some ("powershareStopReason", (AString (PowershareStopReasonStatus_String v)))
  | Value_PowershareTypeValue v =>
      Some ("powershareType", (AString (PowershareTypeStatus_String v)))
  | Value_DisplayStateValue v => Some ("displayState", (AString (DisplayState_String v)))
  | Value_PressureUnitValue v => Some ("pressureUnit", (AString (PressureUnit_String v)))
  | Value_TemperatureUnitValue v =>
      Some ("temperatureUnit", (AString (TemperatureUnit_String v)))
  | Value_ChargeUnitPreferenceValue v =>
      Some ("chargeUnit", (AString (ChargeUnitPreference_String v)))
  | Value_DistanceUnitValue v => Some ("distanceUnit", (AString (DistanceUnit_String v)))
  | Value_SunroofInstalledStateValue v =>
      Some ("sunroofInstalledState", (AString (SunroofInstalledState_String v)))
  | Value_TurnSignalStateValue v =>
      Some ("turnSignalState", (AString (TurnSignalState_String v)))
  | Value_MediaStatusValue v => Some ("mediaStatus", (AString (MediaStatus_String v)))
  | _ => None
  end.

(** What [transformValue] returns for an output type and value. *)
Definition typed (includeTypes : bool) (outputType : string) (outputValue : any) : outcome (option any) :=
  Ret (Some (if includeTypes then AMap {[outputType := outputValue]} else outputValue)).

(** [transformValue]: [None] for the second result [false]. *)
Definition transformValue (value : option isValue_Value) (includeTypes : bool) (vin : string)
  : outcome (option any) :=
  let typed := typed includeTypes in
  match value with
  | Some (Value_StringValue v) => typed "stringValue" (AString v)
  | Some (Value_LocationValue v) => value ← location_map v; typed "locationValue" value
  | Some (Value_FloatValue v) => typed "floatValue" (AFloat32 v)
  | Some (Value_IntValue v) => typed "intValue" (AInt v)
  | Some (Value_DoubleValue v) => typed "doubleValue" (AFloat64 v)
  | Some (Value_LongValue v) => typed "longValue" (AInt v)
  | Some (Value_BooleanValue v) => typed "booleanValue" (ABool v)
  | Some (Value_Invalid _) =>
      typed "invalid" (if includeTypes then ABool true else AString "<invalid>")
  | Some (Value_ShiftStateValue v) => typed "shiftStateValue" (AString (ShiftState_String v))
  | Some (Value_LaneAssistLevelValue v) =>
      typed "laneAssistLevel" (AString (LaneAssistLevel_String v))
  | Some (Value_ScheduledChargingModeValue v) =>
      typed "scheduledChargingMode" (AString (ScheduledChargingModeValue_String v))
  | Some (Value_SentryModeStateValue v) =>
      typed "sentryModeState" (AString (SentryModeState_String v))
  | Some (Value_SpeedAssistLevelValue v) =>
      typed "speedAssistLevel" (AString (SpeedAssistLevel_String v))
  | Some (Value_BmsStateValue v) => typed "bmsState" (AString (BMSStateValue_String v))
  | Some (Value_BuckleStatusValue v) => typed "buckleStatus" (AString (BuckleStatus_String v))
  | Some (Value_CarTypeValue v) => typed "carType" (AString (CarTypeValue_String v))
  | Some (Value_ChargePortValue v) => typed "chargePort" (AString (ChargePortValue_String v))
  | Some (Value_ChargePortLatchValue v) =>
      typed "chargePortLatch" (AString (ChargePortLatchValue_String v))
  | Some (Value_DoorValue v) => value ← doors_map v; typed "doorValue" value
  | Some (Value_DriveInverterStateValue v) =>
      typed "driveInverterState" (AString (DriveInverterState_String v))
  | Some (Value_HvilStatusValue v) => typed "hvilStatus" (AString (HvilStatus_String v))
  | Some (Value_WindowStateValue v) => typed "windowState" (AString (WindowState_String v))
  | Some (Value_SeatFoldPositionValue v) =>
      typed "seatFoldPosition" (AString (SeatFoldPosition_String v))
  | Some (Value_TractorAirStatusValue v) =>
      typed "tractorAirStatus" (AString (TractorAirStatus_String v))
  | Some (Value_FollowDistanceValue v) =>
      typed "followDistance" (AString (FollowDistance_String v))
  | Some (Value_ForwardCollisionSensitivityValue v) =>
      typed "forwardCollisionSensitivity" (AString (ForwardCollisionSensitivity_String v))
  | Some (Value_GuestModeMobileAccessValue v) =>
      typed "guestModeMobileAccess" (AString (GuestModeMobileAccess_String v))
  | Some (Value_TrailerAirStatusValue v) =>
      typed "trailerAirStatus" (AString (TrailerAirStatus_String v))
  | Some (Value_TimeValue v) => value ← time_text v; typed "time" value
  | Some (Value_DetailedChargeStateValue v) =>
      typed "detailedChargeState" (AString (DetailedChargeStateValue_String v))
  | Some (Value_HvacAutoModeValue v) =>
      typed "hvacAutoMode" (AString (HvacAutoModeState_String v))
  | Some (Value_CabinOverheatProtectionModeValue v) =>
      typed "cabinOverheatProtectionMode" (AString (CabinOverheatProtectionModeState_String v))
  | Some (Value_CabinOverheatProtectionTemperatureLimitValue v) =>
      typed "cabinOverheatProtectionTemperatureLimit" (AString (ClimateOverheatProtectionTempLimit_String v))
  | Some (Value_DefrostModeValue v) => typed "defrostMode" (AString (DefrostModeState_String v))
  | Some (Value_ClimateKeeperModeValue v) =>
      typed "climateKeeperMode" (AString (ClimateKeeperModeState_String v))
  | Some (Value_HvacPowerValue v) => typed "hvacPower" (AString (HvacPowerState_String v))
  | Some (Value_TireLocationValue v) => value ← tires_map vin v; typed "tireLocation" value
  | Some v =>
      match transform_enum v with
      | Some (outputType, outputValue) => typed outputType outputValue
      | None => Ret None
      end
  | None => Ret None
  end.

(** The loop over the data, which fills [convertedPayload]. *)
Fixpoint PayloadToMap_loop (payloadVin : string) (includeTypes : bool) (vin : string)
    (logger : option Logger) (data : list (option Datum)) (convertedPayload : any_map)
  : go trace any_map :=
  match data with
  | [] => mret convertedPayload
  | datum :: data =>
      match datum with
      | Some (mkDatum key (Some value)) =>
          let name := field_name key in
          value ← lift (transformValue (Value_Value value) includeTypes vin);
          match value with
          | Some value =>
              PayloadToMap_loop payloadVin includeTypes vin logger data
                (<[name := value]> convertedPayload)
          | None =>
              log_to_trace (fun new t => t ++ new)
                (ActivityLog logger "unknown_payload_value_data_type"
                  (list_to_map [("name", AString name); ("vin", AString payloadVin)]%string));;
              PayloadToMap_loop payloadVin includeTypes vin logger data convertedPayload
          end
      | _ =>
          log_to_trace (fun new t => t ++ new)
            (ActivityLog logger "unknown_payload_data_type" {["vin" := AString payloadVin]}%string);;
          PayloadToMap_loop payloadVin includeTypes vin logger data convertedPayload
      end
  end.

Definition PayloadToMap (payload : Payload) (includeTypes : bool) (vin : string)
    (logger : option Logger) : go trace any_map :=
  PayloadToMap_loop (Payload_Vin payload) includeTypes vin logger (Payload_Data payload)
    (list_to_map
      [("Vin", AString (Payload_Vin payload));
       ("CreatedAt", AString (time.Format_RFC3339 (Timestamp_AsTime (Payload_CreatedAt payload))));
       ("IsResend", ABool (Payload_IsResend payload))]%string).

(** ** Alerts, errors and connectivity events *)

(** The entry of an optional time, present when it is set. *)
Definition time_entry (name : string) (render : GoTime -> any) (x : option Timestamp) (m : any_map)
  : any_map :=
  match x with
  | Some _ => <[name := render (Timestamp_AsTime x)]> m
  | None => m
  end.

Definition unix_seconds (t : GoTime) : any := AInt (time.UnixSeconds t).

Definition audiences_value (audiences : list Z) : any :=
  match audiences with
  | [] => ANil
  | _ => AList ((fun a => AString (Audience_String a)) <$> audiences)
  end.

Definition VehicleAlertToMap (alert : VehicleAlert) : any_map :=
  <["Audiences" := audiences_value (Alert_Audiences alert)]>
    (time_entry "EndedAt" unix_seconds (Alert_EndedAt alert)
      (time_entry "StartedAt" unix_seconds (Alert_StartedAt alert)
        {["Name" := AString (Alert_Name alert)]}))%string.

Definition VehicleErrorToMap (e : VehicleError) : any_map :=
  time_entry "CreatedAt" unix_seconds (Error_CreatedAt e) (list_to_map
    [("Name", AString (Error_Name e)); ("Body", AString (Error_Body e));
     ("Tags", AMap (AString <$> Error_Tags e))]%string).

Definition VehicleConnectivityToMap (c : VehicleConnectivity) : any_map :=
  list_to_map
    [("Vin", AString (Connectivity_Vin c)); ("ConnectionID", AString (Connectivity_ConnectionId c));
     ("NetworkInterface", AString (Connectivity_NetworkInterface c));
     ("Status", AString (ConnectivityEvent_String (Connectivity_Status c)));
     ("CreatedAt", AInt (time.UnixSeconds (Timestamp_AsTime (Connectivity_CreatedAt c))))]%string.

(** ** The producer (logger.go) *)

(** [simple.Producer]: the [Verbose] field of its configuration, if that is
    not nil, and its logger. *)
Record ProtoLogger := mkProtoLogger { Verbose : option bool; pl_logger : option Logger }.

(** [NewProtoLogger] *)
Definition NewProtoLogger (config : option bool) (logger : option Logger) : ProtoLogger :=
  mkProtoLogger config logger.

Definition recordToLogMap (p : ProtoLogger) (record : TRecord) (vin : string)
  : go trace (result any) :=
  match protoMessage record with
  | Some (MPayload payload) =>
      match Verbose p with
      | None => nil_dereference
      | Some verbose => m ← PayloadToMap payload verbose vin (pl_logger p); mret (Ok (AMap m))
      end
  | Some (MVehicleAlerts payload) =>
      mret (Ok (AList ((fun a => AMap (VehicleAlertToMap a)) <$> Alerts_Alerts payload)))
  | Some (MVehicleErrors payload) =>
      mret (Ok (AList ((fun e => AMap (VehicleErrorToMap e)) <$> Errors_Errors payload)))
  | Some (MVehicleConnectivity payload) => mret (Ok (AMap (VehicleConnectivityToMap payload)))
  | None => mret (Err (ErrorString ("unknown txType: " +:+ TxType record)))
  end.

Definition ProtoLogger_Produce (p : ProtoLogger) (entry : TRecord) : go trace () :=
  data ← recordToLogMap p entry (Vin entry);
  let metadata := AMap (AString <$> Metadata entry) in
  log_to_trace (fun new t => t ++ new)
    match data with
    | Err err =>
        ErrorLog (pl_logger p) "record_logging_error" (Some err)
          (list_to_map [("vin", AString (Vin entry)); ("txtype", AString (TxType entry));
                        ("metadata", metadata)]%string)
    | Ok data =>
        ActivityLog (pl_logger p) "record_payload"
          (list_to_map [("vin", AString (Vin entry)); ("metadata", metadata); ("data", data)]%string)
    end.

(** The methods of a logger that is no datastore. *)
Definition ProtoLogger_Close (p : ProtoLogger) : option GoError := None.
Definition ProtoLogger_ProcessReliableAck (p : ProtoLogger) (record : TRecord) : trace := [].
Definition ProtoLogger_ReportError (p : ProtoLogger) (message : string) (err : option GoError)
    (logInfo : LogInfo) : trace := [].
End Operations.

(** ** Lemmas *)

Section Lemmas.
Context {PE : ProtoEnums} {PC : ProtoCodec}.

Lemma getModelFromVIN_long vin :
  (4 <= String.length vin)%nat -> exists model, getModelFromVIN vin = Ret model.
Proof.
  unfold getModelFromVIN. intros H.
  destruct (String.get 3 vin) eqn:E; [eauto|].
  destruct vin as [|a [|b [|c [|d vin]]]]; simpl in *; lia || done.
Qed.

(** The kinds of values with a readable form. *)
Definition readable_kind (w : isValue_Value) : bool :=
  match w with Value_ChargingValue _ => false | _ => true end.

(** The kinds whose form needs the model of the vehicle. *)
Definition needs_model (w : isValue_Value) : bool :=
  match w with Value_TireLocationValue _ => true | _ => false end.

Lemma transformValue_set w types vin :
  wrapper_set w = true -> (needs_model w = true -> (4 <= String.length vin)%nat) ->
  exists value, transformValue (Some w) types vin = Ret value /\
    (is_Some value <-> readable_kind w = true).
Proof.
  intros Hw Hvin. destruct w; simpl in *;
    repeat match goal with x : option _ |- _ => destruct x; [|done] end.
  all: try (eexists; split; [reflexivity|split; [by intros []|by (done || eexists)]]).
  unfold tires_map. destruct (getModelFromVIN_long vin (Hvin eq_refl)) as [model ->]. simpl.
  destruct (String.eqb _ _);
    (eexists; split; [reflexivity|split; [by intros []|by eexists]]).
Qed.

(** A datum the logger can render: no nil message below it, and a model when
    its value needs one. *)
Definition renderable (vin : string) (d : option Datum) : Prop :=
  forall key v w, d = Some (mkDatum key (Some v)) -> Value_Value v = Some w ->
    wrapper_set w = true /\ (needs_model w = true -> (4 <= String.length vin)%nat).

(** The specification: the number of the field and the readable form of a
    datum that has one. *)
Definition reading (types : bool) (vin : string) (d : option Datum) : option (Z * any) :=
  match d with
  | Some (mkDatum key (Some v)) =>
      match transformValue (Value_Value v) types vin with
      | Ret (Some x) => Some (key, x)
      | _ => None
      end
  | _ => None
  end.

Definition readings (types : bool) (vin : string) (data : list (option Datum)) : list (Z * any) :=
  omap (reading types vin) data.

Definition store (m : any_map) (e : Z * any) : any_map := <[field_name e.1 := e.2]> m.

Lemma readings_cons types vin d data :
  readings types vin (d :: data) =
  match reading types vin d with
  | Some y => y :: readings types vin data
  | None => readings types vin data
  end.
Proof. reflexivity. Qed.

Lemma transformValue_renderable vin types key v :
  renderable vin (Some (mkDatum key (Some v))) ->
  exists value, transformValue (Value_Value v) types vin = Ret value.
Proof.
  intros Hr. destruct (Value_Value v) as [w|] eqn:Hw; [|by eexists].
  destruct (Hr key v w eq_refl Hw) as [Hs Hn].
  destruct (transformValue_set w types vin Hs Hn) as (value & -> & _). eauto.
Qed.

Lemma ActivityLog_some l message info :
  exists lines, ActivityLog (Some l) message info = Ret lines /\
    (suppressionFilter l = EmptyString -> length lines = 1%nat).
Proof.
  unfold ActivityLog, log_unless_suppressed. eexists. split; [done|].
  unfold shouldSuppress. by intros ->.
Qed.

Lemma log_line l message info t :
  exists lines,
    log_to_trace (fun new t => t ++ new) (ActivityLog (Some l) message info) t =
      (Ret (), t ++ (ELog <$> lines)) /\
    (suppressionFilter l = EmptyString -> length lines = 1%nat).
Proof.
  destruct (ActivityLog_some l message info) as (lines & E & Hn).
  exists lines. unfold log_to_trace. by rewrite E.
Qed.

(** A datum that is only logged. *)
Ltac logged_datum IH m l message info t :=
  let l1 := fresh "l1" in let E1 := fresh "E1" in let Hn1 := fresh "Hn1" in
  destruct (log_line l message info t) as (l1 & E1 & Hn1);
  let lines := fresh "lines" in let E := fresh "E" in let Hn := fresh "Hn" in
  destruct (IH m (t ++ (ELog <$> l1))) as (lines & E & Hn);
  exists (l1 ++ lines); unfold mbind, go_bind; rewrite E1, E, fmap_app, app_assoc;
  split; [done|];
  let Hs := fresh in intros Hs; specialize (Hn Hs); specialize (Hn1 Hs);
  rewrite length_app; simpl; lia.

(** The loop stores the readings in order and logs a line for each datum that
    has none. *)
Lemma PayloadToMap_loop_app pvin types vin l data rest m t :
  Forall (renderable vin) data ->
  exists lines,
    PayloadToMap_loop pvin types vin (Some l) (data ++ rest) m t =
      PayloadToMap_loop pvin types vin (Some l) rest (foldl store m (readings types vin data))
        (t ++ (ELog <$> lines)) /\
    (suppressionFilter l = EmptyString ->
      length lines + length (readings types vin data) = length data)%nat.
Proof.
  intros Hall. revert m t. induction Hall as [|d data Hd _ IH]; intros m t.
  { exists []. simpl. rewrite app_nil_r. by split. }
  rewrite readings_cons. cbn [app PayloadToMap_loop].
  destruct d as [[key [v|]]|]; cbn [reading].
  - destruct (transformValue_renderable vin types key v Hd) as [value Hv].
    unfold mbind at 1, go_bind at 1, lift. rewrite Hv. destruct value as [x|]; cbn [foldl length].
    + destruct (IH (<[field_name key := x]> m) t) as (lines & E & Hn).
      exists lines. split; [exact E|]. intros Hs. specialize (Hn Hs). simpl. lia.
    + logged_datum IH m l "unknown_payload_value_data_type"%string
        (list_to_map (M := LogInfo) [("name", AString (field_name key)); ("vin", AString pvin)]%string) t.
  - logged_datum IH m l "unknown_payload_data_type"%string
      ({["vin" := AString pvin]}%string : LogInfo) t.
  - logged_datum IH m l "unknown_payload_data_type"%string
      ({["vin" := AString pvin]}%string : LogInfo) t.
Qed.

(** The last reading of a field. *)
Definition last_reading (key : Z) (l : list (Z * any)) : option any :=
  last (omap (fun e : Z * any => if e.1 =? key then Some e.2 else None) l).

Lemma Field_name_entries n n' s :
  (n, s) ∈ Field_name -> (n', s) ∈ Field_name -> n = n'.
Proof.
  intros H H'. assert (Hd : NoDup (snd <$> Field_name)).
  { apply (bool_decide_unpack _). vm_compute. exact I. }
  apply list_elem_of_lookup in H as [i Hi], H' as [j Hj].
  assert (Ei : (snd <$> Field_name) !! i = Some s) by (by rewrite list_lookup_fmap, Hi).
  assert (Ej : (snd <$> Field_name) !! j = Some s) by (by rewrite list_lookup_fmap, Hj).
  assert (i = j) by (by eapply NoDup_lookup). subst j. congruence.
Qed.

(** Field names are not empty and not those of the three other entries. *)
Lemma Field_name_not_reserved n s :
  (n, s) ∈ Field_name -> s ∉ ["Vin"; "CreatedAt"; "IsResend"; ""]%string.
Proof.
  intros H. assert (Hall : forallb (fun e =>
    negb (existsb (String.eqb e.2) ["Vin"; "CreatedAt"; "IsResend"; ""]%string)) Field_name = true)
    by (vm_compute; reflexivity).
  rewrite forallb_forall in Hall. apply list_elem_of_In, Hall in H. simpl in H.
  rewrite negb_true_iff, !orb_false_iff, !String.eqb_neq in H.
  rewrite !elem_of_cons, elem_of_nil. naive_solver.
Qed.

Lemma field_name_same key name key' :
  lookup_name Field_name key = Some name -> field_name key' = name <-> key' = key.
Proof.
  intros Hk. pose proof (lookup_name_elem _ _ _ Hk) as He. split.
  - unfold field_name. destruct (lookup_name Field_name key') as [n|] eqn:E; simpl.
    + intros ->. by eapply Field_name_entries; [apply lookup_name_elem|].
    + intros <-. apply Field_name_not_reserved in He. set_solver.
  - intros ->. unfold field_name. by rewrite Hk.
Qed.

Lemma foldl_store_field key name m l :
  lookup_name Field_name key = Some name ->
  foldl store m l !! name = match last_reading key l with Some x => Some x | None => m !! name end.
Proof.
  intros Hk. induction l as [|[k x] l IH] using rev_ind; [done|].
  unfold last_reading in *. rewrite foldl_app, omap_app. simpl.
  unfold store at 1. simpl. destruct (Z.eqb_spec k key) as [->|Hne].
  - rewrite last_snoc. rewrite (proj2 (field_name_same key name key Hk)) by done.
    apply lookup_insert_eq.
  - rewrite app_nil_r, lookup_insert_ne; [exact IH|].
    intros E. by apply (field_name_same key name k Hk) in E.
Qed.

Lemma foldl_store_reserved s m l :
  s ∈ ["Vin"; "CreatedAt"; "IsResend"]%string -> foldl store m l !! s = m !! s.
Proof.
  intros Hs. induction l as [|[k x] l IH] using rev_ind; [done|].
  rewrite foldl_app. simpl. unfold store at 1. simpl.
  rewrite lookup_insert_ne; [exact IH|]. intros E. unfold field_name in E.
  destruct (lookup_name Field_name k) as [n|] eqn:Hn; simpl in E; subst.
  - apply lookup_name_elem, Field_name_not_reserved in Hn. set_solver.
  - set_solver.
Qed.
End Lemmas.

(** ** Properties *)

(** The kind of a value, and the name the verbose form gives each kind. *)
Definition kind_index (w : isValue_Value) : Z := (wrapper_wire w).1.

Definition kind_names : list (Z * string) :=
  [(0, "stringValue"); (1, "intValue"); (2, "longValue"); (3, "floatValue"); (4, "doubleValue");
   (5, "booleanValue"); (6, "locationValue"); (8, "shiftStateValue"); (9, "invalid");
   (10, "laneAssistLevel"); (11, "scheduledChargingMode"); (12, "sentryModeState");
   (13, "speedAssistLevel"); (14, "bmsState"); (15, "buckleStatus"); (16, "carType");
   (17, "chargePort"); (18, "chargePortLatch"); (19, "doorValue"); (20, "driveInverterState");
   (21, "hvilStatus"); (22, "windowState"); (23, "seatFoldPosition"); (24, "tractorAirStatus");
   (25, "followDistance"); (26, "forwardCollisionSensitivity"); (27, "guestModeMobileAccess");
   (28, "trailerAirStatus"); (29, "time"); (30, "detailedChargeState"); (31, "hvacAutoMode");
   (32, "cabinOverheatProtectionMode"); (33, "cabinOverheatProtectionTemperatureLimit");
   (34, "defrostMode"); (35, "climateKeeperMode"); (36, "hvacPower"); (37, "tireLocation");
   (38, "fastChargerType"); (39, "chargingCableType"); (40, "tonneauTentMode");
   (41, "tonneauPosition"); (42, "powershareType"); (43, "powershareStatus");
   (44, "powershareStopReason"); (45, "displayState"); (46, "distanceUnit");
   (47, "temperatureUnit"); (48, "pressureUnit"); (49, "chargeUnit"); (50, "turnSignalState");
   (51, "mediaStatus"); (52, "sunroofInstalledState")]%string.

Lemma kind_names_inverse n n' s :
  lookup_name kind_names n = Some s -> lookup_name kind_names n' = Some s -> n = n'.
Proof.
  intros Hn%lookup_name_elem Hn'%lookup_name_elem.
  assert (Hall : forallb (fun e => forallb (fun e' =>
    implb (String.eqb e.2 e'.2) (e.1 =? e'.1)) kind_names) kind_names = true)
    by (vm_compute; reflexivity).
  rewrite forallb_forall in Hall. apply list_elem_of_In, Hall in Hn.
  rewrite forallb_forall in Hn. apply list_elem_of_In, Hn in Hn'. simpl in Hn'.
  rewrite String.eqb_refl in Hn'. by apply Z.eqb_eq.
Qed.

Section Properties.
Context {PE : ProtoEnums} {PC : ProtoCodec}.

(** In the verbose form a value is the only entry of a map, under a name
    that no other kind of value has; the entry is the value of the plain form,
    except for an invalid value, which is written [true] instead of its text. *)
Theorem verbose_value_typed w vin :
  wrapper_set w = true -> readable_kind w = true ->
  (needs_model w = true -> (4 <= String.length vin)%nat) ->
  exists name plain,
    transformValue (Some w) false vin = Ret (Some plain) /\
    transformValue (Some w) true vin =
      Ret (Some (AMap {[name := match w with Value_Invalid _ => ABool true | _ => plain end]})) /\
    lookup_name kind_names (kind_index w) = Some name /\
    forall w', lookup_name kind_names (kind_index w') = Some name -> kind_index w' = kind_index w.
Proof.
  intros Hw Hk Hvin.
  assert (H : exists name plain,
    transformValue (Some w) false vin = Ret (Some plain) /\
    transformValue (Some w) true vin =
      Ret (Some (AMap {[name := match w with Value_Invalid _ => ABool true | _ => plain end]})) /\
    lookup_name kind_names (kind_index w) = Some name).
  { destruct w; simpl in *;
      repeat match goal with x : option _ |- _ => destruct x; [|done] end; try done;
      try (do 2 eexists; split; [reflexivity|split; reflexivity]).
    unfold tires_map. destruct (getModelFromVIN_long vin (Hvin eq_refl)) as [model ->]. simpl.
    destruct (String.eqb _ _); (do 2 eexists; split; [reflexivity|split; reflexivity]). }
  destruct H as (name & plain & Hf & Ht & Hn). exists name, plain. split_and!; try done.
  intros w' Hw'. by eapply kind_names_inverse.
Qed.
Lemma PayloadToMap_spec (PS : ProtoCodecSpec PC) payload types vin l t :
  Forall (renderable vin) (Payload_Data payload) ->
  exists m lines,
    PayloadToMap payload types vin (Some l) t = (Ret m, t ++ (ELog <$> lines)) /\
    (suppressionFilter l = EmptyString -> length lines +
      length (readings types vin (Payload_Data payload)) = length (Payload_Data payload))%nat /\
    (forall key name, lookup_name Field_name key = Some name ->
      m !! name = last_reading key (readings types vin (Payload_Data payload))) /\
    m !! "Vin"%string = Some (AString (Payload_Vin payload)) /\
    m !! "IsResend"%string = Some (ABool (Payload_IsResend payload)) /\
    m !! "CreatedAt"%string = Some (AString (time.Format_RFC3339
      (time.Unix (Timestamp_parts (Payload_CreatedAt payload)).1
                 (Timestamp_parts (Payload_CreatedAt payload)).2))).
Proof.
  intros Hall. unfold PayloadToMap.
  set (m0 := list_to_map _).
  destruct (PayloadToMap_loop_app (Payload_Vin payload) types vin l (Payload_Data payload) [] m0 t Hall)
    as (lines & E & Hn). rewrite app_nil_r in E.
  eexists _, lines. split; [exact E|]. split; [exact Hn|]. split.
  - intros key name Hk. rewrite (foldl_store_field key) by done.
    assert (Hr : m0 !! name = None).
    { apply lookup_name_elem, Field_name_not_reserved in Hk.
      rewrite !elem_of_cons in Hk. apply not_elem_of_list_to_map_1. set_solver. }
    rewrite Hr. by destruct (last_reading _ _).
  - rewrite <- Timestamp_AsTime_spec. split_and!; rewrite foldl_store_reserved by set_solver; done.
Qed.

(** The line of a record whose data is [m]. *)
Definition record_line (l : Logger) (entry : TRecord) (data : any) : LogEntry :=
  mkLogEntry INFO "record_payload" None
    (<["activity" := ABool true]> (getEntry l (list_to_map
      [("vin", AString (Vin entry)); ("metadata", AMap (AString <$> Metadata entry));
       ("data", data)])))%string.

(** C38: a record with a vehicle payload is written as one line that holds its
    VIN, its metadata and a map in which every declared field has its last
    value in readable form, and no other value, next to the VIN, the resend
    flag and the time of the payload; each datum without a readable form is
    reported by a line of its own before. *)
Theorem produce_logs_payload (PS : ProtoCodecSpec PC) l verbose entry payload :
  suppressionFilter l = EmptyString ->
  protoMessage entry = Some (MPayload payload) ->
  Forall (renderable (Vin entry)) (Payload_Data payload) ->
  let data := readings verbose (Vin entry) (Payload_Data payload) in
  exists m complaints,
    ProtoLogger_Produce (NewProtoLogger (Some verbose) (Some l)) entry [] =
      (Ret (), (ELog <$> complaints) ++ [ELog (record_line l entry (AMap m))]) /\
    (length complaints + length data = length (Payload_Data payload))%nat /\
    (forall key name, lookup_name Field_name key = Some name ->
      m !! name = last_reading key data) /\
    m !! "Vin"%string = Some (AString (Payload_Vin payload)) /\
    m !! "IsResend"%string = Some (ABool (Payload_IsResend payload)) /\
    m !! "CreatedAt"%string = Some (AString (time.Format_RFC3339
      (time.Unix (Timestamp_parts (Payload_CreatedAt payload)).1
                 (Timestamp_parts (Payload_CreatedAt payload)).2))).
Proof.
  intros Hs Hm Hall data.
  destruct (PayloadToMap_spec PS payload verbose (Vin entry) l [] Hall) as (m & lines & E & Hn & Hr).
  exists m, lines. split; [|by auto].
  unfold ProtoLogger_Produce, recordToLogMap, NewProtoLogger, mbind, go_bind. rewrite Hm. simpl.
  rewrite E. unfold log_to_trace, ActivityLog, log_unless_suppressed, shouldSuppress. by rewrite Hs.
Qed.

(** A tire location in a record whose VIN has fewer than four bytes makes
    the logger panic, whatever follows it, and the record is not logged. *)
Theorem short_vin_panics l verbose entry payload data1 key tires data2 :
  protoMessage entry = Some (MPayload payload) ->
  Payload_Data payload =
    data1 ++ Some (mkDatum key (Some (mkValue (Some (Value_TireLocationValue tires))))) :: data2 ->
  Forall (renderable (Vin entry)) data1 ->
  (String.length (Vin entry) < 4)%nat ->
  exists complaints,
    ProtoLogger_Produce (NewProtoLogger (Some verbose) (Some l)) entry [] =
      (Panic "index out of range", ELog <$> complaints).
Proof.
  intros Hm Hd Hall Hv.
  assert (Hg : getModelFromVIN (Vin entry) = Panic "index out of range").
  { unfold getModelFromVIN. destruct (Vin entry) as [|a [|b [|c [|d vin]]]]; simpl in *; lia || done. }
  unfold ProtoLogger_Produce, recordToLogMap, NewProtoLogger, mbind, go_bind. rewrite Hm. simpl.
  unfold PayloadToMap. rewrite Hd. set (m0 := list_to_map _).
  destruct (PayloadToMap_loop_app (Payload_Vin payload) verbose (Vin entry) l data1
    (Some (mkDatum key (Some (mkValue (Some (Value_TireLocationValue tires))))) :: data2) m0 [] Hall)
    as (lines & -> & _). exists lines.
  cbn [PayloadToMap_loop]. unfold mbind, go_bind, lift. cbn [transformValue Value_Value].
  unfold tires_map. by rewrite Hg.
Qed.
End Properties.

Lemma verbose_value_typed_witness :
  exists name plain,
    transformValue (Some (Value_ShiftStateValue 2)) false "5YJ3E1EA" = Ret (Some plain) /\
    transformValue (Some (Value_ShiftStateValue 2)) true "5YJ3E1EA" =
      Ret (Some (AMap {[name := plain]})) /\
    lookup_name kind_names (kind_index (Value_ShiftStateValue 2)) = Some name /\
    forall w', lookup_name kind_names (kind_index w') = Some name ->
      kind_index w' = kind_index (Value_ShiftStateValue 2).
Proof. by apply (verbose_value_typed (Value_ShiftStateValue 2) "5YJ3E1EA"). Defined.

(** A payload with two speeds, a gear, an unset value and a retired kind. *)
Definition logged_payload : Payload :=
  mkPayload
    [Some (mkDatum 4 (Some (mkValue (Some (Value_StringValue "63")))));
     Some (mkDatum 10 (Some (mkValue (Some (Value_ShiftStateValue 2)))));
     Some (mkDatum 5 None);
     Some (mkDatum 2 (Some (mkValue (Some (Value_ChargingValue 1)))));
     Some (mkDatum 4 (Some (mkValue (Some (Value_StringValue "65")))))]
    (Some (mkTimestamp 1709210096 0)) "5YJ3E1EA" false.

Definition logged_record (vin : string) (payload : Payload) : TRecord :=
  set_protoMessage (Some (MPayload payload)) (set_identity vin "1.0" [] 0
    (new_TRecord (NewBinarySerializer None ∅ None) None "socket" false)).

Lemma produce_logs_payload_witness :
  let data := readings false "5YJ3E1EA" (Payload_Data logged_payload) in
  exists m complaints,
    ProtoLogger_Produce (NewProtoLogger (Some false) (Some (mkLogger ∅ "")))
        (logged_record "5YJ3E1EA" logged_payload) [] =
      (Ret (), (ELog <$> complaints) ++
        [ELog (record_line (mkLogger ∅ "") (logged_record "5YJ3E1EA" logged_payload) (AMap m))]) /\
    length complaints = 2%nat /\
    m !! "VehicleSpeed"%string = Some (AString "65") /\
    m !! "Gear"%string = Some (AString "ShiftStateP") /\
    m !! "ChargeState"%string = None /\
    m !! "CreatedAt"%string = Some (AString "2024-02-29T12:34:56Z").
Proof.
  intros data.
  destruct (produce_logs_payload ProtoRefSpec (mkLogger ∅ "") false
    (logged_record "5YJ3E1EA" logged_payload) logged_payload eq_refl eq_refl)
    as (m & complaints & E & Hn & Hr & _ & _ & Hc).
  { unfold logged_payload. cbn [Payload_Data]. rewrite !Forall_cons, Forall_nil.
    split_and!; try exact I; intros key v w ??; simplify_eq/=; done. }
  exists m, complaints. split; [exact E|]. split_and!.
  - change (length (readings false _ _)) with 3%nat in Hn. simpl in Hn. lia.
  - by rewrite (Hr 4 "VehicleSpeed"%string eq_refl).
  - by rewrite (Hr 10 "Gear"%string eq_refl).
  - by rewrite (Hr 2 "ChargeState"%string eq_refl).
  - by rewrite Hc.
Defined.

Lemma short_vin_panics_witness :
  exists complaints,
    ProtoLogger_Produce (NewProtoLogger (Some true) (Some (mkLogger ∅ "")))
      (logged_record "car" (mkPayload
        [Some (mkDatum 4 (Some (mkValue (Some (Value_StringValue "63")))));
         Some (mkDatum 6 (Some (mkValue (Some (Value_TireLocationValue None)))))] None "car" false)) [] =
    (Panic "index out of range", ELog <$> complaints).
Proof.
  eapply (short_vin_panics _ _ _ _
    [Some (mkDatum 4 (Some (mkValue (Some (Value_StringValue "63")))))] 6 None []);
    [reflexivity|reflexivity| |simpl; lia].
  rewrite Forall_cons, Forall_nil. split; [|exact I]. intros key v w ??. simplify_eq/=. done.
Defined.
