(* ===== verification/Datastores.v ===== *)
(** * The datastore producers (datastore/kafka, kinesis, googlepubsub, redis, zmq)

    Each producer sends a record to its datastore through a client library and,
    once the datastore has taken it, hands the record to the acknowledgement
    channel of the server when it is the reliable-acknowledgement source of the
    record's type.  The client libraries are not part of src/: a producer holds
    its client as functions from the requests made so far and the next request
    to the answer of the library, so the theorems hold for every behaviour of a
    client.  What all producers promise the server is the interface
    [AckingProducer]. *)

From S2P Require Import Prelude GoStd Logger Airbrake Telemetry.
From Stdlib Require Import DecimalString DecimalZ DecimalPos.
Local Open Scope Z_scope.

(** ** What a producer does *)

(** A request to a client library. *)
Inductive Request :=
| KafkaProduce (topic : string) (value key : bytes) (headers : list (string * bytes))
    (timestamp : Z)
| KinesisPutRecord (data : bytes) (streamName partitionKey : string)
| PubsubPublish (topic : string) (data : bytes) (attributes : gmap string string)
| PubsubExists (topic : string)
| PubsubCreateTopic (topic : string)
| RedisPublish (channel : string) (payload : bytes)
| RedisZRemRangeByScore (key min max : string)
| RedisZRange (key : string) (start stop : Z)
| ZmqSendMessage (topic : string) (payload : bytes)
| MqttPublish (topic : string) (qos : Z) (retained : bool) (payload : bytes).

(** The effects of a producer in order: requests to its client, log lines and
    metrics, notices to Airbrake, records sent on the acknowledgement channel. *)
Inductive Effect :=
| Sent (q : Request)
| Did (e : Event)
| Gauge (metric : string) (n : Z) (labels : gmap string string)
| Notice (n : Airbrake.notice)
| Acked (r : TRecord).

Abbreviation history := (list Effect).

(** The requests of a history, in order. *)
Fixpoint requests (h : history) : list Request :=
  match h with
  | [] => []
  | Sent q :: h => q :: requests h
  | _ :: h => requests h
  end.

(** The records acknowledged in a history, in order. *)
Fixpoint acked (h : history) : list TRecord :=
  match h with
  | [] => []
  | Acked r :: h => r :: acked h
  | _ :: h => acked h
  end.

(** A producer works on a record behind a pointer, and emits effects. *)
Abbreviation pstate := (TRecord * history)%type.

Definition emit (t : history) : go pstate () := modify (fun '(r, h) => (r, h ++ t)).
Definition update_entry (f : TRecord -> TRecord) : go pstate () := modify (fun '(r, h) => (f r, h)).
Definition the_entry : go pstate TRecord := fun s => (Ret s.1, s).
Definition log_effects (o : outcome (list LogEntry)) : go pstate () :=
  lines ← lift o; emit (Did ∘ ELog <$> lines).

(** A request, answered by the client from the requests made before it. *)
Definition call {A} (client : list Request -> Request -> A) (q : Request) : go pstate A := fun s =>
  (Ret (client (requests s.2) q), (s.1, s.2 ++ [Sent q])).

Definition Inc (counter : string) (labels : list (string * string)) : Effect :=
  Did (EInc counter (list_to_map labels)).
Definition Add (counter : string) (n : Z) (labels : list (string * string)) : Effect :=
  Did (EAdd counter n (list_to_map labels)).

(** [entry.ProduceTime = now] *)
Definition set_ProduceTime (v : Z) (r : TRecord) : TRecord :=
  mkTRecord (Some v) (ReceivedTimestamp r) (Serializer r) (SocketID r) (Timestamp_ r)
    (Txid r) (TxType r) (TripID r) (DeviceClientVersion r) (Version r) (Vin r) (PayloadBytes r)
    (RawBytes r) (transmitDecodedRecords r) (protoMessage r).

(** ** What the producers share *)

(** The fields every producer has. *)
Record Sink := mkSink {
  namespace : string;
  logger : option Logger;
  airbrakeHandler : Airbrake.Handler;
  reliableAckTxTypes : gset string
}.

(** [ReportError], the same in every producer. *)
Definition ReportError (s : Sink) (message : string) (err : option GoError) (logInfo : LogInfo)
  : go pstate () :=
  emit (Notice <$> Airbrake.ReportLogMessage (airbrakeHandler s) ERROR message err logInfo);;
  log_effects (ErrorLog (logger s) message err logInfo).

(** [ProcessReliableAck], the same in every producer but for the registered
    name of the counter. *)
Definition ProcessReliableAck (s : Sink) (counter : string) (entry : TRecord) : go pstate () :=
  if bool_decide (TxType entry ∈ reliableAckTxTypes s)
  then emit [Acked entry; Inc counter [("record_type", TxType entry)]%string]
  else skip.

Definition record_type (entry : TRecord) : list (string * string) :=
  [("record_type", TxType entry)]%string.

(** What a constructor answers: the producer or an error, and the lines it
    logs. *)
Abbreviation constructed P := (outcome (result P * list LogEntry)).

(** ** Kafka (kafka.go) *)

Module Kafka.

(** The metrics of the package, by the names they are registered with. *)
Record Metrics := mkMetrics {
  producerCount : string;
  bytesTotal : string;
  producerAckCount : string;
  bytesAckTotal : string;
  errorCount : string;
  reliableAckCount : string;
  producerQueueSize : string
}.

Definition metricsRegistry : Metrics := {|
  producerCount := "kafka_produce_total";
  bytesTotal := "kafka_produce_total_bytes";
  producerAckCount := "kafka_produce_ack_total";
  bytesAckTotal := "kafka_produce_ack_total_bytes";
  errorCount := "kafka_err";
  reliableAckCount := "kafka_reliable_ack_total";
  producerQueueSize := "kafka_produce_queue_size"
|}%string.

(** What the client sends on the delivery channel; the texts are those of [%v]
    and [String], which belong to the client. *)
Inductive Event :=
| Error (text : string)
| Message (error : option GoError) (opaque : option TRecord) (text : string)
| Other (text : string).

(** The client: whether a message is taken, and what the delivery of a taken
    message ended with. *)
Record Producer := mkProducer {
  sink : Sink;
  produce : list Request -> Request -> option GoError;
  delivered : list Request -> Request -> option GoError;
  message_text : Request -> string
}.

(** [NewProducer]: [client] is the answer of [kafka.NewProducer], as the
    functions of the producer. *)
Definition NewProducer (client : result (Sink -> Producer)) (s : Sink) : constructed Producer :=
  match client with
  | Err err => Ret (Err err, [])
  | Ok client =>
      lines ← ActivityLog (logger s) "kafka_registered" {["namespace" := AString (namespace s)]}%string;
      Ret (Ok (client s), lines)
  end.

(** [Close] does not fail. *)
Definition Close (p : Producer) : option GoError := None.

Definition ReportError (p : Producer) (message : string) (err : option GoError) (logInfo : LogInfo)
  : go pstate () := ReportError (sink p) message err logInfo.

Definition logError (p : Producer) (err : GoError) : go pstate () :=
  ReportError p "kafka_err" (Some err) ∅;;
  emit [Inc (errorCount metricsRegistry) []].

(** [headersFromRecord]: [metadata] are the entries of the record's metadata in
    the order the map iteration gives them. *)
Definition headersFromRecord (metadata : list (string * string)) : list (string * bytes) :=
  (fun '(key, val) => (key, raw val)) <$> metadata.

(** The message of a record. *)
Definition message (p : Producer) (metadata : list (string * string)) (now : Z) (entry : TRecord)
  : Request :=
  KafkaProduce (BuildTopicName (namespace (sink p)) (TxType entry)) (PayloadBytes entry)
    (raw (Vin entry)) (headersFromRecord metadata) now.

(** [Produce]; [now1] and [now2] are the two readings of the clock. *)
Definition Produce (p : Producer) (metadata : list (string * string)) (now1 now2 : Z)
  : go pstate () :=
  entry ← the_entry;
  let msg := message p metadata now1 entry in
  update_entry (set_ProduceTime now2);;
  err ← call (produce p) msg;
  match err with
  | Some err => logError p err
  | None =>
      emit [Inc (producerCount metricsRegistry) (record_type entry);
            Add (bytesTotal metricsRegistry) (Length entry) (record_type entry)]
  end.

Definition ProcessReliableAck (p : Producer) (entry : TRecord) : go pstate () :=
  ProcessReliableAck (sink p) (reliableAckCount metricsRegistry) entry.

(** One iteration of [handleProducerEvents]. *)
Definition handleProducerEvent (p : Producer) (e : Event) : go pstate () :=
  match e with
  | Error text => logError p (ErrorString ("producer_error " +:+ text))
  | Message (Some _) _ text => logError p (ErrorString ("topic_partition_error " +:+ text))
  | Message None None text => logError p (ErrorString ("opaque_record_missing " +:+ text))
  | Message None (Some entry) _ =>
      ProcessReliableAck p entry;;
      emit [Inc (producerAckCount metricsRegistry) (record_type entry);
            Add (bytesAckTotal metricsRegistry) (Length entry) (record_type entry)]
  | Other text =>
      log_effects (ActivityLog (logger (sink p)) "kafka_event_ignored"
        {["event" := AString text]}%string)
  end.

(** One tick of [reportProducerMetrics]: the lengths of the client's queues. *)
Definition reportProducerMetrics_tick (total eventsCount : Z) : history :=
  [Gauge (producerQueueSize metricsRegistry) total {["type" := "total"]};
   Gauge (producerQueueSize metricsRegistry) eventsCount {["type" := "events"]};
   Gauge (producerQueueSize metricsRegistry) (i64 (total - eventsCount)) {["type" := "buffer"]}]%string.

(** A record from [Produce] to the report of its delivery: for a message it has
    taken the client sends one [Message], with what the delivery ended with and
    the [Opaque] value it was given. *)
Definition deliver (p : Producer) (metadata : list (string * string)) (now1 now2 : Z)
  : go pstate () := fun s =>
  let msg := message p metadata now1 s.1 in
  let '(o, s') := Produce p metadata now1 now2 s in
  match produce p (requests s.2) msg with
  | Some _ => (o, s')
  | None => handleProducerEvent p (Message (delivered p (requests s'.2) msg) (Some s'.1) (message_text p msg)) s'
  end.

End Kafka.

(** ** Kinesis (kinesis.go) *)

Module Kinesis.

(** The metrics of the package, by the names they are registered with. *)
Record Metrics := mkMetrics {
  errorCount : string;
  publishCount : string;
  byteTotal : string;
  reliableAckCount : string
}.

Definition metricsRegistry : Metrics := {|
  errorCount := "kinesis_err";
  publishCount := "kinesis_publish_total";
  byteTotal := "kinesis_publish_total_bytes";
  reliableAckCount := "kinesis_reliable_ack_total"
|}%string.

(** The client's answer: the shard and sequence number it stored the record
    with, by pointer. *)
Record Producer := mkProducer {
  sink : Sink;
  streams : gmap string string;
  putRecord : list Request -> Request -> result (option string * option string)
}.

(** [NewProducer]: the session, and the error of listing one stream, which
    tests the connection; the connection is to [overrideHost] if that is set. *)
Definition NewProducer (streams : gmap string string) (overrideHost : string)
    (session : option string -> result (Sink -> gmap string string -> Producer))
    (listStreams : option string -> option GoError) (s : Sink) : result Producer :=
  let endpoint := if String.eqb overrideHost EmptyString then None else Some overrideHost in
  match session endpoint, listStreams endpoint with
  | Err err, _ => Err err
  | Ok _, Some err =>
      Err (ErrorString ("failed to list streams (test connection): " +:+ Error_String err))
  | Ok service, None => Ok (service s streams)
  end.

Definition Close (p : Producer) : option GoError := None.

Definition ReportError (p : Producer) (message : string) (err : option GoError) (logInfo : LogInfo)
  : go pstate () := ReportError (sink p) message err logInfo.

Definition ProcessReliableAck (p : Producer) (entry : TRecord) : go pstate () :=
  ProcessReliableAck (sink p) (reliableAckCount metricsRegistry) entry.

Definition Produce (p : Producer) (now : Z) : go pstate () :=
  update_entry (set_ProduceTime now);;
  entry ← the_entry;
  match streams p !! TxType entry with
  | None =>
      ReportError p "kinesis_produce_stream_not_configured" None
        {["record_type" := AString (TxType entry)]}%string
  | Some stream =>
      answer ← call (putRecord p) (KinesisPutRecord (PayloadBytes entry) stream (Vin entry));
      match answer with
      | Err err =>
          ReportError p "kinesis_err" (Some err) ∅;;
          emit [Inc (errorCount metricsRegistry) (record_type entry)]
      | Ok (shard, sequence) =>
          ProcessReliableAck p entry;;
          match shard, sequence with
          | Some shard, Some sequence =>
              log_effects (Log (logger (sink p)) DEBUG "kinesis_message_dispatched" (list_to_map
                [("vin", AString (Vin entry)); ("record_type", AString (TxType entry));
                 ("txid", AString (Txid entry)); ("shard_id", AString shard);
                 ("sequence_number", AString sequence)]%string));;
              emit [Inc (publishCount metricsRegistry) (record_type entry);
                    Add (byteTotal metricsRegistry) (Length entry) (record_type entry)]
          | _, _ => nil_dereference
          end
      end
  end.

End Kinesis.

(** ** Google Pub/Sub (publisher.go) *)

Module Googlepubsub.

(** The metrics of the package, by the names they are registered with. *)
Record Metrics := mkMetrics {
  notConnectedTotal : string;
  publishCount : string;
  publishBytesTotal : string;
  errorCount : string;
  reliableAckCount : string
}.

Definition metricsRegistry : Metrics := {|
  notConnectedTotal := "pubsub_not_connected_total";
  publishCount := "pubsub_publish_total";
  publishBytesTotal := "pubsub_publish_total_bytes";
  errorCount := "pubsub_err";
  reliableAckCount := "pubsub_reliable_ack_total"
|}%string.

Record Producer := mkProducer {
  sink : Sink;
  publish : list Request -> Request -> option GoError;
  exists_ : list Request -> Request -> result bool;
  createTopic : list Request -> Request -> option GoError
}.

(** [configurePubsub] up to the client it makes, with the lookup of
    environment variables. *)
Definition configurePubsub {A} (environment : string -> option string)
    (NewClient : string -> result A) (projectID : string) : result A :=
  if String.eqb projectID EmptyString then Err (ErrorString "GCP Project ID cannot be empty")
  else match environment "PUBSUB_EMULATOR_HOST", environment "GOOGLE_APPLICATION_CREDENTIALS" with
       | Some _, Some _ =>
           Err (ErrorString "pubsub cannot initialize with both emulator and GCP resource")
       | _, _ => NewClient projectID
       end%string.

Definition NewProducer (environment : string -> option string)
    (NewClient : string -> result (Sink -> Producer)) (projectID : string) (s : Sink)
  : constructed Producer :=
  match configurePubsub environment NewClient projectID with
  | Err err => Ret (Err (ErrorString ("pubsub_connect_error " +:+ Error_String err)), [])
  | Ok client =>
      lines ← ActivityLog (logger s) "pubsub_registered"
        (list_to_map [("project", AString projectID); ("namespace", AString (namespace s))]%string);
      Ret (Ok (client s), lines)
  end.

(** [Close]: [close_err] is the answer of the client. *)
Definition Close (p : Producer) (close_err : option GoError) : option GoError := close_err.

Definition createTopicIfNotExists (p : Producer) (topic : string) : go pstate (option GoError) :=
  e ← call (exists_ p) (PubsubExists topic);
  match e with
  | Err err => mret (Some err)
  | Ok true => mret None
  | Ok false => call (createTopic p) (PubsubCreateTopic topic)
  end.

Definition ReportError (p : Producer) (message : string) (err : option GoError) (logInfo : LogInfo)
  : go pstate () := ReportError (sink p) message err logInfo.

Fixpoint ProvisionTopics (p : Producer) (txTypes : list string) : go pstate (option GoError) :=
  match txTypes with
  | [] => mret None
  | txType :: rest =>
      let topicName := BuildTopicName (namespace (sink p)) txType in
      let logInfo : LogInfo :=
        list_to_map [("topic_name", AString topicName); ("txType", AString txType)]%string in
      err ← createTopicIfNotExists p topicName;
      match err with
      | Some err =>
          ReportError p "pubsub_topic_creation_error" (Some err) logInfo;;
          emit [Inc (notConnectedTotal metricsRegistry) [("record_type", txType)]%string];;
          mret (Some err)
      | None =>
          log_effects (ActivityLog (logger (sink p)) "pubsub_topic_created" logInfo);;
          ProvisionTopics p rest
      end
  end.

Definition ProcessReliableAck (p : Producer) (entry : TRecord) : go pstate () :=
  ProcessReliableAck (sink p) (reliableAckCount metricsRegistry) entry.

(** [Produce]: the result of the publication is awaited. *)
Definition Produce (p : Producer) (now : Z) : go pstate () :=
  entry ← the_entry;
  let topicName := BuildTopicName (namespace (sink p)) (TxType entry) in
  update_entry (set_ProduceTime now);;
  entry ← the_entry;
  err ← call (publish p) (PubsubPublish topicName (PayloadBytes entry) (Metadata entry));
  match err with
  | Some err =>
      ReportError p "pubsub_err" (Some err)
        (list_to_map [("topic_name", AString topicName); ("txid", AString (Txid entry))]%string);;
      emit [Inc (errorCount metricsRegistry) (record_type entry)]
  | None =>
      ProcessReliableAck p entry;;
      emit [Add (publishBytesTotal metricsRegistry) (Length entry) (record_type entry);
            Inc (publishCount metricsRegistry) (record_type entry)]
  end.

End Googlepubsub.

(** ** Redis (redis.go) *)

Module Redis.

(** The metrics of the package, by the names they are registered with. *)
Record Metrics := mkMetrics {
  publishCount : string;
  publishBytesTotal : string;
  errorCount : string;
  reliableAckCount : string
}.

Definition metricsRegistry : Metrics := {|
  publishCount := "redis_publish_total";
  publishBytesTotal := "redis_publish_total_bytes";
  errorCount := "redis_err";
  reliableAckCount := "redis_reliable_ack_total"
|}%string.

Record Producer := mkProducer {
  sink : Sink;
  publishVINTopics : bool;
  subscriberSetPrefix : string;
  publish : list Request -> Request -> option GoError;
  zRemRangeByScore : list Request -> Request -> option GoError;
  zRange : list Request -> Request -> result (list string)
}.

(** [NewProducer]: [addrs] are the addresses of the options, if any, [client]
    the client made from them and [ping] the answers to its two pings; the
    publications time out after 5 seconds if no timeout is configured. *)
Definition NewProducer (addrs : option (list string)) (publishTimeout : Z) (publishVINTopics : bool)
    (subscriberSetPrefix : string) (client : Z -> Sink -> bool -> string -> Producer)
    (ping1 ping2 : option GoError) (s : Sink) : constructed Producer :=
  match addrs with
  | None | Some [] => Ret (Err (ErrorString "redis addrs cannot be empty"), [])
  | Some _ =>
      if negb publishVINTopics && String.eqb subscriberSetPrefix EmptyString
      then Ret (Err (ErrorString "redis requires publish_vin_topics or subscriber_set_prefix to be set, otherwise no records are published"), [])
      else
        match ping1, ping2 with
        | Some err, _ | None, Some err =>
            Ret (Err (ErrorString ("redis_connect_error " +:+ Error_String err)), [])
        | None, None =>
            let timeout := if publishTimeout =? 0 then 5 * 10 ^ 9 else publishTimeout in
            lines ← ActivityLog (logger s) "redis_registered" (list_to_map
              [("namespace", AString (namespace s)); ("publish_vin_topics", ABool publishVINTopics);
               ("subscriber_set_prefix", AString subscriberSetPrefix)]%string);
            Ret (Ok (client timeout s publishVINTopics subscriberSetPrefix), lines)
        end
  end.

(** [Close]: [close_err] is the answer of the client. *)
Definition Close (p : Producer) (close_err : option GoError) : option GoError := close_err.

Definition vinChannel (p : Producer) (entry : TRecord) : string :=
  (BuildTopicName (namespace (sink p)) (TxType entry) +:+ "_{" +:+ Vin entry +:+ "}")%string.

(** [subscriberChannels]; [now] is the time in nanoseconds. *)
Definition subscriberChannels (p : Producer) (entry : TRecord) (now : Z)
  : go pstate (result (list string)) :=
  let setKey := (subscriberSetPrefix p +:+ "_" +:+ vinChannel p entry)%string in
  err ← call (zRemRangeByScore p)
    (RedisZRemRangeByScore setKey "-inf" ("(" +:+ strconv.Itoa (now / 10 ^ 9))%string);
  match err with
  | Some err => mret (Err err)
  | None => call (zRange p) (RedisZRange setKey 0 (-1))
  end.

Definition channelsForRecord (p : Producer) (entry : TRecord) (now : Z)
  : go pstate (result (list string)) :=
  members ← (if String.eqb (subscriberSetPrefix p) EmptyString then mret (Ok [])
             else subscriberChannels p entry now);
  match members with
  | Err err => mret (Err err)
  | Ok members => mret (Ok (members ++ if publishVINTopics p then [vinChannel p entry] else []))
  end.

Definition ReportError (p : Producer) (message : string) (err : option GoError) (logInfo : LogInfo)
  : go pstate () := ReportError (sink p) message err logInfo.

Definition ProcessReliableAck (p : Producer) (entry : TRecord) : go pstate () :=
  ProcessReliableAck (sink p) (reliableAckCount metricsRegistry) entry.

(** The loop over the channels, which ends at the first error. *)
Fixpoint publish_all (p : Producer) (entry : TRecord) (channels : list string) : go pstate bool :=
  match channels with
  | [] => mret true
  | channel :: channels =>
      err ← call (publish p) (RedisPublish channel (PayloadBytes entry));
      match err with
      | Some err =>
          ReportError p "redis_err" (Some err) (list_to_map
            [("channel", AString channel); ("vin", AString (Vin entry));
             ("tx_type", AString (TxType entry)); ("txid", AString (Txid entry))]%string);;
          emit [Inc (errorCount metricsRegistry) (record_type entry)];;
          mret false
      | None =>
          emit [Inc (publishCount metricsRegistry) (record_type entry);
                Add (publishBytesTotal metricsRegistry) (Length entry) (record_type entry)];;
          publish_all p entry channels
      end
  end.

(** [Produce]; [now1] and [now2] are the two readings of the clock. *)
Definition Produce (p : Producer) (now1 now2 : Z) : go pstate () :=
  update_entry (set_ProduceTime now1);;
  entry ← the_entry;
  channels ← channelsForRecord p entry now2;
  match channels with
  | Err err =>
      ReportError p "redis_err" (Some err) (list_to_map
        [("vin", AString (Vin entry)); ("tx_type", AString (TxType entry));
         ("txid", AString (Txid entry))]%string);;
      emit [Inc (errorCount metricsRegistry) (record_type entry)]
  | Ok channels =>
      published ← publish_all p entry channels;
      if published : bool then ProcessReliableAck p entry else skip
  end.

End Redis.

(** ** ZMQ (zmq.go) *)

Module Zmq.

(** The metrics of the package, by the names they are registered with. *)
Record Metrics := mkMetrics {
  errorCount : string;
  publishCount : string;
  byteTotal : string;
  reliableAckCount : string
}.

Definition metricsRegistry : Metrics := {|
  errorCount := "zmq_err";
  publishCount := "zmq_publish_total";
  byteTotal := "zmq_publish_total_bytes";
  reliableAckCount := "zmq_reliable_ack_total"
|}%string.

(** The producer; [ctx_Err] is the state of its context, and the socket is nil
    once it is closed. *)
Record Producer := mkProducer {
  sink : Sink;
  ctx_Err : option GoError;
  sendMessage : list Request -> Request -> result Z
}.

Record Config := mkConfig {
  Addr : string;
  ServerKeyJSONPath : string;
  AllowedPublicKeysJSONPath : string;
  Verbose : bool
}.

Record KeyJSON := mkKeyJSON { Secret : string; Public : string }.

(** The calls of a constructor on the ZMQ library. *)
Inductive setup_call :=
| NewSocket
| Monitor (addr : string)
| NewPairSocket
| ConnectPair (addr : string)
| AuthCurveAdd (domain : string) (keys : list string)
| AuthStart
| ServerAuthCurve (domain secret : string)
| Bind (addr : string).

Definition MonitorSocketAddr : string := "inproc://zmq_socket_monitor.rep".

Section Setup.
(** The errors of the library's calls, and what the two files decode to:
    opening or decoding them fails with an error. *)
Variable library : setup_call -> option GoError.
Variable server_key : string -> result KeyJSON.
Variable allowed_keys : string -> result (list string).

(** One call, kept in the list of those made; an error ends the constructor. *)
Definition setup (c : setup_call) (rest : list setup_call -> result () * list setup_call)
    (made : list setup_call) : result () * list setup_call :=
  match library c with
  | Some err => (Err err, made ++ [c])
  | None => rest (made ++ [c])
  end.

(** The authentication of the socket, when a server key is configured. *)
Definition configure_auth (config : Config) (rest : list setup_call -> result () * list setup_call)
    (made : list setup_call) : result () * list setup_call :=
  if String.eqb (ServerKeyJSONPath config) EmptyString then rest made
  else
    match server_key (ServerKeyJSONPath config) with
    | Err err => (Err err, made)
    | Ok key =>
        let start := setup AuthStart (setup (ServerAuthCurve "*" (Secret key)) rest) in
        if String.eqb (AllowedPublicKeysJSONPath config) EmptyString then start made
        else match allowed_keys (AllowedPublicKeysJSONPath config) with
             | Err err => (Err err, made)
             | Ok keys => start (made ++ [AuthCurveAdd "*" keys])
             end
    end.

(** [NewProducer] up to the producer it returns: whether it succeeds, and the
    calls it made in order. *)
Definition NewProducer (config : Config) : result () * list setup_call :=
  setup NewSocket (fun made =>
    let rest := configure_auth config (setup (Bind (Addr config)) (fun made => (Ok (), made))) in
    if Verbose config
    then setup (Monitor MonitorSocketAddr) (setup NewPairSocket
           (setup (ConnectPair MonitorSocketAddr) rest)) made
    else rest made) [].
End Setup.

(** The goroutine of [logSocketInBackground]: each round checks the context and
    receives an event; it ends, and closes its socket, when the context is
    done. *)
Record SocketEvent := mkSocketEvent { event_type : Z; event_addr : string; event_value : Z }.

Fixpoint monitor_loop (logger : option Logger) (rounds : list (bool * result SocketEvent))
  : outcome (list LogEntry * bool) :=
  match rounds with
  | [] => Ret ([], false)
  | (true, _) :: _ => Ret ([], true)
  | (false, received) :: rest =>
      lines ← match received with
              | Err err => ErrorLog logger "zmq_event_receive_error" (Some err) ∅
              | Ok e => Log logger DEBUG "zmq_socket_event" (list_to_map
                  [("event_type", AInt (event_type e)); ("addr", AString (event_addr e));
                   ("value", AInt (event_value e))])
              end;
      '(more, ended) ← monitor_loop logger rest;
      Ret ((lines ++ more)%list, ended)
  end.

Definition logSocketInBackground (logger : option Logger) (rounds : list (bool * result SocketEvent))
    (close_err : option GoError) : outcome (list LogEntry) :=
  '(lines, ended) ← monitor_loop logger rounds;
  match close_err with
  | Some err =>
      if ended : bool
      then closing ← ErrorLog logger "zmq_monitor_close_error" (Some err) ∅; Ret (lines ++ closing)%list
      else Ret lines
  | None => Ret lines
  end.

(** [Close]: the error of closing a socket that is set, and whether the
    producer still has it. *)
Definition Close (sock : bool) (close_err : option GoError) : option GoError * bool :=
  if sock then match close_err with Some err => (Some err, true) | None => (None, false) end
  else (None, false).

Definition ReportError (p : Producer) (message : string) (err : option GoError) (logInfo : LogInfo)
  : go pstate () := ReportError (sink p) message err logInfo.

Definition ProcessReliableAck (p : Producer) (entry : TRecord) : go pstate () :=
  ProcessReliableAck (sink p) (reliableAckCount metricsRegistry) entry.

Definition Produce (p : Producer) : go pstate () :=
  entry ← the_entry;
  match ctx_Err p with
  | Some _ => skip
  | None =>
      answer ← call (sendMessage p)
        (ZmqSendMessage (BuildTopicName (namespace (sink p)) (TxType entry)) (PayloadBytes entry));
      match answer with
      | Err err =>
          emit [Inc (errorCount metricsRegistry) (record_type entry)];;
          ReportError p "zmq_dispatch_error" (Some err) ∅
      | Ok nBytes =>
          ProcessReliableAck p entry;;
          emit [Add (byteTotal metricsRegistry) nBytes (record_type entry);
                Inc (publishCount metricsRegistry) (record_type entry)]
      end
  end.

End Zmq.

(** ** The promise of a producer

    [ap_run]: what a producer does with a record, its readings of the clock
    given.  [ap_stored]: whether the datastore took the record, from the answers
    of the client.  [ap_ready]: what the producer needs of its client and of the
    record. *)

Class AckingProducer (P : Type) := {
  ap_sink : P -> Sink;
  ap_ready : P -> TRecord -> Prop;
  ap_run : P -> (nat -> Z) -> go pstate ();
  ap_stored : P -> (nat -> Z) -> TRecord -> list Request -> bool
}.

(** The record with another time of production. *)
Definition same_record (r r' : TRecord) : Prop := r' = r \/ exists v, r' = set_ProduceTime v r.

(** A producer that is ready does not panic, and acknowledges a record exactly
    once if the datastore took it and it is the reliable-acknowledgement source
    of its type, and never otherwise. *)
Class AckingProducerSpec (P : Type) `{AckingProducer P} : Prop :=
  ap_contract (p : P) clock r h :
    ap_ready p r ->
    exists r' t, ap_run p clock (r, h) = (Ret (), (r', h ++ t)) /\ same_record r r' /\
      acked t = (if ap_stored p clock r (requests h) &&
                    bool_decide (TxType r ∈ reliableAckTxTypes (ap_sink p)) then [r'] else []).

(** ** Lemmas on effects *)

Lemma requests_app h1 h2 : requests (h1 ++ h2) = requests h1 ++ requests h2.
Proof. induction h1 as [|[] h1 IH]; simpl; [done|..]; by rewrite ?IH. Qed.

Lemma acked_app h1 h2 : acked (h1 ++ h2) = acked h1 ++ acked h2.
Proof. induction h1 as [|[] h1 IH]; simpl; [done|..]; by rewrite ?IH. Qed.

Lemma acked_lines lines : acked (Did ∘ ELog <$> lines) = [].
Proof. by induction lines. Qed.

Lemma requests_lines lines : requests (Did ∘ ELog <$> lines) = [].
Proof. by induction lines. Qed.

(** What [ReportError] emits with the logger [l]. *)
Definition report (s : Sink) (l : Logger) (message : string) (err : option GoError)
    (info : LogInfo) : history :=
  (Notice <$> Airbrake.ReportLogMessage (airbrakeHandler s) ERROR message err info) ++
  (Did ∘ ELog <$> if shouldSuppress l message then [] else [mkLogEntry ERROR message (Some err) (getEntry l info)]).

Lemma ReportError_run s l message err info r h :
  logger s = Some l ->
  ReportError s message err info (r, h) = (Ret (), (r, h ++ report s l message err info)).
Proof.
  intros Hl. unfold ReportError, emit, log_effects, mbind, go_bind, modify, lift. rewrite Hl. simpl.
  unfold report. by rewrite app_assoc.
Qed.

Lemma acked_report s l message err info : acked (report s l message err info) = [].
Proof.
  unfold report, Airbrake.ReportLogMessage, Airbrake.send. rewrite acked_app, acked_lines.
  by destruct (Airbrake.airbrakeNotifier _).
Qed.

Lemma requests_report s l message err info : requests (report s l message err info) = [].
Proof.
  unfold report, Airbrake.ReportLogMessage, Airbrake.send. rewrite requests_app, requests_lines.
  by destruct (Airbrake.airbrakeNotifier _).
Qed.

Lemma log_effects_run o lines r h :
  o = Ret lines -> log_effects o (r, h) = (Ret (), (r, h ++ (Did ∘ ELog <$> lines))).
Proof. by intros ->. Qed.

(** What [ProcessReliableAck] emits. *)
Definition ack_effects (s : Sink) (counter : string) (entry : TRecord) : history :=
  if bool_decide (TxType entry ∈ reliableAckTxTypes s)
  then [Acked entry; Inc counter (record_type entry)] else [].

Lemma ProcessReliableAck_run s counter entry r h :
  ProcessReliableAck s counter entry (r, h) = (Ret (), (r, h ++ ack_effects s counter entry)).
Proof.
  unfold ProcessReliableAck, ack_effects. case_bool_decide; [done|]. by rewrite app_nil_r.
Qed.

Lemma acked_ack_effects s counter entry :
  acked (ack_effects s counter entry) =
  if bool_decide (TxType entry ∈ reliableAckTxTypes s) then [entry] else [].
Proof. unfold ack_effects. by case_bool_decide. Qed.

Lemma requests_ack_effects s counter entry : requests (ack_effects s counter entry) = [].
Proof. unfold ack_effects. by case_bool_decide. Qed.

Create Rewrite HintDb effects.
#[export] Hint Rewrite requests_app acked_app acked_lines requests_lines acked_report requests_report
  acked_ack_effects requests_ack_effects app_nil_r : effects.

Create HintDb producers.
#[export] Hint Extern 1 (same_record _ _) => (left; reflexivity) || (right; eexists; reflexivity)
  : producers.

(** Run the steps of a handler that only emit effects or ask the client. *)
Ltac run_steps :=
  unfold mbind, go_bind, emit, update_entry, modify, the_entry, call, skip, mret, go_ret; cbn;
  unfold Kafka.ReportError, Kinesis.ReportError, Googlepubsub.ReportError, Redis.ReportError,
    Zmq.ReportError;
  rewrite ?ProcessReliableAck_run; cbv beta iota.

(** The effects of a run, once its result is computed. *)
Ltac run_result :=
  eexists _, _; split; [rewrite <- ?app_assoc; reflexivity|];
  split; [auto with producers|]; autorewrite with effects; cbn; autorewrite with effects.

#[export] Instance kafka_producer :
  AckingProducer (Kafka.Producer * (TRecord -> list (string * string))) := {|
  ap_sink p := Kafka.sink p.1;
  ap_ready p _ := is_Some (logger (Kafka.sink p.1));
  ap_run p clock s := Kafka.deliver p.1 (p.2 s.1) (clock 0%nat) (clock 1%nat) s;
  ap_stored p clock r asked :=
    let msg := Kafka.message p.1 (p.2 r) (clock 0%nat) r in
    match Kafka.produce p.1 asked msg with
    | Some _ => false
    | None => negb (bool_decide (is_Some (Kafka.delivered p.1 (asked ++ [msg]) msg)))
    end
|}.

#[export] Instance kafka_contract :
  AckingProducerSpec (Kafka.Producer * (TRecord -> list (string * string))).
Proof.
  intros [p order] clock r h [l Hl]. cbn in *.
  unfold Kafka.deliver, Kafka.Produce, Kafka.logError. run_steps.
  destruct (Kafka.produce p _ _) as [err|]; cbn.
  - rewrite (ReportError_run _ l) by done. run_steps. run_result. done.
  - rewrite !requests_app. cbn. rewrite app_nil_r.
    destruct (Kafka.delivered p _ _) as [err|]; cbn.
    + unfold Kafka.logError. run_steps. rewrite (ReportError_run _ l) by done. run_steps.
      run_result. done.
    + unfold Kafka.ProcessReliableAck. run_steps. run_result. by case_bool_decide.
Qed.

(** Kinesis names the shard and the sequence number of every record it stores. *)
#[export] Instance kinesis_producer : AckingProducer Kinesis.Producer := {|
  ap_sink := Kinesis.sink;
  ap_ready p _ := is_Some (logger (Kinesis.sink p)) /\
    forall asked q shard sequence, Kinesis.putRecord p asked q = Ok (shard, sequence) ->
      is_Some shard /\ is_Some sequence;
  ap_run p clock := Kinesis.Produce p (clock 0%nat);
  ap_stored p clock r asked :=
    match Kinesis.streams p !! TxType r with
    | None => false
    | Some stream =>
        is_ok (Kinesis.putRecord p asked (KinesisPutRecord (PayloadBytes r) stream (Vin r)))
    end
|}.

#[export] Instance kinesis_contract : AckingProducerSpec Kinesis.Producer.
Proof.
  intros p clock r h [[l Hl] Hready]. cbn in *. unfold Kinesis.Produce. run_steps.
  destruct (Kinesis.streams p !! TxType r) as [stream|]; cbn.
  2: { rewrite (ReportError_run _ l) by done. run_steps. run_result. done. }
  destruct (Kinesis.putRecord p _ _) as [[shard sequence]|err] eqn:Hp; cbn.
  - destruct (Hready _ _ _ _ Hp) as [[shard' ->] [sequence' ->]].
    unfold Kinesis.ProcessReliableAck. run_steps.
    unfold log_effects, Log, log_unless_suppressed. rewrite Hl. run_steps.
    run_result. by case_bool_decide.
  - rewrite (ReportError_run _ l) by done. run_steps. run_result. done.
Qed.

#[export] Instance pubsub_producer : AckingProducer Googlepubsub.Producer := {|
  ap_sink := Googlepubsub.sink;
  ap_ready p _ := is_Some (logger (Googlepubsub.sink p));
  ap_run p clock := Googlepubsub.Produce p (clock 0%nat);
  ap_stored p clock r asked :=
    negb (bool_decide (is_Some (Googlepubsub.publish p asked
      (PubsubPublish (BuildTopicName (namespace (Googlepubsub.sink p)) (TxType r))
        (PayloadBytes r) (Metadata r)))))
|}.

#[export] Instance pubsub_contract : AckingProducerSpec Googlepubsub.Producer.
Proof.
  intros p clock r h [l Hl]. cbn in *. unfold Googlepubsub.Produce. run_steps.
  destruct (Googlepubsub.publish p _ _) as [err|]; cbn.
  - rewrite (ReportError_run _ l) by done. run_steps. run_result. done.
  - unfold Googlepubsub.ProcessReliableAck. run_steps. run_result. by case_bool_decide.
Qed.

#[export] Instance zmq_producer : AckingProducer Zmq.Producer := {|
  ap_sink := Zmq.sink;
  ap_ready p _ := is_Some (logger (Zmq.sink p));
  ap_run p clock := Zmq.Produce p;
  ap_stored p clock r asked :=
    match Zmq.ctx_Err p with
    | Some _ => false
    | None => is_ok (Zmq.sendMessage p asked
        (ZmqSendMessage (BuildTopicName (namespace (Zmq.sink p)) (TxType r)) (PayloadBytes r)))
    end
|}.

#[export] Instance zmq_contract : AckingProducerSpec Zmq.Producer.
Proof.
  intros p clock r h [l Hl]. cbn in *. unfold Zmq.Produce. run_steps.
  destruct (Zmq.ctx_Err p) as [err|]; cbn.
  { exists r, []. rewrite app_nil_r. split; [done|split; [by left|done]]. }
  destruct (Zmq.sendMessage p _ _) as [n|err]; cbn.
  - unfold Zmq.ProcessReliableAck. run_steps. run_result. by case_bool_decide.
  - rewrite (ReportError_run _ l) by done. run_result. done.
Qed.

(** The channels Redis publishes to, and whether it takes each publication,
    from the requests made before. *)
Definition redis_channels (p : Redis.Producer) (asked : list Request) (now : Z) (r : TRecord)
  : result (list string * list Request) :=
  let own := if Redis.publishVINTopics p then [Redis.vinChannel p r] else [] in
  if String.eqb (Redis.subscriberSetPrefix p) EmptyString then Ok (own, asked)
  else
    let key := (Redis.subscriberSetPrefix p +:+ "_" +:+ Redis.vinChannel p r)%string in
    let purge := RedisZRemRangeByScore key "-inf" ("(" +:+ strconv.Itoa (now / 10 ^ 9))%string in
    let range := RedisZRange key 0 (-1) in
    match Redis.zRemRangeByScore p asked purge with
    | Some err => Err err
    | None =>
        members ← Redis.zRange p (asked ++ [purge]) range;
        Ok (members ++ own, asked ++ [purge; range])
    end.

Fixpoint redis_takes (p : Redis.Producer) (payload : bytes) (asked : list Request)
    (channels : list string) : bool :=
  match channels with
  | [] => true
  | channel :: channels =>
      let q := RedisPublish channel payload in
      negb (bool_decide (is_Some (Redis.publish p asked q))) &&
      redis_takes p payload (asked ++ [q]) channels
  end.

#[export] Instance redis_producer : AckingProducer Redis.Producer := {|
  ap_sink := Redis.sink;
  ap_ready p _ := is_Some (logger (Redis.sink p));
  ap_run p clock := Redis.Produce p (clock 0%nat) (clock 1%nat);
  ap_stored p clock r asked :=
    match redis_channels p asked (clock 1%nat) r with
    | Err _ => false
    | Ok (channels, asked) => redis_takes p (PayloadBytes r) asked channels
    end
|}.

Lemma channelsForRecord_run p entry now r h :
  exists t, acked t = [] /\
    match redis_channels p (requests h) now entry with
    | Ok (channels, asked) =>
        Redis.channelsForRecord p entry now (r, h) = (Ret (Ok channels), (r, h ++ t)) /\
        asked = requests (h ++ t)
    | Err err => Redis.channelsForRecord p entry now (r, h) = (Ret (Err err), (r, h ++ t))
    end.
Proof.
  unfold Redis.channelsForRecord, redis_channels.
  destruct (String.eqb _ _).
  { exists []. rewrite app_nil_r. run_steps. done. }
  unfold Redis.subscriberChannels. run_steps.
  destruct (Redis.zRemRangeByScore p _ _) as [err|]; run_steps.
  { eexists. split; [|reflexivity]. done. }
  rewrite requests_app. cbn [requests].
  destruct (Redis.zRange p _ _) as [members|err]; run_steps; rewrite <- ?app_assoc; cbn.
  - eexists. split; [|split; [reflexivity|by rewrite requests_app]]. done.
  - eexists. split; [|reflexivity]. done.
Qed.

Lemma publish_all_run p l entry channels r h :
  logger (Redis.sink p) = Some l ->
  exists t, Redis.publish_all p entry channels (r, h) =
      (Ret (redis_takes p (PayloadBytes entry) (requests h) channels), (r, h ++ t)) /\ acked t = [].
Proof.
  intros Hl. revert h. induction channels as [|c channels IH]; intros h; cbn.
  { exists []. rewrite app_nil_r. done. }
  run_steps. destruct (Redis.publish p _ _) as [err|]; cbn.
  - rewrite (ReportError_run _ l) by done. run_steps. rewrite <- !app_assoc.
    eexists. split; [reflexivity|]. by autorewrite with effects.
  - destruct (IH ((h ++ [Sent (RedisPublish c (PayloadBytes entry))]) ++
      [Inc "redis_publish_total" (record_type entry);
       Add "redis_publish_total_bytes" (Length entry) (record_type entry)])) as (t & E & Ht).
    rewrite E, !requests_app. cbn. rewrite app_nil_r, <- !app_assoc.
    eexists. split; [reflexivity|]. autorewrite with effects. done.
Qed.

#[export] Instance redis_contract : AckingProducerSpec Redis.Producer.
Proof.
  intros p clock r h [l Hl]. cbn in *. unfold Redis.Produce. run_steps.
  destruct (channelsForRecord_run p (set_ProduceTime (clock 0%nat) r) (clock 1%nat)
    (set_ProduceTime (clock 0%nat) r) h) as (t1 & Ht1 & H).
  change (redis_channels p (requests h) (clock 1%nat) (set_ProduceTime (clock 0%nat) r))
    with (redis_channels p (requests h) (clock 1%nat) r) in H.
  destruct (redis_channels p _ _ _) as [[channels asked]|err].
  - destruct H as [-> ->].
    destruct (publish_all_run p l (set_ProduceTime (clock 0%nat) r) channels
      (set_ProduceTime (clock 0%nat) r) (h ++ t1) Hl) as (t2 & -> & Ht2).
    cbn. destruct (redis_takes _ _ _ _); cbn.
    + unfold Redis.ProcessReliableAck. run_steps. run_result. by rewrite Ht1, Ht2.
    + run_steps. run_result. by rewrite Ht1, Ht2.
  - rewrite H. rewrite (ReportError_run _ l) by done. run_steps. run_result. by rewrite Ht1.
Qed.

(** ** Properties *)

(** The publications of a history: channels and payloads, in order. *)
Fixpoint publications (qs : list Request) : list (string * bytes) :=
  match qs with
  | [] => []
  | RedisPublish channel payload :: qs => (channel, payload) :: publications qs
  | _ :: qs => publications qs
  end.

Lemma publications_app q1 q2 : publications (q1 ++ q2) = publications q1 ++ publications q2.
Proof. induction q1 as [|[] q1 IH]; simpl; [done|..]; by rewrite ?IH. Qed.

(** The elements up to the first that fails, which is included. *)
Fixpoint until_failure {A} (fails : A -> bool) (l : list A) : list A :=
  match l with
  | [] => []
  | x :: l => x :: if fails x then [] else until_failure fails l
  end.

(** A Redis with sorted sets [subs] of channels and lease expiries: purging
    the scores before a time succeeds, and the range asked for right after it is
    what the purge left. *)
Definition sorted_sets (p : Redis.Producer) (subs : string -> list (string * Z)) : Prop :=
  forall asked key now,
    let purge := RedisZRemRangeByScore key "-inf" ("(" +:+ strconv.Itoa now)%string in
    Redis.zRemRangeByScore p asked purge = None /\
    Redis.zRange p (asked ++ [purge]) (RedisZRange key 0 (-1)) =
      Ok (List.filter (fun e => now <=? e.2) (subs key)).*1.

(** The channels of a record: the live subscribers of its vehicle, then the
    channel of its VIN. *)
Definition live_channels (p : Redis.Producer) (subs : string -> list (string * Z)) (now : Z)
    (r : TRecord) : list string :=
  (if String.eqb (Redis.subscriberSetPrefix p) EmptyString then []
   else (List.filter (fun e => now / 10 ^ 9 <=? e.2)
          (subs (Redis.subscriberSetPrefix p +:+ "_" +:+ Redis.vinChannel p r)%string)).*1) ++
  (if Redis.publishVINTopics p then [Redis.vinChannel p r] else []).

Lemma redis_channels_live p subs asked now r :
  sorted_sets p subs ->
  exists asked', redis_channels p asked now r = Ok (live_channels p subs now r, asked ++ asked') /\
    publications asked' = [].
Proof.
  intros Hp. unfold redis_channels, live_channels. destruct (String.eqb _ _).
  { exists []. by rewrite app_nil_r. }
  destruct (Hp asked (Redis.subscriberSetPrefix p +:+ "_" +:+ Redis.vinChannel p r)%string
    (now / 10 ^ 9)) as [-> Hr]. rewrite Hr. cbn. by eexists.
Qed.

Lemma publish_all_publications p l fails entry channels r h :
  logger (Redis.sink p) = Some l ->
  (forall asked q, is_Some (Redis.publish p asked q) <-> fails q = true) ->
  exists t, (Redis.publish_all p entry channels (r, h)).2 = (r, h ++ t) /\
    publications (requests t) = (fun c => (c, PayloadBytes entry)) <$>
      until_failure (fun c => fails (RedisPublish c (PayloadBytes entry))) channels.
Proof.
  intros Hl Hf. revert h. induction channels as [|c channels IH]; intros h; cbn.
  { exists []. by rewrite app_nil_r. }
  run_steps. pose proof (Hf (requests h) (RedisPublish c (PayloadBytes entry))) as Hc.
  destruct (Redis.publish p _ _) as [err|]; cbn.
  - rewrite (ReportError_run _ l) by done. run_steps. rewrite <- !app_assoc.
    rewrite (proj1 Hc) by done. eexists. split; [reflexivity|]. autorewrite with effects. done.
  - destruct (IH ((h ++ [Sent (RedisPublish c (PayloadBytes entry))]) ++
      [Inc "redis_publish_total" (record_type entry);
       Add "redis_publish_total_bytes" (Length entry) (record_type entry)])) as (t & E & Ht).
    rewrite E, <- !app_assoc. eexists. split; [reflexivity|].
    assert (Hn : fails (RedisPublish c (PayloadBytes entry)) = false).
    { destruct (fails _); [|done]. by destruct (proj2 Hc eq_refl). }
    rewrite Hn, requests_app, publications_app, requests_app, publications_app, Ht. done.
Qed.

Lemma redis_takes_fails p fails payload asked channels :
  (forall asked q, is_Some (Redis.publish p asked q) <-> fails q = true) ->
  redis_takes p payload asked channels =
  forallb (fun c => negb (fails (RedisPublish c payload))) channels.
Proof.
  intros Hf. revert asked. induction channels as [|c channels IH]; intros asked; [done|].
  cbn. rewrite IH. do 2 f_equal. apply eq_true_iff_eq. rewrite bool_decide_eq_true. apply Hf.
Qed.

(** C21: over Redis a record is published, under its payload, to the channels
    of its vehicle's subscribers whose lease has not expired and then, when
    enabled, to the channel of its VIN: to all of them, or up to the first
    publication that fails; it is acknowledged exactly if none fails and its
    type is one Redis acknowledges. *)
Theorem redis_publishes_live p subs fails clock r l :
  logger (Redis.sink p) = Some l -> sorted_sets p subs ->
  (forall asked q, is_Some (Redis.publish p asked q) <-> fails q = true) ->
  let channels := live_channels p subs (clock 1%nat) r in
  let failing c := fails (RedisPublish c (PayloadBytes r)) in
  exists r' t, Redis.Produce p (clock 0%nat) (clock 1%nat) (r, []) = (Ret (), (r', t)) /\
    publications (requests t) = (fun c => (c, PayloadBytes r)) <$> until_failure failing channels /\
    acked t = (if forallb (fun c => negb (failing c)) channels &&
                  bool_decide (TxType r ∈ reliableAckTxTypes (Redis.sink p)) then [r'] else []).
Proof.
  intros Hl Hsets Hf channels failing.
  destruct (redis_contract p clock r [] ltac:(by eexists)) as (r' & t & E & _ & Hacked).
  destruct (redis_channels_live p subs [] (clock 1%nat) r Hsets) as (asked & Hc & Hpub).
  exists r', t. split; [exact E|]. split.
  2: { rewrite Hacked. cbn [ap_stored ap_sink redis_producer requests]. rewrite Hc.
       by rewrite (redis_takes_fails p fails). }
  revert E. cbn [ap_run redis_producer]. unfold Redis.Produce. run_steps.
  set (r1 := set_ProduceTime (clock 0%nat) r).
  destruct (channelsForRecord_run p r1 (clock 1%nat) r1 []) as (t1 & _ & H).
  change (redis_channels p _ _ r1) with (redis_channels p [] (clock 1%nat) r) in H.
  rewrite Hc in H. destruct H as [-> Ht1]. fold channels. cbn [app] in *.
  destruct (publish_all_run p l r1 channels r1 t1 Hl) as (t2 & E2 & _).
  destruct (publish_all_publications p l fails r1 channels r1 t1 Hl Hf) as (t2' & E2' & Ht2).
  rewrite E2 in E2'. injection E2' as <-%app_inv_head. rewrite E2.
  destruct (redis_takes _ _ _ _); unfold Redis.ProcessReliableAck; run_steps; intros [= <- <-];
    autorewrite with effects; rewrite !publications_app, Ht2, <- Ht1, Hpub; cbn;
    by rewrite ?app_nil_r.
Qed.

(** A Redis with two subscribers of a vehicle, one of them expired. *)
Definition sample_subs (key : string) : list (string * Z) :=
  if String.eqb key "consumer_ns_V_{VIN42}" then [("old", 10); ("live", 100)]%string else [].

Definition sample_redis : Redis.Producer :=
  Redis.mkProducer
    (mkSink "ns" (Some (mkLogger ∅ EmptyString)) (Airbrake.mkHandler false) {["V"%string]})
    true "consumer" (fun _ _ => None) (fun _ _ => None)
    (fun asked q =>
      match last asked, q with
      | Some (RedisZRemRangeByScore _ _ max), RedisZRange key _ _ =>
          match max with
          | String _ now =>
              match NilZero.int_of_string now with
              | Some now => Ok (List.filter (fun e => Z.of_int now <=? e.2) (sample_subs key)).*1
              | None => Ok []
              end
          | _ => Ok []
          end
      | _, _ => Ok []
      end).

Lemma sample_sorted_sets : sorted_sets sample_redis sample_subs.
Proof.
  intros asked key now. split; [done|]. unfold sample_redis. cbn [Redis.zRange].
  rewrite last_snoc. change ("(" +:+ strconv.Itoa now)%string with (String "(" (strconv.Itoa now)).
  cbv beta iota. unfold strconv.Itoa. rewrite NilZero.isi, DecimalZ.of_to; [done|..].
  all: destruct now; cbn; try done; intros [= H]; by apply (DecimalPos.Unsigned.to_uint_nonnil p).
Qed.

Lemma redis_publishes_live_witness :
  exists r' t, Redis.Produce sample_redis 0 50000000000
      (set_TxType "V" (set_identity "VIN42" "1.0" [Byte.x01] 0
        (new_TRecord sample_serializer None "s" false)), []) = (Ret (), (r', t)) /\
    publications (requests t) = [("live", [Byte.x01]); ("ns_V_{VIN42}", [Byte.x01])]%string /\
    acked t = [r'].
Proof.
  destruct (redis_publishes_live sample_redis sample_subs (fun _ => false)
    (fun n => match n with O => 0 | _ => 50000000000 end)
    (set_TxType "V" (set_identity "VIN42" "1.0" [Byte.x01] 0
      (new_TRecord sample_serializer None "s" false))) (mkLogger ∅ EmptyString) eq_refl
    sample_sorted_sets) as (r' & t & E & Hp & Ha).
  { intros asked q. split; [by intros []|done]. }
  exists r', t. split; [exact E|]. split; [exact Hp|exact Ha].
Defined.

(** A call either ends the constructor or is followed by the rest. *)
Lemma setup_run library c rest made r calls :
  Zmq.setup library c rest made = (r, calls) ->
  rest (made ++ [c]) = (r, calls) \/ calls = made ++ [c].
Proof. unfold Zmq.setup. destruct (library c); [intros [= _ <-]; by right|by left]. Qed.

Lemma not_bound_snoc addr made c :
  Zmq.Bind addr ∉ made -> c <> Zmq.Bind addr -> Zmq.Bind addr ∉ made ++ [c].
Proof. rewrite elem_of_app, list_elem_of_singleton. intros H Hc [?|E]; [done|congruence]. Qed.

(** What precedes a socket that is bound. *)
Definition authenticated (server_key : string -> result Zmq.KeyJSON)
    (allowed_keys : string -> result (list string)) (config : Zmq.Config) (addr : string)
    (calls : list Zmq.setup_call) : Prop :=
  addr = Zmq.Addr config /\
  exists key before, server_key (Zmq.ServerKeyJSONPath config) = Ok key /\
    calls = before ++ [Zmq.AuthStart; Zmq.ServerAuthCurve "*" (Zmq.Secret key); Zmq.Bind addr] /\
    (Zmq.AllowedPublicKeysJSONPath config <> EmptyString -> exists keys,
      allowed_keys (Zmq.AllowedPublicKeysJSONPath config) = Ok keys /\
      Zmq.AuthCurveAdd "*" keys ∈ before).

Lemma configure_auth_bound library server_key allowed_keys config addr made r calls :
  Zmq.ServerKeyJSONPath config <> EmptyString -> Zmq.Bind addr ∉ made ->
  Zmq.configure_auth library server_key allowed_keys config
    (Zmq.setup library (Zmq.Bind (Zmq.Addr config)) (fun made => (Ok (), made))) made = (r, calls) ->
  Zmq.Bind addr ∈ calls -> authenticated server_key allowed_keys config addr calls.
Proof.
  intros Hkey%String.eqb_neq Hmade E Hin. unfold Zmq.configure_auth in E. rewrite Hkey in E.
  destruct (server_key _) as [key|err] eqn:Ek; [|injection E as _ <-; done].
  assert (Hstart : forall made', Zmq.Bind addr ∉ made' ->
    Zmq.setup library Zmq.AuthStart (Zmq.setup library (Zmq.ServerAuthCurve "*" (Zmq.Secret key))
      (Zmq.setup library (Zmq.Bind (Zmq.Addr config)) (fun made => (Ok (), made)))) made' = (r, calls) ->
    addr = Zmq.Addr config /\
    calls = made' ++ [Zmq.AuthStart; Zmq.ServerAuthCurve "*" (Zmq.Secret key); Zmq.Bind addr]).
  { intros made' Hm [E1| ->]%setup_run; [|by destruct (not_bound_snoc addr made' Zmq.AuthStart Hm ltac:(done) Hin)].
    pose proof (not_bound_snoc addr _ Zmq.AuthStart Hm ltac:(done)) as Hm1.
    apply setup_run in E1 as [E2| ->]; [|by destruct (not_bound_snoc addr _ (Zmq.ServerAuthCurve "*" (Zmq.Secret key)) Hm1 ltac:(done) Hin)].
    pose proof (not_bound_snoc addr _ (Zmq.ServerAuthCurve "*" (Zmq.Secret key)) Hm1 ltac:(done)) as Hm2.
    assert (Ec : calls = ((made' ++ [Zmq.AuthStart]) ++ [Zmq.ServerAuthCurve "*" (Zmq.Secret key)]) ++
      [Zmq.Bind (Zmq.Addr config)]) by (apply setup_run in E2 as [E3|E3]; [by injection E3 as _ <-|done]).
    rewrite Ec in Hin. apply elem_of_app in Hin as [Hin|Hin%list_elem_of_singleton]; [done|].
    injection Hin as ->. split; [done|]. by rewrite Ec, <- !app_assoc. }
  destruct (String.eqb_spec (Zmq.AllowedPublicKeysJSONPath config) EmptyString) as [Hno|Hno].
  - destruct (Hstart made Hmade E) as [Ha Ec]. split; [done|]. exists key, made. by split_and!.
  - destruct (allowed_keys _) as [keys|err] eqn:Ea; [|injection E as _ <-; done].
    destruct (Hstart _ (not_bound_snoc addr made (Zmq.AuthCurveAdd "*" keys) Hmade ltac:(done)) E)
      as [Ha Ec].
    split; [done|]. exists key, (made ++ [Zmq.AuthCurveAdd "*" keys]). split_and!; [done..|].
    intros _. exists keys. split; [done|]. apply elem_of_app. right. by apply list_elem_of_singleton.
Qed.

(** The ZMQ monitor stops at the first round with a done context, after a line
    for each event or error before it. *)
Lemma zmq_monitor_stops l rounds rest received :
  (forall m, shouldSuppress l m = false) -> Forall (fun r => r.1 = false) rounds ->
  exists lines, Zmq.monitor_loop (Some l) (rounds ++ (true, received) :: rest) = Ret (lines, true) /\
    (le_message <$> lines) =
    ((fun r => match r.2 with Ok _ => "zmq_socket_event" | Err _ => "zmq_event_receive_error" end) <$> rounds).
Proof.
  intros Hl. induction 1 as [|[cancelled r] rounds Hc _ (lines & IH & Hm)]; [by exists []|].
  cbn in Hc. subst cancelled. cbn [app Zmq.monitor_loop]. rewrite IH.
  destruct r; cbn; unfold log_unless_suppressed; rewrite Hl; cbn; eexists; (split; [reflexivity|]);
    cbn; by rewrite Hm.
Qed.

(** With a server key configured, the socket is bound only after the
    authentication with that key was started, and restricted to the allowed
    keys if there are any: no client connects without it. *)
Theorem zmq_bound_after_auth library server_key allowed_keys config addr r calls :
  Zmq.ServerKeyJSONPath config <> EmptyString ->
  Zmq.NewProducer library server_key allowed_keys config = (r, calls) ->
  Zmq.Bind addr ∈ calls -> authenticated server_key allowed_keys config addr calls.
Proof.
  intros Hkey E Hin. unfold Zmq.NewProducer in E.
  assert (H0 : Zmq.Bind addr ∉ [Zmq.NewSocket]) by (rewrite list_elem_of_singleton; done).
  apply setup_run in E as [E| ->]; [|done]. cbn [app] in E.
  destruct (Zmq.Verbose config); [|by eapply configure_auth_bound].
  pose proof (not_bound_snoc addr _ (Zmq.Monitor Zmq.MonitorSocketAddr) H0 ltac:(done)) as H1.
  pose proof (not_bound_snoc addr _ Zmq.NewPairSocket H1 ltac:(done)) as H2.
  pose proof (not_bound_snoc addr _ (Zmq.ConnectPair Zmq.MonitorSocketAddr) H2 ltac:(done)) as H3.
  apply setup_run in E as [E| ->]; [|done]. apply setup_run in E as [E| ->]; [|done].
  apply setup_run in E as [E| ->]; [|done]. by eapply configure_auth_bound; [..|exact E|exact Hin].
Qed.

(** What becomes of a topic, and what it takes. *)
Definition topic_error (has : string -> result bool) (make : string -> option GoError)
    (topic : string) : option GoError :=
  match has topic with Err e => Some e | Ok true => None | Ok false => make topic end.

Definition topic_requests (has : string -> result bool) (topic : string) : list Request :=
  match has topic with
  | Ok false => [PubsubExists topic; PubsubCreateTopic topic]
  | _ => [PubsubExists topic]
  end.

Lemma createTopicIfNotExists_run p has make topic r h :
  (forall asked topic, Googlepubsub.exists_ p asked (PubsubExists topic) = has topic) ->
  (forall asked topic, Googlepubsub.createTopic p asked (PubsubCreateTopic topic) = make topic) ->
  Googlepubsub.createTopicIfNotExists p topic (r, h) =
    (Ret (topic_error has make topic), (r, h ++ (Sent <$> topic_requests has topic))).
Proof.
  intros Hhas Hmake. unfold Googlepubsub.createTopicIfNotExists, topic_error, topic_requests.
  run_steps. rewrite Hhas. destruct (has topic) as [[]|e]; run_steps; [done| |done].
  by rewrite Hmake, <- app_assoc.
Qed.

Lemma requests_sent qs : requests (Sent <$> qs) = qs.
Proof. induction qs as [|q qs IH]; [done|]. cbn. by rewrite <- IH at 2. Qed.

Lemma acked_sent qs : acked (Sent <$> qs) = [].
Proof. by induction qs. Qed.

#[export] Hint Rewrite requests_sent acked_sent : effects.

(** The provisioning of Pub/Sub creates the topics that do not exist and
    no other, in order, and stops at the first topic whose check or creation
    fails, with that error. *)
Theorem provision_creates_missing p has make l txTypes r h :
  logger (Googlepubsub.sink p) = Some l ->
  (forall asked topic, Googlepubsub.exists_ p asked (PubsubExists topic) = has topic) ->
  (forall asked topic, Googlepubsub.createTopic p asked (PubsubCreateTopic topic) = make topic) ->
  let topics := BuildTopicName (namespace (Googlepubsub.sink p)) <$> txTypes in
  let failing topic := bool_decide (is_Some (topic_error has make topic)) in
  exists t, Googlepubsub.ProvisionTopics p txTypes (r, h) =
      (Ret (head (omap (topic_error has make) topics)), (r, h ++ t)) /\
    requests t = mjoin (topic_requests has <$> until_failure failing topics) /\ acked t = [].
Proof.
  intros Hl Hhas Hmake. cbv zeta. revert h.
  induction txTypes as [|ty txTypes IH]; intros h.
  { exists []. by rewrite app_nil_r. }
  cbn [Googlepubsub.ProvisionTopics fmap list_fmap until_failure].
  set (topic := BuildTopicName _ ty). unfold mbind at 1, go_bind at 1.
  rewrite (createTopicIfNotExists_run p has make) by done.
  change (omap (topic_error has make) (topic :: ?l)) with
    (match topic_error has make topic with
     | Some y => y :: omap (topic_error has make) l
     | None => omap (topic_error has make) l
     end).
  destruct (topic_error has make topic) as [err|] eqn:He; cbn [head].
  - rewrite (bool_decide_true (is_Some (Some err))) by done. run_steps.
    rewrite (ReportError_run _ l) by done. run_steps. rewrite <- !app_assoc.
    eexists. split; [reflexivity|]. autorewrite with effects. cbn. by rewrite ?app_nil_r.
  - rewrite (bool_decide_false (is_Some None)) by (by intros []).
    unfold log_effects, ActivityLog, log_unless_suppressed. rewrite Hl. run_steps.
    match goal with |- context [Googlepubsub.ProvisionTopics p txTypes (r, ?h1)] =>
      destruct (IH h1) as (t & -> & Hr & Ha) end.
    rewrite <- !app_assoc. eexists. split; [reflexivity|].
    autorewrite with effects. cbn. by rewrite Hr, Ha.
Qed.

(** A project with one topic, and a creation that fails for one name. *)
Definition sample_pubsub : Googlepubsub.Producer :=
  let has topic := Ok (String.eqb topic "ns_V") in
  let make topic := if String.eqb topic "ns_errors" then Some (ErrorString "denied") else None in
  Googlepubsub.mkProducer (mkSink "ns" (Some (mkLogger ∅ EmptyString)) (Airbrake.mkHandler false) ∅)
    (fun _ _ => None)
    (fun _ q => match q with PubsubExists topic => has topic | _ => Ok false end)
    (fun _ q => match q with PubsubCreateTopic topic => make topic | _ => None end).

Lemma provision_creates_missing_witness :
  exists t, Googlepubsub.ProvisionTopics sample_pubsub ["V"; "alerts"; "errors"; "connectivity"]
      (new_TRecord (NewBinarySerializer None ∅ None) None "" false, []) =
      (Ret (Some (ErrorString "denied")),
       (new_TRecord (NewBinarySerializer None ∅ None) None "" false, t)) /\
    requests t = [PubsubExists "ns_V"; PubsubExists "ns_alerts"; PubsubCreateTopic "ns_alerts";
                  PubsubExists "ns_errors"; PubsubCreateTopic "ns_errors"].
Proof.
  destruct (provision_creates_missing sample_pubsub
    (fun topic => Ok (String.eqb topic "ns_V"))
    (fun topic => if String.eqb topic "ns_errors" then Some (ErrorString "denied") else None)
    (mkLogger ∅ EmptyString) ["V"; "alerts"; "errors"; "connectivity"]
    (new_TRecord (NewBinarySerializer None ∅ None) None "" false) []
    eq_refl (fun _ _ => eq_refl) (fun _ _ => eq_refl)) as (t & E & Hr & _).
  exists t. split; [exact E|]. rewrite Hr. reflexivity.
Defined.
