(* ===== verification/Mqtt.v ===== *)
(** * The MQTT producer (datastore/mqtt/)

    A record is published as JSON messages: one per field of a vehicle payload,
    the current state and the history of every alert name, one per error, one
    for a connectivity event.  Publishing returns a token at once; the producer
    waits for all of them, within one timeout, before it acknowledges.

    The Paho client and its tokens, and the reflection of the protobuf runtime,
    are not part of src/: the client is a function in the producer, as for the
    other datastores, and the reflection an interface. *)

From S2P Require Import Prelude GoStd GoTime ProtoEnums Protos ProtoRef.
From S2P Require Import Logger GoJson Telemetry SimpleLogger Datastores.
Local Open Scope string_scope.
Local Open Scope Z_scope.

(** ** Reflection *)

(** A field's value by kind, and the populated fields of a message by name, in
    the order [Range] visits them; an invalid message is [None]. *)
Inductive PValue :=
| PBool (b : bool)
| PString (s : string)
| PInt (n : Z)
| PUint (n : Z)
| PFloat (f : spec_float)
| PBytes (b : bytes)
| PEnum (name : option string) (n : Z)
| PMessage (m : option (list (string * PValue))).

Class ProtoReflection := {
  reflect_Value : Value -> list (string * PValue)
}.

(** The enumerations of the oneof: the table and the number of a value. *)
Definition enum_of (w : isValue_Value) : option (list (Z * string) * Z) :=
  match w with
  | Value_ChargingValue v => Some (ChargingState_name, v)
  | Value_HvacAutoModeValue v => Some (HvacAutoModeState_name, v)
  | Value_CabinOverheatProtectionModeValue v => Some (CabinOverheatProtectionModeState_name, v)
  | Value_CabinOverheatProtectionTemperatureLimitValue v =>
      Some (ClimateOverheatProtectionTempLimit_name, v)
  | Value_DefrostModeValue v => Some (DefrostModeState_name, v)
  | Value_ClimateKeeperModeValue v => Some (ClimateKeeperModeState_name, v)
  | Value_HvacPowerValue v => Some (HvacPowerState_name, v)
  | Value_FastChargerValue v => Some (FastCharger_name, v)
  | Value_CableTypeValue v => Some (CableType_name, v)
  | Value_TonneauTentModeValue v => Some (TonneauTentModeState_name, v)
  | Value_TonneauPositionValue v => Some (TonneauPositionState_name, v)
  | Value_PowershareTypeValue v => Some (PowershareTypeStatus_name, v)
  | Value_PowershareStateValue v => Some (PowershareState_name, v)
  | Value_PowershareStopReasonValue v => Some (PowershareStopReasonStatus_name, v)
  | Value_DisplayStateValue v => Some (DisplayState_name, v)
  | Value_DistanceUnitValue v => Some (DistanceUnit_name, v)
  | Value_TemperatureUnitValue v => Some (TemperatureUnit_name, v)
  | Value_PressureUnitValue v => Some (PressureUnit_name, v)
  | Value_ChargeUnitPreferenceValue v => Some (ChargeUnitPreference_name, v)
  | _ => None
  end.

(** What the code relies on: a set enumeration of the oneof is the one
    populated field of the message, with the name its number has, if any. *)
Class ProtoReflectionSpec (PR : ProtoReflection) : Prop := {
  reflect_enum w names n :
    enum_of w = Some (names, n) ->
    exists field, reflect_Value (mkValue (Some w)) = [(field, PEnum (lookup_name names n) n)]
}.

(** ** Data *)

Record Config := mkConfig {
  Broker : string;
  ClientID : string;
  Username : string;
  Password : string;
  TopicBase : string;
  QoS : Z;
  Retained : bool;
  ConnectTimeout : Z;
  PublishTimeout : Z;
  DisconnectTimeout : Z;
  ConnectRetryInterval : Z;
  KeepAlive : Z
}.

Definition DefaultPublishTimeout : Z := 2500.
Definition DefaultConnectTimeout : Z := 30000.
Definition DefaultConnectRetryInterval : Z := 10000.
Definition DefaultDisconnectTimeout : Z := 250.
Definition DefaultKeepAlive : Z := 30.
Definition DefaultQoS : Z := 0.

Definition defaultTimeout : Z := 5 * 10 ^ 9.

(** A publication's token: whether it completes within a time, whether it is
    completed already, and its error then. *)
Record Token := mkToken {
  WaitTimeout : Z -> bool;
  token_Done : bool;
  token_Error : option GoError
}.

(** The producer, with its client and the client's [TimedOut] error. *)
Record Producer := mkProducer {
  sink : Sink;
  config : Config;
  ctx_Err : option GoError;
  Publish : list Request -> Request -> Token;
  TimedOut : GoError
}.

(** [NewProducer]'s completion of the configuration. *)
Definition with_defaults (c : Config) : Config :=
  let or_default v d := if v =? 0 then d else v in
  mkConfig (Broker c) (ClientID c) (Username c) (Password c) (TopicBase c)
    (or_default (QoS c) DefaultQoS) (Retained c)
    (or_default (ConnectTimeout c) DefaultConnectTimeout)
    (or_default (PublishTimeout c) DefaultPublishTimeout)
    (or_default (DisconnectTimeout c) DefaultDisconnectTimeout)
    (or_default (ConnectRetryInterval c) DefaultConnectRetryInterval)
    (or_default (KeepAlive c) DefaultKeepAlive).

Definition NewProducer (c : Config) (s : Sink) (ctx : option GoError)
    (client : list Request -> Request -> Token) (timedOut : GoError) : Producer :=
  mkProducer s (with_defaults c) ctx client timedOut.

(** [Connect] on the token of the client's connection. *)
Definition Connect (token : Token) : option GoError :=
  if negb (WaitTimeout token defaultTimeout)
  then Some (ErrorString "connection attempt timed out after 5s")
  else token_Error token.

(** [Close]: the milliseconds [Disconnect] is given; it does not fail. *)
Definition Close (p : Producer) : Z * option GoError := (DisconnectTimeout (config p), None).

(** [waitTokenTimeout] *)
Definition waitTokenTimeout (p : Producer) (t : Token) (d : Z) : option GoError :=
  if d =? 0 then if token_Done t then token_Error t else Some (TimedOut p)
  else if negb (WaitTimeout t d) then Some (TimedOut p)
  else token_Error t.

(** ** Values (mqtt_payload.go) *)

(** The map of the fields that have a value. *)
Definition store_fields (fields : list (string * option any)) : gmap string any :=
  foldl (fun m e => match e.2 with Some v => <[e.1 := v]> m | None => m end) ∅ fields.

(** The body of [getProtoValue]'s callback, by the kind of the field. *)
Fixpoint proto_value (v : PValue) : option any :=
  match v with
  | PBool b => Some (ABool b)
  | PString s => Some (AString s)
  | PInt n | PUint n => Some (AInt n)
  | PFloat f => Some (AFloat64 f)
  | PBytes b => Some (ABytes b)
  | PEnum (Some name) _ => Some (AString name)
  | PEnum None n => Some (AInt n)
  | PMessage None => None
  | PMessage (Some fields) =>
      Some (AMap (store_fields ((fun e => (e.1, proto_value e.2)) <$> fields)))
  end.

(** [getProtoValue] of a valid message by its populated fields. *)
Definition getProtoValue (fields : list (string * PValue)) (returnAsToplevel : bool) : any :=
  let result := store_fields ((fun e => (e.1, proto_value e.2)) <$> fields) in
  match map_to_list result with
  | [(_, v)] => if returnAsToplevel then v else AMap result
  | _ => AMap result
  end.

(** The metrics of the package, by the names they are registered with. *)
Record Metrics := mkMetrics {
  errorCount : string;
  publishCount : string;
  byteTotal : string;
  reliableAckCount : string
}.

Definition metricsRegistry : Metrics := {|
  errorCount := "mqtt_err";
  publishCount := "mqtt_publish_total";
  byteTotal := "mqtt_publish_total_bytes";
  reliableAckCount := "mqtt_reliable_ack_total"
|}%string.

Section Operations.
Context {PE : ProtoEnums} {PC : ProtoCodec} {PR : ProtoReflection}.
(** The order in which the iteration over a map visits its entries. *)
Variable range : forall A, gmap string A -> list (string * A).

(** [getDatumValue]: reading the oneof of a nil value panics. *)
Definition getDatumValue (value : option Value) : outcome any :=
  match value with
  | None => Panic "nil pointer dereference"
  | Some value =>
      match Value_Value value with
      | Some (Value_StringValue v) => Ret (AString v)
      | Some (Value_LocationValue v) => location_map v
      | Some (Value_FloatValue v) => Ret (AFloat32 v)
      | Some (Value_IntValue v) => Ret (AInt v)
      | Some (Value_DoubleValue v) => Ret (AFloat64 v)
      | Some (Value_LongValue v) => Ret (AInt v)
      | Some (Value_BooleanValue v) => Ret (ABool v)
      | Some (Value_Invalid _) => Ret ANil
      | Some (Value_ShiftStateValue v) => Ret (AString (ShiftState_String v))
      | Some (Value_LaneAssistLevelValue v) => Ret (AString (LaneAssistLevel_String v))
      | Some (Value_ScheduledChargingModeValue v) =>
          Ret (AString (ScheduledChargingModeValue_String v))
      | Some (Value_SentryModeStateValue v) => Ret (AString (SentryModeState_String v))
      | Some (Value_SpeedAssistLevelValue v) => Ret (AString (SpeedAssistLevel_String v))
      | Some (Value_BmsStateValue v) => Ret (AString (BMSStateValue_String v))
      | Some (Value_BuckleStatusValue v) => Ret (AString (BuckleStatus_String v))
      | Some (Value_CarTypeValue v) => Ret (AString (CarTypeValue_String v))
      | Some (Value_ChargePortValue v) => Ret (AString (ChargePortValue_String v))
      | Some (Value_ChargePortLatchValue v) => Ret (AString (ChargePortLatchValue_String v))
      | Some (Value_DoorValue v) => doors_map v
      | Some (Value_DriveInverterStateValue v) => Ret (AString (DriveInverterState_String v))
      | Some (Value_HvilStatusValue v) => Ret (AString (HvilStatus_String v))
      | Some (Value_WindowStateValue v) => Ret (AString (WindowState_String v))
      | Some (Value_SeatFoldPositionValue v) => Ret (AString (SeatFoldPosition_String v))
      | Some (Value_TractorAirStatusValue v) => Ret (AString (TractorAirStatus_String v))
      | Some (Value_FollowDistanceValue v) => Ret (AString (FollowDistance_String v))
      | Some (Value_ForwardCollisionSensitivityValue v) =>
          Ret (AString (ForwardCollisionSensitivity_String v))
      | Some (Value_GuestModeMobileAccessValue v) =>
          Ret (AString (GuestModeMobileAccess_String v))
      | Some (Value_TrailerAirStatusValue v) => Ret (AString (TrailerAirStatus_String v))
      | Some (Value_TimeValue v) => time_text v
      | Some (Value_DetailedChargeStateValue v) =>
          Ret (AString (DetailedChargeStateValue_String v))
      | Some (Value_SunroofInstalledStateValue v) =>
          Ret (AString (SunroofInstalledState_String v))
      | Some (Value_TurnSignalStateValue v) => Ret (AString (TurnSignalState_String v))
      | Some (Value_MediaStatusValue v) => Ret (AString (MediaStatus_String v))
      | _ => Ret (getProtoValue (reflect_Value value) true)
      end
  end.

(** [payloadToMap]: the last datum of a field counts. *)
Fixpoint payloadToMap_loop (data : list (option Datum)) (convertedPayload : any_map)
  : outcome any_map :=
  match data with
  | [] => Ret convertedPayload
  | None :: _ => Panic "nil pointer dereference"
  | Some datum :: data =>
      value ← getDatumValue (Datum_Value datum);
      payloadToMap_loop data (<[Field_String (Datum_Key datum) := value]> convertedPayload)
  end.

Definition payloadToMap (payload : Payload) : outcome any_map :=
  payloadToMap_loop (Payload_Data payload) ∅.

Definition rfc3339 (t : GoTime) : any := AString (time.Format_RFC3339 t).

Definition vehicleAlertToMqttMap (alert : VehicleAlert) : any_map :=
  <["Audiences" := audiences_value (Alert_Audiences alert)]>
    (time_entry "EndedAt" rfc3339 (Alert_EndedAt alert)
      (time_entry "StartedAt" rfc3339 (Alert_StartedAt alert) ∅))%string.

(** The tags of a message without any are a nil map, whose JSON is [null]. *)
Definition tags_value (tags : gmap string string) : any :=
  if decide (tags = ∅) then ANil else AMap (AString <$> tags).

Definition vehicleErrorToMqttMap (e : VehicleError) : any_map :=
  time_entry "CreatedAt" rfc3339 (Error_CreatedAt e) (list_to_map
    [("Body", AString (Error_Body e)); ("Tags", tags_value (Error_Tags e))]%string).

(** ** Publishing *)

(** [updateMetrics] *)
Definition updateMetrics (txType : string) (byteCount : Z) : history :=
  [Add (byteTotal metricsRegistry) byteCount [("record_type", txType)];
   Inc (publishCount metricsRegistry) [("record_type", txType)]]%string.

(** The body of the publishing loops: a topic and a value, published as JSON and
    counted if [counted]. *)
Definition publish_json (p : Producer) (counted : bool) (topicName : string) (value : any)
  : go pstate (result Token) :=
  rec ← the_entry;
  match json_Marshal value with
  | Err err =>
      mret (Err (ErrorString ("failed to marshal JSON for MQTT topic " +:+ topicName +:+ ": " +:+
                              Error_String err)))
  | Ok jsonValue =>
      token ← call (Publish p)
        (MqttPublish topicName (QoS (config p)) (Retained (config p)) jsonValue);
      emit (if counted then updateMetrics (TxType rec) (Z.of_nat (length jsonValue)) else []);;
      mret (Ok token)
  end.

(** The loops, up to the first value that has no JSON. *)
Fixpoint publish_each (p : Producer) (counted : bool) (l : list (string * any))
  : go pstate (result (list Token)) :=
  match l with
  | [] => mret (Ok [])
  | (topicName, value) :: l =>
      token ← publish_json p counted topicName value;
      match token with
      | Err err => mret (Err err)
      | Ok token =>
          tokens ← publish_each p counted l;
          mret (tokens ← tokens; Ok (token :: tokens))
      end
  end.

(** The topics: [base/VIN/suffix]. *)
Definition topic (p : Producer) (rec : TRecord) (suffix : string) : string :=
  (TopicBase (config p) +:+ "/" +:+ Vin rec +:+ "/" +:+ suffix)%string.

Definition field_messages (p : Producer) (rec : TRecord) (convertedPayload : any_map)
  : list (string * any) :=
  (fun '(key, value) => (topic p rec ("v/" +:+ key), value)) <$> range _ convertedPayload.

Definition processVehicleFields (p : Producer) (payload : Payload)
  : go pstate (result (list Token)) :=
  rec ← the_entry;
  convertedPayload ← lift (payloadToMap payload);
  publish_each p true (field_messages p rec convertedPayload).

(** The loop that gathers the history and the current state of each name. *)
Definition alert_started_after (alert current : VehicleAlert) : bool :=
  time.After (Timestamp_AsTime (Alert_StartedAt alert)) (Timestamp_AsTime (Alert_StartedAt current)).

Definition gather_alert
    (acc : gmap string (list VehicleAlert) * gmap string VehicleAlert) (alert : VehicleAlert)
  : gmap string (list VehicleAlert) * gmap string VehicleAlert :=
  let '(alertsHistory, alertsCurrentState) := acc in
  let name := Alert_Name alert in
  let past : list VehicleAlert := default [] (alertsHistory !! name) in
  let current : gmap string VehicleAlert :=
    match Alert_StartedAt alert with
    | None => alertsCurrentState
    | Some _ =>
        match alertsCurrentState !! name with
        | Some current => if alert_started_after alert current
                          then <[name := alert]> alertsCurrentState else alertsCurrentState
        | None => <[name := alert]> alertsCurrentState
        end
    end in
  (<[name := (past ++ [alert])%list]> alertsHistory, current).

Definition gather_alerts (alerts : list VehicleAlert)
  : gmap string (list VehicleAlert) * gmap string VehicleAlert :=
  foldl gather_alert (∅, ∅) alerts.

(** The current states, then the histories. *)
Definition alert_messages (p : Producer) (rec : TRecord) (alerts : list VehicleAlert)
  : list (string * any) :=
  let '(alertsHistory, alertsCurrentState) := gather_alerts alerts in
  (((fun '(_, alert) => (topic p rec ("alerts/" +:+ Alert_Name alert +:+ "/current"),
                         AMap (vehicleAlertToMqttMap alert))) <$> range _ alertsCurrentState) ++
   ((fun '(name, alerts) => (topic p rec ("alerts/" +:+ name +:+ "/history"),
       AList ((fun a => AMap (vehicleAlertToMqttMap a)) <$> alerts))) <$> range _ alertsHistory))%list.

Definition processVehicleAlerts (p : Producer) (payload : VehicleAlerts)
  : go pstate (result (list Token)) :=
  rec ← the_entry;
  publish_each p true (alert_messages p rec (Alerts_Alerts payload)).

Definition error_messages (p : Producer) (rec : TRecord) (errors : list VehicleError)
  : list (string * any) :=
  (fun e => (topic p rec ("errors/" +:+ Error_Name e), AMap (vehicleErrorToMqttMap e))) <$> errors.

Definition processVehicleErrors (p : Producer) (payload : VehicleErrors)
  : go pstate (result (list Token)) :=
  rec ← the_entry;
  publish_each p true (error_messages p rec (Errors_Errors payload)).

Definition connectivity_value (payload : VehicleConnectivity) : any :=
  AMap (list_to_map
    [("ConnectionId", AString (Connectivity_ConnectionId payload));
     ("Status", AString (ConnectivityEvent_String (Connectivity_Status payload)));
     ("CreatedAt", rfc3339 (Timestamp_AsTime (Connectivity_CreatedAt payload)))]).

(** The one message of a connectivity event is not counted. *)
Definition processVehicleConnectivity (p : Producer) (payload : VehicleConnectivity)
  : go pstate (result (list Token)) :=
  rec ← the_entry;
  publish_each p false [(topic p rec "connectivity", connectivity_value payload)].

(** ** The producer (mqtt.go) *)

Definition createLogInfo (p : Producer) (rec : TRecord) : LogInfo :=
  list_to_map [("topic_name", AString (BuildTopicName (namespace (sink p)) (TxType rec)));
               ("txid", AString (Txid rec)); ("vin", AString (Vin rec))].

Definition ProcessReliableAck (p : Producer) (entry : TRecord) : go pstate () :=
  ProcessReliableAck (sink p) (reliableAckCount metricsRegistry) entry.

Definition ReportError (p : Producer) (message : string) (err : option GoError) (logInfo : LogInfo)
  : go pstate () :=
  ReportError (sink p) message err logInfo.

(** The wait for the tokens: whether all completed without error.  [elapsed]
    are the readings of the time since the wait began. *)
Fixpoint wait_tokens (p : Producer) (rec : TRecord) (timeout : Z) (elapsed : nat -> Z)
    (tokens : list Token) : go pstate bool :=
  match tokens with
  | [] => mret true
  | token :: tokens =>
      let remaining := timeout - elapsed O in
      let remainingTimeout := if remaining <? 0 then 0 else remaining in
      match waitTokenTimeout p token remainingTimeout with
      | Some err =>
          emit [Inc (errorCount metricsRegistry) (record_type rec)];;
          ReportError p "mqtt_publish_error" (Some err) (createLogInfo p rec);;
          _ ← wait_tokens p rec timeout (elapsed ∘ S) tokens;
          mret false
      | None => wait_tokens p rec timeout (elapsed ∘ S) tokens
      end
  end.

Definition Produce (p : Producer) (elapsed : nat -> Z) : go pstate () :=
  rec ← the_entry;
  match ctx_Err p with
  | Some _ => skip
  | None =>
      match protoMessage rec with
      | None => ReportError p "mqtt_unknown_payload_type" None (createLogInfo p rec)
      | Some message =>
          tokens ← match message with
                   | MPayload payload => processVehicleFields p payload
                   | MVehicleAlerts payload => processVehicleAlerts p payload
                   | MVehicleErrors payload => processVehicleErrors p payload
                   | MVehicleConnectivity payload => processVehicleConnectivity p payload
                   end;
          match tokens with
          | Err err =>
              emit [Inc (errorCount metricsRegistry) (record_type rec)];;
              ReportError p "mqtt_process_payload_error" (Some err) (createLogInfo p rec)
          | Ok tokens =>
              published ← wait_tokens p rec (PublishTimeout (config p) * 10 ^ 6) elapsed tokens;
              if published : bool then ProcessReliableAck p rec else skip
          end
      end
  end.
End Operations.

(** ** The specification: messages, and whether the broker took them *)

Section Specification.
Context {PE : ProtoEnums} {PC : ProtoCodec} {PR : ProtoReflection}.
Variable range : forall A, gmap string A -> list (string * A).

(** The topics and values of a record. *)
Definition messages_of (p : Producer) (r : TRecord) (m : ProtoMessage)
  : outcome (list (string * any)) :=
  match m with
  | MPayload m => converted ← payloadToMap m; Ret (field_messages range p r converted)
  | MVehicleAlerts m => Ret (alert_messages range p r (Alerts_Alerts m))
  | MVehicleErrors m => Ret (error_messages p r (Errors_Errors m))
  | MVehicleConnectivity m => Ret [(topic p r "connectivity", connectivity_value m)]
  end.

Definition mqtt_request (p : Producer) (topicName : string) (j : bytes) : Request :=
  MqttPublish topicName (QoS (config p)) (Retained (config p)) j.

(** The requests of the messages up to the first without JSON. *)
Fixpoint mqtt_requests (p : Producer) (l : list (string * any)) : list Request :=
  match l with
  | [] => []
  | (topicName, value) :: l =>
      match json_Marshal value with
      | Ok j => mqtt_request p topicName j :: mqtt_requests p l
      | Err _ => []
      end
  end.

(** The tokens of the messages, if all have JSON. *)
Fixpoint mqtt_tokens (p : Producer) (asked : list Request) (l : list (string * any))
  : option (list Token) :=
  match l with
  | [] => Some []
  | (topicName, value) :: l =>
      match json_Marshal value with
      | Ok j => cons (Publish p asked (mqtt_request p topicName j)) <$>
                mqtt_tokens p (asked ++ [mqtt_request p topicName j])%list l
      | Err _ => None
      end
  end.

(** Every token completes without error within what is left of the timeout. *)
Fixpoint all_complete (p : Producer) (timeout : Z) (elapsed : nat -> Z) (tokens : list Token) : bool :=
  match tokens with
  | [] => true
  | token :: tokens =>
      negb (bool_decide (is_Some (waitTokenTimeout p token (Z.max 0 (timeout - elapsed O))))) &&
      all_complete p timeout (elapsed ∘ S) tokens
  end.

#[export] Instance mqtt_producer : AckingProducer Producer := {|
  ap_sink := sink;
  ap_ready p r := is_Some (logger (sink p)) /\
    forall m, protoMessage r = Some m -> exists l, messages_of p r m = Ret l;
  ap_run p clock := Produce range p clock;
  ap_stored p clock r asked :=
    match ctx_Err p, protoMessage r with
    | None, Some m =>
        match messages_of p r m with
        | Ret l =>
            match mqtt_tokens p asked l with
            | Some tokens => all_complete p (PublishTimeout (config p) * 10 ^ 6) clock tokens
            | None => false
            end
        | Panic _ => false
        end
    | _, _ => false
    end
|}.

Lemma acked_updateMetrics txType n (counted : bool) :
  acked (if counted then updateMetrics txType n else []) = [] /\
  requests (if counted then updateMetrics txType n else []) = [].
Proof. by destruct counted. Qed.

Lemma publish_each_run p counted l r h :
  exists t, acked t = [] /\ requests t = mqtt_requests p l /\
    match mqtt_tokens p (requests h) l with
    | Some tokens => publish_each p counted l (r, h) = (Ret (Ok tokens), (r, h ++ t)%list)
    | None => exists e, publish_each p counted l (r, h) = (Ret (Err e), (r, h ++ t)%list)
    end.
Proof.
  revert h. induction l as [|[topicName value] l IH]; intros h; cbn.
  { exists []. by rewrite app_nil_r. }
  unfold publish_json. destruct (json_Marshal value) as [j|e]; run_steps.
  2: { exists []. rewrite app_nil_r. split; [done|]. split; [done|]. by eexists. }
  fold (mqtt_request p topicName j).
  destruct (acked_updateMetrics (TxType r) (Z.of_nat (length j)) counted) as [Ha Hr].
  match goal with |- context [publish_each p counted l (r, ?h1)] => destruct (IH h1) as (t & Ht & Hq & H) end.
  rewrite !requests_app, Hr in H. cbn in H. rewrite app_nil_r in H.
  set (counts := if counted then _ else _) in *.
  exists (Sent (mqtt_request p topicName j) :: counts ++ t)%list.
  cbn [acked requests]. rewrite acked_app, requests_app, Ha, Hr, Ht, Hq.
  split; [done|]. split; [done|].
  replace (h ++ Sent (mqtt_request p topicName j) :: counts ++ t)%list
    with (((h ++ [Sent (mqtt_request p topicName j)]) ++ counts) ++ t)%list
    by (by rewrite <- !app_assoc).
  destruct (mqtt_tokens p _ l) as [tokens|]; cbn [fmap option_fmap option_map].
  - by rewrite H.
  - destruct H as [e ->]. by exists e.
Qed.

Lemma wait_tokens_run p l r timeout elapsed tokens h :
  logger (sink p) = Some l ->
  exists t, acked t = [] /\ requests t = [] /\
    wait_tokens p r timeout elapsed tokens (r, h) =
      (Ret (all_complete p timeout elapsed tokens), (r, h ++ t)%list).
Proof.
  intros Hl. revert elapsed h. induction tokens as [|token tokens IH]; intros elapsed h; cbn.
  { exists []. by rewrite app_nil_r. }
  assert (Hmax : (if timeout - elapsed O <? 0 then 0 else timeout - elapsed O) =
                 Z.max 0 (timeout - elapsed O)) by (destruct (Z.ltb_spec (timeout - elapsed O) 0); lia).
  rewrite Hmax. destruct (waitTokenTimeout p token _) as [err|]; cbn.
  - run_steps. unfold ReportError. rewrite (ReportError_run _ l) by done.
    match goal with |- context [wait_tokens p r timeout ?f tokens (r, ?h1)] =>
      destruct (IH f h1) as (t & Ht & Hq & ->) end.
    rewrite <- !app_assoc. eexists. split; [|split]; [| |reflexivity];
      autorewrite with effects; cbn; by rewrite ?Ht, ?Hq.
  - destruct (IH (elapsed ∘ S) h) as (t & Ht & Hq & E). by exists t.
Qed.
(** The messages of a record are published whatever its kind. *)
Lemma process_run p r m l h :
  messages_of p r m = Ret l ->
  exists counted,
    (match m with
     | MPayload payload => processVehicleFields range p payload
     | MVehicleAlerts payload => processVehicleAlerts range p payload
     | MVehicleErrors payload => processVehicleErrors p payload
     | MVehicleConnectivity payload => processVehicleConnectivity p payload
     end) (r, h) = publish_each p counted l (r, h).
Proof.
  intros Hm. destruct m as [m|m|m|m]; cbn in Hm.
  - exists true. unfold processVehicleFields. run_steps. unfold lift.
    destruct (payloadToMap m) as [converted|]; [|done]. by injection Hm as <-.
  - exists true. by injection Hm as <-.
  - exists true. by injection Hm as <-.
  - exists false. by injection Hm as <-.
Qed.

(** What [Produce] asks of the broker is the messages of the record. *)
Lemma Produce_run p r h elapsed :
  ap_ready p r ->
  exists t, Produce range p elapsed (r, h) = (Ret (), (r, h ++ t)%list) /\
    acked t = (if ap_stored p elapsed r (requests h) &&
                  bool_decide (TxType r ∈ reliableAckTxTypes (sink p)) then [r] else []) /\
    requests t = match ctx_Err p, protoMessage r with
                 | None, Some m => match messages_of p r m with
                                   | Ret l => mqtt_requests p l
                                   | Panic _ => []
                                   end
                 | _, _ => []
                 end.
Proof.
  intros [[l Hl] Hm]. unfold Produce. run_steps.
  destruct (ctx_Err p) as [e|].
  { exists []. by rewrite app_nil_r. }
  destruct (protoMessage r) as [m|].
  2: { unfold ReportError. rewrite (ReportError_run _ l) by done. eexists. split; [reflexivity|].
       by autorewrite with effects. }
  destruct (Hm m eq_refl) as [msgs Hmsgs]. rewrite Hmsgs.
  destruct (process_run p r m msgs h Hmsgs) as [counted ->].
  destruct (publish_each_run p counted msgs r h) as (t1 & Ha1 & Hq1 & H1).
  destruct (mqtt_tokens p (requests h) msgs) as [tokens|].
  - rewrite H1.
    destruct (wait_tokens_run p l r (PublishTimeout (config p) * 10 ^ 6) elapsed tokens (h ++ t1)%list Hl)
      as (t2 & Ha2 & Hq2 & E2). rewrite E2.
    destruct (all_complete _ _ _ _); unfold ProcessReliableAck; run_steps; rewrite <- ?app_assoc.
    + eexists. split; [reflexivity|]. autorewrite with effects. by rewrite ?Ha1, ?Ha2, ?Hq1, ?Hq2, ?app_nil_r.
    + eexists. split; [reflexivity|]. autorewrite with effects. by rewrite ?Ha1, ?Ha2, ?Hq1, ?Hq2, ?app_nil_r.
  - destruct H1 as [e ->]. unfold ReportError. run_steps. rewrite (ReportError_run _ l) by done.
    rewrite <- !app_assoc. eexists. split; [reflexivity|].
    autorewrite with effects. cbn. autorewrite with effects. by rewrite ?Ha1, ?Hq1, ?app_nil_r.
Qed.

#[export] Instance mqtt_contract : AckingProducerSpec Producer.
Proof.
  intros p clock r h Hready. destruct (Produce_run p r h clock Hready) as (t & E & Ha & _).
  exists r, t. split; [exact E|]. split; [by left|exact Ha].
Qed.
End Specification.

(** ** Lemmas on the values *)

Section Lemmas.
Context {PE : ProtoEnums} {PC : ProtoCodec} {PR : ProtoReflection}.

Lemma time_entry_json name x m :
  map_Forall (fun _ => has_json) m -> map_Forall (fun _ => has_json) (time_entry name rfc3339 x m).
Proof. unfold time_entry. intros Hm. destruct x; [|done]. by apply map_Forall_insert_2; [by eexists|]. Qed.

Lemma audiences_json l : has_json (audiences_value l).
Proof.
  destruct l as [|a l]; [by eexists|]. cbn [audiences_value]. apply has_json_list, Forall_fmap, Forall_forall.
  intros x _. by eexists.
Qed.

Lemma alert_json a : has_json (AMap (vehicleAlertToMqttMap a)).
Proof.
  apply has_json_map. unfold vehicleAlertToMqttMap.
  apply map_Forall_insert_2; [apply audiences_json|]. do 2 apply time_entry_json. apply map_Forall_empty.
Qed.

Lemma alerts_json l : has_json (AList ((fun a => AMap (vehicleAlertToMqttMap a)) <$> l)).
Proof. apply has_json_list, Forall_fmap, Forall_forall. intros a _. apply alert_json. Qed.

(** The text of a value that has one. *)
Definition json_of (v : any) : bytes := match json_Marshal v with Ok j => j | Err _ => [] end.

Lemma alert_messages_json p r (range : forall A, gmap string A -> list (string * A)) l :
  Forall (fun m => has_json m.2) (alert_messages range p r l).
Proof.
  unfold alert_messages. destruct (gather_alerts l) as [past current].
  apply Forall_app. split; apply Forall_fmap, Forall_forall; intros [name a] _; cbn;
    [apply alert_json|apply alerts_json].
Qed.

Lemma mqtt_requests_json p l :
  Forall (fun m => has_json m.2) l ->
  mqtt_requests p l = (fun m => mqtt_request p m.1 (json_of m.2)) <$> l.
Proof.
  induction 1 as [|[t v] l Hv _ IH]; [done|]. cbn in *.
  destruct (has_json_Marshal v Hv) as [j Hj]. unfold json_of. by rewrite Hj, IH.
Qed.

(** *** Fields *)

(** The value of a datum, when it has one. *)
Definition value_of (value : option Value) : option any :=
  match getDatumValue value with Ret x => Some x | Panic _ => None end.

Definition has_value (d : option Datum) : Prop :=
  exists key value x, d = Some (mkDatum key value) /\ value_of value = Some x.

(** The value of the last datum whose field has a name. *)
Definition last_value (name : string) (data : list (option Datum)) : option any :=
  last (omap (fun d : option Datum =>
    d ← d; if String.eqb (Field_String (Datum_Key d)) name then value_of (Datum_Value d) else None) data).

Lemma last_value_snoc name data key value x :
  value_of value = Some x ->
  last_value name (data ++ [Some (mkDatum key value)]) =
    if String.eqb (Field_String key) name then Some x else last_value name data.
Proof.
  intros Hx. unfold last_value. rewrite omap_app. cbn. destruct (String.eqb _ _).
  - by rewrite Hx, last_snoc.
  - by rewrite app_nil_r.
Qed.

(** The loop runs over data with values up to the first without. *)
Lemma payloadToMap_loop_app data rest m :
  Forall has_value data ->
  exists m', payloadToMap_loop (data ++ rest) m = payloadToMap_loop rest m' /\
    forall name, m' !! name = match last_value name data with Some x => Some x | None => m !! name end.
Proof.
  intros Hall. revert rest. induction data as [|d data IH] using rev_ind; intros rest.
  { by exists m. }
  apply Forall_app in Hall as [Hall Hd]. inversion_clear Hd as [|? ? (key & value & x & -> & Hx) _].
  rewrite <- app_assoc. destruct (IH Hall (Some (mkDatum key value) :: rest)%list) as (m1 & E & Hm1).
  cbn [app]. rewrite E. cbn.
  assert (Hv : getDatumValue value = Ret x)
    by (unfold value_of in Hx; by destruct (getDatumValue value); simplify_eq).
  rewrite Hv. eexists. split; [reflexivity|]. intros name. rewrite (last_value_snoc _ _ _ _ x) by done.
  destruct (String.eqb_spec (Field_String key) name) as [->|Hne].
  - apply lookup_insert_eq.
  - by rewrite lookup_insert_ne.
Qed.


(** A datum with a value that has JSON. *)
Definition publishable (d : option Datum) : Prop :=
  exists key value x, d = Some (mkDatum key value) /\ value_of value = Some x /\ has_json x.

Lemma publishable_value d : publishable d -> has_value d.
Proof. intros (key & value & x & -> & Hx & _). by exists key, value, x. Qed.

Lemma last_value_json name data x :
  Forall publishable data -> last_value name data = Some x -> has_json x.
Proof.
  induction data as [|d data IH] using rev_ind; [done|].
  intros [Hall (key & value & y & -> & Hy & Hj)%Forall_singleton]%Forall_app.
  rewrite (last_value_snoc _ _ _ _ y) by done. destruct (String.eqb _ _); [congruence|by apply IH].
Qed.

(** *** Tokens *)

Lemma mqtt_tokens_some p asked l tokens :
  mqtt_tokens p asked l = Some tokens ->
  mqtt_requests p l = (fun e => mqtt_request p e.1 (json_of e.2)) <$> l /\
  forall i q, mqtt_requests p l !! i = Some q ->
    tokens !! i = Some (Publish p (asked ++ take i (mqtt_requests p l))%list q).
Proof.
  revert asked tokens. induction l as [|[t v] l IH]; intros asked tokens; cbn; [done|].
  unfold json_of at 1. destruct (json_Marshal v) as [j|e]; [|done].
  destruct (mqtt_tokens p _ l) as [tokens'|] eqn:E; [|done]. intros [= <-].
  destruct (IH _ _ E) as [Hq Ht]. split; [by rewrite Hq|]. intros [|i] q; cbn.
  - intros [= <-]. by rewrite app_nil_r.
  - intros Hi. etransitivity; [exact (Ht i q Hi)|]. by rewrite <- app_assoc.
Qed.

Lemma all_complete_lookup p timeout elapsed tokens i token :
  all_complete p timeout elapsed tokens = true -> (forall n, 0 <= elapsed n) ->
  tokens !! i = Some token ->
  exists d, 0 <= d <= Z.max 0 timeout /\ waitTokenTimeout p token d = None.
Proof.
  revert elapsed i. induction tokens as [|token' tokens IH]; intros elapsed i; [done|]. cbn.
  rewrite andb_true_iff, negb_true_iff, bool_decide_eq_false. intros [Hw Hc] He.
  destruct i as [|i]; cbn.
  - intros [= ->]. apply eq_None_not_Some in Hw. eexists. split; [|exact Hw]. specialize (He 0%nat). lia.
  - intros Hi. apply (IH (elapsed ∘ S) i Hc); [|done]. intros n. apply He.
Qed.

(** *** Alerts *)

(** The alerts of a name, and those of them that have started. *)
Definition named (name : string) (l : list VehicleAlert) : list VehicleAlert :=
  List.filter (fun a => String.eqb (Alert_Name a) name) l.
Definition started (name : string) (l : list VehicleAlert) : list VehicleAlert :=
  List.filter (fun a => bool_decide (is_Some (Alert_StartedAt a))) (named name l).

(** The first of the alerts that no other starts after. *)
Definition latest (l : list VehicleAlert) (a : VehicleAlert) : Prop :=
  exists before after, l = (before ++ a :: after)%list /\
    Forall (fun b => alert_started_after a b = true) before /\
    Forall (fun b => alert_started_after b a = false) after.

Lemma After_asym t u : time.After t u = true -> time.After u t = false.
Proof.
  unfold time.After. rewrite !orb_true_iff, !orb_false_iff, !andb_true_iff, !andb_false_iff,
    !Z.ltb_lt, !Z.ltb_ge, !Z.eqb_eq, !Z.eqb_neq. lia.
Qed.

Lemma After_above t u v : time.After t u = true -> time.After v u = false -> time.After t v = true.
Proof.
  unfold time.After. rewrite !orb_true_iff, !orb_false_iff, !andb_true_iff, !andb_false_iff,
    !Z.ltb_lt, !Z.ltb_ge, !Z.eqb_eq, !Z.eqb_neq. lia.
Qed.

(** One more started alert. *)
Lemma latest_snoc l a b :
  latest l a -> latest (l ++ [b])%list (if alert_started_after b a then b else a).
Proof.
  intros (before & after & -> & Hb & Ha). unfold alert_started_after in *.
  destruct (time.After _ _) eqn:E.
  - exists (before ++ a :: after)%list, []. split; [done|]. split; [|constructor].
    apply Forall_app. split; [|constructor; [done|]].
    + eapply Forall_impl; [exact Hb|]. intros x Hx. by apply (After_above _ _ _ E), After_asym.
    + eapply Forall_impl; [exact Ha|]. intros x Hx. by apply (After_above _ _ _ E).
  - exists before, (after ++ [b])%list. rewrite <- app_assoc. split; [done|]. split; [done|].
    apply Forall_app. split; [done|]. by constructor.
Qed.

(** What [gather_alerts] computes for every name. *)
Definition gathered (name : string) (l : list VehicleAlert)
    (acc : gmap string (list VehicleAlert) * gmap string VehicleAlert) : Prop :=
  acc.1 !! name = match named name l with [] => None | _ => Some (named name l) end /\
  match acc.2 !! name with
  | Some a => latest (started name l) a
  | None => started name l = []
  end.

Lemma named_snoc name l a :
  named name (l ++ [a]) = (named name l ++ if String.eqb (Alert_Name a) name then [a] else [])%list.
Proof. unfold named. rewrite List.filter_app. cbn. by destruct (String.eqb _ _). Qed.

Lemma started_snoc name l a :
  started name (l ++ [a]) = (started name l ++
    if String.eqb (Alert_Name a) name && bool_decide (is_Some (Alert_StartedAt a)) then [a] else [])%list.
Proof.
  unfold started. rewrite named_snoc, List.filter_app. f_equal.
  destruct (String.eqb _ _); [|done]. cbn. by destruct (bool_decide _).
Qed.

Lemma gather_alert_step name l a acc :
  gathered name l acc -> gathered name (l ++ [a]) (gather_alert acc a).
Proof.
  destruct acc as [past current]. intros [Hp Hc]. unfold gathered, gather_alert in *. cbn in *.
  rewrite named_snoc, started_snoc.
  destruct (String.eqb_spec (Alert_Name a) name) as [->|Hne].
  - rewrite lookup_insert_eq, Hp. split.
    { by destruct (named name l). }
    destruct (Alert_StartedAt a) as [t|]; cbn; [|by rewrite app_nil_r].
    destruct (current !! name) as [b|] eqn:Hb.
    + pose proof (latest_snoc _ _ a Hc) as Hl. destruct (alert_started_after a b).
      * by rewrite lookup_insert_eq.
      * by rewrite Hb.
    + rewrite lookup_insert_eq, Hc. exists [], []. done.
  - rewrite lookup_insert_ne, !app_nil_r by done. split; [done|].
    destruct (Alert_StartedAt a); [|done].
    destruct (current !! Alert_Name a) as [b|]; [destruct (alert_started_after a b)|];
      by rewrite ?lookup_insert_ne by done.
Qed.

Lemma gather_alerts_gathered name l : gathered name l (gather_alerts l).
Proof.
  unfold gather_alerts. induction l as [|a l IH] using rev_ind; [done|].
  rewrite foldl_app. by apply gather_alert_step.
Qed.
End Lemmas.

(** ** Properties *)

Section Properties.
Context {PE : ProtoEnums} {PC : ProtoCodec} {PR : ProtoReflection}.
Variable range : forall A, gmap string A -> list (string * A).
Hypothesis range_entries : forall A (m : gmap string A), range A m ≡ₚ map_to_list m.

Lemma latest_named name l a : latest (started name l) a -> Alert_Name a = name.
Proof.
  intros (before & after & E & _). assert (Hin : a ∈ started name l).
  { rewrite E. set_solver. }
  apply list_elem_of_In, filter_In in Hin as [[_ H]%filter_In _]. by apply String.eqb_eq.
Qed.

(** The messages of alerts, whatever the order of the iterations. *)
Lemma alert_messages_entries p r l :
  alert_messages range p r l ≡ₚ
    ((fun e => (topic p r ("alerts/" +:+ e.1 +:+ "/current"), AMap (vehicleAlertToMqttMap e.2))) <$>
       map_to_list (gather_alerts l).2) ++
    ((fun e => (topic p r ("alerts/" +:+ e.1 +:+ "/history"),
                AList ((fun a => AMap (vehicleAlertToMqttMap a)) <$> e.2))) <$>
       map_to_list (gather_alerts l).1).
Proof.
  unfold alert_messages. destruct (gather_alerts l) as [past current] eqn:E. cbn.
  apply Permutation_app.
  - rewrite range_entries. apply reflexive_eq, list_fmap_ext. intros i [name a] Hi. cbn.
    apply list_elem_of_lookup_2, elem_of_map_to_list in Hi.
    pose proof (gather_alerts_gathered name l) as [_ Hc]. rewrite E in Hc. cbn in Hc.
    rewrite Hi in Hc. by rewrite (latest_named _ _ _ Hc).
  - rewrite range_entries. apply reflexive_eq, list_fmap_ext. by intros i [name a] _.
Qed.

(** The payloads of alerts and errors do not carry their names. *)
Lemma payloads_without_name a e :
  vehicleAlertToMqttMap a !! "Name" = None /\ vehicleErrorToMqttMap e !! "Name" = None.
Proof.
  unfold vehicleAlertToMqttMap, vehicleErrorToMqttMap, time_entry.
  split; repeat case_match; by simplify_map_eq.
Qed.

(** C17: a record of alerts is published as two messages per alert name: the
    history, which holds the alerts of that name in the order of the record,
    and, if one of them has started, the current state, which is the first of
    the started alerts of that name that no other starts after.  Nothing else
    is published, in whatever order the maps are iterated.  The producer's
    README documents a Name in each alert: there is none
    ([payloads_without_name]), the name is in the topic only. *)
Theorem alerts_published p l r h m elapsed :
  logger (sink p) = Some l -> ctx_Err p = None -> protoMessage r = Some (MVehicleAlerts m) ->
  exists t (past : gmap string (list VehicleAlert)) (current : gmap string VehicleAlert),
    Produce range p elapsed (r, h) = (Ret (), (r, (h ++ t)%list)) /\
    (forall name, past !! name =
      match named name (Alerts_Alerts m) with [] => None | alerts => Some alerts end) /\
    (forall name, match current !! name with
                  | Some a => latest (started name (Alerts_Alerts m)) a
                  | None => started name (Alerts_Alerts m) = []
                  end) /\
    requests t ≡ₚ
      ((fun e => mqtt_request p (topic p r ("alerts/" +:+ e.1 +:+ "/current"))
                   (json_of (AMap (vehicleAlertToMqttMap e.2)))) <$> map_to_list current) ++
      ((fun e => mqtt_request p (topic p r ("alerts/" +:+ e.1 +:+ "/history"))
                   (json_of (AList ((fun a => AMap (vehicleAlertToMqttMap a)) <$> e.2)))) <$>
         map_to_list past).
Proof.
  intros Hl Hctx Hm. assert (Hready : ap_ready (AckingProducer := mqtt_producer range) p r).
  { split; [by eexists|]. rewrite Hm. intros m' [= <-]. by eexists. }
  destruct (Produce_run range p r h elapsed Hready) as (t & E & _ & Hq).
  exists t, (gather_alerts (Alerts_Alerts m)).1, (gather_alerts (Alerts_Alerts m)).2.
  split; [exact E|].
  split; [intros name; rewrite (proj1 (gather_alerts_gathered name _)); by destruct (named name _)|].
  split; [intros name; apply (proj2 (gather_alerts_gathered name _))|].
  rewrite Hq, Hctx, Hm. cbn [messages_of].
  pose proof (alert_messages_entries p r (Alerts_Alerts m)) as Hperm.
  rewrite mqtt_requests_json by apply alert_messages_json.
  by rewrite Hperm, fmap_app, <- !list_fmap_compose.
Qed.

(** C7: a data record whose values have JSON is published as one message per
    field name, with the JSON of the value of the last datum of that field, and
    nothing else, in whatever order the map is iterated. *)
Theorem fields_published p l r h m elapsed :
  logger (sink p) = Some l -> ctx_Err p = None -> protoMessage r = Some (MPayload m) ->
  Forall publishable (Payload_Data m) ->
  exists t (values : gmap string any),
    Produce range p elapsed (r, h) = (Ret (), (r, (h ++ t)%list)) /\
    (forall name, values !! name = last_value name (Payload_Data m)) /\
    requests t ≡ₚ (fun e => mqtt_request p (topic p r ("v/" +:+ e.1)) (json_of e.2)) <$>
                    map_to_list values.
Proof.
  intros Hl Hctx Hm Hall.
  destruct (payloadToMap_loop_app (Payload_Data m) [] ∅) as (values & E & Hv).
  { eapply Forall_impl; [exact Hall|apply publishable_value]. }
  rewrite app_nil_r in E. cbn in E. fold (payloadToMap m) in E.
  assert (Hvals : forall name, values !! name = last_value name (Payload_Data m))
    by (intros name; rewrite Hv, lookup_empty; by destruct (last_value _ _)).
  assert (Hready : ap_ready (AckingProducer := mqtt_producer range) p r).
  { split; [by eexists|]. rewrite Hm. intros m' [= <-]. cbn. rewrite E. by eexists. }
  destruct (Produce_run range p r h elapsed Hready) as (t & Et & _ & Hq).
  exists t, values. split; [exact Et|]. split; [exact Hvals|].
  assert (Hperm : field_messages range p r values ≡ₚ
    (fun e => (topic p r ("v/" +:+ e.1), e.2)) <$> map_to_list values).
  { unfold field_messages. rewrite range_entries. apply reflexive_eq, list_fmap_ext. by intros i [name x] _. }
  rewrite Hq, Hctx, Hm. cbn [messages_of]. rewrite E. cbn. rewrite mqtt_requests_json.
  - by rewrite Hperm, <- list_fmap_compose.
  - rewrite Hperm. apply Forall_fmap, Forall_forall. intros [name x] Hx. cbn.
    apply elem_of_map_to_list in Hx. rewrite Hvals in Hx. by eapply last_value_json.
Qed.

(** C9: a record is acknowledged only after all its messages were published
    and the token of each, the one its publication returned, completed without
    error in a wait no longer than the configured timeout. *)
Theorem acknowledged_after_tokens p l r h m msgs elapsed :
  logger (sink p) = Some l -> protoMessage r = Some m -> messages_of range p r m = Ret msgs ->
  (forall n, 0 <= elapsed n) ->
  exists t, Produce range p elapsed (r, h) = (Ret (), (r, (h ++ t)%list)) /\
    (acked t = [] \/
     acked t = [r] /\ TxType r ∈ reliableAckTxTypes (sink p) /\
     requests t = (fun e => mqtt_request p e.1 (json_of e.2)) <$> msgs /\
     forall i q, requests t !! i = Some q ->
       exists d, 0 <= d <= Z.max 0 (PublishTimeout (config p) * 10 ^ 6) /\
         waitTokenTimeout p (Publish p (requests h ++ take i (requests t))%list q) d = None).
Proof.
  intros Hl Hm Hmsgs He.
  assert (Hready : ap_ready (AckingProducer := mqtt_producer range) p r).
  { split; [by eexists|]. rewrite Hm. intros m' [= <-]. by eexists. }
  destruct (Produce_run range p r h elapsed Hready) as (t & E & Ha & Hq).
  exists t. split; [exact E|]. rewrite Ha. cbn [ap_stored mqtt_producer]. rewrite Hm, Hmsgs in Hq |- *.
  destruct (ctx_Err p); [by left|].
  destruct (mqtt_tokens p (requests h) msgs) as [tokens|] eqn:Ht; [|by left].
  destruct (all_complete _ _ _ _) eqn:Hc; [|by left]. cbn [andb]. case_bool_decide; [|by left].
  right. destruct (mqtt_tokens_some p _ _ _ Ht) as [Hr Htok]. rewrite Hq.
  split; [done|]. split; [done|]. split; [exact Hr|]. intros i q Hi.
  by apply (all_complete_lookup _ _ _ _ _ _ Hc He (Htok i q Hi)).
Qed.

(** A datum without a value ends the publication of its record in a nil
    pointer dereference before anything is published; the simple logger, for
    the same record, writes a line and goes on. *)
Theorem unset_value_panics p r h m data1 key data2 elapsed :
  ctx_Err p = None -> protoMessage r = Some (MPayload m) ->
  Payload_Data m = (data1 ++ Some (mkDatum key None) :: data2)%list -> Forall has_value data1 ->
  Produce range p elapsed (r, h) = (Panic "nil pointer dereference", (r, h)).
Proof.
  intros Hctx Hm Hdata Hall.
  destruct (payloadToMap_loop_app data1 (Some (mkDatum key None) :: data2) ∅ Hall) as (m' & E & _).
  rewrite <- Hdata in E. fold (payloadToMap m) in E.
  unfold Produce. run_steps. rewrite Hctx, Hm. unfold processVehicleFields. run_steps.
  unfold lift. by rewrite E.
Qed.

(** The kinds of values the log and the broker get in the same form. *)
Definition same_form (w : isValue_Value) : bool :=
  match w with
  | Value_Invalid _ | Value_ChargingValue _ | Value_TireLocationValue _ => false
  | _ => true
  end.

(** What the broker and the log get of an enumeration of the oneof: an unnamed
    number is a number for one and a text for the other. *)
Definition published_enum (names : list (Z * string)) (n : Z) : any :=
  match lookup_name names n with Some name => AString name | None => AInt n end.
Definition logged_enum (names : list (Z * string)) (n : Z) : any :=
  AString (default (strconv.Itoa n) (lookup_name names n)).

Lemma same_enum names n :
  published_enum names n = logged_enum names n <-> is_Some (lookup_name names n).
Proof.
  unfold published_enum, logged_enum. destruct (lookup_name names n); [|split; [done|by intros []]].
  split; [by eexists|done].
Qed.

Lemma logged_enum_of {ES : ProtoEnumsSpec PE} names n : AString (EnumStringOf names n) = logged_enum names n.
Proof. unfold logged_enum. by rewrite EnumStringOf_spec. Qed.

Lemma enum_iff (names : list (Z * string)) n (P : list (Z * string) -> Z -> Prop) :
  P names n <-> forall names' n', Some (names, n) = Some (names', n') -> P names' n'.
Proof. split; [by intros H ? ? [= <- <-]|auto]. Qed.

Lemma getDatumValue_enum {RS : ProtoReflectionSpec PR} w names n :
  enum_of w = Some (names, n) -> getProtoValue (reflect_Value (mkValue (Some w))) true = published_enum names n.
Proof.
  intros Hw. destruct (reflect_enum w _ _ Hw) as [field ->].
  unfold getProtoValue, store_fields, published_enum. cbn. destruct (lookup_name names n);
    by rewrite insert_empty, map_to_list_singleton.
Qed.

(** C39: a value of any kind but three is published in the form in which it is
    logged when the log has no types, exactly when it is not an enumeration
    published by its reflection whose number has no name; with types the log
    has the same value under the name of its type.  The three kinds are an
    invalid value, tire locations and charging states, which the log refuses.
    An enumeration published by reflection, charging states included, is its
    name, or its number if it has none, where the log has the number's text. *)
Theorem published_as_logged {ES : ProtoEnumsSpec PE} {RS : ProtoReflectionSpec PR} w vin :
  wrapper_set w = true ->
  (same_form w = true -> exists published logged,
    getDatumValue (Some (mkValue (Some w))) = Ret published /\
    transformValue (Some w) false vin = Ret (Some logged) /\
    (exists outputType, transformValue (Some w) true vin = Ret (Some (AMap {[outputType := logged]}))) /\
    (published = logged <-> forall names n, enum_of w = Some (names, n) -> is_Some (lookup_name names n))) /\
  (forall names n, enum_of w = Some (names, n) ->
    getDatumValue (Some (mkValue (Some w))) = Ret (published_enum names n) /\
    (same_form w = true -> transformValue (Some w) false vin = Ret (Some (logged_enum names n)))).
Proof.
  intros Hw.
  destruct w; cbn [wrapper_set enum_of same_form getDatumValue transformValue transform_enum Value_Value] in *;
    unfold SimpleLogger.typed;
    repeat match goal with x : option _ |- _ => destruct x; [|done] end.
  all: try (split; [first [done|intros _; do 2 eexists; split_and!; [reflexivity..|by eexists|]; by split]|done]).
  all: match goal with |- context [mkValue (Some ?w)] =>
    rewrite (getDatumValue_enum w _ _ eq_refl) end.
  all: split; [first [done|intros _; do 2 eexists; split_and!; [reflexivity..|by eexists|]]
              |intros ? ? [= <- <-]; split; [done|];
               first [done|intros _; do 2 f_equal; apply logged_enum_of]].
  all: etransitivity; [|by apply enum_iff]; etransitivity; [|apply same_enum]; by rewrite <- logged_enum_of.
Qed.
End Properties.

(** ** A concrete producer *)

(** Reflection of the values that are enumerations. *)
#[export] Instance ReflectRef : ProtoReflection := {|
  reflect_Value v :=
    match Value_Value v with
    | Some w => match enum_of w with
                | Some (names, n) => [("value", PEnum (lookup_name names n) n)]
                | None => []
                end
    | None => []
    end
|}.

#[export] Instance ReflectRef_spec : ProtoReflectionSpec ReflectRef.
Proof. constructor. intros w names n E. exists "value". cbn. by rewrite E. Qed.

Definition sample_mqtt : Producer :=
  NewProducer (mkConfig "tcp://broker" "client" "" "" "telemetry" 0 false 0 0 0 0 0)
    (mkSink "ns" (Some (mkLogger ∅ EmptyString)) (Airbrake.mkHandler true) {["V"]}) None
    (fun _ _ => mkToken (fun _ => true) true None) (ErrorString "context deadline exceeded").

Definition sample_of (m : ProtoMessage) : TRecord :=
  set_TxType "V" (set_identity "VIN42" "1.0" [] 0
    (set_protoMessage (Some m) (new_TRecord sample_serializer None "s" false))).

Lemma alerts_published_witness :
  let alert started := mkVehicleAlert "A" [] (Some (mkTimestamp started 0)) None in
  let m := mkVehicleAlerts [alert 10; alert 30; alert 20] None "VIN42" in
  exists t (past : gmap string (list VehicleAlert)) (current : gmap string VehicleAlert),
    Produce (PE := EnumsRef) (PC := ProtoRef) (fun _ => map_to_list) sample_mqtt (fun _ => 0)
      (sample_of (MVehicleAlerts m), []) = (Ret (), (sample_of (MVehicleAlerts m), t)) /\
    past !! "A" = Some [alert 10; alert 30; alert 20] /\
    match current !! "A" with Some a => latest [alert 10; alert 30; alert 20] a | None => False end.
Proof.
  intros alert m.
  destruct (alerts_published (PE := EnumsRef) (PC := ProtoRef) (fun _ => map_to_list) (fun _ _ => reflexivity _)
    sample_mqtt (mkLogger ∅ EmptyString) (sample_of (MVehicleAlerts m)) [] m (fun _ => 0)
    eq_refl eq_refl eq_refl) as (t & past & current & E & Hp & Hc & _).
  exists t, past, current. split; [exact E|]. split; [exact (Hp "A")|].
  specialize (Hc "A"). by destruct (current !! "A").
Defined.


(** Two data of one field and one of another. *)
Definition sample_data : list (option Datum) :=
  [Some (mkDatum 4 (Some (mkValue (Some (Value_StringValue "55")))));
   Some (mkDatum 2 (Some (mkValue (Some (Value_ChargingValue 4)))));
   Some (mkDatum 4 (Some (mkValue (Some (Value_IntValue 56)))))].

Definition sample_fields : Payload := mkPayload sample_data None "VIN42" false.

Lemma sample_publishable : Forall (publishable (PE := EnumsRef)) sample_data.
Proof.
  unfold sample_data. rewrite !Forall_cons, Forall_nil. unfold publishable.
  split_and!; try exact I; do 3 eexists; (split; [reflexivity|]); (split; [reflexivity|]);
    vm_compute; by eexists.
Qed.

Lemma fields_published_witness :
  exists t (values : gmap string any),
    Produce (PE := EnumsRef) (PC := ProtoRef) (fun _ => map_to_list) sample_mqtt (fun _ => 0)
      (sample_of (MPayload sample_fields), []) = (Ret (), (sample_of (MPayload sample_fields), t)) /\
    values !! "VehicleSpeed" = Some (AInt 56) /\ length (requests t) = size values.
Proof.
  destruct (fields_published (PE := EnumsRef) (PC := ProtoRef) (fun _ => map_to_list)
    (fun _ _ => reflexivity _) sample_mqtt (mkLogger ∅ EmptyString)
    (sample_of (MPayload sample_fields)) [] sample_fields (fun _ => 0)
    eq_refl eq_refl eq_refl sample_publishable) as (t & values & E & Hv & Hq).
  exists t, values. split; [exact E|]. split.
  - rewrite Hv. vm_compute. reflexivity.
  - by rewrite Hq, length_fmap, length_map_to_list.
Defined.

Lemma acknowledged_after_tokens_witness :
  exists t,
    Produce (PE := EnumsRef) (PC := ProtoRef) (fun _ => map_to_list) sample_mqtt (fun _ => 0)
      (sample_of (MPayload sample_fields), []) = (Ret (), (sample_of (MPayload sample_fields), t)) /\
    acked t = [sample_of (MPayload sample_fields)] /\
    forall i q, requests t !! i = Some q -> exists d, 0 <= d <= 2500 * 10 ^ 6 /\
      waitTokenTimeout sample_mqtt (Publish sample_mqtt (take i (requests t)) q) d = None.
Proof.
  assert (Hok : match messages_of (PE := EnumsRef) (PC := ProtoRef) (fun _ => map_to_list) sample_mqtt
    (sample_of (MPayload sample_fields)) (MPayload sample_fields) with Ret _ => true | _ => false end = true)
    by (vm_compute; reflexivity).
  destruct (messages_of _ _ _ _) as [msgs|e] eqn:Em; [clear Hok|discriminate].
  destruct (acknowledged_after_tokens (PE := EnumsRef) (PC := ProtoRef) (fun _ => map_to_list)
    sample_mqtt (mkLogger ∅ EmptyString) (sample_of (MPayload sample_fields)) [] (MPayload sample_fields)
    msgs (fun _ => 0) eq_refl eq_refl Em) as (t & E & H); [intros _; lia|].
  assert (Ha : acked (Produce (PE := EnumsRef) (PC := ProtoRef) (fun _ => map_to_list) sample_mqtt
    (fun _ => 0) (sample_of (MPayload sample_fields), [])).2.2 = [sample_of (MPayload sample_fields)])
    by (vm_compute; reflexivity).
  rewrite E in Ha. cbn in Ha. exists t. split; [exact E|]. split; [exact Ha|].
  destruct H as [H|(_ & _ & _ & Ht)]; [rewrite H in Ha; discriminate|exact Ht].
Defined.

Lemma unset_value_panics_witness :
  let m := mkPayload (sample_data ++ [Some (mkDatum 5 None)])%list None "VIN42" false in
  Produce (PE := EnumsRef) (PC := ProtoRef) (fun _ => map_to_list) sample_mqtt (fun _ => 0)
    (sample_of (MPayload m), []) = (Panic "nil pointer dereference", (sample_of (MPayload m), [])).
Proof.
  intros m. apply (unset_value_panics (PE := EnumsRef) (PC := ProtoRef) (fun _ => map_to_list)
    sample_mqtt (sample_of (MPayload m)) [] m sample_data 5 [] (fun _ => 0) eq_refl eq_refl eq_refl).
  eapply Forall_impl; [apply sample_publishable|apply publishable_value].
Defined.

Lemma published_as_logged_witness :
  (exists published logged,
     getDatumValue (PE := EnumsRef) (PR := ReflectRef) (Some (mkValue (Some (Value_CableTypeValue 1)))) = Ret published /\
     transformValue (PE := EnumsRef) (Some (Value_CableTypeValue 1)) false "VIN" = Ret (Some logged) /\
     published = logged) /\
  getDatumValue (PE := EnumsRef) (PR := ReflectRef) (Some (mkValue (Some (Value_ChargingValue 4)))) =
    Ret (AString "ChargeStateCharging").
Proof.
  destruct (published_as_logged (PE := EnumsRef) (PR := ReflectRef) (Value_CableTypeValue 1) "VIN" eq_refl)
    as [H _].
  destruct (published_as_logged (PE := EnumsRef) (PR := ReflectRef) (Value_ChargingValue 4) "VIN" eq_refl)
    as [_ Hc].
  split.
  - destruct (H eq_refl) as (p & l & Hp & Hl & _ & Heq). exists p, l. split; [exact Hp|]. split; [exact Hl|].
    apply Heq. intros names n [= <- <-]. vm_compute. by eexists.
  - rewrite (proj1 (Hc _ _ eq_refl)). vm_compute. reflexivity.
Defined.
