(* ===== verification/Metrics.v ===== *)
(** * Metrics (metrics/ and the registrations of every package)

    A component registers its metrics once with the collector the configuration
    chooses, and updates them through the adapter of that collector.  The
    collectors of Prometheus and StatsD are third-party clients: the Prometheus
    client is an interface whose registration and updates may fail, in which
    case the adapter panics; what reaches a StatsD client is returned. *)

From S2P Require Import Prelude GoStd Logger GoJson Telemetry.
Local Open Scope string_scope.
Local Open Scope Z_scope.

(** ** The adapters (metrics/adapter/types.go) *)

Record CollectorOptions := mkCollectorOptions {
  Name : string;
  Help : string;
  Labels : list string
}.

Inductive MetricKind := CounterKind | GaugeKind | TimerKind.
#[export] Instance MetricKind_eq_dec : EqDecision MetricKind.
Proof. solve_decision. Defined.

(** A call of [RegisterCounter], [RegisterGauge] or [RegisterTimer]. *)
Abbreviation registration := (MetricKind * CollectorOptions)%type.

Abbreviation label_map := (gmap string string).

(** The methods of counters, gauges and timers. *)
Inductive Operation := OpAdd (n : Z) | OpSub (n : Z) | OpInc | OpSet (n : Z) | OpObserve (n : Z).

(** ** What every package registers, in order *)

Definition kafka_metrics : list registration :=
  [(CounterKind, mkCollectorOptions "kafka_produce_total"
     "The number of records produced to Kafka." ["record_type"]);
   (CounterKind, mkCollectorOptions "kafka_produce_total_bytes"
     "The number of bytes produced to Kafka." ["record_type"]);
   (CounterKind, mkCollectorOptions "kafka_produce_ack_total"
     "The number of records produced to Kafka for which we got an ACK." ["record_type"]);
   (CounterKind, mkCollectorOptions "kafka_reliable_ack_total"
     "The number of records produced to Kafka for which we sent a reliable ACK." ["record_type"]);
   (CounterKind, mkCollectorOptions "kafka_produce_ack_total_bytes"
     "The number of bytes produced to Kafka for which we got an ACK." ["record_type"]);
   (CounterKind, mkCollectorOptions "kafka_err"
     "The number of errors while producing to Kafka." []);
   (GaugeKind, mkCollectorOptions "kafka_produce_queue_size"
     "Total pending messages to produce" ["type"])].

Definition kinesis_metrics : list registration :=
  [(CounterKind, mkCollectorOptions "kinesis_err"
     "The number of errors while producing to Kinesis." ["record_type"]);
   (CounterKind, mkCollectorOptions "kinesis_publish_total"
     "The number of messages published to Kinesis." ["record_type"]);
   (CounterKind, mkCollectorOptions "kinesis_publish_total_bytes"
     "The number of bytes published to Kinesis." ["record_type"]);
   (CounterKind, mkCollectorOptions "kinesis_reliable_ack_total"
     "The number of records produced to Kinesis for which we sent a reliable ACK." ["record_type"])].

Definition pubsub_metrics : list registration :=
  [(CounterKind, mkCollectorOptions "pubsub_not_connected_total"
     "The number of times pubsub has not been connected when attempting to produce." ["record_type"]);
   (CounterKind, mkCollectorOptions "pubsub_publish_total"
     "The number of messages published to pubsub." ["record_type"]);
   (CounterKind, mkCollectorOptions "pubsub_publish_total_bytes"
     "The number of bytes published to pubsub." ["record_type"]);
   (CounterKind, mkCollectorOptions "pubsub_err"
     "The number of errors while publishing to pubsub." ["record_type"]);
   (CounterKind, mkCollectorOptions "pubsub_reliable_ack_total"
     "The number of records produced to pubsub for which we sent a reliable ACK." ["record_type"])].

Definition redis_metrics : list registration :=
  [(CounterKind, mkCollectorOptions "redis_publish_total"
     "The number of messages published to Redis." ["record_type"]);
   (CounterKind, mkCollectorOptions "redis_publish_total_bytes"
     "The number of bytes published to Redis." ["record_type"]);
   (CounterKind, mkCollectorOptions "redis_err"
     "The number of errors while publishing to Redis." ["record_type"]);
   (CounterKind, mkCollectorOptions "redis_reliable_ack_total"
     "The number of records published to Redis for which we sent a reliable ACK." ["record_type"])].

Definition zmq_metrics : list registration :=
  [(CounterKind, mkCollectorOptions "zmq_err"
     "The number of errors while producing to ZMQ." ["record_type"]);
   (CounterKind, mkCollectorOptions "zmq_publish_total"
     "The number of messages published to ZMQ." ["record_type"]);
   (CounterKind, mkCollectorOptions "zmq_publish_total_bytes"
     "The number of bytes published to ZMQ." ["record_type"]);
   (CounterKind, mkCollectorOptions "zmq_reliable_ack_total"
     "The number of records produced to ZMQ for which we sent a reliable ACK." ["record_type"])].

Definition mqtt_metrics : list registration :=
  [(CounterKind, mkCollectorOptions "mqtt_err"
     "The number of errors while publishing to MQTT." ["record_type"]);
   (CounterKind, mkCollectorOptions "mqtt_publish_total"
     "The number of values published to MQTT." ["record_type"]);
   (CounterKind, mkCollectorOptions "mqtt_publish_total_bytes"
     "The number of JSON bytes published to MQTT." ["record_type"]);
   (CounterKind, mkCollectorOptions "mqtt_reliable_ack_total"
     "The number of records published to MQTT topics for which we sent a reliable ACK." ["record_type"])].

Definition socket_metrics : list registration :=
  [(CounterKind, mkCollectorOptions "rate_limit_exceeded_total"
     "The number of times a client has been rate limited." ["device_id"; "txtype"]);
   (CounterKind, mkCollectorOptions "record_too_big_total"
     "The number of times the record was too large." []);
   (CounterKind, mkCollectorOptions "unauthorized_sender_id_total"
     "The number of times the sender was not authorized." []);
   (CounterKind, mkCollectorOptions "unknown_message_type_error_total"
     "The number of times the message type was not known." ["msg_type"]);
   (CounterKind, mkCollectorOptions "dispatch_total"
     "The number of records dispatched." ["record_type"]);
   (CounterKind, mkCollectorOptions "unexpected_record_err_total"
     "The number of unexpected records received." []);
   (CounterKind, mkCollectorOptions "socket_err_total"
     "The number of socket errors." []);
   (CounterKind, mkCollectorOptions "record_size_bytes_total"
     "The total number of record bytes processed." ["record_type"]);
   (CounterKind, mkCollectorOptions "record_total"
     "The number of records processed." ["record_type"]);
   (GaugeKind, mkCollectorOptions "signal_count"
     "Total number of signals received per record type" ["record_type"]);
   (GaugeKind, mkCollectorOptions "vin_signal_count"
     "Total number of signals received per vin per record type" ["record_type"; "vin"])].

Definition server_metrics : list registration :=
  [(CounterKind, mkCollectorOptions "reliable_ack"
     "The number of reliable acknowledgements." ["record_type"; "dispatcher"]);
   (CounterKind, mkCollectorOptions "reliable_ack_miss"
     "The number of missing reliable acknowledgements." ["record_type"; "dispatcher"])].

Definition usage_metrics : list registration :=
  [(GaugeKind, mkCollectorOptions "num_goroutine"
     "The number of active Go routines." []);
   (GaugeKind, mkCollectorOptions "memory_allocated_bytes"
     "The number of bytes Go has allocated." []);
   (GaugeKind, mkCollectorOptions "memory_heap"
     "The number of bytes of heap space Go has allocated." []);
   (GaugeKind, mkCollectorOptions "memory_stack"
     "The number of bytes of stack space Go has allocated." []);
   (GaugeKind, mkCollectorOptions "gc_total_pause"
     "The number of ms paused in total for garbage collection." []);
   (GaugeKind, mkCollectorOptions "gc_pause_per_second"
     "The number of ms paused per second for garbage collection." []);
   (GaugeKind, mkCollectorOptions "gc_per_second"
     "The number of times the garbage collector runs per second." [])].

Definition connection_metrics : list registration :=
  [(GaugeKind, mkCollectorOptions "uptime_sec"
     "The number of seconds the application has been running." []);
   (GaugeKind, mkCollectorOptions "num_connections"
     "The number of active websocket connections." [])].

(** The packages, each with a registry of metrics of its own. *)
Inductive package :=
| KafkaPackage | KinesisPackage | PubsubPackage | RedisPackage | ZmqPackage | MqttPackage
| SocketPackage | ServerPackage | UsagePackage | ConnectionPackage.
#[export] Instance package_eq_dec : EqDecision package.
Proof. solve_decision. Defined.

Definition metrics_of (p : package) : list registration :=
  match p with
  | KafkaPackage => kafka_metrics
  | KinesisPackage => kinesis_metrics
  | PubsubPackage => pubsub_metrics
  | RedisPackage => redis_metrics
  | ZmqPackage => zmq_metrics
  | MqttPackage => mqtt_metrics
  | SocketPackage => socket_metrics
  | ServerPackage => server_metrics
  | UsagePackage => usage_metrics
  | ConnectionPackage => connection_metrics
  end.

(** ** The configuration and the choice of the collector (metrics.go) *)

Record StatsdConfig := mkStatsdConfig { HostPort : string; Prefix : string; FlushPeriod : Z }.

Record MonitoringConfig := mkMonitoringConfig {
  PrometheusMetricsPort : Z;
  PrometheusMetricsHost : string;
  Statsd : option StatsdConfig;
  ProfilerPort : Z;
  ProfilerHost : string;
  ProfilingPath : string
}.

(** The implementations of [MetricCollector]. *)
Inductive MetricCollector :=
| PrometheusCollector
| StatsdCollector (addr prefix : string) (flushPeriod : Z)
| NoopCollector.

(** [statsd.NewCollector] *)
Definition NewStatsdCollector (addr prefix : string) (logger : option Logger) (flushPeriod : Z)
  : outcome (MetricCollector * list LogEntry) :=
  lines ← ActivityLog logger "new_statsd_client"
    (list_to_map [("address", AString addr); ("flush_period", AInt flushPeriod)]);
  Ret (StatsdCollector addr prefix flushPeriod, lines).

(** [NewCollector], with the lines it logs; durations are in nanoseconds. *)
Definition NewCollector (monitoringConfig : option MonitoringConfig) (logger : option Logger)
  : outcome (MetricCollector * list LogEntry) :=
  let skipping :=
    lines ← ActivityLog logger "config_skipping_empty_metrics_provider" ∅; Ret (NoopCollector, lines) in
  match monitoringConfig with
  | None => skipping
  | Some c =>
      if 0 <? PrometheusMetricsPort c then Ret (PrometheusCollector, [])
      else match Statsd c with
           | Some s =>
               let flushDuration := if 0 <? FlushPeriod s then FlushPeriod s * 10 ^ 6 else 100 * 10 ^ 6 in
               NewStatsdCollector (HostPort s) (Prefix s) logger flushDuration
           | None => skipping
           end
  end.

(** ** The Prometheus client *)

(** [Register]: the error of registering one more collector.  [Unregister]:
    what is left in the registry.  [Update]: an operation on the child of a
    metric with some labels, which may panic. *)
Class PrometheusClient := {
  Register : list registration -> registration -> option GoError;
  Unregister : list registration -> registration -> list registration;
  Update : registration -> Operation -> label_map -> outcome ()
}.

Definition letter (c : ascii) : bool :=
  let n := nat_of_ascii c in
  ((65 <=? n) && (n <=? 90) || (97 <=? n) && (n <=? 122) || (n =? 95))%nat.
Definition digit (c : ascii) : bool :=
  let n := nat_of_ascii c in ((48 <=? n) && (n <=? 57))%nat.

Fixpoint every (f : ascii -> bool) (s : string) : bool :=
  match s with EmptyString => true | String c s => f c && every f s end.

(** The documented names of metrics and labels. *)
Definition valid_label (s : string) : bool :=
  match s with
  | EmptyString => false
  | String c _ => letter c && every (fun c => letter c || digit c) s && negb (String.prefix "__" s)
  end.

Definition valid_registration (m : registration) : bool :=
  valid_label (Name m.2) && forallb valid_label (Labels m.2) &&
  bool_decide (NoDup (Labels m.2)).

(** An operation the kind of the metric has; a counter does not go down. *)
Definition allowed (kind : MetricKind) (op : Operation) : bool :=
  match kind, op with
  | CounterKind, OpAdd n => 0 <=? n
  | CounterKind, OpInc => true
  | GaugeKind, (OpAdd _ | OpSub _ | OpInc | OpSet _) => true
  | TimerKind, OpObserve _ => true
  | _, _ => false
  end.

Definition metric_names (l : list registration) : list string := (fun m => Name m.2) <$> l.

(** What the code relies on: a well-formed metric with a new name registers,
    and an update with exactly the labels of the metric, in UTF-8, succeeds. *)
Class PrometheusClientSpec (PM : PrometheusClient) : Prop := {
  Register_fresh registered m :
    valid_registration m = true -> Name m.2 ∉ metric_names registered -> Register registered m = None;
  Update_labels (m : registration) op (l : label_map) :
    allowed m.1 op = true -> dom l = list_to_set (Labels m.2) ->
    map_Forall (fun _ v => utf8_ValidString v = true) l -> Update m op l = Ret ()
}.

(** ** The registration of metrics *)

(** The state of the process: the packages whose [sync.Once] is done, the
    default registry of the Prometheus client, and the [collectors] of the
    collector. *)
Record Process := mkProcess {
  once_done : list package;
  defaultRegistry : list registration;
  collectors : list registration;
  stopChan_closed : bool
}.

Section Operations.
Context {PM : PrometheusClient}.

(** [register] and the methods that call it. *)
Definition register (m : registration) : go Process () :=
  p ← get;
  match Register (defaultRegistry p) m with
  | Some err => lift (Panic (Error_String err))
  | None => modify (fun p => mkProcess (once_done p) (defaultRegistry p ++ [m])%list
                               (collectors p ++ [m])%list (stopChan_closed p))
  end.

(** [RegisterCounter], [RegisterGauge] and [RegisterTimer] of a collector. *)
Definition RegisterMetric (c : MetricCollector) (m : registration) : go Process () :=
  match c with
  | PrometheusCollector => register m
  | StatsdCollector _ _ _ | NoopCollector => skip
  end.

(** [Do] of the [sync.Once] of a package: the flag is set even if [f] panics. *)
Definition once_Do (k : package) (f : go Process ()) : go Process () :=
  p ← get;
  if bool_decide (k ∈ once_done p) then skip
  else
    modify (fun p => mkProcess (k :: once_done p) (defaultRegistry p) (collectors p) (stopChan_closed p));;
    f.

Definition registerMetricsOnce (c : MetricCollector) (k : package) : go Process () :=
  once_Do k (for_range (RegisterMetric c) (metrics_of k)).

(** [registerMetricsOnce] of every package. *)
Definition kafka_registerMetricsOnce (c : MetricCollector) := registerMetricsOnce c KafkaPackage.
Definition kinesis_registerMetricsOnce (c : MetricCollector) := registerMetricsOnce c KinesisPackage.
Definition pubsub_registerMetricsOnce (c : MetricCollector) := registerMetricsOnce c PubsubPackage.
Definition redis_registerMetricsOnce (c : MetricCollector) := registerMetricsOnce c RedisPackage.
Definition zmq_registerMetricsOnce (c : MetricCollector) := registerMetricsOnce c ZmqPackage.
Definition mqtt_registerMetricsOnce (c : MetricCollector) := registerMetricsOnce c MqttPackage.
Definition socket_registerMetricsOnce (c : MetricCollector) := registerMetricsOnce c SocketPackage.
Definition server_registerMetricsOnce (c : MetricCollector) := registerMetricsOnce c ServerPackage.
Definition usage_registerMetricsOnce (c : MetricCollector) := registerMetricsOnce c UsagePackage.
Definition connection_registerMetricsOnce (c : MetricCollector) := registerMetricsOnce c ConnectionPackage.

(** [Shutdown] of a Prometheus collector: its channel is closed, which panics
    the second time, and its collectors are unregistered. *)
Definition Shutdown : go Process () :=
  p ← get;
  if stopChan_closed p then lift (Panic "close of closed channel")
  else modify (fun p => mkProcess (once_done p) (foldl Unregister (defaultRegistry p) (collectors p))
                          (collectors p) true).
End Operations.

(** ** StatsD (metrics/adapter/statsd/) *)

Module Statsd.

(** A tag of the client; the zero value is [None]. *)
Abbreviation Tag := (option (string * string)).

(** A call of the client: the method, the name of the metric, the number and
    the tags. *)
Inductive Sample :=
| Incr (name : string) (n : Z) (tags : list Tag)
| GaugeDelta (name : string) (n : Z) (tags : list Tag)
| SetGauge (name : string) (n : Z) (tags : list Tag)
| Timing (name : string) (n : Z) (tags : list Tag).

Section Operations.
(** The order in which the iteration over the labels visits them. *)
Variable range : label_map -> list (string * string).

(** [getTags]: [make] gives a slice of zero values, to which the tags are
    appended. *)
Definition getTags (l : label_map) : list Tag :=
  (replicate (size l) None ++ (Some <$> range l))%list.

Definition Counter_Add (name : string) (n : Z) (l : label_map) : Sample := Incr name n (getTags l).
Definition Counter_Inc (name : string) (l : label_map) : Sample := Incr name 1 (getTags l).
Definition Gauge_Add (name : string) (n : Z) (l : label_map) : Sample := GaugeDelta name n (getTags l).
Definition Gauge_Sub (name : string) (n : Z) (l : label_map) : Sample :=
  GaugeDelta name (i64 (- n)) (getTags l).
Definition Gauge_Inc (name : string) (l : label_map) : Sample := GaugeDelta name 1 (getTags l).
Definition Gauge_Set (name : string) (n : Z) (l : label_map) : Sample := SetGauge name n (getTags l).
Definition Timer_Observe (name : string) (n : Z) (l : label_map) : Sample := Timing name n (getTags l).
End Operations.

(** Every tag is preceded by an empty one: a metric with [n] labels is sent
    with [2 * n] tags. *)
Lemma getTags_empty range l :
  (forall l, range l ≡ₚ map_to_list l) ->
  length (getTags range l) = (2 * size l)%nat /\ take (size l) (getTags range l) = replicate (size l) None.
Proof.
  intros Hr. unfold getTags. split.
  - rewrite length_app, length_replicate, length_fmap, Hr, length_map_to_list. lia.
  - by rewrite take_app_length' by (by rewrite length_replicate).
Qed.

End Statsd.

(** ** Lemmas on the tables *)

Definition all_packages : list package :=
  [KafkaPackage; KinesisPackage; PubsubPackage; RedisPackage; ZmqPackage; MqttPackage;
   SocketPackage; ServerPackage; UsagePackage; ConnectionPackage].

Lemma all_packages_all k : k ∈ all_packages.
Proof. destruct k; set_solver. Qed.

Lemma metrics_of_valid k : Forall (fun m => valid_registration m = true) (metrics_of k).
Proof.
  apply Forall_forall. intros m Hm%list_elem_of_In. revert m Hm. apply forallb_forall.
  destruct k; vm_compute; reflexivity.
Qed.

Lemma metrics_of_distinct k : NoDup (metric_names (metrics_of k)).
Proof. destruct k; apply (bool_decide_unpack _); vm_compute; exact I. Qed.

(** No name is used in two packages. *)
Lemma metrics_of_disjoint k1 k2 name :
  name ∈ metric_names (metrics_of k1) -> name ∈ metric_names (metrics_of k2) -> k1 = k2.
Proof.
  assert (H : forallb (fun k1 => forallb (fun k2 => bool_decide (k1 = k2) ||
    negb (existsb (fun name => bool_decide (name ∈ metric_names (metrics_of k2)))
      (metric_names (metrics_of k1)))) all_packages) all_packages = true) by (vm_compute; reflexivity).
  intros H1 H2. rewrite forallb_forall in H.
  specialize (H k1 (proj1 (list_elem_of_In _ _) (all_packages_all k1))).
  rewrite forallb_forall in H. specialize (H k2 (proj1 (list_elem_of_In _ _) (all_packages_all k2))).
  apply orb_true_iff in H as [H|H]; [by apply bool_decide_eq_true in H|].
  apply negb_true_iff, not_true_iff_false in H. destruct H. apply existsb_exists. exists name.
  split; [by apply list_elem_of_In|]. by apply bool_decide_eq_true.
Qed.

(** What is registered after some packages, in the order of their first calls. *)
Definition registered_by (done : list package) : list registration :=
  mjoin (metrics_of <$> rev done).

Lemma registered_by_cons k done : registered_by (k :: done) = (registered_by done ++ metrics_of k)%list.
Proof. unfold registered_by. cbn [rev]. rewrite fmap_app, join_app. cbn. by rewrite app_nil_r. Qed.

Lemma elem_of_registered_by done m :
  m ∈ registered_by done <-> exists k, k ∈ done /\ m ∈ metrics_of k.
Proof.
  unfold registered_by. rewrite list_elem_of_join. split.
  - intros (l & Hm & (k & -> & Hk)%list_elem_of_fmap). exists k. split; [|done].
    by apply list_elem_of_In, in_rev, list_elem_of_In.
  - intros (k & Hk & Hm). exists (metrics_of k). split; [done|]. apply list_elem_of_fmap.
    exists k. split; [done|]. by apply list_elem_of_In, in_rev; rewrite rev_involutive; apply list_elem_of_In.
Qed.

Lemma elem_of_metric_names name l : name ∈ metric_names l <-> exists m, m ∈ l /\ Name m.2 = name.
Proof.
  unfold metric_names. rewrite list_elem_of_fmap.
  split; [intros (m & -> & Hm)|intros (m & Hm & <-)]; by exists m.
Qed.

Lemma registered_by_distinct done : NoDup done -> NoDup (metric_names (registered_by done)).
Proof.
  induction 1 as [|k done Hk _ IH]; [constructor|].
  rewrite registered_by_cons. unfold metric_names in *. rewrite fmap_app. apply NoDup_app.
  split; [exact IH|]. split; [|apply metrics_of_distinct].
  intros name (m & -> & (k' & Hk' & Hm)%elem_of_registered_by)%list_elem_of_fmap Hin.
  assert (k' = k); [|congruence].
  eapply metrics_of_disjoint; [|exact Hin]. apply elem_of_metric_names. by exists m.
Qed.

Section Registration.
Context {PM : PrometheusClient} {PS : PrometheusClientSpec PM}.

Lemma register_all l p :
  Forall (fun m => valid_registration m = true) l ->
  NoDup (metric_names (defaultRegistry p ++ l)%list) ->
  for_range register l p =
    (Ret (), mkProcess (once_done p) (defaultRegistry p ++ l)%list (collectors p ++ l)%list (stopChan_closed p)).
Proof.
  revert p. induction l as [|m l IH]; intros p Hall Hnd.
  { rewrite !app_nil_r. by destruct p. }
  apply Forall_cons in Hall as [Hm Hall]. cbn [for_range]. unfold register, mbind, go_bind, get.
  rewrite Register_fresh; [|done|].
  - unfold modify. rewrite IH; cbn; [|done|by rewrite <- app_assoc].
    by rewrite <- !app_assoc.
  - unfold metric_names in *. rewrite fmap_app in Hnd. apply NoDup_app in Hnd as (_ & Hd & _).
    intros Hin. apply (Hd _ Hin). left.
Qed.

(** The state after some packages. *)
Definition process_after (done : list package) : Process :=
  mkProcess done (registered_by done) (registered_by done) false.

Lemma registerMetricsOnce_run k done :
  NoDup done ->
  registerMetricsOnce PrometheusCollector k (process_after done) =
    (Ret (), process_after (if bool_decide (k ∈ done) then done else k :: done)).
Proof.
  intros Hnd. unfold registerMetricsOnce, once_Do, mbind, go_bind, get. cbn.
  case_bool_decide as Hk; [done|]. unfold modify.
  change (RegisterMetric PrometheusCollector) with register.
  rewrite register_all; cbn [process_after once_done defaultRegistry collectors stopChan_closed].
  - unfold process_after. by rewrite registered_by_cons.
  - apply metrics_of_valid.
  - rewrite <- registered_by_cons. apply registered_by_distinct. by constructor.
Qed.
End Registration.

(** ** Properties *)

(** C40: in whatever order and however often the packages register their
    metrics, no registration panics, and a process whose registry was empty
    ends with exactly the metrics of those packages, under distinct names. *)
Theorem metrics_registered {PM : PrometheusClient} {PS : PrometheusClientSpec PM} packages :
  exists p,
    for_range (registerMetricsOnce PrometheusCollector) packages (mkProcess [] [] [] false) = (Ret (), p) /\
    NoDup (metric_names (defaultRegistry p)) /\
    forall m, m ∈ defaultRegistry p <-> exists k, k ∈ packages /\ m ∈ metrics_of k.
Proof.
  assert (H : forall done, NoDup done -> exists done', NoDup done' /\
    for_range (registerMetricsOnce PrometheusCollector) packages (process_after done) =
      (Ret (), process_after done') /\ forall k, k ∈ done' <-> k ∈ done \/ k ∈ packages).
  { induction packages as [|k packages IH]; intros done Hnd.
    { exists done. split; [done|]. split; [done|]. intros k. rewrite elem_of_nil. tauto. }
    cbn [for_range]. unfold mbind, go_bind. rewrite registerMetricsOnce_run by done.
    case_bool_decide as Hk.
    - destruct (IH done Hnd) as (done' & Hnd' & E & Hin). exists done'.
      split; [done|]. split; [done|]. intros k'. rewrite Hin, elem_of_cons. intuition congruence.
    - destruct (IH (k :: done) (NoDup_cons_2 _ _ Hk Hnd)) as (done' & Hnd' & E & Hin).
      exists done'. split; [done|]. split; [done|]. intros k'. rewrite Hin, !elem_of_cons. tauto. }
  destruct (H [] (NoDup_nil_2)) as (done & Hnd & E & Hin).
  exists (process_after done). split; [exact E|]. split; [by apply registered_by_distinct|].
  intros m. cbn. rewrite elem_of_registered_by. setoid_rewrite Hin. setoid_rewrite elem_of_nil.
  split; intros (k & Hk & Hm); exists k; (split; [tauto|exact Hm]).
Qed.

(** ** A concrete client *)

#[export] Instance PrometheusRef : PrometheusClient := {|
  Register registered m :=
    if valid_registration m && negb (existsb (String.eqb (Name m.2)) (metric_names registered))
    then None else Some (ErrorString "duplicate metrics collector registration attempted");
  Unregister registered m :=
    List.filter (fun m' => negb (String.eqb (Name m'.2) (Name m.2))) registered;
  Update m op l :=
    if allowed m.1 op && bool_decide (dom l = list_to_set (Labels m.2))
    then Ret () else Panic "inconsistent label cardinality"
|}.

#[export] Instance PrometheusRef_spec : PrometheusClientSpec PrometheusRef.
Proof.
  constructor.
  - intros registered m Hm Hnew. cbn. rewrite Hm. cbn.
    destruct (existsb _ _) eqn:E; [|done]. apply existsb_exists in E as (name & Hin & Hn).
    apply String.eqb_eq in Hn as <-. by apply list_elem_of_In in Hin.
  - intros m op l Ha Hd _. cbn. rewrite Ha. by rewrite bool_decide_eq_true_2.
Qed.

Lemma metrics_registered_witness :
  exists p,
    for_range (registerMetricsOnce PrometheusCollector)
      [SocketPackage; ServerPackage; KafkaPackage; SocketPackage; MqttPackage] (mkProcess [] [] [] false) =
      (Ret (), p) /\
    NoDup (metric_names (defaultRegistry p)).
Proof.
  destruct (metrics_registered [SocketPackage; ServerPackage; KafkaPackage; SocketPackage; MqttPackage])
    as (p & E & Hnd & _).
  exists p. split; [exact E|exact Hnd].
Defined.
