(* ===== verification/Config.v ===== *)
(** * Configuration (config/config.go, config/config_initializer.go)

    The configuration is decoded from a JSON file, completed with defaults,
    overridden from the environment and validated; it then decides the
    reliable-acknowledgement sources, the producers and the dispatch rules. *)

From S2P Require Import Prelude GoStd Logger Metrics.
From Stdlib Require Import Permutation.
Local Open Scope string_scope.
Local Open Scope Z_scope.

(** ** Data *)

(** telemetry/producer.go: a dispatcher is a string; these are the known ones. *)
Abbreviation Dispatcher := string.
Definition Pubsub_ : Dispatcher := "pubsub".
Definition Kafka_ : Dispatcher := "kafka".
Definition Kinesis_ : Dispatcher := "kinesis".
Definition Logger_ : Dispatcher := "logger".
Definition ZMQ_ : Dispatcher := "zmq".
Definition MQTT_ : Dispatcher := "mqtt".
Definition Redis_ : Dispatcher := "redis".

Record TLS := mkTLS { CAFile : string; ServerCert : string; ServerKey : string }.

(** A duration is in nanoseconds. *)
Record RateLimit := mkRateLimit {
  Enabled : bool;
  MessageLimit : Z;
  MessageInterval : Z;
  MessageIntervalTimeSecond : Z
}.

(** The value of a key of the Kafka configuration after JSON decoding. *)
Inductive ConfigValue :=
| CVString (s : string)
| CVBool (b : bool)
| CVFloat (f : spec_float)
| CVInt (n : Z).

Record Kinesis := mkKinesis {
  MaxRetries : option Z;
  OverrideHost : string;
  Streams : gmap string string
}.

Record RedisPool := mkRedisPool {
  PoolSize : Z; MinIdleConns : Z; MaxIdleConns : Z; MaxActiveConns : Z;
  ReadTimeout : Z; WriteTimeout : Z; PoolTimeout : Z; ConnMaxIdleTime : Z; ConnMaxLifetime : Z
}.

Record Redis := mkRedis {
  Addrs : list string; Username : string; Password : string; DB : Z;
  Redis_TLS : option TLS; OverrideTLSServerName : bool; Pool : option RedisPool;
  PublishTimeout : Z; ClusterMode : bool; PublishVINTopics : bool; SubscriberSetPrefix : string
}.

(** [Config]; a pointer is an option.  The configurations of ZMQ and MQTT are
    only tested for nil here, and that of Pub/Sub holds the project id.  The
    run-time objects (metric collector, acknowledgement channel) are arguments
    of the operations that use them. *)
Record Config := mkConfig {
  Host : string;
  Port : Z;
  StatusPort : Z;
  Config_TLS : option TLS;
  UseDefaultEngCA : bool;
  Config_RateLimit : option RateLimit;
  ReliableAckSources : gmap string Dispatcher;
  Kafka : option (gmap string ConfigValue);
  Config_Kinesis : option Kinesis;
  Pubsub_ProjectID : option string;
  ZMQ_set : bool;
  Config_Redis : option Redis;
  Namespace : string;
  Monitoring : option MonitoringConfig;
  LogLevel : string;
  JSONLogEnable : bool;
  Records : gmap string (list Dispatcher);
  TransmitDecodedRecords : bool;
  VinsSignalTrackingEnabled : list string;
  MQTT_set : bool
}.

(** [&Config{...}] before decoding. *)
Definition zero_Config : Config :=
  mkConfig "" 0 0 None false None ∅ None None None false None "" None "" false ∅ false [] false.

(** Assignments. *)
Definition set_Host v c := mkConfig v (Port c) (StatusPort c) (Config_TLS c) (UseDefaultEngCA c)
  (Config_RateLimit c) (ReliableAckSources c) (Kafka c) (Config_Kinesis c) (Pubsub_ProjectID c)
  (ZMQ_set c) (Config_Redis c) (Namespace c) (Monitoring c) (LogLevel c) (JSONLogEnable c)
  (Records c) (TransmitDecodedRecords c) (VinsSignalTrackingEnabled c) (MQTT_set c).
Definition set_Port v c := mkConfig (Host c) v (StatusPort c) (Config_TLS c) (UseDefaultEngCA c)
  (Config_RateLimit c) (ReliableAckSources c) (Kafka c) (Config_Kinesis c) (Pubsub_ProjectID c)
  (ZMQ_set c) (Config_Redis c) (Namespace c) (Monitoring c) (LogLevel c) (JSONLogEnable c)
  (Records c) (TransmitDecodedRecords c) (VinsSignalTrackingEnabled c) (MQTT_set c).
Definition set_StatusPort v c := mkConfig (Host c) (Port c) v (Config_TLS c) (UseDefaultEngCA c)
  (Config_RateLimit c) (ReliableAckSources c) (Kafka c) (Config_Kinesis c) (Pubsub_ProjectID c)
  (ZMQ_set c) (Config_Redis c) (Namespace c) (Monitoring c) (LogLevel c) (JSONLogEnable c)
  (Records c) (TransmitDecodedRecords c) (VinsSignalTrackingEnabled c) (MQTT_set c).
Definition set_TLS v c := mkConfig (Host c) (Port c) (StatusPort c) v (UseDefaultEngCA c)
  (Config_RateLimit c) (ReliableAckSources c) (Kafka c) (Config_Kinesis c) (Pubsub_ProjectID c)
  (ZMQ_set c) (Config_Redis c) (Namespace c) (Monitoring c) (LogLevel c) (JSONLogEnable c)
  (Records c) (TransmitDecodedRecords c) (VinsSignalTrackingEnabled c) (MQTT_set c).
Definition set_Namespace v c := mkConfig (Host c) (Port c) (StatusPort c) (Config_TLS c)
  (UseDefaultEngCA c) (Config_RateLimit c) (ReliableAckSources c) (Kafka c) (Config_Kinesis c)
  (Pubsub_ProjectID c) (ZMQ_set c) (Config_Redis c) v (Monitoring c) (LogLevel c)
  (JSONLogEnable c) (Records c) (TransmitDecodedRecords c) (VinsSignalTrackingEnabled c)
  (MQTT_set c).
Definition set_LogLevel v c := mkConfig (Host c) (Port c) (StatusPort c) (Config_TLS c)
  (UseDefaultEngCA c) (Config_RateLimit c) (ReliableAckSources c) (Kafka c) (Config_Kinesis c)
  (Pubsub_ProjectID c) (ZMQ_set c) (Config_Redis c) (Namespace c) (Monitoring c) v
  (JSONLogEnable c) (Records c) (TransmitDecodedRecords c) (VinsSignalTrackingEnabled c)
  (MQTT_set c).
Definition set_Records v c := mkConfig (Host c) (Port c) (StatusPort c) (Config_TLS c)
  (UseDefaultEngCA c) (Config_RateLimit c) (ReliableAckSources c) (Kafka c) (Config_Kinesis c)
  (Pubsub_ProjectID c) (ZMQ_set c) (Config_Redis c) (Namespace c) (Monitoring c) (LogLevel c)
  (JSONLogEnable c) v (TransmitDecodedRecords c) (VinsSignalTrackingEnabled c) (MQTT_set c).

Definition maxVinsToTrack : Z := 20.
Definition defaultHost : string := "0.0.0.0".
Definition defaultPort : Z := 443.
Definition defaultStatusPort : Z := 8080.
Definition defaultLogLevel : string := "info".
Definition defaultNamespace : string := "tesla_telemetry".

(** [strings.TrimSpace(s) == ""] *)
Definition blank (s : string) : bool := String.eqb (strings.TrimSpace s) "".

Definition fail {A} (msg : string) : result A := Err (ErrorString msg).

(** ** Loading *)

(** The process environment; [os.Getenv] is the empty string for an unset
    variable. *)
Abbreviation environment := (string -> option string).
Definition Getenv (env : environment) (name : string) : string := default "" (env name).

Definition default_Records : gmap string (list Dispatcher) := list_to_map
  [("alerts", [Logger_]); ("errors", [Logger_]); ("V", [Logger_]); ("connectivity", [Logger_])].

Definition applySafeDefaults (c : Config) : Config :=
  let c := if blank (Host c) then set_Host defaultHost c else c in
  let c := if Port c =? 0 then set_Port defaultPort c else c in
  let c := if StatusPort c =? 0 then set_StatusPort defaultStatusPort c else c in
  let c := if blank (Namespace c) then set_Namespace defaultNamespace c else c in
  let c := if blank (LogLevel c) then set_LogLevel defaultLogLevel c else c in
  if decide (Records c = ∅) then set_Records default_Records c else c.

(** [overrideInt]: the value to assign, if the variable is set. *)
Definition overrideInt (env : environment) (name : string) (destination : Z) : result Z :=
  let value := strings.TrimSpace (Getenv env name) in
  if String.eqb value "" then Ok destination
  else match strconv.Atoi value with
       | Some parsed => Ok parsed
       | None => fail ("invalid " +:+ name +:+ " " +:+ quote value +:+ ": strconv.Atoi: parsing " +:+
                       quote value +:+ ": " +:+ strconv.Atoi_error value)
       end.

Definition override (value old : string) : string := if String.eqb value "" then old else value.

Definition applyEnvironmentOverrides (env : environment) (c : Config) : result Config :=
  let get name := strings.TrimSpace (Getenv env name) in
  let c := if negb (String.eqb (get "ACME_DOMAIN") "") &&
              match Config_TLS c with None => true | Some _ => false end
           then set_TLS (Some (mkTLS "" "" "")) c else c in
  let c := set_Host (override (get "HOST") (Host c)) c in
  port ← overrideInt env "PORT" (Port c);
  let c := set_Port port c in
  status ← overrideInt env "STATUS_PORT" (StatusPort c);
  let c := set_StatusPort status c in
  let c := set_LogLevel (override (get "LOG_LEVEL") (LogLevel c)) c in
  let c := set_Namespace (override (get "TELEMETRY_NAMESPACE") (Namespace c)) c in
  let certPath := get "TLS_CERT_PATH" in
  let keyPath := get "TLS_KEY_PATH" in
  let caPath := get "TLS_CA_PATH" in
  let c := if String.eqb certPath "" && String.eqb keyPath "" && String.eqb caPath "" then c
           else let t := default (mkTLS "" "" "") (Config_TLS c) in
                set_TLS (Some (mkTLS (override caPath (CAFile t)) (override certPath (ServerCert t))
                  (override keyPath (ServerKey t)))) c in
  let value := get "TLS_ENABLED" in
  if String.eqb value "" then Ok c
  else match strconv.ParseBool value with
       | None => fail ("invalid TLS_ENABLED " +:+ quote value +:+ ": strconv.ParseBool: parsing " +:+
                       quote value +:+ ": invalid syntax")
       | Some false => fail "TLS_ENABLED=false is unsupported: Tesla vehicles require direct mTLS; deploy the listener on a persistent TCP service"
       | Some true => Ok c
       end.

(** The results of the file operations of [materializeInlineTLSSecrets]: the
    directory made, and the errors of the two writes. *)
Record secret_files := mkSecretFiles {
  made : result string;
  write_cert : option string;
  write_key : option string
}.

Definition materializeInlineTLSSecrets (env : environment) (files : secret_files) (c : Config)
  : result Config :=
  let certificatePEM := Getenv env "TLS_CERT_PEM" in
  let privateKeyPEM := Getenv env "TLS_KEY_PEM" in
  if String.eqb certificatePEM "" && String.eqb privateKeyPEM "" then Ok c
  else if String.eqb certificatePEM "" then fail "TLS_CERT_PEM is required when TLS_KEY_PEM is set"
  else if String.eqb privateKeyPEM "" then fail "TLS_KEY_PEM is required when TLS_CERT_PEM is set"
  else match made files with
       | Err (ErrorString e) => fail ("create TLS secret directory: " +:+ e)
       | Err e => Err e
       | Ok directory =>
           match write_cert files, write_key files with
           | Some e, _ => fail ("write TLS certificate secret: " +:+ e)
           | None, Some e => fail ("write TLS private key secret: " +:+ e)
           | None, None =>
               let t := default (mkTLS "" "" "") (Config_TLS c) in
               Ok (set_TLS (Some (mkTLS (CAFile t) (directory +:+ "/tls.crt")
                     (directory +:+ "/tls.key"))) c)
           end
       end.

(** [VinsToTrack]: the configured VINs as a set. *)
Definition VinsToTrack (c : Config) : gset string := list_to_set (VinsSignalTrackingEnabled c).

Definition validateConfig (c : Config) : result () :=
  if blank (Host c) then fail "missing HOST"
  else if (Port c <? 1) || (65535 <? Port c)
  then fail ("invalid PORT " +:+ strconv.Itoa (Port c) +:+ ": must be between 1 and 65535")
  else if (StatusPort c <? 0) || (65535 <? StatusPort c)
  then fail ("invalid STATUS_PORT " +:+ strconv.Itoa (StatusPort c) +:+ ": must be between 0 and 65535")
  else if blank (Namespace c) then fail "missing TELEMETRY_NAMESPACE"
  else if bool_decide (Records c = ∅) then fail "missing records dispatcher configuration"
  else if maxVinsToTrack <? Z.of_nat (size (VinsToTrack c))
  then fail ("set the value of `vins_signal_tracking_enabled` less than " +:+
             strconv.Itoa maxVinsToTrack +:+ " unique vins")
  else Ok ().

Definition ValidateRuntime (env : environment) (c : Config) : result () :=
  if negb (blank (Getenv env "ACME_DOMAIN")) then Ok ()
  else match Config_TLS c with
       | None => fail "missing TLS configuration: Tesla Fleet Telemetry requires direct mTLS"
       | Some t =>
           if blank (ServerCert t)
           then fail "missing TLS certificate: set TLS_CERT_PATH or TLS_CERT_PEM"
           else if blank (ServerKey t)
           then fail "missing TLS private key: set TLS_KEY_PATH or TLS_KEY_PEM"
           else Ok ()
       end.

(** Opening and decoding the configuration file over the zero configuration. *)
Inductive config_file :=
| NotExist
| OpenError (e : string)
| DecodeError (e : string)
| Decoded (c : Config).

(** [loadApplicationConfig], up to the metric collector and the channel it
    creates. *)
Definition loadApplicationConfig (path : string) (file : config_file) (env : environment)
    (files : secret_files) : result Config :=
  config ← match file with
           | NotExist => Ok zero_Config
           | OpenError e => fail ("open config file " +:+ quote path +:+ ": " +:+ e)
           | DecodeError e => fail ("decode config file " +:+ quote path +:+ ": " +:+ e)
           | Decoded c => Ok c
           end;
  let config := applySafeDefaults config in
  config ← applyEnvironmentOverrides env config;
  config ← materializeInlineTLSSecrets env files config;
  _ ← NewLogrusLogger env "null_logger" ∅ (Some {["context" := AString "metrics"]});
  _ ← validateConfig config;
  Ok config.

(** ** Reliable acknowledgements *)

(** [parseValidDispatchers]: every dispatcher but the logger. *)
Definition parseValidDispatchers (input : list Dispatcher) : list Dispatcher :=
  List.filter (fun v => negb (String.eqb v Logger_)) input.

(** The text of [%v] on a slice of dispatchers. *)
Definition show_list (l : list string) : string :=
  "[" +:+ String.concat " " l +:+ "]".

(** For each dispatcher, the record types it acknowledges. *)
Abbreviation ack_sources := (gmap Dispatcher (gset string)).

(** One entry of the loop of [configureReliableAckSources]. *)
Definition ack_source_step (records : gmap string (list Dispatcher)) (acc : ack_sources)
    (txType : string) (dispatchRule : Dispatcher) : result ack_sources :=
  if String.eqb txType "connectivity"
  then fail ("reliable ack not needed for txType: " +:+ txType)
  else if String.eqb dispatchRule Logger_
  then fail ("logger cannot be configured as reliable ack for record: " +:+ txType)
  else match records !! txType with
       | None => fail (dispatchRule +:+ " cannot be configured as reliable ack for record: " +:+
                       txType +:+ " since no record mapping exists")
       | Some dispatchers =>
           let validDispatchers := parseValidDispatchers dispatchers in
           if existsb (String.eqb dispatchRule) validDispatchers
           then Ok (<[dispatchRule := {[txType]} ∪ default ∅ (acc !! dispatchRule)]> acc)
           else fail (dispatchRule +:+ " cannot be configured as reliable ack for record: " +:+
                      txType +:+ ". Valid datastores configured " +:+ show_list validDispatchers)
       end.

(** The loop, over the entries in the order the map iteration gives them. *)
Fixpoint configureReliableAckSources_loop (records : gmap string (list Dispatcher))
    (entries : list (string * Dispatcher)) (acc : ack_sources) : result ack_sources :=
  match entries with
  | [] => Ok acc
  | (txType, dispatchRule) :: rest =>
      acc ← ack_source_step records acc txType dispatchRule;
      configureReliableAckSources_loop records rest acc
  end.

Definition configureReliableAckSources (c : Config) (entries : list (string * Dispatcher))
  : result ack_sources :=
  configureReliableAckSources_loop (Records c) entries ∅.

(** ** Producers *)

(** [int(f)] for a [float64]: towards zero.  The result for a value out of
    range is up to the machine; it is that of amd64 here. *)
Definition int_of_float (f : spec_float) : Z :=
  match f with
  | S754_zero _ => 0
  | S754_finite neg m e =>
      let a := if 0 <=? e then Zpos m * 2 ^ e else Zpos m / 2 ^ (- e) in
      let z := if neg then - a else a in
      if is_int64 z then z else int64_min
  | _ => int64_min
  end.

(** [convertKafkaConfig]: decoded numbers become integers. *)
Definition convertKafkaConfig (input : gmap string ConfigValue) : gmap string ConfigValue :=
  (fun v => match v with CVFloat f => CVInt (int_of_float f) | _ => v end) <$> input.

(** [CreateKinesisStreamMapping]: the configured stream, overridden by the
    environment, or the namespaced name. *)
Definition stream_of (env : environment) (c : Config)
    (recordName : string) : string :=
  let configured := match Config_Kinesis c with
                    | Some k => default "" (Streams k !! recordName)
                    | None => ""
                    end in
  let stream := override (Getenv env ("KINESIS_STREAM_" +:+ strings.ToUpper recordName)) configured in
  if String.eqb stream "" then Namespace c +:+ "_" +:+ recordName else stream.

Definition CreateKinesisStreamMapping (env : environment) (c : Config)
    (recordNames : list string) : gmap string string :=
  list_to_map ((fun r => (r, stream_of env c r)) <$> recordNames).

(** [prometheusEnabled] *)
Definition prometheusEnabled (c : Config) : bool :=
  match Monitoring c with
  | Some m => 0 <? PrometheusMetricsPort m
  | None => false
  end.

Section Producers.
(** The constructors of the producers: each opens its connection, or fails. *)
Variable construct : Dispatcher -> result string.

(** The dispatchers some record requires. *)
Definition required (c : Config) (d : Dispatcher) : bool :=
  existsb (fun e => existsb (String.eqb d) (snd e)) (map_to_list (Records c)).

(** A required producer needs its configuration. *)
Definition add_producer (c : Config) (d : Dispatcher) (configured : bool) (name : string)
    (producers : gmap Dispatcher string) : result (gmap Dispatcher string) :=
  if required c d
  then if configured
       then p ← construct d; Ok (<[d := p]> producers)
       else fail ("expected " +:+ name +:+ " to be configured")
  else Ok producers.

Definition is_set {A} (x : option A) : bool := match x with Some _ => true | None => false end.

Definition make_producers (c : Config) : result (gmap Dispatcher string) :=
  producers ← Ok {[Logger_ := Logger_]};
  producers ← add_producer c Kafka_ (is_set (Kafka c)) "Kafka" producers;
  producers ← add_producer c Pubsub_ (is_set (Pubsub_ProjectID c)) "Pubsub" producers;
  producers ← add_producer c Kinesis_ (is_set (Config_Kinesis c)) "Kinesis" producers;
  producers ← add_producer c ZMQ_ (ZMQ_set c) "ZMQ" producers;
  producers ← add_producer c MQTT_ (MQTT_set c) "MQTT" producers;
  add_producer c Redis_ (is_set (Config_Redis c)) "Redis" producers.

(** The rules: a dispatcher without a producer gives a nil one. *)
Fixpoint dispatch_rules {P : Type} (producers : gmap Dispatcher P)
    (entries : list (string * list Dispatcher)) (acc : gmap string (list (option P)))
  : result (gmap string (list (option P))) :=
  match entries with
  | [] => Ok acc
  | (recordName, dispatchRules) :: rest =>
      match dispatchRules with
      | [] => fail ("unknown_dispatch_rule record: " +:+ recordName +:+ ", dispatchRule:" +:+
                    show_list dispatchRules)
      | _ => dispatch_rules producers rest
               (<[recordName := (fun d => producers !! d) <$> dispatchRules]> acc)
      end
  end.

(** [ConfigureProducers] with [test] set, which skips the provisioning of the
    Pub/Sub topics and the MQTT connection; [acks] and [records] are the
    entries of the two maps in iteration order. *)
Definition ConfigureProducers (c : Config) (acks : list (string * Dispatcher))
    (records : list (string * list Dispatcher))
  : result (gmap Dispatcher string * gmap string (list (option string))) :=
  _ ← configureReliableAckSources c acks;
  producers ← make_producers c;
  rules ← dispatch_rules producers records ∅;
  Ok (producers, rules).
End Producers.

(** ** Lemmas *)

Lemma result_bind_Ok {A B} (m : result A) (f : A -> result B) b :
  m ≫= f = Ok b <-> exists a, m = Ok a /\ f a = Ok b.
Proof.
  destruct m as [a|e]; simpl; split.
  - intros H. by exists a.
  - by intros (a' & [= <-] & H).
  - done.
  - by intros (a' & H & _).
Qed.

(** What every loaded configuration satisfies. *)
Definition config_valid (c : Config) : Prop :=
  blank (Host c) = false /\ 1 <= Port c <= 65535 /\ 0 <= StatusPort c <= 65535 /\
  blank (Namespace c) = false /\ Records c <> ∅ /\
  Z.of_nat (size (VinsToTrack c)) <= maxVinsToTrack.

Lemma validateConfig_spec c : validateConfig c = Ok () <-> config_valid c.
Proof.
  unfold validateConfig, config_valid. split.
  - destruct (blank (Host c)); [done|].
    destruct (Z.ltb_spec (Port c) 1); [done|]. destruct (Z.ltb_spec 65535 (Port c)); [done|].
    destruct (Z.ltb_spec (StatusPort c) 0); [done|].
    destruct (Z.ltb_spec 65535 (StatusPort c)); [done|]. simpl.
    destruct (blank (Namespace c)); [done|]. case_bool_decide; [done|].
    destruct (Z.ltb_spec maxVinsToTrack (Z.of_nat (size (VinsToTrack c)))); [done|].
    intros _. repeat split; (done || lia).
  - intros (-> & Hp & Hs & -> & Hr & Hv).
    destruct (Z.ltb_spec (Port c) 1); [lia|]. destruct (Z.ltb_spec 65535 (Port c)); [lia|].
    destruct (Z.ltb_spec (StatusPort c) 0); [lia|].
    destruct (Z.ltb_spec 65535 (StatusPort c)); [lia|]. simpl.
    rewrite bool_decide_eq_false_2 by done.
    by destruct (Z.ltb_spec maxVinsToTrack (Z.of_nat (size (VinsToTrack c)))); [lia|].
Qed.

Lemma loadApplicationConfig_Ok path file env files c :
  loadApplicationConfig path file env files = Ok c ->
  validateConfig c = Ok () /\
  exists base c1, (file = NotExist /\ base = zero_Config \/ file = Decoded base) /\
    applyEnvironmentOverrides env (applySafeDefaults base) = Ok c1 /\
    materializeInlineTLSSecrets env files c1 = Ok c.
Proof.
  unfold loadApplicationConfig.
  intros (base & Hbase & (c1 & H1 & (c2 & H2 & (lg & _ & ([] & Hv & [= ->])%result_bind_Ok
    )%result_bind_Ok)%result_bind_Ok)%result_bind_Ok)%result_bind_Ok.
  split; [done|]. exists base, c1. split; [|done].
  destruct file; try done; [left|right]; by injection Hbase as <-.
Qed.

(** The fields after the host, and after the ports, that defaults or overrides
    may set. *)
Definition text_fields (c : Config) := (Namespace c, LogLevel c, Records c, Config_RateLimit c).
Definition tail_fields (c : Config) :=
  (Port c, Namespace c, LogLevel c, Records c, Config_RateLimit c).

(** The defaults, field by field. *)
Lemma applySafeDefaults_spec c :
  let c' := applySafeDefaults c in
  Host c' = (if blank (Host c) then defaultHost else Host c) /\
  Port c' = (if Port c =? 0 then defaultPort else Port c) /\
  Namespace c' = (if blank (Namespace c) then defaultNamespace else Namespace c) /\
  LogLevel c' = (if blank (LogLevel c) then defaultLogLevel else LogLevel c) /\
  Records c' = (if decide (Records c = ∅) then default_Records else Records c) /\
  Config_RateLimit c' = Config_RateLimit c.
Proof.
  cbn zeta. unfold applySafeDefaults.
  set (c1 := if blank (Host c) then set_Host defaultHost c else c).
  assert (H1 : Host c1 = (if blank (Host c) then defaultHost else Host c) /\
    tail_fields c1 = tail_fields c) by (subst c1; by destruct (blank (Host c))).
  clearbody c1. unfold tail_fields in H1. destruct H1 as (<- & [= <- <- <- <- <-]).
  set (c2 := if Port c1 =? 0 then set_Port defaultPort c1 else c1).
  assert (H2 : Port c2 = (if Port c1 =? 0 then defaultPort else Port c1) /\
    Host c2 = Host c1 /\ text_fields c2 = text_fields c1)
    by (subst c2; by destruct (Port c1 =? 0)).
  clearbody c2. unfold text_fields in H2. destruct H2 as (<- & <- & [= <- <- <- <-]).
  set (c3 := if StatusPort c2 =? 0 then set_StatusPort defaultStatusPort c2 else c2).
  assert (H3 : Port c3 = Port c2 /\ Host c3 = Host c2 /\ text_fields c3 = text_fields c2)
    by (subst c3; by destruct (StatusPort c2 =? 0)).
  clearbody c3. unfold text_fields in H3. destruct H3 as (<- & <- & [= <- <- <- <-]).
  destruct (blank (Namespace c3)); cbn [set_Namespace Namespace LogLevel Records];
    destruct (blank (LogLevel c3)); cbn [set_Namespace set_LogLevel LogLevel Records];
    destruct (decide (Records c3 = ∅)); repeat split.
Qed.

(** The overrides of the environment, field by field. *)
Lemma applyEnvironmentOverrides_Ok env c c' :
  applyEnvironmentOverrides env c = Ok c' ->
  Host c' = override (strings.TrimSpace (Getenv env "HOST")) (Host c) /\
  overrideInt env "PORT" (Port c) = Ok (Port c') /\
  overrideInt env "STATUS_PORT" (StatusPort c) = Ok (StatusPort c') /\
  LogLevel c' = override (strings.TrimSpace (Getenv env "LOG_LEVEL")) (LogLevel c) /\
  Namespace c' = override (strings.TrimSpace (Getenv env "TELEMETRY_NAMESPACE")) (Namespace c) /\
  Records c' = Records c /\ Config_RateLimit c' = Config_RateLimit c.
Proof.
  unfold applyEnvironmentOverrides.
  generalize (strings.TrimSpace (Getenv env "ACME_DOMAIN")). intros acme.
  set (c0 := if negb (String.eqb acme "") && _ then _ else c).
  assert (Hc0 : Host c0 = Host c /\ Port c0 = Port c /\ StatusPort c0 = StatusPort c /\
    LogLevel c0 = LogLevel c /\ Namespace c0 = Namespace c /\ Records c0 = Records c /\
    Config_RateLimit c0 = Config_RateLimit c) by (subst c0; by case_match).
  clearbody c0. destruct Hc0 as (<- & <- & <- & <- & <- & <- & <-).
  intros (port & Hport & (status & Hstatus & H)%result_bind_Ok)%result_bind_Ok.
  simpl in Hport, Hstatus. rewrite Hport, Hstatus. revert H.
  repeat case_match; try done; intros [= <-]; done.
Qed.

Lemma materializeInlineTLSSecrets_Ok env files c c' :
  materializeInlineTLSSecrets env files c = Ok c' -> c' = set_TLS (Config_TLS c') c.
Proof.
  unfold materializeInlineTLSSecrets. repeat case_match; try done; intros [= <-]; by destruct c.
Qed.

(** *** Reliable acknowledgement sources *)

(** An entry the configuration may have. *)
Definition ack_entry_ok (records : gmap string (list Dispatcher)) (e : string * Dispatcher) : Prop :=
  e.1 <> "connectivity"%string /\ e.2 <> Logger_ /\
  exists dispatchers, records !! e.1 = Some dispatchers /\ e.2 ∈ dispatchers.

Definition add_ack (acc : ack_sources) (e : string * Dispatcher) : ack_sources :=
  <[e.2 := {[e.1]} ∪ default ∅ (acc !! e.2)]> acc.

Lemma existsb_elem d l : existsb (String.eqb d) l = true <-> d ∈ l.
Proof.
  rewrite existsb_exists, list_elem_of_In. split.
  - by intros (x & Hin & ->%String.eqb_eq).
  - intros Hin. exists d. by rewrite String.eqb_refl.
Qed.

Lemma parseValidDispatchers_elem d l :
  d ∈ parseValidDispatchers l <-> d <> Logger_ /\ d ∈ l.
Proof.
  unfold parseValidDispatchers. rewrite !list_elem_of_In, filter_In, negb_true_iff, String.eqb_neq.
  tauto.
Qed.

Lemma ack_source_step_Ok records acc tx d acc' :
  ack_source_step records acc tx d = Ok acc' <->
  ack_entry_ok records (tx, d) /\ acc' = add_ack acc (tx, d).
Proof.
  unfold ack_source_step, ack_entry_ok, add_ack. simpl.
  destruct (String.eqb_spec tx "connectivity"); [naive_solver|].
  destruct (String.eqb_spec d Logger_); [naive_solver|].
  destruct (records !! tx) as [ds|]; [|naive_solver].
  destruct (existsb _ _) eqn:E.
  - apply existsb_elem, parseValidDispatchers_elem in E as [_ E]. naive_solver.
  - assert (Hn : d ∉ ds).
    { intros Hin. apply not_true_iff_false in E. apply E, existsb_elem, parseValidDispatchers_elem.
      done. }
    split; [done|]. naive_solver.
Qed.

Lemma configureReliableAckSources_loop_Ok records entries acc acc' :
  configureReliableAckSources_loop records entries acc = Ok acc' <->
  Forall (ack_entry_ok records) entries /\ acc' = foldl add_ack acc entries.
Proof.
  revert acc. induction entries as [|[tx d] entries IH]; intros acc; simpl.
  - split; [intros [= ->]; done|]. by intros [_ ->].
  - rewrite result_bind_Ok, Forall_cons. split.
    + intros (acc1 & [Hok ->]%ack_source_step_Ok & [Hrest ->]%IH). done.
    + intros [[Hok Hrest] ->]. exists (add_ack acc (tx, d)).
      rewrite ack_source_step_Ok, IH. done.
Qed.

Lemma foldl_add_ack entries acc d tx :
  tx ∈ default ∅ (foldl add_ack acc entries !! d) <->
  tx ∈ default ∅ (acc !! d) \/ (tx, d) ∈ entries.
Proof.
  revert acc. induction entries as [|[tx' d'] entries IH]; intros acc; simpl.
  { set_solver. }
  rewrite IH, elem_of_cons. unfold add_ack. simpl.
  destruct (decide (d' = d)) as [->|Hd].
  - rewrite lookup_insert_eq. simpl. set_solver.
  - rewrite lookup_insert_ne by done. naive_solver.
Qed.

(** ** Properties *)

(** C25: a configuration the loader returns is valid: host and namespace are
    not blank, the ports are in range, some record has dispatchers and at most
    twenty distinct VINs are tracked, whatever the file and the environment
    hold. *)
Theorem loaded_config_valid path file env files c :
  loadApplicationConfig path file env files = Ok c -> config_valid c.
Proof. by intros [Hv%validateConfig_spec _]%loadApplicationConfig_Ok. Qed.

Definition empty_env : environment := fun _ => None.
Definition no_files : secret_files := mkSecretFiles (Ok "/tmp/x") None None.

Lemma loaded_config_valid_witness :
  exists c, loadApplicationConfig "config.json" NotExist empty_env no_files = Ok c /\ config_valid c.
Proof.
  destruct (loadApplicationConfig "config.json" NotExist empty_env no_files) as [c|e] eqn:E.
  - exists c. split; [reflexivity|]. exact (loaded_config_valid _ _ _ _ _ E).
  - exfalso. assert (H : is_ok (loadApplicationConfig "config.json" NotExist empty_env no_files) = true)
      by (vm_compute; reflexivity).
    rewrite E in H. discriminate.
Defined.

(** The value of a setting: the environment's when it is not blank, else the
    file's when it is not blank, else the default. *)
Definition setting (env : environment) (name file_value default_value : string) : string :=
  override (strings.TrimSpace (Getenv env name)) (if blank file_value then default_value else file_value).


Definition sample_env : environment := fun name =>
  if String.eqb name "HOST" then Some " 10.0.0.1 " else
  if String.eqb name "PORT" then Some "8443" else None.


(** The sources made from the configuration are the inverse of its map. *)
Lemma ack_sources_inverse c entries acc tx d :
  entries ≡ₚ map_to_list (ReliableAckSources c) ->
  configureReliableAckSources c entries = Ok acc ->
  tx ∈ default ∅ (acc !! d) <-> ReliableAckSources c !! tx = Some d.
Proof.
  intros Hperm [_ ->]%configureReliableAckSources_loop_Ok.
  rewrite foldl_add_ack, lookup_empty. simpl. rewrite Hperm, elem_of_map_to_list. set_solver.
Qed.

(** C22: whatever the order of the map iteration, the reliable-acknowledgement
    sources are accepted exactly when each names a dispatcher other than the
    logger that its record, other than connectivity, is dispatched to; and then
    a record type is a source of a dispatcher exactly when it is configured
    with it. *)
Theorem reliable_ack_sources_spec c entries :
  entries ≡ₚ map_to_list (ReliableAckSources c) ->
  (is_ok (configureReliableAckSources c entries) = true <->
   map_Forall (fun tx d => ack_entry_ok (Records c) (tx, d)) (ReliableAckSources c)) /\
  forall acc, configureReliableAckSources c entries = Ok acc ->
    forall tx d, tx ∈ default ∅ (acc !! d) <-> ReliableAckSources c !! tx = Some d.
Proof.
  intros Hperm. unfold configureReliableAckSources.
  pose proof (configureReliableAckSources_loop_Ok (Records c) entries ∅) as Hloop.
  split.
  - rewrite map_Forall_to_list, <- Hperm.
    assert (Hall : Forall (uncurry (fun tx d => ack_entry_ok (Records c) (tx, d))) entries <->
      Forall (ack_entry_ok (Records c)) entries) by (apply Forall_iff; by intros []).
    rewrite Hall. clear Hall. split.
    + destruct (configureReliableAckSources_loop _ _ _) as [acc|e]; [|done].
      intros _. by apply (Hloop acc).
    + intros Hall. by rewrite (proj2 (Hloop _) (conj Hall eq_refl)).
  - intros acc Hacc tx d. by apply (ack_sources_inverse c entries).
Qed.

Definition sample_config : Config :=
  mkConfig "h" 443 8080 None false None {["V" := Kafka_]} (Some ∅) None None false None "ns" None
    "info" false (list_to_map [("V", [Kafka_; Logger_]); ("alerts", ["kafka2"])]) false [] false.

Lemma reliable_ack_sources_spec_witness :
  exists acc, configureReliableAckSources sample_config [("V"%string, Kafka_)] = Ok acc /\
    ("V"%string ∈ default ∅ (acc !! Kafka_) <-> ReliableAckSources sample_config !! "V" = Some Kafka_).
Proof.
  assert (Hp : [("V"%string, Kafka_)] ≡ₚ map_to_list (ReliableAckSources sample_config))
    by (vm_compute; reflexivity).
  destruct (reliable_ack_sources_spec sample_config _ Hp) as [_ H].
  destruct (configureReliableAckSources sample_config [("V"%string, Kafka_)]) as [acc|e] eqn:E.
  - exists acc. split; [reflexivity|]. exact (H acc eq_refl "V"%string Kafka_).
  - exfalso. assert (H1 : is_ok (configureReliableAckSources sample_config [("V"%string, Kafka_)])
      = true) by (vm_compute; reflexivity).
    rewrite E in H1. discriminate.
Defined.

(** *** Dispatch rules *)

Definition known_dispatchers : list Dispatcher :=
  [Logger_; Kafka_; Pubsub_; Kinesis_; ZMQ_; MQTT_; Redis_].

Section ProducerLemmas.
Variable construct : Dispatcher -> result string.

Lemma add_producer_dom c d configured name ps ps' e :
  add_producer construct c d configured name ps = Ok ps' ->
  is_Some (ps' !! e) <-> is_Some (ps !! e) \/ (e = d /\ required c d = true).
Proof.
  unfold add_producer. destruct (required c d).
  - destruct configured; [|done]. intros (p & _ & [= <-])%result_bind_Ok.
    destruct (decide (d = e)) as [->|Hne].
    + rewrite lookup_insert_eq. naive_solver.
    + rewrite lookup_insert_ne by done. naive_solver.
  - intros [= ->]. naive_solver.
Qed.

Lemma make_producers_dom c ps d :
  make_producers construct c = Ok ps ->
  is_Some (ps !! d) <-> d = Logger_ \/ (d ∈ known_dispatchers /\ required c d = true).
Proof.
  unfold make_producers.
  intros (p1 & [= <-] & (p2 & H2 & (p3 & H3 & (p4 & H4 & (p5 & H5 & (p6 & H6 & H7
    )%result_bind_Ok)%result_bind_Ok)%result_bind_Ok)%result_bind_Ok)%result_bind_Ok)%result_bind_Ok.
  rewrite (add_producer_dom _ _ _ _ _ _ d H7), (add_producer_dom _ _ _ _ _ _ d H6),
    (add_producer_dom _ _ _ _ _ _ d H5), (add_producer_dom _ _ _ _ _ _ d H4),
    (add_producer_dom _ _ _ _ _ _ d H3), (add_producer_dom _ _ _ _ _ _ d H2).
  unfold known_dispatchers. rewrite !elem_of_cons, elem_of_nil.
  assert (Hl : is_Some (({[Logger_ := Logger_]} : gmap Dispatcher string) !! d) <-> d = Logger_).
  { destruct (decide (Logger_ = d)) as [<-|Hne].
    - rewrite lookup_singleton_eq. naive_solver.
    - rewrite lookup_singleton_ne by done. split; [by intros []|congruence]. }
  rewrite Hl. split.
  - intros [[[[[[->|[-> ?]]|[-> ?]]|[-> ?]]|[-> ?]]|[-> ?]]|[-> ?]]; auto 10.
  - intros [->|[[->|[->|[->|[->|[->|[->|[->|[]]]]]]]] ?]]; auto 10.
Qed.

Lemma dispatch_rules_lookup {P} (ps : gmap Dispatcher P) entries acc rules r :
  NoDup entries.*1 -> dispatch_rules ps entries acc = Ok rules ->
  Forall (fun e => e.2 <> []) entries /\
  rules !! r = match list_to_map (M := gmap string (list Dispatcher)) entries !! r with
               | Some ds => Some ((fun d => ps !! d) <$> ds)
               | None => acc !! r
               end.
Proof.
  revert acc. induction entries as [|[name ds] entries IH]; intros acc; simpl.
  { intros _ [= ->]. by rewrite lookup_empty. }
  intros [Hni Hnd]%NoDup_cons. destruct ds as [|d ds]; [done|]. intros H.
  apply IH in H as [Hall ->]; [|done]. split; [by constructor|].
  destruct (decide (name = r)) as [->|Hne].
  - rewrite not_elem_of_list_to_map_1 by done. by rewrite !lookup_insert_eq.
  - by rewrite !lookup_insert_ne by done.
Qed.
End ProducerLemmas.

(** When the producers are configured, every record's rule lists the
    producers of its dispatchers in order, never an empty list; the producer is
    nil exactly for a dispatcher whose name is not one of the known ones, so a
    misspelt dispatcher is not reported but gives a rule that cannot be
    dispatched to. *)
Theorem dispatch_rules_spec construct c acks records producers rules r ds :
  records ≡ₚ map_to_list (Records c) ->
  ConfigureProducers construct c acks records = Ok (producers, rules) ->
  Records c !! r = Some ds ->
  ds <> [] /\ rules !! r = Some ((fun d => producers !! d) <$> ds) /\
  forall d, d ∈ ds -> (producers !! d = None <-> d ∉ known_dispatchers).
Proof.
  intros Hperm (acc & _ & (ps & Hps & (rs & Hrs & [= <- <-])%result_bind_Ok)%result_bind_Ok
    )%result_bind_Ok Hr.
  assert (Hnd : NoDup records.*1) by (rewrite Hperm; apply NoDup_fst_map_to_list).
  apply (dispatch_rules_lookup _ _ _ _ r Hnd) in Hrs as [Hall Hlook].
  assert (Hin : (r, ds) ∈ records) by (rewrite Hperm; by apply elem_of_map_to_list).
  rewrite (elem_of_list_to_map_1 _ _ _ Hnd Hin) in Hlook.
  split; [|split; [done|]].
  - rewrite Forall_forall in Hall. exact (Hall _ Hin).
  - intros d Hd. pose proof (make_producers_dom construct c ps d Hps) as Hdom.
    assert (Hreq : required c d = true).
    { unfold required. apply existsb_exists. exists (r, ds). split.
      - apply list_elem_of_In. by apply elem_of_map_to_list.
      - by apply existsb_elem. }
    rewrite eq_None_not_Some, Hdom. unfold known_dispatchers. set_solver.
Qed.

Lemma dispatch_rules_spec_witness :
  exists producers rules,
    ConfigureProducers Ok sample_config [("V"%string, Kafka_)] (map_to_list (Records sample_config)) =
      Ok (producers, rules) /\
    rules !! "alerts"%string = Some [None] /\ is_Some (producers !! Kafka_).
Proof.
  assert (Hok : is_ok (ConfigureProducers Ok sample_config [("V"%string, Kafka_)]
    (map_to_list (Records sample_config))) = true) by (vm_compute; reflexivity).
  destruct (ConfigureProducers Ok sample_config [("V"%string, Kafka_)]
    (map_to_list (Records sample_config))) as [[producers rules]|e] eqn:E; [clear Hok|discriminate].
  assert (Ha : Records sample_config !! "alerts"%string = Some ["kafka2"%string])
    by (vm_compute; reflexivity).
  assert (Hv : Records sample_config !! "V"%string = Some [Kafka_; Logger_])
    by (vm_compute; reflexivity).
  exists producers, rules. split; [reflexivity|].
  destruct (dispatch_rules_spec Ok sample_config _ _ producers rules _ _ (reflexivity _) E Ha)
    as (_ & Hr & Hnil).
  destruct (dispatch_rules_spec Ok sample_config _ _ producers rules _ _ (reflexivity _) E Hv)
    as (_ & _ & Hsome).
  split.
  - rewrite Hr. cbn [fmap list_fmap]. do 2 f_equal. apply Hnil; [left|].
    apply (bool_decide_unpack _). vm_compute. exact I.
  - apply not_eq_None_Some. intros Hn. apply Hsome in Hn; [|left]. apply Hn. right. left.
Defined.
