(* ===== verification/Streaming.v ===== *)
(** * A vehicle's socket (server/streaming/socket.go)

    A socket manager reads the messages of one vehicle, turns each into a
    record, dispatches it and queues the answer for the writer.  An operation
    is a computation on the manager and the trace of what it emitted; sending
    on the write channel appends to the queue.  The concurrency of the reader,
    the writer and the channel is the subject of SocketLifecycle. *)

From S2P Require Import Prelude GoStd ProtoEnums Protos ProtoRef Identity.
From S2P Require Import Flatbuffers FbRef Messages Logger Telemetry Config.
Local Open Scope Z_scope.

Record SocketMessage := mkSocketMessage {
  smsg_MsgType : Z;
  smsg_Txid : string;
  smsg_Msg : bytes
}.

(** [SocketManager]; [UUID] is the text of the socket's id, a time is in
    nanoseconds. *)
Record SocketManager := mkSocketManager {
  MsgType : Z;
  RecordsStats : gmap string Z;
  StartTime : Z;
  UUID : string;
  sm_config : Config;
  sm_logger : option Logger;
  requestIdentity : RequestIdentity;
  requestInfo : LogInfo;
  writeChan : list SocketMessage;
  sm_transmitDecodedRecords : bool;
  vinsSignalTracking : gset string
}.

Definition websocket_BinaryMessage : Z := 2.
Definition writeChan_capacity : nat := 1000.

(** The parts of [*http.Request] the code reads: headers, method, path, and the
    verified chains of its TLS state, if it has one. *)
Record Request := mkRequest {
  Header : string -> string;
  Method : string;
  Path : string;
  VerifiedChains : option (list (list Certificate))
}.

Section Context.
(** The UUID package's parser. *)
Variable uuid_Parse : string -> option string.

(** [buildRequestContext]: [fresh] is the new UUID; a request with a valid
    X-TXID header gives the socket its id. *)
Definition buildRequestContext (fresh : string) (r : option Request) : LogInfo * string :=
  match r with
  | None => (∅, fresh)
  | Some r =>
      let txid := default fresh (uuid_Parse (Header r "X-TXID")) in
      (list_to_map
         [("network_interface", AString (Header r "X-Network-Interface"));
          ("txid", AUUID txid); ("method", AString (Method r)); ("path", AString (Path r));
          ("user_agent", AString (Header r "User-Agent"));
          ("X-Forwarded-For", AString (Header r "X-Forwarded-For"))], txid)
  end%string.

Definition NewSocketManager (fresh : string) (r : option Request) (identity : RequestIdentity)
    (config : Config) (logger : option Logger) (now : Z) : SocketManager :=
  let '(info, socketUUID) := buildRequestContext fresh r in
  mkSocketManager websocket_BinaryMessage ∅ now socketUUID config logger identity info []
    (TransmitDecodedRecords config) (VinsToTrack config).
End Context.

(** [GetNetworkInterface]; the type assertion panics on another type. *)
Definition GetNetworkInterface (sm : SocketManager) : outcome string :=
  match requestInfo sm !! "network_interface"%string with
  | None => Ret EmptyString
  | Some (AString s) => Ret s
  | Some _ => Panic "interface conversion"
  end.

Definition set_writeChan (v : list SocketMessage) (sm : SocketManager) : SocketManager :=
  mkSocketManager (MsgType sm) (RecordsStats sm) (StartTime sm) (UUID sm) (sm_config sm)
    (sm_logger sm) (requestIdentity sm) (requestInfo sm) v (sm_transmitDecodedRecords sm)
    (vinsSignalTracking sm).
Definition set_RecordsStats (v : gmap string Z) (sm : SocketManager) : SocketManager :=
  mkSocketManager (MsgType sm) v (StartTime sm) (UUID sm) (sm_config sm)
    (sm_logger sm) (requestIdentity sm) (requestInfo sm) (writeChan sm)
    (sm_transmitDecodedRecords sm) (vinsSignalTracking sm).

(** [ListenToWriteChannel]: the oldest message of the queue, if any. *)
Definition ListenToWriteChannel (sm : SocketManager) : option (SocketMessage * SocketManager) :=
  match writeChan sm with
  | [] => None
  | msg :: rest => Some (msg, set_writeChan rest sm)
  end.

(** ** Operations on a manager *)

Abbreviation sstate := (SocketManager * trace)%type.

(** The metrics of the sockets, by the names they are registered with. *)
Record SocketMetrics := mkSocketMetrics {
  rateLimitExceededCount : string;
  recordTooBigCount : string;
  unauthorizedSenderCount : string;
  unknownMessageTypeErrorCount : string;
  dispatchCount : string;
  unexpectedRecordErrorCount : string;
  socketErrorCount : string;
  recordSizeBytesTotal : string;
  recordCount : string;
  signalsCount : string;
  vinSignalCount : string
}.

Definition metricsRegistry : SocketMetrics := {|
  rateLimitExceededCount := "rate_limit_exceeded_total";
  recordTooBigCount := "record_too_big_total";
  unauthorizedSenderCount := "unauthorized_sender_id_total";
  unknownMessageTypeErrorCount := "unknown_message_type_error_total";
  dispatchCount := "dispatch_total";
  unexpectedRecordErrorCount := "unexpected_record_err_total";
  socketErrorCount := "socket_err_total";
  recordSizeBytesTotal := "record_size_bytes_total";
  recordCount := "record_total";
  signalsCount := "signal_count";
  vinSignalCount := "vin_signal_count"
|}%string.

Definition self : go sstate SocketManager := fun s => (Ret s.1, s).
Definition emit (t : trace) : go sstate () := modify (fun '(sm, t0) => (sm, t0 ++ t)).
Definition log (o : outcome (list LogEntry)) : go sstate () :=
  log_to_trace (fun new '(sm, t0) => (sm, t0 ++ new)) o.
Definition send (m : SocketMessage) : go sstate () :=
  modify (fun '(sm, t) => (set_writeChan (writeChan sm ++ [m]) sm, t)).

(** The text of a byte converted to a string: the UTF-8 encoding of the code
    point. *)
Definition byte_to_string (n : Z) : string :=
  if n <? 128 then String (ascii_of_nat (Z.to_nat n)) EmptyString
  else String (ascii_of_nat (Z.to_nat (192 + n / 64)))
         (String (ascii_of_nat (Z.to_nat (128 + n mod 64))) EmptyString).

Definition reliableAck (sm : SocketManager) (r : TRecord) : bool :=
  match ReliableAckSources (sm_config sm) !! TxType r with Some _ => true | None => false end.

Definition record_type_label (r : TRecord) : gmap string string :=
  {["record_type" := TxType r]}%string.

(** [RecordsStatsToLogInfo]: one entry per record type and the total, in which
    "total" overrides a record type of that name. *)
Definition stats_total (stats : gmap string Z) : Z :=
  map_fold (fun _ v total => i64 (total + v)) 0 stats.

Definition RecordsStatsToLogInfo (sm : SocketManager) : LogInfo :=
  <["total" := AString (strconv.Itoa (stats_total (RecordsStats sm)))]>
    ((fun v => AString (strconv.Itoa v)) <$> RecordsStats sm)%string.

(** [ReportMetricBytesPerRecords]: the map is shared with the manager although
    the receiver is a copy. *)
Definition ReportMetricBytesPerRecords (recordType : string) (byteSize : Z) : go sstate () :=
  modify (fun '(sm, t) =>
    (set_RecordsStats (<[recordType :=
       i64 (default 0 (RecordsStats sm !! recordType) + byteSize)]> (RecordsStats sm)) sm, t));;
  emit [EAdd (recordSizeBytesTotal metricsRegistry) byteSize {["record_type" := recordType]};
        EInc (recordCount metricsRegistry) {["record_type" := recordType]}]%string.

(** [trackSignalUsage] *)
Definition trackSignalUsage (r : TRecord) : go sstate () :=
  sm ← self;
  emit [EAdd (signalsCount metricsRegistry) (SignalsCount r) (record_type_label r)];;
  if bool_decide (Vin r ∈ vinsSignalTracking sm)
  then emit [EAdd (vinSignalCount metricsRegistry) (SignalsCount r)
         (list_to_map [("vin", Vin r); ("record_type", TxType r)])]%string
  else skip.

(** [Close] logs the statistics; [close_err] is the error of closing the
    connection.  The writer is in SocketWriter. *)
Definition Close (close_err : option GoError) (now : Z) : go sstate () :=
  sm ← self;
  match close_err with
  | Some e => log (ErrorLog (sm_logger sm) "websocket_close_err" (Some e) ∅)
  | None => skip
  end;;
  log (ActivityLog (sm_logger sm) "socket_disconnected"
    (<["duration_sec" := AInt (Z.quot (now - StartTime sm) (10 ^ 9))]>
      (RecordsStatsToLogInfo sm)))%string.

Section Operations.
Context {FB : FlatbuffersLib} {PC : ProtoCodec}.

(** [respondToVehicle] *)
Definition respondToVehicle (r : TRecord) (err : option GoError) : go sstate () :=
  sm ← self;
  let logInfo : LogInfo := list_to_map
    [("txid", AString (Txid r)); ("record_type", AString (TxType r));
     ("device_id", AString (ri_DeviceID (requestIdentity sm)))]%string in
  '(response, kind) ←
    match err with
    | Some e =>
        log (ErrorLog (sm_logger sm) "unexpected_record" (Some e) logInfo);;
        emit [EInc (unexpectedRecordErrorCount metricsRegistry) ∅];;
        response ← lift (TRecord_Error (ErrorString "incorrect message format") r);
        mret (response, "error"%string)
    | None => response ← lift (TRecord_Ack r); mret (response, "ack"%string)
    end;
  log (Log (sm_logger sm) DEBUG "message_respond"
    (<["response_type" := AString kind]> logInfo))%string;;
  send (mkSocketMessage (MsgType sm) (Txid r) response).

(** [processRecord] *)
Definition processRecord (r : TRecord) : go sstate () :=
  t ← lift (Dispatch r);
  emit t;;
  emit [EInc (dispatchCount metricsRegistry) (record_type_label r)].

(** The end of [ParseAndProcessRecord]: dispatch, then acknowledge unless a
    datastore will. *)
Definition finish_record (r : TRecord) : go sstate () :=
  ReportMetricBytesPerRecords (TxType r) (Length r);;
  processRecord r;;
  sm ← self;
  if reliableAck sm r then skip else respondToVehicle r None.

Definition ParseAndProcessRecord (serializer : BinarySerializer) (message : bytes)
    (now1 now2 : Z) : go sstate () :=
  sm ← self;
  let '(record, err, t) :=
    NewRecord serializer message (UUID sm) (sm_transmitDecodedRecords sm) now1 now2 in
  emit t;;
  let logInfo : LogInfo :=
    list_to_map [("txid", AString (Txid record)); ("record_type", AString (TxType record))]%string in
  match err with
  | None => finish_record record
  | Some ErrMessageTooBig =>
      respondToVehicle record err;;
      emit [EInc (recordTooBigCount metricsRegistry) ∅]
  | Some (UnauthorizedSenderIDError expected received) =>
      log (ErrorLog (sm_logger sm) "unauthorized_sender_id" None
        (<["sender_id" := AString received]>
          (<["expected_sender_id" := AString expected]> logInfo)))%string;;
      emit [EInc (unauthorizedSenderCount metricsRegistry) ∅];;
      respondToVehicle record None
  | Some (UnknownMessageType _ txid guessed) =>
      log (ErrorLog (sm_logger sm) "unknown_message_type_error" err
        (<["msg_txid" := AString txid]>
          (<["msg_type" := AString (byte_to_string guessed)]> logInfo)))%string;;
      emit [EInc (unknownMessageTypeErrorCount metricsRegistry)
              {["msg_type" := byte_to_string guessed]}]%string;;
      respondToVehicle record None;;
      finish_record record
  | Some _ => respondToVehicle record err
  end.
End Operations.

(** ** The read loop *)

(** The rate-limiter package: [rate_New(limit, interval)], and [Try] at a time,
    which answers whether the event is allowed. *)
Class RateLimiter := {
  limiter : Type;
  rate_New : Z -> Z -> limiter;
  rate_Try : limiter -> Z -> bool * limiter
}.

(** One read of the connection: a message with its type and the readings of
    the clock made while it is handled (at the rate check, for the record of a
    limited message, for the record that is processed). *)
Record Frame := mkFrame {
  f_type : Z;
  f_message : bytes;
  f_try : Z;
  f_limited : Z * Z;
  f_process : Z * Z
}.

(** [bytes.Split(message, ",")] *)
Fixpoint split_comma (b : bytes) : list bytes :=
  match b with
  | [] => [[]]
  | c :: rest =>
      match split_comma rest with
      | part :: parts => if Byte.eqb c "," then [] :: part :: parts else (c :: part) :: parts
      | [] => []
      end
  end.

Section Loop.
Context {FB : FlatbuffersLib} {PC : ProtoCodec} {RL : RateLimiter}.

Definition rate_limit_enabled (c : Config) : bool :=
  match Config_RateLimit c with Some rl => Enabled rl | None => false end.

Definition new_limiter (c : Config) : limiter :=
  match Config_RateLimit c with
  | Some rl => if Enabled rl then rate_New (MessageLimit rl) (MessageIntervalTimeSecond rl)
               else rate_New 100 (60 * 10 ^ 9)
  | None => rate_New 100 (60 * 10 ^ 9)
  end.

(** The report at the end of a burst of limited messages. *)
Definition report_limited (message : bytes) (start now limited : Z) : go sstate () :=
  sm ← self;
  match split_comma message with
  | _ :: _ :: txid :: _ =>
      log (ErrorLog (sm_logger sm) "rate_limit_exceeded" None
        (list_to_map [("txid", ABytes txid);
           ("duration_sec", AInt (Z.quot (now - start) (10 ^ 9)));
           ("messages_rate_limited", AInt limited)]))%string
  | _ => skip
  end.

(** The loop of [ProcessTelemetry] over the frames read before the
    connection ends; [start] and [limited] are its variables. *)
Fixpoint process_frames (serializer : BinarySerializer) (frames : list Frame) (rl : limiter)
    (start limited : Z) : go sstate () :=
  match frames with
  | [] => skip
  | f :: rest =>
      sm ← self;
      if negb (f_type f =? MsgType sm) then skip else
      let '(ok, rl) := rate_Try rl (f_try f) in
      let start := if negb ok && (limited =? 0) then f_try f else start in
      let limited := if ok then limited else limited + 1 in
      if negb ok
      then
        let '(record, _, t) := NewRecord serializer (f_message f) (UUID sm)
          (sm_transmitDecodedRecords sm) (fst (f_limited f)) (snd (f_limited f)) in
        emit t;;
        trackSignalUsage record;;
        emit [EInc (rateLimitExceededCount metricsRegistry)
          (list_to_map [("device_id", ri_DeviceID (requestIdentity sm));
                        ("txtype", TxType record)])]%string;;
        if rate_limit_enabled (sm_config sm)
        then process_frames serializer rest rl start limited
        else
          report_limited (f_message f) start (f_try f) limited;;
          ParseAndProcessRecord serializer (f_message f) (fst (f_process f)) (snd (f_process f));;
          process_frames serializer rest rl start 0
      else
        (if 0 <? limited then report_limited (f_message f) start (f_try f) limited else skip);;
        ParseAndProcessRecord serializer (f_message f) (fst (f_process f)) (snd (f_process f));;
        process_frames serializer rest rl start 0
  end.

(** [ProcessTelemetry]: the deferred [Close] runs when the loop returns and
    when it panics. *)
Definition ProcessTelemetry (serializer : BinarySerializer) (frames : list Frame)
    (close_err : option GoError) (closed_at : Z) : go sstate () := fun s =>
  let body : go sstate () :=
    sm ← self;
    log (ActivityLog (sm_logger sm) "socket_connected" (requestInfo sm));;
    process_frames serializer frames (new_limiter (sm_config sm)) 0 0 in
  match body s with
  | (Ret _, s') => Close close_err closed_at s'
  | (Panic w, s') =>
      match Close close_err closed_at s' with
      | (Ret _, s'') => (Panic w, s'')
      | (Panic w', s'') => (Panic w', s'')
      end
  end.
End Loop.

(** ** What a message is answered with

    The specification of [ParseAndProcessRecord]: the answers queued for the
    vehicle and the records handed to producers, from the result of
    [NewRecord]. *)
Section Specification.
Context {FB : FlatbuffersLib} {PC : ProtoCodec}.

Definition bad_format : GoError := ErrorString "incorrect message format".

Definition answer (sm : SocketManager) (r : TRecord) (b : outcome bytes) : SocketMessage :=
  mkSocketMessage (MsgType sm) (Txid r) (match b with Ret b => b | Panic _ => [] end).
Definition ack_answer (sm : SocketManager) (r : TRecord) : SocketMessage :=
  answer sm r (TRecord_Ack r).
Definition error_answer (sm : SocketManager) (r : TRecord) : SocketMessage :=
  answer sm r (TRecord_Error bad_format r).

(** The acknowledgement sent at once, unless a datastore acknowledges. *)
Definition instant_ack (sm : SocketManager) (r : TRecord) : list SocketMessage :=
  if reliableAck sm r then [] else [ack_answer sm r].

Definition answers (sm : SocketManager) (r : TRecord) (err : option GoError)
  : list SocketMessage :=
  match err with
  | None => instant_ack sm r
  | Some (UnauthorizedSenderIDError _ _) => [ack_answer sm r]
  | Some (UnknownMessageType _ _ _) => ack_answer sm r :: instant_ack sm r
  | Some _ => [error_answer sm r]
  end.

(** The records handed to producers. *)
Definition handed (bs : BinarySerializer) (r : TRecord) (err : option GoError)
  : list (Producer * TRecord) :=
  match err with
  | None | Some (UnknownMessageType _ _ _) =>
      (fun p => (p, r)) <$> default [] (DispatchRules bs !! TxType r)
  | Some _ => []
  end.
End Specification.

(** ** Lemmas *)

(** Everything but the queue and the statistics is fixed. *)
Definition same_socket (sm sm' : SocketManager) : Prop :=
  MsgType sm' = MsgType sm /\ UUID sm' = UUID sm /\ sm_config sm' = sm_config sm /\
  sm_logger sm' = sm_logger sm /\ requestIdentity sm' = requestIdentity sm /\
  sm_transmitDecodedRecords sm' = sm_transmitDecodedRecords sm /\
  vinsSignalTracking sm' = vinsSignalTracking sm.

#[export] Instance same_socket_preorder : PreOrder same_socket.
Proof.
  split; [by repeat split|].
  unfold same_socket. intros a b c H1 H2. destruct_and!. repeat split; congruence.
Qed.

(** [m] runs from a manager without panicking, queues [out] and hands [recs]
    to producers. *)
Definition runs {A} (m : go sstate A) (sm : SocketManager) (out : list SocketMessage)
    (recs : list (Producer * TRecord)) (post : A -> SocketManager -> Prop) : Prop :=
  forall t, exists a sm' t', m (sm, t) = (Ret a, (sm', t ++ t')) /\ same_socket sm sm' /\
    writeChan sm' = writeChan sm ++ out /\ produced t' = recs /\ post a sm'.

Lemma runs_ret {A} (a : A) sm (post : A -> SocketManager -> Prop) :
  post a sm -> runs (mret a) sm [] [] post.
Proof.
  intros Hp t. exists a, sm, []. rewrite !app_nil_r. by repeat split.
Qed.

Lemma runs_bind {A B} (m : go sstate A) (f : A -> go sstate B) sm out1 out2 recs1 recs2 mid post :
  runs m sm out1 recs1 mid ->
  (forall a sm', same_socket sm sm' -> mid a sm' -> runs (f a) sm' out2 recs2 post) ->
  runs (m ≫= f) sm (out1 ++ out2) (recs1 ++ recs2) post.
Proof.
  intros Hm Hf t. destruct (Hm t) as (a & sm1 & t1 & E1 & Hs1 & Hw1 & Hp1 & Hmid).
  destruct (Hf a sm1 Hs1 Hmid (t ++ t1)) as (b & sm2 & t2 & E2 & Hs2 & Hw2 & Hp2 & Hpost).
  exists b, sm2, (t1 ++ t2). unfold mbind, go_bind. rewrite E1, E2, app_assoc.
  split; [done|]. split; [by transitivity sm1|]. split.
  - by rewrite Hw2, Hw1, app_assoc.
  - split; [|done]. by rewrite produced_app, Hp1, Hp2.
Qed.

(** Sequencing where the first part queues and hands nothing. *)
Lemma runs_quiet {A B} (m : go sstate A) (f : A -> go sstate B) sm out recs mid post :
  runs m sm [] [] mid ->
  (forall a sm', same_socket sm sm' -> mid a sm' -> runs (f a) sm' out recs post) ->
  runs (m ≫= f) sm out recs post.
Proof. apply (runs_bind m f sm [] out [] recs). Qed.

Lemma runs_weaken {A} (m : go sstate A) sm out recs (post post' : A -> SocketManager -> Prop) :
  runs m sm out recs post -> (forall a sm', post a sm' -> post' a sm') ->
  runs m sm out recs post'.
Proof.
  intros H Himp t. destruct (H t) as (a & sm' & t' & E & Hs & Hw & Hp & Hpost).
  exists a, sm', t'. eauto 10.
Qed.

Lemma runs_self sm : runs self sm [] [] (fun a sm' => a = sm /\ sm' = sm).
Proof. intros t. exists sm, sm, []. rewrite !app_nil_r. by repeat split. Qed.

Lemma runs_emit t sm : runs (emit t) sm [] (produced t) (fun _ sm' => sm' = sm).
Proof. intros t0. exists (), sm, t. rewrite app_nil_r. by repeat split. Qed.

Lemma runs_log_lines lines sm :
  runs (log (Ret lines)) sm [] [] (fun _ sm' => sm' = sm).
Proof.
  intros t0. exists (), sm, (ELog <$> lines). rewrite app_nil_r.
  repeat split. apply produced_log.
Qed.

Lemma runs_send m sm : runs (send m) sm [m] [] (fun _ _ => True).
Proof.
  intros t. exists (), (set_writeChan (writeChan sm ++ [m]) sm), []. rewrite app_nil_r.
  by repeat split.
Qed.

Lemma runs_lift {A} (a : A) sm : runs (lift (Ret a)) sm [] [] (fun b sm' => b = a /\ sm' = sm).
Proof. intros t. exists a, sm, []. rewrite !app_nil_r. by repeat split. Qed.

(** A logger that is not nil never panics. *)
Lemma logger_returns l msg entry :
  exists lines, log_unless_suppressed (Some l) msg entry = Ret lines.
Proof. by eexists. Qed.

Lemma runs_ErrorLog l msg err info sm :
  runs (log (ErrorLog (Some l) msg err info)) sm [] [] (fun _ sm' => sm' = sm).
Proof. apply runs_log_lines. Qed.

Lemma runs_ActivityLog l msg info sm :
  runs (log (ActivityLog (Some l) msg info)) sm [] [] (fun _ sm' => sm' = sm).
Proof. apply runs_log_lines. Qed.

Lemma runs_Log l ty msg info sm :
  runs (log (Log (Some l) ty msg info)) sm [] [] (fun _ sm' => sm' = sm).
Proof. apply runs_log_lines. Qed.

Lemma runs_stats g sm :
  runs (modify (fun '(sm, t) => (set_RecordsStats (g sm) sm, t))) sm [] []
    (fun _ sm' => sm' = set_RecordsStats (g sm) sm).
Proof.
  intros t. exists (), (set_RecordsStats (g sm) sm), []. rewrite !app_nil_r. by repeat split.
Qed.

#[global] Opaque log emit send self lift.

Create HintDb runs.
#[export] Hint Resolve runs_self runs_emit runs_log_lines runs_send runs_lift runs_ErrorLog
  runs_ActivityLog runs_Log : runs.

(** One step: run the first command of the computation. *)
Ltac runs_step :=
  eapply runs_quiet; [solve [eauto with runs]|];
  let a := fresh "a" in let sm' := fresh "sm" in let Hs := fresh "Hs" in let Hm := fresh "Hm" in
  intros a sm' Hs Hm; cbv beta in Hm.


Section Lemmas.
Context {FB : FlatbuffersLib} {FS : FlatbuffersSpec FB} {PC : ProtoCodec}.

(** Answers depend on the fixed parts of the manager only. *)
Lemma answer_same sm sm' r b : same_socket sm sm' -> answer sm' r b = answer sm r b.
Proof. unfold answer. by intros (-> & _). Qed.

Lemma reliableAck_same sm sm' r : same_socket sm sm' -> reliableAck sm' r = reliableAck sm r.
Proof. unfold reliableAck. by intros (_ & _ & -> & _). Qed.

Lemma instant_ack_same sm sm' r : same_socket sm sm' -> instant_ack sm' r = instant_ack sm r.
Proof.
  intros Hs. unfold instant_ack, ack_answer.
  by rewrite (reliableAck_same _ _ _ Hs), (answer_same _ _ _ _ Hs).
Qed.

Lemma answers_same sm sm' r err : same_socket sm sm' -> answers sm' r err = answers sm r err.
Proof.
  intros Hs. unfold answers, ack_answer, error_answer.
  by rewrite !(instant_ack_same _ _ _ Hs), !(answer_same _ _ _ _ Hs).
Qed.

Lemma response_returns r :
  response_fits r bad_format ->
  (exists b, TRecord_Ack r = Ret b) /\ (exists b, TRecord_Error bad_format r = Ret b).
Proof.
  intros [Hack Herr]. split.
  - destruct (ack_message_codec _ Hack) as (b & _ & Hb & _). by exists b.
  - edestruct (stream_message_codec (FB := FB)) as (b & _ & Hb & _); [|exact Herr|];
      [done|by exists b].
Qed.

Lemma runs_ack sm l r :
  sm_logger sm = Some l -> response_fits r bad_format ->
  runs (respondToVehicle r None) sm [ack_answer sm r] [] (fun _ _ => True).
Proof.
  intros Hl [(b & Hb) _]%response_returns. unfold respondToVehicle, ack_answer, answer. rewrite Hb.
  runs_step. destruct Hm as [-> ->]. rewrite Hl.
  eapply runs_quiet.
  { eapply runs_quiet; [apply runs_lift|]. intros c sm' _ [-> ->].
    by apply (runs_ret _ _ (fun a sm' => a = (b, "ack"%string) /\ sm' = sm)). }
  intros a sm' _ [-> ->]. runs_step. subst. apply runs_send.
Qed.

Lemma runs_error sm l r e :
  sm_logger sm = Some l -> response_fits r bad_format ->
  runs (respondToVehicle r (Some e)) sm [error_answer sm r] [] (fun _ _ => True).
Proof.
  intros Hl [_ (b & Hb)]%response_returns. unfold respondToVehicle, error_answer, answer, bad_format in *.
  rewrite Hb. runs_step. destruct Hm as [-> ->]. rewrite Hl.
  eapply runs_quiet.
  { eapply runs_quiet; [apply runs_ErrorLog|]. intros ? sm1 _ ->.
    eapply runs_quiet; [apply (runs_emit [EInc _ _])|]. intros ? sm1 _ ->.
    eapply runs_quiet; [apply runs_lift|]. intros c sm' _ [-> ->].
    by apply (runs_ret _ _ (fun a sm' => a = (b, "error"%string) /\ sm' = sm)). }
  intros a sm' _ [-> ->]. runs_step. subst. apply runs_send.
Qed.

Lemma runs_report sm ty n :
  runs (ReportMetricBytesPerRecords ty n) sm [] []
    (fun _ sm' => sm' = set_RecordsStats
       (<[ty := i64 (default 0 (RecordsStats sm !! ty) + n)]> (RecordsStats sm)) sm).
Proof.
  unfold ReportMetricBytesPerRecords. eapply runs_quiet; [apply runs_stats|].
  intros ? sm' _ ->. apply (runs_weaken _ _ _ _ _ _ (runs_emit [EAdd _ _ _; EInc _ _] _)). done.
Qed.

Lemma runs_process sm r bs l :
  Serializer r = Some bs -> bs_logger bs = Some l ->
  runs (processRecord r) sm []
    ((fun p => (p, r)) <$> default [] (DispatchRules bs !! TxType r)) (fun _ sm' => sm' = sm).
Proof.
  intros Hs Hl. destruct (Dispatch_produced _ _ _ Hs Hl) as (t & Ht & <-).
  unfold processRecord. rewrite Ht. runs_step. destruct Hm as [-> ->].
  rewrite <- (app_nil_r (produced t)). eapply (runs_bind _ _ _ [] [] _ []); [apply runs_emit|].
  intros ? sm' _ ->. apply (runs_emit [EInc _ _]).
Qed.

Lemma runs_finish sm l bs l' r :
  sm_logger sm = Some l -> Serializer r = Some bs -> bs_logger bs = Some l' ->
  response_fits r bad_format ->
  runs (finish_record r) sm (instant_ack sm r)
    ((fun p => (p, r)) <$> default [] (DispatchRules bs !! TxType r)) (fun _ _ => True).
Proof.
  intros Hl Hs Hbl Hfit. unfold finish_record.
  eapply runs_quiet; [apply runs_report|]. intros ? sm1 Hs1 _.
  rewrite <- (app_nil_l (instant_ack sm r)), <- (app_nil_r (_ <$> _)).
  eapply runs_bind; [by eapply runs_process|]. intros ? sm2 _ ->. runs_step. destruct Hm as [-> ->].
  unfold instant_ack. rewrite (reliableAck_same _ _ _ Hs1).
  destruct (reliableAck sm r); [by apply runs_ret|].
  unfold ack_answer. rewrite <- (answer_same _ _ r _ Hs1).
  apply (runs_ack _ l); [|done]. destruct Hs1 as (_ & _ & _ & -> & _). done.
Qed.

(** [ParseAndProcessRecord] answers and dispatches as specified. *)
Lemma runs_parse_and_process sm l bs l' message now1 now2 :
  sm_logger sm = Some l -> bs_logger bs = Some l' ->
  (let '(r, err, _) := NewRecord bs message (UUID sm) (sm_transmitDecodedRecords sm) now1 now2 in
   response_fits r bad_format) ->
  let '(r, err, _) := NewRecord bs message (UUID sm) (sm_transmitDecodedRecords sm) now1 now2 in
  runs (ParseAndProcessRecord bs message now1 now2) sm (answers sm r err) (handed bs r err)
    (fun _ _ => True).
Proof.
  intros Hl Hbl Hfit. unfold ParseAndProcessRecord.
  destruct (NewRecord _ _ _ _ _ _) as [[r err] t] eqn:E.
  pose proof (NewRecord_header _ _ _ _ _ _ _ _ _ E) as (Hser & _ & Ht).
  runs_step. destruct Hm as [-> ->]. rewrite E.
  eapply runs_quiet. { rewrite <- Ht. apply runs_emit. } intros ? sm1 _ ->.
  destruct err as [e|]; [|by eapply runs_finish].
  destruct e; cbn [answers handed]; try (by eapply runs_error).
  - rewrite <- (app_nil_r [error_answer sm r]). eapply (runs_bind _ _ _ _ [] [] []).
    { by eapply runs_error. }
    intros. apply (runs_weaken _ _ _ _ _ _ (runs_emit [EInc _ _] _)). done.
  - rewrite Hl. runs_step. subst. eapply runs_quiet; [apply (runs_emit [EInc _ _])|].
    intros ? sm1 _ ->. by eapply runs_ack.
  - rewrite Hl. runs_step. subst. eapply runs_quiet; [apply (runs_emit [EInc _ _])|].
    intros ? sm1 _ ->. eapply (runs_bind _ _ _ [_] _ []); [by eapply runs_ack|].
    intros ? sm2 Hs2 _. rewrite <- (instant_ack_same _ _ _ Hs2). eapply runs_finish; try done.
    by destruct Hs2 as (_ & _ & _ & -> & _).
Qed.
End Lemmas.

(** *** The read loop *)

Section LoopLemmas.
Context {FB : FlatbuffersLib} {FS : FlatbuffersSpec FB} {PC : ProtoCodec} {RL : RateLimiter}.

(** The frames the loop processes: those read before a frame of another
    type, less those the limiter refuses when limiting is enabled. *)
Fixpoint served (sm : SocketManager) (frames : list Frame) (rl : limiter) : list Frame :=
  match frames with
  | [] => []
  | f :: rest =>
      if negb (f_type f =? MsgType sm) then [] else
      let '(ok, rl) := rate_Try rl (f_try f) in
      if negb ok && rate_limit_enabled (sm_config sm) then served sm rest rl
      else f :: served sm rest rl
  end.

(** The result of [NewRecord] on a processed frame. *)
Definition frame_record (bs : BinarySerializer) (sm : SocketManager) (f : Frame)
  : TRecord * option GoError :=
  fst (NewRecord bs (f_message f) (UUID sm) (sm_transmitDecodedRecords sm)
    (fst (f_process f)) (snd (f_process f))).

Definition frame_answers (bs : BinarySerializer) (sm : SocketManager) (f : Frame)
  : list SocketMessage :=
  let '(r, err) := frame_record bs sm f in answers sm r err.
Definition frame_handed (bs : BinarySerializer) (sm : SocketManager) (f : Frame)
  : list (Producer * TRecord) :=
  let '(r, err) := frame_record bs sm f in handed bs r err.

(** Every answer to the frame fits in a message. *)
Definition frame_fits (bs : BinarySerializer) (sm : SocketManager) (f : Frame) : Prop :=
  response_fits (fst (frame_record bs sm f)) bad_format.

Lemma frame_same bs sm sm' f :
  same_socket sm sm' ->
  frame_record bs sm' f = frame_record bs sm f /\ frame_answers bs sm' f = frame_answers bs sm f /\
  frame_handed bs sm' f = frame_handed bs sm f.
Proof.
  intros Hs. unfold frame_answers, frame_handed, frame_record.
  pose proof Hs as (_ & -> & _ & _ & _ & -> & _). split; [done|].
  destruct (fst _) as [r err]. by rewrite (answers_same _ _ _ _ Hs).
Qed.

Lemma frames_same bs sm sm' (fs : list Frame) :
  same_socket sm sm' ->
  frame_answers bs sm' <$> fs = frame_answers bs sm <$> fs /\
  frame_handed bs sm' <$> fs = frame_handed bs sm <$> fs.
Proof.
  intros Hs. split; apply list_fmap_ext; intros i f _; by apply frame_same.
Qed.

Lemma served_same sm sm' frames rl : same_socket sm sm' -> served sm' frames rl = served sm frames rl.
Proof.
  intros Hs. revert rl. induction frames as [|f rest IH]; intros rl; simpl; [done|].
  pose proof Hs as (-> & _ & -> & _). destruct (negb _); [done|].
  destruct (rate_Try rl (f_try f)) as [ok rl']. by rewrite IH.
Qed.

Lemma runs_frame bs sm l l' f :
  sm_logger sm = Some l -> bs_logger bs = Some l' -> frame_fits bs sm f ->
  runs (ParseAndProcessRecord bs (f_message f) (fst (f_process f)) (snd (f_process f))) sm
    (frame_answers bs sm f) (frame_handed bs sm f) (fun _ _ => True).
Proof.
  intros Hl Hbl Hfit. unfold frame_fits, frame_answers, frame_handed, frame_record in *.
  pose proof (runs_parse_and_process sm l bs l' (f_message f) (fst (f_process f))
    (snd (f_process f)) Hl Hbl) as H.
  destruct (NewRecord _ _ _ _ _ _) as [[r err] t]. by apply H.
Qed.

Lemma runs_report_limited sm l message start now limited :
  sm_logger sm = Some l ->
  runs (report_limited message start now limited) sm [] [] (fun _ sm' => sm' = sm).
Proof.
  intros Hl. unfold report_limited. runs_step. destruct Hm as [-> ->].
  destruct (split_comma message) as [|p1 [|p2 [|p3 ps]]]; try by apply runs_ret.
  rewrite Hl. apply runs_ErrorLog.
Qed.

Lemma runs_track sm r : runs (trackSignalUsage r) sm [] [] (fun _ sm' => sm' = sm).
Proof.
  unfold trackSignalUsage. runs_step. destruct Hm as [-> ->].
  eapply runs_quiet; [apply (runs_emit [EAdd _ _ _])|]. intros ? sm' _ ->.
  case_bool_decide; [apply (runs_emit [EAdd _ _ _])|by apply runs_ret].
Qed.

Lemma runs_process_frames bs l l' frames : forall sm rl start limited,
  sm_logger sm = Some l -> bs_logger bs = Some l' ->
  Forall (frame_fits bs sm) frames ->
  runs (process_frames bs frames rl start limited) sm
    (concat (frame_answers bs sm <$> served sm frames rl))
    (concat (frame_handed bs sm <$> served sm frames rl)) (fun _ _ => True).
Proof.
  induction frames as [|f rest IH]; intros sm rl start limited Hl Hbl Hfit; simpl.
  { by apply runs_ret. }
  inversion_clear Hfit as [|? ? Hf Hrest].
  runs_step. destruct Hm as [-> ->].
  destruct (negb (f_type f =? MsgType sm)); [by apply runs_ret|].
  destruct (rate_Try rl (f_try f)) as [ok rl'].
  (* the processing of this frame and the rest of the loop *)
  assert (Hgo : forall st, runs
    (ParseAndProcessRecord bs (f_message f) (fst (f_process f)) (snd (f_process f)) ;;
     process_frames bs rest rl' st 0) sm
    (frame_answers bs sm f ++ concat (frame_answers bs sm <$> served sm rest rl'))
    (frame_handed bs sm f ++ concat (frame_handed bs sm <$> served sm rest rl'))
    (fun _ _ => True)).
  { intros st. eapply runs_bind; [by eapply runs_frame|]. intros ? sm' Hs' _.
    rewrite <- (served_same _ _ _ _ Hs').
    destruct (frames_same bs sm sm' (served sm' rest rl') Hs') as [<- <-].
    apply IH; [by destruct Hs' as (_ & _ & _ & -> & _)|done|].
    eapply Forall_impl; [done|]. intros g. unfold frame_fits.
    by destruct (frame_same bs _ _ g Hs') as (-> & _). }
  destruct ok; simpl.
  - apply (runs_quiet _ _ _ _ _ (fun _ sm' => sm' = sm)); [|intros ? sm' _ ->; apply Hgo].
    destruct (0 <? limited); [by eapply runs_report_limited|by apply runs_ret].
  - destruct (NewRecord _ _ _ _ _ _) as [[r err] t] eqn:E.
    pose proof (NewRecord_header _ _ _ _ _ _ _ _ _ E) as (_ & _ & Ht).
    eapply runs_quiet. { rewrite <- Ht. apply runs_emit. } intros ? sm1 _ ->.
    eapply runs_quiet; [apply runs_track|]. intros ? sm1 _ ->.
    eapply runs_quiet; [apply (runs_emit [EInc _ _])|]. intros ? sm1 _ ->.
    destruct (rate_limit_enabled (sm_config sm)); [by apply IH|].
    eapply runs_quiet; [by eapply runs_report_limited|]. intros ? sm1 _ ->. apply Hgo.
Qed.

Lemma runs_Close sm l err now :
  sm_logger sm = Some l -> runs (Close err now) sm [] [] (fun _ sm' => sm' = sm).
Proof.
  intros Hl. unfold Close. runs_step. destruct Hm as [-> ->]. rewrite Hl.
  apply (runs_quiet _ _ _ _ _ (fun _ sm' => sm' = sm)); [|intros ? sm' _ ->; apply runs_ActivityLog].
  destruct err; [apply runs_ErrorLog|by apply runs_ret].
Qed.

Lemma runs_ProcessTelemetry bs sm l l' frames err now :
  sm_logger sm = Some l -> bs_logger bs = Some l' -> Forall (frame_fits bs sm) frames ->
  let all := served sm frames (new_limiter (sm_config sm)) in
  runs (ProcessTelemetry bs frames err now) sm
    (concat (frame_answers bs sm <$> all)) (concat (frame_handed bs sm <$> all)) (fun _ _ => True).
Proof.
  intros Hl Hbl Hfit all t. unfold ProcessTelemetry.
  match goal with |- context [(self ≫= ?f) _] =>
    assert (Hbody : runs (self ≫= f) sm (concat (frame_answers bs sm <$> all))
      (concat (frame_handed bs sm <$> all)) (fun _ _ => True)) end.
  { runs_step. destruct Hm as [-> ->]. rewrite Hl. runs_step. subst. by eapply runs_process_frames. }
  destruct (Hbody t) as (a & sm1 & t1 & -> & Hs1 & Hw1 & Hp1 & _).
  assert (Hl1 : sm_logger sm1 = Some l) by (by destruct Hs1 as (_ & _ & _ & -> & _)).
  destruct (runs_Close sm1 l err now Hl1 (t ++ t1)) as (b & sm2 & t2 & E & Hs2 & Hw2 & Hp2 & ->).
  rewrite E. exists b, sm1, (t1 ++ t2). rewrite app_assoc.
  split; [done|]. split; [done|]. split; [done|]. split; [|done].
  by rewrite produced_app, Hp1, Hp2, app_nil_r.
Qed.
End LoopLemmas.

(** *** A concrete rate limiter

    The limiter of the rate package: the times of the allowed events, oldest
    first; an event is refused while [limit] of them are within the interval. *)
Record window := mkWindow { w_limit : Z; w_interval : Z; w_times : list Z }.

Definition window_Try (w : window) (now : Z) : bool * window :=
  if Z.of_nat (length (w_times w)) <? w_limit w
  then (true, mkWindow (w_limit w) (w_interval w) (w_times w ++ [now]))
  else match w_times w with
       | oldest :: rest =>
           if now - oldest <? w_interval w then (false, w)
           else (true, mkWindow (w_limit w) (w_interval w) (rest ++ [now]))
       | [] => (false, w)
       end.

#[export] Instance WindowLimiter : RateLimiter := {|
  limiter := window;
  rate_New limit interval := mkWindow limit interval [];
  rate_Try := window_Try
|}.

(** The answers of the limiter at a sequence of times. *)
Fixpoint all_allowed {RL : RateLimiter} (rl : limiter) (times : list Z) : bool :=
  match times with
  | [] => true
  | t :: times => let '(ok, rl) := rate_Try rl t in ok && all_allowed rl times
  end.

Fixpoint nondecreasing (prev : Z) (times : list Z) : bool :=
  match times with
  | [] => true
  | t :: times => (prev <=? t) && nondecreasing t times
  end.

(** Documented behaviour of the limiter: events are only refused within the
    interval after an allowed one, so with no interval none is. *)
Class RateLimiterSpec (RL : RateLimiter) : Prop := {
  zero_interval limit t times :
    0 < limit -> nondecreasing t times = true -> all_allowed (rate_New limit 0) times = true
}.

#[export] Instance WindowLimiterSpec : RateLimiterSpec WindowLimiter.
Proof.
  split. intros limit t times Hlimit Hnd. cbn.
  assert (H : forall ts prev, Forall (fun x => x <= prev) ts -> nondecreasing prev times = true ->
    all_allowed (RL := WindowLimiter) (mkWindow limit 0 ts) times = true); [|by apply (H [] t)].
  clear t Hnd. induction times as [|t times IH]; intros ts prev Hts; simpl; [done|].
  intros [Hle%Z.leb_le Hnd]%andb_true_iff. unfold window_Try. cbn [w_limit w_times w_interval].
  assert (Hle' : forall l, Forall (fun x => x <= prev) l -> Forall (fun x => x <= t) (l ++ [t])).
  { intros l Hl. apply Forall_app. split; [|by repeat constructor].
    eapply Forall_impl; [done|]. simpl. lia. }
  destruct (Z.ltb_spec (Z.of_nat (length ts)) limit); simpl; [by eapply IH; [apply Hle'|]|].
  destruct ts as [|o ts]; [simpl in *; lia|]. inversion_clear Hts.
  destruct (Z.ltb_spec (t - o) 0); [lia|]. simpl. by eapply IH; [apply Hle'|].
Qed.

(** ** Properties *)

(** C2: what one message is answered with.  With loggers set and answers that
    fit, handling a message never panics; it queues exactly the specified
    answers, in order, and hands the record exactly to the producers
    specified: a good record is dispatched by its rule and acknowledged at
    once unless a datastore acknowledges its type, a message that is too big,
    from another sender or not parsable is dispatched nowhere and answered
    with one error, and the socket is otherwise unchanged. *)
Theorem parse_and_process_spec {FB : FlatbuffersLib} {FS : FlatbuffersSpec FB} {PC : ProtoCodec}
    sm l bs l' message now1 now2 r err t0 t :
  sm_logger sm = Some l -> bs_logger bs = Some l' ->
  NewRecord bs message (UUID sm) (sm_transmitDecodedRecords sm) now1 now2 = (r, err, t0) ->
  response_fits r bad_format ->
  exists sm' t', ParseAndProcessRecord bs message now1 now2 (sm, t) = (Ret (), (sm', t ++ t')) /\
    same_socket sm sm' /\ writeChan sm' = writeChan sm ++ answers sm r err /\
    produced t' = handed bs r err.
Proof.
  intros Hl Hbl E Hfit.
  pose proof (runs_parse_and_process sm l bs l' message now1 now2 Hl Hbl) as H. rewrite E in H.
  destruct (H Hfit t) as ([] & sm' & t' & Hrun & Hs & Hw & Hp & _). by exists sm', t'.
Qed.

Definition sample_socket_config : Config :=
  mkConfig "h" 443 8080 None false (Some (mkRateLimit true 1 30 0)) ∅ None None None false None
    "ns" None "info" false {["V" := ["logger"]]} false [] false.

Definition sample_socket : SocketManager :=
  mkSocketManager websocket_BinaryMessage ∅ 0 "socket" sample_socket_config (Some (mkLogger ∅ EmptyString))
    sample_identity ∅ [] false ∅.

Definition ack_wire : bytes :=
  match StreamAckMessage_ToBytes (FB := FbRef) sample_ack with Ret b => b | Panic _ => [] end.

(** A message that is an acknowledgement: of unknown type for the server. *)
Definition ack_record : TRecord :=
  set_Txid "tx-1" (new_TRecord sample_serializer (Some ack_wire) "socket" false).

Lemma ack_record_NewRecord :
  NewRecord (FB := FbRef) (PC := ProtoRef) sample_serializer ack_wire "socket" false 0 0 =
  (ack_record, Some (UnknownMessageType ack_wire "tx-1" 5), []).
Proof. vm_compute. reflexivity. Qed.

Lemma ack_record_fits : response_fits ack_record bad_format.
Proof.
  unfold response_fits, ack_fits, message_fits. vm_compute. repeat split; discriminate.
Qed.

Lemma parse_and_process_spec_witness :
  exists sm' t', ParseAndProcessRecord (FB := FbRef) (PC := ProtoRef) sample_serializer ack_wire 0 0
      (sample_socket, []) = (Ret (), (sm', [] ++ t')) /\
    writeChan sm' = [ack_answer sample_socket ack_record; ack_answer sample_socket ack_record] /\
    produced t' = [].
Proof.
  destruct (parse_and_process_spec (FB := FbRef) (PC := ProtoRef) sample_socket
    (mkLogger ∅ EmptyString) sample_serializer (mkLogger ∅ EmptyString) ack_wire 0 0 ack_record
    _ [] [] eq_refl eq_refl ack_record_NewRecord ack_record_fits)
    as (sm' & t' & Hrun & _ & Hw & Hp).
  exists sm', t'. split; [exact Hrun|]. split; [exact Hw|exact Hp].
Defined.

(** C4: a whole connection.  The loop ends without panicking, and the answers
    queued and the records handed over are those of the processed frames, in
    the order they were read: every frame before one of another type, less the
    frames refused while rate limiting is enabled, which get no answer, although
    the README speaks of rate limit responses; when it is not enabled the limiter
    only reports. *)
Theorem process_telemetry_spec {FB : FlatbuffersLib} {FS : FlatbuffersSpec FB} {PC : ProtoCodec}
    {RL : RateLimiter} bs sm l l' frames close_err closed_at t :
  sm_logger sm = Some l -> bs_logger bs = Some l' -> Forall (frame_fits bs sm) frames ->
  let processed := served sm frames (new_limiter (sm_config sm)) in
  exists sm' t', ProcessTelemetry bs frames close_err closed_at (sm, t) = (Ret (), (sm', t ++ t')) /\
    same_socket sm sm' /\
    writeChan sm' = writeChan sm ++ concat (frame_answers bs sm <$> processed) /\
    produced t' = concat (frame_handed bs sm <$> processed).
Proof.
  intros Hl Hbl Hfit processed.
  destruct (runs_ProcessTelemetry bs sm l l' frames close_err closed_at Hl Hbl Hfit t)
    as ([] & sm' & t' & Hrun & Hs & Hw & Hp & _). by exists sm', t'.
Qed.

Definition sample_frame (at_time : Z) : Frame :=
  mkFrame websocket_BinaryMessage ack_wire at_time (0, 0) (0, 0).

(** One message a nanosecond is allowed, so the second of two is dropped. *)
Definition limited_socket : SocketManager :=
  mkSocketManager websocket_BinaryMessage ∅ 0 "socket"
    (mkConfig "h" 443 8080 None false (Some (mkRateLimit true 1 30 1000)) ∅ None None None false None
      "ns" None "info" false {["V" := ["logger"]]} false [] false)
    (Some (mkLogger ∅ EmptyString)) sample_identity ∅ [] false ∅.

Lemma process_telemetry_spec_witness :
  exists sm' t', ProcessTelemetry (FB := FbRef) (PC := ProtoRef) (RL := WindowLimiter)
      sample_serializer [sample_frame 5; sample_frame 6] None 7 (limited_socket, []) =
      (Ret (), (sm', [] ++ t')) /\
    length (writeChan sm') = 2%nat /\ produced t' = [].
Proof.
  assert (Hframe : forall n, fst (NewRecord (FB := FbRef) (PC := ProtoRef) sample_serializer
    (f_message (sample_frame n)) (UUID limited_socket) (sm_transmitDecodedRecords limited_socket)
    (fst (f_process (sample_frame n))) (snd (f_process (sample_frame n)))) =
    (ack_record, Some (UnknownMessageType ack_wire "tx-1" 5)))
    by (intros n; exact (f_equal fst ack_record_NewRecord)).
  assert (Hfit : Forall (frame_fits (FB := FbRef) (PC := ProtoRef) sample_serializer limited_socket)
    [sample_frame 5; sample_frame 6]).
  { assert (Hone : forall n, frame_fits (FB := FbRef) (PC := ProtoRef) sample_serializer
      limited_socket (sample_frame n))
      by (intros n; unfold frame_fits, frame_record; rewrite Hframe; exact ack_record_fits).
    exact (Forall_cons_2 _ _ _ (Hone 5) (Forall_cons_2 _ _ _ (Hone 6) (Forall_nil_2 _))). }
  destruct (process_telemetry_spec (FB := FbRef) (PC := ProtoRef) (RL := WindowLimiter)
    sample_serializer limited_socket (mkLogger ∅ EmptyString) (mkLogger ∅ EmptyString)
    [sample_frame 5; sample_frame 6] None 7 [] eq_refl eq_refl Hfit)
    as (sm' & t' & Hrun & _ & Hw & Hp).
  assert (Hs : served limited_socket [sample_frame 5; sample_frame 6]
    (new_limiter (sm_config limited_socket)) = [sample_frame 5]) by reflexivity.
  rewrite Hs in Hw, Hp. cbn [fmap list_fmap concat] in Hw, Hp.
  unfold frame_answers, frame_handed, frame_record in Hw, Hp. rewrite Hframe in Hw, Hp.
  exists sm', t'. split; [exact Hrun|]. split; [rewrite Hw; reflexivity|rewrite Hp; reflexivity].
Defined.

(** C27: the configured rate-limit interval has no effect.  A configuration file
    sets the interval in seconds, and nothing converts it to the duration the
    limiter is made with: when that is zero, whatever interval and limit were
    configured, a limiter that refuses events only within its interval refuses
    none, and every message of the connection is processed. *)
Theorem rate_limit_interval_unset {RL : RateLimiter} {RS : RateLimiterSpec RL}
    path base env files c sm rl frames t0 :
  loadApplicationConfig path (Decoded base) env files = Ok c ->
  Config_RateLimit base = Some rl -> MessageIntervalTimeSecond rl = 0 -> 0 < MessageLimit rl ->
  Enabled rl = true -> sm_config sm = c ->
  forallb (fun f => f_type f =? MsgType sm) frames = true ->
  nondecreasing t0 (f_try <$> frames) = true ->
  served sm frames (new_limiter c) = frames.
Proof.
  intros Hload Hrl Hzero Hlimit Hen Hc Htype Hnd.
  assert (Hcl : Config_RateLimit c = Some rl).
  { apply loadApplicationConfig_Ok in Hload as (_ & b & c1 & Hfile & Henv & Htls).
    assert (b = base) as -> by (destruct Hfile as [[? _]|[= ->]]; done).
    apply materializeInlineTLSSecrets_Ok in Htls. rewrite Htls. cbn.
    apply applyEnvironmentOverrides_Ok in Henv as (_ & _ & _ & _ & _ & _ & ->).
    by destruct (applySafeDefaults_spec base) as (_ & _ & _ & _ & _ & ->). }
  unfold new_limiter. rewrite Hcl, Hen, Hzero. clear Hload Hcl Hc.
  pose proof (zero_interval (MessageLimit rl) t0 _ Hlimit Hnd) as Hall. clear Hnd Hlimit.
  revert Hall. generalize (rate_New (MessageLimit rl) 0). induction frames as [|f fs IH]; [done|].
  intros w Hall. cbn in *. apply andb_true_iff in Htype as [-> Htype]. cbn.
  destruct (rate_Try w (f_try f)) as [ok w']. apply andb_true_iff in Hall as [-> Hall]. cbn.
  by rewrite IH.
Qed.

Lemma rate_limit_interval_unset_witness :
  exists c, loadApplicationConfig "config.json" (Decoded sample_socket_config) empty_env no_files = Ok c /\
    served (RL := WindowLimiter) (mkSocketManager websocket_BinaryMessage ∅ 0 "socket" c None
        sample_identity ∅ [] false ∅)
      [sample_frame 5; sample_frame 5; sample_frame 6] (new_limiter c) =
    [sample_frame 5; sample_frame 5; sample_frame 6].
Proof.
  assert (Hok : is_ok (loadApplicationConfig "config.json" (Decoded sample_socket_config) empty_env no_files)
    = true) by (vm_compute; reflexivity).
  destruct (loadApplicationConfig "config.json" (Decoded sample_socket_config) empty_env no_files)
    as [c|e] eqn:E; [|discriminate].
  exists c. split; [reflexivity|].
  exact (rate_limit_interval_unset (RL := WindowLimiter) "config.json" sample_socket_config empty_env
    no_files c (mkSocketManager websocket_BinaryMessage ∅ 0 "socket" c None sample_identity ∅ []
      false ∅) (mkRateLimit true 1 30 0) [sample_frame 5; sample_frame 5; sample_frame 6] 5 E eq_refl eq_refl eq_refl eq_refl eq_refl eq_refl
    eq_refl).
Defined.
