(* ===== verification/Server.v ===== *)
(** * The server (server/streaming/server.go, socket_registry.go)

    The server registers every connected socket, announces connections and
    disconnections on the connectivity topic, and routes the acknowledgements
    of the datastores back to the socket a record came from.  Socket managers
    are shared by pointer between the registry and the connection that serves
    them: the heap of the world maps the pointers to them. *)

From S2P Require Import Prelude GoStd ProtoEnums Protos ProtoRef Identity.
From S2P Require Import Flatbuffers FbRef Messages Logger Airbrake Telemetry Config.
From S2P Require Import Streaming.
Local Open Scope Z_scope.

Abbreviation pointer := nat.

(** [SocketRegistry]; its mutex makes every operation atomic. *)
Record SocketRegistry := mkSocketRegistry {
  sockets : gmap string pointer;
  counter : Z
}.

Definition NewSocketRegistry : SocketRegistry := mkSocketRegistry ∅ 0.

(** The registry's operations on a socket at [p] with id [uuid]. *)
Definition RegisterSocket (uuid : string) (p : pointer) (s : SocketRegistry) : SocketRegistry :=
  mkSocketRegistry (<[uuid := p]> (sockets s)) (i64 (counter s + 1)).

Definition DeregisterSocket (uuid : string) (s : SocketRegistry) : SocketRegistry :=
  mkSocketRegistry (delete uuid (sockets s))
    (if 0 <? counter s then counter s - 1 else counter s).

Definition GetSocket (uuid : string) (s : SocketRegistry) : option pointer := sockets s !! uuid.
Definition NumConnectedSockets (s : SocketRegistry) : Z := counter s.

(** What the server's goroutines share. *)
Record World := mkWorld {
  heap : gmap pointer SocketManager;
  registry : SocketRegistry;
  w_trace : trace
}.

Record Server := mkServer {
  srv_DispatchRules : gmap string (list Producer);
  srv_logger : option Logger;
  srv_airbrakeHandler : Airbrake.Handler;
  reliableAckSources : gmap string Dispatcher
}.

(** [InitServer], the server it makes from the configuration. *)
Definition InitServer (c : Config) (airbrakeHandler : Airbrake.Handler)
    (producerRules : gmap string (list Producer)) (logger : option Logger) : Server :=
  mkServer producerRules logger airbrakeHandler (ReliableAckSources c).

Definition emitW (t : trace) : go World () :=
  modify (fun w => mkWorld (heap w) (registry w) (w_trace w ++ t)).
Definition logW (o : outcome (list LogEntry)) : go World () :=
  log_to_trace (fun new w => mkWorld (heap w) (registry w) (w_trace w ++ new)) o.
Definition with_registry (f : SocketRegistry -> SocketRegistry) : go World () :=
  modify (fun w => mkWorld (heap w) (f (registry w)) (w_trace w)).

(** Run a method of the socket at [p]. *)
Definition on_socket {A} (p : pointer) (m : go sstate A) : go World A := fun w =>
  match heap w !! p with
  | None => (Panic "nil pointer dereference", w)
  | Some sm =>
      let '(a, (sm', t)) := m (sm, w_trace w) in
      (a, mkWorld (<[p := sm']> (heap w)) (registry w) t)
  end.

Section Operations.
Context {FB : FlatbuffersLib} {PC : ProtoCodec} {RL : RateLimiter}.
Variable uuid_Parse : string -> option string.

(** The metrics of the server, by the names they are registered with. *)
Record ServerMetrics := mkServerMetrics {
  reliableAckCount : string;
  reliableAckMissCount : string
}.

Definition serverMetricsRegistry : ServerMetrics := {|
  reliableAckCount := "reliable_ack";
  reliableAckMissCount := "reliable_ack_miss"
|}%string.

(** One iteration of [handleAcks]. *)
Definition handle_ack (s : Server) (record : TRecord) : go World () :=
  let labels : gmap string string := list_to_map
    [("record_type", TxType record);
     ("dispatcher", default EmptyString (reliableAckSources s !! TxType record))]%string in
  match Serializer record with
  | None => skip
  | Some _ =>
      w ← get;
      match GetSocket (SocketID record) (registry w) with
      | Some p =>
          emitW [EInc (reliableAckCount serverMetricsRegistry) labels];;
          on_socket p (respondToVehicle record None)
      | None => emitW [EInc (reliableAckMissCount serverMetricsRegistry) labels]
      end
  end.

(** [handleAcks] over the records received from the channel. *)
Definition handleAcks (s : Server) (records : list TRecord) : go World () :=
  for_range (handle_ack s) records.

(** [extractCertFromHeaders], [extractIdentityFromConnection] *)
Definition extractCertFromHeaders (r : Request) : result Certificate :=
  match VerifiedChains r with
  | None => fail "missing_tls_state"
  | Some ((cert :: _) :: _) => Ok cert
  | Some _ => fail "missing_verified_client_certificate"
  end.

Definition extractIdentityFromConnection (r : Request) : result RequestIdentity :=
  cert ← extractCertFromHeaders r;
  match CreateIdentityFromCert cert with
  | Err err => fail ("create_identity issuer: " +:+ Issuer_CommonName cert +:+
                     ", common_name: " +:+ Subject_CommonName cert +:+ ", err: " +:+ Error_String err)
  | Ok (clientType, deviceID) =>
      Ok (mkRequestIdentity deviceID (clientType +:+ "." +:+ deviceID) (Header r "Version"))
  end.

Definition connectitivityTopic : string := "connectivity".

(** The message of a connectivity event; [now0] is the time it is made. *)
Definition connectivity_message (sm : SocketManager) (event : Z) (network : string) (now0 : Z)
  : VehicleConnectivity :=
  mkVehicleConnectivity (ri_DeviceID (requestIdentity sm)) (UUID sm) event
    (Some (timestamppb_New (now0 / 10 ^ 9) (now0 mod 10 ^ 9))) network.

Definition connectivity_stream (sm : SocketManager) (payload : bytes) (now0 : Z) : StreamMessage :=
  mkStreamMessage None None (raw connectitivityTopic) (raw (UUID sm))
    (raw (ri_SenderID (requestIdentity sm))) (raw "vehicle_device")
    (raw (ri_DeviceID (requestIdentity sm))) 0
    (u32 (Seconds (timestamppb_New (now0 / 10 ^ 9) (now0 mod 10 ^ 9)))) payload [].

(** [dispatchConnectivityEvent]; a clock gives its three readings. *)
Definition dispatchConnectivityEvent (s : Server) (sm : SocketManager)
    (serializer : BinarySerializer) (event : Z) (clock : Z * Z * Z)
  : go World (option GoError) :=
  let '(now0, now1, now2) := clock in
  match srv_DispatchRules s !! connectitivityTopic with
  | None => mret None
  | Some connectivityDispatcher =>
      network ← lift (GetNetworkInterface sm);
      match Marshal (MVehicleConnectivity (connectivity_message sm event network now0)) with
      | Err err => mret (Some err)
      | Ok payload =>
          message ← lift (StreamMessage_ToBytes (connectivity_stream sm payload now0));
          let '(record, err, t) := NewRecord serializer message (UUID sm)
            (sm_transmitDecodedRecords sm) now1 now2 in
          emitW t;;
          match err with
          | Some err => mret (Some err)
          | None =>
              emitW ((fun d => EProduce d record) <$> connectivityDispatcher);;
              mret None
          end
      end
  end.

(** An event that cannot be sent is logged. *)
Definition announce (s : Server) (sm : SocketManager) (serializer : BinarySerializer) (event : Z)
    (msg : string) (clock : Z * Z * Z) : go World () :=
  err ← dispatchConnectivityEvent s sm serializer event clock;
  match err with
  | None => skip
  | Some e =>
      logW (ErrorLog (srv_logger s) msg (Some e)
        (list_to_map [("deviceID", AString (ri_DeviceID (requestIdentity sm)));
                      ("event", AInt event)]%string))
  end.

Definition registerSocket (s : Server) (p : pointer) (sm : SocketManager)
    (serializer : BinarySerializer) (clock : Z * Z * Z) : go World () :=
  with_registry (RegisterSocket (UUID sm) p);;
  announce s sm serializer ConnectivityEvent_CONNECTED "connectivity_registeration_error" clock.

Definition deregisterSocket (s : Server) (sm : SocketManager)
    (serializer : BinarySerializer) (clock : Z * Z * Z) : go World () :=
  with_registry (DeregisterSocket (UUID sm));;
  announce s sm serializer ConnectivityEvent_DISCONNECTED "connectivity_deregisteration_error" clock.

(** What a connection brings: the upgrade's error, if any, with whether it
    is a handshake error; the UUID drawn for it; its frames; and the readings
    of the clock at its start, its two announcements and its end. *)
Record Connection := mkConnection {
  cn_request : Request;
  cn_upgrade : option (GoError * bool);
  cn_fresh : string;
  cn_frames : list Frame;
  cn_close_err : option GoError;
  cn_start : Z;
  cn_connect : Z * Z * Z;
  cn_close : Z;
  cn_disconnect : Z * Z * Z
}.

(** [promoteToWebsocket]: whether there is a connection; an error is reported to
    Airbrake, and logged unless it is of the handshake. *)
Definition promoteToWebsocket (s : Server) (c : Connection) : go World bool :=
  match cn_upgrade c with
  | None => mret true
  | Some (err, handshake) =>
      emitW (ENotice <$> Airbrake.ReportError (srv_airbrakeHandler s) err);;
      (if handshake : bool then skip
       else logW (ErrorLog (srv_logger s) "websocket_promotion_error" (Some err) ∅));;
      mret false
  end.

(** [defer]: [after] runs whether [body] returns or panics. *)
Definition deferring {S A} (after : go S ()) (body : go S A) : go S A := fun w =>
  match body w with
  | (Ret a, w') => match after w' with
                   | (Ret _, w'') => (Ret a, w'')
                   | (Panic why, w'') => (Panic why, w'')
                   end
  | (Panic why, w') => match after w' with
                       | (Ret _, w'') => (Panic why, w'')
                       | (Panic why', w'') => (Panic why', w'')
                       end
  end.

(** The handler made by [ServeBinaryWs(config)]. *)
Definition ServeBinaryWs (s : Server) (config : Config) (c : Connection) : go World () :=
  up ← promoteToWebsocket s c;
  if negb up then skip else
  match extractIdentityFromConnection (cn_request c) with
  | Err err => logW (ErrorLog (srv_logger s) "extract_sender_id_err" (Some err) ∅)
  | Ok requestIdentity =>
      let binarySerializer :=
        NewBinarySerializer (Some requestIdentity) (srv_DispatchRules s) (srv_logger s) in
      let socketManager := NewSocketManager uuid_Parse (cn_fresh c) (Some (cn_request c))
        requestIdentity config (srv_logger s) (cn_start c) in
      w ← get;
      let p := fresh (dom (heap w)) in
      modify (fun w => mkWorld (<[p := socketManager]> (heap w)) (registry w) (w_trace w));;
      registerSocket s p socketManager binarySerializer (cn_connect c);;
      deferring (deregisterSocket s socketManager binarySerializer (cn_disconnect c))
        (on_socket p (ProcessTelemetry binarySerializer (cn_frames c) (cn_close_err c) (cn_close c)))
  end.
End Operations.

(** [serveHTTPWithLogs]: the lines around a handler; the last one is missing
    when the handler panics. *)
Definition requestLogInfo (uuidStr method urlPath remote_ip : string) : LogInfo := list_to_map
  [("uuid", AString uuidStr); ("method", AString method); ("urlPath", AString urlPath);
   ("remote_ip", AString remote_ip)].

Definition serveHTTPWithLogs (logger : option Logger) (info : LogInfo) (duration_ms : Z)
    (h : go World ()) : go World () :=
  logW (ActivityLog logger "request_start" info);;
  h;;
  logW (ActivityLog logger "request_end" (<["duration_ms" := AInt duration_ms]> info)).

(** ** Lemmas *)

(** [m] changes neither the sockets nor the registry; [keeps_registry m], not
    the registry. *)
Definition keeps {A} (m : go World A) : Prop :=
  forall w, heap (m w).2 = heap w /\ registry (m w).2 = registry w.
Definition keeps_registry {A} (m : go World A) : Prop :=
  forall w, registry (m w).2 = registry w.

Lemma keeps_bind {A B} (m : go World A) (f : A -> go World B) :
  keeps m -> (forall a, keeps (f a)) -> keeps (m ≫= f).
Proof.
  intros Hm Hf w. unfold mbind, go_bind. specialize (Hm w).
  destruct (m w) as [[a|why] w1]; [|done]. destruct Hm as [<- <-]. apply Hf.
Qed.

Lemma keeps_ret {A} (a : A) : keeps (mret a).
Proof. done. Qed.
Lemma keeps_lift {A} (o : outcome A) : keeps (lift o).
Proof. Transparent lift. done. Qed.
Opaque lift.
Lemma keeps_emitW t : keeps (emitW t).
Proof. done. Qed.
Lemma keeps_logW o : keeps (logW o).
Proof. apply keeps_bind; [apply keeps_lift|done]. Qed.

Create HintDb keeps.
#[export] Hint Resolve keeps_ret keeps_lift keeps_emitW keeps_logW : keeps.

Lemma keeps_registry_on_socket {A} p (m : go sstate A) : keeps_registry (on_socket p m).
Proof.
  intros w. unfold on_socket. destruct (heap w !! p); [|done]. by destruct (m _) as [a [sm' t]].
Qed.

(** A registry that has counted less than the largest integer. *)
Definition countable_registry (s : SocketRegistry) : Prop := 0 <= counter s < int64_max.

Lemma register_deregister uuid p s :
  countable_registry s ->
  DeregisterSocket uuid (RegisterSocket uuid p s) =
  mkSocketRegistry (delete uuid (sockets s)) (counter s).
Proof.
  unfold countable_registry, int64_max, DeregisterSocket, RegisterSocket. intros H.
  cbn [sockets counter]. rewrite i64_small by lia. rewrite delete_insert_eq.
  destruct (Z.ltb_spec 0 (counter s + 1)); [f_equal; lia|lia].
Qed.

Section Lemmas.
Context {FB : FlatbuffersLib} {PC : ProtoCodec} {RL : RateLimiter}.

Lemma keeps_dispatchConnectivityEvent s sm bs event clock :
  keeps (dispatchConnectivityEvent s sm bs event clock).
Proof.
  unfold dispatchConnectivityEvent. destruct clock as [[now0 now1] now2].
  destruct (srv_DispatchRules s !! connectitivityTopic); [|auto with keeps].
  apply keeps_bind; [auto with keeps|]. intros network.
  destruct (Marshal _); [|auto with keeps].
  apply keeps_bind; [auto with keeps|]. intros message.
  destruct (NewRecord _ _ _ _ _ _) as [[r [e|]] t].
  - apply keeps_bind; auto with keeps.
  - apply keeps_bind; [auto with keeps|]. intros _. apply keeps_bind; auto with keeps.
Qed.

Lemma keeps_announce s sm bs event msg clock : keeps (announce s sm bs event msg clock).
Proof.
  apply keeps_bind; [apply keeps_dispatchConnectivityEvent|]. intros [e|]; auto with keeps.
  apply keeps_ret.
Qed.

Lemma deregisterSocket_registry s sm bs clock w :
  heap (deregisterSocket s sm bs clock w).2 = heap w /\
  registry (deregisterSocket s sm bs clock w).2 = DeregisterSocket (UUID sm) (registry w).
Proof.
  apply (keeps_announce s sm bs ConnectivityEvent_DISCONNECTED _ clock
    (mkWorld (heap w) (DeregisterSocket (UUID sm) (registry w)) (w_trace w))).
Qed.

Lemma registerSocket_registry s p sm bs clock w :
  heap (registerSocket s p sm bs clock w).2 = heap w /\
  registry (registerSocket s p sm bs clock w).2 = RegisterSocket (UUID sm) p (registry w).
Proof.
  apply (keeps_announce s sm bs ConnectivityEvent_CONNECTED _ clock
    (mkWorld (heap w) (RegisterSocket (UUID sm) p (registry w)) (w_trace w))).
Qed.

(** A deferred deregistration happens whatever the body does. *)
Lemma deferring_deregister s sm bs clock (body : go World ()) w :
  keeps_registry body ->
  registry (deferring (deregisterSocket s sm bs clock) body w).2 =
  DeregisterSocket (UUID sm) (registry w).
Proof.
  intros Hbody. unfold deferring. specialize (Hbody w).
  destruct (body w) as [[[]|why] w']; cbn in Hbody; rewrite <- Hbody;
    pose proof (deregisterSocket_registry s sm bs clock w') as [_ H];
    by destruct (deregisterSocket s sm bs clock w') as [[]].
Qed.
End Lemmas.

(** A request whose handler returns is logged when it starts and when it ends;
    one whose handler panics has no second line. *)
Lemma request_logged l info ms (h : go World ()) w :
  shouldSuppress l "request_start" = false -> shouldSuppress l "request_end" = false ->
  exists start stop, le_message start = "request_start" /\ le_message stop = "request_end" /\
    serveHTTPWithLogs (Some l) info ms h w =
    match h (mkWorld (heap w) (registry w) (w_trace w ++ [ELog start])) with
    | (Ret _, w2) => (Ret (), mkWorld (heap w2) (registry w2) (w_trace w2 ++ [ELog stop]))
    | (Panic why, w2) => (Panic why, w2)
    end.
Proof.
  intros Hs He.
  exists (mkLogEntry INFO "request_start" None (<["activity" := ABool true]> (getEntry l info))).
  exists (mkLogEntry INFO "request_end" None
    (<["activity" := ABool true]> (getEntry l (<["duration_ms" := AInt ms]> info)))).
  split; [reflexivity|]. split; [reflexivity|]. Transparent lift.
  unfold serveHTTPWithLogs, logW, log_to_trace, ActivityLog, log_unless_suppressed.
  rewrite Hs, He. unfold mbind, go_bind, lift, modify. cbn [fmap list_fmap].
  set (w1 := mkWorld _ _ _). by destruct (h w1) as [[u|why] w2].
Qed.

(** ** The registry over time

    A run of the registry: sockets connect under an id no connected socket has,
    and disconnect in any order. *)
Inductive reg_step : SocketRegistry * list (string * pointer) ->
    SocketRegistry * list (string * pointer) -> Prop :=
| step_connect s live uuid p :
    uuid ∉ live.*1 -> Z.of_nat (length live) < int64_max ->
    reg_step (s, live) (RegisterSocket uuid p s, (uuid, p) :: live)
| step_disconnect s before after uuid p :
    reg_step (s, before ++ (uuid, p) :: after) (DeregisterSocket uuid s, before ++ after).

Definition reg_reachable : SocketRegistry * list (string * pointer) -> Prop :=
  rtc reg_step (NewSocketRegistry, []).

(** The invariant of the registry. *)
Definition tracks (st : SocketRegistry * list (string * pointer)) : Prop :=
  let '(s, live) := st in
  NoDup live.*1 /\ sockets s = list_to_map live /\ counter s = Z.of_nat (length live).

Lemma tracks_step st st' : tracks st -> reg_step st st' -> tracks st'.
Proof.
  intros Ht Hstep. destruct Hstep as [s live uuid p Hfresh Hlen|s before after uuid p].
  - destruct Ht as (Hnd & Hs & Hc). split; [|split].
    + by constructor.
    + cbn. by rewrite Hs.
    + cbn. unfold int64_max in Hlen. rewrite Hc, i64_small by lia. lia.
  - destruct Ht as (Hnd & Hs & Hc). rewrite fmap_app in Hnd. cbn in Hnd.
    apply NoDup_app in Hnd as (Hb & Hdis & [Hni Ha]%NoDup_cons).
    assert (Hnib : uuid ∉ before.*1) by (intros Hin; apply (Hdis _ Hin); left).
    split; [|split].
    + rewrite fmap_app. apply NoDup_app. split; [done|]. split; [|done].
      intros x Hx Hxa. apply (Hdis _ Hx). by right.
    + cbn. rewrite Hs, !list_to_map_app. cbn.
      rewrite <- insert_union_r by (by apply not_elem_of_list_to_map_1).
      rewrite delete_insert_id; [done|].
      apply lookup_union_None. split; by apply not_elem_of_list_to_map_1.
    + cbn. rewrite Hc, !length_app. cbn. destruct (Z.ltb_spec 0 (Z.of_nat (length before + S (length after)))); lia.
Qed.

Lemma tracks_reachable st : reg_reachable st -> tracks st.
Proof.
  intros H. assert (Hinit : tracks (NewSocketRegistry, [])) by (split; [constructor|done]).
  unfold reg_reachable in H. revert Hinit.
  induction H as [|x y z Hstep _ IH]; [done|]. intros Hx. apply IH. by eapply tracks_step.
Qed.

(** ** Properties *)

(** C20: the registry tracks the connected sockets: however sockets with
    distinct ids connect and disconnect, its counter is their number and
    looking up an id gives a socket exactly when that socket is connected
    under it. *)
Theorem registry_tracks_connections s live :
  reg_reachable (s, live) ->
  NumConnectedSockets s = Z.of_nat (length live) /\
  forall uuid p, GetSocket uuid s = Some p <-> (uuid, p) ∈ live.
Proof.
  intros (Hnd & Hs & Hc)%tracks_reachable. split; [done|]. intros uuid p.
  unfold GetSocket. rewrite Hs. split.
  - apply elem_of_list_to_map_2.
  - by apply elem_of_list_to_map_1.
Qed.

Lemma registry_tracks_connections_witness :
  let s := DeregisterSocket "a" (RegisterSocket "b" 1%nat (RegisterSocket "a" 0%nat NewSocketRegistry)) in
  NumConnectedSockets s = 1 /\ forall uuid p, GetSocket uuid s = Some p <-> (uuid, p) ∈ [("b"%string, 1%nat)].
Proof.
  intros s. apply (registry_tracks_connections s [("b"%string, 1%nat)]). unfold reg_reachable, s.
  eapply rtc_l; [apply (step_connect _ [] "a" 0); [apply not_elem_of_nil|vm_compute; reflexivity]|].
  eapply rtc_l; [apply (step_connect _ [("a"%string, 0%nat)] "b" 1);
    [apply (bool_decide_unpack _); vm_compute; exact I|vm_compute; reflexivity]|].
  eapply rtc_l; [exact (step_disconnect _ [("b"%string, 1%nat)] [] "a" 0)|]. apply rtc_refl.
Defined.

(** C37: a client chooses its socket's id, and a shared id loses a socket.  Two
    connections whose X-TXID header holds the same valid UUID have the same
    socket id; when the first of them disconnects the registry no longer knows
    the second, although it counts it, so that datastore acknowledgements for
    its records are missed. *)
Theorem shared_uuid_loses_socket uuid_Parse u fresh1 fresh2 r1 r2 id1 id2 config logger now1 now2 p q :
  uuid_Parse (Header r1 "X-TXID"%string) = Some u -> uuid_Parse (Header r2 "X-TXID"%string) = Some u ->
  let first := NewSocketManager uuid_Parse fresh1 (Some r1) id1 config logger now1 in
  let second := NewSocketManager uuid_Parse fresh2 (Some r2) id2 config logger now2 in
  let s := DeregisterSocket (UUID first)
    (RegisterSocket (UUID second) q (RegisterSocket (UUID first) p NewSocketRegistry)) in
  UUID first = UUID second /\ GetSocket (UUID second) s = None /\ NumConnectedSockets s = 1.
Proof.
  intros H1 H2. unfold NewSocketManager, buildRequestContext. rewrite H1, H2. cbn.
  split; [done|]. split; [|done]. unfold GetSocket. cbn. by rewrite lookup_delete_eq.
Qed.

Definition sample_certificate : Certificate :=
  mkCertificate "VIN42" [] "TeslaMotors" [].

Definition sample_request : Request :=
  mkRequest (fun name => if String.eqb name "X-TXID" then "u-1"%string else EmptyString) "GET" "/"
    (Some [[sample_certificate]]).

Lemma shared_uuid_loses_socket_witness :
  let sm n := NewSocketManager Some "x" (Some sample_request) sample_identity sample_socket_config None n in
  let s := DeregisterSocket (UUID (sm 1))
    (RegisterSocket (UUID (sm 2)) 1%nat (RegisterSocket (UUID (sm 1)) 0%nat NewSocketRegistry)) in
  UUID (sm 1) = UUID (sm 2) /\ GetSocket (UUID (sm 2)) s = None /\ NumConnectedSockets s = 1.
Proof.
  exact (shared_uuid_loses_socket Some "u-1" "x" "x" sample_request sample_request sample_identity
    sample_identity sample_socket_config None 1 2 0%nat 1%nat eq_refl eq_refl).
Defined.

(** An acknowledgement sent on the socket at [p]. *)
Lemma on_socket_ack {FB : FlatbuffersLib} {FS : FlatbuffersSpec FB} w record p sm l :
  heap w !! p = Some sm -> sm_logger sm = Some l -> response_fits record bad_format ->
  exists w' sm', on_socket p (respondToVehicle record None) w = (Ret (), w') /\
    registry w' = registry w /\ heap w' = <[p := sm']> (heap w) /\ same_socket sm sm' /\
    writeChan sm' = writeChan sm ++ [ack_answer sm record].
Proof.
  intros Hsm Hl Hfit. unfold on_socket. rewrite Hsm.
  destruct (runs_ack sm l record Hl Hfit (w_trace w)) as ([] & sm' & t' & -> & Hss & Hw & _).
  by eexists _, sm'.
Qed.

(** C16: a datastore's acknowledgement reaches the vehicle the record came from
    and nobody else: if the record's socket is connected, exactly one
    acknowledgement of the record is queued on it, and every other socket and
    the registry are unchanged. *)
Theorem reliable_ack_routed {FB : FlatbuffersLib} {FS : FlatbuffersSpec FB}
    s w record bs p sm l :
  Serializer record = Some bs -> GetSocket (SocketID record) (registry w) = Some p ->
  heap w !! p = Some sm -> sm_logger sm = Some l -> response_fits record bad_format ->
  exists w' sm', handle_ack s record w = (Ret (), w') /\ registry w' = registry w /\
    heap w' = <[p := sm']> (heap w) /\ same_socket sm sm' /\
    writeChan sm' = writeChan sm ++ [ack_answer sm record].
Proof.
  intros Hs Hp Hsm Hl Hfit. unfold handle_ack. rewrite Hs.
  unfold mbind, go_bind, get, emitW, modify. cbn. rewrite Hp. cbn.
  match goal with |- context [on_socket p _ ?w1] =>
    destruct (on_socket_ack w1 record p sm l Hsm Hl Hfit) as (w' & sm' & -> & H) end.
  by exists w', sm'.
Qed.

Definition sample_server : Server :=
  mkServer ∅ (Some (mkLogger ∅ EmptyString)) (Airbrake.mkHandler false) {["V" := "kafka"]}%string.

Definition sample_world : World :=
  mkWorld {[0%nat := sample_socket]} (RegisterSocket "socket" 0%nat NewSocketRegistry) [].

Lemma reliable_ack_routed_witness :
  exists w' sm', handle_ack (FB := FbRef) sample_server sample_record sample_world = (Ret (), w') /\
    registry w' = registry sample_world /\ heap w' = <[0%nat := sm']> (heap sample_world) /\
    writeChan sm' = [ack_answer (FB := FbRef) sample_socket sample_record].
Proof.
  assert (Hfit : response_fits sample_record bad_format)
    by (unfold response_fits, ack_fits, message_fits; vm_compute; repeat split; discriminate).
  destruct (reliable_ack_routed (FB := FbRef) sample_server sample_world sample_record
    sample_serializer 0%nat sample_socket (mkLogger ∅ EmptyString) eq_refl
    ltac:(vm_compute; reflexivity) ltac:(vm_compute; reflexivity) eq_refl Hfit)
    as (w' & sm' & Hrun & Hr & Hh & _ & Hw).
  exists w', sm'. split; [exact Hrun|]. split; [exact Hr|]. split; [exact Hh|exact Hw].
Defined.

(** C5: the connectivity topic is told of a connection as it is: when the
    topic has a rule, the event is built and encoded without error and fits,
    each producer of the rule receives, in order, the same record, whose topic
    is connectivity, whose VIN is the certificate's device and whose payload
    parses to the event: that device, the socket's id, the status, and the
    network interface of the request.  Sockets and registry do not change. *)
Theorem connectivity_event_dispatched {FB : FlatbuffersLib} {FS : FlatbuffersSpec FB}
    {PC : ProtoCodec} {PS : ProtoCodecSpec PC}
    s sm bs event now0 now1 now2 w dispatchers network payload wire :
  srv_DispatchRules s !! connectitivityTopic = Some dispatchers ->
  bs = NewBinarySerializer (Some (requestIdentity sm)) (srv_DispatchRules s) (srv_logger s) ->
  sm_transmitDecodedRecords sm = false -> 0 <= now1 < 2 ^ 63 ->
  requestInfo sm !! "network_interface"%string = Some (AString network) ->
  let msg := connectivity_message sm event network now0 in
  Marshal (MVehicleConnectivity msg) = Ok payload ->
  message_fits (connectivity_stream sm payload now0) ->
  StreamMessage_ToBytes (connectivity_stream sm payload now0) = Ret wire ->
  Z.of_nat (length wire) <= SizeLimit ->
  exists w' record t, dispatchConnectivityEvent s sm bs event (now0, now1, now2) w = (Ret None, w') /\
    heap w' = heap w /\ registry w' = registry w /\ w_trace w' = w_trace w ++ t /\
    produced t = (fun d => (d, record)) <$> dispatchers /\
    TxType record = "connectivity"%string /\ Vin record = ri_DeviceID (requestIdentity sm) /\
    SocketID record = UUID sm /\
    unmarshals (PayloadBytes record) (MVehicleConnectivity msg) /\
    Connectivity_Vin msg = ri_DeviceID (requestIdentity sm) /\ Connectivity_ConnectionId msg = UUID sm /\
    Connectivity_Status msg = event /\ Connectivity_NetworkInterface msg = network.
Proof.
  intros Hd Hbs Htr Hnow Hnet msg Hpay Hfit Hwire Hsize.
  assert (Hun : Unmarshal_VehicleConnectivity payload = Ok msg)
    by exact (unmarshal_marshal (MVehicleConnectivity msg) payload eq_refl Hpay).
  assert (Htop : str (MessageTopic (connectivity_stream sm payload now0)) = "connectivity"%string)
    by exact (str_raw "connectivity").
  assert (Hacc : accepted bs (requestIdentity sm) (connectivity_stream sm payload now0) = true).
  { unfold accepted, StreamMessage_Topic. rewrite Htop, Hbs. cbn -[lookup].
    unfold connectitivityTopic in Hd. by rewrite Hd. }
  destruct (Deserialize_encoded bs (requestIdentity sm) (connectivity_stream sm payload now0)
    (UUID sm) now1 now2 eq_refl Hfit Hnow
    (f_equal bs_RequestIdentity Hbs) Hacc) as (wire' & rb & m' & Hw' & Hdes & _).
  rewrite Hwire in Hw'. injection Hw' as <-.
  set (r0 := mkTRecord _ _ _ _ _ _ _ _ _ _ _ _ _ _ _) in Hdes.
  assert (Hparse : parse_message (set_transmit false r0) = Some (Ok (MVehicleConnectivity msg))).
  { unfold parse_message, r0. rewrite Htop. cbn -[msg]. by rewrite Hun. }
  assert (Hnew : NewRecord bs wire (UUID sm) false now1 now2 =
    (set_protoMessage (Some (MVehicleConnectivity msg))
       (set_PayloadBytes payload (set_transmit false r0)), None, [])).
  { unfold NewRecord. destruct (Z.ltb_spec SizeLimit (Z.of_nat (length wire))); [lia|].
    rewrite Hdes. unfold applyRecordTransforms, applyProtoRecordTransforms.
    by rewrite Hparse, Hpay. }
  unfold dispatchConnectivityEvent, GetNetworkInterface. rewrite Hd, Hnet.
  Transparent lift. unfold mbind, go_bind, lift. fold msg. rewrite Hpay, Hwire, Htr, Hnew.
  do 3 eexists. split; [reflexivity|]. split; [done|]. split; [done|]. cbn [w_trace].
  rewrite <- app_assoc. split; [reflexivity|]. rewrite produced_app. cbn [produced app].
  rewrite produced_produce. split; [reflexivity|]. cbn -[msg].
  split; [exact Htop|]. split; [done|]. split; [done|]. split; [exact Hun|]. done.
Qed.
Opaque lift.

Definition connected_socket : SocketManager :=
  mkSocketManager websocket_BinaryMessage ∅ 0 "socket" sample_socket_config (Some (mkLogger ∅ EmptyString))
    sample_identity {["network_interface" := AString "wifi"]}%string [] false ∅.

Definition connectivity_server : Server :=
  mkServer {["connectivity" := ["kafka"]]}%string (Some (mkLogger ∅ EmptyString))
    (Airbrake.mkHandler false) ∅.

Definition connected_payload : bytes :=
  match Marshal (ProtoCodec := ProtoRef) (MVehicleConnectivity
          (connectivity_message (PC := ProtoRef) connected_socket ConnectivityEvent_CONNECTED "wifi" sample_now)) with
  | Ok b => b
  | Err _ => []
  end.

Definition connected_wire : bytes :=
  match StreamMessage_ToBytes (FB := FbRef)
          (connectivity_stream (PC := ProtoRef) connected_socket connected_payload sample_now) with
  | Ret b => b
  | Panic _ => []
  end.

Lemma connectivity_event_dispatched_witness :
  exists w' record t, dispatchConnectivityEvent (FB := FbRef) (PC := ProtoRef) connectivity_server
      connected_socket
      (NewBinarySerializer (Some sample_identity) (srv_DispatchRules connectivity_server)
        (srv_logger connectivity_server))
      ConnectivityEvent_CONNECTED (sample_now, sample_now, sample_now) sample_world = (Ret None, w') /\
    w_trace w' = w_trace sample_world ++ t /\
    produced t = [("kafka"%string, record)] /\ Vin record = "VIN42"%string.
Proof.
  assert (Hpay : Marshal (ProtoCodec := ProtoRef) (MVehicleConnectivity
    (connectivity_message (PC := ProtoRef) connected_socket ConnectivityEvent_CONNECTED "wifi" sample_now)) =
    Ok connected_payload) by reflexivity.
  assert (Hfit : message_fits (connectivity_stream (PC := ProtoRef) connected_socket connected_payload sample_now))
    by (unfold message_fits; vm_compute; repeat split; discriminate).
  assert (Hwire : StreamMessage_ToBytes (FB := FbRef)
    (connectivity_stream (PC := ProtoRef) connected_socket connected_payload sample_now) = Ret connected_wire).
  { unfold connected_wire. destruct (StreamMessage_ToBytes _) eqn:E; [reflexivity|].
    vm_compute in E. discriminate. }
  assert (Hsize : Z.of_nat (length connected_wire) <= SizeLimit) by (vm_compute; discriminate).
  assert (Hnow : 0 <= sample_now < 2 ^ 63) by (vm_compute; split; [discriminate|reflexivity]).
  destruct (connectivity_event_dispatched (FB := FbRef) (PC := ProtoRef) connectivity_server
    connected_socket _ ConnectivityEvent_CONNECTED sample_now sample_now sample_now sample_world
    ["kafka"%string] "wifi" connected_payload connected_wire ltac:(vm_compute; reflexivity) eq_refl
    eq_refl Hnow ltac:(vm_compute; reflexivity) Hpay Hfit Hwire Hsize)
    as (w' & record & t & Hrun & _ & _ & Ht & Hp & _ & Hv & _).
  exists w', record, t. split; [exact Hrun|]. split; [exact Ht|]. split; [exact Hp|exact Hv].
Defined.

(** C18: a connection leaves no trace in the registry.  Whatever the vehicle
    sends and even when handling it panics, once registered the socket is
    deregistered: its id is no longer known, every other id is, and the number
    of connected sockets is what it was. *)
Theorem serve_restores_registry {FB : FlatbuffersLib} {PC : ProtoCodec} {RL : RateLimiter}
    uuid_Parse s config c identity w :
  cn_upgrade c = None -> extractIdentityFromConnection (cn_request c) = Ok identity ->
  countable_registry (registry w) ->
  let sm := NewSocketManager uuid_Parse (cn_fresh c) (Some (cn_request c)) identity config
    (srv_logger s) (cn_start c) in
  let p := fresh (dom (heap w)) in
  (registerSocket s p sm (NewBinarySerializer (Some identity) (srv_DispatchRules s) (srv_logger s))
    (cn_connect c) (mkWorld (<[p := sm]> (heap w)) (registry w) (w_trace w))).1 = Ret () ->
  let w' := (ServeBinaryWs uuid_Parse s config c w).2 in
  NumConnectedSockets (registry w') = NumConnectedSockets (registry w) /\
  GetSocket (UUID sm) (registry w') = None /\
  forall uuid, uuid <> UUID sm -> GetSocket uuid (registry w') = GetSocket uuid (registry w).
Proof.
  intros Hup Hid Hcount sm p Hreg w'. subst w'.
  assert (Hw : registry (ServeBinaryWs uuid_Parse s config c w).2 =
    mkSocketRegistry (delete (UUID sm) (sockets (registry w))) (counter (registry w))).
  { unfold ServeBinaryWs, promoteToWebsocket. rewrite Hup, Hid.
    unfold mbind, go_bind, mret, go_ret, get, modify. cbn -[registerSocket NewSocketManager fresh].
    fold sm p.
    pose proof (registerSocket_registry s p sm
      (NewBinarySerializer (Some identity) (srv_DispatchRules s) (srv_logger s)) (cn_connect c)
      (mkWorld (<[p := sm]> (heap w)) (registry w) (w_trace w))) as [_ Hr].
    destruct (registerSocket _ _ _ _ _ _) as [o w1]. cbn [fst snd] in Hreg, Hr. rewrite Hreg.
    rewrite deferring_deregister by apply keeps_registry_on_socket.
    rewrite Hr. by apply register_deregister. }
  rewrite Hw. unfold GetSocket. cbn. split; [done|]. split; [by rewrite lookup_delete_eq|].
  intros uuid Hne. by rewrite lookup_delete_ne.
Qed.

Definition sample_connection : Connection :=
  mkConnection sample_request None "x" [] None 0 (0, 0, 0) 0 (0, 0, 0).

Lemma serve_restores_registry_witness :
  let w' := (ServeBinaryWs (FB := FbRef) (PC := ProtoRef) (RL := WindowLimiter) Some sample_server
    sample_socket_config sample_connection sample_world).2 in
  NumConnectedSockets (registry w') = 1 /\ GetSocket "u-1" (registry w') = None /\
  GetSocket "socket" (registry w') = Some 0%nat.
Proof.
  intros w'.
  assert (Hcount : countable_registry (registry sample_world))
    by (vm_compute; split; [discriminate|reflexivity]).
  destruct (serve_restores_registry (FB := FbRef) (PC := ProtoRef) (RL := WindowLimiter) Some
    sample_server sample_socket_config sample_connection
    (mkRequestIdentity "VIN42" "vehicle_device.VIN42" "") sample_world eq_refl
    ltac:(vm_compute; reflexivity) Hcount ltac:(vm_compute; reflexivity)) as (Hn & Hg & Ho).
  split; [exact Hn|]. split; [exact Hg|]. rewrite Ho; [vm_compute; reflexivity|discriminate].
Defined.
