(* ===== verification/SocketLifecycle.v ===== *)
(** * The goroutines of a socket (server/streaming/socket.go, server.go)

    A connected socket is served by a reader (the loop of [ProcessTelemetry])
    and a writer, joined by a bounded channel; the server's acknowledgement
    goroutine ([handleAcks]) sends on the same channel.  Their interleavings
    are a step relation.  A send on a full channel blocks; the writer ends at
    its first write error, after which it sets a read deadline, and when the
    stop channel is closed; the reader ends at a read error, closes the
    connection and the stop channel, and the socket is then deregistered. *)

From S2P Require Import Prelude Streaming.
Local Open Scope nat_scope.

(** What a goroutine that may send is doing. *)
Inductive sender :=
| Idle
| Sending (m : SocketMessage)
| Finished.

Inductive writer_state := Running | Exited.

Record Socket := mkSocket {
  reader : sender;
  acker : sender;
  writer : writer_state;
  queue : list SocketMessage;
  stopped : bool;
  registered : bool;
  (** history: the messages whose send completed, those written, and the one
      whose write failed *)
  accepted_sends : list SocketMessage;
  written : list SocketMessage;
  dropped : list SocketMessage
}.

Section Lifecycle.
(** The capacity of the channel: [writeChan_capacity] in the code. *)
Variable capacity : nat.

Definition room (s : Socket) : Prop := length (queue s) < capacity.
#[export] Instance room_dec s : Decision (room s).
Proof. unfold room. apply _. Defined.

Inductive step : Socket -> Socket -> Prop :=
(** The reader reads a message and is about to answer it. *)
| reader_reads s m :
    reader s = Idle ->
    step s (mkSocket (Sending m) (acker s) (writer s) (queue s) (stopped s) (registered s)
      (accepted_sends s) (written s) (dropped s))
(** [sm.writeChan <- msg] by the reader and by [handleAcks]. *)
| reader_sends s m :
    reader s = Sending m -> room s ->
    step s (mkSocket Idle (acker s) (writer s) (queue s ++ [m]) (stopped s) (registered s)
      (accepted_sends s ++ [m]) (written s) (dropped s))
| acker_receives s m :
    acker s = Idle -> registered s = true ->
    step s (mkSocket (reader s) (Sending m) (writer s) (queue s) (stopped s) (registered s)
      (accepted_sends s) (written s) (dropped s))
| acker_sends s m :
    acker s = Sending m -> room s ->
    step s (mkSocket (reader s) Idle (writer s) (queue s ++ [m]) (stopped s) (registered s)
      (accepted_sends s ++ [m]) (written s) (dropped s))
(** The writer takes a message, and its write succeeds or fails. *)
| writer_writes s m q :
    writer s = Running -> queue s = m :: q ->
    step s (mkSocket (reader s) (acker s) Running q (stopped s) (registered s)
      (accepted_sends s) (written s ++ [m]) (dropped s))
| writer_fails s m q :
    writer s = Running -> queue s = m :: q ->
    step s (mkSocket (reader s) (acker s) Exited q (stopped s) (registered s)
      (accepted_sends s) (written s) (dropped s ++ [m]))
| writer_stops s :
    writer s = Running -> stopped s = true ->
    step s (mkSocket (reader s) (acker s) Exited (queue s) (stopped s) (registered s)
      (accepted_sends s) (written s) (dropped s))
(** A read error (a disconnection, a frame of another type or the writer's
    deadline): the reader returns and closes the stop channel. *)
| reader_ends s :
    reader s = Idle ->
    step s (mkSocket Finished (acker s) (writer s) (queue s) true (registered s)
      (accepted_sends s) (written s) (dropped s))
| deregisters s :
    reader s = Finished -> registered s = true ->
    step s (mkSocket (reader s) (acker s) (writer s) (queue s) (stopped s) false
      (accepted_sends s) (written s) (dropped s)).

Definition connected : Socket := mkSocket Idle Idle Running [] false true [] [] [].

Definition reachable : Socket -> Prop := rtc step connected.

(** The invariant: the messages accepted are those written, then at most one
    dropped by a failed write, then those queued; nothing is dropped while
    the writer runs; and the queue is within the capacity. *)
Definition socket_inv (s : Socket) : Prop :=
  accepted_sends s = written s ++ dropped s ++ queue s /\
  length (dropped s) <= 1 /\
  (writer s = Running -> dropped s = []) /\
  length (queue s) <= capacity /\
  (registered s = false -> reader s = Finished) /\
  (reader s = Finished <-> stopped s = true).

Lemma socket_inv_step s s' : socket_inv s -> step s s' -> socket_inv s'.
Proof.
  intros (Hfifo & Hd & Hrun & Hcap & Hreg & Hstop) Hstep.
  destruct Hstep; unfold socket_inv; simpl; unfold room in *;
    rewrite ?length_app; simpl;
    repeat match goal with
    | H : queue _ = _ :: _ |- _ => rewrite H in *
    | H : writer _ = Running, H' : writer _ = Running -> _ |- _ => specialize (H' H)
    | H : dropped _ = [] |- _ => rewrite H in *
    end; simpl in *;
    split_and!; try tauto; try lia; try (rewrite Hfifo, <- ?app_assoc; done); try congruence;
    try (intros; exfalso; intuition congruence);
    try (intuition congruence).
Qed.

Lemma reachable_inv s : reachable s -> socket_inv s.
Proof.
  assert (H0 : socket_inv connected).
  { unfold socket_inv. simpl. split_and!; try done; try lia. }
  unfold reachable. revert H0. generalize connected. induction 2 as [|x y z Hstep _ IH]; [done|].
  apply IH. by eapply socket_inv_step.
Qed.

(** *** A socket that has left the registry *)

(** The steps left to a deregistered socket. *)
Definition steps_left (s : Socket) : nat :=
  (match acker s with Sending _ => 2 | _ => 0 end) + length (queue s) +
  (match writer s with Running => 1 | Exited => 0 end).

Lemma closed_step s s' :
  reader s = Finished -> registered s = false -> step s s' ->
  reader s' = Finished /\ registered s' = false /\ steps_left s' < steps_left s.
Proof.
  intros Hr Hreg Hstep. destruct Hstep; try congruence; unfold steps_left; simpl;
    repeat match goal with H : ?x = _ |- context [match ?x with _ => _ end] => rewrite H end;
    rewrite ?length_app; simpl; repeat split; try done;
    repeat match goal with H : queue _ = _ :: _ |- _ => rewrite H; clear H end; simpl; lia.
Qed.

Lemma closed_steps n s s' :
  nsteps step n s s' -> reader s = Finished -> registered s = false ->
  n + steps_left s' <= steps_left s /\ reader s' = Finished.
Proof.
  induction 1 as [|n x y z Hstep _ IH]; intros Hr Hreg; [by split|].
  destruct (closed_step _ _ Hr Hreg Hstep) as (Hr' & Hreg' & Hlt).
  destruct (IH Hr' Hreg') as [Hle Hz]. split; [lia|done].
Qed.

(** The acknowledgement goroutine of the server never ends. *)
Lemma acker_alive s : reachable s -> acker s <> Finished.
Proof.
  assert (H0 : acker connected <> Finished) by done.
  unfold reachable. revert H0. generalize connected.
  induction 2 as [|x y z Hstep _ IH]; [done|]. apply IH. by destruct Hstep.
Qed.

(** ** A socket whose writer has ended *)

(** It never writes again. *)
Lemma exited_step s s' :
  step s s' -> writer s = Exited -> writer s' = Exited /\ written s' = written s.
Proof. intros Hstep Hw. destruct Hstep; simpl; by try congruence. Qed.

Lemma exited_steps s s' :
  rtc step s s' -> writer s = Exited -> writer s' = Exited /\ written s' = written s.
Proof.
  induction 1 as [|x y z Hstep _ IH]; intros Hw; [done|].
  destruct (exited_step _ _ Hstep Hw) as [Hw' <-]. by apply IH.
Qed.

Definition stuck (s : Socket) : Prop :=
  writer s = Exited /\ length (queue s) = capacity.

Lemma stuck_step s s' : stuck s -> step s s' -> stuck s'.
Proof.
  intros [Hw Hq] Hstep. destruct Hstep; unfold room, stuck in *; simpl;
    try congruence; try lia; done.
Qed.

Lemma stuck_sender_step s s' m :
  stuck s -> step s s' ->
  (acker s = Sending m -> acker s' = Sending m) /\ (reader s = Sending m -> reader s' = Sending m).
Proof.
  intros [Hw Hq] Hstep. destruct Hstep; unfold room, stuck in *; simpl;
    try congruence; try lia; try done; split; congruence.
Qed.

Lemma stuck_forever s s' m :
  rtc step s s' -> stuck s ->
  (acker s = Sending m -> acker s' = Sending m) /\ (reader s = Sending m -> reader s' = Sending m).
Proof.
  induction 1 as [|x y z Hstep Hrtc IH]; intros Hstuck; [done|].
  destruct (stuck_sender_step _ _ m Hstuck Hstep) as [Ha Hr].
  destruct (IH (stuck_step _ _ Hstuck Hstep)) as [Ha' Hr']. tauto.
Qed.

(** Sends of the same message by one goroutine, one after the other. *)
Definition with_queue (s : Socket) (n : nat) (m : SocketMessage) (r a : sender) : Socket :=
  mkSocket r a (writer s) (queue s ++ replicate n m) (stopped s) (registered s)
    (accepted_sends s ++ replicate n m) (written s) (dropped s).

Lemma reader_fills s m n :
  reader s = Idle -> length (queue s) + n <= capacity ->
  rtc step s (with_queue s n m Idle (acker s)).
Proof.
  intros Hr. induction n as [|n IH]; intros Hn.
  - unfold with_queue. simpl. rewrite !app_nil_r, <- Hr. destruct s. apply rtc_refl.
  - etransitivity; [apply IH; lia|].
    eapply rtc_l; [by apply (reader_reads _ m)|]. eapply rtc_l.
    { apply (reader_sends _ m); [done|]. unfold room. simpl. rewrite length_app, length_replicate. lia. }
    unfold with_queue. simpl. rewrite <- !app_assoc, <- !replicate_cons_app. apply rtc_refl.
Qed.
End Lifecycle.

(** ** Properties *)

(** C11: the answers reach the vehicle in the order their sends completed: in
    every interleaving what was written is a prefix of what was accepted; while
    the writer runs, the rest is still queued, in order, and nothing is lost.
    Once it has ended nothing more is written: the message whose write failed,
    if one did, what the channel holds then and what is still sent to it are
    lost, which is never more than one message and the capacity of the channel. *)
Theorem socket_writes_in_order capacity s :
  reachable capacity s ->
  (exists rest, accepted_sends s = written s ++ rest /\ length rest <= 1 + capacity) /\
  (writer s = Running -> accepted_sends s = written s ++ queue s) /\
  (writer s = Exited -> forall s', rtc (step capacity) s s' -> written s' = written s /\
     exists failed, length failed <= 1 /\ accepted_sends s' = written s ++ failed ++ queue s') /\
  length (queue s) <= capacity.
Proof.
  intros Hreach. pose proof (reachable_inv _ _ Hreach) as (Hfifo & Hd & Hrun & Hcap & _).
  split; [|split; [|split; [|done]]].
  - eexists. split; [done|]. rewrite length_app. lia.
  - intros Hw. by rewrite Hfifo, (Hrun Hw).
  - intros Hw s' Hs'. destruct (exited_steps _ _ _ Hs' Hw) as [_ <-]. split; [done|].
    assert (Hreach' : reachable capacity s') by (unfold reachable in *; by etransitivity).
    apply reachable_inv in Hreach' as (Hfifo' & Hd' & _). by exists (dropped s').
Qed.

Definition some_message : SocketMessage := mkSocketMessage 2 "tx" [].

(** A message is written, a second one accepted, and the connection ends: the
    writer stops before the second one. *)
Definition stopped_socket : Socket :=
  mkSocket Finished Idle Exited [some_message] true true [some_message; some_message] [some_message] [].

Lemma stopped_socket_reachable : reachable writeChan_capacity stopped_socket.
Proof.
  assert (H : 2 <= writeChan_capacity) by (unfold writeChan_capacity; lia).
  eapply rtc_l; [by apply (reader_reads _ _ some_message)|].
  eapply rtc_l; [apply (reader_sends _ _ some_message); [done|]; unfold room; simpl; lia|].
  eapply rtc_l; [by apply (writer_writes _ _ some_message [])|].
  eapply rtc_l; [by apply (reader_reads _ _ some_message)|].
  eapply rtc_l; [apply (reader_sends _ _ some_message); [done|]; unfold room; simpl; lia|].
  eapply rtc_l; [by apply reader_ends|].
  eapply rtc_l; [by apply writer_stops|]. apply rtc_refl.
Qed.

Lemma socket_writes_in_order_witness :
  reachable writeChan_capacity stopped_socket /\
  forall s', rtc (step writeChan_capacity) stopped_socket s' -> written s' = [some_message].
Proof.
  split; [exact stopped_socket_reachable|]. intros s' Hs'.
  destruct (socket_writes_in_order _ _ stopped_socket_reachable) as (_ & _ & Hended & _).
  exact (proj1 (Hended eq_refl s' Hs')).
Defined.

(** While its writer runs a socket makes progress: a goroutine waiting to
    send on the channel can always complete its send after at most one write. *)
Theorem running_writer_unblocks capacity s m :
  0 < capacity -> reachable capacity s -> writer s = Running -> acker s = Sending m ->
  exists s1 s2, rtc (step capacity) s s1 /\ step capacity s1 s2 /\ acker s2 = Idle /\
    accepted_sends s2 = accepted_sends s ++ [m].
Proof.
  intros Hcap (_ & _ & _ & Hq & _)%reachable_inv Hw Ha.
  destruct (decide (room capacity s)) as [Hroom|Hfull].
  - eexists s, _. split; [apply rtc_refl|]. split; [by apply acker_sends|]. done.
  - unfold room in Hfull. destruct (queue s) as [|x q] eqn:E; [simpl in Hfull; lia|].
    eexists _, _. split; [apply rtc_once; by apply (writer_writes _ s x q)|].
    split; [apply (acker_sends _ _ m); [done|]; unfold room; simpl in *; lia|]. done.
Qed.

Lemma running_writer_unblocks_witness :
  exists s1 s2, rtc (step 1) (mkSocket Idle (Sending some_message) Running [] false true [] [] []) s1 /\
    step 1 s1 s2 /\ acker s2 = Idle /\ accepted_sends s2 = [some_message].
Proof.
  apply (running_writer_unblocks 1 (mkSocket Idle (Sending some_message) Running [] false true [] [] [])
    some_message); [lia| |reflexivity|reflexivity].
  eapply rtc_l; [by apply (acker_receives _ _ some_message)|]. apply rtc_refl.
Defined.

(** C14: once the writer has ended, the channel can fill up and block its
    senders for ever: a state is reachable in which the acknowledgement
    goroutine of the whole server waits to send to a socket, and in no later
    state has it finished, whatever any goroutine does; in the same state the
    socket's reader waits as well, so the socket is never deregistered. *)
Theorem dead_writer_blocks_acks capacity m :
  0 < capacity ->
  exists s, reachable capacity s /\ acker s = Sending m /\ reader s = Sending m /\
    registered s = true /\
    forall s', rtc (step capacity) s s' ->
      acker s' = Sending m /\ reader s' = Sending m /\ registered s' = true.
Proof.
  intros Hcap.
  destruct capacity as [|n]; [lia|].
  (* the writer is slow: the channel fills up and both goroutines wait *)
  set (s1 := with_queue connected (S n) m Idle Idle).
  assert (H1 : rtc (step (S n)) connected s1) by (apply (reader_fills (S n) connected m (S n)); simpl; [done|lia]).
  set (s2 := mkSocket (Sending m) (Sending m) Running (replicate (S n) m) false true
    (replicate (S n) m) [] []).
  assert (H2 : rtc (step (S n)) s1 s2).
  { eapply rtc_l; [by apply (reader_reads _ _ m)|].
    eapply rtc_l; [by apply (acker_receives _ _ m)|]. apply rtc_refl. }
  (* its write fails; the reader's answer takes the place, and it reads on *)
  set (s3 := mkSocket (Sending m) (Sending m) Exited (replicate n m ++ [m]) false true
    (replicate (S n) m ++ [m]) [] [m]).
  assert (H3 : rtc (step (S n)) s2 s3).
  { eapply rtc_l; [by apply (writer_fails _ s2 m (replicate n m))|].
    eapply rtc_l; [apply (reader_sends _ _ m); [done|];
      unfold room; simpl; rewrite length_replicate; lia|].
    eapply rtc_l; [by apply (reader_reads _ _ m)|]. apply rtc_refl. }
  assert (Hs3 : reachable (S n) s3) by (unfold reachable; by do 2 (etransitivity; [done|])).
  exists s3. split; [done|]. split; [done|]. split; [done|]. split; [done|]. intros s' Hrun.
  assert (Hstuck : stuck (S n) s3)
    by (split; [done|]; simpl; rewrite length_app, length_replicate; simpl; lia).
  destruct (stuck_forever (S n) s3 s' m Hrun Hstuck) as [Ha Hr].
  specialize (Ha eq_refl). specialize (Hr eq_refl). split; [done|]. split; [done|].
  assert (Hreach : reachable (S n) s') by (unfold reachable in *; by etransitivity).
  apply reachable_inv in Hreach as (_ & _ & _ & _ & Hreg & _).
  destruct (registered s'); [done|]. specialize (Hreg eq_refl). congruence.
Qed.

Lemma dead_writer_blocks_acks_witness :
  exists s, reachable writeChan_capacity s /\ acker s = Sending some_message /\
    forall s', rtc (step writeChan_capacity) s s' -> acker s' = Sending some_message.
Proof.
  assert (H : 0 < writeChan_capacity) by (unfold writeChan_capacity; lia).
  destruct (dead_writer_blocks_acks writeChan_capacity some_message H) as (s & Hs & Ha & _ & _ & Hf).
  exists s. split; [exact Hs|]. split; [exact Ha|]. intros s' Hr. exact (proj1 (Hf s' Hr)).
Defined.

(** C15: a connection that has left the registry comes to rest: every run from
    there is finite, with at most as many steps as the channel has room plus
    three, and it can only end with the writer gone; the acknowledgement
    goroutine of the server is then free, unless it holds an acknowledgement
    for this socket and the channel, which nobody reads any more, is full. *)
Theorem closed_socket_quiesces capacity s n s' :
  reachable capacity s -> registered s = false -> nsteps (step capacity) n s s' ->
  n <= capacity + 3 /\
  ((forall s'', ~ step capacity s' s'') ->
   writer s' = Exited /\
   (acker s' = Idle \/ exists m, acker s' = Sending m /\ length (queue s') = capacity)).
Proof.
  intros Hreach Hreg Hrun.
  pose proof (reachable_inv _ _ Hreach) as (_ & _ & _ & Hcap & Hfin & _).
  assert (Hreach' : reachable capacity s').
  { unfold reachable in *. etransitivity; [done|]. apply rtc_nsteps. by exists n. }
  pose proof (reachable_inv _ _ Hreach') as (_ & _ & _ & Hcap' & _ & Hstop).
  destruct (closed_steps _ n s s' Hrun (Hfin Hreg) Hreg) as [Hle Hr']. split.
  { unfold steps_left in Hle. destruct (acker s), (writer s); lia. }
  intros Hend. split.
  - destruct (writer s') eqn:Hw; [|done]. exfalso. eapply Hend, writer_stops; [done|by apply Hstop].
  - destruct (acker s') as [|m|] eqn:Ha; [by left| |by apply acker_alive in Hreach'].
    right. exists m. split; [done|]. destruct (decide (room capacity s')) as [Hroom|Hfull].
    + exfalso. by eapply Hend, acker_sends.
    + unfold room in Hfull. lia.
Qed.

(** A socket that held an acknowledgement when it was deregistered. *)
Definition closed_socket : Socket :=
  mkSocket Finished (Sending some_message) Running [] true false [] [] [].

Lemma closed_socket_quiesces_witness :
  exists s', nsteps (step 1) 2 closed_socket s' /\ 2 <= 1 + 3 /\
    ((forall s'', ~ step 1 s' s'') -> writer s' = Exited).
Proof.
  set (s1 := mkSocket Finished Idle Running [some_message] true false [some_message] [] []).
  set (s2 := mkSocket Finished Idle Exited [some_message] true false [some_message] [] []).
  assert (Hreach : reachable 1 closed_socket).
  { eapply rtc_l; [by apply (acker_receives _ _ some_message)|].
    eapply rtc_l; [by apply reader_ends|]. eapply rtc_l; [by apply deregisters|]. apply rtc_refl. }
  assert (Hrun : nsteps (step 1) 2 closed_socket s2).
  { apply nsteps_l with s1; [apply (acker_sends 1 closed_socket some_message); [done|unfold room; simpl; lia]|].
    apply nsteps_l with s2; [by apply (writer_stops 1 s1)|]. apply nsteps_O. }
  destruct (closed_socket_quiesces 1 closed_socket 2 s2 Hreach eq_refl Hrun) as [Hn Hend].
  exists s2. split; [exact Hrun|]. split; [exact Hn|]. intros H. exact (proj1 (Hend H)).
Defined.
