(* ===== verification/SocketWriter.v ===== *)
(** * The writer of a socket (server/streaming/socket.go)

    [writer] takes messages from the channel and writes them to the websocket,
    each with a deadline, until a write fails or the stop channel is closed;
    its deferred call sets a read deadline, which makes the reader end as well.
    [SocketLifecycle] has its steps among those of the other goroutines:
    [writer_refines] shows that every run of the code here is a path of them. *)

From S2P Require Import Prelude Logger Telemetry Streaming SocketLifecycle.
Local Open Scope string_scope.
Local Open Scope Z_scope.

(** In nanoseconds. *)
Definition ReadWriteExitDeadline : Z := 50 * 10 ^ 6.
Definition WriteLoopDeadline : Z := 10 * 10 ^ 9.

(** The calls on the websocket. *)
Inductive ws_call :=
| SetWriteDeadline (t : Z)
| WriteMessage (msgType : Z) (msg : bytes)
| SetReadDeadline (t : Z).

Abbreviation wstate := (sstate * list ws_call)%type.

Definition on_manager {A} (m : go sstate A) : go wstate A := fun '(s, calls) =>
  let '(r, s') := m s in (r, (s', calls)).

Definition ws (c : ws_call) : go wstate () := modify (fun '(s, calls) => (s, calls ++ [c])%list).

(** [writeMessage]: [write] is the answer of [WriteMessage]; that of
    [SetWriteDeadline] is ignored. *)
Definition writeMessage (write : option GoError) (now msgType : Z) (msg : bytes)
  : go wstate (option GoError) :=
  ws (SetWriteDeadline (now + WriteLoopDeadline));;
  ws (WriteMessage msgType msg);;
  mret write.

(** What [select] takes in a round: the closed stop channel, or a message, with
    the clock and the answer of the write. *)
Inductive round :=
| StopRound
| WriteRound (now : Z) (write : option GoError).

(** [msg := <-sm.writeChan]; [None]: there is none, and the goroutine waits. *)
Definition receive : go wstate (option SocketMessage) := fun '((sm, t), calls) =>
  match ListenToWriteChannel sm with
  | Some (msg, sm') => (Ret (Some msg), ((sm', t), calls))
  | None => (Ret None, ((sm, t), calls))
  end.

(** The loop: whether it returned, or waits after the rounds. *)
Fixpoint writer_loop (rounds : list round) : go wstate bool :=
  match rounds with
  | [] => mret false
  | StopRound :: _ =>
      sm ← on_manager self;
      on_manager (log (Log (sm_logger sm) DEBUG "return_stop_chan" ∅));;
      mret true
  | WriteRound now write :: rounds =>
      msg ← receive;
      match msg with
      | None => mret false
      | Some msg =>
          err ← writeMessage write now (smsg_MsgType msg) (smsg_Msg msg);
          match err with
          | None => writer_loop rounds
          | Some err =>
              on_manager (emit [EInc (socketErrorCount metricsRegistry) ∅]);;
              sm ← on_manager self;
              on_manager (log (ErrorLog (sm_logger sm) "socket_err" (Some err) (list_to_map
                [("txid", AString (smsg_Txid msg));
                 ("device_id", AString (ri_DeviceID (requestIdentity sm)))])));;
              mret true
          end
      end
  end.

(** The deferred function. *)
Definition writer_done (now : Z) : go wstate () :=
  sm ← on_manager self;
  on_manager (log (Log (sm_logger sm) DEBUG "writer_done" ∅));;
  ws (SetReadDeadline (now + ReadWriteExitDeadline)).

(** [writer]: the deferred function runs when the loop returns or panics; [now]
    is its reading of the clock. *)
Definition writer (rounds : list round) (now : Z) : go wstate bool := fun s =>
  match writer_loop rounds s with
  | (Ret false, s') => (Ret false, s')
  | (Ret true, s') => (writer_done now;; mret true) s'
  | (Panic why, s') => (writer_done now;; lift (Panic why)) s'
  end.

(** ** Specification *)

(** The writes of a run on a queue: each with its message, the clock and the
    answer; none follows a failed one. *)
Fixpoint attempts (rounds : list round) (q : list SocketMessage)
  : list (SocketMessage * Z * option GoError) :=
  match rounds, q with
  | WriteRound now write :: rounds, m :: q =>
      (m, now, write) :: match write with None => attempts rounds q | Some _ => [] end
  | _, _ => []
  end.

(** Whether the writer returned: a write failed or the stop channel was taken. *)
Fixpoint returned (rounds : list round) (q : list SocketMessage) : bool :=
  match rounds, q with
  | StopRound :: _, _ => true
  | WriteRound _ None :: rounds, _ :: q => returned rounds q
  | WriteRound _ (Some _) :: _, _ :: _ => true
  | _, _ => false
  end.

Definition succeeded (l : list (SocketMessage * Z * option GoError)) : list SocketMessage :=
  omap (fun '(m, _, write) => match write with None => Some m | Some _ => None end) l.
Definition failed (l : list (SocketMessage * Z * option GoError)) : list SocketMessage :=
  omap (fun '(m, _, write) => match write with None => None | Some _ => Some m end) l.

(** Every write has its deadline. *)
Definition write_calls (l : list (SocketMessage * Z * option GoError)) : list ws_call :=
  '(m, now, _) ← l;
  [SetWriteDeadline (now + WriteLoopDeadline); WriteMessage (smsg_MsgType m) (smsg_Msg m)].

(** The metric updates of a trace. *)
Definition updates (t : trace) : trace :=
  List.filter (fun e => match e with EInc _ _ | EAdd _ _ _ => true | _ => false end) t.

(** ** Lemmas *)

#[local] Transparent Streaming.log Streaming.emit Streaming.self lift.

Lemma updates_app t1 t2 : updates (t1 ++ t2)%list = (updates t1 ++ updates t2)%list.
Proof. apply List.filter_app. Qed.

Lemma updates_log lines : updates (ELog <$> lines) = [].
Proof. by induction lines. Qed.

(** Steps on the manager that log leave it as it is. *)
Lemma log_run l logType message info sm t :
  exists lines, log (Log (Some l) logType message info) (sm, t) = (Ret (), (sm, (t ++ (ELog <$> lines))%list)).
Proof. by eexists. Qed.

Lemma error_log_run l message err info sm t :
  exists lines, log (ErrorLog (Some l) message err info) (sm, t) = (Ret (), (sm, (t ++ (ELog <$> lines))%list)).
Proof. by eexists. Qed.

Lemma writeMessage_run write now msgType msg s calls :
  writeMessage write now msgType msg (s, calls) =
  (Ret write, (s, (calls ++ [SetWriteDeadline (now + WriteLoopDeadline); WriteMessage msgType msg])%list)).
Proof. unfold writeMessage, mbind, go_bind. cbn. by rewrite <- app_assoc. Qed.

Lemma writer_loop_runs capacity l rounds : forall sm t calls s,
  sm_logger sm = Some l -> SocketLifecycle.writer s = Running -> queue s = writeChan sm ->
  (In StopRound rounds -> stopped s = true) ->
  exists s' sm' t',
    writer_loop rounds ((sm, t), calls) =
      (Ret (returned rounds (queue s)),
       ((sm', (t ++ t')%list), (calls ++ write_calls (attempts rounds (queue s)))%list)) /\
    rtc (step capacity) s s' /\ sm_logger sm' = Some l /\ queue s' = writeChan sm' /\
    SocketLifecycle.writer s' = (if returned rounds (queue s) then Exited else Running) /\
    written s' = (written s ++ succeeded (attempts rounds (queue s)))%list /\
    dropped s' = (dropped s ++ failed (attempts rounds (queue s)))%list /\
    updates t' = (fun _ => EInc "socket_err_total" ∅) <$> failed (attempts rounds (queue s)).
Proof.
  induction rounds as [|[|now [err|]] rounds IH]; intros sm t calls s Hl Hw Hq Hstop.
  - exists s, sm, []. rewrite !app_nil_r. split_and!; done || apply rtc_refl.
  - destruct (log_run l DEBUG "return_stop_chan" ∅ sm t) as [lines E].
    exists (mkSocket (reader s) (acker s) Exited (queue s) (stopped s) (registered s)
      (accepted_sends s) (written s) (dropped s)), sm, (ELog <$> lines).
    cbn [attempts returned write_calls succeeded failed]. rewrite !app_nil_r.
    split_and!; try done; [|by apply rtc_once, writer_stops; [|apply Hstop; left]|apply updates_log].
    cbn [writer_loop]. unfold mbind, go_bind. cbn. by rewrite Hl, E.
  - destruct (writeChan sm) as [|m q] eqn:Ec; rewrite Hq.
    { exists s, sm, []. cbn [writer_loop]. unfold mbind, go_bind, receive, ListenToWriteChannel. rewrite Ec.
      cbn. rewrite !app_nil_r. split_and!; try done. }
    destruct (error_log_run l "socket_err" (Some err)
      (<["txid" := AString (smsg_Txid m)]> (<["device_id" := AString (ri_DeviceID (requestIdentity sm))]> ∅))
      (set_writeChan q sm) (t ++ [EInc "socket_err_total" ∅])%list) as [lines E].
    exists (mkSocket (reader s) (acker s) Exited q (stopped s) (registered s)
      (accepted_sends s) (written s) (dropped s ++ [m])), (set_writeChan q sm),
      ([EInc "socket_err_total" ∅] ++ (ELog <$> lines))%list.
    split_and!; try done.
    + cbn [writer_loop]. unfold mbind, go_bind, receive, ListenToWriteChannel. rewrite Ec. cbn.
      rewrite writeMessage_run. cbn. rewrite Hl. rewrite E. cbn. by rewrite <- !app_assoc.
    + apply rtc_once. by apply writer_fails.
    + cbn. by rewrite app_nil_r.
    + rewrite updates_app, updates_log. done.
  - destruct (writeChan sm) as [|m q] eqn:Ec; rewrite Hq.
    { exists s, sm, []. cbn [writer_loop]. unfold mbind, go_bind, receive, ListenToWriteChannel. rewrite Ec.
      cbn. rewrite !app_nil_r. split_and!; try done. }
    set (s1 := mkSocket (reader s) (acker s) Running q (stopped s) (registered s)
      (accepted_sends s) (written s ++ [m]) (dropped s)).
    destruct (IH (set_writeChan q sm) t (calls ++ write_calls [(m, now, None)])%list s1)
      as (s' & sm' & t' & E & Hr & Hl' & Hq' & Hw' & Hwr & Hd & Hu); try done.
    { intros Hin. apply Hstop. by right. }
    exists s', sm', t'. cbn [attempts returned]. change (queue s1) with q in *. split_and!; try done.
    + cbn [writer_loop]. unfold mbind, go_bind, receive, ListenToWriteChannel. rewrite Ec. cbn.
      rewrite writeMessage_run. cbn in E. rewrite E. by rewrite <- app_assoc.
    + eapply rtc_l; [by apply (writer_writes capacity s m q)|exact Hr].
    + rewrite Hwr. cbn. by rewrite <- app_assoc.
Qed.

(** ** Property *)

(** C12: the writer refines its steps among the goroutines of the socket: from
    a state of [SocketLifecycle] with its queue, every run of it does not panic
    and is a path of steps that leaves the queue of the manager.  The messages
    of the queue are written in order, each after a deadline of ten seconds is
    set for it, up to the first failed write, which is counted and drops its
    message; the writer then exits, as it does on the closed stop channel, and
    sets the reader a deadline of 50 milliseconds. *)
Theorem writer_refines capacity l rounds now sm t calls s :
  sm_logger sm = Some l -> SocketLifecycle.writer s = Running -> queue s = writeChan sm ->
  (In StopRound rounds -> stopped s = true) ->
  let tried := attempts rounds (queue s) in
  let ended := returned rounds (queue s) in
  exists s' sm' t',
    writer rounds now ((sm, t), calls) =
      (Ret ended, ((sm', (t ++ t')%list),
        (calls ++ write_calls tried ++
         if ended then [SetReadDeadline (now + ReadWriteExitDeadline)] else [])%list)) /\
    rtc (step capacity) s s' /\ queue s' = writeChan sm' /\
    SocketLifecycle.writer s' = (if ended then Exited else Running) /\
    written s' = (written s ++ succeeded tried)%list /\
    dropped s' = (dropped s ++ failed tried)%list /\
    updates t' = (fun _ => EInc "socket_err_total" ∅) <$> failed tried.
Proof.
  intros Hl Hw Hq Hstop tried ended.
  destruct (writer_loop_runs capacity l rounds sm t calls s Hl Hw Hq Hstop)
    as (s' & sm' & t' & E & Hr & Hl' & Hq' & Hw' & Hwr & Hd & Hu).
  fold tried ended in E, Hw', Hwr, Hd, Hu. unfold writer. rewrite E.
  destruct ended; [|exists s', sm', t'; rewrite app_nil_r; by split_and!].
  destruct (log_run l DEBUG "writer_done" ∅ sm' (t ++ t')%list) as [lines El].
  exists s', sm', (t' ++ (ELog <$> lines))%list. split_and!; try done.
  - unfold writer_done, mbind, go_bind. cbn. rewrite Hl', El. cbn. by rewrite <- !app_assoc.
  - rewrite updates_app, updates_log, app_nil_r. exact Hu.
Qed.

(** Two queued messages; the second write fails, and a third round is not run. *)
Definition writer_socket : SocketManager :=
  set_writeChan [some_message; mkSocketMessage 2 "tx-2" []] sample_socket.

Lemma writer_refines_witness :
  let s := mkSocket Idle Idle Running (writeChan writer_socket) false true (writeChan writer_socket) [] [] in
  exists s' sm' t',
    writer [WriteRound 5 None; WriteRound 6 (Some (ErrorString "timeout")); WriteRound 7 None] 8
      ((writer_socket, []), []) =
      (Ret true, ((sm', t'),
        [SetWriteDeadline 10000000005; WriteMessage 2 []; SetWriteDeadline 10000000006; WriteMessage 2 [];
         SetReadDeadline 50000008])) /\
    rtc (step writeChan_capacity) s s' /\ written s' = [some_message] /\
    updates t' = [EInc "socket_err_total" ∅].
Proof.
  intros s.
  destruct (writer_refines writeChan_capacity (mkLogger ∅ "")
    [WriteRound 5 None; WriteRound 6 (Some (ErrorString "timeout")); WriteRound 7 None] 8 writer_socket [] [] s)
    as (s' & sm' & t' & E & Hr & _ & _ & Hw & _ & Hu); [reflexivity|reflexivity|reflexivity| |].
  { intros [|[|[|[]]]]; discriminate. }
  exists s', sm', t'. split; [exact E|]. split; [exact Hr|]. split; [exact Hw|exact Hu].
Defined.
