(* ===== verification/Delivery.v ===== *)
(** * From a record to its acknowledgement

    A dispatched record goes to every producer of its rule; the one that is
    the reliable-acknowledgement source of its type hands it to the server's
    acknowledgement loop when its datastore has taken it.  This file composes
    the producers, through their interface, with the configuration and the
    server.  The delivery report of a Kafka message is handled in its place in
    the rule; the acknowledgements of a record do not depend on when it comes. *)

From S2P Require Import Prelude GoStd GoTime ProtoEnums Protos ProtoRef.
From S2P Require Import Flatbuffers FbRef Messages Logger Telemetry SimpleLogger.
From S2P Require Import Datastores Config Streaming Server.
Local Open Scope Z_scope.

(** ** The simple logger behind the interface

    It stores nothing: its sink has no reliable-acknowledgement types. *)

Section Logger.
Context {PE : ProtoEnums} {PC : ProtoCodec}.

#[export] Instance logger_producer : AckingProducer ProtoLogger := {|
  ap_sink p := mkSink EmptyString (pl_logger p) (Airbrake.mkHandler false) ∅;
  ap_ready p r := is_Some (pl_logger p) /\
    match protoMessage r with
    | Some (MPayload m) => is_Some (Verbose p) /\ Forall (renderable (Vin r)) (Payload_Data m)
    | _ => True
    end;
  ap_run p _ := fun '(r, h) =>
    let '(o, t) := ProtoLogger_Produce p r [] in (o, (r, h ++ (Did <$> t)));
  ap_stored _ _ _ _ := false
|}.

Lemma acked_events t : acked (Did <$> t) = [].
Proof. by induction t. Qed.

Lemma recordToLogMap_returns p l r :
  pl_logger p = Some l -> ap_ready p r ->
  exists data t, recordToLogMap p r (Vin r) [] = (Ret data, t).
Proof.
  intros Hl [_ Hready]. unfold recordToLogMap.
  destruct (protoMessage r) as [[m|m|m|m]|]; try (by do 2 eexists).
  destruct Hready as [[verbose ->] Hall]. unfold mbind, go_bind, PayloadToMap. rewrite Hl.
  set (m0 := list_to_map _).
  destruct (PayloadToMap_loop_app (Payload_Vin m) verbose (Vin r) l (Payload_Data m) [] m0 [] Hall)
    as (lines & E & _). rewrite app_nil_r in E. rewrite E. by do 2 eexists.
Qed.

#[export] Instance logger_contract : AckingProducerSpec ProtoLogger.
Proof.
  intros p clock r h Hready. destruct Hready as [[l Hl] Hm] eqn:E. clear E.
  destruct (recordToLogMap_returns p l r Hl) as (data & t & E); [by split; [exists l|]|].
  assert (Hrun : exists t, ProtoLogger_Produce p r [] = (Ret (), t)).
  { unfold ProtoLogger_Produce, mbind, go_bind. rewrite E, Hl.
    unfold log_to_trace, ErrorLog, ActivityLog, log_unless_suppressed. destruct data; by eexists. }
  destruct Hrun as (t' & Hrun). cbn. rewrite Hrun.
  exists r, (Did <$> t'). split; [done|]. split; [by left|]. by rewrite acked_events.
Qed.
End Logger.

(** ** A dispatched record *)

(** A producer of some kind, with its readings of the clock. *)
Record AnyProducer := mkAnyProducer {
  any_type : Type;
  any_producer : AckingProducer any_type;
  any_contract : AckingProducerSpec any_type;
  any_p : any_type;
  any_clock : nat -> Z
}.
#[export] Existing Instances any_producer any_contract.

Definition any_sink (a : AnyProducer) : Sink := ap_sink (any_p a).
Definition any_ready (a : AnyProducer) (r : TRecord) : Prop := ap_ready (any_p a) r.
Definition any_run (a : AnyProducer) : go pstate () := ap_run (any_p a) (any_clock a).
Definition any_stored (a : AnyProducer) (s : pstate) : bool :=
  ap_stored (any_p a) (any_clock a) s.1 (requests s.2).

(** [Dispatch] on the producers of a rule, each with its dispatcher. *)
Abbreviation rule := (list (Dispatcher * AnyProducer)).

Definition produce_all (ps : rule) : go pstate () := for_range (fun e => any_run e.2) ps.

(** Which of them stored the record, in order. *)
Fixpoint stored_by (ps : rule) (s : pstate) : list (Dispatcher * bool) :=
  match ps with
  | [] => []
  | (d, a) :: ps => (d, any_stored a s) :: stored_by ps (any_run a s).2
  end.

(** The producers were made with the acknowledgement sources of the
    configuration. *)
Definition configured_with (acks : ack_sources) (ps : rule) : Prop :=
  Forall (fun e => reliableAckTxTypes (any_sink e.2) = default ∅ (acks !! e.1)) ps.

Definition ready_for (r : TRecord) (ps : rule) : Prop :=
  Forall (fun e => forall r', same_record r r' -> any_ready e.2 r') ps.

(** The datastores that stored the record and acknowledge its type. *)
Definition acknowledging (source : option Dispatcher) (l : list (Dispatcher * bool))
  : list (Dispatcher * bool) :=
  List.filter (fun e => e.2 && bool_decide (source = Some e.1)) l.

(** ** Lemmas *)

Lemma same_record_trans r1 r2 r3 : same_record r1 r2 -> same_record r2 r3 -> same_record r1 r3.
Proof. unfold same_record. intros [->|[v ->]] [->|[v' ->]]; eauto. Qed.

Lemma same_record_TxType r r' : same_record r r' -> TxType r' = TxType r.
Proof. by intros [->|[v ->]]. Qed.

(** All the producers run, and those that stored a record they are the source
    of acknowledge it. *)
Lemma produce_all_run acks source ps r r0 h :
  (forall d, TxType r0 ∈ (default ∅ (acks !! d) : gset string) <-> source = Some d) ->
  configured_with acks ps -> ready_for r0 ps -> same_record r0 r ->
  exists r' t, produce_all ps (r, h) = (Ret (), (r', h ++ t)) /\ same_record r0 r' /\
    Forall (same_record r0) (acked t) /\
    length (acked t) = length (acknowledging source (stored_by ps (r, h))).
Proof.
  intros Hsource Hconf Hready. revert r h.
  induction ps as [|[d a] ps IH]; intros r h Hr.
  { exists r, []. rewrite app_nil_r. split_and!; try done; constructor. }
  apply Forall_cons in Hconf as [Hd Hconf], Hready as [Ha Hready]. cbn in Hd, Ha.
  destruct (ap_contract (any_p a) (any_clock a) r h (Ha r Hr)) as (r1 & t1 & E1 & Hs1 & Hk1).
  pose proof (same_record_trans _ _ _ Hr Hs1) as Hr1.
  destruct (IH Hconf Hready r1 (h ++ t1) Hr1) as (r2 & t2 & E2 & Hs2 & Hk2 & Hn2).
  exists r2, (t1 ++ t2). unfold produce_all in *. cbn [for_range stored_by].
  unfold any_run in *. unfold mbind, go_bind. cbn [snd]. rewrite E1, E2, app_assoc.
  split; [done|]. split; [done|]. rewrite acked_app.
  assert (Hacked : acked t1 = if any_stored a (r, h) && bool_decide (source = Some d)
                              then [r1] else []).
  { rewrite Hk1. unfold any_sink in Hd. rewrite Hd. unfold any_stored. cbn.
    rewrite (same_record_TxType _ _ Hr). by rewrite (bool_decide_ext _ _ (Hsource d)). }
  rewrite Hacked. unfold acknowledging in *. cbn.
  destruct (any_stored a (r, h) && _); cbn; [|done].
  split; [by constructor|]. by rewrite Hn2.
Qed.

(** Handling the acknowledgements of one record, all of whose copies differ in
    the time of production only. *)
Lemma handleAcks_run {FB : FlatbuffersLib} {FS : FlatbuffersSpec FB} s r bs p l records w sm :
  Serializer r = Some bs -> response_fits r bad_format ->
  GetSocket (SocketID r) (registry w) = Some p -> heap w !! p = Some sm -> sm_logger sm = Some l ->
  Forall (same_record r) records ->
  exists w' sm', handleAcks s records w = (Ret (), w') /\ registry w' = registry w /\
    heap w' = <[p := sm']> (heap w) /\ same_socket sm sm' /\
    writeChan sm' = writeChan sm ++ replicate (length records) (ack_answer sm r).
Proof.
  intros Hs Hfit Hp Hsm Hl Hall. revert w sm Hp Hsm Hl.
  induction Hall as [|r1 records Hr1 _ IH]; intros w sm Hp Hsm Hl.
  { exists w, sm. rewrite app_nil_r. split_and!; try done. by rewrite insert_id. }
  cbn [handleAcks for_range]. unfold handleAcks in *. cbn [for_range].
  assert (Hfields : Serializer r1 = Some bs /\ SocketID r1 = SocketID r /\
    ack_answer sm r1 = ack_answer sm r /\ response_fits r1 bad_format).
  { destruct Hr1 as [->|[v ->]]; done. }
  destruct Hfields as (Hs1 & Hid & Hans & Hfit1).
  unfold mbind at 1, go_bind at 1. unfold handle_ack at 1. rewrite Hs1.
  unfold mbind, go_bind, get, emitW, modify. cbn. rewrite Hid, Hp. cbn.
  match goal with |- context [on_socket p _ ?w1] =>
    destruct (on_socket_ack w1 r1 p sm l Hsm Hl Hfit1) as (w2 & sm2 & E2 & Hr2 & Hh2 & Hss2 & Hw2) end.
  rewrite E2.
  assert (Hsame : forall r', ack_answer sm2 r' = ack_answer sm r').
  { intros r'. unfold ack_answer. by apply answer_same. }
  destruct (IH w2 sm2) as (w3 & sm3 & E3 & Hr3 & Hh3 & Hss3 & Hw3).
  { by rewrite Hr2. } { by rewrite Hh2, lookup_insert_eq. }
  { unfold same_socket in Hss2. destruct_and!. congruence. }
  exists w3, sm3. rewrite E3. split; [done|]. split; [by rewrite Hr3, Hr2|].
  split; [by rewrite Hh3, Hh2, insert_insert_eq|].
  split; [by transitivity sm2|]. rewrite Hw3, Hw2, Hans, Hsame, <- app_assoc. done.
Qed.

Lemma stored_by_dispatchers ps s : (stored_by ps s).*1 = ps.*1.
Proof. revert s. induction ps as [|[d a] ps IH]; intros s; cbn; [done|by rewrite IH]. Qed.

(** In a rule without repetition at most one datastore acknowledges. *)
Lemma acknowledging_once d l :
  NoDup l.*1 ->
  length (acknowledging (Some d) l) = if bool_decide ((d, true) ∈ l) then 1%nat else 0%nat.
Proof.
  unfold acknowledging. induction l as [|[d' b] l IH]; [done|].
  cbn. intros [Hd Hnd]%NoDup_cons. specialize (IH Hnd).
  destruct b; cbn.
  - destruct (decide (d = d')) as [<-|Hne].
    + rewrite !bool_decide_true by (done || left). cbn. rewrite IH, bool_decide_false; [done|].
      intros Hin. apply Hd. apply list_elem_of_fmap. by exists (d, true).
    + rewrite (bool_decide_false (Some d = Some d')) by congruence. rewrite IH.
      by rewrite (bool_decide_ext ((d, true) ∈ (d', true) :: l) ((d, true) ∈ l))
        by (rewrite elem_of_cons; naive_solver).
  - rewrite IH. by rewrite (bool_decide_ext ((d, true) ∈ (d', false) :: l) ((d, true) ∈ l))
      by (rewrite elem_of_cons; naive_solver).
Qed.

Lemma acknowledging_none l : acknowledging None l = [].
Proof. unfold acknowledging. induction l as [|[d b] l IH]; [done|]. cbn. by rewrite andb_false_r. Qed.

(** A record accepted from a connected vehicle is acknowledged to it at
    most once, and by the right party.  Without a reliable-acknowledgement
    source for its type the read loop acknowledges it and no datastore does;
    with one, the read loop does not, and after its rule's producers have run
    and the server has handled their acknowledgements, exactly one answer has
    been added to the queue of the socket it came from if that datastore took
    the record, and none if it did not.  This holds for all producers that keep
    the promise of [AckingProducer], whatever their clients answer. *)
Theorem vehicle_acknowledged_once {FB : FlatbuffersLib} {FS : FlatbuffersSpec FB}
    c entries acks ps r s w sm p l bs :
  entries ≡ₚ map_to_list (ReliableAckSources c) ->
  configureReliableAckSources c entries = Ok acks ->
  configured_with acks ps -> NoDup ps.*1 -> ready_for r ps ->
  sm_config sm = c -> sm_logger sm = Some l -> Serializer r = Some bs ->
  response_fits r bad_format ->
  GetSocket (SocketID r) (registry w) = Some p -> heap w !! p = Some sm ->
  exists r' t w' sm',
    produce_all ps (r, []) = (Ret (), (r', t)) /\
    handleAcks s (acked t) w = (Ret (), w') /\
    registry w' = registry w /\ heap w' = <[p := sm']> (heap w) /\
    match ReliableAckSources c !! TxType r with
    | None => answers sm r None = [ack_answer sm r] /\ writeChan sm' = writeChan sm
    | Some d =>
        answers sm r None = [] /\
        writeChan sm' = writeChan sm ++
          (if bool_decide ((d, true) ∈ stored_by ps (r, [])) then [ack_answer sm r] else [])
    end.
Proof.
  intros Hperm Hacks Hconf Hnd Hready Hc Hl Hs Hfit Hp Hsm.
  destruct (produce_all_run acks (ReliableAckSources c !! TxType r) ps r r [])
    as (r' & t & E & _ & Hall & Hn); [|done|done|by left|].
  { intros d. by apply (ack_sources_inverse c entries). }
  destruct (handleAcks_run s r bs p l (acked t) w sm)
    as (w' & sm' & Hw & Hr & Hh & _ & Hq); [done..|].
  exists r', t, w', sm'. split; [done|]. split; [done|]. split; [done|]. split; [done|].
  unfold answers, instant_ack, reliableAck. rewrite Hc.
  destruct (ReliableAckSources c !! TxType r) as [d|]; (split; [done|]); rewrite Hq, Hn.
  - rewrite acknowledging_once by (by rewrite stored_by_dispatchers). by case_bool_decide.
  - by rewrite acknowledging_none, app_nil_r.
Qed.

(** ** A concrete rule: Kafka, which takes every message, and the logger *)

Definition sample_sink : Sink :=
  mkSink "ns" (Some (mkLogger ∅ EmptyString)) (Airbrake.mkHandler true) {["V"]}%string.

Definition sample_kafka : AnyProducer :=
  mkAnyProducer _ kafka_producer kafka_contract
    (Kafka.mkProducer sample_sink (fun _ _ => None) (fun _ _ => None) (fun _ => EmptyString),
     fun r => map_to_list (Metadata r)) (fun _ => 0).

Definition sample_logger : AnyProducer :=
  mkAnyProducer _ (logger_producer (PE := EnumsRef) (PC := ProtoRef)) logger_contract
    (NewProtoLogger (Some true) (Some (mkLogger ∅ EmptyString))) (fun _ => 0).

Definition sample_rule : rule := [(Kafka_, sample_kafka); (Logger_, sample_logger)].

Definition reliable_socket : SocketManager :=
  mkSocketManager 2 ∅ 0 "socket" sample_config (Some (mkLogger ∅ EmptyString)) sample_identity ∅ []
    false ∅.

Definition reliable_world : World :=
  mkWorld {[0%nat := reliable_socket]} (RegisterSocket "socket" 0%nat NewSocketRegistry) [].

Lemma vehicle_acknowledged_once_witness :
  exists r' t w' sm',
    produce_all sample_rule (sample_record, []) = (Ret (), (r', t)) /\
    handleAcks (FB := FbRef) sample_server (acked t) reliable_world = (Ret (), w') /\
    heap w' = <[0%nat := sm']> (heap reliable_world) /\
    writeChan sm' = [ack_answer (FB := FbRef) reliable_socket sample_record].
Proof.
  assert (Hfit : response_fits sample_record bad_format)
    by (unfold response_fits, ack_fits, message_fits; vm_compute; repeat split; discriminate).
  assert (Hok : is_ok (configureReliableAckSources sample_config [("V"%string, Kafka_)]) = true)
    by (vm_compute; reflexivity).
  destruct (configureReliableAckSources sample_config [("V"%string, Kafka_)]) as [acks|e] eqn:E;
    [clear Hok|discriminate].
  assert (Hperm : [("V"%string, Kafka_)] ≡ₚ map_to_list (ReliableAckSources sample_config))
    by reflexivity.
  assert (Hsrc : ReliableAckSources sample_config !! TxType sample_record = Some Kafka_)
    by (vm_compute; reflexivity).
  assert (Hconf : configured_with acks sample_rule).
  { assert (Ea : configureReliableAckSources sample_config [("V"%string, Kafka_)] =
      Ok {[Kafka_ := {["V"%string]}]}) by (vm_compute; reflexivity).
    rewrite Ea in E. injection E as <-. repeat constructor; vm_compute; reflexivity. }
  assert (Hnd : NoDup sample_rule.*1) by (apply (bool_decide_unpack _); vm_compute; exact I).
  assert (Hready : ready_for sample_record sample_rule).
  { unfold ready_for, sample_rule. rewrite !Forall_cons, Forall_nil. split_and!; try exact I.
    - intros r' _. by eexists.
    - intros r' Hr'. split; [by eexists|]. by destruct Hr' as [->|[v ->]]. }
  destruct (vehicle_acknowledged_once (FB := FbRef) sample_config _ acks sample_rule sample_record
    sample_server reliable_world reliable_socket 0%nat (mkLogger ∅ EmptyString) sample_serializer
    Hperm E Hconf Hnd Hready eq_refl eq_refl eq_refl Hfit
    ltac:(vm_compute; reflexivity) ltac:(vm_compute; reflexivity))
    as (r' & t & w' & sm' & Hrun & Hw & _ & Hh & Hm).
  rewrite Hsrc in Hm. destruct Hm as [_ Hq].
  exists r', t, w', sm'. split; [exact Hrun|]. split; [exact Hw|]. split; [exact Hh|].
  rewrite Hq. assert (Hstored : bool_decide ((Kafka_, true) ∈ stored_by sample_rule (sample_record, [])) = true)
    by (vm_compute; reflexivity).
  rewrite Hstored. reflexivity.
Defined.
