(* ===== verification/MetricUpdates.v ===== *)
(** * The updates of metrics

    A metric is registered with a kind and the names of its labels; Prometheus
    panics on an update with other labels, and on one that decreases a counter.
    Every update a producer or a socket makes, in all branches and also before
    a panic, is one the metric it names was registered for. *)

From S2P Require Import Prelude GoStd ProtoEnums Protos Flatbuffers FbRef Logger GoJson.
From S2P Require Import ProtoRef Telemetry Metrics Config Streaming Server Datastores Mqtt.
Local Open Scope string_scope.
Local Open Scope Z_scope.

(** ** Computations that only append to an output *)

Section Emits.
Context {S E : Type} (out : S -> list E) (ok : E -> Prop).

(** Whatever the state, the computation appends to the output, and only
    elements that are [ok]. *)
Definition only_emits {A} (c : go S A) : Prop :=
  forall s, exists t, out (c s).2 = (out s ++ t)%list /\ Forall ok t.

Lemma emits_ret {A} (a : A) : only_emits (mret a).
Proof. intros s. exists []. by rewrite app_nil_r. Qed.

Lemma emits_lift {A} (o : outcome A) : only_emits (lift o).
Proof. intros s. exists []. by rewrite app_nil_r. Qed.

Lemma emits_get : only_emits get.
Proof. intros s. exists []. by rewrite app_nil_r. Qed.

Lemma emits_bind {A B} (c : go S A) (f : A -> go S B) :
  only_emits c -> (forall a, (exists s, (c s).1 = Ret a) -> only_emits (f a)) -> only_emits (c ≫= f).
Proof.
  intros Hc Hf s. destruct (Hc s) as (t & Ht & Hok). unfold mbind, go_bind.
  destruct (c s) as [[a|w] s'] eqn:Hrun; cbn in Ht; [|by exists t].
  destruct (Hf a ltac:(by exists s; rewrite Hrun) s') as (t' & Ht' & Hok').
  exists (t ++ t')%list. rewrite Ht', Ht, app_assoc. split; [done|]. by apply Forall_app.
Qed.

Lemma emits_modify (f : S -> S) t :
  (forall s, out (f s) = (out s ++ t)%list) -> Forall ok t -> only_emits (modify f).
Proof. intros Hf Ht s. exists t. split; [apply Hf|done]. Qed.

Lemma emits_silent (f : S -> S) : (forall s, out (f s) = out s) -> only_emits (modify f).
Proof. intros Hf. apply (emits_modify _ []); [|constructor]. intros s. by rewrite Hf, app_nil_r. Qed.

Lemma emits_log_to_trace (f : trace -> S -> S) o :
  (forall lines s, exists t, out (f (ELog <$> lines) s) = (out s ++ t)%list /\ Forall ok t) ->
  only_emits (log_to_trace f o).
Proof.
  intros Hf. apply emits_bind; [apply emits_lift|]. intros lines _ s. apply Hf.
Qed.
End Emits.

Create HintDb emits.
#[export] Hint Resolve emits_ret emits_lift emits_get : emits.
#[export] Hint Extern 1 (only_emits _ _ skip) => apply emits_ret : emits.

(** Follow the steps of a computation into all its branches. *)
Ltac emits_step :=
  match goal with
  | |- only_emits _ _ (mbind _ _) => apply emits_bind; [|let a := fresh "a" in let Ha := fresh "Ha" in intros a Ha]
  | |- only_emits _ _ (if ?b then _ else _) => destruct b eqn:?
  | |- only_emits _ _ (match ?x with _ => _ end) => destruct x eqn:?
  | |- only_emits _ _ (let '(_, _) := ?x in _) => destruct x eqn:?
  | |- _ => solve [auto with emits]
  end.
Ltac emits := repeat emits_step.

(** ** What an update must satisfy *)

(** Some metric of the package has the name, allows the operation, and has
    exactly the labels. *)
Definition accepted (k : package) (name : string) (op : Operation) (l : label_map) : Prop :=
  exists m, m ∈ metrics_of k /\ Name m.2 = name /\ allowed m.1 op = true /\
    dom l = list_to_set (Labels m.2).

(** The updates among the events and effects. *)
Definition event_accepted (k : package) (e : Event) : Prop :=
  match e with
  | EInc name l => accepted k name OpInc l
  | EAdd name n l => accepted k name (OpAdd n) l
  | ELog _ | ENotice _ | EProduce _ _ => True
  end.

Definition effect_accepted (k : package) (e : Effect) : Prop :=
  match e with
  | Did e => event_accepted k e
  | Gauge name n l => accepted k name (OpSet n) l
  | Sent _ | Notice _ | Acked _ => True
  end.

(** The executable form, on the names of the labels. *)
Definition accepts (k : package) (name : string) (op : Operation) (label_names : list string) : bool :=
  existsb (fun m => String.eqb (Name m.2) name && allowed m.1 op &&
                    bool_decide (list_to_set label_names =@{gset string} list_to_set (Labels m.2)))
    (metrics_of k).

Lemma accepts_accepted k name op (l : list (string * string)) :
  accepts k name op l.*1 = true -> accepted k name op (list_to_map l).
Proof.
  intros (m & Hm & H)%existsb_exists. apply andb_true_iff in H as [[Hn Ho]%andb_true_iff Hl].
  apply bool_decide_eq_true in Hl. exists m. split; [by apply list_elem_of_In|].
  split; [by apply String.eqb_eq|]. split; [done|]. by rewrite dom_list_to_map_L, Hl.
Qed.

(** An accepted update succeeds, for labels in UTF-8. *)
Lemma accepted_update {PM : PrometheusClient} {PS : PrometheusClientSpec PM} k name op l :
  accepted k name op l -> map_Forall (fun _ v => utf8_ValidString v = true) l ->
  exists m, m ∈ metrics_of k /\ Name m.2 = name /\ Update m op l = Ret ().
Proof. intros (m & Hm & Hn & Ho & Hd) Hl. exists m. split_and!; [done..|]. by apply Update_labels. Qed.

(** The operations with a number, by one instance of them. *)
Lemma accepts_Inc k name l : accepts k name OpInc l.*1 = true -> accepted k name OpInc (list_to_map l).
Proof. apply accepts_accepted. Qed.

Lemma accepts_Add k name n l :
  0 <= n -> accepts k name (OpAdd 0) l.*1 = true -> accepted k name (OpAdd n) (list_to_map l).
Proof.
  intros Hn (m & Hm & Hname & Ho & Hl)%accepts_accepted. exists m. split; [done|]. split; [done|].
  split; [|done]. destruct (m.1); [by apply Z.leb_le|done..].
Qed.

Lemma accepts_Add_gauge k name n l :
  accepts k name (OpSub 0) l.*1 = true -> accepted k name (OpAdd n) (list_to_map l).
Proof.
  intros (m & Hm & Hname & Ho & Hl)%accepts_accepted. exists m. split; [done|]. split; [done|].
  split; [|done]. by destruct (m.1).
Qed.

Lemma accepts_Set k name n l :
  accepts k name (OpSet 0) l.*1 = true -> accepted k name (OpSet n) (list_to_map l).
Proof.
  intros (m & Hm & Hname & Ho & Hl)%accepts_accepted. exists m. split; [done|]. split; [done|].
  split; [|done]. by destruct (m.1).
Qed.

(** Decide an update on a literal metric. *)
Ltac accepted_update_tac :=
  first
    [ exact I
    | apply accepts_Inc; vm_compute; reflexivity
    | apply (accepts_Inc _ _ [(_, _)]); vm_compute; reflexivity
    | apply (accepts_Inc _ _ []); vm_compute; reflexivity
    | apply accepts_Add; [first [assumption|apply Nat2Z.is_nonneg]|vm_compute; reflexivity]
    | apply (accepts_Add _ _ _ [(_, _)]); [first [assumption|apply Nat2Z.is_nonneg]|vm_compute; reflexivity]
    | apply accepts_Add_gauge; vm_compute; reflexivity
    | apply (accepts_Add_gauge _ _ _ [(_, _)]); vm_compute; reflexivity
    | apply (accepts_Set _ _ _ [(_, _)]); vm_compute; reflexivity ].

Ltac accepted_updates := repeat (apply Forall_cons; split); [accepted_update_tac..|apply Forall_nil; exact I].

(** ** The producers *)

(** A producer's computation makes accepted updates only. *)
Abbreviation producer_updates k := (only_emits (S := pstate) snd (effect_accepted k)).

Lemma emits_emit k t : Forall (effect_accepted k) t -> producer_updates k (Datastores.emit t).
Proof. intros Ht. apply (emits_modify _ _ _ t); [|done]. by intros []. Qed.

Lemma emits_update_entry k f : producer_updates k (update_entry f).
Proof. apply emits_silent. by intros []. Qed.

Lemma emits_the_entry k : producer_updates k the_entry.
Proof. intros s. exists []. by rewrite app_nil_r. Qed.

Lemma emits_call {A} k (client : list Datastores.Request -> Datastores.Request -> A) q :
  producer_updates k (call client q).
Proof. intros [r h]. exists [Sent q]. split; [done|]. by repeat constructor. Qed.

Lemma emits_log_effects k o : producer_updates k (log_effects o).
Proof.
  apply emits_bind; [apply emits_lift|]. intros lines _. apply emits_emit, Forall_fmap, Forall_true.
  by intros x.
Qed.

#[export] Hint Resolve emits_update_entry emits_the_entry emits_call emits_log_effects : emits.

Lemma emits_ReportError k s message err info : producer_updates k (Datastores.ReportError s message err info).
Proof.
  apply emits_bind; [|auto with emits]. apply emits_emit. unfold Airbrake.ReportLogMessage, Airbrake.send.
  destruct (Airbrake.airbrakeNotifier _); by repeat constructor.
Qed.

Lemma emits_ProcessReliableAck k s counter entry :
  accepts k counter OpInc ["record_type"] = true ->
  producer_updates k (Datastores.ProcessReliableAck s counter entry).
Proof.
  intros Hc. unfold Datastores.ProcessReliableAck. emits. apply emits_emit.
  apply Forall_cons. split; [exact I|]. apply Forall_cons. split; [by apply accepts_Inc|constructor].
Qed.

#[export] Hint Resolve emits_ReportError : emits.
#[export] Hint Extern 2 (only_emits _ _ (Kafka.ReportError _ _ _ _)) => apply emits_ReportError : emits.
#[export] Hint Extern 2 (only_emits _ _ (Kinesis.ReportError _ _ _ _)) => apply emits_ReportError : emits.
#[export] Hint Extern 2 (only_emits _ _ (Googlepubsub.ReportError _ _ _ _)) => apply emits_ReportError : emits.
#[export] Hint Extern 2 (only_emits _ _ (Redis.ReportError _ _ _ _)) => apply emits_ReportError : emits.
#[export] Hint Extern 2 (only_emits _ _ (Zmq.ReportError _ _ _ _)) => apply emits_ReportError : emits.
#[export] Hint Extern 2 (only_emits _ _ (Datastores.ProcessReliableAck _ _ _)) =>
  apply emits_ProcessReliableAck; vm_compute; reflexivity : emits.
#[export] Hint Extern 2 (only_emits _ _ (Datastores.emit _)) => apply emits_emit; accepted_updates : emits.

Lemma kafka_logError_updates p err : producer_updates KafkaPackage (Kafka.logError p err).
Proof. unfold Kafka.logError. emits. Qed.
#[export] Hint Resolve kafka_logError_updates : emits.

Lemma kafka_Produce_updates p metadata now1 now2 :
  producer_updates KafkaPackage (Kafka.Produce p metadata now1 now2).
Proof. unfold Kafka.Produce. cbv zeta. emits. Qed.

Lemma kafka_event_updates p e : producer_updates KafkaPackage (Kafka.handleProducerEvent p e).
Proof. unfold Kafka.handleProducerEvent, Kafka.ProcessReliableAck. emits. Qed.

Lemma kafka_tick_updates total eventsCount :
  Forall (effect_accepted KafkaPackage) (Kafka.reportProducerMetrics_tick total eventsCount).
Proof. unfold Kafka.reportProducerMetrics_tick. accepted_updates. Qed.

Lemma kinesis_Produce_updates p now : producer_updates KinesisPackage (Kinesis.Produce p now).
Proof. unfold Kinesis.Produce, Kinesis.ProcessReliableAck, nil_dereference. emits. Qed.

Lemma pubsub_Produce_updates p now : producer_updates PubsubPackage (Googlepubsub.Produce p now).
Proof. unfold Googlepubsub.Produce, Googlepubsub.ProcessReliableAck. cbv zeta. emits. Qed.

Lemma pubsub_Provision_updates p txTypes :
  producer_updates PubsubPackage (Googlepubsub.ProvisionTopics p txTypes).
Proof.
  induction txTypes as [|txType txTypes IH]; cbn [Googlepubsub.ProvisionTopics]; [auto with emits|].
  cbv zeta. unfold Googlepubsub.createTopicIfNotExists. emits.
Qed.

Lemma redis_publish_all_updates p entry channels :
  producer_updates RedisPackage (Redis.publish_all p entry channels).
Proof. induction channels as [|channel channels IH]; cbn [Redis.publish_all]; emits. Qed.
#[export] Hint Resolve redis_publish_all_updates : emits.

Lemma redis_Produce_updates p now1 now2 : producer_updates RedisPackage (Redis.Produce p now1 now2).
Proof.
  unfold Redis.Produce, Redis.channelsForRecord, Redis.subscriberChannels, Redis.ProcessReliableAck.
  cbv zeta. emits.
Qed.

(** The number of bytes the ZMQ client reports is that of the message. *)
Lemma zmq_Produce_updates p :
  (forall asked q n, Zmq.sendMessage p asked q = Ok n -> 0 <= n) ->
  producer_updates ZmqPackage (Zmq.Produce p).
Proof.
  intros Hn. unfold Zmq.Produce, Zmq.ProcessReliableAck. emits.
  all: match goal with H : exists s, (call _ _ s).1 = Ret (Ok ?n) |- _ =>
    assert (0 <= n) by (destruct H as [s Hs]; injection Hs as Hs; by apply Hn in Hs) end; emits.
Qed.

Section Mqtt.
Context {PE : ProtoEnums} {PC : ProtoCodec} {PR : ProtoReflection}.
Variable range : forall A, gmap string A -> list (string * A).

Lemma mqtt_publish_each_updates p counted l :
  producer_updates MqttPackage (publish_each p counted l).
Proof.
  induction l as [|[topicName value] l IH]; cbn [publish_each]; [auto with emits|].
  unfold publish_json. emits.
  all: apply emits_emit; destruct counted; [unfold updateMetrics; accepted_updates|constructor].
Qed.

Lemma mqtt_wait_tokens_updates p rec timeout elapsed tokens :
  producer_updates MqttPackage (wait_tokens p rec timeout elapsed tokens).
Proof.
  revert elapsed. induction tokens as [|token tokens IH]; intros elapsed; cbn [wait_tokens];
    [auto with emits|]. unfold Mqtt.ReportError. cbv zeta. emits.
Qed.
#[local] Hint Resolve mqtt_publish_each_updates mqtt_wait_tokens_updates : emits.

Lemma mqtt_Produce_updates p elapsed : producer_updates MqttPackage (Mqtt.Produce range p elapsed).
Proof.
  unfold Mqtt.Produce, Mqtt.ReportError, Mqtt.ProcessReliableAck, processVehicleFields,
    processVehicleAlerts, processVehicleErrors, processVehicleConnectivity. emits.
Qed.
End Mqtt.

(** ** The sockets *)

#[local] Transparent Streaming.log Streaming.emit Streaming.send Streaming.self lift.

Abbreviation socket_updates := (only_emits (S := sstate) snd (event_accepted SocketPackage)).

Lemma logs_accepted k lines : Forall (event_accepted k) (ELog <$> lines).
Proof. by apply Forall_fmap, Forall_true. Qed.

Lemma emits_socket_emit t : Forall (event_accepted SocketPackage) t -> socket_updates (Streaming.emit t).
Proof. intros Ht. apply (emits_modify _ _ _ t); [|done]. by intros []. Qed.

Lemma emits_socket_log o : socket_updates (log o).
Proof.
  unfold log. apply emits_log_to_trace. intros lines [sm t]. exists (ELog <$> lines). split; [done|].
  apply logs_accepted.
Qed.

Lemma emits_self : socket_updates self.
Proof. intros s. exists []. by rewrite app_nil_r. Qed.

Lemma emits_send m : socket_updates (send m).
Proof. unfold send. apply emits_silent. by intros []. Qed.

#[export] Hint Resolve emits_socket_log emits_self emits_send : emits.
#[export] Hint Extern 3 (only_emits _ _ (modify _)) => apply emits_silent; by intros [] : emits.
#[export] Hint Extern 2 (only_emits _ _ (Streaming.emit _)) =>
  apply emits_socket_emit; first [assumption|accepted_updates] : emits.

(** The records of the serializer make lines only. *)
Lemma emits_log_dstate o : only_emits (S := TRecord * trace) snd (event_accepted SocketPackage) (log_dstate o).
Proof.
  unfold log_dstate. apply emits_log_to_trace. intros lines [r t]. exists (ELog <$> lines). split; [done|].
  apply logs_accepted.
Qed.

Lemma emits_update f : only_emits (S := TRecord * trace) snd (event_accepted SocketPackage) (update f).
Proof. unfold update. apply emits_silent. by intros []. Qed.
#[export] Hint Resolve emits_log_dstate emits_update : emits.

Section Sockets.
Context {FB : FlatbuffersLib} {PC : ProtoCodec} {RL : RateLimiter}.

Lemma Deserialize_body_updates bs msg now1 now2 :
  only_emits (S := TRecord * trace) snd (event_accepted SocketPackage) (Deserialize_body bs msg now1 now2).
Proof. unfold Deserialize_body, guessError, nil_dereference. emits. Qed.

Lemma NewRecord_updates ts msg socketID transmit now1 now2 :
  Forall (event_accepted SocketPackage) (NewRecord ts msg socketID transmit now1 now2).2.
Proof.
  unfold NewRecord. destruct (SizeLimit <? _); [constructor|]. unfold Deserialize.
  destruct (Deserialize_body_updates ts msg now1 now2 (new_TRecord ts (Some msg) socketID false, []))
    as (t & Ht & Hok).
  destruct (Deserialize_body _ _ _ _ _) as [[err|w] [r t']]; cbn in Ht; subst t'; cbn.
  - destruct err; [done|]. by destruct (applyRecordTransforms _).
  - done.
Qed.

Lemma Dispatch_updates r t : Dispatch r = Ret t -> Forall (event_accepted SocketPackage) t.
Proof.
  unfold Dispatch. destruct (Serializer r) as [bs|]; [|done].
  destruct (Log _ _ _ _) as [lines|]; [|done]. intros [= <-]. apply Forall_app. split.
  - apply logs_accepted.
  - by apply Forall_fmap, Forall_true.
Qed.

Lemma processRecord_updates r : socket_updates (processRecord r).
Proof.
  unfold processRecord, record_type_label. emits.
  destruct Ha as [s Hs]. change (Dispatch r = Ret a) in Hs.
  by apply emits_socket_emit, (Dispatch_updates r).
Qed.
#[local] Hint Resolve processRecord_updates : emits.

Lemma finish_record_updates r : socket_updates (finish_record r).
Proof.
  unfold finish_record, ReportMetricBytesPerRecords, respondToVehicle. emits.
Qed.
#[local] Hint Resolve finish_record_updates : emits.

Lemma respondToVehicle_updates r err : socket_updates (respondToVehicle r err).
Proof. unfold respondToVehicle. emits. Qed.
#[local] Hint Resolve respondToVehicle_updates : emits.

Lemma ParseAndProcessRecord_updates serializer message now1 now2 :
  socket_updates (ParseAndProcessRecord serializer message now1 now2).
Proof.
  unfold ParseAndProcessRecord. apply emits_bind; [auto with emits|]. intros sm _.
  pose proof (NewRecord_updates serializer message (UUID sm) (sm_transmitDecodedRecords sm) now1 now2) as Ht.
  destruct (NewRecord _ _ _ _ _ _) as [[record err] t]. cbn in Ht. cbv zeta. emits.
Qed.
#[local] Hint Resolve ParseAndProcessRecord_updates : emits.

Lemma report_limited_updates message start now limited :
  socket_updates (report_limited message start now limited).
Proof. unfold report_limited. emits. Qed.
#[local] Hint Resolve report_limited_updates : emits.

Lemma trackSignalUsage_updates r : socket_updates (trackSignalUsage r).
Proof. unfold trackSignalUsage, record_type_label. emits. Qed.
#[local] Hint Resolve trackSignalUsage_updates : emits.

Lemma process_frames_updates serializer frames rl start limited :
  socket_updates (process_frames serializer frames rl start limited).
Proof.
  revert rl start limited. induction frames as [|f frames IH]; intros rl start limited;
    cbn [process_frames]; [auto with emits|].
  apply emits_bind; [auto with emits|]. intros sm _.
  pose proof (NewRecord_updates serializer (f_message f) (UUID sm) (sm_transmitDecodedRecords sm)
    (f_limited f).1 (f_limited f).2) as Ht.
  destruct (NewRecord _ _ _ _ _ _) as [[record err] t]. cbn in Ht. cbv zeta. emits.
Qed.
#[local] Hint Resolve process_frames_updates : emits.

Lemma ProcessTelemetry_updates serializer frames close_err closed_at :
  socket_updates (ProcessTelemetry serializer frames close_err closed_at).
Proof.
  intros s. unfold ProcessTelemetry.
  set (body := mbind _ _). assert (Hb : socket_updates body) by (unfold body; emits).
  assert (Hc : socket_updates (Streaming.Close close_err closed_at)) by (unfold Streaming.Close; emits).
  destruct (Hb s) as (t & Ht & Hok). destruct (body s) as [[[]|w] s']; cbn in Ht.
  all: destruct (Hc s') as (t' & Ht' & Hok'); exists (t ++ t')%list; rewrite app_assoc, <- Ht.
  - split; [done|by apply Forall_app].
  - destruct (Streaming.Close _ _ s') as [[[]|w'] s'']; (split; [done|by apply Forall_app]).
Qed.

(** *** The acknowledgement goroutine *)

(** The metrics of the server and those of the sockets. *)
Definition served_accepted (e : Event) : Prop :=
  event_accepted ServerPackage e \/ event_accepted SocketPackage e.

Lemma on_socket_updates {A} p (m : go sstate A) :
  socket_updates m -> only_emits w_trace served_accepted (on_socket p m).
Proof.
  intros Hm w. unfold on_socket. destruct (heap w !! p) as [sm|].
  2: { exists []. by rewrite app_nil_r. }
  destruct (Hm (sm, w_trace w)) as (t & Ht & Hok). destruct (m _) as [o [sm' t']]. cbn in *.
  exists t. split; [done|]. eapply Forall_impl; [exact Hok|]. by right.
Qed.

Lemma emitW_updates name l :
  accepts ServerPackage name OpInc l.*1 = true ->
  only_emits w_trace served_accepted (emitW [EInc name (list_to_map l)]).
Proof.
  intros H. apply (emits_modify _ _ _ [EInc name (list_to_map l)]); [done|].
  apply Forall_cons. split; [left; by apply accepts_Inc|constructor].
Qed.

Lemma handle_ack_updates s record : only_emits w_trace served_accepted (handle_ack s record).
Proof.
  unfold handle_ack. cbv zeta. emits.
  all: first [apply emitW_updates; vm_compute; reflexivity|apply on_socket_updates; auto with emits].
Qed.

Lemma handleAcks_updates s records : only_emits w_trace served_accepted (handleAcks s records).
Proof.
  unfold handleAcks. induction records as [|r records IH]; cbn [for_range]; [auto with emits|].
  apply emits_bind; [apply handle_ack_updates|done].
Qed.
End Sockets.

(** ** Properties *)

(** C13: in every run of a producer, of a connection's read loop and of the
    acknowledgement goroutine, whatever the clients answer and also if the run
    panics, every update of a metric names one that its package registers, with
    an operation of the metric's kind, a counter not decreased, and exactly the
    labels it was registered with; such an update does not panic in the
    Prometheus client if the values of its labels are UTF-8. *)
Theorem updates_accepted {PM : PrometheusClient} {PS : PrometheusClientSpec PM}
    {FB : FlatbuffersLib} {PE : ProtoEnums} {PC : ProtoCodec} {PR : ProtoReflection} {RL : RateLimiter}
    (zmq : Zmq.Producer) (range : forall A, gmap string A -> list (string * A)) :
  (forall asked q n, Zmq.sendMessage zmq asked q = Ok n -> 0 <= n) ->
  (forall p metadata now1 now2, producer_updates KafkaPackage (Kafka.Produce p metadata now1 now2)) /\
  (forall p e, producer_updates KafkaPackage (Kafka.handleProducerEvent p e)) /\
  (forall total events,
    Forall (effect_accepted KafkaPackage) (Kafka.reportProducerMetrics_tick total events)) /\
  (forall p now, producer_updates KinesisPackage (Kinesis.Produce p now)) /\
  (forall p now, producer_updates PubsubPackage (Googlepubsub.Produce p now)) /\
  (forall p txTypes, producer_updates PubsubPackage (Googlepubsub.ProvisionTopics p txTypes)) /\
  (forall p now1 now2, producer_updates RedisPackage (Redis.Produce p now1 now2)) /\
  producer_updates ZmqPackage (Zmq.Produce zmq) /\
  (forall p elapsed, producer_updates MqttPackage (Mqtt.Produce range p elapsed)) /\
  (forall serializer frames close_err closed_at,
    socket_updates (ProcessTelemetry serializer frames close_err closed_at)) /\
  (forall s records, only_emits w_trace served_accepted (handleAcks s records)) /\
  (forall k name op l, accepted k name op l -> map_Forall (fun _ v => utf8_ValidString v = true) l ->
    exists m, m ∈ metrics_of k /\ Name m.2 = name /\ Update m op l = Ret ()).
Proof.
  intros Hzmq. split_and!.
  - apply kafka_Produce_updates.
  - apply kafka_event_updates.
  - apply kafka_tick_updates.
  - apply kinesis_Produce_updates.
  - apply pubsub_Produce_updates.
  - apply pubsub_Provision_updates.
  - apply redis_Produce_updates.
  - by apply zmq_Produce_updates.
  - apply mqtt_Produce_updates.
  - apply ProcessTelemetry_updates.
  - apply handleAcks_updates.
  - apply accepted_update.
Qed.

Definition sample_zmq : Zmq.Producer :=
  Zmq.mkProducer (mkSink "ns" (Some (mkLogger ∅ EmptyString)) (Airbrake.mkHandler true) {["V"]}) None
    (fun _ q => match q with
                | ZmqSendMessage topic payload =>
                    Ok (Z.of_nat (String.length topic) + Z.of_nat (length payload))
                | _ => Err (ErrorString "not a message")
                end).

Lemma updates_accepted_witness :
  producer_updates ZmqPackage (Zmq.Produce sample_zmq) /\
  exists m, m ∈ metrics_of ZmqPackage /\ Name m.2 = "zmq_publish_total_bytes" /\
    Update m (OpAdd 5) {["record_type" := "V"]} = Ret ().
Proof.
  assert (Hn : forall asked q n, Zmq.sendMessage sample_zmq asked q = Ok n -> 0 <= n).
  { intros asked q n. cbn. destruct q; try done. intros [= <-]. lia. }
  destruct (updates_accepted (PM := PrometheusRef) (FB := FbRef) (PE := EnumsRef) (PC := ProtoRef)
    (PR := ReflectRef) (RL := WindowLimiter) sample_zmq (fun _ => map_to_list) Hn)
    as (_ & _ & _ & _ & _ & _ & _ & Hz & _ & _ & _ & Hu).
  split; [exact Hz|]. apply Hu.
  - apply (accepts_Add _ _ _ [("record_type", "V")]); [lia|vm_compute; reflexivity].
  - apply map_Forall_singleton. vm_compute. reflexivity.
Defined.
