(* ===== verification/Monitoring.v ===== *)
(** * Monitoring (server/middleware/, server/airbrake/, server/monitoring/, metrics/monitoring.go)

    The HTTP handlers around the server: the response writer that records what
    a handler answers, the middleware that reports server errors to Airbrake,
    the status page and the profiler's switch.  A handler is the sequence of
    calls it makes on its response writer. *)

From S2P Require Import Prelude GoStd GoFloat Logger Airbrake GoJson Telemetry Metrics Config Datastores.
Local Open Scope string_scope.
Local Open Scope Z_scope.

(** ** Responses (net/http) *)

(** A call of a handler on its writer. *)
Inductive response_call :=
| SetHeader (key value : string)
| WriteHeader (statusCode : Z)
| WriteBody (b : bytes).

(** What the client gets: the status is the first one written, 200 if the body
    is written before. *)
Record ResponseWriter := mkResponseWriter {
  rw_header : gmap string string;
  rw_status : option Z;
  rw_body : bytes
}.

Definition http_call (w : ResponseWriter) (c : response_call) : ResponseWriter :=
  match c with
  | SetHeader key value => mkResponseWriter (<[key := value]> (rw_header w)) (rw_status w) (rw_body w)
  | WriteHeader n =>
      mkResponseWriter (rw_header w) (Some (default n (rw_status w))) (rw_body w)
  | WriteBody b =>
      mkResponseWriter (rw_header w) (Some (default 200 (rw_status w))) (rw_body w ++ b)%list
  end.

(** ** The wrapped writer (wrapped_response_writer.go) *)

Record WrappedResponseWriter := mkWrapped {
  status : Z;
  size : Z;
  start : Z;
  embedded : ResponseWriter;
  body : list bytes
}.

Definition NewWrappedResponseWriter (res : ResponseWriter) (now : Z) : WrappedResponseWriter :=
  mkWrapped 200 0 now res [].

Definition Status (w : WrappedResponseWriter) : Z := status w.
Definition Size (w : WrappedResponseWriter) : Z := size w.
Definition Body (w : WrappedResponseWriter) : bytes :=
  foldl (fun result b => result ++ b)%list [] (body w).

(** [Duration.Seconds] of a duration in nanoseconds. *)
Definition float64 (n : Z) : spec_float := round_ratio 53 1024 (n <? 0) (Z.abs n) 1.
Definition Seconds (d : Z) : spec_float :=
  SFadd 53 1024 (float64 (Z.quot d (10 ^ 9)))
    (SFdiv 53 1024 (float64 (Z.rem d (10 ^ 9))) (float64 (10 ^ 9))).

(** [DurationMS], in the arithmetic of floats. *)
Definition DurationMS (w : WrappedResponseWriter) (now : Z) : Z :=
  int_of_float (SFmul 53 1024 (Seconds (now - start w)) (float64 1000)).

Definition Header (w : WrappedResponseWriter) : gmap string string := rw_header (embedded w).

Definition ShouldReportOnAirbrake (w : WrappedResponseWriter) : bool :=
  (500 <=? status w) && (status w <=? 599).

(** A call on the wrapped writer: [Header] passes through, [WriteHeader] and
    [Write] are the methods of the embedded writer. *)
Definition wrapped_call (w : WrappedResponseWriter) (c : response_call) : WrappedResponseWriter :=
  mkWrapped (status w) (size w) (start w) (http_call (embedded w) c) (body w).

(** ** Airbrake (airbrake.go) *)

Definition httpAirbrakeMessage (w : WrappedResponseWriter) (now : Z) : Airbrake.notice :=
  (str (Body w),
   (AString <$> Header w) ∪
   list_to_map [("status_code", AInt (Status w)); ("duration_ms", AInt (DurationMS w now))]).

(** [WithReporting] around a handler, by the calls it makes: the writer it
    leaves and the notices. *)
Definition WithReporting (a : Airbrake.Handler) (handler : list response_call)
    (w : ResponseWriter) (now1 now2 : Z) : ResponseWriter * list Airbrake.notice :=
  let recorder := foldl wrapped_call (NewWrappedResponseWriter w now1) handler in
  (embedded recorder,
   if ShouldReportOnAirbrake recorder then Airbrake.send a (httpAirbrakeMessage recorder now2) else []).

(** ** The status page (status_server.go) *)

Definition healthy : bytes :=
  match json_Marshal (AMap {["status" := AString "healthy"]}) with
  | Ok j => (j ++ [Byte.x0a])%list
  | Err _ => []
  end.

Definition StatusHandler : list response_call :=
  [SetHeader "Content-Type" "application/json"; WriteHeader 200; WriteBody healthy].

(** The page of the telemetry server itself (server.go). *)
Definition mtls_Status : list response_call := [WriteBody (raw "mtls ok")].

(** ** The profiler (metrics/monitoring.go, profile_server.go) *)

(** [profilerOn], and whether the runtime is tracing: starting a running trace
    is an error, which the program ignores. *)
Record Profiler := mkProfiler { profilerOn : bool; tracing : bool }.

Definition EnableProfiler (mode : string) : go Profiler bool :=
  p ← get;
  let newProfileMode := String.eqb mode "on" in
  if Bool.eqb newProfileMode (profilerOn p) then mret false
  else
    modify (fun p => mkProfiler newProfileMode (negb (String.eqb mode "off")));;
    mret true.

(** The bodies, written without escaping. *)
Definition json_text (key value : string) : bytes :=
  raw ("{" +:+ quote key +:+ ":" +:+ quote value +:+ "}").

(** [liveProfiler]: [monitoring] is that of the configuration. *)
Definition liveProfiler (monitoring : option MonitoringConfig) (mode : string)
  : go Profiler (list response_call) :=
  match monitoring with
  | Some m =>
      if String.eqb (ProfilingPath m) "" then
        mret [WriteHeader 405; WriteBody (json_text "error" "profiler not configured")]
      else if String.eqb mode "" then
        mret [WriteHeader 400; WriteBody (json_text "error" "mode not specified")]
      else
        changed ← EnableProfiler mode;
        mret (if changed : bool then [WriteBody (json_text "result" ("mode " +:+ mode))]
              else [WriteHeader 304; WriteBody (json_text "result" ("mode already " +:+ mode))])
  | None => mret [WriteHeader 405; WriteBody (json_text "error" "profiler not configured")]
  end.

(** ** Lemmas *)

Lemma wrapped_calls calls w :
  foldl wrapped_call w calls =
  mkWrapped (status w) (size w) (start w) (foldl http_call (embedded w) calls) (body w).
Proof. revert w. induction calls as [|c calls IH]; intros w; [by destruct w|]. cbn. by rewrite IH. Qed.

(** ** Properties *)

(** The recording writer changes nothing in what the client gets, but it does
    not record the status either: whatever the handler answers, the middleware
    never reports to Airbrake. *)
Theorem airbrake_never_reports a handler w now1 now2 :
  WithReporting a handler w now1 now2 = (foldl http_call w handler, []).
Proof. unfold WithReporting. by rewrite wrapped_calls. Qed.

(** With the two documented modes the flag says whether the runtime traces, and
    the answer whether it changed. *)
Theorem profiler_follows_modes modes p :
  Forall (fun mode => mode = "on" \/ mode = "off") modes -> profilerOn p = tracing p ->
  exists p', for_range (fun mode => EnableProfiler mode;; skip) modes p = (Ret (), p') /\
    profilerOn p' = tracing p' /\
    profilerOn p' = match last modes with Some mode => String.eqb mode "on" | None => profilerOn p end.
Proof.
  intros Hmodes. revert p. induction modes as [|mode modes IH]; intros p Hp.
  { by exists p. }
  apply Forall_cons in Hmodes as [Hmode Hmodes].
  assert (H1 : exists b p1, EnableProfiler mode p = (Ret b, p1) /\ profilerOn p1 = tracing p1 /\
    profilerOn p1 = String.eqb mode "on").
  { destruct p as [on tr]; cbn in Hp; subst tr.
    destruct Hmode as [-> | ->], on; (do 2 eexists; split; [vm_compute; reflexivity|]; by split). }
  destruct H1 as (b & p1 & E & Hp1 & Hon). destruct (IH Hmodes p1 Hp1) as (p' & E' & Hp' & Hon').
  exists p'. rewrite last_cons. cbn. unfold mbind, go_bind. rewrite E. cbn. split; [exact E'|]. split; [done|].
  rewrite Hon', Hon. by destruct (last modes).
Qed.

(** Another mode while the profiler is on leaves the runtime tracing with the
    flag off, and the mode that stops the trace is then refused. *)
Theorem profiler_unknown_mode mode :
  mode <> "on" -> mode <> "off" ->
  EnableProfiler mode (mkProfiler true true) = (Ret true, mkProfiler false true) /\
  EnableProfiler "off" (mkProfiler false true) = (Ret false, mkProfiler false true).
Proof.
  intros Hon%String.eqb_neq Hoff%String.eqb_neq. unfold EnableProfiler, mbind, go_bind, get, modify. cbn.
  by rewrite Hon, Hoff.
Qed.
