(* ===== verification/Usage.v ===== *)
(** * Usage statistics (metrics.go's [ReportServerUsage], server/monitoring/metrics_server.go)

    Once a minute a goroutine reads the runtime's statistics and sets the gauges
    of the server: memory, garbage collection, uptime and connections.  Each
    tick reads the clock and the statistics, which are arguments. *)

From S2P Require Import Prelude GoStd GoFloat Logger GoJson Telemetry Metrics Config Server Monitoring MetricUpdates.
Local Open Scope string_scope.
Local Open Scope Z_scope.

(** The fields of [runtime.MemStats] that are read: [NumGC] is a [uint32], the
    others are [uint64]s. *)
Record MemStats := mkMemStats {
  Alloc : Z;
  HeapAlloc : Z;
  StackInuse : Z;
  PauseTotalNs : Z;
  NumGC : Z
}.

(** What the runtime answers at a tick; [wall] is [time.Now().Unix()]. *)
Record Tick := mkTick {
  now : Z;
  NumGoroutine : Z;
  memStats : MemStats;
  wall : Z;
  registry_at : SocketRegistry
}.

(** The local variables of [ReportServerUsage], and the gauges set so far. *)
Record Usage := mkUsage {
  lastPauseNs : Z;
  lastNumGc : Z;
  lastSampleTime : Z;
  gauges : list (string * Z)
}.

Definition nsInMs : Z := 10 ^ 6.

(** [Time.Sub], which saturates, and the whole seconds in a duration. *)
Definition Sub (t u : Z) : Z := Z.max int64_min (Z.min int64_max (t - u)).
Definition whole_seconds (d : Z) : Z := u64 (int_of_float (Seconds d)).

(** [gauge.Set(n, map[string]string{})] *)
Definition Set_ (name : string) (n : Z) : go Usage () :=
  modify (fun u => mkUsage (lastPauseNs u) (lastNumGc u) (lastSampleTime u) (gauges u ++ [(name, n)])).

(** Division of unsigned integers. *)
Definition divide (a b : Z) : go Usage Z :=
  if b =? 0 then lift (Panic "runtime error: integer divide by zero") else mret (a / b).

(** The metrics of the two packages, by the names they are registered with. *)
Record UsageMetrics := mkUsageMetrics {
  goRoutineCount : string;
  memoryAllocated : string;
  memoryHeap : string;
  memoryStack : string;
  gcTotalPause : string;
  gcPausePerSecond : string;
  gcPerSecond : string
}.

Definition usageRegistry : UsageMetrics := {|
  goRoutineCount := "num_goroutine";
  memoryAllocated := "memory_allocated_bytes";
  memoryHeap := "memory_heap";
  memoryStack := "memory_stack";
  gcTotalPause := "gc_total_pause";
  gcPausePerSecond := "gc_pause_per_second";
  gcPerSecond := "gc_per_second"
|}%string.

Record ConnectionMetrics := mkConnectionMetrics {
  uptimeSeconds : string;
  numberConnections : string
}.

Definition connectionRegistry : ConnectionMetrics := {|
  uptimeSeconds := "uptime_sec";
  numberConnections := "num_connections"
|}%string.

(** [appMetrics]: the custom statistics. *)
Definition appMetrics (startTime : Z) (t : Tick) : go Usage () :=
  Set_ (uptimeSeconds connectionRegistry) (i64 (wall t - startTime));;
  Set_ (numberConnections connectionRegistry) (NumConnectedSockets (registry_at t)).

(** The body of the loop. *)
Definition sample (customStats : option (Tick -> go Usage ())) (t : Tick) : go Usage () :=
  let ms := memStats t in
  Set_ (goRoutineCount usageRegistry) (NumGoroutine t);;
  Set_ (memoryAllocated usageRegistry) (i64 (Alloc ms));;
  Set_ (memoryHeap usageRegistry) (i64 (HeapAlloc ms));;
  Set_ (memoryStack usageRegistry) (i64 (StackInuse ms));;
  Set_ (gcTotalPause usageRegistry) (i64 (PauseTotalNs ms / nsInMs));;
  u ← get;
  let secondsSinceLastSample := whole_seconds (Sub (now t) (lastSampleTime u)) in
  (if 0 <? lastPauseNs u then
     let pauseSinceLastSample := u64 (PauseTotalNs ms - lastPauseNs u) in
     perSecond ← divide (pauseSinceLastSample / nsInMs) secondsSinceLastSample;
     Set_ (gcPausePerSecond usageRegistry) (i64 perSecond)
   else skip);;
  modify (fun u => mkUsage (PauseTotalNs ms) (lastNumGc u) (lastSampleTime u) (gauges u));;
  let countGc := u32 (NumGC ms - lastNumGc u) in
  (if 0 <? lastNumGc u then
     Set_ (gcPerSecond usageRegistry)
       (int_of_float (SFdiv 53 1024 (float64 countGc) (float64 secondsSinceLastSample)))
   else skip);;
  modify (fun u => mkUsage (lastPauseNs u) (NumGC ms) (now t) (gauges u));;
  match customStats with
  | Some custom => custom t
  | None => skip
  end.

(** [ReportServerUsage] after the registration of its metrics, on the ticks it
    receives; [start] is its first reading of the clock. *)
Definition ReportServerUsage (customStats : option (Tick -> go Usage ())) (start : Z)
    (ticks : list Tick) : outcome () * Usage :=
  for_range (sample customStats) ticks (mkUsage 0 0 start []).

(** *** The addresses [StartServerMetrics] serves (metrics_server.go) *)

Definition listen_host (host : string) : string := if String.eqb host "" then "127.0.0.1" else host.
Definition host_port (host : string) (port : Z) : string :=
  listen_host host +:+ ":" +:+ strconv.Itoa port.

(** The goroutines it starts. *)
Inductive background :=
| MetricsServer (address : string)
| ProfilerServer (address : string)
| UsageReporter (startTime : Z).

(** [StartServerMetrics] after the registration of its metrics. *)
Definition background_servers (m : MonitoringConfig) (startTime : Z) : list background :=
  ((if 0 <? PrometheusMetricsPort m
    then [MetricsServer (host_port (PrometheusMetricsHost m) (PrometheusMetricsPort m))] else []) ++
   (if 0 <? ProfilerPort m then [ProfilerServer (host_port (ProfilerHost m) (ProfilerPort m))] else []) ++
   [UsageReporter startTime])%list.

(** The paths of the profiler's multiplexer, in the order they are added. *)
Definition profiler_paths : list string :=
  ["/debug/pprof/"; "/debug/pprof/cmdline"; "/debug/pprof/profile"; "/debug/pprof/symbol";
   "/debug/pprof/trace"; "/gc_stats"; "/live_profiler"].

(** What a server's goroutine logs: when it starts, and when it ends with the
    error of [ListenAndServe]. *)
Definition background_start (m : MonitoringConfig) (logger : option Logger) (b : background)
  : outcome (list LogEntry) :=
  match b with
  | ProfilerServer _ => ActivityLog logger "profiler_started" {["port" := AInt (ProfilerPort m)]}
  | _ => Ret []
  end.

Definition background_error (logger : option Logger) (b : background) (err : GoError)
  : outcome (list LogEntry) :=
  match b with
  | MetricsServer _ => ErrorLog logger "metrics_server_err" (Some err) ∅
  | ProfilerServer _ => ErrorLog logger "profiler_listen_error" (Some err) ∅
  | UsageReporter _ => Ret []
  end.

(** [gcStats]: [stats] is the encoding of the collector's statistics. *)
Definition gcStats (stats : result bytes) : list response_call :=
  match stats with
  | Err err => [WriteHeader 500; WriteBody (raw ("{" +:+ quote "error" +:+ ":" +:+
                  String "034" (Error_String err) +:+ String "034" "}")); WriteBody []]
  | Ok json => [WriteBody json]
  end.

(** ** Specification *)

(** Two consecutive ticks for which the loop divides by zero. *)
Definition too_close (a b : Tick) : bool :=
  (0 <? PauseTotalNs (memStats a)) && (whole_seconds (Sub (now b) (now a)) =? 0).

(** The gauges a tick sets, after [prev]. *)
Definition memory_gauges (t : Tick) : list (string * Z) :=
  [("num_goroutine", NumGoroutine t);
   ("memory_allocated_bytes", i64 (Alloc (memStats t)));
   ("memory_heap", i64 (HeapAlloc (memStats t)));
   ("memory_stack", i64 (StackInuse (memStats t)));
   ("gc_total_pause", i64 (PauseTotalNs (memStats t) / nsInMs))].

Definition gc_gauges (a b : Tick) : list (string * Z) :=
  let seconds := whole_seconds (Sub (now b) (now a)) in
  ((if 0 <? PauseTotalNs (memStats a)
    then [("gc_pause_per_second",
           i64 (u64 (PauseTotalNs (memStats b) - PauseTotalNs (memStats a)) / nsInMs / seconds))] else []) ++
   (if 0 <? NumGC (memStats a)
    then [("gc_per_second",
           int_of_float (SFdiv 53 1024 (float64 (u32 (NumGC (memStats b) - NumGC (memStats a))))
                           (float64 seconds)))] else []))%list.

Definition server_gauges (startTime : Z) (t : Tick) : list (string * Z) :=
  [("uptime_sec", i64 (wall t - startTime));
   ("num_connections", NumConnectedSockets (registry_at t))].

Fixpoint reported (startTime : Z) (prev : option Tick) (ticks : list Tick) : list (string * Z) :=
  match ticks with
  | [] => []
  | t :: rest =>
      (memory_gauges t ++ match prev with Some a => gc_gauges a t | None => [] end ++
       server_gauges startTime t ++ reported startTime (Some t) rest)%list
  end.

(** Some consecutive ticks are too close. *)
Fixpoint some_too_close (prev : option Tick) (ticks : list Tick) : bool :=
  match ticks with
  | [] => false
  | t :: rest =>
      match prev with Some a => too_close a t | None => false end || some_too_close (Some t) rest
  end.

(** ** Lemmas *)

Lemma some_too_close_spec prev ticks :
  some_too_close prev ticks = true <->
  exists pre a b post, (option_list prev ++ ticks = pre ++ a :: b :: post)%list /\ too_close a b = true.
Proof.
  revert prev. induction ticks as [|t rest IH]; intros prev.
  - split; [done|]. intros (pre & a & b & post & E & _).
    apply (f_equal length) in E. rewrite !length_app in E. destruct prev; simpl in E; lia.
  - cbn [some_too_close]. rewrite orb_true_iff, IH. destruct prev as [p|]; cbn [option_list app]; split.
    + intros [H|(pre & a & b & post & E & H)].
      * by exists [], p, t, rest.
      * exists (p :: pre), a, b, post. split; [|done]. cbn in *. by f_equal.
    + intros ([|x pre] & a & b & post & E & H).
      * injection E as -> -> ->. by left.
      * injection E as -> E. right. by exists pre, a, b, post.
    + intros [H|H]; [done|exact H].
    + intros H. by right.
Qed.

#[local] Transparent lift.

(** The variables of the loop after a tick. *)
Definition after (start : Z) (prev : option Tick) (g : list (string * Z)) : Usage :=
  match prev with
  | None => mkUsage 0 0 start g
  | Some a => mkUsage (PauseTotalNs (memStats a)) (NumGC (memStats a)) (now a) g
  end.

Lemma sample_run startTime start prev t g :
  sample (Some (appMetrics startTime)) t (after start prev g) =
  if match prev with Some a => too_close a t | None => false end
  then (Panic "runtime error: integer divide by zero", after start prev (g ++ memory_gauges t)%list)
  else (Ret (), after start (Some t)
                  (g ++ memory_gauges t ++ match prev with Some a => gc_gauges a t | None => [] end ++
                   server_gauges startTime t)%list).
Proof.
  destruct prev as [a|]; unfold too_close, gc_gauges;
    cbn [after]; unfold sample, appMetrics, divide, Set_, mbind, go_bind, get, modify, skip, mret, go_ret, lift;
    cbn [lastPauseNs lastNumGc lastSampleTime gauges Z.ltb Z.compare].
  - destruct (0 <? PauseTotalNs (memStats a)); [destruct (whole_seconds _ =? 0)|];
      destruct (0 <? NumGC (memStats a)); cbn; rewrite <- ?app_assoc; reflexivity.
  - cbn. rewrite <- ?app_assoc. reflexivity.
Qed.

Lemma for_range_sample startTime start ticks prev g :
  let run := for_range (sample (Some (appMetrics startTime))) ticks (after start prev g) in
  if some_too_close prev ticks then run.1 = Panic "runtime error: integer divide by zero"
  else run = (Ret (), after start (match last ticks with Some t => Some t | None => prev end)
                        (g ++ reported startTime prev ticks)%list).
Proof.
  cbv zeta. revert prev g. induction ticks as [|t rest IH]; intros prev g.
  - cbn. by rewrite app_nil_r.
  - cbn [for_range some_too_close reported]. unfold mbind at 1, go_bind at 1.
    unfold mbind, go_bind. rewrite sample_run.
    destruct (match prev with Some a => too_close a t | None => false end); [done|]. cbn [orb].
    specialize (IH (Some t) (g ++ memory_gauges t ++
      match prev with Some a => gc_gauges a t | None => [] end ++ server_gauges startTime t)%list).
    destruct (some_too_close (Some t) rest); [exact IH|]. rewrite IH. rewrite last_cons, <- !app_assoc.
    by destruct (last rest).
Qed.

(** A counter of collections that wraps around still gives their number. *)
Lemma gc_count_wraps before collections :
  0 <= collections < 2 ^ 32 -> u32 (u32 (before + collections) - u32 before) = collections.
Proof.
  intros H. unfold u32. rewrite Zminus_mod, !Zmod_mod, <- Zminus_mod.
  replace (before + collections - before) with collections by lia. by apply Z.mod_small.
Qed.

(** Every gauge is one of those the server registered. *)
Definition registered_gauge (g : string * Z) : Prop :=
  accepted UsagePackage g.1 (OpSet g.2) ∅ \/ accepted ConnectionPackage g.1 (OpSet g.2) ∅.

Ltac registered_gauge_tac :=
  first [ left; apply (accepts_Set _ _ _ []); vm_compute; reflexivity
        | right; apply (accepts_Set _ _ _ []); vm_compute; reflexivity ].

Ltac registered_gauges_tac :=
  repeat first [apply Forall_nil_2 | apply Forall_cons_2; [registered_gauge_tac|]].

Lemma memory_gauges_registered t : Forall registered_gauge (memory_gauges t).
Proof. registered_gauges_tac. Qed.

Lemma gc_gauges_registered a b : Forall registered_gauge (gc_gauges a b).
Proof.
  apply Forall_app. split; [destruct (0 <? PauseTotalNs _)|destruct (0 <? NumGC _)];
    registered_gauges_tac.
Qed.

Lemma server_gauges_registered startTime t : Forall registered_gauge (server_gauges startTime t).
Proof. registered_gauges_tac. Qed.

Lemma reported_registered startTime prev ticks : Forall registered_gauge (reported startTime prev ticks).
Proof.
  revert prev. induction ticks as [|t rest IH]; intros prev; [constructor|]. cbn [reported].
  repeat (apply Forall_app; split);
    auto using memory_gauges_registered, gc_gauges_registered, server_gauges_registered.
  destruct prev; [apply gc_gauges_registered|constructor].
Qed.

(** Whole seconds around the boundary, and those between two ticks of a
    minute. *)
Example whole_seconds_boundary :
  (whole_seconds <$> [0; 1; 999999999; 1000000000; 59999999999; 60000000000]) = [0; 0; 0; 1; 59; 60].
Proof. vm_compute. reflexivity. Qed.

(** ** Theorems *)

(** C26: the reporter of usage statistics ends in a division by zero, which
    ends the server, exactly when some tick comes less than a whole second after
    another one with a garbage collection pause before it; otherwise it sets,
    for each tick in order, the gauges the ticks describe, all of which are
    registered. *)
Theorem usage_statistics startTime start ticks :
  let '(r, u) := ReportServerUsage (Some (appMetrics startTime)) start ticks in
  let division_by_zero := exists pre a b post, ticks = (pre ++ a :: b :: post)%list /\
    0 < PauseTotalNs (memStats a) /\ whole_seconds (Sub (now b) (now a)) = 0 in
  match r with
  | Panic why => why = "runtime error: integer divide by zero" /\ division_by_zero
  | Ret _ => ~ division_by_zero /\ gauges u = reported startTime None ticks /\
             Forall registered_gauge (gauges u)
  end.
Proof.
  unfold ReportServerUsage. pose proof (for_range_sample startTime start ticks None []) as Hrun.
  pose proof (some_too_close_spec None ticks) as Hclose. cbv zeta in *.
  change (option_list None ++ ticks)%list with ticks in Hclose. cbn [after app] in Hrun.
  assert (Hspec : some_too_close None ticks = true <->
    exists pre a b post, ticks = (pre ++ a :: b :: post)%list /\
      0 < PauseTotalNs (memStats a) /\ whole_seconds (Sub (now b) (now a)) = 0).
  { rewrite Hclose. unfold too_close. split; intros (pre & a & b & post & -> & H);
      exists pre, a, b, post; (split; [done|]); revert H;
      by rewrite andb_true_iff, Z.ltb_lt, Z.eqb_eq. }
  destruct (for_range _ _ _) as [r u]. cbn [fst] in Hrun.
  destruct (some_too_close None ticks).
  - subst r. split; [done|]. by apply Hspec.
  - injection Hrun as -> ->. split; [intros H; apply Hspec in H; done|].
    destruct (last ticks); (split; [done|]); apply reported_registered.
Qed.

(** Ticks that end the reporter: the second one was delayed. *)
Example delayed_tick_panics :
  let at_ now := mkTick now 5 (mkMemStats 1 2 3 4000000 9) 0 NewSocketRegistry in
  (ReportServerUsage None 0 [at_ 60000000000; at_ 60999999999]).1 =
    Panic "runtime error: integer divide by zero" /\
  (ReportServerUsage None 0 [at_ 60000000000; at_ 120000000000]).1 = Ret ().
Proof. vm_compute. split; reflexivity. Qed.
