(* ===== verification/Adapters.v ===== *)
(** * Updating a metric through its collector (metrics/adapter/)

    Each collector makes counters, gauges and timers of its own kind: those of
    Prometheus update the child of a vector with the given labels, those of
    StatsD send a sample, and those of the third do nothing. *)

From S2P Require Import Prelude GoStd Logger GoJson Telemetry Datastores Mqtt Metrics Config Streaming Server.
From S2P Require Import MetricUpdates Usage.
Local Open Scope string_scope.
Local Open Scope Z_scope.

(** ** Prometheus (adapter/prometheus/) *)

Module Prometheus.
Section Operations.
Context {PM : PrometheusClient}.

Definition Counter_Add (counter : registration) (n : Z) (labels : label_map) : outcome () :=
  Update counter (OpAdd n) labels.
Definition Counter_Inc (counter : registration) (labels : label_map) : outcome () :=
  Update counter OpInc labels.
Definition Gauge_Add (gauge : registration) (n : Z) (labels : label_map) : outcome () :=
  Update gauge (OpAdd n) labels.
Definition Gauge_Sub (gauge : registration) (n : Z) (labels : label_map) : outcome () :=
  Update gauge (OpSub n) labels.
Definition Gauge_Inc (gauge : registration) (labels : label_map) : outcome () :=
  Update gauge OpInc labels.
Definition Gauge_Set (gauge : registration) (n : Z) (labels : label_map) : outcome () :=
  Update gauge (OpSet n) labels.
Definition Timer_Observe (timer : registration) (n : Z) (labels : label_map) : outcome () :=
  Update timer (OpObserve n) labels.
End Operations.
End Prometheus.

(** ** The metric a registration returns *)

(** The implementations of the interfaces [Counter], [Gauge] and [Timer]. *)
Inductive metric :=
| PrometheusMetric (m : registration)
| StatsdMetric (kind : MetricKind) (name : string)
| NoopMetric (kind : MetricKind).

(** ** No collector (adapter/noop/) *)

Module Noop.
Definition Counter_Add (n : Z) (labels : label_map) : () := ().
Definition Counter_Inc (labels : label_map) : () := ().
Definition Gauge_Add (n : Z) (labels : label_map) : () := ().
Definition Gauge_Sub (n : Z) (labels : label_map) : () := ().
Definition Gauge_Inc (labels : label_map) : () := ().
Definition Gauge_Set (n : Z) (labels : label_map) : () := ().
Definition Timer_Observe (n : Z) (labels : label_map) : () := ().

Definition RegisterCounter (options : CollectorOptions) : metric := NoopMetric CounterKind.
Definition RegisterGauge (options : CollectorOptions) : metric := NoopMetric GaugeKind.
Definition RegisterTimer (options : CollectorOptions) : metric := NoopMetric TimerKind.
End Noop.

(** ** StatsD (adapter/statsd/statsd.go); its client is shared *)

Module StatsdCollector.
Definition RegisterCounter (options : CollectorOptions) : metric := StatsdMetric CounterKind (Name options).
Definition RegisterGauge (options : CollectorOptions) : metric := StatsdMetric GaugeKind (Name options).
Definition RegisterTimer (options : CollectorOptions) : metric := StatsdMetric TimerKind (Name options).
End StatsdCollector.

(** [RegisterCounter], [RegisterGauge] and [RegisterTimer] of each collector. *)
Definition metric_of (c : MetricCollector) (m : registration) : metric :=
  match c, m.1 with
  | PrometheusCollector, _ => PrometheusMetric m
  | StatsdCollector _ _ _, CounterKind => StatsdCollector.RegisterCounter m.2
  | StatsdCollector _ _ _, GaugeKind => StatsdCollector.RegisterGauge m.2
  | StatsdCollector _ _ _, TimerKind => StatsdCollector.RegisterTimer m.2
  | NoopCollector, CounterKind => Noop.RegisterCounter m.2
  | NoopCollector, GaugeKind => Noop.RegisterGauge m.2
  | NoopCollector, TimerKind => Noop.RegisterTimer m.2
  end.

Section Updates.
Context {PM : PrometheusClient}.
Variable range : label_map -> list (string * string).

(** A method of the metric: the samples sent; a metric has no method of
    another kind. *)
Definition update (m : metric) (op : Operation) (l : label_map) : outcome (list Statsd.Sample) :=
  match m, op with
  | PrometheusMetric m, OpAdd n =>
      (fun _ => []) <$> match m.1 with
                        | CounterKind => Prometheus.Counter_Add m n l
                        | _ => Prometheus.Gauge_Add m n l
                        end
  | PrometheusMetric m, OpInc =>
      (fun _ => []) <$> match m.1 with
                        | CounterKind => Prometheus.Counter_Inc m l
                        | _ => Prometheus.Gauge_Inc m l
                        end
  | PrometheusMetric m, OpSub n => (fun _ => []) <$> Prometheus.Gauge_Sub m n l
  | PrometheusMetric m, OpSet n => (fun _ => []) <$> Prometheus.Gauge_Set m n l
  | PrometheusMetric m, OpObserve n => (fun _ => []) <$> Prometheus.Timer_Observe m n l
  | StatsdMetric CounterKind name, OpAdd n => Ret [Statsd.Counter_Add range name n l]
  | StatsdMetric CounterKind name, OpInc => Ret [Statsd.Counter_Inc range name l]
  | StatsdMetric _ name, OpAdd n => Ret [Statsd.Gauge_Add range name n l]
  | StatsdMetric _ name, OpSub n => Ret [Statsd.Gauge_Sub range name n l]
  | StatsdMetric _ name, OpInc => Ret [Statsd.Gauge_Inc range name l]
  | StatsdMetric _ name, OpSet n => Ret [Statsd.Gauge_Set range name n l]
  | StatsdMetric _ name, OpObserve n => Ret [Statsd.Timer_Observe range name n l]
  | NoopMetric _, _ => Ret []
  end.
End Updates.

(** ** The registries of the packages

    A package updates the metrics its registry holds in its fields. *)

Definition registry_fields (k : package) : list string :=
  match k with
  | KafkaPackage =>
      let r := Kafka.metricsRegistry in
        [Kafka.producerCount r; Kafka.bytesTotal r; Kafka.producerAckCount r;
         Kafka.bytesAckTotal r; Kafka.errorCount r; Kafka.reliableAckCount r;
         Kafka.producerQueueSize r]
  | KinesisPackage =>
      let r := Kinesis.metricsRegistry in
        [Kinesis.errorCount r; Kinesis.publishCount r; Kinesis.byteTotal r;
         Kinesis.reliableAckCount r]
  | PubsubPackage =>
      let r := Googlepubsub.metricsRegistry in
        [Googlepubsub.notConnectedTotal r; Googlepubsub.publishCount r;
         Googlepubsub.publishBytesTotal r; Googlepubsub.errorCount r;
         Googlepubsub.reliableAckCount r]
  | RedisPackage =>
      let r := Redis.metricsRegistry in
        [Redis.publishCount r; Redis.publishBytesTotal r; Redis.errorCount r;
         Redis.reliableAckCount r]
  | ZmqPackage =>
      let r := Zmq.metricsRegistry in
        [Zmq.errorCount r; Zmq.publishCount r; Zmq.byteTotal r; Zmq.reliableAckCount r]
  | MqttPackage =>
      let r := Mqtt.metricsRegistry in
        [Mqtt.errorCount r; Mqtt.publishCount r; Mqtt.byteTotal r; Mqtt.reliableAckCount r]
  | SocketPackage =>
      let r := Streaming.metricsRegistry in
        [Streaming.rateLimitExceededCount r; Streaming.recordTooBigCount r;
         Streaming.unauthorizedSenderCount r; Streaming.unknownMessageTypeErrorCount r;
         Streaming.dispatchCount r; Streaming.unexpectedRecordErrorCount r;
         Streaming.socketErrorCount r; Streaming.recordSizeBytesTotal r; Streaming.recordCount r;
         Streaming.signalsCount r; Streaming.vinSignalCount r]
  | ServerPackage =>
      let r := Server.serverMetricsRegistry in
        [Server.reliableAckCount r; Server.reliableAckMissCount r]
  | UsagePackage =>
      let r := Usage.usageRegistry in
        [Usage.goRoutineCount r; Usage.memoryAllocated r; Usage.memoryHeap r; Usage.memoryStack r;
         Usage.gcTotalPause r; Usage.gcPausePerSecond r; Usage.gcPerSecond r]
  | ConnectionPackage =>
      let r := Usage.connectionRegistry in
        [Usage.uptimeSeconds r; Usage.numberConnections r]
  end.

(** ** Lemmas *)

(** After its registration no field of a registry is nil or holds another
    field's metric: the fields are the names of the registered metrics. *)
Theorem registries_filled k : registry_fields k ≡ₚ metric_names (metrics_of k).
Proof. destruct k; apply (bool_decide_unpack _); vm_compute; exact I. Qed.

Definition sample_name (s : Statsd.Sample) : string :=
  match s with
  | Statsd.Incr name _ _ | Statsd.GaugeDelta name _ _ | Statsd.SetGauge name _ _
  | Statsd.Timing name _ _ => name
  end.

(** An accepted update succeeds with every collector; the one of StatsD sends
    one sample, under the name of the metric. *)
Theorem update_succeeds {PM : PrometheusClient} {PS : PrometheusClientSpec PM} range c k name op l :
  accepted k name op l -> map_Forall (fun _ v => utf8_ValidString v = true) l ->
  exists m samples, m ∈ metrics_of k /\ Name m.2 = name /\
    update range (metric_of c m) op l = Ret samples /\
    (sample_name <$> samples) = match c with StatsdCollector _ _ _ => [name] | _ => [] end.
Proof.
  intros (m & Hm & Hn & Ho & Hd) Hl.
  assert (Hu : Update m op l = Ret ()) by (by apply Update_labels).
  destruct c as [|addr prefix period|].
  - exists m, []. split; [done|]. split; [done|]. split; [|done].
    destruct op; cbn; unfold Prometheus.Gauge_Sub, Prometheus.Gauge_Set, Prometheus.Timer_Observe;
      try (destruct (m.1)); cbn; unfold Prometheus.Counter_Add, Prometheus.Counter_Inc,
        Prometheus.Gauge_Add, Prometheus.Gauge_Inc; by rewrite Hu.
  - destruct op, (m.1) eqn:Hk; try discriminate Ho; eexists m, [_]; rewrite <- Hn;
      (split; [done|]; split; [done|]; split; [cbn; rewrite Hk; reflexivity|done]).
  - exists m, []. split; [done|]. split; [done|]. unfold metric_of. by destruct (m.1).
Qed.
