(* ===== verification/Startup.v ===== *)
(** * Start-up (src/cmd/, src/server/certificates/, the TLS part of src/config/config.go)

    How the commands configure themselves from the environment: the server's
    mTLS configuration and its certificate, static or from ACME; the options of
    the Redis client; the control plane and its health answer; the health check.
    Certificates, key pairs and files are read by functions the operations
    take as arguments, and so are the parsers of URLs and mail addresses. *)

From S2P Require Import Prelude GoStd GoFloat Logger GoJson Telemetry Metrics Config Datastores Monitoring.
Local Open Scope string_scope.
Local Open Scope Z_scope.

(** ** Hosts and ports (package [net]) *)

Module net.

(** The text before and after the last occurrence of a byte. *)
Fixpoint cut_last (c : ascii) (s : string) : option (string * string) :=
  match s with
  | EmptyString => None
  | String a s =>
      match cut_last c s with
      | Some (before, after) => Some (String a before, after)
      | None => if Ascii.eqb a c then Some (EmptyString, s) else None
      end
  end.

(** [SplitHostPort]: [None] for every error. *)
Definition SplitHostPort (hostport : string) : option (string * string) :=
  match cut_last ":" hostport with
  | None => None
  | Some (before, port) =>
      match before with
      | String "[" rest =>
          match strings.cut rest "]" with
          | Some (host, EmptyString) =>
              if occurs "[" host || occurs "[" port || occurs "]" port then None else Some (host, port)
          | _ => None
          end
      | host =>
          if occurs ":" host || occurs "[" hostport || occurs "]" hostport then None
          else Some (host, port)
      end
  end.

Definition JoinHostPort (host port : string) : string :=
  if occurs ":" host then "[" +:+ host +:+ "]:" +:+ port else host +:+ ":" +:+ port.

End net.

(** ** TLS (config.go) *)

(** What the program sets in a [tls.Config]; a pool is the list of the PEM
    texts appended to it. *)
Inductive ClientAuthType := NoClientCert | RequireAndVerifyClientCert.

Record tls_Config (cert : Type) := mkTLSConfig {
  Certificates : list cert;
  GetCertificate : option cert;
  RootCAs : option (list bytes);
  ClientCAs : option (list bytes);
  ClientAuth : ClientAuthType;
  ServerName : string
}.
Arguments mkTLSConfig {cert}.
Arguments Certificates {cert}. Arguments GetCertificate {cert}. Arguments RootCAs {cert}.
Arguments ClientCAs {cert}. Arguments ClientAuth {cert}. Arguments ServerName {cert}.

Section TLS.
Context {cert : Type}.
(** Reading a key pair and a file, and whether a text holds a certificate. *)
Variable LoadX509KeyPair : string -> string -> result cert.
Variable ReadFile : string -> result bytes.
Variable has_certificate : bytes -> bool.

(** [ClientTLSConfig] *)
Definition ClientTLSConfig (t : option TLS) : result (option (tls_Config cert)) :=
  match t with
  | None => Ok None
  | Some t =>
      certificates ←
        (if negb (String.eqb (ServerCert t) "") && negb (String.eqb (ServerKey t) "")
         then match LoadX509KeyPair (ServerCert t) (ServerKey t) with
              | Err err =>
                  fail ("can't properly load cert pair (" +:+ ServerCert t +:+ ", " +:+ ServerKey t +:+
                        "): " +:+ Error_String err)
              | Ok cert => Ok [cert]
              end
         else Ok []);
      roots ←
        (if String.eqb (CAFile t) "" then Ok None
         else match ReadFile (CAFile t) with
              | Err err =>
                  fail ("can't properly load ca cert (" +:+ CAFile t +:+ "): " +:+ Error_String err)
              | Ok caCert => Ok (Some (if has_certificate caCert then [caCert] else []))
              end);
      Ok (Some (mkTLSConfig certificates None roots None NoClientCert ""))
  end.

(** [ExtractServiceTLSConfig]; [defaultEngCA] and [defaultProdCA] are the
    embedded files. *)
Definition ExtractServiceTLSConfig (defaultEngCA defaultProdCA : bytes) (c : Config)
    (logger : option Logger) : outcome (result (tls_Config cert) * list LogEntry) :=
  match Config_TLS c with
  | None =>
      Ret (fail "tls config is empty - telemetry server is mTLS only, make sure to provide certificates in the config", [])
  | Some t =>
      let '(caEnv, caFileBytes) :=
        if UseDefaultEngCA c then ("eng", defaultEngCA) else ("prod", defaultProdCA) in
      let service pool := Ok (mkTLSConfig [] None None (Some pool) RequireAndVerifyClientCert "") in
      if negb (has_certificate caFileBytes)
      then Ret (fail ("tls ca not properly loaded for " +:+ caEnv +:+ " environment"), [])
      else if String.eqb (CAFile t) "" then Ret (service [caFileBytes], [])
      else
        match ReadFile (CAFile t) with
        | Err err => Ret (Err err, [])
        | Ok custom =>
            if negb (has_certificate custom)
            then Ret (fail ("custom ca not properly loaded: " +:+ CAFile t), [])
            else
              lines ← ActivityLog logger "custom_ca_file_appened"
                {["ca_file_path" := AString (CAFile t)]};
              Ret (service [caFileBytes; custom], lines)
        end
  end.

(** *** The options of the Redis client *)

Record UniversalOptions := mkUniversalOptions {
  opt_Addrs : list string;
  opt_Username : string;
  opt_Password : string;
  opt_DB : Z;
  opt_TLSConfig : option (tls_Config cert);
  opt_IsClusterMode : bool;
  opt_Pool : option RedisPool
}.

(** [getServerName]; [Hostname] is that of a text [url.Parse] accepts. *)
Definition getServerName (Hostname : string -> option string) (r : Redis) : string :=
  match Addrs r with
  | [] => ""
  | addr :: _ =>
      let split := match net.SplitHostPort addr with Some (host, _) => host | None => addr end in
      match Hostname addr with
      | Some host => if String.eqb host "" then split else host
      | None => split
      end
  end.

Definition options (Hostname : string -> option string) (env : environment) (r : Redis)
  : result UniversalOptions :=
  tlsConfig ← ClientTLSConfig (Redis_TLS r);
  let tlsConfig :=
    if OverrideTLSServerName r
    then (fun t => mkTLSConfig (Certificates t) (GetCertificate t) (RootCAs t) (ClientCAs t)
                     (ClientAuth t) (getServerName Hostname r)) <$> tlsConfig
    else tlsConfig in
  Ok (mkUniversalOptions (Addrs r) (Username r) (override (Getenv env "REDIS_PASSWORD") (Password r))
        (DB r) tlsConfig (ClusterMode r) (Pool r)).

(** *** Airbrake *)

Record Airbrake := mkAirbrake {
  ab_Host : string;
  ab_ProjectKey : string;
  ab_Environment : string;
  ab_ProjectID : Z;
  ab_TLS : option TLS
}.

(** The options of the notifier that depend on the configuration. *)
Record NotifierOptions := mkNotifierOptions {
  no_Host : string;
  no_ProjectId : Z;
  no_ProjectKey : string;
  no_Environment : string;
  no_TLSConfig : option (tls_Config cert)
}.

(** [AirbrakeTLSConfig] of a configuration with [Airbrake]. *)
Definition AirbrakeTLSConfig (a : Airbrake) : result (option (tls_Config cert)) := ClientTLSConfig (ab_TLS a).

(** [CreateAirbrakeNotifier] up to the notifier made from the options. *)
Definition CreateAirbrakeNotifier (env : environment) (a : option Airbrake) (logger : option Logger)
  : outcome (result (option NotifierOptions) * list LogEntry) :=
  match a with
  | None => Ret (Ok None, [])
  | Some a =>
      match AirbrakeTLSConfig a with
      | Err err => Ret (Err err, [])
      | Ok tlsConfig =>
          let '(projectKey, logInfo) :=
            match env "AIRBRAKE_PROJECT_KEY" with
            | Some key => (key, list_to_map [("source", AString "environment_variable");
                                             ("env_key", AString "AIRBRAKE_PROJECT_KEY")])
            | None => (ab_ProjectKey a, list_to_map [("source", AString "config_file")])
            end in
          lines ← ActivityLog logger "airbrake_configured" logInfo;
          Ret (Ok (Some (mkNotifierOptions (ab_Host a) (ab_ProjectID a) projectKey (ab_Environment a)
                           tlsConfig)), lines)
      end
  end.
End TLS.

(** ** ACME (acme.go) *)

Definition defaultStoragePath : string := "/data/certmagic".

Record ACMEOptions := mkACMEOptions {
  Domain : string;
  Email : string;
  APIToken : string;
  StoragePath : string
}.

Definition no_ACMEOptions : ACMEOptions := mkACMEOptions "" "" "" "".

(** [filepath.IsAbs] on Unix. *)
Definition IsAbs (path : string) : bool := strings.HasPrefix path "/".

Section ACME.
(** The address of a text that is a mail address, and the text of [%q]. *)
Variable ParseAddress : string -> option string.
Variable Quote : string -> string.

Definition set_StoragePath (path : string) (o : ACMEOptions) : ACMEOptions :=
  mkACMEOptions (Domain o) (Email o) (APIToken o) path.

(** The options in the environment. *)
Definition acme_environment (env : environment) : ACMEOptions :=
  let get name := strings.TrimSpace (Getenv env name) in
  mkACMEOptions (get "ACME_DOMAIN") (get "ACME_EMAIL") (get "CLOUDFLARE_API_TOKEN")
    (get "ACME_STORAGE_PATH").

Definition ACMEOptionsFromEnvironment (env : environment) : ACMEOptions * bool * option GoError :=
  let options := acme_environment env in
  let empty s := String.eqb s "" in
  let error msg := (no_ACMEOptions, true, Some (ErrorString msg)) in
  let requested := negb (empty (Domain options)) || negb (empty (Email options)) ||
                   negb (empty (APIToken options)) || negb (empty (StoragePath options)) in
  if negb requested then (no_ACMEOptions, false, None)
  else if empty (Domain options) then error "missing ACME_DOMAIN"
  else if occurs "/" (Domain options) || occurs ":" (Domain options) ||
          negb (strings.Contains (Domain options) ".")
  then error ("invalid ACME_DOMAIN " +:+ Quote (Domain options) +:+
              ": use a hostname without a scheme or port")
  else if empty (Email options) then error "missing ACME_EMAIL"
  else if negb (bool_decide (ParseAddress (Email options) = Some (Email options)))
  then error ("invalid ACME_EMAIL " +:+ Quote (Email options))
  else if empty (APIToken options) then error "missing CLOUDFLARE_API_TOKEN"
  else
    let options := if empty (StoragePath options) then set_StoragePath defaultStoragePath options
                   else options in
    if negb (IsAbs (StoragePath options)) then error "ACME_STORAGE_PATH must be an absolute path"
    else (options, true, None).

(** What [Manage] sets in the defaults of certmagic: the path of its file
    storage, the name served by default, the account, the challenges and the
    token of the DNS provider. *)
Record acme_manager := mkManager {
  Storage_Path : string;
  DefaultServerName : string;
  ACME_Email : string;
  Agreed : bool;
  DisableHTTPChallenge : bool;
  DisableTLSALPNChallenge : bool;
  DNSProvider_APIToken : string
}.

Definition acme_manager_of (options : ACMEOptions) : acme_manager :=
  mkManager (StoragePath options) (Domain options) (Email options) true true true (APIToken options).

Section Certificate.
Context {cert : Type}.
Variable LoadX509KeyPair : string -> string -> result cert.
(** The error of creating a directory, and the certificate a manager obtains for
    some domains. *)
Variable MkdirAll : string -> option GoError.
Variable ManageSync : acme_manager -> list string -> result cert.

(** [Manage] *)
Definition Manage (options : ACMEOptions) : result cert :=
  match MkdirAll (StoragePath options) with
  | Some err => fail ("create ACME storage: " +:+ Error_String err)
  | None =>
      match ManageSync (acme_manager_of options) [Domain options] with
      | Err err => fail ("obtain certificate for " +:+ Domain options +:+
                         " using Cloudflare DNS-01: " +:+ Error_String err)
      | Ok manager => Ok manager
      end
  end.

(** ** The server's certificate (cmd/main.go) *)

Definition staticTLSExplicitlyConfigured (env : environment) : bool :=
  negb (blank (Getenv env "TLS_CERT_PATH")) || negb (blank (Getenv env "TLS_KEY_PATH")) ||
  negb (String.eqb (Getenv env "TLS_CERT_PEM") "") || negb (String.eqb (Getenv env "TLS_KEY_PEM") "").

Definition configuration_error {A} (text : string) (err : GoError) : result A :=
  fail ("CONFIGURATION ERROR: " +:+ text +:+ Error_String err).

(** [configureServerCertificate] on a configuration with [TLS], with the
    configuration it leaves; reading the paths of a nil [TLS] panics. *)
Definition configureServerCertificate (env : environment) (serviceConfig : Config)
    (tlsConfig : tls_Config cert) (logger : option Logger)
  : outcome (result (tls_Config cert) * list LogEntry) :=
  match ACMEOptionsFromEnvironment env with
  | (_, _, Some err) => Ret (configuration_error "configure ACME: " err, [])
  | (acmeOptions, acmeRequested, None) =>
      if acmeRequested && negb (staticTLSExplicitlyConfigured env) then
        lines1 ← ActivityLog logger "acme_certificate_management_starting" (list_to_map
          [("domain", AString (Domain acmeOptions));
           ("storage_path", AString (StoragePath acmeOptions))]);
        match Manage acmeOptions with
        | Err err => Ret (configuration_error "" err, lines1)
        | Ok certificate =>
            lines2 ← ActivityLog logger "acme_certificate_ready"
              {["domain" := AString (Domain acmeOptions)]};
            Ret (Ok (mkTLSConfig (Certificates tlsConfig) (Some certificate) (RootCAs tlsConfig)
                       (ClientCAs tlsConfig) (ClientAuth tlsConfig) (ServerName tlsConfig)),
                 (lines1 ++ lines2)%list)
        end
      else
        match Config_TLS serviceConfig with
        | None => Panic "nil pointer dereference"
        | Some t =>
            match LoadX509KeyPair (ServerCert t) (ServerKey t) with
            | Err err => Ret (configuration_error "load TLS certificate and private key: " err, [])
            | Ok certificate =>
                lines ← ActivityLog logger "static_tls_certificate_loaded" ∅;
                Ret (Ok (mkTLSConfig [certificate] (GetCertificate tlsConfig) (RootCAs tlsConfig)
                           (ClientCAs tlsConfig) (ClientAuth tlsConfig) (ServerName tlsConfig)), lines)
            end
        end
  end.

(** The part of [startServer] that makes the TLS configuration it serves. *)
Definition serverTLSConfig (ReadFile : string -> result bytes) (has_certificate : bytes -> bool)
    (defaultEngCA defaultProdCA : bytes) (env : environment) (config : Config)
    (logger : option Logger) : outcome (result (tls_Config cert) * list LogEntry) :=
  '(extracted, lines1) ←
    ExtractServiceTLSConfig ReadFile has_certificate defaultEngCA defaultProdCA config logger;
  match extracted with
  | Err err =>
      Ret (configuration_error "initialize Tesla mTLS client verification: " err, lines1)
  | Ok tlsConfig =>
      '(configured, lines2) ← configureServerCertificate env config tlsConfig logger;
      Ret (configured, (lines1 ++ lines2)%list)
  end.
End Certificate.
End ACME.

(** ** The control plane (cmd/controlplane/main.go) *)

Module controlplane.

Definition defaultHost : string := "0.0.0.0".
Definition defaultPort : Z := 8080.
Definition defaultTelemetryEndpoint : string := "telemetry.tlabcontrol.com:37532".

Record applicationConfig := mkApplicationConfig {
  ListenAddress : string;
  TelemetryEndpoint : string;
  TelemetryHost : string
}.

Definition port_number (rawPort : string) : option Z :=
  match strconv.Atoi rawPort with
  | Some n => if (n <? 1) || (65535 <? n) then None else Some n
  | None => None
  end.

Section Operations.
Variable Quote : string -> string.

Definition loadConfig (env : environment) : result applicationConfig :=
  let get name := strings.TrimSpace (Getenv env name) in
  let host := override (get "HOST") defaultHost in
  port ← (if String.eqb (get "PORT") "" then Ok defaultPort
          else match port_number (get "PORT") with
               | Some n => Ok n
               | None => fail ("invalid PORT " +:+ Quote (get "PORT"))
               end);
  let endpoint := override (get "TELEMETRY_ENDPOINT") defaultTelemetryEndpoint in
  let invalid :=
    fail ("invalid TELEMETRY_ENDPOINT " +:+ Quote endpoint +:+ ": expected host:port") in
  match net.SplitHostPort endpoint with
  | None => invalid
  | Some (telemetryHost, rawPort) =>
      if blank telemetryHost then invalid
      else match port_number rawPort with
           | None => fail ("invalid TELEMETRY_ENDPOINT port " +:+ Quote rawPort)
           | Some _ =>
               Ok (mkApplicationConfig (net.JoinHostPort host (strconv.Itoa port)) endpoint telemetryHost)
           end
  end.
End Operations.

(** The answer of [newHandler] to a health request: a struct is encoded field
    by field, and an empty [error] is omitted. *)
Definition health_response (config : applicationConfig) (probe : option GoError)
  : list response_call :=
  let field key value := quoted key +:+ ":" +:+ quoted value in
  let '(statusCode, status, error) :=
    match probe with
    | None => (200, "healthy", "")
    | Some _ => (503, "unhealthy", "," +:+ field "error" "persistent telemetry TLS endpoint is unavailable")
    end in
  [SetHeader "Content-Type" "application/json"; WriteHeader statusCode;
   WriteBody (raw ("{" +:+ field "status" status +:+ "," +:+ field "component" "vercel-control-plane" +:+
     "," +:+ field "telemetry_endpoint" (TelemetryEndpoint config) +:+ error +:+ "}") ++ [Byte.x0a])%list].

End controlplane.

(** ** The health check (cmd/healthcheck/main.go) *)

(** The URL it asks, and its exit code from the answer. *)
Definition healthcheck_url (env : environment) : string :=
  "http://127.0.0.1:" +:+ override (Getenv env "STATUS_PORT") "8080" +:+ "/healthz".

Definition healthcheck_exit (answer : result ResponseWriter) : Z :=
  match answer with
  | Err _ => 1
  | Ok w => if default 200 (rw_status w) =? 200 then 0 else 1
  end.

(** ** Lemmas *)

Lemma cut_last_app c a b :
  occurs c b = false -> net.cut_last c (a +:+ String c b) = Some (a, b).
Proof.
  intros Hb. assert (Hnone : net.cut_last c b = None).
  { clear a. induction b as [|x b IH]; [done|]. cbn in *. apply orb_false_iff in Hb as [Hx Hb].
    by rewrite IH, Hx. }
  induction a as [|x a IH].
  - change (net.cut_last c (String c b) = Some (EmptyString, b)). cbn.
    by rewrite Hnone, Ascii.eqb_refl.
  - change (net.cut_last c (String x (a +:+ String c b)) = Some (String x a, b)). cbn.
    by rewrite IH.
Qed.

Lemma cut_first c a b : occurs c a = false -> strings.cut (a +:+ String c b) c = Some (a, b).
Proof.
  induction a as [|x a IH]; intros H.
  - change (strings.cut (String c b) c = Some (EmptyString, b)). cbn. by rewrite Ascii.eqb_refl.
  - change (strings.cut (String x (a +:+ String c b)) c = Some (String x a, b)). cbn in *.
    apply orb_false_iff in H as [Hx H]. by rewrite Hx, IH.
Qed.

(** Joining and splitting, for hosts without brackets. *)
Lemma SplitHostPort_JoinHostPort host port :
  occurs "[" host = false -> occurs "]" host = false ->
  occurs ":" port = false -> occurs "[" port = false -> occurs "]" port = false ->
  net.SplitHostPort (net.JoinHostPort host port) = Some (host, port).
Proof.
  intros Ho Hc Hp Hpo Hpc. unfold net.JoinHostPort. destruct (occurs ":" host) eqn:Hcolon.
  - unfold net.SplitHostPort.
    change ("[" +:+ host +:+ "]:" +:+ port) with (String "[" (host +:+ "]:" +:+ port)).
    replace (String "[" (host +:+ "]:" +:+ port)) with (String "[" (host +:+ "]") +:+ String ":" port)
      by (change (String "[" ((host +:+ "]") +:+ ":" +:+ port) = String "[" (host +:+ "]" +:+ ":" +:+ port));
          by rewrite append_assoc).
    rewrite cut_last_app by done. cbv beta iota.
    change (host +:+ "]") with (host +:+ String "]" EmptyString). rewrite cut_first by done.
    by rewrite Ho, Hpo, Hpc.
  - unfold net.SplitHostPort. change (host +:+ ":" +:+ port) with (host +:+ String ":" port).
    rewrite cut_last_app by done.
    assert (Hb : forall c, Ascii.eqb ":" c = false -> occurs c (host +:+ String ":" port) =
      occurs c host || occurs c port) by (intros c Hcc; rewrite occurs_app; cbn; by rewrite Hcc).
    rewrite !Hb, Ho, Hc, Hpo, Hpc by done. cbn.
    destruct host as [|x host]; [by cbn|]. destruct (Ascii.eqb_spec "[" x) as [<-|Hx].
    + cbn in Ho. discriminate.
    + destruct x as [[] [] [] [] [] [] [] []]; try (by rewrite Hcolon); by destruct Hx.
Qed.

(** ** Theorems *)

Section TheoremsTLS.
Context {cert : Type}.
Variable LoadX509KeyPair : string -> string -> result cert.
Variable ReadFile : string -> result bytes.
Variable has_certificate : bytes -> bool.
Variable ParseAddress : string -> option string.
Variable Quote : string -> string.
Variable MkdirAll : string -> option GoError.
Variable ManageSync : acme_manager -> list string -> result cert.

(** The pool [ExtractServiceTLSConfig] accepts: the default CA, then the custom one. *)
Definition service_pool (defaultEngCA defaultProdCA : bytes) (c : Config) (pool : list bytes) : Prop :=
  exists custom, pool = (if UseDefaultEngCA c then defaultEngCA else defaultProdCA) :: custom /\
    match CAFile <$> Config_TLS c with
    | None | Some EmptyString => custom = []
    | Some path => exists ca, ReadFile path = Ok ca /\ custom = [ca]
    end.

Lemma ExtractServiceTLSConfig_Ok engCA prodCA c l t lines :
  ExtractServiceTLSConfig (cert:=cert) ReadFile has_certificate engCA prodCA c l = Ret (Ok t, lines) ->
  exists pool, t = mkTLSConfig [] None None (Some pool) RequireAndVerifyClientCert "" /\
    service_pool engCA prodCA c pool /\ Forall (fun ca => has_certificate ca = true) pool.
Proof.
  unfold ExtractServiceTLSConfig, service_pool. destruct (Config_TLS c) as [s|]; [|discriminate].
  destruct (UseDefaultEngCA c); cbn [fmap option_fmap option_map];
    (destruct (has_certificate _) eqn:Hdef; cbn; [|discriminate]);
    (destruct (CAFile s) as [|a path]; cbn;
      [intros [= <- <-]; eexists; split; [done|]; split; [by eexists|by repeat constructor]|]);
    (destruct (ReadFile _) as [custom|] eqn:Hread; [|discriminate]);
    (destruct (has_certificate custom) eqn:Hc; cbn; [|discriminate]);
    (destruct (ActivityLog _ _ _); cbn; [|discriminate]);
    intros [= <- <-]; eexists; (split; [done|]); (split; [|by repeat constructor]);
    eexists; split; by eauto.
Qed.

Lemma Manage_Ok o certificate :
  Manage (cert:=cert) MkdirAll ManageSync o = Ok certificate ->
  MkdirAll (StoragePath o) = None /\ ManageSync (acme_manager_of o) [Domain o] = Ok certificate.
Proof.
  unfold Manage. destruct (MkdirAll _); [discriminate|].
  by destruct (ManageSync _ _); [intros [= ->]|].
Qed.

(** Only the certificate changes. *)
Lemma configureServerCertificate_Ok env c t l t' lines :
  configureServerCertificate ParseAddress Quote LoadX509KeyPair MkdirAll ManageSync env c t l = Ret (Ok t', lines) ->
  ClientAuth t' = ClientAuth t /\ ClientCAs t' = ClientCAs t /\
  ((exists o certificate, ACMEOptionsFromEnvironment ParseAddress Quote env = (o, true, None) /\
      staticTLSExplicitlyConfigured env = false /\ MkdirAll (StoragePath o) = None /\
      ManageSync (acme_manager_of o) [Domain o] = Ok certificate /\
      GetCertificate t' = Some certificate) \/
   (exists s certificate, Config_TLS c = Some s /\
      LoadX509KeyPair (ServerCert s) (ServerKey s) = Ok certificate /\ Certificates t' = [certificate])).
Proof.
  unfold configureServerCertificate.
  destruct (ACMEOptionsFromEnvironment _ _ env) as [[o requested] [err|]] eqn:E; [discriminate|].
  destruct (requested && negb (staticTLSExplicitlyConfigured env)) eqn:Hacme.
  - apply andb_true_iff in Hacme as [-> Hstatic%negb_true_iff].
    destruct (ActivityLog l "acme_certificate_management_starting" _); cbn; [|discriminate].
    destruct (Manage MkdirAll ManageSync o) as [certificate|] eqn:Hm; [|discriminate].
    apply Manage_Ok in Hm as [Hdir Hm].
    destruct (ActivityLog l _ _); cbn; [|discriminate].
    intros [= <- <-]. split_and!; [done..|]. left. by exists o, certificate.
  - destruct (Config_TLS c) as [s|] eqn:Hs; [|discriminate].
    destruct (LoadX509KeyPair _ _) as [certificate|] eqn:Hl; [|discriminate].
    destruct (ActivityLog l _ _); cbn; [|discriminate].
    intros [= <- <-]. split_and!; [done..|]. right. by exists s, certificate.
Qed.

(** C32: the TLS configuration the server starts with always verifies its
    clients: their certificates are required, and checked against a pool that
    holds the default CA of the chosen environment and, after it, the custom CA
    when there is one, each with a certificate in it; and the server has a
    certificate, from ACME, in the configured storage and for the configured domain, only
    when no static one is configured. *)
Theorem server_requires_client_certificate engCA prodCA env c l t lines :
  serverTLSConfig ParseAddress Quote LoadX509KeyPair MkdirAll ManageSync ReadFile has_certificate engCA prodCA
    env c l = Ret (Ok t, lines) ->
  ClientAuth t = RequireAndVerifyClientCert /\
  (exists pool, ClientCAs t = Some pool /\ service_pool engCA prodCA c pool /\
     Forall (fun ca => has_certificate ca = true) pool) /\
  ((exists o certificate, ACMEOptionsFromEnvironment ParseAddress Quote env = (o, true, None) /\
      staticTLSExplicitlyConfigured env = false /\ MkdirAll (StoragePath o) = None /\
      ManageSync (acme_manager_of o) [Domain o] = Ok certificate /\
      GetCertificate t = Some certificate) \/
   (exists s certificate, Config_TLS c = Some s /\
      LoadX509KeyPair (ServerCert s) (ServerKey s) = Ok certificate /\ Certificates t = [certificate])).
Proof.
  unfold serverTLSConfig.
  destruct (ExtractServiceTLSConfig _ _ _ _ _ _) as [[[t0|err] lines1]|] eqn:E; cbn; [| |discriminate].
  - apply ExtractServiceTLSConfig_Ok in E as (pool & -> & Hpool & Hall).
    destruct (configureServerCertificate _ _ _ _ _ _ _ _ _) as [[r lines2]|] eqn:E; cbn; [|discriminate].
    intros [= -> <-]. apply configureServerCertificate_Ok in E as (-> & -> & Hcert).
    split; [done|]. split; [|done]. by exists pool.
  - discriminate.
Qed.
End TheoremsTLS.

Definition sample_environment : environment := fun name =>
  if String.eqb name "ACME_DOMAIN" then Some "t.example"
  else if String.eqb name "ACME_EMAIL" then Some "a@t.example"
  else if String.eqb name "CLOUDFLARE_API_TOKEN" then Some " k " else None.

Definition acme_sample : outcome (result (tls_Config string) * list LogEntry) :=
  serverTLSConfig Some (fun s => s) (fun c k => Ok (c +:+ k)) (fun _ => None)
    (fun m domains => match domains with [d] => Ok (DefaultServerName m) | _ => fail "one domain" end)
    (fun _ => Ok [Byte.x02]) (fun _ => true) [Byte.x00] [Byte.x01] sample_environment
    (set_TLS (Some (mkTLS "ca" "c" "k")) zero_Config) (Some (mkLogger ∅ "")).

Lemma server_requires_client_certificate_witness :
  exists t lines, acme_sample = Ret (Ok t, lines) /\ ClientAuth t = RequireAndVerifyClientCert /\
    ClientCAs t = Some [[Byte.x01]; [Byte.x02]] /\ GetCertificate t = Some "t.example".
Proof.
  destruct acme_sample as [[[t|err] lines]|] eqn:E;
    [|exfalso; vm_compute in E; congruence|exfalso; vm_compute in E; congruence].
  exists t, lines. split; [reflexivity|].
  destruct (server_requires_client_certificate _ _ _ _ _ _ _ _ _ _ _ _ _ _ E) as [H _].
  split; [exact H|]. vm_compute in E. injection E as <- _. by split.
Defined.

(** ACME is requested by any of its four variables, and a request either
    fails or gives complete options: a host name with a dot, a mail address
    that is its own address, a token, and an absolute storage path, the default
    one when none is given. *)
Theorem acme_options_spec ParseAddress Quote env o requested err :
  ACMEOptionsFromEnvironment ParseAddress Quote env = (o, requested, err) ->
  (requested = false <-> acme_environment env = no_ACMEOptions) /\
  (requested = true -> err = None ->
     strings.Contains (Domain o) "." = true /\ occurs "/" (Domain o) = false /\
     occurs ":" (Domain o) = false /\ ParseAddress (Email o) = Some (Email o) /\
     APIToken o <> "" /\ IsAbs (StoragePath o) = true /\
     o = set_StoragePath (override (StoragePath (acme_environment env)) defaultStoragePath)
           (acme_environment env)).
Proof.
  unfold ACMEOptionsFromEnvironment. set (e := acme_environment env). clearbody e.
  destruct e as [d m k p]. cbn [Domain Email APIToken StoragePath].
  destruct (negb (String.eqb d "") || _ || _ || _) eqn:Hreq; cbn [negb].
  - assert (Hne : mkACMEOptions d m k p <> no_ACMEOptions)
      by (intros [= -> -> -> ->]; discriminate Hreq).
    repeat (case_match; [intros [= <- <- <-]; split; [by split|discriminate]|]).
    all: intros [= <- <- <-]; split; [by split|intros _ _].
    all: repeat match goal with
      | H : _ || _ = false |- _ => apply orb_false_iff in H as [? ?]
      | H : negb _ = false |- _ => apply negb_false_iff in H
      | H : bool_decide _ = true |- _ => apply bool_decide_eq_true in H
      | H : String.eqb _ _ = false |- _ => apply String.eqb_neq in H
      end.
    all: unfold override; destruct (String.eqb p ""); by split_and!.
  - rewrite !orb_false_iff, !negb_false_iff, !String.eqb_eq in Hreq.
    destruct Hreq as [[[-> ->] ->] ->]. intros [= <- <- <-]. by split.
Qed.

(** ** Theorems on the control plane *)

Lemma occurs_Itoa c z : is_decimal c = false -> occurs c (strconv.Itoa z) = false.
Proof.
  intros Hc. pose proof (all_bytes_Itoa z) as H. induction (strconv.Itoa z) as [|a s IH]; [done|].
  simpl in *. apply andb_true_iff in H as [Ha Hs]. apply orb_false_iff. split; [|by apply IH].
  destruct (Ascii.eqb_spec a c) as [->|]; [congruence|done].
Qed.

Lemma port_number_Some s n : controlplane.port_number s = Some n -> 1 <= n <= 65535.
Proof.
  unfold controlplane.port_number. destruct (strconv.Atoi s) as [m|]; [|done].
  destruct (m <? 1) eqn:?, (65535 <? m) eqn:?; simpl; intros [= <-]; lia.
Qed.

(** A control plane configuration has a telemetry endpoint that splits into
    its host, not blank, and a port in range; and it listens on an address that
    splits back into its host, when that holds no bracket, and a port in range. *)
Theorem controlplane_config_spec Quote env cfg :
  controlplane.loadConfig Quote env = Ok cfg ->
  (exists rawPort p, net.SplitHostPort (controlplane.TelemetryEndpoint cfg) =
       Some (controlplane.TelemetryHost cfg, rawPort) /\
     blank (controlplane.TelemetryHost cfg) = false /\
     strconv.Atoi rawPort = Some p /\ 1 <= p <= 65535) /\
  (exists port, 1 <= port <= 65535 /\
     let host := override (strings.TrimSpace (Getenv env "HOST")) controlplane.defaultHost in
     controlplane.ListenAddress cfg = net.JoinHostPort host (strconv.Itoa port) /\
     (occurs "[" host = false -> occurs "]" host = false ->
        net.SplitHostPort (controlplane.ListenAddress cfg) = Some (host, strconv.Itoa port))).
Proof.
  unfold controlplane.loadConfig. set (endpoint := override _ controlplane.defaultTelemetryEndpoint).
  destruct (if String.eqb _ "" then _ else _) as [port|] eqn:Hport; simpl; [|done].
  destruct (net.SplitHostPort endpoint) as [[host rawPort]|] eqn:Hsplit; [|done].
  destruct (blank host) eqn:Hblank; [done|].
  destruct (controlplane.port_number rawPort) as [p|] eqn:Hp; [|done]. intros [= <-]. simpl. split.
  - exists rawPort, p. split; [done|]. split; [done|]. split; [|by eapply port_number_Some].
    unfold controlplane.port_number in Hp. destruct (strconv.Atoi rawPort) as [m|]; [|done].
    by destruct ((m <? 1) || (65535 <? m)).
  - exists port. split; [|split; [done|]].
    + destruct (String.eqb _ ""); [by injection Hport as <-|].
      destruct (controlplane.port_number _) eqn:Hn; [|done]. injection Hport as <-.
      by eapply port_number_Some.
    + intros Ho Hc. apply SplitHostPort_JoinHostPort; auto using occurs_Itoa.
Qed.
