(* ===== verification/System.v ===== *)
(** * The process and what it does

    The commands act on the machine: they start goroutines, listen, close what
    they opened, log.  A [Sys] keeps these actions in order, with the registered
    metrics and the settings of the standard logger; the operations of
    Producers.v and Lifecycle.v are computations over it, and the lemmas say
    which actions a computation takes. *)

From S2P Require Import Prelude GoStd GoFloat Logger GoJson Telemetry Metrics Config Server Datastores.
From S2P Require Import Monitoring MetricUpdates Usage.
Local Open Scope string_scope.
Local Open Scope Z_scope.

(** ** Actions *)

Inductive action :=
| Line (e : LogEntry)
| CollectorCreated (c : MetricCollector)
| CollectorClosed (c : MetricCollector)
| FileCreated (path : string)
| FileClosed (path : string)
| Background (b : background)
| AcksHandled
| Listening (address : string)
| ListenerClosed (address : string)
| ServingStatus (address : string)
| Serving (address : string)
| SignalsNotified
| SignalsStopped
| ServerShutdown
| ZmqSetup (c : Zmq.setup_call)
| Datastore (e : Effect)
| ProducerClosed (d : Dispatcher)
| PanicNotified (why : string)
| NotifierClosed.

(** The state of the process: what it did, its metrics, and the standard logger. *)
Record Sys := mkSys {
  did : list action;
  process : Process;
  std : Standard
}.

Definition act (a : action) : go Sys () :=
  modify (fun s => mkSys (did s ++ [a]) (process s) (std s)).
Definition acts (l : list action) : go Sys () :=
  modify (fun s => mkSys (did s ++ l)%list (process s) (std s)).
Definition set_std (f : Standard -> Standard) : go Sys () :=
  modify (fun s => mkSys (did s) (process s) (f (std s))).
Definition logS (o : outcome (list LogEntry)) : go Sys () :=
  lines ← lift o; acts (Line <$> lines).

(** A call that returns a value and the lines it logs. *)
Definition with_lines {A} (o : outcome (A * list LogEntry)) : go Sys A :=
  '(a, lines) ← lift o; acts (Line <$> lines);; mret a.

Definition on_process (m : go Process ()) : go Sys () := fun s =>
  let '(r, p) := m (process s) in (r, mkSys (did s) p (std s)).

(** ** Specification *)

(** What the process did, without the lines it logged. *)
Definition is_action (a : action) : bool := match a with Line _ => false | _ => true end.
Definition actions (l : list action) : list action := List.filter is_action l.

(** ** Lemmas *)

#[local] Transparent lift.

Lemma actions_app a b : actions (a ++ b) = (actions a ++ actions b)%list.
Proof. apply List.filter_app. Qed.

Lemma actions_lines lines : actions (Line <$> lines) = [].
Proof. by induction lines. Qed.

Section Running.
Context {PM : PrometheusClient} {PS : PrometheusClientSpec PM}.
Variable collector : MetricCollector.

(** The metrics registered so far are those of some packages. *)
Definition ready (s : Sys) : Prop :=
  collector = PrometheusCollector -> exists done, NoDup done /\ process s = process_after done.

(** The computation returns [a] after the actions [t]. *)
Definition does {A} (c : go Sys A) (a : A) (t : list action) : Prop :=
  forall s, ready s -> exists s', c s = (Ret a, s') /\
    actions (did s') = (actions (did s) ++ t)%list /\ ready s'.

Lemma does_ret {A} (a : A) : does (mret a) a [].
Proof. intros s Hs. exists s. by rewrite app_nil_r. Qed.

Lemma does_bind {A B} (c : go Sys A) (f : A -> go Sys B) a b t u :
  does c a t -> does (f a) b u -> does (c ≫= f) b (t ++ u).
Proof.
  intros Hc Hf s Hs. destruct (Hc s Hs) as (s1 & E1 & H1 & Hs1).
  destruct (Hf s1 Hs1) as (s2 & E2 & H2 & Hs2). exists s2. unfold mbind, go_bind. rewrite E1.
  by rewrite H2, H1, app_assoc.
Qed.

Lemma does_act a : is_action a = true -> does (act a) () [a].
Proof.
  intros Ha s Hs. eexists. split; [reflexivity|]. cbn [did].
  rewrite actions_app. split; [|done]. cbn. by rewrite Ha.
Qed.

Lemma does_acts l : does (acts l) () (actions l).
Proof. intros s Hs. eexists. split; [reflexivity|]. cbn [did]. by rewrite actions_app. Qed.

Lemma does_std f : does (set_std f) () [].
Proof. intros s Hs. eexists. split; [reflexivity|]. by rewrite app_nil_r. Qed.

Lemma does_with_lines {A} (o : outcome (A * list LogEntry)) a lines :
  o = Ret (a, lines) -> does (with_lines o) a [].
Proof.
  intros -> s Hs. eexists. split; [reflexivity|]. cbn [did].
  by rewrite actions_app, actions_lines.
Qed.

Lemma does_logS o lines : o = Ret lines -> does (logS o) () [].
Proof.
  intros -> s Hs. eexists. split; [reflexivity|]. cbn [did]. by rewrite actions_app, actions_lines.
Qed.

Lemma does_activity l msg info : does (logS (ActivityLog (Some l) msg info)) () [].
Proof. eapply does_logS. reflexivity. Qed.

Lemma does_error l msg err info : does (logS (ErrorLog (Some l) msg err info)) () [].
Proof. eapply does_logS. reflexivity. Qed.

Lemma does_register k : does (on_process (registerMetricsOnce collector k)) () [].
Proof.
  intros s Hs. unfold on_process.
  assert (exists p, registerMetricsOnce collector k (process s) = (Ret (), p) /\
    (collector = PrometheusCollector -> exists done, NoDup done /\ p = process_after done))
    as (p & -> & Hp).
  { destruct collector as [|addr prefix d|] eqn:Hc.
    - destruct (Hs Hc) as (done & Hnd & ->). rewrite registerMetricsOnce_run by done.
      eexists. split; [reflexivity|]. intros _. case_bool_decide as Hk; [by exists done|].
      exists (k :: done). by rewrite NoDup_cons.
    - unfold registerMetricsOnce, once_Do, mbind, go_bind, get. case_bool_decide; [by eexists|].
      cbn. induction (metrics_of k) as [|x l IH]; [by eexists|exact IH].
    - unfold registerMetricsOnce, once_Do, mbind, go_bind, get. case_bool_decide; [by eexists|].
      cbn. induction (metrics_of k) as [|x l IH]; [by eexists|exact IH]. }
  eexists. split; [reflexivity|]. cbn [did]. rewrite app_nil_r. by split.
Qed.

Lemma does_deferring {A} (after : go Sys ()) (body : go Sys A) a t u :
  does body a t -> does after () u -> does (deferring after body) a (t ++ u).
Proof.
  intros Hb Ha s Hs. destruct (Hb s Hs) as (s1 & E1 & H1 & Hs1).
  destruct (Ha s1 Hs1) as (s2 & E2 & H2 & Hs2). exists s2. unfold deferring. rewrite E1, E2.
  by rewrite H2, H1, app_assoc.
Qed.
End Running.

Create HintDb does.
#[export] Hint Resolve does_ret does_act does_acts does_std does_activity does_error does_register : does.

(** Run a sequence of steps whose actions are known. *)
Ltac does_step :=
  match goal with
  | |- does _ (mbind _ _) _ _ => eapply does_bind
  | |- does _ (deferring _ _) _ _ => eapply does_deferring
  | |- _ => solve [eauto with does]
  end.
Ltac does_all := repeat does_step.

Lemma does_eq {A} collector (c : go Sys A) a t t' :
  does collector c a t -> t = t' -> does collector c a t'.
Proof. by intros H <-. Qed.

(** The life of a metric collector. *)
Definition collector_event (a : action) : bool :=
  match a with CollectorCreated _ | CollectorClosed _ => true | _ => false end.

(** What was done stays done, and what is added is not about collectors. *)
Abbreviation grows := (only_emits did (fun a => collector_event a = false)).

Lemma grows_acts l : Forall (fun a => collector_event a = false) l -> grows (acts l).
Proof. intros Hl. by apply (emits_modify _ _ _ l). Qed.
Lemma grows_act a : collector_event a = false -> grows (act a).
Proof. intros Ha. apply (emits_modify _ _ _ [a]); [done|]. by constructor. Qed.
Lemma grows_fmap {A} (f : A -> action) l : (forall x, collector_event (f x) = false) -> grows (acts (f <$> l)).
Proof. intros Hf. apply grows_acts. apply Forall_fmap, Forall_true. done. Qed.
Lemma grows_std f : grows (set_std f).
Proof. by apply emits_silent. Qed.
#[export] Hint Resolve grows_act grows_fmap grows_std : emits.

Lemma grows_logS o : grows (logS o).
Proof. unfold logS. emits. Qed.
Lemma grows_with_lines {A} (o : outcome (A * list LogEntry)) : grows (with_lines o).
Proof. unfold with_lines. emits. Qed.
Lemma grows_on_process p : grows (on_process p).
Proof.
  intros s. exists []. unfold on_process. destruct (p (process s)). cbn. by rewrite app_nil_r.
Qed.
#[export] Hint Resolve grows_logS grows_with_lines grows_on_process : emits.
