(* ===== verification/Producers.v ===== *)
(** * The producers of a configuration ([ConfigureProducers] of config/config.go)

    The dispatchers the records require are made by the constructors of the
    datastores, each with the reliable-acknowledgement sources of its name;
    the Pub/Sub topics are provisioned and the MQTT client connected.  The
    answers of the client libraries are [Clients].  Config.v abstracts this
    operation to the names of the producers: [configured_producers] says what
    the producers themselves are, and that their names are those of the
    abstraction. *)

From S2P Require Import Prelude GoStd GoFloat Logger GoJson Telemetry SimpleLogger Datastores Mqtt.
From S2P Require Import Metrics Config Server Monitoring MetricUpdates Usage Startup System.
From Stdlib Require Import Permutation.
Local Open Scope string_scope.
Local Open Scope Z_scope.

(** ** Data *)

(** A [telemetry.Producer] of one of the packages. *)
Inductive producer :=
| LoggerProducer (p : ProtoLogger)
| KafkaProducer (p : Kafka.Producer)
| PubsubProducer (p : Googlepubsub.Producer)
| KinesisProducer (p : Kinesis.Producer)
| ZmqProducer (p : Zmq.Producer)
| MqttProducer (p : Mqtt.Producer)
| RedisProducer (p : Redis.Producer).

Definition dispatcher_of (p : producer) : Dispatcher :=
  match p with
  | LoggerProducer _ => Logger_
  | KafkaProducer _ => Kafka_
  | PubsubProducer _ => Pubsub_
  | KinesisProducer _ => Kinesis_
  | ZmqProducer _ => ZMQ_
  | MqttProducer _ => MQTT_
  | RedisProducer _ => Redis_
  end.

(** What a producer was made with; the logger has no datastore to report to. *)
Definition sink_of (p : producer) : option Sink :=
  match p with
  | LoggerProducer _ => None
  | KafkaProducer p => Some (Kafka.sink p)
  | PubsubProducer p => Some (Googlepubsub.sink p)
  | KinesisProducer p => Some (Kinesis.sink p)
  | ZmqProducer p => Some (Zmq.sink p)
  | MqttProducer p => Some (Mqtt.sink p)
  | RedisProducer p => Some (Redis.sink p)
  end.

(** The methods of a client library a producer calls. *)
Record KafkaClient := mkKafkaClient {
  kafka_produce : list Request -> Request -> option GoError;
  kafka_delivered : list Request -> Request -> option GoError;
  kafka_text : Request -> string
}.
Record PubsubClient := mkPubsubClient {
  pubsub_publish : list Request -> Request -> option GoError;
  pubsub_exists : list Request -> Request -> result bool;
  pubsub_create : list Request -> Request -> option GoError
}.
Record RedisClient := mkRedisClient {
  redis_Ping1 : option GoError;
  redis_Ping2 : option GoError;
  redis_publish : Z -> list Request -> Request -> option GoError;
  redis_zRemRangeByScore : list Request -> Request -> option GoError;
  redis_zRange : list Request -> Request -> result (list string)
}.
Record MqttClient := mkMqttClient {
  mqtt_Connect : Token;
  mqtt_Publish : list Request -> Request -> Token;
  mqtt_TimedOut : GoError
}.

(** The parts of the configuration that are only passed on, and what the client
    libraries answer; the two contexts are those of the background. *)
Record Clients (cert : Type) := mkClients {
  LoggerConfig : option bool;
  ZMQ_config : Zmq.Config;
  MQTT_config : Mqtt.Config;
  kafka_NewProducer : gmap string ConfigValue -> result KafkaClient;
  pubsub_NewClient : string -> result PubsubClient;
  kinesis_session : Z -> option string -> result (list Request -> Request -> result (option string * option string));
  kinesis_ListStreams : option string -> option GoError;
  zmq_library : Zmq.setup_call -> option GoError;
  zmq_server_key : string -> result Zmq.KeyJSON;
  zmq_allowed_keys : string -> result (list string);
  zmq_SendMessage : list Request -> Request -> result Z;
  mqtt_NewClient : Mqtt.Config -> MqttClient;
  url_Hostname : string -> option string;
  redis_NewClient : UniversalOptions (cert := cert) -> RedisClient;
  client_Close : Dispatcher -> option GoError
}.
Arguments LoggerConfig {cert}. Arguments ZMQ_config {cert}. Arguments MQTT_config {cert}.
Arguments kafka_NewProducer {cert}. Arguments pubsub_NewClient {cert}.
Arguments kinesis_session {cert}. Arguments kinesis_ListStreams {cert}.
Arguments zmq_library {cert}. Arguments zmq_server_key {cert}. Arguments zmq_allowed_keys {cert}.
Arguments zmq_SendMessage {cert}. Arguments mqtt_NewClient {cert}.
Arguments url_Hostname {cert}. Arguments redis_NewClient {cert}.
Arguments client_Close {cert}.

(** A computation that may fail continues with its value. *)
Definition bind_result {A B} (m : go Sys (result A)) (f : A -> go Sys (result B)) : go Sys (result B) :=
  r ← m; match r with Ok a => f a | Err err => mret (Err err) end.
Notation "'let?' x := m 'in' k" := (bind_result m (fun x => k))
  (at level 100, x pattern, m at level 200, k at level 200, right associativity).

Section Operations.
Context {PM : PrometheusClient} {cert : Type}.
Variable cl : Clients cert.
Variable env : environment.
Variable LoadX509KeyPair : string -> string -> result cert.
Variable ReadFile : string -> result bytes.
Variable has_certificate : bytes -> bool.
(** The entries of a map, in the order of its iteration. *)
Variable range : forall A, gmap string A -> list (string * A).
Arguments range {A}.
Variable collector : MetricCollector.

(** ** The constructors *)

Section Constructors.
Variable c : Config.
Variable s : Sink.

Definition new_kafka (config : gmap string ConfigValue) : go Sys (result producer) :=
  on_process (kafka_registerMetricsOnce collector);;
  let client k := fun s => Kafka.mkProducer s (kafka_produce k) (kafka_delivered k) (kafka_text k) in
  p ← with_lines (Kafka.NewProducer (client <$> kafka_NewProducer cl (convertKafkaConfig config)) s);
  mret (KafkaProducer <$> p).

Definition new_pubsub (projectID : string) : go Sys (result producer) :=
  on_process (pubsub_registerMetricsOnce collector);;
  let client k := fun s =>
    Googlepubsub.mkProducer s (pubsub_publish k) (pubsub_exists k) (pubsub_create k) in
  p ← with_lines (Googlepubsub.NewProducer env (fun id => client <$> pubsub_NewClient cl id) projectID s);
  mret (PubsubProducer <$> p).

Definition new_kinesis (recordNames : list string) (k : Kinesis) : go Sys (result producer) :=
  let maxRetries := default 1 (MaxRetries k) in
  let streamMapping := CreateKinesisStreamMapping env c recordNames in
  on_process (kinesis_registerMetricsOnce collector);;
  let service put := fun s streams => Kinesis.mkProducer s streams put in
  mret (KinesisProducer <$>
    Kinesis.NewProducer streamMapping (OverrideHost k) (fun endpoint => service <$> kinesis_session cl maxRetries endpoint)
      (kinesis_ListStreams cl) s).

Definition new_zmq (config : Zmq.Config) : go Sys (result producer) :=
  on_process (zmq_registerMetricsOnce collector);;
  let '(made, calls) := Zmq.NewProducer (zmq_library cl) (zmq_server_key cl) (zmq_allowed_keys cl) config in
  acts (ZmqSetup <$> calls);;
  mret ((fun _ => ZmqProducer (Zmq.mkProducer s None (zmq_SendMessage cl))) <$> made).

Definition new_mqtt (config : Mqtt.Config) : go Sys (result producer) :=
  on_process (mqtt_registerMetricsOnce collector);;
  let client := mqtt_NewClient cl (with_defaults config) in
  mret (Ok (MqttProducer (Mqtt.NewProducer config s None (mqtt_Publish client) (mqtt_TimedOut client)))).

Definition new_redis (r : Redis) : go Sys (result producer) :=
  let? options := mret (Startup.options LoadX509KeyPair ReadFile has_certificate (url_Hostname cl) env r) in
  on_process (redis_registerMetricsOnce collector);;
  let k := redis_NewClient cl options in
  let client timeout s publishVINTopics subscriberSetPrefix :=
    Redis.mkProducer s publishVINTopics subscriberSetPrefix (redis_publish k timeout)
      (redis_zRemRangeByScore k) (redis_zRange k) in
  p ← with_lines (Redis.NewProducer (Some (opt_Addrs options)) (PublishTimeout r) (PublishVINTopics r)
        (SubscriberSetPrefix r) client (redis_Ping1 k) (redis_Ping2 k) s);
  mret (RedisProducer <$> p).
End Constructors.

(** ** [ConfigureProducers] *)

Section Configure.
Variable c : Config.
Variable airbrakeHandler : Airbrake.Handler.
Variable logger : option Logger.

(** The records that require a dispatcher, once for each time. *)
Definition requiring (d : Dispatcher) : list string :=
  range (Records c) ≫= (fun '(recordName, dispatchRules) =>
    dispatchRules ≫= (fun d' => if String.eqb d' d then [recordName] else [])).

Definition sink_for (acks : ack_sources) (d : Dispatcher) : Sink :=
  mkSink (Namespace c) logger airbrakeHandler (default ∅ (acks !! d)).

(** The producer of a dispatcher, when some record requires it. *)
Definition add {A} (d : Dispatcher) (configured : option A) (name : string)
    (make : A -> go Sys (result producer)) (producers : gmap Dispatcher producer)
  : go Sys (result (gmap Dispatcher producer)) :=
  if required c d then
    match configured with
    | None => mret (fail ("expected " +:+ name +:+ " to be configured"))
    | Some config => let? p := make config in mret (Ok (<[d := p]> producers))
    end
  else mret (Ok producers).

Definition when {A} (b : bool) (a : A) : option A := if b then Some a else None.

Definition new_producers (acks : ack_sources) : go Sys (result (gmap Dispatcher producer)) :=
  let s := sink_for acks in
  let producers := {[Logger_ := LoggerProducer (NewProtoLogger (LoggerConfig cl) logger)]} in
  let? producers := add Kafka_ (Kafka c) "Kafka" (new_kafka (s Kafka_)) producers in
  let? producers := add Pubsub_ (Pubsub_ProjectID c) "Pubsub" (new_pubsub (s Pubsub_)) producers in
  let? producers := add Kinesis_ (Config_Kinesis c) "Kinesis"
    (new_kinesis c (s Kinesis_) (requiring Kinesis_)) producers in
  let? producers := add ZMQ_ (when (ZMQ_set c) (ZMQ_config cl)) "ZMQ" (new_zmq (s ZMQ_)) producers in
  let? producers := add MQTT_ (when (MQTT_set c) (MQTT_config cl)) "MQTT" (new_mqtt (s MQTT_)) producers in
  add Redis_ (Config_Redis c) "Redis" (new_redis (s Redis_)) producers.

Definition error_result (err : option GoError) : result () :=
  match err with Some err => Err err | None => Ok () end.

(** What a producer did, as actions of the process. *)
Definition effect_action (e : Effect) : action :=
  match e with Did (ELog line) => Line line | e => Datastore e end.

(** The type assertions panic on a producer of another kind. *)
Definition provision (producers : gmap Dispatcher producer) (pubsubTxTypes : list string)
  : go Sys (result ()) :=
  match pubsubTxTypes, producers !! Pubsub_ with
  | [], _ => mret (Ok ())
  | _, Some (PubsubProducer p) =>
      let no_record := new_TRecord (NewBinarySerializer None ∅ None) None "" false in
      match Googlepubsub.ProvisionTopics p pubsubTxTypes (no_record, []) with
      | (r, (_, effects)) => acts (effect_action <$> effects);; err ← lift r; mret (error_result err)
      end
  | _, _ => lift (Panic "interface conversion")
  end.

Definition connect (producers : gmap Dispatcher producer) : go Sys (result ()) :=
  match producers !! MQTT_ with
  | None => mret (Ok ())
  | Some (MqttProducer p) =>
      mret (error_result (Mqtt.Connect (mqtt_Connect (mqtt_NewClient cl (Mqtt.config p)))))
  | Some _ => lift (Panic "interface conversion")
  end.

Definition ConfigureProducers (test : bool)
  : go Sys (result (gmap Dispatcher producer * gmap string (list (option producer)))) :=
  let? acks := mret (configureReliableAckSources c (range (ReliableAckSources c))) in
  let? producers := new_producers acks in
  let? rules := mret (dispatch_rules producers (range (Records c)) ∅) in
  let? _ := (if test then mret (Ok ()) else provision producers (requiring Pubsub_)) in
  let? _ := (if test then mret (Ok ()) else connect producers) in
  mret (Ok (producers, rules)).
End Configure.

(** [Close] of a producer. *)
Definition Close (p : producer) : option GoError :=
  match p with
  | LoggerProducer p => ProtoLogger_Close p
  | KafkaProducer p => Kafka.Close p
  | PubsubProducer p => Googlepubsub.Close p (client_Close cl Pubsub_)
  | KinesisProducer p => Kinesis.Close p
  | ZmqProducer p => (Zmq.Close true (client_Close cl ZMQ_)).1
  | MqttProducer p => (Mqtt.Close p).2
  | RedisProducer p => Redis.Close p (client_Close cl Redis_)
  end.
End Operations.

(** ** Specification *)

(** What configuring producers does: calls on client libraries. *)
Definition setup_action (a : action) : Prop :=
  match a with ZmqSetup _ | Datastore _ => True | _ => False end.

(** The producer of a dispatcher is of its kind, and was made with what the
    configuration has for its name. *)
Definition made_for (s : Dispatcher -> Sink) (producers : gmap Dispatcher producer) : Prop :=
  map_Forall (fun d p => dispatcher_of p = d /\ (d <> Logger_ -> sink_of p = Some (s d))) producers.

(** The names of producers. *)
Definition names (producers : gmap Dispatcher producer) : gmap Dispatcher string :=
  dispatcher_of <$> producers.
Definition rule_names (rules : gmap string (list (option producer))) : gmap string (list (option string)) :=
  (fun ps : list (option producer) => (fun p : option producer => dispatcher_of <$> p) <$> ps) <$> rules.

(** ** Lemmas *)

#[local] Transparent lift.

Lemma bind_result_Ok {A B} collector (m : go Sys (result A)) (f : A -> go Sys (result B)) a b t u :
  does collector m (Ok a) t -> does collector (f a) b u -> does collector (bind_result m f) b (t ++ u).
Proof. intros Hm Hf. eapply does_bind; [exact Hm|exact Hf]. Qed.

Lemma bind_result_Err {A B} collector (m : go Sys (result A)) (f : A -> go Sys (result B)) err t :
  does collector m (Err err) t -> does collector (bind_result m f) (Err err) t.
Proof. intros Hm. eapply does_eq; [eapply does_bind; [exact Hm|apply does_ret]|apply app_nil_r]. Qed.

(** The computation does not panic, only calls client libraries, and its value,
    if it has one, is right. *)
Definition settles {A} (collector : MetricCollector) (c : go Sys (result A)) (P : result A -> Prop) : Prop :=
  exists r t, does collector c r t /\ Forall setup_action t /\ P r.

Lemma settles_ret {A} collector (r : result A) (P : result A -> Prop) :
  P r -> settles collector (mret r) P.
Proof. intros Hr. exists r, []. split; [apply does_ret|]. by split. Qed.

Lemma settles_bind {A B} collector (m : go Sys (result A)) (f : A -> go Sys (result B)) P (Q : result B -> Prop) :
  settles collector m P -> (forall err, P (Err err) -> Q (Err err)) ->
  (forall a, P (Ok a) -> settles collector (f a) Q) -> settles collector (bind_result m f) Q.
Proof.
  intros ([a|err] & t & Hm & Ht & Hp) Herr Hok.
  - destruct (Hok a Hp) as (r & u & Hf & Hu & Hq). exists r, (t ++ u)%list.
    split; [by eapply bind_result_Ok|]. split; [by apply Forall_app|done].
  - exists (Err err), t. split; [by apply bind_result_Err|]. split; [done|by apply Herr].
Qed.

(** A constructor gives a producer of its kind with the given sink. *)
Definition makes (d : Dispatcher) (s : Sink) (r : result producer) : Prop :=
  match r with Ok p => dispatcher_of p = d /\ sink_of p = Some s | Err _ => True end.

Section Constructed.
Context {PM : PrometheusClient} {PS : PrometheusClientSpec PM} {cert : Type}.
Variable cl : Clients cert.
Variable env : environment.
Variable LoadX509KeyPair : string -> string -> result cert.
Variable ReadFile : string -> result bytes.
Variable has_certificate : bytes -> bool.
Variable collector : MetricCollector.
Variable c : Config.
Variable s : Sink.
Variable l : Logger.
Hypothesis with_logger : logger s = Some l.

(** A constructor that registers its metrics and takes one more step. *)
Lemma settles_registered {A} k (m : go Sys A) (f : A -> result producer) d a t :
  does collector m a t -> Forall setup_action t -> makes d s (f a) ->
  settles collector (on_process (registerMetricsOnce collector k);; x ← m; mret (f x)) (makes d s).
Proof.
  intros Hm Ht Hf. exists (f a), t. split; [|by split]. eapply does_eq.
  - eapply does_bind; [apply does_register|]. eapply does_bind; [exact Hm|apply does_ret].
  - by rewrite app_nil_r.
Qed.

Lemma new_kafka_settles config : settles collector (new_kafka cl collector s config) (makes Kafka_ s).
Proof.
  unfold new_kafka. cbv zeta. destruct (kafka_NewProducer cl _) as [k|err];
    (eapply settles_registered; [|constructor|]);
    first [by eapply does_with_lines; cbn; rewrite ?with_logger; reflexivity|done].
Qed.

Lemma new_pubsub_settles projectID :
  settles collector (new_pubsub cl env collector s projectID) (makes Pubsub_ s).
Proof.
  unfold new_pubsub. set (client := fun k : PubsubClient => _).
  destruct (Googlepubsub.NewProducer env (fun id => client <$> pubsub_NewClient cl id) projectID s)
    as [[p lines]|why] eqn:E.
  - eapply settles_registered; [by eapply does_with_lines|constructor|].
    unfold Googlepubsub.NewProducer in E.
    destruct (Googlepubsub.configurePubsub _ _ _) as [q|err] eqn:Hq.
    + rewrite with_logger in E. cbn in E. injection E as <- _. unfold Googlepubsub.configurePubsub in Hq.
      destruct (String.eqb projectID ""); [done|].
      assert (Hc : client <$> pubsub_NewClient cl projectID = Ok q)
        by (by destruct (env "PUBSUB_EMULATOR_HOST"), (env "GOOGLE_APPLICATION_CREDENTIALS")).
      destruct (pubsub_NewClient cl projectID); [|done]. by injection Hc as <-.
    + by injection E as <- _.
  - exfalso. unfold Googlepubsub.NewProducer in E.
    destruct (Googlepubsub.configurePubsub _ _ _); [|done]. by rewrite with_logger in E.
Qed.

Lemma new_kinesis_settles recordNames k :
  settles collector (new_kinesis cl env collector c s recordNames k) (makes Kinesis_ s).
Proof.
  unfold new_kinesis, Kinesis.NewProducer. cbv zeta.
  destruct (kinesis_session cl _ _); cbn; [destruct (kinesis_ListStreams cl _)|]; cbn;
    (eexists _, []; split; [eapply does_eq; [eapply does_bind; [apply does_register|apply does_ret]|done]|
                            split; [constructor|done]]).
Qed.

Lemma new_zmq_settles config : settles collector (new_zmq cl collector s config) (makes ZMQ_ s).
Proof.
  unfold new_zmq. destruct (Zmq.NewProducer _ _ _ config) as [made calls].
  eexists _, (ZmqSetup <$> calls). split; [|split].
  - eapply does_eq.
    + eapply does_bind; [apply does_register|]. eapply does_bind; [apply does_acts|apply does_ret].
    + cbn. rewrite app_nil_r. by induction calls as [|x calls IH]; cbn; [|f_equal].
  - by apply Forall_fmap, Forall_true.
  - by destruct made.
Qed.

Lemma new_mqtt_settles config : settles collector (new_mqtt cl collector s config) (makes MQTT_ s).
Proof.
  unfold new_mqtt. eexists _, []. split; [|split; [constructor|]].
  - eapply does_eq; [eapply does_bind; [apply does_register|apply does_ret]|done].
  - done.
Qed.

Lemma new_redis_settles r :
  settles collector (new_redis cl env LoadX509KeyPair ReadFile has_certificate collector s r) (makes Redis_ s).
Proof.
  unfold new_redis. eapply (settles_bind _ _ _ (fun _ => True)); [by apply settles_ret|done|].
  intros options _. unfold Redis.NewProducer. cbv zeta.
  repeat first
    [ eapply settles_registered; [eapply does_with_lines; reflexivity|constructor|exact I]
    | match goal with |- context [match ?x with _ => _ end] => destruct x eqn:? end ].
  all: rewrite ?with_logger.
  all: eapply settles_registered; [eapply does_with_lines; reflexivity|constructor|done].
Qed.
End Constructed.

(** ** The producers of a configuration *)

Section Configured.
Context {PM : PrometheusClient} {PS : PrometheusClientSpec PM} {cert : Type}.
Variable cl : Clients cert.
Variable env : environment.
Variable LoadX509KeyPair : string -> string -> result cert.
Variable ReadFile : string -> result bytes.
Variable has_certificate : bytes -> bool.
Variable range : forall A, gmap string A -> list (string * A).
Variable collector : MetricCollector.
Variable c : Config.
Variable airbrakeHandler : Airbrake.Handler.
Variable l : Logger.
Hypothesis range_entries : forall A (x : gmap string A), range A x ≡ₚ map_to_list x.

Abbreviation sinks := (sink_for c airbrakeHandler (Some l)).
Abbreviation configure := (ConfigureProducers cl env LoadX509KeyPair ReadFile has_certificate range
  collector c airbrakeHandler (Some l)).

(** The constructor of a dispatcher makes what [construct] names. *)
Definition abstracts (construct : Dispatcher -> result string) (s : Dispatcher -> Sink) (d : Dispatcher)
    {A} (configured : option A) (make : A -> go Sys (result producer)) : Prop :=
  forall a, configured = Some a ->
    exists r t, does collector (make a) r t /\ Forall setup_action t /\ makes d (s d) r /\
      construct d = dispatcher_of <$> r.

Lemma add_refines construct s d {A} (configured : option A) name make ps :
  abstracts construct s d configured make -> made_for s ps ->
  settles collector (add c d configured name make ps)
    (fun r => names <$> r = add_producer construct c d (is_set configured) name (names ps) /\
              match r with Ok ps => made_for s ps | Err _ => True end).
Proof.
  intros Ha Hps. unfold add, add_producer. destruct (required c d); [|by apply settles_ret].
  destruct configured as [a|]; [|by apply settles_ret]. cbn [is_set].
  destruct (Ha a eq_refl) as (r & t & Hd & Ht & Hm & ->).
  eapply (settles_bind _ _ _ (eq r)); [by exists r, t|by intros err ->|].
  intros p ->. apply settles_ret. split; [cbn; unfold names; by rewrite fmap_insert|].
  destruct Hm as [Hk Hs]. unfold made_for. apply map_Forall_insert_2; [by split|done].
Qed.

Lemma settles_choice s d {A} (configured : option A) make :
  (forall a, settles collector (make a) (makes d (s d))) ->
  exists n, forall construct, construct d = n -> abstracts construct s d configured make.
Proof.
  intros H. destruct configured as [a|].
  - destruct (H a) as (r & t & Hd & Ht & Hm). exists (dispatcher_of <$> r).
    intros construct Hn a' [= <-]. by exists r, t.
  - by exists (Ok "").
Qed.

Lemma is_set_when {A} b (a : A) : is_set (when b a) = b.
Proof. by destruct b. Qed.

(** Some constructors on names are those of the datastores. *)
Lemma new_producers_refines acks :
  exists construct, settles collector
    (new_producers cl env LoadX509KeyPair ReadFile has_certificate range collector c airbrakeHandler
       (Some l) acks)
    (fun r => names <$> r = make_producers construct c /\
              match r with Ok ps => made_for (sinks acks) ps | Err _ => True end).
Proof.
  destruct (settles_choice (sinks acks) Kafka_ (Kafka c) _ (new_kafka_settles cl collector (sinks acks Kafka_) l eq_refl)) as [n1 H1].
  destruct (settles_choice (sinks acks) Pubsub_ (Pubsub_ProjectID c) _
    (new_pubsub_settles cl env collector (sinks acks Pubsub_) l eq_refl)) as [n2 H2].
  destruct (settles_choice (sinks acks) Kinesis_ (Config_Kinesis c) _
    (new_kinesis_settles cl env collector c _ (requiring range c Kinesis_))) as [n3 H3].
  destruct (settles_choice (sinks acks) ZMQ_ (when (ZMQ_set c) (ZMQ_config cl)) _
    (new_zmq_settles cl collector _)) as [n4 H4].
  destruct (settles_choice (sinks acks) MQTT_ (when (MQTT_set c) (MQTT_config cl)) _
    (new_mqtt_settles cl collector _)) as [n5 H5].
  destruct (settles_choice (sinks acks) Redis_ (Config_Redis c) _
    (new_redis_settles cl env LoadX509KeyPair ReadFile has_certificate collector (sinks acks Redis_) l eq_refl)) as [n6 H6].
  set (construct d := if String.eqb d Kafka_ then n1 else if String.eqb d Pubsub_ then n2
    else if String.eqb d Kinesis_ then n3 else if String.eqb d ZMQ_ then n4
    else if String.eqb d MQTT_ then n5 else n6).
  exists construct. unfold new_producers, make_producers. cbv zeta.
  change (Ok {[Logger_ := Logger_]} ≫= ?f) with (f {[Logger_ := Logger_]}).
  set (ps0 := {[Logger_ := LoggerProducer _]}). replace {[Logger_ := Logger_]} with (names ps0).
  2: { unfold names, ps0. by rewrite map_fmap_singleton. }
  assert (Hps0 : made_for (sinks acks) ps0) by (apply map_Forall_singleton; by split).
  clearbody ps0. cbv beta.
  do 5 (eapply settles_bind; [apply (add_refines construct); [auto|eassumption]|
          intros err [E _]; rewrite ?is_set_when in E; by rewrite <- E|];
        intros ? [E ?]; rewrite ?is_set_when in E; rewrite <- E; clear E; cbn [mbind result_bind fmap result_fmap]).
  apply add_refines; auto.
Qed.
Lemma dispatch_rules_names (ps : gmap Dispatcher producer) entries acc :
  rule_names <$> dispatch_rules ps entries acc = dispatch_rules (names ps) entries (rule_names acc).
Proof.
  revert acc. induction entries as [|[name ds] entries IH]; intros acc; [done|]. cbn.
  destruct ds as [|d ds]; [done|]. rewrite IH. f_equal. unfold rule_names. rewrite fmap_insert. f_equal.
  rewrite <- list_fmap_compose. apply list_fmap_ext. intros i d' _. cbn. unfold names. by rewrite lookup_fmap.
Qed.

Lemma requiring_required d : requiring range c d <> [] -> required c d = true.
Proof.
  intros H. destruct (requiring range c d) as [|x r] eqn:E; [done|]. clear H.
  assert (Hx : x ∈ requiring range c d) by (rewrite E; left). clear E. unfold requiring in Hx.
  apply list_elem_of_bind in Hx as ([name ds] & Hx & Hin). rewrite range_entries in Hin.
  apply list_elem_of_bind in Hx as (d' & Hx & Hd'). cbv beta in *.
  destruct (String.eqb_spec d' d) as [Hd|_]; [rewrite Hd in Hd'|by apply elem_of_nil in Hx].
  unfold required. apply existsb_exists. exists (name, ds). split; [by apply list_elem_of_In|].
  by apply existsb_elem.
Qed.

Lemma ProvisionTopics_returns p l' txTypes r h :
  logger (Googlepubsub.sink p) = Some l' ->
  exists err t, Googlepubsub.ProvisionTopics p txTypes (r, h) = (Ret err, (r, h ++ t)%list).
Proof.
  intros Hl. revert h. induction txTypes as [|tx txTypes IH]; intros h.
  { exists None, []. by rewrite app_nil_r. }
  cbn [Googlepubsub.ProvisionTopics]. unfold Googlepubsub.createTopicIfNotExists.
  run_steps. destruct (Googlepubsub.exists_ p _ _) as [[]|err]; cbn;
    [|destruct (Googlepubsub.createTopic p _ _) as [err|]; cbn|];
    rewrite ?(ReportError_run _ l') by done; unfold log_effects; cbn; rewrite ?Hl; run_steps;
    first
      [ match goal with |- context [Googlepubsub.ProvisionTopics p txTypes (r, ?h1)] =>
          destruct (IH h1) as (e & t & ->) end; eexists _, _; rewrite <- !app_assoc; reflexivity
      | eexists _, _; rewrite <- !app_assoc; reflexivity ].
Qed.
Lemma effect_actions h : Forall setup_action (actions (effect_action <$> h)).
Proof. induction h as [|[|[]| | |] h IH]; cbn; try constructor; done. Qed.

(** The topics of the records sent to Pub/Sub exist, and MQTT is connected. *)
Definition provisioned (producers : gmap Dispatcher producer) : Prop :=
  requiring range c Pubsub_ <> [] ->
  exists p r h, producers !! Pubsub_ = Some (PubsubProducer p) /\
    Googlepubsub.ProvisionTopics p (requiring range c Pubsub_) (r, []) = (Ret None, (r, h)).

Definition connected (producers : gmap Dispatcher producer) : Prop :=
  forall p, producers !! MQTT_ = Some (MqttProducer p) ->
    Mqtt.Connect (mqtt_Connect (mqtt_NewClient cl (Mqtt.config p))) = None.

Lemma provision_settles s ps :
  (forall d, logger (s d) = Some l) -> made_for s ps ->
  (required c Pubsub_ = true -> is_Some (ps !! Pubsub_)) ->
  settles collector (provision ps (requiring range c Pubsub_))
    (fun r => match r with Ok _ => provisioned ps | Err _ => True end).
Proof.
  intros Hl Hps Hdom. unfold provision, provisioned.
  destruct (requiring range c Pubsub_) as [|tx txs] eqn:Hreq; [by apply settles_ret|].
  destruct Hdom as [p Hp]; [apply requiring_required; by rewrite Hreq|]. rewrite Hp.
  destruct (Hps _ _ Hp) as [Hk Hs]. specialize (Hs ltac:(done)). destruct p as [| |p| | | |]; try done.
  injection Hs as Hs. set (r0 := new_TRecord _ _ _ _).
  destruct (ProvisionTopics_returns p l (tx :: txs) r0 []) as (err & h & E); [by rewrite Hs|].
  rewrite E. exists (error_result err), (actions (effect_action <$> h)). split; [|split].
  - eapply does_eq; [eapply does_bind; [apply does_acts|]|by rewrite app_nil_r].
    intros st Hst. exists st. by rewrite app_nil_r.
  - apply effect_actions.
  - destruct err; [done|]. intros _. by exists p, r0, h.
Qed.

Lemma connect_settles s ps :
  made_for s ps -> settles collector (connect cl ps)
    (fun r => match r with Ok _ => connected ps | Err _ => True end).
Proof.
  intros Hps. unfold connect, connected. destruct (ps !! MQTT_) as [p|] eqn:Hp; [|by apply settles_ret].
  destruct (Hps _ _ Hp) as [Hk _]. destruct p as [| | | | |p|]; try done.
  apply settles_ret. destruct (Mqtt.Connect _) eqn:E; [done|]. by intros p' [= <-].
Qed.

(** What the producer of a dispatcher is declared to work with: the record
    types it acknowledges are those whose source it is. *)
Definition declared (acks : ack_sources) (d : Dispatcher) : Sink :=
  mkSink (Namespace c) (Some l) airbrakeHandler (default ∅ (acks !! d)).

(** What the operation returns when it does. *)
Definition configured (test : bool) (producers : gmap Dispatcher producer)
    (rules : gmap string (list (option producer))) : Prop :=
  exists acks, configureReliableAckSources c (range _ (ReliableAckSources c)) = Ok acks /\
    made_for (declared acks) producers /\
    (forall d, is_Some (producers !! d) <-> d = Logger_ \/ d ∈ known_dispatchers /\ required c d = true) /\
    (forall name, rules !! name = (fmap (fun d => producers !! d)) <$> Records c !! name) /\
    (test = false -> provisioned producers /\ connected producers).

(** The producers and rules by name. *)
Definition by_name (r : result (gmap Dispatcher producer * gmap string (list (option producer)))) :=
  (fun '(producers, rules) => (names producers, rule_names rules)) <$> r.

Lemma configure_settles test :
  exists construct, settles collector (configure test)
    (fun r => (test = true -> by_name r =
                 Config.ConfigureProducers construct c (range _ (ReliableAckSources c)) (range _ (Records c))) /\
              match r with Ok (ps, rules) => configured test ps rules | Err _ => True end).
Proof.
  unfold ConfigureProducers, Config.ConfigureProducers.
  destruct (configureReliableAckSources c _) as [acks|err] eqn:Hacks.
  2: { exists Ok. eapply (settles_bind _ _ _ (eq (Err err))); [by apply settles_ret|by intros ? [= <-]|done]. }
  destruct (new_producers_refines acks) as [construct Hnew]. exists construct.
  eapply (settles_bind _ _ _ (eq (Ok acks))); [by apply settles_ret|done|]. intros ? [= <-].
  eapply settles_bind; [exact Hnew|intros err [E _]; split; [intros _; cbn [mbind result_bind]; by rewrite <- E|done]|].
  intros ps [Hnames Hmade].
  assert (Hdom : forall d, is_Some (ps !! d) <-> d = Logger_ \/ d ∈ known_dispatchers /\ required c d = true).
  { intros d. rewrite <- (make_producers_dom construct c (names ps) d) by done.
    unfold names. by rewrite lookup_fmap, fmap_is_Some. }
  cbn [fmap result_fmap] in Hnames.
  assert (Hrules : rule_names <$> dispatch_rules ps (range _ (Records c)) ∅ =
                   dispatch_rules (names ps) (range _ (Records c)) ∅).
  { rewrite dispatch_rules_names. unfold rule_names. by rewrite fmap_empty. }
  eapply (settles_bind _ _ _ (eq (dispatch_rules ps (range _ (Records c)) ∅))); [by apply settles_ret| |].
  { intros err E. rewrite E in Hrules. split; [|done]. intros _. cbn [mbind result_bind]. rewrite <- Hnames. cbn [mbind result_bind].
    by rewrite <- Hrules. }
  intros rules E. rewrite E in Hrules.
  assert (Hlook : forall name, rules !! name = (fmap (fun d => ps !! d)) <$> Records c !! name).
  { intros name. assert (Hnd : NoDup (range _ (Records c)).*1)
      by (rewrite range_entries; apply NoDup_fst_map_to_list).
    destruct (dispatch_rules_lookup ps _ _ rules name Hnd E) as [_ ->].
    rewrite (list_to_map_proper _ _ Hnd (range_entries _ _)), list_to_map_to_list.
    destruct (Records c !! name); [done|]. by rewrite lookup_empty. }
  eapply (settles_bind _ _ _ (fun r => match r with Ok _ => test = false -> provisioned ps | Err _ => test = false end)).
  { destruct test; [by apply settles_ret|].
    destruct (provision_settles (sinks acks) ps (fun _ => eq_refl) Hmade) as (r & t & Hd & Ht & Hr);
      [intros H; apply Hdom; right; split; [|done]; unfold known_dispatchers; set_solver|].
    exists r, t. split; [done|]. split; [done|]. by destruct r. }
  { intros err ->. by split. }
  intros _ Hprov.
  eapply (settles_bind _ _ _ (fun r => match r with Ok _ => test = false -> connected ps | Err _ => test = false end)).
  { destruct test; [by apply settles_ret|].
    destruct (connect_settles (sinks acks) ps Hmade) as (r & t & Hd & Ht & Hr).
    exists r, t. split; [done|]. split; [done|]. by destruct r. }
  { intros err ->. by split. }
  intros _ Hconn. apply settles_ret. split.
  - intros _. cbn [mbind result_bind]. rewrite <- Hnames. cbn [mbind result_bind]. by rewrite <- Hrules.
  - exists acks. split_and!; auto.
Qed.

(** ** Theorem *)

(** C23: [ConfigureProducers] does not panic, and does nothing but call client
    libraries.  When it succeeds there is exactly one producer for the logger
    and for each known dispatcher some record requires, of the dispatcher's
    package and with the record types it acknowledges; every record's rule lists
    the producers of its dispatchers in order, nil for the unknown ones; and,
    but in tests, the Pub/Sub topics are provisioned and MQTT is connected.  In
    names it is the abstract operation of Config.v, errors included, with
    constructors that answer what those of the datastores do. *)
Theorem configured_producers test :
  exists construct, forall s, ready collector s ->
  exists r s' t, configure test s = (Ret r, s') /\
    actions (did s') = (actions (did s) ++ t)%list /\ Forall setup_action t /\
    (test = true -> by_name r =
       Config.ConfigureProducers construct c (range _ (ReliableAckSources c)) (range _ (Records c))) /\
    match r with Ok (producers, rules) => configured test producers rules | Err _ => True end.
Proof.
  destruct (configure_settles test) as (construct & r & t & Hdoes & Ht & Hn & Hr). exists construct.
  intros s Hs. destruct (Hdoes s Hs) as (s' & Hrun & Hact & _). exists r, s', t. by split_and!.
Qed.
End Configured.

(** *** A concrete machine: every client answers, and Pub/Sub has no topics *)

Definition sample_clients : Clients string := {|
  LoggerConfig := Some false;
  ZMQ_config := Zmq.mkConfig "tcp://*:5284" "" "" true;
  MQTT_config := Mqtt.mkConfig "broker" "id" "" "" "t" 0 false 0 0 0 0 0;
  kafka_NewProducer := fun _ => Ok (mkKafkaClient (fun _ _ => None) (fun _ _ => None) (fun _ => ""));
  pubsub_NewClient := fun _ => Ok (mkPubsubClient (fun _ _ => None) (fun _ _ => Ok false) (fun _ _ => None));
  kinesis_session := fun _ _ => Ok (fun _ _ => Ok (Some "shard", Some "1"));
  kinesis_ListStreams := fun _ => None;
  zmq_library := fun _ => None;
  zmq_server_key := fun _ => fail "no key";
  zmq_allowed_keys := fun _ => Ok [];
  zmq_SendMessage := fun _ _ => Ok 1;
  mqtt_NewClient := fun _ =>
    let token := mkToken (fun _ => true) true None in mkMqttClient token (fun _ _ => token) (ErrorString "timed out");
  url_Hostname := fun _ => None;
  redis_NewClient := fun _ =>
    mkRedisClient None None (fun _ _ _ => None) (fun _ _ => None) (fun _ _ => Ok []);
  client_Close := fun _ => None
|}.

(** A configuration that uses three datastores and misspells a fourth. *)
Definition producers_config : Config :=
  mkConfig "h" 443 8080 None false None {["V" := Kafka_]} (Some ∅) None (Some "project") true None "ns" None
    "info" false (list_to_map [("V", [Kafka_; Logger_; ZMQ_]); ("alerts", [Pubsub_; "kafka2"])]) false [] false.

Definition idle : Sys := mkSys [] (process_after []) (mkStandard (TextFormatter false false) "info" "stderr").

Definition sample_configure : outcome (result _) * Sys :=
  ConfigureProducers (PM := PrometheusRef) sample_clients (fun _ => None) (fun _ _ => fail "none") (fun _ => fail "none")
    (fun _ => false) (fun _ => map_to_list) NoopCollector producers_config (Airbrake.mkHandler false)
    (Some (mkLogger ∅ "")) false idle.

(** The rule of the first record type. *)
Lemma sample_configure_rule :
  exists producers rules st k lg z, sample_configure = (Ret (Ok (producers, rules)), st) /\
    rules !! "V" = Some [Some (KafkaProducer k); Some (LoggerProducer lg); Some (ZmqProducer z)] /\
    reliableAckTxTypes (Kafka.sink k) = {["V"]} /\
    is_Some (logger (Kafka.sink k)) /\ is_Some (pl_logger lg) /\ is_Some (logger (Zmq.sink z)).
Proof.
  assert (Hok : match sample_configure.1 with
    | Ret (Ok (_, rules)) =>
        match rules !! "V" with
        | Some [Some (KafkaProducer k); Some (LoggerProducer lg); Some (ZmqProducer z)] =>
            bool_decide (reliableAckTxTypes (Kafka.sink k) = {["V"]} /\
              is_Some (logger (Kafka.sink k)) /\ is_Some (pl_logger lg) /\ is_Some (logger (Zmq.sink z)))
        | _ => false
        end
    | _ => false
    end = true) by (vm_compute; reflexivity).
  destruct sample_configure as [[[[producers rules]|]|] st] eqn:E; cbn [fst] in Hok; try discriminate Hok.
  destruct (rules !! "V") as [[|[[| k| | | | |]|] [|[[lg| | | | | |]|] [|[[| | | |z| |]|] [|]]]]|] eqn:EV;
    try discriminate Hok.
  apply bool_decide_eq_true in Hok as (H1 & H2 & H3 & H4).
  exists producers, rules, st, k, lg, z. by split_and!.
Qed.

Lemma configured_producers_witness :
  exists producers rules kafka logger zmq, sample_configure.1 = Ret (Ok (producers, rules)) /\
    rules !! "V" = Some [Some (KafkaProducer kafka); Some (LoggerProducer logger); Some (ZmqProducer zmq)] /\
    reliableAckTxTypes (Kafka.sink kafka) = {["V"]} /\ producers !! "kafka2" = None /\
    provisioned (fun _ => map_to_list) producers_config producers.
Proof.
  destruct (configured_producers (PM := PrometheusRef) sample_clients (fun _ => None) (fun _ _ => fail "none")
    (fun _ => fail "none") (fun _ => false) (fun _ => map_to_list) NoopCollector producers_config
    (Airbrake.mkHandler false) (mkLogger ∅ "") (fun _ _ => reflexivity _) false) as (construct & H).
  destruct (H idle ltac:(by intros ?)) as (r & s' & t & Hrun & _ & _ & _ & Hr).
  destruct sample_configure_rule as (producers & rules & st & k & lg & z & E & HV & Hk & _).
  assert (E' : sample_configure = (Ret r, s')) by exact Hrun. rewrite E in E'. injection E' as <- _.
  exists producers, rules, k, lg, z. rewrite E. split; [reflexivity|]. split; [exact HV|]. split; [exact Hk|].
  destruct Hr as (acks & _ & _ & Hdom & _ & Hprov). split.
  - assert (Hn : "kafka2" ∉ known_dispatchers) by (apply (bool_decide_unpack _); vm_compute; exact I).
    apply eq_None_not_Some. rewrite Hdom. intros [Hd|[Hd _]]; [discriminate Hd|exact (Hn Hd)].
  - by apply Hprov.
Defined.
