(* ===== verification/EndToEnd.v ===== *)
(** * From the configuration to the acknowledgement

    The producers that [ConfigureProducers] makes are those the server
    dispatches to: this file puts the producers of Producers.v behind the
    interface of Datastores.v, and follows a record from the rule of its type
    to the socket of its vehicle. *)

From S2P Require Import Prelude GoStd GoTime GoFloat ProtoEnums Protos ProtoRef Flatbuffers FbRef.
From S2P Require Import Messages Logger GoJson Telemetry SimpleLogger Datastores Mqtt Metrics.
From S2P Require Import Config Streaming Server Delivery.
From S2P Require Import Monitoring MetricUpdates Usage Startup System Producers.
Local Open Scope string_scope.
Local Open Scope Z_scope.

Section Composition.
Context {PE : ProtoEnums} {PC : ProtoCodec} {PR : ProtoReflection}.
Context {FB : FlatbuffersLib} {FS : FlatbuffersSpec FB}.
Context {PM : PrometheusClient} {PS : PrometheusClientSpec PM} {cert : Type}.
Variable cl : Clients cert.
Variable env : environment.
Variable LoadX509KeyPair : string -> string -> result cert.
Variable ReadFile : string -> result bytes.
Variable has_certificate : bytes -> bool.
Variable range : forall A, gmap string A -> list (string * A).
Variable collector : MetricCollector.
Hypothesis range_entries : forall A (x : gmap string A), range A x ≡ₚ map_to_list x.

(** A producer behind the interface, with its readings of the clock. *)
Definition any_of (clock : nat -> Z) (p : producer) : AnyProducer :=
  match p with
  | LoggerProducer p => mkAnyProducer _ logger_producer logger_contract p clock
  | KafkaProducer p =>
      mkAnyProducer _ kafka_producer kafka_contract (p, fun r => range _ (Metadata r)) clock
  | PubsubProducer p => mkAnyProducer _ pubsub_producer pubsub_contract p clock
  | KinesisProducer p => mkAnyProducer _ kinesis_producer kinesis_contract p clock
  | ZmqProducer p => mkAnyProducer _ zmq_producer zmq_contract p clock
  | MqttProducer p => mkAnyProducer _ (mqtt_producer range) (mqtt_contract range) p clock
  | RedisProducer p => mkAnyProducer _ redis_producer redis_contract p clock
  end.

(** The rule the server dispatches a record with. *)
Definition rule_of (clock : Dispatcher -> nat -> Z) (ps : list producer) : rule :=
  (fun p => (dispatcher_of p, any_of (clock (dispatcher_of p)) p)) <$> ps.

Lemma any_of_sink clock p s :
  sink_of p = Some s -> any_sink (any_of clock p) = s.
Proof. by destruct p; intros [= <-]. Qed.

(** No record is acknowledged by the logger. *)
Lemma logger_not_source c entries acks :
  entries ≡ₚ map_to_list (ReliableAckSources c) ->
  configureReliableAckSources c entries = Ok acks -> default ∅ (acks !! Logger_) = (∅ : gset string).
Proof.
  intros Hperm Hacks. apply set_eq. intros tx. split; [|set_solver].
  intros Htx. apply (ack_sources_inverse c entries) in Htx; [|done..].
  apply configureReliableAckSources_loop_Ok in Hacks as [Hall _].
  rewrite Forall_forall in Hall. destruct (Hall (tx, Logger_)) as (_ & Hl & _).
  - rewrite Hperm. by apply elem_of_map_to_list.
  - done.
Qed.

(** The rule of a record type, when its dispatchers are all known, acknowledges
    what the configuration says. *)
Lemma rule_of_configured c handler l test producers rules ty ps clock acks :
  configured cl range c handler l test producers rules ->
  configureReliableAckSources c (range _ (ReliableAckSources c)) = Ok acks ->
  rules !! ty = Some (Some <$> ps) -> configured_with acks (rule_of clock ps).
Proof.
  intros (acks' & Hacks' & Hmade & _ & Hrules & _) Hacks Hty.
  rewrite Hacks in Hacks'. injection Hacks' as <-. rewrite Hrules in Hty.
  destruct (Records c !! ty) as [ds|]; [|discriminate Hty]. injection Hty as Hty.
  unfold configured_with, rule_of. apply Forall_fmap, Forall_forall. intros p Hp. cbn.
  assert (Hd : exists d, producers !! d = Some p).
  { assert (Hin : Some p ∈ Some <$> ps) by by apply list_elem_of_fmap_2.
    rewrite <- Hty in Hin. apply list_elem_of_fmap in Hin as (d & Hd & _). by exists d. }
  destruct Hd as [d Hd]. destruct (Hmade _ _ Hd) as [<- Hs].
  destruct (decide (dispatcher_of p = Logger_)) as [Hl|Hl].
  - rewrite Hl, (logger_not_source _ _ _ (range_entries _ _) Hacks). by destruct p.
  - by rewrite (any_of_sink _ _ _ (Hs Hl)).
Qed.

(** C3: end to end, from the configuration to the answer.  When the producers
    are configured, a record whose type has a rule of known, distinct
    dispatchers is given to the producers of that rule in order without a panic,
    and what they acknowledge is answered on the socket of the record: if its
    type has a reliable-acknowledgement source, once exactly when the datastore
    of that source stored it, and never otherwise; if not, not at all, for the
    socket answered it at once. *)
Theorem configured_delivery c handler l test st producers rules st' ps clock r s w sm l' p bs :
  ready collector st ->
  ConfigureProducers cl env LoadX509KeyPair ReadFile has_certificate range collector c handler (Some l) test st =
    (Ret (Ok (producers, rules)), st') ->
  rules !! TxType r = Some (Some <$> ps) -> NoDup (dispatcher_of <$> ps) ->
  ready_for r (rule_of clock ps) ->
  sm_config sm = c -> sm_logger sm = Some l' -> Serializer r = Some bs ->
  response_fits r bad_format ->
  GetSocket (SocketID r) (registry w) = Some p -> heap w !! p = Some sm ->
  exists r' t w' sm',
    produce_all (rule_of clock ps) (r, []) = (Ret (), (r', t)) /\
    handleAcks s (acked t) w = (Ret (), w') /\
    registry w' = registry w /\ heap w' = <[p := sm']> (heap w) /\
    match ReliableAckSources c !! TxType r with
    | None => answers sm r None = [ack_answer sm r] /\ writeChan sm' = writeChan sm
    | Some d =>
        answers sm r None = [] /\
        writeChan sm' = (writeChan sm ++
          if bool_decide ((d, true) ∈ stored_by (rule_of clock ps) (r, [])) then [ack_answer sm r] else [])%list
    end.
Proof.
  intros Hst Hrun Hrule Hnd Hready Hc Hl Hs Hfit Hp Hsm.
  destruct (configure_settles cl env LoadX509KeyPair ReadFile has_certificate range collector c handler l
    range_entries test) as (_ & r0 & t0 & Hdoes & _ & _ & Hconf).
  destruct (Hdoes st Hst) as (st1 & Hrun1 & _). rewrite Hrun in Hrun1. injection Hrun1 as <- _.
  pose proof Hconf as (acks & Hacks & _).
  apply (vehicle_acknowledged_once c (range _ (ReliableAckSources c)) acks (rule_of clock ps) r s w sm p l' bs);
    try done.
  - by eapply rule_of_configured.
  - unfold rule_of. rewrite <- list_fmap_compose. exact Hnd.
Qed.
End Composition.

(** ** A concrete server: Kafka acknowledges, the logger and ZMQ do not *)

Definition configured_socket : SocketManager :=
  mkSocketManager 2 ∅ 0 "socket" producers_config (Some (mkLogger ∅ EmptyString)) sample_identity ∅ []
    false ∅.

Definition configured_world : World :=
  mkWorld {[0%nat := configured_socket]} (RegisterSocket "socket" 0%nat NewSocketRegistry) [].

Abbreviation sample_rule_of :=
  (rule_of (PE := EnumsRef) (PC := ProtoRef) (PR := ReflectRef) (fun _ => map_to_list) (fun _ _ => 0)).

Lemma configured_delivery_witness :
  exists producers rules st' ps r' t w' sm',
    sample_configure = (Ret (Ok (producers, rules)), st') /\ rules !! "V" = Some (Some <$> ps) /\
    produce_all (sample_rule_of ps) (sample_record, []) = (Ret (), (r', t)) /\
    handleAcks (FB := FbRef) sample_server (acked t) configured_world = (Ret (), w') /\
    heap w' = <[0%nat := sm']> (heap configured_world) /\
    writeChan sm' = (if bool_decide ((Kafka_, true) ∈ stored_by (sample_rule_of ps) (sample_record, []))
                     then [ack_answer (FB := FbRef) configured_socket sample_record] else []).
Proof.
  destruct sample_configure_rule as (producers & rules & st' & k & lg & z & E & Hrule & _ & Hk & Hlg & Hz).
  set (ps := [KafkaProducer k; LoggerProducer lg; ZmqProducer z]).
  change [Some (KafkaProducer k); Some (LoggerProducer lg); Some (ZmqProducer z)] with (Some <$> ps) in Hrule.
  assert (Hfit : response_fits sample_record bad_format)
    by (unfold response_fits, ack_fits, message_fits; vm_compute; repeat split; discriminate).
  assert (Hsrc : ReliableAckSources producers_config !! TxType sample_record = Some Kafka_)
    by (vm_compute; reflexivity).
  assert (Hty : TxType sample_record = "V") by (vm_compute; reflexivity).
  assert (Hnd : NoDup (dispatcher_of <$> ps)) by (apply (bool_decide_unpack _); vm_compute; exact I).
  assert (Hready : ready_for sample_record (sample_rule_of ps)).
  { unfold ready_for, ps, rule_of. cbn [fmap list_fmap]. rewrite !Forall_cons, Forall_nil.
    split; [|split; [|split; [|exact I]]]; intros r' Hr'; [exact Hk| |exact Hz].
    split; [exact Hlg|]. destruct Hr' as [->|[v ->]]; exact I. }
  destruct (configured_delivery (PE := EnumsRef) (PC := ProtoRef) (PR := ReflectRef) (FB := FbRef)
    (PM := PrometheusRef) sample_clients (fun _ => None) (fun _ _ => fail "none") (fun _ => fail "none")
    (fun _ => false) (fun _ => map_to_list) NoopCollector (fun _ _ => reflexivity _) producers_config
    (Airbrake.mkHandler false) (mkLogger ∅ "") false idle producers rules st' ps (fun _ _ => 0)
    sample_record sample_server configured_world configured_socket (mkLogger ∅ EmptyString) 0%nat
    sample_serializer ltac:(by intros ?) E ltac:(rewrite Hty; exact Hrule) Hnd Hready eq_refl eq_refl eq_refl
    Hfit ltac:(vm_compute; reflexivity) ltac:(vm_compute; reflexivity))
    as (r' & t & w' & sm' & Hp & Hw & _ & Hh & Hm).
  rewrite Hsrc in Hm. destruct Hm as [_ Hq].
  exists producers, rules, st', ps, r', t, w', sm'. by split_and!.
Defined.
