(* ===== verification/Lifecycle.v ===== *)
(** * The life of the server (cmd/main.go)

    [run] loads the configuration, prepares the profiler and the Airbrake
    notifier, and starts the server; [startServer] assembles the components,
    listens, serves until the server fails or a signal arrives, and closes the
    producers.  What the process does outside its memory is the list [did] of
    the state; what the machine answers is a [Machine]. *)

From S2P Require Import Prelude GoStd GoFloat Logger GoJson Telemetry SimpleLogger Datastores Mqtt.
From S2P Require Import Metrics Config Server Monitoring MetricUpdates Usage Startup System Producers.
Local Open Scope string_scope.
Local Open Scope Z_scope.

(** Why the server stops: [Serve] returns, or a signal arrives and [Shutdown]
    returns. *)
Inductive stop_reason :=
| ServeEnded (err : GoError)
| Signalled (signal : string) (shutdown : option GoError).

(** What the process reads and calls. *)
Record Machine (cert : Type) := mkMachine {
  env : environment;
  config_flag : option string;
  read_config : string -> config_file;
  files : secret_files;
  ParseLevel : string -> result string;
  CreateFile : string -> result ();
  LoadX509KeyPair : string -> string -> result cert;
  ReadFile : string -> result bytes;
  has_certificate : bytes -> bool;
  defaultEngCA : bytes;
  defaultProdCA : bytes;
  ParseAddress : string -> option string;
  Quote : string -> string;
  MkdirAll : string -> option GoError;
  ManageSync : acme_manager -> list string -> result cert;
  airbrake : option Airbrake;
  clock : Z;
  clients : Clients cert;
  Listen : string -> option GoError;
  stop : stop_reason;
  is_ErrServerClosed : GoError -> bool;
  NotifierClose : option GoError
}.
Arguments env {cert}. Arguments config_flag {cert}. Arguments read_config {cert}.
Arguments files {cert}. Arguments ParseLevel {cert}. Arguments CreateFile {cert}.
Arguments LoadX509KeyPair {cert}. Arguments ReadFile {cert}. Arguments has_certificate {cert}.
Arguments defaultEngCA {cert}. Arguments defaultProdCA {cert}. Arguments ParseAddress {cert}.
Arguments Quote {cert}. Arguments MkdirAll {cert}. Arguments ManageSync {cert}. Arguments airbrake {cert}.
Arguments clock {cert}. Arguments clients {cert}.
Arguments Listen {cert}. Arguments stop {cert}. Arguments is_ErrServerClosed {cert}.
Arguments NotifierClose {cert}.

Section Operations.
Context {PM : PrometheusClient} {cert : Type}.
Variable m : Machine cert.
(** The entries of a map, in the order of its iteration. *)
Variable range : forall A, gmap string A -> list (string * A).
Arguments range {A}.

(** ** Loading the configuration (config_initializer.go, config.go) *)

(** [loadConfigFlags]: the flag overrides the environment. *)
Definition loadConfigFlags : string :=
  default (override (Getenv (env m) "CONFIG_FILE") "config.json") (config_flag m).

Definition configureLogger (c : Config) (logger : option Logger) : go Sys () :=
  match ParseLevel m (LogLevel c) with
  | Err err => logS (ErrorLog logger "invalid_level" (Some err) ∅)
  | Ok level => set_std (SetLevel level)
  end;;
  set_std (SetJSONFormatter (JSONLogEnable c)).

Definition configureMetricsCollector (c : Config) (logger : option Logger) : go Sys MetricCollector :=
  collector ← with_lines (NewCollector (Monitoring c) logger);
  act (CollectorCreated collector);;
  mret collector.

(** [loadApplicationConfig] with the collector it makes, whose logger writes
    nowhere. *)
Definition loadConfigWithCollector (path : string) : go Sys (result Config) :=
  match loadApplicationConfig path (read_config m path) (env m) (files m) with
  | Err err => mret (Err err)
  | Ok c =>
      '(collector, _) ← lift (NewCollector (Monitoring c) (Some (mkLogger {["context" := AString "metrics"]} "")));
      act (CollectorCreated collector);;
      mret (Ok c)
  end.

Definition LoadApplicationConfiguration : go Sys (result (Config * Logger * MetricCollector)) :=
  match NewBasicLogrusLogger (env m) "fleet-telemetry" with
  | Err err => mret (Err err)
  | Ok logger =>
      let configFilePath := loadConfigFlags in
      loaded ← loadConfigWithCollector configFilePath;
      match loaded with
      | Err err => mret (Err err)
      | Ok c =>
          configureLogger c (Some logger);;
          logS (ActivityLog (Some logger) "configuration_loaded" (list_to_map
            [("config_file", AString configFilePath); ("host", AString (Host c));
             ("port", AInt (Port c)); ("status_port", AInt (StatusPort c));
             ("namespace", AString (Namespace c))]));;
          collector ← configureMetricsCollector c (Some logger);
          mret (Ok (c, logger, collector))
      end
  end.

(** ** The producers (config.go) *)

(** [ConfigureProducers] on the machine. *)
Definition configure_producers (c : Config) (collector : MetricCollector) (airbrakeNotifier : bool)
    (logger : option Logger)
  : go Sys (result (gmap Dispatcher producer * gmap string (list (option producer)))) :=
  ConfigureProducers (clients m) (env m) (LoadX509KeyPair m) (ReadFile m) (has_certificate m) (@range)
    collector c (Airbrake.mkHandler airbrakeNotifier) logger false.

(** ** The servers *)

(** [StartServerMetrics]; the reporter registers its metrics when it starts. *)
Definition StartServerMetrics (monitoring : MonitoringConfig) (collector : MetricCollector) : go Sys () :=
  on_process (connection_registerMetricsOnce collector);;
  acts (Background <$> background_servers monitoring (clock m));;
  on_process (usage_registerMetricsOnce collector).

(** [StartStatusServer] *)
Definition StartStatusServer (c : Config) (logger : option Logger) : go Sys (option GoError) :=
  let address := "0.0.0.0:" +:+ strconv.Itoa (StatusPort c) in
  match Listen m address with
  | Some err =>
      mret (Some (ErrorString ("bind health listener on " +:+ address +:+ ": " +:+ Error_String err)))
  | None =>
      act (Listening address);;
      act (ServingStatus address);;
      logS (ActivityLog logger "status_server_configured" {["address" := AString address]});;
      mret None
  end.

Definition close_producer (logger : option Logger) (entry : Dispatcher * producer) : go Sys () :=
  let '(d, p) := entry in
  logS (ActivityLog logger "attempting_to_close" {["dispatcher" := AString d]});;
  act (ProducerClosed d);;
  match Producers.Close (clients m) p with
  | Some err => logS (ErrorLog logger "producer_close_error" (Some err) {["dispatcher" := AString d]})
  | None => skip
  end.

(** The [select] of [startServer]. *)
Definition await_stop (logger : option Logger) : go Sys (option GoError) :=
  match stop m with
  | ServeEnded err => mret (Some err)
  | Signalled signal shutdown =>
      logS (ActivityLog logger "shutdown_requested" {["signal" := AString signal]});;
      act ServerShutdown;;
      mret shutdown
  end.

Definition stop_result (address : string) (err : option GoError) : result () :=
  match err with
  | None => Ok ()
  | Some err =>
      if is_ErrServerClosed m err then Ok ()
      else fail ("telemetry listener failed on " +:+ address +:+ ": " +:+ Error_String err)
  end.

(** [startServer] from the listener of the status page on. *)
Definition serve (c : Config) (dispatchers : gmap Dispatcher producer) (address : string)
    (logger : option Logger) : go Sys (result ()) :=
  failed ← (if 0 <? StatusPort c then StartStatusServer c logger else mret None);
  match failed with
  | Some err => act (ListenerClosed address);; mret (Err err)
  | None =>
      logS (ActivityLog logger "telemetry_listener_configured" (list_to_map
        [("address", AString address); ("tls_enabled", ABool true)]));;
      act (Serving address);;
      act SignalsNotified;;
      deferring (act SignalsStopped)
        (err ← await_stop logger;
         for_range (close_producer logger) (range dispatchers);;
         logS (ActivityLog logger "stopped_server" ∅);;
         mret (stop_result address err))
  end.

(** From the server made from the producers on. *)
Definition listen_and_serve (c : Config) (collector : MetricCollector)
    (dispatchers : gmap Dispatcher producer) (logger : option Logger) : go Sys (result ()) :=
  on_process (server_registerMetricsOnce collector);;
  act AcksHandled;;
  let address := Host c +:+ ":" +:+ strconv.Itoa (Port c) in
  match Listen m address with
  | Some err =>
      mret (fail ("telemetry listener bind failed on " +:+ address +:+ ": " +:+ Error_String err))
  | None =>
      act (Listening address);;
      serve c dispatchers address logger
  end.

Definition startServer (c : Config) (collector : MetricCollector) (airbrakeNotifier : bool)
    (logger : option Logger) : go Sys (result ()) :=
  logS (ActivityLog logger "starting_server" ∅);;
  match Monitoring c with
  | Some monitoring => StartServerMetrics monitoring collector
  | None => skip
  end;;
  tls ← with_lines (serverTLSConfig (ParseAddress m) (Quote m) (LoadX509KeyPair m) (MkdirAll m) (ManageSync m)
          (ReadFile m) (has_certificate m) (defaultEngCA m) (defaultProdCA m) (env m) c logger);
  match tls with
  | Err err => mret (Err err)
  | Ok _ =>
      let? configured := configure_producers c collector airbrakeNotifier logger in
      listen_and_serve c collector configured.1 logger
  end.

(** ** The process *)

(** Deferred [NotifyOnPanic]: the panic goes on. *)
Definition NotifyOnPanic {A} (body : go Sys A) : go Sys A := fun s =>
  match body s with
  | (Panic why, s') => (Panic why, (act (PanicNotified why) s').2)
  | r => r
  end.

Definition close_notifier (logger : option Logger) : go Sys () :=
  act NotifierClosed;;
  match NotifierClose m with
  | Some err => logS (ErrorLog logger "airbrake_close_error" (Some err) ∅)
  | None => skip
  end.

Definition close_collector (collector : MetricCollector) : go Sys () :=
  act (CollectorClosed collector);;
  match collector with
  | PrometheusCollector => on_process Shutdown
  | StatsdCollector _ _ _ | NoopCollector => skip
  end.

Definition set_ProfilingPath (path : string) (c : Config) : Config :=
  mkConfig (Host c) (Port c) (StatusPort c) (Config_TLS c) (UseDefaultEngCA c)
    (Config_RateLimit c) (ReliableAckSources c) (Kafka c) (Config_Kinesis c) (Pubsub_ProjectID c)
    (ZMQ_set c) (Config_Redis c) (Namespace c)
    ((fun p => mkMonitoringConfig (PrometheusMetricsPort p) (PrometheusMetricsHost p) (Statsd p)
        (ProfilerPort p) (ProfilerHost p) path) <$> Monitoring c)
    (LogLevel c) (JSONLogEnable c) (Records c) (TransmitDecodedRecords c)
    (VinsSignalTrackingEnabled c) (MQTT_set c).

(** The file of the profiler: without it the profiler is off. *)
Definition open_profile (c : Config) (logger : option Logger) : go Sys (Config * option string) :=
  match Monitoring c with
  | Some p =>
      if String.eqb (ProfilingPath p) "" then mret (c, None)
      else match CreateFile m (ProfilingPath p) with
           | Err err =>
               logS (ErrorLog logger "profiling_file_error" (Some err) ∅);;
               mret (set_ProfilingPath "" c, None)
           | Ok _ => act (FileCreated (ProfilingPath p));; mret (c, Some (ProfilingPath p))
           end
  | None => mret (c, None)
  end.

(** [run] after the profiler. *)
Definition run_server (c : Config) (collector : MetricCollector) (logger : option Logger)
  : go Sys (result ()) :=
  notifier ← with_lines (CreateAirbrakeNotifier (LoadX509KeyPair m) (ReadFile m) (has_certificate m)
               (env m) (airbrake m) logger);
  match notifier with
  | Err err => mret (fail ("configure Airbrake: " +:+ Error_String err))
  | Ok None => startServer c collector false logger
  | Ok (Some _) =>
      NotifyOnPanic (deferring (close_notifier logger) (startServer c collector true logger))
  end.

Definition run : go Sys (result ()) :=
  loaded ← LoadApplicationConfiguration;
  match loaded with
  | Err err => mret (fail ("CONFIGURATION ERROR: " +:+ Error_String err))
  | Ok (c, logger, collector) =>
      match ValidateRuntime (env m) c with
      | Err err => mret (fail ("CONFIGURATION ERROR: " +:+ Error_String err))
      | Ok _ =>
          deferring (close_collector collector)
            ('(c, file) ← open_profile c (Some logger);
             deferring (match file with Some path => act (FileClosed path) | None => skip end)
               (run_server c collector (Some logger)))
      end
  end.

(** [main]: the exit code and the line on the standard error. *)
Definition main_exit (r : result ()) : Z * option string :=
  match r with
  | Ok _ => (0, None)
  | Err err => (1, Some ("fleet-telemetry startup failed: " +:+ Error_String err))
  end.
End Operations.

(** ** Specification *)

Definition stop_actions {cert} (m : Machine cert) : list action :=
  match stop m with ServeEnded _ => [] | Signalled _ _ => [ServerShutdown] end.
Definition stop_error {cert} (m : Machine cert) : option GoError :=
  match stop m with ServeEnded err => Some err | Signalled _ shutdown => shutdown end.

(** A producer is closed. *)
Definition closing (a : action) : bool := match a with ProducerClosed _ => true | _ => false end.

(** ** Lemmas *)

#[local] Transparent lift.

Section Serving.
Context {PM : PrometheusClient} {PS : PrometheusClientSpec PM} {cert : Type}.
Variable m : Machine cert.
Variable range : forall A, gmap string A -> list (string * A).
Variable collector : MetricCollector.

Lemma does_close_producer l e : does collector (close_producer m (Some l) e) () [ProducerClosed e.1].
Proof.
  destruct e as [d p]. unfold close_producer. eapply does_eq.
  - does_all. destruct (Producers.Close _ p); does_all.
  - done.
Qed.

Lemma does_close_producers l ds :
  does collector (for_range (close_producer m (Some l)) ds) () (ProducerClosed <$> ds.*1).
Proof.
  induction ds as [|d ds IH]; [apply does_ret|]. cbn [for_range fmap list_fmap].
  eapply (does_bind _ _ _ _ _ [_]); [apply does_close_producer|exact IH].
Qed.

Lemma does_await_stop l : does collector (await_stop m (Some l)) (stop_error m) (stop_actions m).
Proof.
  unfold await_stop, stop_error, stop_actions. destruct (stop m); [apply does_ret|].
  eapply does_eq; [does_all|done].
Qed.

(** The status page: its address, and what starting it does. *)
Definition status_address (c : Config) : string := "0.0.0.0:" +:+ strconv.Itoa (StatusPort c).
Definition status_error (c : Config) : option GoError :=
  if 0 <? StatusPort c then Listen m (status_address c) else None.
Definition status_actions (c : Config) : list action :=
  if 0 <? StatusPort c then [Listening (status_address c); ServingStatus (status_address c)] else [].

Definition bind_error (c : Config) (err : GoError) : GoError :=
  ErrorString ("bind health listener on " +:+ status_address c +:+ ": " +:+ Error_String err).

Lemma does_status c l :
  does collector (if 0 <? StatusPort c then StartStatusServer m c (Some l) else mret None)
    (bind_error c <$> status_error c)
    match status_error c with Some _ => [] | None => status_actions c end.
Proof.
  unfold status_error, status_actions. destruct (0 <? StatusPort c); [|apply does_ret].
  unfold StartStatusServer, status_address. cbv zeta. destruct (Listen m _); [apply does_ret|].
  eapply does_eq; [does_all|done].
Qed.

Definition served (c : Config) (dispatchers : gmap Dispatcher producer) (address : string) : list action :=
  ([Serving address; SignalsNotified] ++ stop_actions m ++
   (ProducerClosed <$> (range _ dispatchers).*1) ++ [SignalsStopped])%list.

Lemma does_serve c dispatchers address l :
  match status_error c with
  | Some err => does collector (serve m range c dispatchers address (Some l))
                  (Err (bind_error c err)) [ListenerClosed address]
  | None => does collector (serve m range c dispatchers address (Some l))
              (stop_result m address (stop_error m)) (status_actions c ++ served c dispatchers address)
  end.
Proof.
  pose proof (does_status c l) as Hs. unfold serve. destruct (status_error c) as [err|]; cbn in Hs.
  - eapply (does_bind _ _ _ _ _ []); [exact Hs|]. cbv beta iota.
    eapply does_eq; [does_all|done].
  - eapply does_bind; [exact Hs|]. cbv beta iota. eapply does_eq.
    + does_all; [apply does_await_stop|apply does_close_producers].
    + unfold served. cbn. by rewrite app_nil_r, <- app_assoc.
Qed.

(** Nothing before the telemetry listener panics. *)
Lemma serverTLSConfig_total c l :
  exists r lines, serverTLSConfig (ParseAddress m) (Quote m) (LoadX509KeyPair m) (MkdirAll m) (ManageSync m)
    (ReadFile m) (has_certificate m) (defaultEngCA m) (defaultProdCA m) (env m) c (Some l) = Ret (r, lines).
Proof.
  unfold serverTLSConfig, ExtractServiceTLSConfig, configureServerCertificate.
  destruct (Config_TLS c) as [t|]; [|by eexists _, _].
  repeat (case_match; simpl; try by eexists _, _).
Qed.

Definition background_actions (c : Config) : list action :=
  match Monitoring c with
  | Some monitoring => Background <$> background_servers monitoring (clock m)
  | None => []
  end.

Lemma does_monitoring c :
  does collector match Monitoring c with
       | Some monitoring => StartServerMetrics m monitoring collector
       | None => skip
       end () (background_actions c).
Proof.
  unfold background_actions. destruct (Monitoring c) as [monitoring|]; [|apply does_ret].
  unfold StartServerMetrics. eapply does_eq; [does_all|]. cbn.
  rewrite app_nil_r. by induction (background_servers monitoring (clock m)) as [|b l IH]; cbn; [|f_equal].
Qed.
End Serving.

(** ** Theorems *)

Section Theorems.
Context {PM : PrometheusClient} {PS : PrometheusClientSpec PM} {cert : Type}.
Variable m : Machine cert.
Variable range : forall A, gmap string A -> list (string * A).
Variable collector : MetricCollector.

Definition telemetry_address (c : Config) : string := Host c +:+ ":" +:+ strconv.Itoa (Port c).

(** What the TLS configuration of the server is, or the error of making it. *)
Definition tls_result (c : Config) (l : Logger) (r : result (tls_Config cert)) : Prop :=
  exists lines, serverTLSConfig (ParseAddress m) (Quote m) (LoadX509KeyPair m) (MkdirAll m) (ManageSync m)
    (ReadFile m) (has_certificate m) (defaultEngCA m) (defaultProdCA m) (env m) c (Some l) = Ret (r, lines).

(** The producers are configured with these actions, or fail after them. *)
Definition configures (c : Config) (airbrakeNotifier : bool) (l : Logger)
    (producers : gmap Dispatcher producer) (setup : list action) : Prop :=
  exists rules, configured (clients m) range c (Airbrake.mkHandler airbrakeNotifier) l false producers rules /\
    does collector (configure_producers m range c collector airbrakeNotifier (Some l)) (Ok (producers, rules)) setup.
Definition fails_to_configure (c : Config) (airbrakeNotifier : bool) (l : Logger) (err : GoError)
    (setup : list action) : Prop :=
  does collector (configure_producers m range c collector airbrakeNotifier (Some l)) (Err err) setup.

Definition listen_error (c : Config) (err : GoError) : GoError :=
  ErrorString ("telemetry listener bind failed on " +:+ telemetry_address c +:+ ": " +:+ Error_String err).

(** Those of a server that started, [setup] being those of the producers'
    constructors. *)
Definition started (c : Config) (setup : list action) (closed : list Dispatcher) : list action :=
  let address := telemetry_address c in
  (background_actions m c ++ setup ++ [AcksHandled; Listening address] ++ status_actions c ++
   [Serving address; SignalsNotified] ++ stop_actions m ++ (ProducerClosed <$> closed) ++
   [SignalsStopped])%list.

(** How [startServer] ends: its result and what it did, after the servers of the
    metrics and of the profiler were started.  Each case but the last names what
    failed, all before it having succeeded. *)
Inductive startup (c : Config) (airbrakeNotifier : bool) (l : Logger) : result () -> list action -> Prop :=
| no_certificate err :
    tls_result c l (Err err) ->
    startup c airbrakeNotifier l (Err err) (background_actions m c)
| no_producers tls err setup :
    tls_result c l (Ok tls) -> fails_to_configure c airbrakeNotifier l err setup -> Forall setup_action setup ->
    startup c airbrakeNotifier l (Err err) (background_actions m c ++ setup)
| no_address tls producers setup err :
    tls_result c l (Ok tls) -> configures c airbrakeNotifier l producers setup -> Forall setup_action setup ->
    Listen m (telemetry_address c) = Some err ->
    startup c airbrakeNotifier l (Err (listen_error c err)) (background_actions m c ++ setup ++ [AcksHandled])
| no_status_page tls producers setup err :
    tls_result c l (Ok tls) -> configures c airbrakeNotifier l producers setup -> Forall setup_action setup ->
    Listen m (telemetry_address c) = None -> status_error m c = Some err ->
    startup c airbrakeNotifier l (Err (bind_error c err))
      (background_actions m c ++ setup ++
       [AcksHandled; Listening (telemetry_address c); ListenerClosed (telemetry_address c)])
| serves tls producers setup closed :
    tls_result c l (Ok tls) -> configures c airbrakeNotifier l producers setup -> Forall setup_action setup ->
    Listen m (telemetry_address c) = None -> status_error m c = None ->
    closed ≡ₚ (map_to_list producers).*1 ->
    startup c airbrakeNotifier l (stop_result m (telemetry_address c) (stop_error m)) (started c setup closed).

Lemma does_listen_and_serve c dispatchers l :
  match Listen m (telemetry_address c), status_error m c with
  | Some err, _ =>
      does collector (listen_and_serve m range c collector dispatchers (Some l)) (Err (listen_error c err))
        [AcksHandled]
  | None, Some err =>
      does collector (listen_and_serve m range c collector dispatchers (Some l)) (Err (bind_error c err))
        [AcksHandled; Listening (telemetry_address c); ListenerClosed (telemetry_address c)]
  | None, None =>
      does collector (listen_and_serve m range c collector dispatchers (Some l))
        (stop_result m (telemetry_address c) (stop_error m))
        (AcksHandled :: Listening (telemetry_address c) ::
           (status_actions c ++ served m range c dispatchers (telemetry_address c)))
  end.
Proof.
  unfold listen_and_serve. cbv zeta. fold (telemetry_address c).
  destruct (Listen m (telemetry_address c)) as [err|]; [eapply does_eq; [does_all|done]|].
  pose proof (does_serve m range collector c dispatchers (telemetry_address c) l) as Hserve.
  destruct (status_error m c) as [err|]; (eapply does_eq; [does_all; exact Hserve|done]).
Qed.

Lemma startServer_does c airbrakeNotifier l :
  (forall A (x : gmap string A), range A x ≡ₚ map_to_list x) ->
  exists r t, does collector (startServer m range c collector airbrakeNotifier (Some l)) r t /\
    startup c airbrakeNotifier l r t.
Proof.
  intros Hrange. unfold startServer. destruct (serverTLSConfig_total m c l) as (tls & lines & Htls).
  pose proof (does_with_lines collector _ _ _ Htls) as Hlines.
  assert (Ht : tls_result c l tls) by (by eexists).
  destruct tls as [tls|err].
  2: { exists (Err err), (background_actions m c). split; [|by constructor].
       eapply does_eq; [does_all; first [apply does_monitoring|apply does_ret]|]. by rewrite !app_nil_r. }
  destruct (configure_settles (clients m) (env m) (LoadX509KeyPair m) (ReadFile m) (has_certificate m) range
    collector c (Airbrake.mkHandler airbrakeNotifier) l Hrange false) as (_ & r & setup & Hdoes & Hsetup & _ & Hr).
  destruct r as [[producers rules]|err].
  2: { exists (Err err), (background_actions m c ++ setup)%list. split; [|by eapply no_producers].
       eapply does_eq; [does_all; first [apply does_monitoring|by apply bind_result_Err]|].
       by rewrite ?app_nil_r. }
  assert (Hc : configures c airbrakeNotifier l producers setup) by (by exists rules).
  pose proof (does_listen_and_serve c producers l) as Hrun.
  destruct (Listen m (telemetry_address c)) as [err|] eqn:El; [|destruct (status_error m c) as [err|] eqn:Es].
  all: eexists _, _; split; [eapply does_eq;
    [does_all; first [apply does_monitoring|by eapply bind_result_Ok]|reflexivity]|].
  - by eapply no_address.
  - by eapply no_status_page.
  - assert (Hcl : (range _ producers).*1 ≡ₚ (map_to_list producers).*1) by (by rewrite Hrange).
    pose proof (serves c airbrakeNotifier l tls producers setup _ Ht Hc Hsetup El Es Hcl) as Hs.
    unfold started in Hs. unfold served. rewrite <- ?app_assoc in *. exact Hs.
Qed.

(** C6: [startServer] does not panic, and ends in one of five ways ([startup]),
    each under its condition.  When its TLS configuration, one of its producers,
    its address or that of its status page fails, it reports the error and
    serves nothing: of the telemetry and status listeners none stays open, while
    what was started before, the servers of the metrics and of the profiler and
    what the producers' constructors did, stays until the process ends.  When
    none fails it serves the configured address until the server fails or a
    signal shuts it down, and then closes every producer exactly once, whatever
    closing the others answered; it reports an error exactly when the server
    ended with one other than that of an orderly shutdown. *)
Theorem server_lifecycle c airbrakeNotifier l s :
  (forall A (x : gmap string A), range A x ≡ₚ map_to_list x) -> ready collector s ->
  exists r s' t, startServer m range c collector airbrakeNotifier (Some l) s = (Ret r, s') /\
    actions (did s') = (actions (did s) ++ t)%list /\ startup c airbrakeNotifier l r t.
Proof.
  intros Hrange Hs.
  destruct (startServer_does c airbrakeNotifier l Hrange) as (r & t & Hdoes & Ht).
  destruct (Hdoes s Hs) as (s' & Hrun & Hact & _). by exists r, s', t.
Qed.
End Theorems.

(** A machine with a certificate, whose server is told to stop. *)
Definition sample_machine : Machine string :=
  {| env := fun _ => None; config_flag := None; read_config := fun _ => NotExist;
     files := no_files; ParseLevel := Ok; CreateFile := fun _ => Ok ();
     LoadX509KeyPair := fun c k => Ok (c +:+ k); ReadFile := fun _ => Ok [Byte.x02];
     has_certificate := fun _ => true; defaultEngCA := [Byte.x00]; defaultProdCA := [Byte.x01];
     ParseAddress := fun _ => None; Quote := quote; MkdirAll := fun _ => None; ManageSync := fun o _ => Ok (DefaultServerName o);
     airbrake := None; clock := 0; clients := sample_clients; Listen := fun _ => None;
     stop := Signalled "interrupt" None; is_ErrServerClosed := fun _ => false; NotifierClose := None |}.

Definition served_config : Config := set_TLS (Some (mkTLS "" "c" "k")) producers_config.

Definition sample_start : outcome (result ()) * Sys :=
  startServer (PM := PrometheusRef) sample_machine (fun _ => map_to_list) served_config NoopCollector
    false (Some (mkLogger ∅ "")) idle.

Lemma server_lifecycle_witness :
  exists s' producers setup closed, sample_start = (Ret (Ok ()), s') /\
    configures (PM := PrometheusRef) sample_machine (fun _ => map_to_list) NoopCollector served_config
      false (mkLogger ∅ "") producers setup /\
    actions (did s') = started sample_machine served_config setup closed /\
    closed ≡ₚ (map_to_list producers).*1.
Proof.
  destruct (server_lifecycle (PM := PrometheusRef) sample_machine (fun _ => map_to_list) NoopCollector
    served_config false (mkLogger ∅ "") idle (fun _ _ => reflexivity _) ltac:(by intros ?))
    as (r & s' & t & Hrun & Hact & Hends).
  assert (Hr : sample_start.1 = Ret (Ok ())) by (vm_compute; reflexivity).
  assert (E : sample_start = (Ret r, s')) by exact Hrun.
  rewrite E in Hr |- *. injection Hr as Hr. cbn in Hact.
  destruct Hends as [err|? err|? ? ? err|? ? ? err|tls producers setup closed _ Hp _ _ _ Hc];
    [discriminate Hr..|].
  exists s', producers, setup, closed. split; [by rewrite Hr|]. split; [exact Hp|]. split; [exact Hact|exact Hc].
Defined.

(** ** What the process releases *)

Lemma grows_for_range {A} (f : A -> go Sys ()) l : (forall a, grows (f a)) -> grows (for_range f l).
Proof. intros Hf. induction l as [|a l IH]; cbn [for_range]; emits. Qed.

(** The actions of a deferred call come after those of the body. *)
Lemma deferring_did {A} (after : go Sys ()) (body : go Sys A) s t :
  grows body -> (forall s, did (after s).2 = (did s ++ t)%list) ->
  exists u, did (body s).2 = (did s ++ u)%list /\ did (deferring after body s).2 = (did s ++ u ++ t)%list /\
    Forall (fun a => collector_event a = false) u.
Proof.
  intros Hb Ha. destruct (Hb s) as (u & Hu & Hok). exists u. split; [exact Hu|]. split; [|exact Hok].
  unfold deferring. destruct (body s) as [[a|why] s1]; cbn in Hu; specialize (Ha s1);
    destruct (after s1) as [[] s2]; cbn in *; by rewrite Ha, Hu, app_assoc.
Qed.

Lemma grows_deferring {A} (after : go Sys ()) (body : go Sys A) :
  grows body -> grows after -> grows (deferring after body).
Proof.
  intros Hb Ha s. destruct (Hb s) as (u & Hu & Hok). unfold deferring.
  destruct (body s) as [[a|why] s1]; cbn in Hu; destruct (Ha s1) as (v & Hv & Hok');
    destruct (after s1) as [[] s2]; cbn in *; exists (u ++ v)%list; rewrite Hv, Hu, app_assoc;
    (split; [done|by apply Forall_app]).
Qed.

Lemma grows_NotifyOnPanic {A} (body : go Sys A) : grows body -> grows (NotifyOnPanic body).
Proof.
  intros Hb s. destruct (Hb s) as (u & Hu & Hok). unfold NotifyOnPanic.
  destruct (body s) as [[a|why] s1]; cbn in Hu; [by exists u|exists (u ++ [PanicNotified why])%list].
  cbn. rewrite Hu, app_assoc. split; [done|]. apply Forall_app. split; [done|by constructor].
Qed.

Section Releases.
Context {PM : PrometheusClient} {cert : Type}.
Variable m : Machine cert.
Variable range : forall A, gmap string A -> list (string * A).

Lemma grows_bind_result {A B} (c : go Sys (result A)) (f : A -> go Sys (result B)) :
  grows c -> (forall a, grows (f a)) -> grows (bind_result c f).
Proof. intros Hc Hf. unfold bind_result. emits. Qed.

Lemma grows_add {A} c d (configured : option A) name make ps :
  (forall a, grows (make a)) -> grows (add c d configured name make ps).
Proof. intros Hm. unfold add. emits. apply grows_bind_result; [apply Hm|intros p; emits]. Qed.

Lemma grows_provision ps txTypes : grows (provision ps txTypes).
Proof.
  unfold provision. emits. apply grows_acts, Forall_fmap, Forall_true. by intros [|[]| | |].
Qed.

Lemma grows_configure c collector b l : grows (configure_producers m range c collector b l).
Proof.
  unfold configure_producers, ConfigureProducers, new_producers, connect.
  repeat first
    [ apply grows_bind_result; [|intros ?] | apply grows_add; intros ? | apply grows_provision
    | unfold new_kafka, new_pubsub, new_kinesis, new_zmq, new_mqtt, new_redis; progress emits ].
Qed.

Lemma grows_startServer c collector b l : grows (startServer m range c collector b l).
Proof.
  unfold startServer, StartServerMetrics, listen_and_serve, serve, StartStatusServer, await_stop.
  emits. apply grows_bind_result; [apply grows_configure|intros configured]. emits. apply grows_deferring; [|emits]. emits.
  apply grows_for_range. intros d. unfold close_producer. emits.
Qed.

Lemma grows_run_server c collector l : grows (run_server m range c collector l).
Proof.
  unfold run_server, close_notifier. emits; [|apply grows_startServer].
  apply grows_NotifyOnPanic, grows_deferring; [apply grows_startServer|emits].
Qed.

Lemma close_collector_did collector s :
  did (close_collector collector s).2 = (did s ++ [CollectorClosed collector])%list.
Proof.
  unfold close_collector, mbind, go_bind, act, modify. destruct collector; [|done..].
  unfold on_process. by destruct (Shutdown _).
Qed.

Lemma close_notifier_did l s :
  exists lines, did (close_notifier m (Some l) s).2 = (did s ++ NotifierClosed :: lines)%list.
Proof.
  set (s1 := mkSys (did s ++ [NotifierClosed]) (process s) (std s)).
  assert (H : grows match NotifierClose m with
    | Some err => logS (ErrorLog (Some l) "airbrake_close_error" (Some err) ∅)
    | None => skip
    end) by emits.
  destruct (H s1) as (t & Ht & _). exists t. unfold close_notifier, mbind, go_bind.
  change (act NotifierClosed s) with (Ret (A := ()) (), s1). cbv beta iota. rewrite Ht. cbn.
  by rewrite <- app_assoc.
Qed.

(** A notifier that was made is closed, and before a panic is notified. *)
Lemma run_server_notifier c collector l o lines s :
  CreateAirbrakeNotifier (LoadX509KeyPair m) (ReadFile m) (has_certificate m) (env m) (airbrake m)
    (Some l) = Ret (Ok (Some o), lines) ->
  exists u v, did (run_server m range c collector (Some l) s).2 = (did s ++ u ++ NotifierClosed :: v)%list /\
    forall why, (run_server m range c collector (Some l) s).1 = Panic why -> PanicNotified why ∈ v.
Proof.
  intros Ha. unfold run_server, with_lines, mbind, go_bind. rewrite Ha. cbn [lift].
  unfold NotifyOnPanic, deferring.
  change (acts (Line <$> lines) s) with (Ret (A := ()) (), mkSys (did s ++ (Line <$> lines))%list (process s) (std s)).
  cbv beta iota. unfold mret, go_ret. cbv beta iota.
  destruct (grows_startServer c collector true (Some l) (mkSys (did s ++ (Line <$> lines))%list (process s) (std s)))
    as (u & Hu & _). cbn in Hu.
  destruct (startServer m range c collector true (Some l) _) as [[r|why] s1]; cbn in Hu;
    destruct (close_notifier_did l s1) as [v Hv];
    destruct (close_notifier m (Some l) s1) as [[[]|why'] s2]; cbn in Hv |- *;
    rewrite Hv, Hu, <- ?app_assoc; cbn;
    eexists ((Line <$> lines) ++ u)%list, _; (split; [rewrite <- ?app_assoc; cbn; reflexivity|]);
    intros ? [= <-]; rewrite ?elem_of_app, ?list_elem_of_singleton; auto.
Qed.

(** What happens between opening the file of the profiler and closing it. *)
Definition profiled (c : Config) (t : list action) : Prop :=
  forall p, Monitoring c = Some p -> ProfilingPath p <> "" -> CreateFile m (ProfilingPath p) = Ok () ->
  exists u, t = FileCreated (ProfilingPath p) :: (u ++ [FileClosed (ProfilingPath p)])%list.

Definition with_profile (c : Config) (collector : MetricCollector) (l : option Logger) : go Sys (result ()) :=
  '(c, file) ← open_profile m c l;
  deferring (match file with Some path => act (FileClosed path) | None => skip end)
    (run_server m range c collector l).

Lemma close_file_did (file : option string) s :
  did ((match file with Some path => act (FileClosed path) | None => skip end : go Sys ()) s).2 =
  (did s ++ match file with Some path => [FileClosed path] | None => [] end)%list.
Proof. destruct file; [done|]. cbn. by rewrite app_nil_r. Qed.

(** The file that is opened, if any, and the configuration left. *)
Lemma open_profile_did c l s :
  exists c' file t, open_profile m c (Some l) s = (Ret (c', file), mkSys (did s ++ t)%list (process s) (std s)) /\
    Forall (fun a => collector_event a = false) t /\
    (file = None /\ (forall p, Monitoring c = Some p -> ProfilingPath p <> "" ->
                      CreateFile m (ProfilingPath p) <> Ok ()) \/
     exists p, Monitoring c = Some p /\ file = Some (ProfilingPath p) /\ c' = c /\
       t = [FileCreated (ProfilingPath p)]).
Proof.
  unfold open_profile. destruct (Monitoring c) as [p|].
  2: { exists c, None, []. rewrite app_nil_r. split_and!; [by destruct s|constructor|by left]. }
  destruct (String.eqb_spec (ProfilingPath p) "") as [Hp|Hp].
  { exists c, None, []. rewrite app_nil_r. split_and!; [by destruct s|constructor|].
    left. split; [done|]. naive_solver. }
  destruct (CreateFile m (ProfilingPath p)) as [[]|err] eqn:Hc.
  - eexists c, (Some _), _. split; [reflexivity|]. split; [by repeat constructor|]. right. by exists p.
  - eexists _, None, _. split; [reflexivity|]. split; [apply Forall_fmap, Forall_true; done|].
    left. split; [done|]. intros ? [= <-] _. by rewrite Hc.
Qed.

(** The notifier that is made. *)
Definition notified (l : Logger) : Prop :=
  exists o lines, CreateAirbrakeNotifier (LoadX509KeyPair m) (ReadFile m) (has_certificate m) (env m)
    (airbrake m) (Some l) = Ret (Ok (Some o), lines).

Lemma with_profile_did c collector l s :
  exists t, did (with_profile c collector (Some l) s).2 = (did s ++ t)%list /\ profiled c t /\
    (notified l -> NotifierClosed ∈ t) /\ Forall (fun a => collector_event a = false) t.
Proof.
  unfold with_profile, mbind, go_bind.
  destruct (open_profile_did c l s) as (c' & file & t & -> & Hok & Hfile). cbv beta iota.
  set (s1 := mkSys (did s ++ t)%list (process s) (std s)).
  destruct (deferring_did (match file with Some path => act (FileClosed path) | None => skip end)
    (run_server m range c' collector (Some l)) s1 _ (grows_run_server _ _ _) (close_file_did file))
    as (u & Hrun & Hu & Hok').
  eexists. split; [rewrite Hu; cbn; rewrite <- !app_assoc; reflexivity|]. split_and!.
  - intros p Hp Hpath Hcreate. destruct Hfile as [[_ Hno]|(p' & Hp' & -> & _ & ->)].
    + by destruct (Hno p Hp Hpath).
    + rewrite Hp in Hp'. injection Hp' as <-. by exists u.
  - intros (o & lines & Ha). destruct (run_server_notifier c' collector l o lines s1 Ha) as (v & w & Hv & _).
    rewrite Hrun in Hv. apply app_inv_head in Hv as ->. set_solver.
  - rewrite !Forall_app. split_and!; [done..|]. destruct file; by repeat constructor.
Qed.

Lemma run_did c l collector s s1 :
  LoadApplicationConfiguration m s = (Ret (Ok (c, l, collector)), s1) ->
  ValidateRuntime (env m) c = Ok () ->
  run m range s = deferring (close_collector collector) (with_profile c collector (Some l)) s1.
Proof. intros Hload Hvalid. unfold run, mbind at 1, go_bind at 1. rewrite Hload. by rewrite Hvalid. Qed.

(** Loading a configuration makes two collectors of the same kind. *)
Lemma NewCollector_total monitoring :
  exists c, forall l, exists lines, NewCollector monitoring (Some l) = Ret (c, lines).
Proof.
  unfold NewCollector, NewStatsdCollector. destruct monitoring as [p|].
  - destruct (0 <? PrometheusMetricsPort p); [eexists; intros l; eexists; reflexivity|].
    destruct (Statsd p) as [s|]; eexists; intros l; eexists; reflexivity.
  - eexists; intros l; eexists; reflexivity.
Qed.

Lemma does_configureLogger c l : does NoopCollector (configureLogger m c (Some l)) () [].
Proof.
  unfold configureLogger. eapply (does_bind _ _ _ _ _ []); [|apply does_std].
  destruct (ParseLevel m (LogLevel c)); [apply does_error || apply does_std..].
Qed.

Lemma load_actions c l collector s s1 :
  LoadApplicationConfiguration m s = (Ret (Ok (c, l, collector)), s1) ->
  actions (did s1) = (actions (did s) ++ [CollectorCreated collector; CollectorCreated collector])%list.
Proof.
  unfold LoadApplicationConfiguration, loadConfigWithCollector, configureMetricsCollector.
  destruct (NewBasicLogrusLogger (env m) "fleet-telemetry") as [l0|]; [|done]. cbv zeta.
  destruct (loadApplicationConfig _ _ _ _) as [c0|]; [|done].
  destruct (NewCollector_total (Monitoring c0)) as [col Hcol].
  destruct (Hcol (mkLogger {["context" := AString "metrics"]} "")) as [lines ->].
  destruct (Hcol l0) as [lines' Hlines].
  match goal with |- ?run s = _ -> _ =>
    assert (Hdoes : does NoopCollector run (Ok (c0, l0, col)) [CollectorCreated col; CollectorCreated col]) end.
  { eapply does_eq.
    - eapply (does_bind _ _ _ (Ok c0)).
      + eapply (does_bind _ _ _ (col, lines)); [|does_all].
        intros s0 Hs. exists s0. by rewrite app_nil_r.
      + cbv beta iota. eapply does_bind; [apply does_configureLogger|]. eapply does_bind; [apply does_activity|].
        does_all. by eapply does_with_lines.
    - done. }
  intros Hrun. destruct (Hdoes s ltac:(done)) as (s' & E & Hact & _).
  rewrite E in Hrun. injection Hrun as <- <- <- <-. exact Hact.
Qed.

(** C19: once its configuration is loaded and accepted, the process releases
    what it took, however it ends, panics included: the file of the profiler and
    the Airbrake notifier are closed, and the last thing it does is to close the
    metric collector; but two collectors were made, and only one is closed. *)
Theorem run_releases c l collector s s1 :
  LoadApplicationConfiguration m s = (Ret (Ok (c, l, collector)), s1) ->
  ValidateRuntime (env m) c = Ok () ->
  actions (did s1) = (actions (did s) ++ [CollectorCreated collector; CollectorCreated collector])%list /\
  exists t, did (run m range s).2 = (did s1 ++ t ++ [CollectorClosed collector])%list /\
    Forall (fun a => collector_event a = false) t /\ profiled c t /\ (notified l -> NotifierClosed ∈ t).
Proof.
  intros Hload Hvalid. split; [by eapply load_actions|].
  rewrite (run_did _ _ _ _ _ Hload Hvalid).
  destruct (with_profile_did c collector l s1) as (t & Ht & Hp & Hn & Hok). exists t.
  split; [|by split_and!]. unfold deferring.
  pose proof (close_collector_did collector (with_profile c collector (Some l) s1).2) as Hclose.
  destruct (with_profile c collector (Some l) s1) as [[r|why] s2]; cbn in *;
    destruct (close_collector collector s2) as [[] s3]; cbn in *; by rewrite Hclose, Ht, app_assoc.
Qed.
End Releases.

(** A monitored server with a profiler, whose configuration is in a file. *)
Definition monitored_config : Config :=
  mkConfig "h" 443 8080 (Some (mkTLS "" "c" "k")) false None ∅ None None None false None "ns"
    (Some (mkMonitoringConfig 0 "" (Some (mkStatsdConfig "sd:8125" "p" 0)) 0 "" "/tmp/profile"))
    "info" false {["V" := [Logger_]]} false [] false.

Definition monitored_machine : Machine string :=
  {| env := fun _ => None; config_flag := None; read_config := fun _ => Decoded monitored_config;
     files := no_files; ParseLevel := Ok; CreateFile := fun _ => Ok ();
     LoadX509KeyPair := fun c k => Ok (c +:+ k); ReadFile := fun _ => Ok [Byte.x02];
     has_certificate := fun _ => true; defaultEngCA := [Byte.x00]; defaultProdCA := [Byte.x01];
     ParseAddress := fun _ => None; Quote := quote; MkdirAll := fun _ => None; ManageSync := fun o _ => Ok (DefaultServerName o);
     airbrake := Some (mkAirbrake "a" "k" "e" 1 None); clock := 0; clients := sample_clients;
     Listen := fun _ => None; stop := Signalled "interrupt" None; is_ErrServerClosed := fun _ => false;
     NotifierClose := None |}.

Lemma run_releases_witness :
  exists u, did (run (PM := PrometheusRef) monitored_machine (fun _ => map_to_list) idle).2 =
    (did (LoadApplicationConfiguration monitored_machine idle).2 ++
     (FileCreated "/tmp/profile" :: u ++ [FileClosed "/tmp/profile"]) ++
     [CollectorClosed (StatsdCollector "sd:8125" "p" (100 * 10 ^ 6))])%list.
Proof.
  destruct (LoadApplicationConfiguration monitored_machine idle) as [[[[[c l] collector]|e]|why] s1] eqn:E;
    [|exfalso; apply (f_equal fst) in E; vm_compute in E; congruence..].
  assert (Hc : c = monitored_config /\ collector = StatsdCollector "sd:8125" "p" (100 * 10 ^ 6)).
  { apply (f_equal fst) in E. vm_compute in E. injection E as <- _ <-. split; vm_compute; reflexivity. }
  destruct Hc as [-> ->].
  destruct (run_releases (PM := PrometheusRef) monitored_machine (fun _ => map_to_list) _ _ _ _ _ E
    ltac:(vm_compute; reflexivity)) as (_ & t & Ht & _ & Hp & _).
  destruct (Hp _ eq_refl ltac:(discriminate) eq_refl) as [u ->]. exists u. exact Ht.
Defined.
