(* ===== verification/ControlPlane.v ===== *)
(** * The control plane (cmd/controlplane/main.go)

    A separate process that answers health requests: it is healthy when the
    telemetry endpoint completes a TLS handshake with a certificate that
    verifies, and it ends the handshake there.  Its configuration and the body
    of its answer are in [Startup.controlplane]; the dialer and the handshake
    are answers of the network. *)

From S2P Require Import Prelude GoStd GoJson Telemetry Config Monitoring Startup.
Import Startup.controlplane.
Local Open Scope string_scope.
Local Open Scope Z_scope.

(** ** The probe *)

(** The errors of a handshake: [errCertificateVerified] is compared by identity. *)
Inductive handshake_error :=
| errCertificateVerified
| HandshakeError (e : GoError).

(** What the network answers to a handshake: it fails before the certificate is
    verified, or [VerifyConnection] is called with a number of verified chains. *)
Inductive peer :=
| HandshakeFails (e : GoError)
| PeerVerified (VerifiedChains : Z).

(** The callback of the TLS configuration, which always ends the handshake. *)
Definition VerifyConnection (VerifiedChains : Z) : option handshake_error :=
  if VerifiedChains =? 0
  then Some (HandshakeError (ErrorString "server certificate chain was not verified"))
  else Some errCertificateVerified.

Definition HandshakeContext (p : peer) : option handshake_error :=
  match p with
  | HandshakeFails e => Some (HandshakeError e)
  | PeerVerified chains => VerifyConnection chains
  end.

(** [verifyTelemetryTLS]: [dial] is the error of the connection, if any. *)
Definition verifyTelemetryTLS (dial : option GoError) (p : peer) (endpoint : string) : option GoError :=
  match dial with
  | Some err => Some (ErrorString ("connect to " +:+ endpoint +:+ ": " +:+ Error_String err))
  | None =>
      match HandshakeContext p with
      | Some errCertificateVerified => None
      | Some (HandshakeError err) =>
          Some (ErrorString ("verify " +:+ endpoint +:+ ": " +:+ Error_String err))
      | None => None
      end
  end.

(** What the process does: a line of [slog], or a call on the server. *)
Inductive cp_action :=
| Info (message : string) (attributes : list (string * string))
| Warn (message : string) (attributes : list (string * string)) (error : GoError)
| ErrorLine (message : string) (error : GoError)
| ListenAndServe (address : string)
| Shutdown.

(** The handler [run] installs: the lines it logs, and its answer. *)
Definition health_handler (config : applicationConfig) (dial : option GoError) (p : peer)
  : list cp_action * list response_call :=
  let err := verifyTelemetryTLS dial p (TelemetryEndpoint config) in
  (match err with
   | Some err =>
       [Warn "telemetry_health_check_failed" [("telemetry_endpoint", TelemetryEndpoint config)] err]
   | None => []
   end, health_response config err).

(** [newHandler]: the patterns of the multiplexer, all with this handler. *)
Definition patterns : list (string * string) := [("GET", "/"); ("GET", "/health"); ("GET", "/healthz")].

(** A pattern of [net/http]: GET is also HEAD, and a path that ends in a slash
    is the prefix of those it matches. *)
Definition matches (pattern : string * string) (method path : string) : bool :=
  (String.eqb method pattern.1 || String.eqb pattern.1 "GET" && String.eqb method "HEAD") &&
  (if strings.HasSuffix pattern.2 "/" then String.prefix pattern.2 path else String.eqb pattern.2 path).

(** The multiplexer on a request of a clean path: a path that only other
    methods match is answered with 405. *)
Definition newHandler (config : applicationConfig) (dial : option GoError) (p : peer)
    (method path : string) : list cp_action * list response_call :=
  if existsb (fun pattern => matches pattern method path) patterns
  then health_handler config dial p
  else ([], [WriteHeader 405; WriteBody (raw ("Method Not Allowed" +:+ String "010" EmptyString))]).

(** ** The process *)

(** The end of the server: [ListenAndServe] returns, or a signal arrives and
    [Shutdown] returns. *)
Inductive ending :=
| ServerEnded (closed : bool) (err : GoError)
| SignalReceived (signal : string) (shutdown : option GoError).

Definition run (Quote : string -> string) (env : environment) (e : ending) : list cp_action * result () :=
  match loadConfig Quote env with
  | Err err => ([], fail ("CONFIGURATION ERROR: " +:+ Error_String err))
  | Ok config =>
      let start :=
        [Info "control_plane_started" [("address", ListenAddress config);
                                       ("telemetry_endpoint", TelemetryEndpoint config)];
         ListenAndServe (ListenAddress config)] in
      match e with
      | ServerEnded closed err => (start, if closed then Ok () else Err err)
      | SignalReceived signal shutdown =>
          ((start ++ [Info "control_plane_shutdown_requested" [("signal", signal)]; Shutdown])%list,
           match shutdown with Some err => Err err | None => Ok () end)
      end
  end.

(** [main]: what the process does, and its exit code. *)
Definition main (Quote : string -> string) (env : environment) (e : ending) : list cp_action * Z :=
  match run Quote env e with
  | (actions, Ok _) => (actions, 0)
  | (actions, Err err) => ((actions ++ [ErrorLine "control_plane_stopped" err])%list, 1)
  end.

(** ** Theorems *)

(** The status of an answer. *)
Fixpoint status_of (calls : list response_call) : option Z :=
  match calls with
  | [] => None
  | WriteHeader code :: _ => Some code
  | _ :: rest => status_of rest
  end.

(** The control plane is healthy exactly when the endpoint was reached and
    presented a certificate with at least one verified chain; it is unavailable
    otherwise, and exactly then it logs a warning. *)
Theorem healthy_iff_verified config dial p :
  (status_of (health_handler config dial p).2 = Some 200 <->
   dial = None /\ exists chains, p = PeerVerified chains /\ chains <> 0) /\
  (status_of (health_handler config dial p).2 = Some 200 \/
   status_of (health_handler config dial p).2 = Some 503) /\
  (status_of (health_handler config dial p).2 = Some 503 <->
   exists err, (health_handler config dial p).1 =
     [Warn "telemetry_health_check_failed" [("telemetry_endpoint", TelemetryEndpoint config)] err]).
Proof.
  unfold health_handler, verifyTelemetryTLS.
  destruct dial as [err|]; [|destruct p as [err|chains]].
  1,2: split_and!; [split; [done|intros [Hd (k & Hk & _)]; congruence]|by right|split; [by eexists|done]].
  cbn [HandshakeContext]. unfold VerifyConnection. destruct (Z.eqb_spec chains 0) as [->|Hc].
  - split_and!; [|by right|split; [by eexists|done]]. split; [done|]. intros [_ (k & [= <-] & Hk)]. done.
  - split_and!; [|by left|split; [done|by intros []]]. split; [|done]. intros _. split; [done|]. by exists chains.
Qed.

(** Without a valid configuration nothing listens; with one, the server listens
    on its address and is shut down exactly on a signal. *)
Theorem control_plane_run Quote env e :
  match loadConfig Quote env with
  | Err _ => (run Quote env e).1 = [] /\ is_ok (run Quote env e).2 = false
  | Ok config =>
      ListenAndServe (ListenAddress config) ∈ (run Quote env e).1 /\
      (Shutdown ∈ (run Quote env e).1 <-> exists s r, e = SignalReceived s r)
  end.
Proof.
  unfold run. destruct (loadConfig Quote env) as [config|err]; [|done].
  destruct e as [closed err|signal shutdown]; cbn; split; try set_solver.
Qed.

(** Only GET and HEAD are answered, on every path. *)
Theorem health_methods config dial p method path :
  String.prefix "/" path = true ->
  (status_of (newHandler config dial p method path).2 = Some 405 <-> method <> "GET" /\ method <> "HEAD").
Proof.
  intros Hp. destruct (healthy_iff_verified config dial p) as (_ & Hs & _).
  unfold newHandler, patterns, matches. cbn [existsb fst snd].
  change (strings.HasSuffix "/" "/") with true. cbv iota. rewrite Hp, andb_true_r.
  change (String.eqb "GET" "GET") with true. cbn [andb].
  destruct (String.eqb_spec method "GET"), (String.eqb_spec method "HEAD"); cbn [orb andb existsb];
    [split; [intros H; destruct Hs; congruence|tauto]..|done].
Qed.
