(* ===== verification/Tools.v ===== *)
(** * The certificate tool (tools/main.go, tools/lib/certs.go)

    A command that generates a certificate authority and the server and client
    certificates it signs, for tests: the templates, the names of the files,
    and the files it writes.  Keys, signatures, encodings, the names of temporary
    files and the errors of the disk are arguments. *)

From S2P Require Import Prelude GoStd GoFloat Logger Telemetry Identity Config.
Local Open Scope string_scope.
Local Open Scope Z_scope.

(** ** Strings *)

(** [strings.Split] for a one-byte separator. *)
Fixpoint Split (s : string) (sep : ascii) : list string :=
  match s with
  | EmptyString => [EmptyString]
  | String c s =>
      if Ascii.eqb c sep then EmptyString :: Split s sep
      else match Split s sep with
           | part :: rest => String c part :: rest
           | [] => [String c EmptyString]
           end
  end.

Definition HasSuffix (s suffix : string) : bool :=
  strings.HasPrefix (strings.rev s) (strings.rev suffix).

Definition TrimSuffix (s suffix : string) : string :=
  if HasSuffix s suffix then String.substring 0 (String.length s - String.length suffix) s else s.

(** [strings.ToLower] on ASCII text. *)
Fixpoint ToLower (s : string) : string :=
  match s with
  | EmptyString => EmptyString
  | String c s =>
      let n := nat_of_ascii c in
      String (if (65 <=? n)%nat && (n <=? 90)%nat then ascii_of_nat (n + 32) else c) (ToLower s)
  end.

(** ** Certificates (lib/certs.go) *)

Record Name := mkName {
  CommonName : string;
  Organization : list string;
  OrganizationalUnit : list string
}.

Inductive KeyUsage := KeyEncipherment | DigitalSignature | CertSign.
Inductive ExtKeyUsage := ServerAuth | ClientAuth.

(** The fields of [x509.Certificate] the program sets, and the issuer, which
    signing sets; times and durations are in nanoseconds. *)
Record x509_Certificate := mkX509 {
  SerialNumber : Z;
  Subject : Name;
  Issuer : Name;
  NotBefore : Z;
  NotAfter : Z;
  x_KeyUsage : list KeyUsage;
  x_ExtKeyUsage : list ExtKeyUsage;
  x_UnknownExtKeyUsage : list (list Z);
  BasicConstraintsValid : bool;
  IsCA : bool;
  DNSNames : list string;
  IPAddresses : list (option string)
}.

Definition no_issuer : Name := mkName "" [] [].

Definition Hour : Z := 3600 * 10 ^ 9.

(** [notBefore.Add(time.Duration(CertValidity) * time.Hour)] *)
Definition end_of_validity (notBefore CertValidity : Z) : Z := notBefore + i64 (CertValidity * Hour).

(** The templates. *)
Definition server_template (ParseIP : string -> option string) (CertValidity serialNumber : Z)
    (commonName : string) (sanDomains sanIPs : list string) (notBefore : Z) : x509_Certificate :=
  mkX509 serialNumber (mkName commonName ["Test Co"] []) no_issuer notBefore
    (end_of_validity notBefore CertValidity) [KeyEncipherment; DigitalSignature] [ServerAuth] []
    true false (commonName :: sanDomains) (ParseIP <$> sanIPs).

Definition root_template (CertValidity serialNumber : Z) (commonName : string)
    (organizationalUnit : list string) (now1 now2 : Z) : x509_Certificate :=
  mkX509 serialNumber (mkName commonName ["Test Co"] organizationalUnit) no_issuer now1
    (end_of_validity now2 CertValidity) [KeyEncipherment; DigitalSignature; CertSign] [] []
    true true [] [].

Definition client_template (CertValidity serialNumber : Z) (commonName : string) (notBefore : Z)
  : x509_Certificate :=
  mkX509 serialNumber
    (mkName commonName ["Test Co"]
       (if strings.HasPrefix commonName "board" then ["Tesla Motors SN"] else []))
    no_issuer notBefore (end_of_validity notBefore CertValidity)
    [KeyEncipherment; DigitalSignature] [ClientAuth] [] false false [] [].

Definition client_template_with_OU (CertValidity serialNumber : Z)
    (commonName organization organizationalUnit : string) (now1 now2 : Z) : x509_Certificate :=
  mkX509 serialNumber (mkName commonName [organization] [organizationalUnit]) no_issuer now1
    (end_of_validity now2 CertValidity) [KeyEncipherment; DigitalSignature] [ClientAuth] []
    false false [] [].

(** ** Files *)

Abbreviation FS := (gmap string bytes).

(** [log.Fatal] *)
Definition Fatal {A} (msg : string) : go FS A := lift (Panic ("exit status 1: " +:+ msg)).
Definition try_ {A} (r : result A) : go FS A :=
  match r with Ok a => mret a | Err err => Fatal (Error_String err) end.

(** What the system answers: the error of an operation on a path, if any; and,
    when a write of a file or its close fails where the code drops the error,
    how many bytes of the content are stored. *)
Record Disk := mkDisk {
  io_error : string -> string -> option GoError;
  short : string -> bytes -> option nat
}.

Definition stored (disk : Disk) (path : string) (content : bytes) : bytes :=
  match short disk path content with None => content | Some n => take n content end.

Section Files.
Variable disk : Disk.

Definition io (operation path : string) : go FS () :=
  match io_error disk operation path with
  | Some err => Fatal (Error_String err)
  | None => skip
  end.

(** [copyFile]: an error of the copy ends the tool, one of the last close is
    dropped. *)
Definition copyFile (oldFilePath newFilePath : string) : go FS () :=
  io "open" oldFilePath;;
  fs ← get;
  match fs !! oldFilePath with
  | None => Fatal ("open " +:+ oldFilePath +:+ ": no such file or directory")
  | Some content =>
      io "create" newFilePath;;
      modify <[newFilePath := []]>;;
      fs ← get;
      io "copy" newFilePath;;
      modify <[newFilePath := stored disk newFilePath (default [] (fs !! oldFilePath))]>
  end.

Definition moveFile (oldFilePath newFilePath : string) : go FS () :=
  copyFile oldFilePath newFilePath;;
  io "remove" oldFilePath;;
  fs ← get;
  match fs !! oldFilePath with
  | None => Fatal ("remove " +:+ oldFilePath +:+ ": no such file or directory")
  | Some _ => modify (delete oldFilePath)
  end.
End Files.

(** ** Generation *)

Record TestCertAndKey (key : Type) := mkTestCertAndKey {
  CertFile : string;
  KeyFile : string;
  Cert : x509_Certificate;
  privateKey : key
}.
Arguments mkTestCertAndKey {key}. Arguments CertFile {key}. Arguments KeyFile {key}.
Arguments Cert {key}. Arguments privateKey {key}.

(** The flags of the command. *)
Record Flags := mkFlags {
  sANIPAddress : string;
  sANDomainName : string;
  clientCaName : string;
  serverIDs : string;
  clientIDs : string;
  directory : string;
  CertValidity : Z
}.

(** [loadFlag]: the defaults. *)
Definition loadFlag (path : string) : Flags :=
  mkFlags "" "" "Tesla Motors Products CA" "app" "device-1" path (365 * 24).

(** What the tool calls: random keys and numbers below a limit, the readings of
    the clock (each given the files there are, so that later ones may differ),
    signing and parsing, the PEM encoding, and temporary files. *)
Record Crypto (key : Type) := mkCrypto {
  GenerateKey : FS -> result key;
  rand_Int : FS -> Z -> result Z;
  CreateCertificate : x509_Certificate -> x509_Certificate -> key -> key -> result bytes;
  ParseCertificate : bytes -> result x509_Certificate;
  pem : string -> bytes -> bytes;
  MarshalPKCS1PrivateKey : key -> bytes;
  CreateTemp : FS -> string -> result string;
  ParseIP : string -> option string;
  time_Now : FS -> nat -> Z
}.
Arguments GenerateKey {key}. Arguments rand_Int {key}. Arguments CreateCertificate {key}. Arguments ParseCertificate {key}.
Arguments pem {key}. Arguments MarshalPKCS1PrivateKey {key}. Arguments CreateTemp {key}.
Arguments ParseIP {key}. Arguments time_Now {key}.

Section Generation.
Context {key : Type}.
Variable C : Crypto key.
Variable disk : Disk.

Definition GenerateSerialNumber (fs : FS) : result Z := rand_Int C fs (Z.shiftl 1 128).

Definition GeneratePrivateKeyAndSerialNumber (fs : FS) : result (key * Z) :=
  privateKey ← GenerateKey C fs;
  serialNumber ← GenerateSerialNumber fs;
  Ok (privateKey, serialNumber).

(** A file with a fresh name; the errors of [pem.Encode] and [Close] are dropped. *)
Definition write_temp (pattern : string) (content : bytes) : go FS (result string) :=
  fs ← get;
  match CreateTemp C fs pattern with
  | Err err => mret (Err err)
  | Ok name => modify <[name := stored disk name content]>;; mret (Ok name)
  end.

Definition makeTestCertAndKey (privateKey : key) (template parent : x509_Certificate)
    (parentPrivateKey : key) : go FS (result (TestCertAndKey key)) :=
  match CreateCertificate C template parent privateKey parentPrivateKey with
  | Err err => mret (Err err)
  | Ok derBytes =>
      match ParseCertificate C derBytes with
      | Err err => mret (Err err)
      | Ok fullCert =>
          certOut ← write_temp "cert" (pem C "CERTIFICATE" derBytes);
          match certOut with
          | Err err => mret (Err err)
          | Ok certOut =>
              keyOut ← write_temp "key" (pem C "RSA PRIVATE KEY" (MarshalPKCS1PrivateKey C privateKey));
              match keyOut with
              | Err err => mret (Err err)
              | Ok keyOut => mret (Ok (mkTestCertAndKey certOut keyOut fullCert privateKey))
              end
          end
      end
  end.

Definition GenerateServerTestKeyAndCertWithDate (CertValidity : Z) (commonName : string)
    (sanDomains sanIPs : list string) (parent : TestCertAndKey key) (notBefore : Z)
  : go FS (result (TestCertAndKey key)) :=
  fs ← get;
  match GeneratePrivateKeyAndSerialNumber fs with
  | Err err => mret (Err err)
  | Ok (privateKey_, serialNumber) =>
      makeTestCertAndKey privateKey_
        (server_template (ParseIP C) CertValidity serialNumber commonName sanDomains sanIPs notBefore)
        (Cert parent) (privateKey parent)
  end.

Definition GenerateServerTestKeyAndCert (CertValidity : Z) (commonName : string)
    (sanDomains sanIPs : list string) (parent : TestCertAndKey key) : go FS (result (TestCertAndKey key)) :=
  fs ← get;
  GenerateServerTestKeyAndCertWithDate CertValidity commonName sanDomains sanIPs parent (time_Now C fs 0).

Definition GenerateRootSigningCert (CertValidity : Z) (commonName : string)
    (organizationalUnit : list string) : go FS (result (TestCertAndKey key)) :=
  fs ← get;
  match GeneratePrivateKeyAndSerialNumber fs with
  | Err err => mret (Err err)
  | Ok (privateKey, serialNumber) =>
      let template :=
        root_template CertValidity serialNumber commonName organizationalUnit (time_Now C fs 0) (time_Now C fs 1) in
      makeTestCertAndKey privateKey template template privateKey
  end.

Definition GenerateClientTestKeyAndCertWithDate (CertValidity : Z) (commonName : string)
    (parent : TestCertAndKey key) (notBefore : Z) : go FS (result (TestCertAndKey key)) :=
  fs ← get;
  match GeneratePrivateKeyAndSerialNumber fs with
  | Err err => mret (Err err)
  | Ok (privateKey_, serialNumber) =>
      makeTestCertAndKey privateKey_ (client_template CertValidity serialNumber commonName notBefore)
        (Cert parent) (privateKey parent)
  end.

Definition GenerateClientTestKeyAndCert (CertValidity : Z) (commonName : string)
    (parent : TestCertAndKey key) : go FS (result (TestCertAndKey key)) :=
  fs ← get;
  GenerateClientTestKeyAndCertWithDate CertValidity commonName parent (time_Now C fs 0).

Definition GenerateClientTestKeyAndCertWithOU (CertValidity : Z)
    (commonName organization organizationalUnit : string) (parent : TestCertAndKey key)
  : go FS (result (TestCertAndKey key)) :=
  fs ← get;
  match GeneratePrivateKeyAndSerialNumber fs with
  | Err err => mret (Err err)
  | Ok (privateKey_, serialNumber) =>
      makeTestCertAndKey privateKey_
        (client_template_with_OU CertValidity serialNumber commonName organization organizationalUnit
           (time_Now C fs 0) (time_Now C fs 1))
        (Cert parent) (privateKey parent)
  end.

Definition SaveCerts (t : TestCertAndKey key) (directory name : string) : go FS () :=
  if String.eqb directory "" then skip
  else
    moveFile disk (CertFile t) (directory +:+ name +:+ ".cert");;
    moveFile disk (KeyFile t) (directory +:+ name +:+ ".key").

(** ** The command (tools/main.go) *)

(** The parts of a certificate that identify it. *)
Definition identity_certificate (c : x509_Certificate) : Certificate :=
  mkCertificate (CommonName (Subject c)) (OrganizationalUnit (Subject c)) (CommonName (Issuer c))
    (x_UnknownExtKeyUsage c).

Definition file_name (clientType clientName : string) : string :=
  let clientType := strings.ReplaceAll1 (ToLower (TrimSuffix clientType " CA")) " " "_" in
  if String.eqb clientName "" then clientType
  else clientType +:+ "." +:+ (if HasSuffix clientName " CA" then "CA" else clientName).

Definition getCertFilename (cert : x509_Certificate) : go FS string :=
  match CreateIdentityFromCert (identity_certificate cert) with
  | Err _ | Ok (EmptyString, _) => Fatal "invalid certificate type"
  | Ok (clientType, clientName) => mret (file_name clientType clientName)
  end.

Definition save (t : TestCertAndKey key) (directory : string) : go FS () :=
  name ← getCertFilename (Cert t);
  SaveCerts t directory name.

(** [makeCertDir]: [missing] is the answer of [Stat]. *)
Definition makeCertDir (missing : bool) (dirPath : string) : go FS () :=
  if missing then io disk "mkdir" dirPath else skip.

Definition generateCertificateBundle (f : Flags) : go FS () :=
  generated ← GenerateRootSigningCert (CertValidity f) (clientCaName f) [];
  rootCA ← try_ generated;
  let ips := strings.TrimSpace (sANIPAddress f) in
  let sanIPs := if String.eqb ips "" then [] else Split ips "," in
  let sanDomains := Split (sANDomainName f) "," in
  for_range (fun iServerID =>
    generated ← GenerateServerTestKeyAndCert (CertValidity f) iServerID sanDomains sanIPs rootCA;
    serverCert ← try_ generated;
    save serverCert (directory f)) (Split (serverIDs f) ",");;
  for_range (fun iClientID =>
    generated ← GenerateClientTestKeyAndCert (CertValidity f) iClientID rootCA;
    clientCert ← try_ generated;
    save clientCert (directory f)) (Split (clientIDs f) ",");;
  save rootCA (directory f).

Definition testCertsDirectory : string := "/test/integration/test-certs/".

(** [main], with what [flag.Parse] makes of the defaults. *)
Definition main (Getwd : result string) (parse : Flags -> Flags) (missing : string -> bool) : go FS () :=
  currentDir ← try_ Getwd;
  let f := parse (loadFlag (currentDir +:+ testCertsDirectory)) in
  makeCertDir (missing (directory f)) (directory f);;
  generateCertificateBundle f.
End Generation.

(** ** What the code relies on *)

Class CryptoSpec {key : Type} (C : Crypto key) (directory : string) : Prop := {
  (** A signed certificate has the subject of its template, the subject of its
      parent as issuer, and the template's unknown key usages. *)
  Parse_signed template parent k pk der cert :
    CreateCertificate C template parent k pk = Ok der -> ParseCertificate C der = Ok cert ->
    Subject cert = Subject template /\ Issuer cert = Subject parent /\
    x_UnknownExtKeyUsage cert = x_UnknownExtKeyUsage template;
  (** A temporary file is new, and not one of those in the directory. *)
  CreateTemp_fresh fs pattern name :
    CreateTemp C fs pattern = Ok name -> fs !! name = None /\ forall x, name <> directory +:+ x
}.

(** ** Lemmas *)

(** The steps of a computation that returned. *)
Lemma go_bind_Ret {S A B} (c : go S A) (f : A -> go S B) s b s' :
  (c ≫= f) s = (Ret b, s') -> exists a s1, c s = (Ret a, s1) /\ f a s1 = (Ret b, s').
Proof.
  unfold mbind, go_bind. destruct (c s) as [[a|why] s1]; [|done]. by exists a, s1.
Qed.

Lemma app_last_neq a b s t :
  List.last (list_ascii_of_string s) "a"%char%char <> List.last (list_ascii_of_string t) "a"%char ->
  s <> "" -> t <> "" -> a +:+ s <> b +:+ t.
Proof.
  intros Hlast Hs Ht H. apply Hlast.
  assert (Hl : forall x y, y <> "" -> List.last (list_ascii_of_string (x +:+ y)) "a"%char =
    List.last (list_ascii_of_string y) "a"%char).
  { clear. intros x y Hy. induction x as [|c x IH]; [done|].
    change (list_ascii_of_string (String c x +:+ y)) with (c :: list_ascii_of_string (x +:+ y)).
    rewrite <- IH. destruct (x +:+ y) eqn:E; [|done].
    by destruct x; [destruct y|]. }
  rewrite <- (Hl a s Hs), <- (Hl b t Ht). by f_equal; f_equal.
Qed.

Lemma cert_key_distinct dir a b : dir +:+ a +:+ ".cert" <> dir +:+ b +:+ ".key".
Proof. rewrite <- !append_assoc. by apply app_last_neq. Qed.

#[local] Transparent lift.

Section Moves.
Variable disk : Disk.

(** No write or close fails where the code drops its error. *)
Definition intact : Prop := forall path content, short disk path content = None.

Lemma stored_intact path content : intact -> stored disk path content = content.
Proof. intros H. unfold stored. by rewrite H. Qed.

Lemma stored_prefix path content : stored disk path content `prefix_of` content.
Proof. unfold stored. case_match; [apply prefix_take|done]. Qed.

(** A file holds a content: a prefix of it, and all of it if no error was
    dropped. *)
Definition holds (fs : FS) (path : string) (content : bytes) : Prop :=
  exists b, fs !! path = Some b /\ b `prefix_of` content /\ (intact -> b = content).

Lemma holds_insert fs path content :
  holds (<[path := stored disk path content]> fs) path content.
Proof.
  eexists. split; [apply lookup_insert_eq|]. split; [apply stored_prefix|apply stored_intact].
Qed.

Lemma holds_insert_from fs path b content :
  b `prefix_of` content -> (intact -> b = content) ->
  holds (<[path := stored disk path b]> fs) path content.
Proof.
  intros Hb Hi. eexists. split; [apply lookup_insert_eq|]. split.
  - etransitivity; [apply stored_prefix|done].
  - intros H. rewrite stored_intact by done. by apply Hi.
Qed.

Lemma holds_lookup fs fs' path content :
  fs' !! path = fs !! path -> holds fs path content -> holds fs' path content.
Proof. intros E (b & Hb & H). exists b. by rewrite E. Qed.

Lemma holds_weaken fs fs' path content : fs ⊆ fs' -> holds fs path content -> holds fs' path content.
Proof. intros Hsub (b & Hb & H). exists b. split; [by eapply lookup_weaken|done]. Qed.

Lemma io_Ret op path fs u fs' : io disk op path fs = (Ret u, fs') -> fs' = fs.
Proof. unfold io. destruct (io_error disk op path); [done|]. by intros [= <-]. Qed.

Lemma copyFile_Ret old new a fs u fs' :
  fs !! old = Some a -> old <> new -> copyFile disk old new fs = (Ret u, fs') ->
  fs' = <[new := stored disk new a]> fs.
Proof.
  intros Ha Hne H. unfold copyFile in H.
  apply go_bind_Ret in H as (? & ? & ->%io_Ret & H).
  apply go_bind_Ret in H as (? & ? & [= <- <-] & H). rewrite Ha in H.
  apply go_bind_Ret in H as (? & ? & ->%io_Ret & H).
  apply go_bind_Ret in H as (? & ? & [= <- <-] & H).
  apply go_bind_Ret in H as (? & ? & [= <- <-] & H).
  apply go_bind_Ret in H as (? & ? & ->%io_Ret & H). injection H as _ <-.
  rewrite lookup_insert_ne, Ha by done. cbn. by rewrite insert_insert_eq.
Qed.

Lemma moveFile_Ret old new a fs u fs' :
  fs !! old = Some a -> old <> new -> moveFile disk old new fs = (Ret u, fs') ->
  fs' = delete old (<[new := stored disk new a]> fs).
Proof.
  intros Ha Hne H. unfold moveFile in H.
  apply go_bind_Ret in H as (? & ? & H1 & H). apply (copyFile_Ret _ _ _ _ _ _ Ha Hne) in H1 as ->.
  apply go_bind_Ret in H as (? & ? & ->%io_Ret & H).
  apply go_bind_Ret in H as (? & ? & [= <- <-] & H).
  rewrite lookup_insert_ne, Ha in H by done. by injection H as _ <-.
Qed.
End Moves.

Section Bundle.
Context {key : Type} (C : Crypto key) (dir : string) {CS : CryptoSpec C dir}.
Variable disk : Disk.
Hypothesis dir_set : dir <> "".

Definition cert_path (name : string) : string := dir +:+ name +:+ ".cert".
Definition key_path (name : string) : string := dir +:+ name +:+ ".key".

(** The files of a name hold a certificate of that name, and the private key it
    was signed for. *)
Definition saved (fs : FS) (name : string) (cert : x509_Certificate) : Prop :=
  exists template parent k parent_key der,
    CreateCertificate C template parent k parent_key = Ok der /\ ParseCertificate C der = Ok cert /\
    holds disk fs (cert_path name) (pem C "CERTIFICATE" der) /\
    holds disk fs (key_path name) (pem C "RSA PRIVATE KEY" (MarshalPKCS1PrivateKey C k)).

(** What is generated and not saved yet. *)
Definition pending (fs : FS) (t : TestCertAndKey key) (template parent : x509_Certificate) : Prop :=
  CertFile t <> KeyFile t /\ (forall x, CertFile t <> dir +:+ x) /\ (forall x, KeyFile t <> dir +:+ x) /\
  exists parent_key der, CreateCertificate C template parent (privateKey t) parent_key = Ok der /\
    ParseCertificate C der = Ok (Cert t) /\
    holds disk fs (CertFile t) (pem C "CERTIFICATE" der) /\
    holds disk fs (KeyFile t) (pem C "RSA PRIVATE KEY" (MarshalPKCS1PrivateKey C (privateKey t))).

Lemma write_temp_Ret pattern content fs name fs' :
  write_temp C disk pattern content fs = (Ret (Ok name), fs') ->
  fs' = <[name := stored disk name content]> fs /\ fs !! name = None /\ forall x, name <> dir +:+ x.
Proof.
  intros H. unfold write_temp in H. apply go_bind_Ret in H as (? & ? & [= <- <-] & H).
  destruct (CreateTemp C fs pattern) as [n|] eqn:E; [|done]. injection H as -> <-.
  split; [done|]. by apply (CreateTemp_fresh _ _ _ E).
Qed.

Lemma makeTestCertAndKey_Ret k template parent pk fs t fs' :
  makeTestCertAndKey C disk k template parent pk fs = (Ret (Ok t), fs') ->
  pending fs' t template parent /\ fs ⊆ fs' /\ (forall x, fs' !! (dir +:+ x) = fs !! (dir +:+ x)) /\
  fs !! CertFile t = None /\ fs !! KeyFile t = None.
Proof.
  unfold makeTestCertAndKey. destruct (CreateCertificate C template parent k pk) as [der|] eqn:Hder; [|done].
  destruct (ParseCertificate C der) as [cert|] eqn:Hcert; [|done].
  intros (r1 & fs1 & H1 & H)%go_bind_Ret. destruct r1 as [cf|]; [|done].
  apply go_bind_Ret in H as (r2 & fs2 & H2 & H). destruct r2 as [kf|]; [|done]. injection H as <- <-.
  apply write_temp_Ret in H1 as (-> & Hcf & Hcd). apply write_temp_Ret in H2 as (-> & Hkf & Hkd).
  assert (Hne : cf <> kf) by (intros ->; by rewrite lookup_insert_eq in Hkf).
  rewrite lookup_insert_ne in Hkf by done. unfold pending. cbn. split; [|split; [|split; [|done]]].
  - split_and!; [done..|]. exists pk, der. split_and!; [done..| |apply holds_insert].
    eapply holds_lookup; [|apply (holds_insert disk fs)]. by rewrite lookup_insert_ne.
  - etransitivity; apply insert_subseteq; [exact Hcf|]. by rewrite lookup_insert_ne.
  - intros x. by rewrite !lookup_insert_ne by naive_solver.
Qed.

(** The name a certificate is saved under. *)
Definition saved_name (cert : x509_Certificate) (name : string) : Prop :=
  exists ty id, CreateIdentityFromCert (identity_certificate cert) = Ok (ty, id) /\ name = file_name ty id.

Lemma getCertFilename_Ret cert fs name fs' :
  getCertFilename cert fs = (Ret name, fs') ->
  exists ty id, CreateIdentityFromCert (identity_certificate cert) = Ok (ty, id) /\
    name = file_name ty id /\ fs' = fs.
Proof.
  unfold getCertFilename. destruct (CreateIdentityFromCert _) as [[[|a ty] id]|]; [discriminate| |discriminate].
  intros H. exists (String a ty), id. split; [reflexivity|].
  generalize dependent (file_name (String a ty) id). intros n H. injection H as <- <-. by split.
Qed.

Lemma save_Ret t template parent fs u fs' :
  pending fs t template parent -> save disk t dir fs = (Ret u, fs') ->
  exists name, saved_name (Cert t) name /\ saved fs' name (Cert t) /\
    (forall path, path <> cert_path name -> path <> key_path name -> path <> CertFile t ->
       path <> KeyFile t -> fs' !! path = fs !! path).
Proof.
  intros (Hne & Hcd & Hkd & pk & der & Hder & Hcert & (c & Hc & Hcp & Hci) & (k & Hk & Hkp & Hki)) H.
  unfold save in H.
  apply go_bind_Ret in H as (name & fs1 & Hname & H).
  apply getCertFilename_Ret in Hname as (ty & id & Hid & -> & ->).
  exists (file_name ty id). split; [exact (ex_intro _ ty (ex_intro _ id (conj Hid eq_refl)))|]. clear Hid. unfold SaveCerts in H.
  destruct (String.eqb_spec dir ""); [done|].
  apply go_bind_Ret in H as (u1 & fs1 & H1 & H2).
  apply (moveFile_Ret _ _ _ _ _ _ _ Hc) in H1; [|apply Hcd]. fold (cert_path (file_name ty id)) in H1.
  fold (key_path (file_name ty id)) in H2. set (name := file_name ty id) in *. clearbody name.
  assert (Hck : cert_path name <> key_path name) by apply cert_key_distinct.
  assert (cert_path name <> KeyFile t) by (intros E; by destruct (Hkd (name +:+ ".cert"))).
  assert (Hk' : fs1 !! KeyFile t = Some k)
    by (rewrite H1, lookup_delete_ne, lookup_insert_ne by done; done).
  apply (moveFile_Ret _ _ _ _ _ _ _ Hk') in H2; [|apply Hkd]. subst fs1 fs'. split.
  - exists template, parent, (privateKey t), pk, der. split_and!; [done..| |].
    + eapply holds_lookup; [|by apply (holds_insert_from disk fs _ c)].
      by rewrite lookup_delete_ne, lookup_insert_ne, lookup_delete_ne by (first [done|apply Hcd]).
    + eapply holds_lookup; [|by apply (holds_insert_from disk fs _ k)].
      by rewrite lookup_delete_ne, !lookup_insert_eq by apply Hkd.
  - intros path Hp1 Hp2 Hp3 Hp4.
    by rewrite lookup_delete_ne, lookup_insert_ne, lookup_delete_ne, lookup_insert_ne by done.
Qed.

(** A name is available when its files are those of a certificate of that name. *)
Definition available (fs : FS) (name : string) : Prop :=
  exists cert, saved fs name cert /\ saved_name cert name.

Lemma append_inj_l a b c : a +:+ b = a +:+ c -> b = c.
Proof. induction a as [|x a IH]; [done|]. rewrite !append_cons. by intros [= H%IH]. Qed.

Lemma list_ascii_app a b : list_ascii_of_string (a +:+ b) = (list_ascii_of_string a ++ list_ascii_of_string b)%list.
Proof. induction a as [|c a IH]; [done|]. rewrite append_cons. cbn. by f_equal. Qed.

Lemma append_inj_r a b c : a +:+ c = b +:+ c -> a = b.
Proof.
  intros H%(f_equal list_ascii_of_string). rewrite !list_ascii_app in H. apply app_inv_tail in H.
  rewrite <- (string_of_list_ascii_of_string a), H. apply string_of_list_ascii_of_string.
Qed.

Lemma cert_path_inj a b : cert_path a = cert_path b -> a = b.
Proof. by intros H%append_inj_l%append_inj_r. Qed.
Lemma key_path_inj a b : key_path a = key_path b -> a = b.
Proof. by intros H%append_inj_l%append_inj_r. Qed.

(** Saving one certificate keeps the names that were available, and what is
    pending in other files. *)
Lemma save_available t template parent fs u fs' :
  pending fs t template parent -> save disk t dir fs = (Ret u, fs') ->
  exists name, saved_name (Cert t) name /\ available fs' name /\
    (forall other, available fs other -> available fs' other) /\
    (forall t' template' parent', pending fs t' template' parent' ->
       CertFile t' ∉ [CertFile t; KeyFile t] -> KeyFile t' ∉ [CertFile t; KeyFile t] ->
       pending fs' t' template' parent').
Proof.
  intros Hp Hsave. destruct (save_Ret _ _ _ _ _ _ Hp Hsave) as (name & Hname & Hsaved & Hrest).
  destruct Hp as (_ & Hcd & Hkd & _). exists name. split; [exact Hname|].
  split; [exists (Cert t); split; [exact Hsaved|exact Hname]|]. split.
  - intros other (cert & (tm & pa & k & pk & der & H1 & H2 & H3 & H4) & Hn).
    destruct (decide (other = name)) as [->|Hne]; [exists (Cert t); split; [exact Hsaved|exact Hname]|].
    exists cert. split; [|exact Hn]. exists tm, pa, k, pk, der. split; [exact H1|]. split; [exact H2|].
    split; (eapply holds_lookup; [apply Hrest|eassumption]).
    + intros E. by apply Hne, cert_path_inj.
    + apply cert_key_distinct.
    + intros E. by apply (Hcd (other +:+ ".cert")).
    + intros E. by apply (Hkd (other +:+ ".cert")).
    + intros E. symmetry in E. by apply cert_key_distinct in E.
    + intros E. by apply Hne, key_path_inj.
    + intros E. by apply (Hcd (other +:+ ".key")).
    + intros E. by apply (Hkd (other +:+ ".key")).
  - intros t' tm' pa' (Hne' & Hcd' & Hkd' & pk & der & H1 & H2 & H3 & H4) Hc Hk.
    rewrite !not_elem_of_cons in Hc, Hk. destruct Hc as (Hc1 & Hc2 & _), Hk as (Hk1 & Hk2 & _).
    split; [exact Hne'|]. split; [exact Hcd'|]. split; [exact Hkd'|].
    exists pk, der. split; [exact H1|]. split; [exact H2|].
    split; (eapply holds_lookup; [apply Hrest|eassumption]); first [apply Hcd'|apply Hkd'|done].
Qed.

(** One round of the tool: a certificate is made and saved. *)
Lemma round_available k template root root_template fs u fs' :
  pending fs root root_template root_template ->
  (generated ← makeTestCertAndKey C disk k template (Cert root) (privateKey root);
   cert ← try_ generated; save disk cert dir) fs = (Ret u, fs') ->
  pending fs' root root_template root_template /\
  (forall other, available fs other -> available fs' other) /\
  exists cert name, Subject cert = Subject template /\ Issuer cert = Subject (Cert root) /\
    x_UnknownExtKeyUsage cert = x_UnknownExtKeyUsage template /\ saved_name cert name /\ available fs' name.
Proof.
  intros Hroot H. apply go_bind_Ret in H as (r & fs1 & Hmake & H).
  apply go_bind_Ret in H as (t & fs2 & Ht & H). destruct r as [t0|err]; [|discriminate Ht].
  injection Ht as -> ->.
  destruct (makeTestCertAndKey_Ret _ _ _ _ _ _ _ Hmake) as (Hp & Hsub & Hdir & Hcn & Hkn).
  destruct (save_available _ _ _ _ _ _ Hp H) as (name & Hname & Hav & Hkeep & Hothers).
  pose proof Hroot as (_ & _ & _ & pk & der & _ & _ & (? & H3 & _) & (? & H4 & _)).
  assert (Hroot' : pending fs2 root root_template root_template).
  { destruct Hroot as (A & B & D & pk' & der' & H1' & H2' & H3' & H4').
    split; [exact A|]. split; [exact B|]. split; [exact D|]. exists pk', der'.
    split; [exact H1'|]. split; [exact H2'|]. by split; eapply holds_weaken. }
  split; [|split].
  - apply (Hothers _ _ _ Hroot'); rewrite !not_elem_of_cons; split_and!;
      try (intros E; rewrite E in *; congruence); by intros ?%elem_of_nil.
  - intros other (cert & (tm & pa & k' & pk' & der' & A & B & D & E) & Hn). apply Hkeep.
    exists cert. split; [|exact Hn]. exists tm, pa, k', pk', der'.
    split; [exact A|]. split; [exact B|]. unfold cert_path, key_path in *.
    split; eapply holds_lookup; eauto.
  - destruct Hp as (_ & _ & _ & pk' & der' & Hder & Hparse & _).
    destruct (Parse_signed _ _ _ _ _ _ Hder Hparse) as (Hs & Hi & Hu).
    exists (Cert t), name. by split_and!.
Qed.

(** The name the identity of a certificate gives its files. *)
Definition named (ca cn : string) (ous : list string) (name : string) : Prop :=
  exists ty id, CreateIdentityFromCert (mkCertificate cn ous ca []) = Ok (ty, id) /\ name = file_name ty id.

Definition client_units (cn : string) : list string :=
  if strings.HasPrefix cn "board" then ["Tesla Motors SN"] else [].

Section Rounds.
Variable f : Flags.
Variable root : TestCertAndKey key.
Variable tm : x509_Certificate.
Hypothesis root_name : Subject (Cert root) = mkName (clientCaName f) ["Test Co"] [].

(** What a round does to the files. *)
Definition round_ok (cn : string) (ous : list string) (c : go FS ()) : Prop :=
  forall fs u fs', pending fs root tm tm -> c fs = (Ret u, fs') ->
    pending fs' root tm tm /\ (forall other, available fs other -> available fs' other) /\
    exists name, named (clientCaName f) cn ous name /\ available fs' name.

Lemma round_ok_template cn ous (template : FS -> Z -> x509_Certificate) (c : go FS (result (TestCertAndKey key))) :
  (forall fs serial, Subject (template fs serial) = mkName cn ["Test Co"] ous /\
                     x_UnknownExtKeyUsage (template fs serial) = []) ->
  (forall fs, c fs = match GeneratePrivateKeyAndSerialNumber C fs with
                     | Err err => (Ret (Err err), fs)
                     | Ok (k, serial) => makeTestCertAndKey C disk k (template fs serial) (Cert root) (privateKey root) fs
                     end) ->
  round_ok cn ous (generated ← c; cert ← try_ generated; save disk cert dir).
Proof.
  intros Ht Hc fs u fs' Hp H. apply go_bind_Ret in H as (r & fs1 & Hmake & H). rewrite Hc in Hmake.
  destruct (GeneratePrivateKeyAndSerialNumber C fs) as [[k serial]|err].
  2: { injection Hmake as <- <-. apply go_bind_Ret in H as (t & fs2 & Ht' & _). discriminate Ht'. }
  assert (Hround : (generated ← makeTestCertAndKey C disk k (template fs serial) (Cert root) (privateKey root);
      cert ← try_ generated; save disk cert dir) fs = (Ret u, fs')).
  { unfold mbind at 1, go_bind at 1. rewrite Hmake. exact H. }
  destruct (round_available _ _ _ _ _ _ _ Hp Hround) as (Hp' & Hkeep & cert & name & Hs & Hi & Hu & Hn & Hav).
  split; [exact Hp'|]. split; [exact Hkeep|]. exists name. split; [|exact Hav].
  destruct Hn as (ty & id & Hid & Hname). exists ty, id. split; [|exact Hname].
  destruct (Ht fs serial) as [Hsub Hunk]. unfold identity_certificate in Hid.
  rewrite Hs, Hi, Hu, Hsub, Hunk, root_name in Hid. exact Hid.
Qed.

Lemma server_round cn sanDomains sanIPs :
  round_ok cn [] (generated ← GenerateServerTestKeyAndCert C disk (CertValidity f) cn sanDomains sanIPs root;
                  cert ← try_ generated; save disk cert dir).
Proof.
  apply (round_ok_template cn [] (fun fs serial =>
    server_template (ParseIP C) (CertValidity f) serial cn sanDomains sanIPs (time_Now C fs 0))).
  - intros fs serial. by split.
  - intros fs. unfold GenerateServerTestKeyAndCert, GenerateServerTestKeyAndCertWithDate, mbind, go_bind, get.
    by destruct (GeneratePrivateKeyAndSerialNumber C fs) as [[]|].
Qed.

Lemma client_round cn :
  round_ok cn (client_units cn) (generated ← GenerateClientTestKeyAndCert C disk (CertValidity f) cn root;
                                 cert ← try_ generated; save disk cert dir).
Proof.
  apply (round_ok_template cn (client_units cn) (fun fs serial =>
    client_template (CertValidity f) serial cn (time_Now C fs 0))).
  - intros fs serial. by split.
  - intros fs. unfold GenerateClientTestKeyAndCert, GenerateClientTestKeyAndCertWithDate, mbind, go_bind, get.
    by destruct (GeneratePrivateKeyAndSerialNumber C fs) as [[]|].
Qed.

Lemma for_range_round (units : string -> list string) (c : string -> go FS ()) ids fs u fs' :
  (forall cn, round_ok cn (units cn) (c cn)) -> pending fs root tm tm ->
  for_range c ids fs = (Ret u, fs') ->
  pending fs' root tm tm /\ (forall other, available fs other -> available fs' other) /\
  forall cn, cn ∈ ids -> exists name, named (clientCaName f) cn (units cn) name /\ available fs' name.
Proof.
  intros Hc. revert fs u. induction ids as [|cn ids IH]; intros fs u Hp H; cbn [for_range] in H.
  - injection H as _ <-. split; [exact Hp|]. split; [done|]. by intros cn ?%elem_of_nil.
  - apply go_bind_Ret in H as (u1 & fs1 & H1 & H2).
    destruct (Hc cn fs u1 fs1 Hp H1) as (Hp1 & Hk1 & name & Hn & Hav).
    destruct (IH fs1 u Hp1 H2) as (Hp2 & Hk2 & Hall). split; [exact Hp2|]. split; [by auto|].
    intros cn' [->|Hin]%elem_of_cons; [|by apply Hall]. exists name. split; [exact Hn|by apply Hk2].
Qed.
End Rounds.
End Bundle.

(** C34: when the tool completes, every certificate it was asked for has its
    files: for each server and client id, and for the authority, the files named
    after the identity the server would give that certificate hold a certificate
    of that identity and the private key it was signed for.  They hold them
    whole when no write or close failed whose error the tool drops, and a
    beginning of them otherwise: the tool does not notice ([truncated_bundle]). *)
Theorem bundle_available {key : Type} (C : Crypto key) (f : Flags) (disk : Disk)
    {CS : CryptoSpec C (directory f)} fs fs' :
  directory f <> "" -> generateCertificateBundle C disk f fs = (Ret (), fs') ->
  (forall cn, cn ∈ Split (serverIDs f) "," ->
     exists name, named (clientCaName f) cn [] name /\ available C (directory f) disk fs' name) /\
  (forall cn, cn ∈ Split (clientIDs f) "," ->
     exists name, named (clientCaName f) cn (client_units cn) name /\ available C (directory f) disk fs' name) /\
  (exists name, named (clientCaName f) (clientCaName f) [] name /\ available C (directory f) disk fs' name).
Proof.
  intros Hdir H. unfold generateCertificateBundle in H.
  apply go_bind_Ret in H as (r & fs1 & Hroot & H).
  apply go_bind_Ret in H as (root & fs2 & Htry & H). destruct r as [r|err]; [|discriminate Htry].
  injection Htry as -> ->.
  unfold GenerateRootSigningCert in Hroot. apply go_bind_Ret in Hroot as (? & ? & [= <- <-] & Hroot).
  destruct (GeneratePrivateKeyAndSerialNumber C fs) as [[k serial]|err]; [|discriminate Hroot].
  set (tm := root_template _ _ _ _ _ _) in Hroot.
  pose proof Hroot as Hp. apply (makeTestCertAndKey_Ret C (directory f) disk) in Hp as (Hp & _).
  assert (Hca : Subject (Cert root) = mkName (clientCaName f) ["Test Co"] [] /\
                Issuer (Cert root) = mkName (clientCaName f) ["Test Co"] [] /\
                x_UnknownExtKeyUsage (Cert root) = []).
  { destruct Hp as (_ & _ & _ & pk & der & Hder & Hparse & _).
    destruct (Parse_signed _ _ _ _ _ _ Hder Hparse) as (-> & -> & ->). by split_and!. }
  destruct Hca as (Hsub & Hiss & Hunk).
  apply go_bind_Ret in H as (u1 & fs3 & H1 & H).
  apply go_bind_Ret in H as (u2 & fs4 & H2 & H3).
  apply (for_range_round C (directory f) disk f root tm (fun _ => [])) in H1 as (Hp1 & _ & Hservers);
    [|intros cn; apply server_round; assumption|exact Hp].
  apply (for_range_round C (directory f) disk f root tm client_units) in H2 as (Hp2 & Hk2 & Hclients);
    [|intros cn; apply client_round; assumption|exact Hp1].
  destruct (save_available C (directory f) disk Hdir _ _ _ _ _ _ Hp2 H3) as (name & Hname & Hav & Hk3 & _).
  split; [|split].
  - intros cn Hcn. destruct (Hservers cn Hcn) as (n & Hn & Ha). exists n. split; [exact Hn|by apply Hk3, Hk2].
  - intros cn Hcn. destruct (Hclients cn Hcn) as (n & Hn & Ha). exists n. split; [exact Hn|by apply Hk3].
  - exists name. split; [|exact Hav]. destruct Hname as (ty & id & Hid & Hname). exists ty, id.
    split; [|exact Hname]. unfold identity_certificate in Hid. rewrite Hsub, Hiss, Hunk in Hid. exact Hid.
Qed.

(** The client certificates of the default authority are accepted by the server
    as vehicles with the given id, dots aside, or as boards. *)
Lemma client_identity cn :
  CreateIdentityFromCert (mkCertificate cn (client_units cn) "Tesla Motors Products CA" []) =
  Ok (if strings.HasPrefix cn "board" then "vehicle_board_device" else "vehicle_device",
      strings.ReplaceAll1 cn "." "-").
Proof.
  unfold CreateIdentityFromCert, client_units. cbn [Issuer_CommonName Subject_CommonName Subject_OrganizationalUnit].
  rewrite decide_False by (vm_compute; by intros ?).
  assert (H : knownIssuers !! "Tesla Motors Products CA" = Some "vehicle_device") by (vm_compute; reflexivity).
  rewrite H. by destruct (strings.HasPrefix cn "board").
Qed.

(** Ids that differ in dots and dashes only share their files. *)
Lemma client_files_shared a b ca name name' :
  strings.ReplaceAll1 a "." "-" = strings.ReplaceAll1 b "." "-" ->
  client_units a = client_units b ->
  named ca a (client_units a) name -> named ca b (client_units b) name' -> name = name'.
Proof.
  intros Hab Hu (ty & id & H & ->) (ty' & id' & H' & ->). rewrite <- Hu in H'.
  assert (E : CreateIdentityFromCert (mkCertificate a (client_units a) ca []) =
              CreateIdentityFromCert (mkCertificate b (client_units a) ca []))
    by (unfold CreateIdentityFromCert; cbn [Subject_CommonName]; by rewrite Hab).
  rewrite E, H' in H. injection H as -> ->. reflexivity.
Qed.

(** The validity in hours, up to the largest duration; the next hour overflows. *)
Lemma end_of_validity_bounds notBefore hours :
  0 <= hours <= 2562047 -> end_of_validity notBefore hours = notBefore + hours * Hour.
Proof. intros H. unfold end_of_validity, Hour. rewrite i64_small; lia. Qed.

Lemma end_of_validity_overflows notBefore : end_of_validity notBefore 2562048 < notBefore.
Proof. unfold end_of_validity. assert (i64 (2562048 * Hour) < 0) by (vm_compute; reflexivity). lia. Qed.

(** The default flags: a year of validity, and one empty DNS name. *)
Lemma default_server_names path parse serial cn now :
  DNSNames (server_template parse (CertValidity (loadFlag path)) serial cn
    (Split (sANDomainName (loadFlag path)) ",") [] now) = [cn; ""] /\
  CertValidity (loadFlag path) = 365 * 24.
Proof. by split. Qed.

(** *** A concrete tool

    Certificates are encoded as the bits of their names, keys are strings, and a
    temporary file has a name longer than all others. *)
Fixpoint bits (p : positive) : bytes :=
  match p with xH => [] | xO p => Byte.x00 :: bits p | xI p => Byte.x01 :: bits p end.

Fixpoint of_bits (b : bytes) : positive :=
  match b with [] => xH | Byte.x00 :: b => xO (of_bits b) | _ :: b => xI (of_bits b) end.

Lemma of_bits_bits p : of_bits (bits p) = p.
Proof. induction p as [p IH|p IH|]; cbn; by rewrite ?IH. Qed.

Definition name_tuple (n : Name) := (CommonName n, Organization n, OrganizationalUnit n).
Definition tuple_name (t : string * list string * list string) : Name :=
  mkName t.1.1 t.1.2 t.2.

Definition longest (fs : FS) : nat := foldr Nat.max O (String.length <$> (map_to_list fs).*1).
Fixpoint xs (n : nat) : string := match n with O => "" | S n => String "x" (xs n) end.

Definition toy : Crypto string := {|
  GenerateKey := fun fs => Ok (xs (size fs));
  rand_Int := fun fs limit => Ok (Z.of_nat (size fs) mod limit);
  CreateCertificate := fun template parent _ _ =>
    Ok (bits (encode (name_tuple (Subject template), name_tuple (Subject parent), x_UnknownExtKeyUsage template)));
  ParseCertificate := fun der =>
    match decode (of_bits der) with
    | Some (s, i, u) => Ok (mkX509 0 (tuple_name s) (tuple_name i) 0 0 [] [] u false false [] [])
    | None => Err (ErrorString "malformed certificate")
    end;
  pem := fun type der => (raw type ++ der)%list;
  MarshalPKCS1PrivateKey := raw;
  CreateTemp := fun fs pattern => Ok ("/tmp/" +:+ xs (longest fs));
  ParseIP := Some;
  time_Now := fun fs n => Z.of_nat (size fs + n)
|}.

Lemma longest_bound fs k v : fs !! k = Some v -> (String.length k <= longest fs)%nat.
Proof.
  intros Hk%elem_of_map_to_list. apply (list_elem_of_fmap_2 fst) in Hk. cbn in Hk.
  unfold longest. induction ((map_to_list fs).*1) as [|x l IH]; [by apply elem_of_nil in Hk|]. cbn.
  apply elem_of_cons in Hk as [->|Hk]; [|specialize (IH Hk)]; lia.
Qed.

#[export] Instance toy_spec : CryptoSpec toy "/certs/".
Proof.
  split.
  - intros template parent k pk der cert. cbn. intros [= <-]. rewrite of_bits_bits, decode_encode.
    intros [= <-]. cbn. by destruct (Subject template), (Subject parent).
  - intros fs pattern name [= <-]. split; [|done].
    destruct (fs !! ("/tmp/" +:+ xs (longest fs))) as [v|] eqn:E; [|done].
    apply longest_bound in E. assert (H : forall n, String.length (xs n) = n) by (intros n; induction n; cbn; auto).
    change (String.length ("/tmp/" +:+ xs (longest fs))) with (5 + String.length (xs (longest fs)))%nat in E.
    rewrite H in E. lia.
Qed.

Definition good_disk : Disk := mkDisk (fun _ _ => None) (fun _ _ => None).

Definition default_bundle : outcome () * FS :=
  generateCertificateBundle toy good_disk (loadFlag "/certs/") ∅.

Lemma bundle_available_witness :
  default_bundle.1 = Ret () /\
  exists name, named "Tesla Motors Products CA" "device-1" [] name /\
    available toy "/certs/" good_disk default_bundle.2 name.
Proof.
  destruct default_bundle as [r fs'] eqn:E.
  assert (Hr : r = Ret ()) by (apply (f_equal fst) in E; vm_compute in E; exact (eq_sym E)).
  split; [exact Hr|]. subst r.
  destruct (bundle_available toy (loadFlag "/certs/") good_disk ∅ fs' ltac:(discriminate) E)
    as (_ & Hclients & _).
  exact (Hclients "device-1" ltac:(left)).
Defined.

(** On a disk that is full after one byte of every temporary file, the tool
    completes with files of one byte. *)
Definition full_disk : Disk :=
  mkDisk (fun _ _ => None) (fun path _ => if strings.HasPrefix path "/tmp/" then Some 1%nat else None).

Lemma truncated_bundle :
  let '(r, fs) := generateCertificateBundle toy full_disk (loadFlag "/certs/") ∅ in
  r = Ret () /\ (length <$> fs !! "/certs/vehicle_device.device-1.cert") = Some 1%nat /\
  (length <$> fs !! "/certs/vehicle_device.device-1.key") = Some 1%nat.
Proof. vm_compute. by split_and!. Qed.
